(* ===== verification/_CoqProject ===== *)
-Q . S2P
Prelude.v
Cmd.v
Packet.v
Machine.v
Clock.v
State.v
Spi.v
Invariant.v
RadioConfig.v
Si4463.v
Wait.v
Avr.v
Race.v
Rxtx.v
Command.v
Loop.v
Debug.v
Boot.v
OilTank.v
Monitor.v
Control.v
CtlCommand.v
CtlQueue.v
CtlFair.v
CtlRace.v
CtlInput.v
CtlMain.v
Lrmon.v
LrCommand.v
LrState.v
LrInput.v
LrMain.v
LrSilence.v
LrFeed.v
Link.v
Bringup.v
Air.v
AirLoop.v
