(* ===== verification/Prelude.v ===== *)
(** * A verification library for libradio

    libradio is the firmware library of small radio devices: an ATmega328P with a
    Si4463 transceiver on its SPI bus. The repository holds the library (src/lib,
    src/libradio.h), the controller that talks to the devices on one side and to
    a host over a serial line on the other (src/control), the daemon lrmon on the
    host (src/lrmon), a frequency monitor (src/monitor) and an example device
    that measures an oil tank (src/examples). All five programs are modelled.

    ** The model

    C code is translated function by function into commands of one monad
    (Cmd.v): a command reads and changes a state and is [Done] with a value, or
    meets a [Fault] (an access outside an array, a division by zero, a null
    pointer), or ends in a [Restart] of the processor, or is [Waiting] when it
    needs more than it was given. [wp] is total correctness (it returns, without
    a fault), [safe] allows a restart and waiting as well, [preserves] and [keeps]
    carry an invariant and a frame through a command.

    - Integers are of type [Z] and are wrapped where C converts them ([u8], [u16],
      [i16], [i32]); an [int] has 16 bits on the device and 32 on the host.
    - On the device the state is [machine D X] (Machine.v): [struct libradio] of
      internal.h, the static objects of every file, the registers the code uses,
      the LED and the slave-select pin, the serial input queue and output, and the
      interrupts still to come. [D] is the platform behind libavr (SPI, EEPROM,
      analogue inputs), a parameter with the operations of the class [Platform];
      [X] is the type of the application's own objects.
    - The timer, the radio's interrupt pin and the serial line are a list of events.
      Main-line code runs until it sleeps ([libradio_wait], wait.c); each event is
      then taken in turn and runs its handler. A wait with no event left is
      [Waiting], as is [getchar] on an empty queue. Handlers that run between two
      statements are the subject of Race.v: there the code that shares variables
      with the handlers is a [thread] of one-instruction actions, and [istep] takes
      any number of interrupts between two of them while [cli] has not disabled them.
    - A loop that polls the hardware without a limit is followed for [patience]
      passes (the class [Patience], any number) and then [Waiting]; the polls the
      code limits itself (MAX_COUNT in packet.c) keep their limit. Every other loop
      is structural or counted; the table of radio_config.h is walked with its
      length as fuel, the text of the serial line (serial.c) with its own length:
      both are shown to be enough.
    - On the host the state is [host D] (Lrmon.v): the objects of the daemon and the
      operating system [D] behind [System] (time, select, reads and writes) and, for
      the start, [Terminal] (opening and setting up the line, fork) and [Broker] (the
      client library of RabbitMQ). Leaving the program ([exit]) is [Restart]. What the
      daemon logs is left out.
    - Programs are put together through interfaces: [App] and [AppLaws] (the
      call-backs [operate], [fetch_status] and [libradio_power_mode] of an
      application and what they promise), [StockPower] (the application uses the
      library's own power mode) and [PowerLaws] (its own keeps the invariant),
      [Platform] and [PlatformLaws], [System] and [SystemLaws], [DescriptorLaws] and
      [Serving] (what holds of the descriptors, and that calls succeed). The
      controller, the tank monitor and the frequency monitor are instances of [App].

    ** The files

    - Prelude.v, Cmd.v: integers, bytes, text, record update; the monad and its rules.
    - Packet.v (libradio.h): constants, [struct packet] with its memory layout,
      [struct channel]. Machine.v (internal.h, setled.S, setss.S, locore.S).
    - Clock.v (clock.c, time.c, power_mode.c), State.v (state.c), Spi.v (packet.c),
      Invariant.v (the invariant [fw_ok] of the whole firmware: each of its objects and
      registers holds values of its type), RadioConfig.v
      (radio_config.h), Si4463.v (radio.c, power.c), Wait.v (wait.c, radio_irq.S),
      Rxtx.v (rxtx.c), Command.v (handle.c, command.c), Loop.v (init.c, loop.c and
      the definitions of debug.c), Debug.v (debug.c is safe): the library.
    - Avr.v (ioinit.S, setled.S, setss.S, testpt.S, radio_irq.S, watchdog.S, locore.S):
      the assembly files as lists of instructions, with a processor that runs them.
      Race.v: libradio_set_delay, the clock in packet.c and time.c, and libradio_wait
      against the interrupts.
    - Boot.v: the registers and the rules of the applications' start-up code.
      OilTank.v (examples/oiltank.c), Monitor.v (monitor/monitor.c).
    - Control.v (control.h and the objects of control/), CtlCommand.v (command.c),
      CtlQueue.v (enqueue.c, transmit.c), CtlFair.v (its fairness), CtlRace.v (the
      clock in transmit.c and command.c against the interrupts), CtlInput.v (input.c),
      CtlMain.v (response.c, init.c, main.c): the controller.
    - Lrmon.v (lrmon.h, timer.c), LrCommand.v (command.c and the sending half of
      serial.c), LrState.v (state.c), LrInput.v (response.c, the main loop of main.c
      and the receiving half of serial.c), LrMain.v (the rest of main.c and serial.c,
      rmq.c), LrSilence.v (the daemon when nothing arrives, with the seconds that pass
      in its main loop), LrFeed.v (serial.c over any number of reads): the daemon.
    - Link.v: the daemon and the controller on the two ends of the serial line;
      Bringup.v: the two in a loop of exchanges.
      Air.v: two nodes, and the daemon behind one of them, with a frame that one has
      put into the FIFO of its radio found by the other ([frame_waiting]).
      AirLoop.v: the same with the receiver in its main loop, waiting or asleep, and the
      frame reported by its radio after some ticks ([awaits], [sleeps]).

    A definition has the name of its C function; the arms of a long [switch] and
    the bodies of loops have names of their own, and [main] is split into what
    precedes its endless loop ([..._start]) and one pass of it ([..._pass]); [..._main n]
    is the program for [n] passes.

    ** What is shown

    - The air (Spi.v, Rxtx.v): a transmitted packet is received with the same
      content, a frame with a byte changed is rejected, other than its length, which is
      cut to ten before it is checked; sending and receiving always end, with exactly
      the stated effects.
    - The chip (Spi.v, Si4463.v): every exchange ends with one of six codes inside
      its buffer; power-up sends the 32 commands of the table or ends in ERROR.
    - Time (Clock.v, Wait.v): the time of day advances by what has passed, delays
      expire when they should, a wait ends with the first interrupt that is a reason.
    - States (State.v, Loop.v): a change of state and the switch of the main loop
      refine functions on the record ([mode_after], [loop_next]); a client that hears
      nothing passes through its states as [state_after] says, pass by pass.
    - Commands (Command.v): those on the record refine [command_record]; every
      packet is handled safely except two EEPROM commands, which are shown to leave
      their arrays.
    - Whole programs: from the static objects as the linker leaves them (the daemon:
      from its command line), any number of passes of each program (tank monitor,
      frequency monitor, controller, daemon) keeps its invariant and meets no fault
      but those; so does a pass of the library's own loop for any application.
    - Interrupts (Avr.v, Race.v): the handler of the radio changes what the model says
      and restores every register; in every interleaving a delay that is set is set
      and running, a time stamp is a time the clock has shown; the gaps the code
      leaves (a tick lost, a read torn, a sleep with a packet waiting) are shown.
      CtlRace.v: a torn time gives a slot to a channel out of turn, but never to one that
      does not exist, and no interleaving leaves an array.
    - Controller: the transmit queues refine a specification by priorities and time
      slots, no channel starves, the serial notation of a packet is read back as the
      packet, the wait for an answer ends.
    - Daemon: the bring-up is a step function that the state machine refines, it
      completes when it is answered, lines do not depend on how they are cut into
      reads, and the next step stays scheduled. When the timers run is stated for
      each operation of timer.c, which puts them late when others are queued and early
      when the first is taken out ([timer_times]; in the daemon that repeats one status
      request after five seconds, [second_request_early]). It starts with its line raw, at
      the speed asked for and watched, or is refused. When the
      controller is silent (the class [Silence] of LrSilence.v: [select] runs into its
      timeout, calls succeed) it is reset after at most thirteen rounds and a minute,
      again and again; once the daemon is READY it is never reset at all.
    - Link.v: commands, times and status pass from one program to the other.
      Bringup.v: with both programs in the loop the daemon comes from the setting of the
      time to READY in six exchanges.
    - Air.v, AirLoop.v: a command is obeyed by the client it is addressed to, whose main
      loop wakes for it within a bounded number of passes, even from the COLD and WARM
      sleep; the controller's clock reaches its clients, a client is activated end to end
      from the daemon's line while the others listen on, and its answer ends up in the
      daemon.

    ** Not modelled

    What the source only calls: libavr (reset, the SPI byte, the serial queues), the
    radio and the air, the operating system, the terminal driver and the RabbitMQ
    library are parameters, with what is used of them as hypotheses. The watchdog
    timer, the unused macros of radio_config.h, the [FILE] of the monitor's
    [mysetup], [timer_dump] and the logging, the publishing of rmq.c, which is
    compiled out, and the Ruby scripts of src/test.

    Of the main-line code, what is interleaved with interrupts is that of Race.v and
    CtlRace.v, which is the code that shares variables with them; the rest runs between
    two sleeps as if nothing happened. The radio is not modelled beyond its replies on
    the bus: that a frame written into the FIFO of one radio is the frame the other
    reports is a hypothesis ([frame_waiting]), and packets that collide or are lost are
    those that are never reported. Two programs are put in one loop only where they talk
    over the serial line (Bringup.v). *)

From Stdlib Require Export ZArith Lia.
From stdpp Require Export base numbers strings option tactics list list_numbers.

#[global] Open Scope Z_scope.

(** ** Machine integers

    A C integer is a [Z]; the conversion to its type is written where the code
    converts (an assignment, a cast, an argument of a narrower type). On the
    AVR [int] has 16 bits, [long] 32; on the host of lrmon [int] has 32. *)

Definition u8 (x : Z) : Z := x mod 256.
Definition u16 (x : Z) : Z := x mod 65536.
Definition i16 (x : Z) : Z := (x + 32768) mod 65536 - 32768.
Definition i32 (x : Z) : Z := (x + 2147483648) mod 4294967296 - 2147483648.

Definition is_u8 (x : Z) : Prop := 0 <= x < 256.
Definition is_u16 (x : Z) : Prop := 0 <= x < 65536.
Definition is_i16 (x : Z) : Prop := -32768 <= x < 32768.

(** C's truth values. *)
Definition c_bool (b : bool) : Z := if b then 1 else 0.

(** ** Bytes *)

Definition bytes (l : list Z) : Prop := Forall is_u8 l.

(** The running exclusive-or [csum ^= *cp++] over a sequence of bytes. *)
Definition xor_bytes (l : list Z) : Z := foldl Z.lxor 0 l.

(** Writing the bytes [bs] over the beginning of the object [l]. *)
Definition overlay (bs l : list Z) : list Z := bs ++ drop (length bs) l.

(** ** Text: string literals and the conversions of printf and atoi *)

Definition code (a : Ascii.ascii) : Z := Z.of_N (Ascii.N_of_ascii a).

Definition str (s : string) : list Z := map code (String.list_ascii_of_string s).

(** The ASCII character of a digit in base 10 or 16. *)
Definition digit (d : Z) : Z := if d <? 10 then 48 + d else 87 + d.

Fixpoint digits (fuel : nat) (base n : Z) (acc : list Z) : list Z :=
  match fuel with
  | O => acc
  | S fuel' =>
      let acc' := digit (n mod base) :: acc in
      if n <? base then acc' else digits fuel' base (n / base) acc'
  end.

(** Every value the programs print is below 10^20. *)
Definition digits_fuel : nat := 20%nat.

(** [%u], [%x] and [%d]. *)
Definition fmt_u (n : Z) : list Z := digits digits_fuel 10 n [].
Definition fmt_x (n : Z) : list Z := digits digits_fuel 16 n [].
Definition fmt_d (n : Z) : list Z := if n <? 0 then 45 :: fmt_u (- n) else fmt_u n.

Definition is_digit (c : Z) : bool := (48 <=? c) && (c <=? 57).

(** The value of a sequence of decimal digits, most significant first. *)
Definition undec (l : list Z) : Z := foldl (fun v c => v * 10 + (c - 48)) 0 l.

(** ** Functional record update

    [Eta] gives a record type its eta-expansion; [build_setter] derives from it
    the update of one field. *)

Class Eta (R : Type) := eta : R -> R.

Class Setter {R T : Type} (f : R -> T) := upd : (T -> T) -> R -> R.
Arguments upd {R T} f {_} _ _ : simpl never.

Ltac build_setter :=
  match goal with
  | |- @Setter ?R ?T ?f =>
      let E := constr:(_ : Eta R) in
      let b := eval hnf in E in
      exact (fun (g : T -> T) (r : R) =>
               ltac:(let b' := eval cbv beta in (b r) in
                     match eval pattern (f r) in b' with
                     | ?h _ => let t := eval cbv beta in (h (g (f r))) in exact t
                     end))
  end.

Declare Scope update_scope.
#[global] Open Scope update_scope.
Notation "r <| f := v |>" := (upd f (fun _ => v) r)
  (at level 1, f at next level, left associativity) : update_scope.
Notation "r <| f ::= g |>" := (upd f g r)
  (at level 1, f at next level, left associativity) : update_scope.

(** ** Automation *)

Create HintDb libradio.
Create Rewrite HintDb libradio.
Create Rewrite HintDb chan.

(** Linear arithmetic up to the machine-integer conversions. *)
Ltac warith :=
  unfold is_u8, is_u16, is_i16, u8, u16, i16, i32 in *;
  Z.to_euclidean_division_equations; lia.

(** A value is in the range of its type. *)
Ltac in_range := first [assumption | done | solve [auto with libradio] | warith].

(** Case analysis on the boolean comparisons of the goal. *)
Ltac zcases :=
  repeat match goal with
  | |- context [?a =? ?b] => destruct (Z.eqb_spec a b)
  | |- context [?a <? ?b] => destruct (Z.ltb_spec a b)
  | |- context [?a <=? ?b] => destruct (Z.leb_spec a b)
  end.

(** Reading a field of an updated record: the update is either of that field
    or of another one. The equation is checked on a variable record, where both
    cases hold by computation, and then used on the record at hand. *)
Ltac upd_eqn p R T f i g :=
  match constr:(tt) with
  | _ => let _ := match constr:(tt) with _ => constr_eq p f end in
         constr:(fun r : R => eq_refl : p (@upd R T f i g r) = g (p r))
  | _ => constr:(fun r : R => eq_refl : p (@upd R T f i g r) = p r)
  end.

Ltac upd_simpl :=
  repeat match goal with
  | |- context [?p (@upd ?R ?T ?f ?i ?g ?r)] =>
      let e := upd_eqn p R T f i g in rewrite (e r); cbv beta
  end.

Ltac upd_simpl_in H :=
  repeat match type of H with
  | context [?p (@upd ?R ?T ?f ?i ?g ?r)] =>
      let e := upd_eqn p R T f i g in rewrite (e r) in H; cbv beta in H
  end.

(** Equations of exclusive-ors, bit by bit. *)
Ltac xor_ring :=
  apply Z.bits_inj; intros ?n; rewrite ?Z.lxor_spec, ?Z.bits_0;
  repeat match goal with |- context [Z.testbit ?a ?n] => destruct (Z.testbit a n) end;
  reflexivity.

(** Byte lists given by their elements. *)
Ltac bytes_cons :=
  unfold bytes; repeat first [apply Forall_nil_2 | apply Forall_cons_2]; try done; try warith.
Ltac bytes_inv H := unfold bytes in H; rewrite ?Forall_cons in H; destruct_and? H.

(** ** Machine integers: ranges *)

Lemma u8_range x : is_u8 (u8 x).
Proof. warith. Qed.

Lemma u16_range x : is_u16 (u16 x).
Proof. warith. Qed.

Lemma i16_range x : is_i16 (i16 x).
Proof. unfold is_i16, i16. pose proof (Z.mod_pos_bound (x + 32768) 65536). lia. Qed.

Lemma u8_small x : is_u8 x -> u8 x = x.
Proof. apply Z.mod_small. Qed.

Lemma u16_small x : is_u16 x -> u16 x = x.
Proof. apply Z.mod_small. Qed.

Lemma i32_small x : - 2 ^ 31 <= x < 2 ^ 31 -> i32 x = x.
Proof. intros Hx. unfold i32. rewrite Z.mod_small by lia. lia. Qed.

Lemma u8_u16 x : is_u8 x -> is_u16 x.
Proof. warith. Qed.

Lemma land_ff_u8 x : is_u8 (Z.land x 0xff).
Proof. change 0xff with (Z.ones 8). rewrite Z.land_ones by lia. apply Z.mod_pos_bound. done. Qed.

(** Masking and setting bits of a byte. *)
Lemma land_u8 a b : is_u8 b -> is_u8 (Z.land a b).
Proof.
  intros Hb. assert (Z.land b 255 = b) as E.
  { change 255 with (Z.ones 8). rewrite Z.land_ones by lia. by apply Z.mod_small. }
  rewrite <- E, Z.land_assoc. apply land_ff_u8.
Qed.

Lemma lor_u8 a b : is_u8 a -> is_u8 b -> is_u8 (Z.lor a b).
Proof.
  assert (forall x, is_u8 x -> Z.land x 255 = x) as Hid.
  { intros x Hx. change 255 with (Z.ones 8). rewrite Z.land_ones by lia. by apply Z.mod_small. }
  intros Ha Hb. rewrite <- (Hid a Ha), <- (Hid b Hb), <- Z.land_lor_distr_l. apply land_ff_u8.
Qed.

#[export] Hint Resolve u8_range u16_range i16_range u8_u16 land_ff_u8 : libradio.
#[export] Hint Extern 2 (is_u8 (Z.land _ _)) => apply land_u8; in_range : libradio.
#[export] Hint Extern 2 (is_u8 (Z.lor _ _)) => apply lor_u8; in_range : libradio.
#[export] Hint Rewrite u8_small u16_small using (warith || auto with libradio) : libradio.

Lemma u8_idemp x : u8 (u8 x) = u8 x.
Proof. apply u8_small, u8_range. Qed.

(** A multiple of 256 and a byte have no bit in common. *)
Lemma lor_join hi lo : is_u8 lo -> Z.lor (hi * 256) lo = hi * 256 + lo.
Proof.
  intros Hlo. rewrite <- Z.add_lor_land.
  replace (Z.land (hi * 256) lo) with 0; [lia|].
  symmetry. apply Z.bits_inj'. intros n Hn. rewrite Z.land_spec, Z.bits_0.
  change 256 with (2 ^ 8). destruct (Z.ltb_spec n 8) as [Hlt|Hge].
  - by rewrite Z.mul_pow2_bits_low by lia.
  - rewrite <- (Z.mod_small lo (2 ^ 8)) by (unfold is_u8 in Hlo; lia).
    rewrite Z.mod_pow2_bits_high by lia. apply andb_false_r.
Qed.

(** Two bytes joined the way the code writes it, [(hi << 8) | lo]. *)
Lemma join_bytes hi lo : is_u8 lo -> Z.lor (Z.shiftl hi 8) lo = hi * 256 + lo.
Proof. intros Hlo. rewrite Z.shiftl_mul_pow2 by lia. by apply lor_join. Qed.

(** ** Exclusive-or of bytes *)

Lemma lxor_u8 a b : is_u8 a -> is_u8 b -> is_u8 (Z.lxor a b).
Proof.
  intros Ha Hb. assert (0 <= Z.lxor a b) by (apply Z.lxor_nonneg; warith).
  split; [done|].
  destruct (Z.eq_dec (Z.lxor a b) 0) as [->|Hne]; [done|].
  change 256 with (2 ^ 8). apply Z.log2_lt_pow2; [lia|].
  assert (forall x, is_u8 x -> Z.log2 x <= 7) as Hlog.
  { intros x Hx. change 7 with (Z.log2 255). apply Z.log2_le_mono. warith. }
  pose proof (Z.log2_lxor a b ltac:(warith) ltac:(warith)).
  pose proof (Hlog a Ha). pose proof (Hlog b Hb). lia.
Qed.

#[export] Hint Resolve lxor_u8 : libradio.

Lemma foldl_lxor l c : foldl Z.lxor c l = Z.lxor c (xor_bytes l).
Proof.
  unfold xor_bytes. revert c. induction l as [|x l IH]; intros c; cbn [foldl].
  - by rewrite Z.lxor_0_r.
  - rewrite IH, (IH (Z.lxor 0 x)), Z.lxor_0_l. apply Z.lxor_assoc.
Qed.

Lemma xor_bytes_cons x l : xor_bytes (x :: l) = Z.lxor x (xor_bytes l).
Proof. unfold xor_bytes at 1. cbn [foldl]. by rewrite foldl_lxor. Qed.

Lemma xor_bytes_nil : xor_bytes [] = 0.
Proof. done. Qed.

Lemma xor_bytes_app l k : xor_bytes (l ++ k) = Z.lxor (xor_bytes l) (xor_bytes k).
Proof. unfold xor_bytes at 1. rewrite foldl_app, foldl_lxor. done. Qed.

Lemma xor_bytes_u8 l : bytes l -> is_u8 (xor_bytes l).
Proof.
  induction 1 as [|x l Hx Hl IH]; [done|]. rewrite xor_bytes_cons. by apply lxor_u8.
Qed.

(** Replacing one byte changes the exclusive-or by the difference. *)
Lemma xor_bytes_insert l i x y :
  l !! i = Some x -> xor_bytes (<[i:=y]> l) = Z.lxor (xor_bytes l) (Z.lxor x y).
Proof.
  revert i. induction l as [|z l IH]; intros [|i] Hi; simplify_eq/=;
    rewrite !xor_bytes_cons; [|rewrite (IH _ Hi)]; xor_ring.
Qed.

Lemma bytes_app l k : bytes (l ++ k) <-> bytes l /\ bytes k.
Proof. apply Forall_app. Qed.

Lemma map_u8 l : bytes l -> map u8 l = l.
Proof. induction 1; cbn; [done|]. by f_equal; [apply u8_small|]. Qed.

Lemma overlay_length bs l :
  (length bs <= length l)%nat -> length (overlay bs l) = length l.
Proof. unfold overlay. rewrite length_app, length_drop. lia. Qed.

Lemma overlay_bytes bs l : bytes bs -> bytes l -> bytes (overlay bs l).
Proof. intros. apply bytes_app. split; [done|]. by apply Forall_drop. Qed.

#[export] Hint Resolve xor_bytes_u8 overlay_bytes : libradio.

(** ** Decimal text *)

Lemma digits_acc f b n acc : digits f b n acc = digits f b n [] ++ acc.
Proof.
  revert n acc. induction f as [|f IH]; intros n acc; [done|]. simpl.
  destruct (n <? b); [done|]. rewrite IH, (IH _ [_]). by rewrite <- app_assoc.
Qed.

Lemma undec_snoc l c : undec (l ++ [c]) = undec l * 10 + (c - 48).
Proof. unfold undec. by rewrite foldl_app. Qed.

Lemma digits_step f n :
  digits (S f) 10 n [] =
    (if n <? 10 then [] else digits f 10 (n / 10) []) ++ [48 + n mod 10].
Proof.
  cbn [digits]. unfold digit. destruct (Z.ltb_spec (n mod 10) 10); [|warith].
  destruct (n <? 10); [done|]. apply digits_acc.
Qed.

Lemma undec_digits f n : 0 <= n < 10 ^ Z.of_nat f -> undec (digits f 10 n []) = n.
Proof.
  revert n. induction f as [|f IH]; intros n Hn; [simpl in Hn; cbn; lia|].
  rewrite digits_step, undec_snoc. destruct (Z.ltb_spec n 10).
  - unfold undec. simpl. warith.
  - rewrite IH; [warith|]. rewrite Nat2Z.inj_succ, Z.pow_succ_r in Hn by lia.
    split; [warith|]. apply Z.div_lt_upper_bound; lia.
Qed.

Lemma digits_is_digit f n :
  0 <= n -> Forall (fun c => is_digit c = true) (digits f 10 n []).
Proof.
  revert n. induction f as [|f IH]; intros n Hn; [constructor|].
  rewrite digits_step. apply Forall_app. split.
  - destruct (n <? 10); [constructor|]. apply IH. warith.
  - repeat constructor. unfold is_digit. warith.
Qed.

Lemma digits_length f k n :
  0 <= n < 10 ^ Z.of_nat k -> (1 <= k)%nat -> (length (digits f 10 n []) <= k)%nat.
Proof.
  revert k n. induction f as [|f IH]; intros k n Hn Hk; [simpl; lia|].
  rewrite digits_step, length_app. destruct (Z.ltb_spec n 10); [simpl; lia|].
  destruct k as [|[|k]]; [lia|simpl in Hn; lia|].
  assert (length (digits f 10 (n / 10) []) <= S k)%nat; [|simpl; lia].
  apply IH; [|lia]. rewrite Nat2Z.inj_succ, Z.pow_succ_r in Hn by lia.
  split; [warith|]. apply Z.div_lt_upper_bound; lia.
Qed.

Lemma undec_fmt_u n : 0 <= n < 10 ^ 20 -> undec (fmt_u n) = n.
Proof. apply (undec_digits 20). Qed.

Lemma fmt_u_digits n : 0 <= n -> Forall (fun c => is_digit c = true) (fmt_u n).
Proof. apply digits_is_digit. Qed.

Lemma fmt_u_length k n :
  0 <= n < 10 ^ Z.of_nat k -> (1 <= k)%nat -> (length (fmt_u n) <= k)%nat.
Proof. apply digits_length. Qed.

Lemma fmt_u_nonempty n : fmt_u n <> [].
Proof.
  unfold fmt_u, digits_fuel. rewrite digits_step. intros H.
  by apply app_eq_nil in H as [_ H].
Qed.

Lemma fmt_d_u n : 0 <= n -> fmt_d n = fmt_u n.
Proof. intros. unfold fmt_d. destruct (Z.ltb_spec n 0); [lia|done]. Qed.

#[export] Hint Resolve fmt_u_digits fmt_u_nonempty : libradio.
