(* ===== verification/Cmd.v ===== *)
(** The monad in which the C functions are written: a command reads and
    changes a state and either returns a value, or hits undefined behaviour, or
    restarts the processor, or is still waiting when the events it is run on
    have been used up. With it come loops, array accesses that fail out of
    range, and total-correctness weakest preconditions. *)

From S2P Require Import Prelude.

(** Behaviour that C leaves undefined. *)
Inductive fault :=
| OutOfBounds
| DivByZero
| NullPointer.

Inductive outcome (S A : Type) :=
| Done (a : A) (s : S)
| Fault (f : fault)
| Restart (s : S)
| Waiting (s : S).
Arguments Done {S A} a s.
Arguments Fault {S A} f.
Arguments Restart {S A} s.
Arguments Waiting {S A} s.

(** How many times a loop that waits for the hardware is followed before its
    outcome is [Waiting]. *)
Class Patience := patience : nat.

Definition cmd (S A : Type) : Type := S -> outcome S A.

#[export] Instance cmd_ret {S} : MRet (cmd S) := fun A a s => Done a s.

#[export] Instance cmd_bind {S} : MBind (cmd S) := fun A B k c s =>
  match c s with
  | Done a s' => k a s'
  | Fault f => Fault f
  | Restart s' => Restart s'
  | Waiting s' => Waiting s'
  end.

Section operations.
Context {S : Type}.

Definition gets {A} (f : S -> A) : cmd S A := fun s => Done (f s) s.
Definition modify (f : S -> S) : cmd S unit := fun s => Done tt (f s).
Definition fail {A} (f : fault) : cmd S A := fun _ => Fault f.
Definition restart {A} : cmd S A := fun s => Restart s.
Definition wait_more {A} : cmd S A := fun s => Waiting s.

(** [if (b) c;] *)
Definition when (b : bool) (c : cmd S unit) : cmd S unit := if b then c else mret tt.

(** [l\[i\]] in an expression. *)
Definition array_get {A} (l : list A) (i : Z) : cmd S A :=
  if i <? 0 then fail OutOfBounds
  else match l !! Z.to_nat i with
       | Some x => mret x
       | None => fail OutOfBounds
       end.

(** The array after [l\[i\] = x]. *)
Definition array_put {A} (l : list A) (i : Z) (x : A) : cmd S (list A) :=
  if (i <? 0) || (Z.of_nat (length l) <=? i) then fail OutOfBounds
  else mret (<[Z.to_nat i := x]> l).

(** [a / b] on integers of the same type. *)
Definition c_div (a b : Z) : cmd S Z :=
  if b =? 0 then fail DivByZero else mret (Z.quot a b).

(** [for (i = from; n more times; i++) body] *)
Fixpoint for_loop (n : nat) (from : Z) (body : Z -> cmd S unit) : cmd S unit :=
  match n with
  | O => mret tt
  | Datatypes.S n' => body from;; for_loop n' (from + 1) body
  end.
End operations.

(** Total correctness: [c] returns, without undefined behaviour, and [Q] holds
    of the value and the state. *)
Definition wp {S A} (c : cmd S A) (Q : A -> S -> Prop) (s : S) : Prop :=
  match c s with
  | Done a s' => Q a s'
  | _ => False
  end.

(** Framing: from a state that satisfies [P], [c] returns, keeps [P], and moves
    along the relation [R]. *)
Definition keeps {S A} (P : S -> Prop) (R : relation S) (c : cmd S A) : Prop :=
  forall s, P s -> wp c (fun _ s' => P s' /\ R s s') s.

(** Safety: [c] meets no undefined behaviour, and if it returns [Q] holds. *)
Definition safe {S A} (c : cmd S A) (Q : A -> S -> Prop) (s : S) : Prop :=
  match c s with
  | Done a s' => Q a s'
  | Fault _ => False
  | _ => True
  end.

(** [c] is safe and keeps the invariant [P]. *)
Definition preserves {S A} (P : S -> Prop) (c : cmd S A) : Prop :=
  forall s, P s -> safe c (fun _ => P) s.

(** The same, and what it returns satisfies [V]. *)
Definition yields {S A} (P : S -> Prop) (V : A -> Prop) (c : cmd S A) : Prop :=
  forall s, P s -> safe c (fun a s' => V a /\ P s') s.

(** ** Rules *)

Section rules.
Context {S : Type}.
Implicit Types s : S.

Lemma wp_ret {A} (a : A) Q s : wp (mret a) Q s = Q a s.
Proof. done. Qed.

Lemma wp_bind {A B} (c : cmd S A) (k : A -> cmd S B) Q s :
  wp (c ≫= k) Q s = wp c (fun a => wp (k a) Q) s.
Proof. unfold wp, mbind, cmd_bind. by destruct (c s). Qed.

Lemma wp_gets {A} (f : S -> A) Q s : wp (gets f) Q s = Q (f s) s.
Proof. done. Qed.

Lemma wp_modify f Q s : wp (modify f) Q s = Q tt (f s).
Proof. done. Qed.

Lemma wp_when b c Q s :
  wp (when b c) Q s = if b then wp c Q s else Q tt s.
Proof. by destruct b. Qed.

Lemma wp_mono {A} (c : cmd S A) (Q Q' : A -> S -> Prop) s :
  wp c Q s -> (forall a s', Q a s' -> Q' a s') -> wp c Q' s.
Proof. unfold wp. destruct (c s); auto. Qed.

Lemma wp_and {A} (c : cmd S A) (Q Q' : A -> S -> Prop) s :
  wp c Q s -> wp c Q' s -> wp c (fun a s' => Q a s' /\ Q' a s') s.
Proof. unfold wp. destruct (c s); auto. Qed.

(** What holds of every run that returns holds of this one. *)
Lemma wp_run_and {A} (c : cmd S A) (P : A -> S -> Prop) (R : S -> S -> Prop) s :
  wp c P s -> (forall s a s', c s = Done a s' -> R s s') -> wp c (fun a s' => P a s' /\ R s s') s.
Proof. unfold wp. intros Hp Hr. specialize (Hr s). destruct (c s); [|done..]. split; [done|by eapply Hr]. Qed.

Lemma wp_done {A} (c : cmd S A) Q s :
  wp c Q s <-> exists a s', c s = Done a s' /\ Q a s'.
Proof.
  unfold wp. destruct (c s); split; try done; try (intros (?&?&?&?); done).
  - eauto.
  - by intros (?&?&[= -> ->]&?).
Qed.

(** A command with one weakest precondition for all postconditions runs to it. *)
Lemma wp_run {A} (c : cmd S A) s a s' :
  (forall Q, wp c Q s = Q a s') -> c s = Done a s'.
Proof.
  intros Hwp. pose proof (Hwp (fun a0 s0 => a0 = a /\ s0 = s')) as H0.
  assert (wp c (fun a0 s0 => a0 = a /\ s0 = s') s) as H by by rewrite H0.
  by apply wp_done in H as (?&?&?&->&->).
Qed.

Lemma wp_eq {A} (c c' : cmd S A) Q s s' : c s = c' s' -> wp c Q s = wp c' Q s'.
Proof. unfold wp. by intros ->. Qed.

Lemma wp_array_get {A} (l : list A) i x Q s :
  0 <= i -> l !! Z.to_nat i = Some x -> wp (array_get l i) Q s = Q x s.
Proof.
  intros Hi Hx. unfold array_get. destruct (Z.ltb_spec i 0); [lia|]. by rewrite Hx.
Qed.

Lemma wp_array_put {A} (l : list A) i x Q s :
  0 <= i < Z.of_nat (length l) ->
  wp (array_put l i x) Q s = Q (<[Z.to_nat i := x]> l) s.
Proof.
  intros Hi. unfold array_put.
  destruct (Z.ltb_spec i 0), (Z.leb_spec (Z.of_nat (length l)) i); try lia. done.
Qed.

Lemma wp_c_div a b Q s : 0 <= a -> 0 < b -> wp (c_div a b) Q s = Q (a / b) s.
Proof.
  intros Ha Hb. unfold c_div. destruct (Z.eqb_spec b 0); [lia|].
  by rewrite Z.quot_div_nonneg by lia.
Qed.

(** A counted loop keeps an invariant indexed by its counter. *)
Lemma wp_for_loop (I : Z -> S -> Prop) n from body Q s :
  I from s ->
  (forall i s', from <= i < from + Z.of_nat n -> I i s' ->
     wp (body i) (fun _ => I (i + 1)) s') ->
  (forall s', I (from + Z.of_nat n) s' -> Q tt s') ->
  wp (for_loop n from body) Q s.
Proof.
  revert from s. induction n as [|n IH]; intros from s HI Hbody HQ.
  - apply HQ. by rewrite Z.add_0_r.
  - cbn [for_loop]. rewrite wp_bind.
    eapply wp_mono; [apply (Hbody from s); [lia|done]|].
    intros [] s' HI'. apply IH; [done| |].
    + intros i s'' Hi. apply Hbody. lia.
    + intros s'' H. apply HQ. by replace (from + Z.of_nat (Datatypes.S n))
        with (from + 1 + Z.of_nat n) by lia.
Qed.

(** The monad laws, and the equations of a command run on a state. *)
Lemma bind_assoc {A B C} (c : cmd S A) (k : A -> cmd S B) (h : B -> cmd S C) s :
  ((c ≫= k) ≫= h) s = (c ≫= (fun a => k a ≫= h)) s.
Proof. unfold mbind, cmd_bind. by destruct (c s). Qed.

Lemma wp_bind_assoc {A B C} (c : cmd S A) (k : A -> cmd S B) (h : B -> cmd S C) Q s :
  wp ((c ≫= k) ≫= h) Q s = wp (c ≫= (fun a => k a ≫= h)) Q s.
Proof. unfold wp. by rewrite bind_assoc. Qed.

Lemma wp_bind_ret (c : cmd S unit) Q s : wp c Q s = wp (c;; mret tt) Q s.
Proof. unfold wp, mbind, cmd_bind. destruct (c s) as [[] ?| | |]; done. Qed.

Lemma wp_assoc {A B C} (c : cmd S A) (k : A -> cmd S B) (h : B -> cmd S C) Q s :
  wp ((c ≫= k) ≫= h) Q s = wp (c ≫= (fun a => k a ≫= h)) Q s.
Proof. apply wp_eq, bind_assoc. Qed.

Lemma wp_bind_run {A B} (c : cmd S A) (k : A -> cmd S B) Q s a s' :
  c s = Done a s' -> wp (c ≫= k) Q s = wp (k a) Q s'.
Proof. intros Hc. rewrite wp_bind. unfold wp at 1. by rewrite Hc. Qed.

Lemma bind_done {A B} (c : cmd S A) (k : A -> cmd S B) s a s' :
  c s = Done a s' -> (c ≫= k) s = k a s'.
Proof. intros H. unfold mbind, cmd_bind. by rewrite H. Qed.

Lemma run_modify {B} f (k : unit -> cmd S B) s : (modify f ≫= k) s = k tt (f s).
Proof. done. Qed.

Lemma run_gets {A B} (f : S -> A) (k : A -> cmd S B) s : (gets f ≫= k) s = k (f s) s.
Proof. done. Qed.

Lemma bind_fault {A B} (c : cmd S A) (k : A -> cmd S B) s f :
  c s = Fault f -> (c ≫= k) s = Fault f.
Proof. intros H. unfold mbind, cmd_bind. by rewrite H. Qed.
End rules.

(** ** Rules for framing *)

Section keeps.
Context {S : Type} (P : S -> Prop) (R : relation S) `{!PreOrder R}.

Lemma keeps_ret {A} (a : A) : keeps P R (mret a).
Proof. intros s Hs. by rewrite wp_ret. Qed.

Lemma keeps_gets {A} (f : S -> A) : keeps P R (gets f).
Proof. intros s Hs. by rewrite wp_gets. Qed.

Lemma keeps_modify f : (forall s, P s -> P (f s) /\ R s (f s)) -> keeps P R (modify f).
Proof. intros Hf s Hs. rewrite wp_modify. auto. Qed.

Lemma keeps_bind {A B} (c : cmd S A) (k : A -> cmd S B) :
  keeps P R c -> (forall a, keeps P R (k a)) -> keeps P R (c ≫= k).
Proof.
  intros Hc Hk s Hs. rewrite wp_bind. eapply wp_mono; [by apply Hc|].
  intros a s' [Hs' HR]. eapply wp_mono; [by apply Hk|].
  intros b s'' [Hs'' HR']. split; [done|by etrans].
Qed.

(** What is known of the value read is available to the rest. *)
Lemma keeps_bind_val {A B} (V : A -> Prop) (c : cmd S A) (k : A -> cmd S B) :
  (forall s, P s -> wp c (fun a s' => V a /\ P s' /\ R s s') s) ->
  (forall a, V a -> keeps P R (k a)) -> keeps P R (c ≫= k).
Proof.
  intros Hc Hk s Hs. rewrite wp_bind. eapply wp_mono; [by apply Hc|].
  intros a s' (Ha&Hs'&HR). eapply wp_mono; [by apply (Hk a Ha)|].
  intros b s'' [Hs'' HR']. split; [done|by etrans].
Qed.

Lemma keeps_when b c : keeps P R c -> keeps P R (when b c).
Proof. intros Hc. destruct b; [done|apply keeps_ret]. Qed.

Lemma keeps_if {A} (b : bool) (c c' : cmd S A) :
  keeps P R c -> keeps P R c' -> keeps P R (if b then c else c').
Proof. by destruct b. Qed.

Lemma keeps_for_loop n from body :
  (forall i, from <= i < from + Z.of_nat n -> keeps P R (body i)) ->
  keeps P R (for_loop n from body).
Proof.
  revert from. induction n as [|n IH]; intros from Hb; cbn [for_loop]; [apply keeps_ret|].
  apply keeps_bind; [apply Hb; lia|]. intros _. apply IH. intros i Hi. apply Hb. lia.
Qed.

Lemma keeps_weaken {A} (R' : relation S) (c : cmd S A) :
  (forall s s', R' s s' -> R s s') -> keeps P R' c -> keeps P R c.
Proof.
  intros HR Hc s Hs. eapply wp_mono; [by apply Hc|]. intros a s' [? ?]. auto.
Qed.
End keeps.

Lemma keeps_wp {S A} (P : S -> Prop) (R : relation S) (c : cmd S A) (Q : A -> S -> Prop) s :
  keeps P R c -> P s -> (forall a s', P s' -> R s s' -> Q a s') -> wp c Q s.
Proof.
  intros Hc Hs HQ. eapply wp_mono; [by apply Hc|]. intros a s' [? ?]. auto.
Qed.

(** A command that keeps [P] and moves along [R], in front of others. *)
Lemma keeps_step {S A B} (P : S -> Prop) (R : relation S) `{!PreOrder R} s0
    (c : cmd S A) (k : A -> cmd S B) Q s :
  keeps P R c -> P s /\ R s0 s -> (forall a s', P s' /\ R s0 s' -> wp (k a) Q s') ->
  wp (c ≫= k) Q s.
Proof.
  intros Hc [Hs HR] Hk. rewrite wp_bind. eapply wp_mono; [by apply Hc|].
  intros a s' [Hs' HR']. apply Hk. split; [done|by etrans].
Qed.

(** ** Rules for safety *)

Section safe.
Context {S : Type}.
Implicit Types s : S.

Lemma safe_wp {A} (c : cmd S A) Q s : wp c Q s -> safe c Q s.
Proof. unfold wp, safe. by destruct (c s). Qed.

Lemma safe_bind {A B} (c : cmd S A) (k : A -> cmd S B) Q s :
  safe (c ≫= k) Q s = safe c (fun a => safe (k a) Q) s.
Proof. unfold safe, mbind, cmd_bind. by destruct (c s). Qed.

Lemma safe_mono {A} (c : cmd S A) (Q Q' : A -> S -> Prop) s :
  safe c Q s -> (forall a s', Q a s' -> Q' a s') -> safe c Q' s.
Proof. unfold safe. destruct (c s); auto. Qed.

Lemma wp_safe {A} (c : cmd S A) Q Q' s :
  wp c Q s -> safe c Q' s -> wp c (fun a s' => Q a s' /\ Q' a s') s.
Proof. unfold wp, safe. destruct (c s); auto. Qed.

(** A loop whose passes keep [I], unless a pass starts in a state that is [bad]. *)
Lemma safe_loop_cases (I bad : S -> Prop) (pass : cmd S unit) n k s :
  (forall s, I s -> safe pass (fun _ => I) s \/ bad s) -> I s ->
  safe (for_loop n k (fun _ => pass)) (fun _ => I) s \/
  exists j s', (j < n)%nat /\ for_loop j k (fun _ => pass) s = Done tt s' /\ I s' /\ bad s'.
Proof.
  intros Hpass. revert k s. induction n as [|n IH]; intros k s Hs; [by left|]. cbn [for_loop].
  destruct (Hpass s Hs) as [Hp|Hb]; [|right; exists 0%nat, s; split_and!; [lia|done..] ].
  rewrite safe_bind. unfold safe in Hp |- *. destruct (pass s) as [[] s1| | |] eqn:E; [|done|by left..].
  destruct (IH (k + 1) s1 Hp) as [Hl|(j&s'&Hj&Hr&HI&Hb)]; [by left|].
  right. exists (Datatypes.S j), s'. split_and!; [lia| |done..].
  cbn [for_loop]. unfold mbind, cmd_bind. by rewrite E.
Qed.

(** The same behind a start that sets [I] up. *)
Lemma safe_program_cases (I bad : S -> Prop) (start pass : cmd S unit) n s :
  (forall s, I s -> safe pass (fun _ => I) s \/ bad s) -> wp start (fun _ => I) s ->
  safe (start;; for_loop n 0 (fun _ => pass)) (fun _ => I) s \/
  exists j s', (j < n)%nat /\ (start;; for_loop j 0 (fun _ => pass)) s = Done tt s' /\ I s' /\ bad s'.
Proof.
  intros Hpass Hstart. rewrite safe_bind. unfold wp, safe in Hstart |- *.
  unfold mbind, cmd_bind. destruct (start s) as [[] s1| | |]; [|done..].
  by apply safe_loop_cases.
Qed.

Context (P : S -> Prop).

Lemma preserves_ret {A} (a : A) : preserves P (mret a).
Proof. by intros s Hs. Qed.

Lemma preserves_gets {A} (f : S -> A) : preserves P (gets f).
Proof. by intros s Hs. Qed.

Lemma preserves_modify f : (forall s, P s -> P (f s)) -> preserves P (modify f).
Proof. intros Hf s Hs. by apply Hf. Qed.

Lemma preserves_stop {A} : preserves P (@restart S A) /\ preserves P (@wait_more S A).
Proof. done. Qed.

Lemma preserves_bind {A B} (c : cmd S A) (k : A -> cmd S B) :
  preserves P c -> (forall a, preserves P (k a)) -> preserves P (c ≫= k).
Proof.
  intros Hc Hk s Hs. rewrite safe_bind. eapply safe_mono; [by apply Hc|].
  intros a s' Hs'. by apply Hk.
Qed.

(** What is known of the value read is available to the rest. *)
Lemma preserves_bind_val {A B} (V : A -> Prop) (c : cmd S A) (k : A -> cmd S B) :
  (forall s, P s -> safe c (fun a s' => V a /\ P s') s) ->
  (forall a, V a -> preserves P (k a)) -> preserves P (c ≫= k).
Proof.
  intros Hc Hk s Hs. rewrite safe_bind. eapply safe_mono; [by apply Hc|].
  intros a s' [Ha Hs']. by apply Hk.
Qed.

Lemma yields_ret {A} (V : A -> Prop) a : V a -> yields P V (mret a).
Proof. by intros Ha s Hs. Qed.

Lemma yields_bind {A B} (V : B -> Prop) (c : cmd S A) (k : A -> cmd S B) :
  preserves P c -> (forall a, yields P V (k a)) -> yields P V (c ≫= k).
Proof.
  intros Hc Hk s Hs. rewrite safe_bind. eapply safe_mono; [by apply Hc|].
  intros a s' Hs'. by apply Hk.
Qed.

Lemma yields_bind_val {A B} (U : A -> Prop) (V : B -> Prop) (c : cmd S A) (k : A -> cmd S B) :
  yields P U c -> (forall a, U a -> yields P V (k a)) -> yields P V (c ≫= k).
Proof.
  intros Hc Hk s Hs. rewrite safe_bind. eapply safe_mono; [by apply Hc|].
  intros a s' [Ha Hs']. by apply Hk.
Qed.

Lemma yields_preserves {A} (V : A -> Prop) (c : cmd S A) : yields P V c -> preserves P c.
Proof. intros Hc s Hs. eapply safe_mono; [by apply Hc|]. by intros a s' [_ ?]. Qed.

Lemma preserves_when b c : preserves P c -> preserves P (when b c).
Proof. intros Hc. destruct b; [done|apply preserves_ret]. Qed.

Lemma preserves_if {A} (b : bool) (c c' : cmd S A) :
  preserves P c -> preserves P c' -> preserves P (if b then c else c').
Proof. by destruct b. Qed.

Lemma preserves_for_loop n from body :
  (forall i, from <= i < from + Z.of_nat n -> preserves P (body i)) ->
  preserves P (for_loop n from body).
Proof.
  revert from. induction n as [|n IH]; intros from Hb; cbn [for_loop]; [apply preserves_ret|].
  apply preserves_bind; [apply Hb; lia|]. intros _. apply IH. intros i Hi. apply Hb. lia.
Qed.

Lemma preserves_wp {A} (c : cmd S A) :
  (forall s, P s -> wp c (fun _ => P) s) -> preserves P c.
Proof. intros Hc s Hs. apply safe_wp. auto. Qed.
End safe.

Lemma preserves_keeps {S A} (P : S -> Prop) (R : relation S) (c : cmd S A) :
  keeps P R c -> preserves P c.
Proof.
  intros Hc. apply preserves_wp. intros s Hs. eapply wp_mono; [by apply Hc|]. by intros ?? [? _].
Qed.

Create HintDb preserves discriminated.
#[export] Hint Constants Opaque : preserves.
#[export] Hint Resolve preserves_ret preserves_gets preserves_when preserves_if
  preserves_for_loop preserves_modify : preserves.
#[export] Hint Resolve preserves_bind | 3 : preserves.

Create HintDb keeps discriminated.
#[export] Hint Constants Opaque : keeps.
#[export] Hint Resolve keeps_ret keeps_gets keeps_when keeps_if keeps_for_loop
  keeps_modify : keeps.
#[export] Hint Resolve keeps_bind | 3 : keeps.

Create Rewrite HintDb wp.
#[export] Hint Rewrite @wp_ret @wp_bind @wp_gets @wp_modify @wp_when : wp.

(** Symbolic execution of the straight-line part of a command. *)
Ltac wp_simpl := autorewrite with wp; cbv beta.
