(* ===== verification/Packet.v ===== *)
(** The constants and data types of libradio.h: the states of the library,
    the commands, the error codes of the controller, [struct packet] with its
    layout in memory and on the air, and [struct channel]. *)

From S2P Require Import Prelude.

(** ** Sizes *)

Definition MAX_FIFO_SIZE : Z := 48.
Definition MAX_PACKET_SIZE : Z := 16.
Definition PACKET_HEADER_LEN : Z := 6.
Definition MAX_PAYLOAD_SIZE : Z := MAX_PACKET_SIZE - PACKET_HEADER_LEN.

(** ** States of the library *)

Definition LIBRADIO_STATE_STARTUP : Z := 0.
Definition LIBRADIO_STATE_ERROR : Z := 1.
Definition LIBRADIO_STATE_LOW_BATTERY : Z := 2.
Definition LIBRADIO_STATE_COLD : Z := 3.
Definition LIBRADIO_STATE_WARM : Z := 4.
Definition LIBRADIO_STATE_LISTEN : Z := 5.
Definition LIBRADIO_STATE_ACTIVE : Z := 6.
Definition NLIBRADIO_STATES : Z := 7.

(** ** Commands *)

Definition RADIO_CMD_NOOP : Z := 0.
Definition RADIO_CMD_FIRMWARE : Z := 1.
Definition RADIO_CMD_STATUS : Z := 2.
Definition RADIO_CMD_ACTIVATE : Z := 3.
Definition RADIO_CMD_DEACTIVATE : Z := 4.
Definition RADIO_CMD_SET_TIME : Z := 5.
Definition RADIO_CMD_SET_DATE : Z := 6.
Definition RADIO_CMD_READ_EEPROM : Z := 7.
Definition RADIO_CMD_WRITE_EEPROM : Z := 8.
Definition RADIO_STATUS_RESPONSE : Z := 9.
Definition RADIO_EEPROM_RESPONSE : Z := 10.
Definition RADIO_CMD_ADDITIONAL_BASE : Z := 16.
Definition RADIO_CMD_USER0 : Z := RADIO_CMD_ADDITIONAL_BASE + 0.

Definition RADIO_STATUS_STATIC : Z := 0.
Definition RADIO_STATUS_DYNAMIC : Z := 1.

(** ** Errors the controller reports *)

Definition RADIO_CTLERR_INVALID_CHANNEL : Z := 1.
Definition RADIO_CTLERR_BUSY : Z := 2.
Definition RADIO_CTLERR_TOO_MUCH_DATA : Z := 3.
Definition RADIO_CTLERR_TOO_BIG : Z := 4.
Definition RADIO_CTLERR_NEWLINE : Z := 5.
Definition RADIO_CTLERR_NOT_ACTIVE : Z := 6.
Definition RADIO_CTLERR_POWER_FAIL : Z := 7.
Definition RADIO_CTLERR_BAD_CMD : Z := 8.

(** ** Channel states and wait reasons *)

Definition LIBRADIO_CHSTATE_DISABLED : Z := 0.
Definition LIBRADIO_CHSTATE_READ : Z := 1.
Definition LIBRADIO_CHSTATE_EMPTY : Z := 2.
Definition LIBRADIO_CHSTATE_ADDING : Z := 3.
Definition LIBRADIO_CHSTATE_TRANSMIT : Z := 4.
Definition LIBRADIO_CHSTATE_TXRESPOND : Z := 5.
Definition LIBRADIO_CHSTATE_RXRESPONSE1 : Z := 6.
Definition LIBRADIO_CHSTATE_RXRESPONSE2 : Z := 7.
Definition LIBRADIO_CHSTATE_RXRESPONSE3 : Z := 8.
Definition LIBRADIO_CHSTATE_RXRESPONSE4 : Z := 9.

Definition LIBRADIO_WAIT_RXINT : Z := 1.
Definition LIBRADIO_WAIT_SERIAL : Z := 2.
Definition LIBRADIO_WAIT_TIMER : Z := 4.

(** ** Packets *)

Record packet := mk_packet {
  p_ticks : Z;
  p_node : Z;
  p_cmd : Z;
  p_len : Z;
  p_csum : Z;
  p_data : list Z
}.

#[export] Instance eta_packet : Eta packet := fun p =>
  mk_packet (p_ticks p) (p_node p) (p_cmd p) (p_len p) (p_csum p) (p_data p).
#[export] Instance set_p_ticks : Setter p_ticks := ltac:(build_setter).
#[export] Instance set_p_node : Setter p_node := ltac:(build_setter).
#[export] Instance set_p_cmd : Setter p_cmd := ltac:(build_setter).
#[export] Instance set_p_len : Setter p_len := ltac:(build_setter).
#[export] Instance set_p_csum : Setter p_csum := ltac:(build_setter).
#[export] Instance set_p_data : Setter p_data := ltac:(build_setter).

#[export] Instance packet_eq_dec : EqDecision packet.
Proof. solve_decision. Defined.

(** [sizeof(struct packet)]: the AVR has no padding. *)
Definition sizeof_packet : Z := 16.

(** The packet as the bytes of memory; the AVR is little-endian. *)
Definition packet_to_bytes (p : packet) : list Z :=
  [p_ticks p mod 256; p_ticks p / 256; p_node p; p_cmd p; p_len p; p_csum p] ++ p_data p.

Definition packet_of_bytes (l : list Z) : packet :=
  mk_packet (l !!! 0%nat + 256 * l !!! 1%nat) (l !!! 2%nat) (l !!! 3%nat)
    (l !!! 4%nat) (l !!! 5%nat) (drop 6 l).

(** The fields are in the range of their C types and the array has its size. *)
Record packet_ok (p : packet) : Prop := {
  ok_ticks : is_u16 (p_ticks p);
  ok_node : is_u8 (p_node p);
  ok_cmd : is_u8 (p_cmd p);
  ok_len : is_u8 (p_len p);
  ok_csum : is_u8 (p_csum p);
  ok_data : bytes (p_data p);
  ok_size : length (p_data p) = 10%nat
}.

(** ** Channels *)

Record channel := mk_channel {
  c_state : Z;
  c_priority : Z;
  c_packet : packet
}.

#[export] Instance eta_channel : Eta channel := fun c =>
  mk_channel (c_state c) (c_priority c) (c_packet c).
#[export] Instance set_c_state : Setter c_state := ltac:(build_setter).
#[export] Instance set_c_priority : Setter c_priority := ltac:(build_setter).
#[export] Instance set_c_packet : Setter c_packet := ltac:(build_setter).

#[export] Instance channel_eq_dec : EqDecision channel.
Proof. solve_decision. Defined.

(** Objects with static storage start as zeros. *)
Definition zero_packet : packet := mk_packet 0 0 0 0 0 (replicate 10 0).
Definition zero_channel : channel := mk_channel 0 0 zero_packet.

Record channel_ok (c : channel) : Prop := {
  ok_state : is_u8 (c_state c);
  ok_priority : is_u8 (c_priority c);
  ok_packet : packet_ok (c_packet c)
}.

(** ** Layout *)

Lemma max_payload : MAX_PAYLOAD_SIZE = 10.
Proof. done. Qed.

Lemma packet_to_bytes_length p : packet_ok p -> length (packet_to_bytes p) = 16%nat.
Proof. intros H. simpl. by rewrite (ok_size _ H). Qed.

Lemma packet_to_bytes_u8 p : packet_ok p -> bytes (packet_to_bytes p).
Proof.
  intros []. apply bytes_app. split; [|done]. bytes_cons.
Qed.

Lemma packet_of_to_bytes p : packet_ok p -> packet_of_bytes (packet_to_bytes p) = p.
Proof.
  destruct p. intros [Ht _ _ _ _ _ _]. cbn in *.
  unfold packet_of_bytes, packet_to_bytes. cbn. f_equal. warith.
Qed.

(** A block of 16 bytes is destructed into header and data. *)
Lemma packet_block (l : list Z) :
  length l = 16%nat ->
  exists a b c d e f k, l = [a; b; c; d; e; f] ++ k /\ length k = 10%nat.
Proof.
  intros Hl. do 6 (destruct l as [|? l]; [done|]).
  eexists _, _, _, _, _, _, l. split; [done|]. simpl in Hl. lia.
Qed.

Lemma packet_of_bytes_ok l : bytes l -> length l = 16%nat -> packet_ok (packet_of_bytes l).
Proof.
  intros Hb Hl. destruct (packet_block l Hl) as (a&b&c&d&e&f&k&->&Hk).
  apply bytes_app in Hb as [Hh Hb]. bytes_inv Hh. split; cbn; try done. warith.
Qed.

Lemma packet_to_of_bytes l :
  bytes l -> length l = 16%nat -> packet_to_bytes (packet_of_bytes l) = l.
Proof.
  intros Hb Hl. destruct (packet_block l Hl) as (a&b&c&d&e&f&k&->&Hk).
  apply bytes_app in Hb as [Hh Hb]. bytes_inv Hh. unfold packet_to_bytes, packet_of_bytes. cbn. repeat f_equal; warith.
Qed.

Lemma zero_packet_ok : packet_ok zero_packet.
Proof. split; cbn; try warith. bytes_cons. Qed.

Lemma zero_channel_ok : channel_ok zero_channel.
Proof. split; cbn; [warith..|apply zero_packet_ok]. Qed.

#[export] Hint Resolve packet_of_bytes_ok packet_to_bytes_u8 packet_to_bytes_length
  zero_packet_ok zero_channel_ok ok_packet : libradio.
