(* ===== verification/Machine.v ===== *)
(** The machine the firmware runs on: [struct libradio], the other objects with
    static storage, the registers of the ATmega328P the code touches, the
    interrupts still to come, and the platform behind libavr (the Si4463 on the
    SPI bus, the EEPROM, the analogue inputs), which is a parameter. *)

From S2P Require Export Prelude Cmd Packet.

(** ** Constants of internal.h *)

Definition MAX_SPI_BLOCK : Z := 20.
Definition SI4463_PACKET_LEN : Z := 16.

Definition SI4463_PART_INFO : Z := 0x01.
Definition SI4463_FUNC_INFO : Z := 0x10.
Definition SI4463_GET_PROPERTY : Z := 0x12.
Definition SI4463_FIFO_INFO : Z := 0x15.
Definition SI4463_GET_INT_STATUS : Z := 0x20.
Definition SI4463_REQUEST_DEVICE_STATE : Z := 0x33.
Definition SI4463_CHANGE_STATE : Z := 0x34.
Definition SI4463_START_TX : Z := 0x31.
Definition SI4463_WRITE_TX_FIFO : Z := 0x66.
Definition SI4463_PACKET_INFO : Z := 0x16.
Definition SI4463_GET_MODEM_STATUS : Z := 0x22.
Definition SI4463_START_RX : Z := 0x32.
Definition SI4463_READ_RX_FIFO : Z := 0x77.
Definition SI4463_GET_PH_STATUS : Z := 0x21.
Definition SI4463_GET_CHIP_STATUS : Z := 0x23.

Definition SI4463_STATE_NOCHANGE : Z := 0.
Definition SI4463_STATE_SLEEP : Z := 1.
Definition SI4463_STATE_READY : Z := 3.
Definition SI4463_STATE_TX : Z := 7.
Definition SI4463_STATE_RX : Z := 8.

Definition SPI_SEND_OK : Z := 0.
Definition SPI_SEND_WRITE_FAIL : Z := 1.
Definition SPI_SEND_STATUS_FAIL : Z := 2.
Definition SPI_SEND_ACK_FAIL : Z := 3.
Definition SPI_SEND_READ_FAIL : Z := 4.
Definition SPI_SEND_TIMEOUT : Z := 5.

(** ** The library's record *)

(** [struct libradio] of internal.h: the state and the settings of the library. *)
Record libradio := mk_libradio {
  r_state : Z;
  r_tens_of_minutes : Z;
  r_ms_ticks : Z;
  r_slow_period : Z;
  r_fast_period : Z;
  r_period : Z;
  r_heart_beat : Z;
  r_date : Z;
  r_timeout : Z;
  r_all_ticks : Z;
  r_main_ticks : Z;
  r_tick_count : Z;
  r_catch_irq : Z;
  r_my_channel : Z;
  r_curr_channel : Z;
  r_my_node_id : Z;
  r_cat1 : Z;
  r_cat2 : Z;
  r_num1 : Z;
  r_num2 : Z;
  r_chip_rev : Z;
  r_part_id : Z;
  r_pbuild : Z;
  r_device_id : Z;
  r_customer : Z;
  r_rom_id : Z;
  r_rev_ext : Z;
  r_rev_branch : Z;
  r_rev_int : Z;
  r_patch : Z;
  r_func : Z;
  r_npacket_rx : Z;
  r_npacket_tx : Z;
  r_curr_state : Z;
  r_radio_active : Z;
  r_rx_fifo : Z;
  r_tx_fifo : Z;
  r_int_pending : Z;
  r_int_status : Z;
  r_ph_pending : Z;
  r_ph_status : Z;
  r_modem_pending : Z;
  r_modem_status : Z;
  r_chip_pending : Z;
  r_chip_status : Z;
  r_cmd_error : Z;
  r_saw_rx : Z;
  r_current_rssi : Z;
  r_latch_rssi : Z;
  r_ant1_rssi : Z;
  r_ant2_rssi : Z
}.

#[export] Instance eta_libradio : Eta (libradio) := fun l =>
  mk_libradio (r_state l) (r_tens_of_minutes l) (r_ms_ticks l) (r_slow_period l)
    (r_fast_period l) (r_period l) (r_heart_beat l) (r_date l) (r_timeout l) (r_all_ticks l)
    (r_main_ticks l) (r_tick_count l) (r_catch_irq l) (r_my_channel l) (r_curr_channel l)
    (r_my_node_id l) (r_cat1 l) (r_cat2 l) (r_num1 l) (r_num2 l) (r_chip_rev l)
    (r_part_id l) (r_pbuild l) (r_device_id l) (r_customer l) (r_rom_id l) (r_rev_ext l)
    (r_rev_branch l) (r_rev_int l) (r_patch l) (r_func l) (r_npacket_rx l) (r_npacket_tx l)
    (r_curr_state l) (r_radio_active l) (r_rx_fifo l) (r_tx_fifo l) (r_int_pending l)
    (r_int_status l) (r_ph_pending l) (r_ph_status l) (r_modem_pending l) (r_modem_status l)
    (r_chip_pending l) (r_chip_status l) (r_cmd_error l) (r_saw_rx l) (r_current_rssi l)
    (r_latch_rssi l) (r_ant1_rssi l) (r_ant2_rssi l).
#[export] Instance set_r_state : Setter r_state := ltac:(build_setter).
#[export] Instance set_r_tens_of_minutes : Setter r_tens_of_minutes := ltac:(build_setter).
#[export] Instance set_r_ms_ticks : Setter r_ms_ticks := ltac:(build_setter).
#[export] Instance set_r_slow_period : Setter r_slow_period := ltac:(build_setter).
#[export] Instance set_r_fast_period : Setter r_fast_period := ltac:(build_setter).
#[export] Instance set_r_period : Setter r_period := ltac:(build_setter).
#[export] Instance set_r_heart_beat : Setter r_heart_beat := ltac:(build_setter).
#[export] Instance set_r_date : Setter r_date := ltac:(build_setter).
#[export] Instance set_r_timeout : Setter r_timeout := ltac:(build_setter).
#[export] Instance set_r_all_ticks : Setter r_all_ticks := ltac:(build_setter).
#[export] Instance set_r_main_ticks : Setter r_main_ticks := ltac:(build_setter).
#[export] Instance set_r_tick_count : Setter r_tick_count := ltac:(build_setter).
#[export] Instance set_r_catch_irq : Setter r_catch_irq := ltac:(build_setter).
#[export] Instance set_r_my_channel : Setter r_my_channel := ltac:(build_setter).
#[export] Instance set_r_curr_channel : Setter r_curr_channel := ltac:(build_setter).
#[export] Instance set_r_my_node_id : Setter r_my_node_id := ltac:(build_setter).
#[export] Instance set_r_cat1 : Setter r_cat1 := ltac:(build_setter).
#[export] Instance set_r_cat2 : Setter r_cat2 := ltac:(build_setter).
#[export] Instance set_r_num1 : Setter r_num1 := ltac:(build_setter).
#[export] Instance set_r_num2 : Setter r_num2 := ltac:(build_setter).
#[export] Instance set_r_chip_rev : Setter r_chip_rev := ltac:(build_setter).
#[export] Instance set_r_part_id : Setter r_part_id := ltac:(build_setter).
#[export] Instance set_r_pbuild : Setter r_pbuild := ltac:(build_setter).
#[export] Instance set_r_device_id : Setter r_device_id := ltac:(build_setter).
#[export] Instance set_r_customer : Setter r_customer := ltac:(build_setter).
#[export] Instance set_r_rom_id : Setter r_rom_id := ltac:(build_setter).
#[export] Instance set_r_rev_ext : Setter r_rev_ext := ltac:(build_setter).
#[export] Instance set_r_rev_branch : Setter r_rev_branch := ltac:(build_setter).
#[export] Instance set_r_rev_int : Setter r_rev_int := ltac:(build_setter).
#[export] Instance set_r_patch : Setter r_patch := ltac:(build_setter).
#[export] Instance set_r_func : Setter r_func := ltac:(build_setter).
#[export] Instance set_r_npacket_rx : Setter r_npacket_rx := ltac:(build_setter).
#[export] Instance set_r_npacket_tx : Setter r_npacket_tx := ltac:(build_setter).
#[export] Instance set_r_curr_state : Setter r_curr_state := ltac:(build_setter).
#[export] Instance set_r_radio_active : Setter r_radio_active := ltac:(build_setter).
#[export] Instance set_r_rx_fifo : Setter r_rx_fifo := ltac:(build_setter).
#[export] Instance set_r_tx_fifo : Setter r_tx_fifo := ltac:(build_setter).
#[export] Instance set_r_int_pending : Setter r_int_pending := ltac:(build_setter).
#[export] Instance set_r_int_status : Setter r_int_status := ltac:(build_setter).
#[export] Instance set_r_ph_pending : Setter r_ph_pending := ltac:(build_setter).
#[export] Instance set_r_ph_status : Setter r_ph_status := ltac:(build_setter).
#[export] Instance set_r_modem_pending : Setter r_modem_pending := ltac:(build_setter).
#[export] Instance set_r_modem_status : Setter r_modem_status := ltac:(build_setter).
#[export] Instance set_r_chip_pending : Setter r_chip_pending := ltac:(build_setter).
#[export] Instance set_r_chip_status : Setter r_chip_status := ltac:(build_setter).
#[export] Instance set_r_cmd_error : Setter r_cmd_error := ltac:(build_setter).
#[export] Instance set_r_saw_rx : Setter r_saw_rx := ltac:(build_setter).
#[export] Instance set_r_current_rssi : Setter r_current_rssi := ltac:(build_setter).
#[export] Instance set_r_latch_rssi : Setter r_latch_rssi := ltac:(build_setter).
#[export] Instance set_r_ant1_rssi : Setter r_ant1_rssi := ltac:(build_setter).
#[export] Instance set_r_ant2_rssi : Setter r_ant2_rssi := ltac:(build_setter).

(** [memset(&radio, 0, sizeof(struct libradio))]. *)
Definition zero_libradio : libradio :=
  mk_libradio
    0 0 0 0 0 0 0 0 0 0 0 0 0 0 0 0 0 0 0 0 0 0 0 0 0 0 0 0 0 0 0 0 0 0 0 0 0 0 0 0 0 0 0 0
    0 0 0 0 0 0 0.

(** The fields by the width of their C types. *)
Definition libradio_u8 (l : libradio) : list Z :=
   [r_state l; r_tens_of_minutes l; r_slow_period l; r_fast_period l; r_period l;
   r_catch_irq l; r_my_channel l; r_curr_channel l; r_my_node_id l; r_cat1 l; r_cat2 l;
   r_num1 l; r_num2 l; r_chip_rev l; r_pbuild l; r_customer l; r_rom_id l; r_rev_ext l;
   r_rev_branch l; r_rev_int l; r_func l; r_curr_state l; r_radio_active l; r_rx_fifo l;
   r_tx_fifo l; r_int_pending l; r_int_status l; r_ph_pending l; r_ph_status l;
   r_modem_pending l; r_modem_status l; r_chip_pending l; r_chip_status l; r_cmd_error l;
   r_saw_rx l; r_current_rssi l; r_latch_rssi l; r_ant1_rssi l; r_ant2_rssi l].

Definition libradio_u16 (l : libradio) : list Z :=
   [r_ms_ticks l; r_heart_beat l; r_date l; r_timeout l; r_all_ticks l; r_main_ticks l;
   r_tick_count l; r_part_id l; r_device_id l; r_patch l; r_npacket_rx l; r_npacket_tx l].

(** Every field holds a value of its C type. *)
Definition libradio_ok (l : libradio) : Prop :=
  Forall is_u8 (libradio_u8 l) /\ Forall is_u16 (libradio_u16 l).

(** A field holds values of its type, and any value of the type may be stored. *)
Class TypedField {T : Type} (range : T -> Prop) (f : libradio -> T) `{!Setter f} := {
  field_put : forall l v, libradio_ok l -> range v -> libradio_ok (l <| f := v |>);
  field_get : forall l, libradio_ok l -> range (f l)
}.

Local Ltac byte_field k :=
  split;
    [intros l v [H8 H16] Hv; split;
       [exact (Forall_insert is_u8 (libradio_u8 l) k v H8 Hv) | exact H16]
    |intros l [H8 _]; exact (Forall_lookup_1 is_u8 (libradio_u8 l) k _ H8 eq_refl)].
Local Ltac word_field k :=
  split;
    [intros l v [H8 H16] Hv; split;
       [exact H8 | exact (Forall_insert is_u16 (libradio_u16 l) k v H16 Hv)]
    |intros l [_ H16]; exact (Forall_lookup_1 is_u16 (libradio_u16 l) k _ H16 eq_refl)].

#[export] Instance typed_r_state : TypedField is_u8 r_state := ltac:(byte_field 0%nat).
#[export] Instance typed_r_tens_of_minutes : TypedField is_u8 r_tens_of_minutes := ltac:(byte_field 1%nat).
#[export] Instance typed_r_slow_period : TypedField is_u8 r_slow_period := ltac:(byte_field 2%nat).
#[export] Instance typed_r_fast_period : TypedField is_u8 r_fast_period := ltac:(byte_field 3%nat).
#[export] Instance typed_r_period : TypedField is_u8 r_period := ltac:(byte_field 4%nat).
#[export] Instance typed_r_catch_irq : TypedField is_u8 r_catch_irq := ltac:(byte_field 5%nat).
#[export] Instance typed_r_my_channel : TypedField is_u8 r_my_channel := ltac:(byte_field 6%nat).
#[export] Instance typed_r_curr_channel : TypedField is_u8 r_curr_channel := ltac:(byte_field 7%nat).
#[export] Instance typed_r_my_node_id : TypedField is_u8 r_my_node_id := ltac:(byte_field 8%nat).
#[export] Instance typed_r_cat1 : TypedField is_u8 r_cat1 := ltac:(byte_field 9%nat).
#[export] Instance typed_r_cat2 : TypedField is_u8 r_cat2 := ltac:(byte_field 10%nat).
#[export] Instance typed_r_num1 : TypedField is_u8 r_num1 := ltac:(byte_field 11%nat).
#[export] Instance typed_r_num2 : TypedField is_u8 r_num2 := ltac:(byte_field 12%nat).
#[export] Instance typed_r_chip_rev : TypedField is_u8 r_chip_rev := ltac:(byte_field 13%nat).
#[export] Instance typed_r_pbuild : TypedField is_u8 r_pbuild := ltac:(byte_field 14%nat).
#[export] Instance typed_r_customer : TypedField is_u8 r_customer := ltac:(byte_field 15%nat).
#[export] Instance typed_r_rom_id : TypedField is_u8 r_rom_id := ltac:(byte_field 16%nat).
#[export] Instance typed_r_rev_ext : TypedField is_u8 r_rev_ext := ltac:(byte_field 17%nat).
#[export] Instance typed_r_rev_branch : TypedField is_u8 r_rev_branch := ltac:(byte_field 18%nat).
#[export] Instance typed_r_rev_int : TypedField is_u8 r_rev_int := ltac:(byte_field 19%nat).
#[export] Instance typed_r_func : TypedField is_u8 r_func := ltac:(byte_field 20%nat).
#[export] Instance typed_r_curr_state : TypedField is_u8 r_curr_state := ltac:(byte_field 21%nat).
#[export] Instance typed_r_radio_active : TypedField is_u8 r_radio_active := ltac:(byte_field 22%nat).
#[export] Instance typed_r_rx_fifo : TypedField is_u8 r_rx_fifo := ltac:(byte_field 23%nat).
#[export] Instance typed_r_tx_fifo : TypedField is_u8 r_tx_fifo := ltac:(byte_field 24%nat).
#[export] Instance typed_r_int_pending : TypedField is_u8 r_int_pending := ltac:(byte_field 25%nat).
#[export] Instance typed_r_int_status : TypedField is_u8 r_int_status := ltac:(byte_field 26%nat).
#[export] Instance typed_r_ph_pending : TypedField is_u8 r_ph_pending := ltac:(byte_field 27%nat).
#[export] Instance typed_r_ph_status : TypedField is_u8 r_ph_status := ltac:(byte_field 28%nat).
#[export] Instance typed_r_modem_pending : TypedField is_u8 r_modem_pending := ltac:(byte_field 29%nat).
#[export] Instance typed_r_modem_status : TypedField is_u8 r_modem_status := ltac:(byte_field 30%nat).
#[export] Instance typed_r_chip_pending : TypedField is_u8 r_chip_pending := ltac:(byte_field 31%nat).
#[export] Instance typed_r_chip_status : TypedField is_u8 r_chip_status := ltac:(byte_field 32%nat).
#[export] Instance typed_r_cmd_error : TypedField is_u8 r_cmd_error := ltac:(byte_field 33%nat).
#[export] Instance typed_r_saw_rx : TypedField is_u8 r_saw_rx := ltac:(byte_field 34%nat).
#[export] Instance typed_r_current_rssi : TypedField is_u8 r_current_rssi := ltac:(byte_field 35%nat).
#[export] Instance typed_r_latch_rssi : TypedField is_u8 r_latch_rssi := ltac:(byte_field 36%nat).
#[export] Instance typed_r_ant1_rssi : TypedField is_u8 r_ant1_rssi := ltac:(byte_field 37%nat).
#[export] Instance typed_r_ant2_rssi : TypedField is_u8 r_ant2_rssi := ltac:(byte_field 38%nat).
#[export] Instance typed_r_ms_ticks : TypedField is_u16 r_ms_ticks := ltac:(word_field 0%nat).
#[export] Instance typed_r_heart_beat : TypedField is_u16 r_heart_beat := ltac:(word_field 1%nat).
#[export] Instance typed_r_date : TypedField is_u16 r_date := ltac:(word_field 2%nat).
#[export] Instance typed_r_timeout : TypedField is_u16 r_timeout := ltac:(word_field 3%nat).
#[export] Instance typed_r_all_ticks : TypedField is_u16 r_all_ticks := ltac:(word_field 4%nat).
#[export] Instance typed_r_main_ticks : TypedField is_u16 r_main_ticks := ltac:(word_field 5%nat).
#[export] Instance typed_r_tick_count : TypedField is_u16 r_tick_count := ltac:(word_field 6%nat).
#[export] Instance typed_r_part_id : TypedField is_u16 r_part_id := ltac:(word_field 7%nat).
#[export] Instance typed_r_device_id : TypedField is_u16 r_device_id := ltac:(word_field 8%nat).
#[export] Instance typed_r_patch : TypedField is_u16 r_patch := ltac:(word_field 9%nat).
#[export] Instance typed_r_npacket_rx : TypedField is_u16 r_npacket_rx := ltac:(word_field 10%nat).
#[export] Instance typed_r_npacket_tx : TypedField is_u16 r_npacket_tx := ltac:(word_field 11%nat).

Lemma zero_libradio_ok : libradio_ok zero_libradio.
Proof. split; repeat constructor; done. Qed.

(** ** Interrupts *)

(** What can wake the processor: the timer (vector 11 of locore.S, which runs
    [clocktick]), the radio's interrupt pin (vector 1, [radio_irq]) and a
    character from the serial line (vector 18, libavr's [sio_in]). *)
Inductive event :=
| Tick
| RadioIrq
| SerialRx (c : Z).

(** ** Code outside the repository

    libavr and avr-libc, as functions on a platform state [D]: the SPI
    exchange of one byte (a byte, or a negative number on failure), the level
    of the slave-select pin as the chip sees it, the EEPROM and the
    analogue-to-digital converter. *)
Class Platform (D : Type) := {
  spi_init : D -> D;
  spi_byte : Z -> D -> Z * D;
  spi_select : bool -> D -> D;
  eeprom_read_byte : Z -> D -> Z;
  eeprom_write_byte : Z -> Z -> D -> D;
  analog_read : Z -> D -> Z * D
}.

(** The documented behaviour of that code the theorems rely on. *)
Class PlatformLaws (D : Type) `{Platform D} := {
  spi_byte_range : forall b d, -1 <= (spi_byte b d).1 < 256;
  eeprom_read_range : forall a d, is_u8 (eeprom_read_byte a d)
}.

(** ** The machine

    [D] is the platform's state, [X] the static objects of the application
    linked with the library. *)

Record machine (D X : Type) := mk_machine {
  m_radio : libradio;
  m_pkt_data : list Z;
  m_pkt_index : Z;
  m_pkt_send_len : Z;
  m_pkt_recv_len : Z;
  m_hbclock : Z;
  m_timer_count : Z;
  m_thread_ok : Z;
  m_elapsed_second : Z;
  m_irq_fired : Z;
  m_statusbuffer : list Z;
  m_rxchan : channel;
  m_txchan : channel;
  m_sreg_i : bool;
  m_led : bool;
  m_ss : bool;
  m_tccr1b : Z;
  m_tccr1c : Z;
  m_timsk1 : Z;
  m_eicra : Z;
  m_eimsk : Z;
  m_events : list event;
  m_iqueue : list Z;
  m_out : list Z;
  m_dev : D;
  m_app : X
}.
Arguments mk_machine {D X}.
Arguments m_radio {D X} _.
Arguments m_pkt_data {D X} _.
Arguments m_pkt_index {D X} _.
Arguments m_pkt_send_len {D X} _.
Arguments m_pkt_recv_len {D X} _.
Arguments m_hbclock {D X} _.
Arguments m_timer_count {D X} _.
Arguments m_thread_ok {D X} _.
Arguments m_elapsed_second {D X} _.
Arguments m_irq_fired {D X} _.
Arguments m_statusbuffer {D X} _.
Arguments m_rxchan {D X} _.
Arguments m_txchan {D X} _.
Arguments m_sreg_i {D X} _.
Arguments m_led {D X} _.
Arguments m_ss {D X} _.
Arguments m_tccr1b {D X} _.
Arguments m_tccr1c {D X} _.
Arguments m_timsk1 {D X} _.
Arguments m_eicra {D X} _.
Arguments m_eimsk {D X} _.
Arguments m_events {D X} _.
Arguments m_iqueue {D X} _.
Arguments m_out {D X} _.
Arguments m_dev {D X} _.
Arguments m_app {D X} _.

#[export] Instance eta_machine {D X} : Eta (machine D X) := fun m =>
  mk_machine (m_radio m) (m_pkt_data m) (m_pkt_index m) (m_pkt_send_len m)
    (m_pkt_recv_len m) (m_hbclock m) (m_timer_count m) (m_thread_ok m) (m_elapsed_second m)
    (m_irq_fired m) (m_statusbuffer m) (m_rxchan m) (m_txchan m) (m_sreg_i m) (m_led m)
    (m_ss m) (m_tccr1b m) (m_tccr1c m) (m_timsk1 m) (m_eicra m) (m_eimsk m) (m_events m)
    (m_iqueue m) (m_out m) (m_dev m) (m_app m).
#[export] Instance set_m_radio {D X} : Setter (@m_radio D X) := ltac:(build_setter).
#[export] Instance set_m_pkt_data {D X} : Setter (@m_pkt_data D X) := ltac:(build_setter).
#[export] Instance set_m_pkt_index {D X} : Setter (@m_pkt_index D X) := ltac:(build_setter).
#[export] Instance set_m_pkt_send_len {D X} : Setter (@m_pkt_send_len D X) := ltac:(build_setter).
#[export] Instance set_m_pkt_recv_len {D X} : Setter (@m_pkt_recv_len D X) := ltac:(build_setter).
#[export] Instance set_m_hbclock {D X} : Setter (@m_hbclock D X) := ltac:(build_setter).
#[export] Instance set_m_timer_count {D X} : Setter (@m_timer_count D X) := ltac:(build_setter).
#[export] Instance set_m_thread_ok {D X} : Setter (@m_thread_ok D X) := ltac:(build_setter).
#[export] Instance set_m_elapsed_second {D X} : Setter (@m_elapsed_second D X) := ltac:(build_setter).
#[export] Instance set_m_irq_fired {D X} : Setter (@m_irq_fired D X) := ltac:(build_setter).
#[export] Instance set_m_statusbuffer {D X} : Setter (@m_statusbuffer D X) := ltac:(build_setter).
#[export] Instance set_m_rxchan {D X} : Setter (@m_rxchan D X) := ltac:(build_setter).
#[export] Instance set_m_txchan {D X} : Setter (@m_txchan D X) := ltac:(build_setter).
#[export] Instance set_m_sreg_i {D X} : Setter (@m_sreg_i D X) := ltac:(build_setter).
#[export] Instance set_m_led {D X} : Setter (@m_led D X) := ltac:(build_setter).
#[export] Instance set_m_ss {D X} : Setter (@m_ss D X) := ltac:(build_setter).
#[export] Instance set_m_tccr1b {D X} : Setter (@m_tccr1b D X) := ltac:(build_setter).
#[export] Instance set_m_tccr1c {D X} : Setter (@m_tccr1c D X) := ltac:(build_setter).
#[export] Instance set_m_timsk1 {D X} : Setter (@m_timsk1 D X) := ltac:(build_setter).
#[export] Instance set_m_eicra {D X} : Setter (@m_eicra D X) := ltac:(build_setter).
#[export] Instance set_m_eimsk {D X} : Setter (@m_eimsk D X) := ltac:(build_setter).
#[export] Instance set_m_events {D X} : Setter (@m_events D X) := ltac:(build_setter).
#[export] Instance set_m_iqueue {D X} : Setter (@m_iqueue D X) := ltac:(build_setter).
#[export] Instance set_m_out {D X} : Setter (@m_out D X) := ltac:(build_setter).
#[export] Instance set_m_dev {D X} : Setter (@m_dev D X) := ltac:(build_setter).
#[export] Instance set_m_app {D X} : Setter (@m_app D X) := ltac:(build_setter).

(** Equations between machines, field by field. *)
Ltac by_machine m := destruct m; lazy; reflexivity.

(** The machine as the start-up code leaves it: every static object is zero. *)
Definition reset_machine {D X} (d : D) (x : X) (evs : list event) : machine D X :=
  mk_machine zero_libradio (replicate 20 0) 0 0 0 0 0 0 0 0 (replicate 16 0)
    zero_channel zero_channel false false false 0 0 0 0 0 evs [] [] d x.

(** Firmware code: a command on the machine. *)
Abbreviation fw D X := (cmd (machine D X)).

Section access.
Context {D X : Type}.

(** [radio.f] and [radio.f = v]. *)
Definition rget {T} (f : libradio -> T) : fw D X T := gets (fun m => f (m_radio m)).
Definition rput {T} (f : libradio -> T) `{!Setter f} (v : T) : fw D X unit :=
  modify (fun m => m <| m_radio ::= fun l => l <| f := v |> |>).

(** The same for an object outside [radio]. *)
Definition mput {T} (f : machine D X -> T) `{!Setter f} (v : T) : fw D X unit :=
  modify (fun m => m <| f := v |>).

(** [printf] appends to the serial output. *)
Definition print (l : list Z) : fw D X unit :=
  modify (fun m => m <| m_out ::= fun o => o ++ l |>).

Definition cli : fw D X unit := mput m_sreg_i false.
Definition sei : fw D X unit := mput m_sreg_i true.

(** setled.S: the LED hangs between port D3 and the supply. *)
Definition _setled (flag : Z) : fw D X unit := mput m_led (negb (flag =? 0)).

(** [pkt_data\[i\] = v] and the read of [pkt_data\[i\]]. *)
Definition pkt_put (i v : Z) : fw D X unit :=
  l ← gets m_pkt_data; l' ← array_put l i v; mput m_pkt_data l'.
Definition pkt_get (i : Z) : fw D X Z := l ← gets m_pkt_data; array_get l i.

(** [pkt_data\[0\] = l0, pkt_data\[1\] = l1, ...]. *)
Fixpoint pkt_puts (i : Z) (l : list Z) : fw D X unit :=
  match l with
  | [] => mret tt
  | v :: l' => pkt_put i v;; pkt_puts (i + 1) l'
  end.
End access.

Section platform.
Context {D X : Type} `{Platform D}.

(** setss.S: the slave-select pin, low while the flag is set. *)
Definition _setss (flag : bool) : fw D X unit :=
  modify (fun m => m <| m_ss := flag |> <| m_dev ::= spi_select flag |>).

Definition spi (b : Z) : fw D X Z := fun m =>
  let '(r, d) := spi_byte b (m_dev m) in Done r (m <| m_dev := d |>).

(** libavr's reading of an analogue input. *)
Definition analog (ch : Z) : fw D X Z := fun m =>
  let '(v, d) := analog_read ch (m_dev m) in Done v (m <| m_dev := d |>).
End platform.

(** ** Rules for the accessors *)

Section rules.
Context {D X : Type}.
Implicit Types m : machine D X.

Lemma wp_rget {T} (f : libradio -> T) Q m : wp (rget f) Q m = Q (f (m_radio m)) m.
Proof. done. Qed.

Lemma wp_rput {T} (f : libradio -> T) `{!Setter f} v Q m :
  wp (rput f v) Q m = Q tt (m <| m_radio ::= fun l => l <| f := v |> |>).
Proof. done. Qed.

Lemma wp_mput {T} (f : machine D X -> T) `{!Setter f} v Q m :
  wp (mput f v) Q m = Q tt (m <| f := v |>).
Proof. done. Qed.

Lemma wp_print l Q m : wp (print l) Q m = Q tt (m <| m_out ::= fun o => o ++ l |>).
Proof. done. Qed.

Lemma wp_pkt_put i v Q m :
  0 <= i < Z.of_nat (length (m_pkt_data m)) ->
  wp (pkt_put i v) Q m = Q tt (m <| m_pkt_data := <[Z.to_nat i := v]> (m_pkt_data m) |>).
Proof.
  intros Hi. unfold pkt_put. wp_simpl. rewrite wp_array_put by done. by wp_simpl.
Qed.

Lemma wp_pkt_get i v Q m :
  0 <= i -> m_pkt_data m !! Z.to_nat i = Some v -> wp (pkt_get i) Q m = Q v m.
Proof.
  intros Hi Hv. unfold pkt_get. wp_simpl. by rewrite (wp_array_get _ _ v).
Qed.
End rules.

#[export] Hint Rewrite @wp_rget @wp_rput @wp_mput @wp_print : wp.
