(* ===== verification/Clock.v ===== *)
(** clock.c, time.c and power_mode.c: the timer interrupt, the delay of the
    main loop, the time of day, the LED, and the speed of the clock. Also the
    interface of the application the library is linked with. *)

From S2P Require Import Machine.

(** ** The application's call-backs

    [operate] and [fetch_status] must be defined by the application;
    [libradio_power_mode] may be, and replaces the library's own when it is
    (power_mode.c is only linked in otherwise). [fetch_status] fills the buffer
    it is given and returns the length and the buffer. *)
Class App (D X : Type) := {
  operate : packet -> fw D X unit;
  fetch_status : Z -> list Z -> Z -> fw D X (Z * list Z);
  own_power_mode : option (Z -> fw D X unit)
}.

(** The applications that use the library's [libradio_power_mode]. *)
Class StockPower (D X : Type) `{App D X} := stock_power : own_power_mode = None.

(** Bit numbers of the ATmega328P's timer registers. *)
Definition WGM12 : Z := 3.
Definition CS12 : Z := 2.
Definition CS11 : Z := 1.
Definition CS10 : Z := 0.
Definition OCIE1A : Z := 1.

Definition bit (n : Z) : Z := Z.shiftl 1 n.

(** The LED patterns, one bit per note. *)
Definition songs : list Z := [0xffff; 0x3333; 0x0; 0x1; 0xf; 0xff; 0xf7].

Section clock.
Context {D X : Type}.

(** *** The four jobs of [clocktick], in its order *)

Definition clocktick_song : fw D X unit :=
  p ← rget r_period;
  hb ← gets m_hbclock;
  mput m_hbclock (u8 (hb + p));;
  hb ← gets m_hbclock;
  when (10 <? hb) (
    mput m_hbclock (u8 (hb - 10));;
    h ← rget r_heart_beat;
    let ledf := if Z.land h 0x8000 =? 0 then 0 else 1 in
    _setled ledf;;
    rput r_heart_beat (u16 (Z.lor (Z.shiftl h 1) ledf))).

Definition clocktick_time : fw D X unit :=
  tom ← rget r_tens_of_minutes;
  when (negb (tom =? 0xff)) (
    ms ← rget r_ms_ticks;
    p ← rget r_period;
    rput r_ms_ticks (u16 (ms + p));;
    ms ← rget r_ms_ticks;
    when (60000 <=? ms) (
      rput r_ms_ticks 0;;
      rput r_tens_of_minutes (u8 (tom + 1)))).

Definition clocktick_main : fw D X unit :=
  mt ← rget r_main_ticks;
  when (negb (mt =? 0)) (
    rput r_main_ticks (u16 (mt - 1));;
    mt ← rget r_main_ticks;
    when (mt =? 0) (
      mput m_thread_ok 1;;
      tc ← rget r_tick_count;
      rput r_main_ticks tc)).

Definition clocktick_second : fw D X unit :=
  tc ← gets m_timer_count;
  p ← rget r_period;
  mput m_timer_count (u16 (tc + p));;
  tc ← gets m_timer_count;
  when (100 <=? tc) (
    mput m_timer_count (u16 (tc - 100));;
    mput m_elapsed_second 1).

Definition clocktick : fw D X unit :=
  clocktick_song;;
  clocktick_time;;
  clocktick_main;;
  clocktick_second;;
  n ← rget r_all_ticks;
  rput r_all_ticks (u16 (n + 1)).

(** *** Delays *)

Definition libradio_set_delay (delay : Z) : fw D X unit :=
  rput r_tick_count delay;;
  cli;;
  mt ← rget r_main_ticks;
  when (mt =? 0) (rput r_main_ticks delay);;
  sei.

Definition libradio_get_delay : fw D X Z := rget r_tick_count.

Definition libradio_tick_wait : fw D X Z :=
  run_ok ← gets m_thread_ok;
  mput m_thread_ok 0;;
  mret run_ok.

Definition libradio_elapsed_second : fw D X Z :=
  old_value ← gets m_elapsed_second;
  mput m_elapsed_second 0;;
  mret old_value.

Definition libradio_set_song (new_state : Z) : fw D X unit :=
  let new_state :=
    if LIBRADIO_STATE_ACTIVE <? new_state then LIBRADIO_STATE_ACTIVE else new_state in
  s ← array_get songs new_state;
  rput r_heart_beat s.

(** *** time.c *)

Definition libradio_get_ticks : fw D X Z := rget r_ms_ticks.
Definition libradio_get_tom : fw D X Z := rget r_tens_of_minutes.

(** *** power_mode.c *)

Definition stock_power_mode (hi_flag : Z) : fw D X unit :=
  cli;;
  (if hi_flag =? 0 then
     p ← rget r_slow_period;
     rput r_period p;;
     mput m_tccr1b (Z.lor (Z.lor (bit WGM12) (bit CS12)) (bit CS10))
   else
     p ← rget r_fast_period;
     rput r_period p;;
     mput m_tccr1b (Z.lor (Z.lor (bit WGM12) (bit CS11)) (bit CS10)));;
  mput m_tccr1c 0;;
  mput m_timsk1 (bit OCIE1A);;
  sei.

Definition libradio_power_mode `{App D X} (hi_flag : Z) : fw D X unit :=
  match own_power_mode with
  | Some f => f hi_flag
  | None => stock_power_mode hi_flag
  end.
End clock.

(** ** The effect of one tick, as a function of the fields involved *)

Definition song_step (hb p h : Z) (led : bool) : Z * Z * bool :=
  let hb' := u8 (hb + p) in
  if 10 <? hb' then
    let ledf := if Z.land h 0x8000 =? 0 then 0 else 1 in
    (u8 (hb' - 10), u16 (Z.lor (Z.shiftl h 1) ledf), negb (ledf =? 0))
  else (hb', h, led).

Definition time_step (p tom ms : Z) : Z * Z :=
  if tom =? 0xff then (tom, ms)
  else let ms' := u16 (ms + p) in
       if 60000 <=? ms' then (u8 (tom + 1), 0) else (tom, ms').

Definition main_step (mt tc ok : Z) : Z * Z :=
  if mt =? 0 then (mt, ok)
  else let mt' := u16 (mt - 1) in
       if mt' =? 0 then (tc, 1) else (mt', ok).

Definition second_step (t p e : Z) : Z * Z :=
  let t' := u16 (t + p) in
  if 100 <=? t' then (u16 (t' - 100), 1) else (t', e).

Section clock_proofs.
Context {D X : Type}.
Implicit Types m : machine D X.

Definition tick_radio (l : libradio) (h : Z) (tm mn : Z * Z) : libradio :=
  l <| r_heart_beat := h |>
    <| r_tens_of_minutes := tm.1 |> <| r_ms_ticks := tm.2 |>
    <| r_main_ticks := mn.1 |>
    <| r_all_ticks := u16 (r_all_ticks l + 1) |>.

Definition tick_machine m : machine D X :=
  let l := m_radio m in
  let sg := song_step (m_hbclock m) (r_period l) (r_heart_beat l) (m_led m) in
  let tm := time_step (r_period l) (r_tens_of_minutes l) (r_ms_ticks l) in
  let mn := main_step (r_main_ticks l) (r_tick_count l) (m_thread_ok m) in
  let sc := second_step (m_timer_count m) (r_period l) (m_elapsed_second m) in
  m <| m_radio := tick_radio l sg.1.2 tm mn |>
    <| m_hbclock := sg.1.1 |> <| m_led := sg.2 |>
    <| m_thread_ok := mn.2 |>
    <| m_timer_count := sc.1 |> <| m_elapsed_second := sc.2 |>.

(** [n] timer interrupts in a row. *)
Definition ticks (n : nat) : fw D X unit := for_loop n 0 (fun _ => clocktick).

(** Each job is its step function; the records are compared field by field. *)
Local Ltac by_fields m := destruct m as [[] ]; reflexivity.

Lemma clocktick_song_eq m :
  let sg := song_step (m_hbclock m) (r_period (m_radio m))
              (r_heart_beat (m_radio m)) (m_led m) in
  clocktick_song m =
    Done tt (m <| m_radio ::= fun l => l <| r_heart_beat := sg.1.2 |> |>
               <| m_hbclock := sg.1.1 |> <| m_led := sg.2 |>).
Proof.
  unfold clocktick_song, song_step, mbind, cmd_bind, rget, gets, mput, modify.
  upd_simpl. cbv zeta. destruct (10 <? _); by_fields m.
Qed.

Lemma clocktick_time_eq m :
  let tm := time_step (r_period (m_radio m)) (r_tens_of_minutes (m_radio m))
              (r_ms_ticks (m_radio m)) in
  clocktick_time m =
    Done tt (m <| m_radio ::= fun l =>
                    l <| r_tens_of_minutes := tm.1 |> <| r_ms_ticks := tm.2 |> |>).
Proof.
  unfold clocktick_time, time_step, mbind, cmd_bind, rget, rput, gets, modify.
  cbv zeta. destruct (_ =? 0xff); [by_fields m|]. cbn [negb when]. upd_simpl.
  destruct (60000 <=? _); by_fields m.
Qed.

Lemma clocktick_main_eq m :
  let mn := main_step (r_main_ticks (m_radio m)) (r_tick_count (m_radio m))
              (m_thread_ok m) in
  clocktick_main m =
    Done tt (m <| m_radio ::= fun l => l <| r_main_ticks := mn.1 |> |>
               <| m_thread_ok := mn.2 |>).
Proof.
  unfold clocktick_main, main_step, mbind, cmd_bind, rget, rput, mput, gets, modify.
  cbv zeta. destruct (_ =? 0) eqn:E0; cbn [negb when]; [by_fields m|]. upd_simpl.
  destruct (u16 _ =? 0); by_fields m.
Qed.

Lemma clocktick_second_eq m :
  let sc := second_step (m_timer_count m) (r_period (m_radio m)) (m_elapsed_second m) in
  clocktick_second m =
    Done tt (m <| m_timer_count := sc.1 |> <| m_elapsed_second := sc.2 |>).
Proof.
  unfold clocktick_second, second_step, mbind, cmd_bind, rget, mput, gets, modify.
  cbv zeta. upd_simpl. destruct (100 <=? _); by_fields m.
Qed.

Lemma clocktick_eq m : clocktick m = Done tt (tick_machine m).
Proof.
  unfold clocktick.
  rewrite (bind_done _ _ _ _ _ (clocktick_song_eq m)).
  rewrite (bind_done _ _ _ _ _ (clocktick_time_eq _)).
  rewrite (bind_done _ _ _ _ _ (clocktick_main_eq _)).
  rewrite (bind_done _ _ _ _ _ (clocktick_second_eq _)).
  by_fields m.
Qed.

Lemma ticks_iter n m : ticks n m = Done tt (Nat.iter n tick_machine m).
Proof.
  unfold ticks. generalize 0. revert m. induction n as [|n IH]; intros m z; [done|].
  cbn [for_loop]. rewrite (bind_done _ _ _ _ _ (clocktick_eq m)), IH.
  by rewrite <- Nat.iter_succ_r.
Qed.

(** A property of the machine each tick keeps is kept by any number. *)
Lemma ticks_invariant (I : nat -> machine D X -> Prop) n m :
  I 0%nat m -> (forall k m', (k < n)%nat -> I k m' -> I (S k) (tick_machine m')) ->
  I n (Nat.iter n tick_machine m).
Proof.
  intros H0 Hstep. assert (forall k, (k <= n)%nat -> I k (Nat.iter k tick_machine m)) as H.
  { induction k as [|k IH]; intros Hk; [done|]. apply Hstep; [lia|]. apply IH. lia. }
  by apply H.
Qed.

(** *** Time of day *)

(** The time of day in units of 10 ms. *)
Definition wall_clock (l : libradio) : Z := r_tens_of_minutes l * 60000 + r_ms_ticks l.

Record time_ok (l : libradio) : Prop := {
  time_tom : is_u8 (r_tens_of_minutes l);
  time_ms : 0 <= r_ms_ticks l < 60000;
  time_period : is_u8 (r_period l)
}.

Lemma time_step_ok p tom ms :
  is_u8 p -> is_u8 tom -> 0 <= ms < 60000 ->
  let tm := time_step p tom ms in
  is_u8 tm.1 /\ 0 <= tm.2 < 60000 /\ tom <= tm.1 /\
  (tom = 255 -> tm = (tom, ms)) /\
  (0 < p -> 60000 mod p = 0 -> ms mod p = 0 -> tom < 255 ->
     tm.1 * 60000 + tm.2 = tom * 60000 + ms + p /\ tm.2 mod p = 0).
Proof.
  intros Hp Htom Hms. unfold time_step. destruct (Z.eqb_spec tom 255) as [->|Hne]; cbn.
  { split_and!; try done; try (intros; warith). }
  rewrite (u16_small (ms + p)) by warith. destruct (Z.leb_spec 60000 (ms + p)) as [Hw|Hw]; cbn.
  - rewrite (u8_small (tom + 1)) by warith. split_and!; try done; try (intros; warith).
    intros Hp0 Hdiv Hal _. rewrite Z.mod_0_l by lia. split; [|done].
    enough (ms + p = 60000) by lia.
    apply Z.mod_divide in Hdiv as [a Ha]; [|lia]. apply Z.mod_divide in Hal as [b Hb]; [|lia].
    assert (b < a) by nia. assert (a <= b + 1) by nia. nia.
  - split_and!; try done; try (intros; warith). intros Hp0 _ Hal _. split; [lia|].
    rewrite <- (Z.mul_1_l p) at 1. by rewrite Z.mod_add by lia.
Qed.

Lemma tick_machine_time m :
  let tm := time_step (r_period (m_radio m)) (r_tens_of_minutes (m_radio m))
              (r_ms_ticks (m_radio m)) in
  r_tens_of_minutes (m_radio (tick_machine m)) = tm.1 /\
  r_ms_ticks (m_radio (tick_machine m)) = tm.2 /\
  r_period (m_radio (tick_machine m)) = r_period (m_radio m).
Proof. done. Qed.

(** *** The LED *)

Definition rotate (h : Z) : Z :=
  u16 (Z.lor (Z.shiftl h 1) (if Z.land h 0x8000 =? 0 then 0 else 1)).

Lemma land_top h : (Z.land h 0x8000 =? 0) = negb (Z.testbit h 15).
Proof.
  change 0x8000 with (Z.shiftl 1 15). destruct (Z.testbit h 15) eqn:E; cbn [negb].
  - apply Z.eqb_neq. intros H. apply (f_equal (fun z => Z.testbit z 15)) in H.
    rewrite Z.land_spec, E, Z.shiftl_spec in H by lia. done.
  - apply Z.eqb_eq, Z.bits_inj'. intros n Hn. rewrite Z.land_spec, Z.bits_0.
    destruct (Z.eq_dec n 15) as [->|Hne]; [by rewrite E|].
    rewrite Z.shiftl_1_l, Z.pow2_bits_false by lia. apply andb_false_r.
Qed.

Lemma rotate_spec h i :
  is_u16 h -> 0 <= i < 16 -> Z.testbit (rotate h) i = Z.testbit h ((i + 15) mod 16).
Proof.
  intros Hh Hi. unfold rotate, u16. rewrite land_top. change 65536 with (2 ^ 16).
  rewrite Z.mod_pow2_bits_low, Z.lor_spec, Z.shiftl_spec by lia.
  destruct (Z.eq_dec i 0) as [->|Hne].
  - rewrite (Z.testbit_neg_r h) by lia. change ((0 + 15) mod 16) with 15.
    by destruct (Z.testbit h 15).
  - replace ((i + 15) mod 16) with (i - 1) by warith.
    replace (Z.testbit (if negb _ then 0 else 1) i) with false; [apply orb_false_r|].
    destruct (Z.testbit h 15); cbn [negb]; [|by rewrite Z.bits_0].
    symmetry. apply (Z.pow2_bits_false 0 i). lia.
Qed.

Lemma rotate_iter k h i :
  is_u16 h -> 0 <= i < 16 ->
  is_u16 (Nat.iter k rotate h) /\
  Z.testbit (Nat.iter k rotate h) i = Z.testbit h ((i + 15 * Z.of_nat k) mod 16).
Proof.
  intros Hh. revert i. induction k as [|k IH]; intros i Hi.
  - split; [done|]. rewrite Z.mul_0_r, Z.add_0_r, Z.mod_small by lia. done.
  - rewrite Nat.iter_succ. destruct (IH i Hi) as [Hk _]. split; [apply u16_range|].
    rewrite rotate_spec by done. rewrite (proj2 (IH ((i + 15) mod 16) ltac:(warith))).
    f_equal. rewrite Nat2Z.inj_succ. warith.
Qed.

Lemma rotate_16 h : is_u16 h -> Nat.iter 16 rotate h = h.
Proof.
  intros Hh. apply Z.bits_inj'. intros n Hn.
  destruct (rotate_iter 16 h 0 Hh ltac:(lia)) as [H16 _].
  destruct (Z.ltb_spec n 16).
  - rewrite (proj2 (rotate_iter 16 h n Hh ltac:(lia))). f_equal. warith.
  - rewrite <- (Z.mod_small _ (2 ^ 16) H16), <- (Z.mod_small h (2 ^ 16) Hh).
    by rewrite !Z.mod_pow2_bits_high by lia.
Qed.

(** The part of the machine the song lives in. *)
Definition song_state m : Z * Z * bool :=
  (m_hbclock m, r_heart_beat (m_radio m), m_led m).

Definition song_next (p : Z) (x : Z * Z * bool) : Z * Z * bool :=
  song_step x.1.1 p x.1.2 x.2.

Lemma song_state_tick m :
  song_state (tick_machine m) = song_next (r_period (m_radio m)) (song_state m).
Proof.
  assert (forall x : Z * Z * bool, (x.1.1, x.1.2, x.2) = x) as Hx by by intros [[] ].
  apply (Hx (song_step _ _ _ _)).
Qed.

Lemma ticks_period n m :
  r_period (m_radio (Nat.iter n tick_machine m)) = r_period (m_radio m).
Proof. induction n as [|n IH]; [done|]. by rewrite Nat.iter_succ. Qed.

Lemma song_state_iter n m :
  song_state (Nat.iter n tick_machine m) =
    Nat.iter n (song_next (r_period (m_radio m))) (song_state m).
Proof.
  induction n as [|n IH]; [done|].
  by rewrite !Nat.iter_succ, song_state_tick, ticks_period, IH.
Qed.

Lemma song_next_note p hb h led :
  0 <= hb <= 10 -> 0 <= p <= 10 -> 10 < hb + p ->
  song_next p (hb, h, led) = (hb + p - 10, rotate h, Z.testbit h 15).
Proof.
  intros. unfold song_next, song_step, rotate. cbn [fst snd]. rewrite land_top.
  rewrite !(u8_small (hb + p)), u8_small by warith.
  destruct (Z.ltb_spec 10 (hb + p)); [|lia]. by destruct (Z.testbit h 15).
Qed.

Lemma song_next_quiet j p hb h led :
  0 <= hb -> 0 <= p -> hb + Z.of_nat j * p <= 10 ->
  Nat.iter j (song_next p) (hb, h, led) = (hb + Z.of_nat j * p, h, led).
Proof.
  intros Hhb Hp. induction j as [|j IH]; intros Hj.
  - by rewrite Z.mul_0_l, Z.add_0_r.
  - rewrite Nat.iter_succ, IH by lia. unfold song_next, song_step. cbn [fst snd].
    rewrite u8_small by warith.
    replace (hb + Z.of_nat j * p + p) with (hb + Z.of_nat (S j) * p) by lia.
    by destruct (Z.ltb_spec 10 (hb + Z.of_nat (S j) * p)); [lia|].
Qed.

(** With a period that divides 10 one note takes 10/p ticks: the LED shows the
    top bit of the pattern and the pattern is rotated. *)
Lemma song_note p q hb h led :
  1 <= p -> Z.of_nat q * p = 10 -> 1 <= hb <= 10 ->
  Nat.iter q (song_next p) (hb, h, led) = (hb, rotate h, Z.testbit h 15).
Proof.
  intros Hp Hq Hhb. set (j1 := Z.to_nat ((10 - hb) / p)).
  assert (Z.of_nat j1 = (10 - hb) / p) as Hj1 .
  { unfold j1. rewrite Z2Nat.id; [done|]. apply Z.div_pos; lia. }
  pose proof (Z.mul_div_le (10 - hb) p ltac:(lia)).
  pose proof (Z.mul_succ_div_gt (10 - hb) p ltac:(lia)).
  assert (Z.of_nat j1 * p <= 10 - hb < Z.of_nat j1 * p + p) as [Hlo Hhi] by nia.
  assert (j1 < q)%nat as Hlt by nia.
  replace q with (q - S j1 + S j1)%nat by lia.
  rewrite Nat.iter_add, Nat.iter_succ, song_next_quiet, song_next_note by lia.
  rewrite song_next_quiet by nia. f_equal. f_equal. nia.
Qed.

Lemma song_notes k p q hb h led :
  1 <= p -> Z.of_nat q * p = 10 -> 1 <= hb <= 10 ->
  Nat.iter (S k * q) (song_next p) (hb, h, led) =
    (hb, Nat.iter (S k) rotate h, Z.testbit (Nat.iter k rotate h) 15).
Proof.
  intros Hp Hq Hhb. revert led. induction k as [|k IH]; intros led.
  - rewrite Nat.mul_1_l. by apply song_note.
  - rewrite Nat.mul_succ_l, Nat.add_comm, Nat.iter_add, IH. by rewrite song_note.
Qed.

Lemma wp_ticks n Q m : wp (ticks n) Q m = Q tt (Nat.iter n tick_machine m).
Proof. unfold wp. by rewrite ticks_iter. Qed.

Lemma main_step_tick m :
  let mn := main_step (r_main_ticks (m_radio m)) (r_tick_count (m_radio m)) (m_thread_ok m) in
  r_main_ticks (m_radio (tick_machine m)) = mn.1 /\
  m_thread_ok (tick_machine m) = mn.2 /\
  r_tick_count (m_radio (tick_machine m)) = r_tick_count (m_radio m).
Proof. done. Qed.

Lemma second_step_tick m :
  let sc := second_step (m_timer_count m) (r_period (m_radio m)) (m_elapsed_second m) in
  m_timer_count (tick_machine m) = sc.1 /\ m_elapsed_second (tick_machine m) = sc.2.
Proof. done. Qed.

(** One polling of the seconds flag per timer interrupt, counting the seconds. *)
Fixpoint count_seconds (n : nat) : fw D X Z :=
  match n with
  | O => mret 0
  | S n' =>
      clocktick;;
      e ← libradio_elapsed_second;
      k ← count_seconds n';
      mret (e + k)
  end.

Lemma second_step_acc t p :
  0 <= t < 100 -> 0 <= p <= 100 ->
  let sc := second_step t p 0 in 100 * sc.2 + sc.1 = t + p /\ 0 <= sc.1 < 100.
Proof.
  intros Ht Hp. unfold second_step. rewrite (u16_small (t + p)) by warith.
  destruct (Z.leb_spec 100 (t + p)); cbn; [rewrite u16_small by warith|]; lia.
Qed.

Lemma ticks_state n m :
  r_state (m_radio (Nat.iter n tick_machine m)) = r_state (m_radio m).
Proof. induction n as [|n IH]; [done|]. by rewrite Nat.iter_succ. Qed.

Lemma delay_run d n m :
  r_main_ticks (m_radio m) = d -> 0 < d < 65536 -> m_thread_ok m = 0 ->
  Z.of_nat n <= d ->
  let m' := Nat.iter n tick_machine m in
  m_thread_ok m' = (if Z.of_nat n =? d then 1 else 0) /\
  r_main_ticks (m_radio m') =
    (if Z.of_nat n =? d then r_tick_count (m_radio m) else d - Z.of_nat n).
Proof.
  intros Hd Hr Hok Hn. cbv zeta.
  pose proof (ticks_invariant (fun k m' =>
    r_tick_count (m_radio m') = r_tick_count (m_radio m) /\
    m_thread_ok m' = (if Z.of_nat k =? d then 1 else 0) /\
    r_main_ticks (m_radio m') =
      (if Z.of_nat k =? d then r_tick_count (m_radio m) else d - Z.of_nat k)) n m) as H.
  apply H; clear H.
  - destruct (Z.eqb_spec (Z.of_nat 0) d); [lia|]. rewrite Hd, Hok. split_and!; [done..|lia].
  - intros k m' Hk (Htc&Hok'&Hmt). destruct (main_step_tick m') as (E1&E2&E3).
    destruct (Z.eqb_spec (Z.of_nat k) d) as [|_]; [lia|].
    rewrite E1, E2, E3, Htc, Hok', Hmt. split; [done|]. unfold main_step.
    destruct (Z.eqb_spec (d - Z.of_nat k) 0); [lia|].
    rewrite u16_small by warith.
    destruct (Z.eqb_spec (d - Z.of_nat k - 1) 0), (Z.eqb_spec (Z.of_nat (S k)) d); try lia;
      cbn; split; lia.
Qed.

(** ** Properties *)

(** While the time of day is known, the clock period divides ten minutes
    and the phase is aligned to it, every timer interrupt advances the time of
    day by exactly the period: after [n] ticks it is [n * period] later, across
    the wrap of [ms_ticks] at 60000. *)
Theorem ticks_keep_time n m :
  time_ok (m_radio m) -> 0 < r_period (m_radio m) ->
  60000 mod r_period (m_radio m) = 0 -> r_ms_ticks (m_radio m) mod r_period (m_radio m) = 0 ->
  wall_clock (m_radio m) + Z.of_nat n * r_period (m_radio m) < 255 * 60000 ->
  wp (ticks n) (fun _ m' =>
    wall_clock (m_radio m') =
      wall_clock (m_radio m) + Z.of_nat n * r_period (m_radio m)) m.
Proof.
  intros [Htom Hms Hper] Hp Hdiv Hal Hend. rewrite wp_ticks. set (p := r_period (m_radio m)) in *.
  apply (ticks_invariant (fun k m' =>
    time_ok (m_radio m') /\ r_period (m_radio m') = p /\
    r_ms_ticks (m_radio m') mod p = 0 /\
    wall_clock (m_radio m') = wall_clock (m_radio m) + Z.of_nat k * p) n m).
  - split_and!; [done..|lia].
  - intros k m' Hk ([Htom' Hms' Hper']&Hp'&Hal'&Hw).
    destruct (tick_machine_time m') as (E1&E2&E3). rewrite Hp' in E1, E2, E3.
    destruct (time_step_ok p (r_tens_of_minutes (m_radio m')) (r_ms_ticks (m_radio m')))
      as (B1&B2&B3&_&B5); try done.
    destruct B5 as [B5 B6]; try done. { unfold wall_clock in *. nia. }
    unfold wall_clock in *. rewrite E1, E2, E3. split_and!; try done; [|lia].
    split; [by rewrite E1|by rewrite E2|]. by rewrite E3.
Qed.

(** From a state in range, after any number of ticks with any period
    [ms_ticks] is below 60000, [tens_of_minutes] is a byte that has not gone
    back (it parks at 255 and never wraps to 0), and a clock parked at 255 does
    not move at all. *)
Theorem ticks_time_bounded n m :
  time_ok (m_radio m) ->
  wp (ticks n) (fun _ m' =>
    0 <= r_ms_ticks (m_radio m') < 60000 /\
    r_tens_of_minutes (m_radio m) <= r_tens_of_minutes (m_radio m') <= 255 /\
    (r_tens_of_minutes (m_radio m) = 255 ->
       r_ms_ticks (m_radio m') = r_ms_ticks (m_radio m))) m.
Proof.
  intros Hok. rewrite wp_ticks.
  assert (time_ok (m_radio (Nat.iter n tick_machine m)) /\
    r_tens_of_minutes (m_radio m) <= r_tens_of_minutes (m_radio (Nat.iter n tick_machine m)) /\
    (r_tens_of_minutes (m_radio m) = 255 ->
       r_ms_ticks (m_radio (Nat.iter n tick_machine m)) = r_ms_ticks (m_radio m)))
    as ([? ? ?]&?&?); [|unfold is_u8 in *; split_and!; try done; lia].
  apply (ticks_invariant (fun _ m' => time_ok (m_radio m') /\
    r_tens_of_minutes (m_radio m) <= r_tens_of_minutes (m_radio m') /\
    (r_tens_of_minutes (m_radio m) = 255 ->
       r_ms_ticks (m_radio m') = r_ms_ticks (m_radio m))) n m).
  - split_and!; [done|lia|done].
  - intros _ m' _ ([Htom Hms Hper]&Hle&Hst).
    destruct (tick_machine_time m') as (E1&E2&E3).
    destruct (time_step_ok (r_period (m_radio m')) (r_tens_of_minutes (m_radio m'))
      (r_ms_ticks (m_radio m'))) as (B1&B2&B3&B4&_); try done.
    split_and!; [split|..].
    + by rewrite E1. + by rewrite E2. + by rewrite E3. + rewrite E1. lia.
    + intros H255. rewrite E2. rewrite B4; [by apply Hst|]. unfold is_u8 in *. lia.
Qed.

(** A delay armed with [main_ticks = d > 0] wakes the main loop on the
    [d]-th tick and not before, and re-arms itself with [tick_count]. *)
Theorem delay_expires d n m :
  r_main_ticks (m_radio m) = d -> 0 < d < 65536 -> m_thread_ok m = 0 ->
  Z.of_nat n <= d ->
  wp (ticks n) (fun _ m' =>
    m_thread_ok m' = (if Z.of_nat n =? d then 1 else 0) /\
    r_main_ticks (m_radio m') =
      (if Z.of_nat n =? d then r_tick_count (m_radio m) else d - Z.of_nat n)) m.
Proof. intros Hd Hr Hok Hn. rewrite wp_ticks. by apply delay_run. Qed.

(** With a period of at most one second, polling the seconds flag once per
    tick loses no time: a hundred times the seconds counted plus what is left
    in [timer_count] is the time that has passed. *)
Theorem seconds_accounting n m :
  0 <= m_timer_count m < 100 -> 0 <= r_period (m_radio m) <= 100 ->
  m_elapsed_second m = 0 ->
  wp (count_seconds n) (fun k m' =>
    100 * k + m_timer_count m' = m_timer_count m + Z.of_nat n * r_period (m_radio m) /\
    0 <= m_timer_count m' < 100) m.
Proof.
  revert m. induction n as [|n IH]; intros m Ht Hp He; cbn [count_seconds].
  { rewrite wp_ret. lia. }
  rewrite wp_bind. unfold wp at 1. rewrite clocktick_eq. unfold libradio_elapsed_second.
  wp_simpl. destruct (second_step_tick m) as [E1 E2]. rewrite He in E1, E2.
  destruct (second_step_acc _ _ Ht Hp) as [A1 A2].
  eapply wp_mono; [apply IH|].
  - upd_simpl. by rewrite E1.
  - done.
  - done.
  - intros k m' [H1 H2]. rewrite wp_ret. upd_simpl_in H1. rewrite E1 in H1. rewrite E2.
    change (r_period (m_radio (tick_machine m))) with (r_period (m_radio m)) in H1. lia.
Qed.

(** With a period that divides 100 ms the LED plays the pattern of the
    state, most significant note first, one note every 100 ms, and after 16
    notes (1.6 s) the pattern is back where it was. *)
Theorem song_plays k q m :
  let p := r_period (m_radio m) in
  let h := r_heart_beat (m_radio m) in
  1 <= p -> Z.of_nat q * p = 10 -> 1 <= m_hbclock m <= 10 -> is_u16 h ->
  wp (ticks (S k * q)) (fun _ m' =>
    m_led m' = Z.testbit h (15 - Z.of_nat k mod 16) /\
    (k = 15%nat -> r_heart_beat (m_radio m') = h)) m.
Proof.
  intros p h Hp Hq Hhb Hh. rewrite wp_ticks.
  pose proof (song_state_iter (S k * q) m) as E. fold p in E. unfold song_state at 2 in E.
  rewrite song_notes in E by done.
  assert (m_led (Nat.iter (S k * q) tick_machine m) = Z.testbit (Nat.iter k rotate h) 15)
    as -> by exact (f_equal snd E).
  assert (r_heart_beat (m_radio (Nat.iter (S k * q) tick_machine m)) =
    Nat.iter (S k) rotate h) as -> by exact (f_equal (fun x => x.1.2) E).
  split.
  - rewrite (proj2 (rotate_iter k h 15 Hh ltac:(lia))). f_equal. warith.
  - intros ->. by apply (rotate_16 h).
Qed.
End clock_proofs.

(** ** Instances of the properties *)

(** A machine with the given clock settings. *)
Definition bench_clock (p tom ms mt tc h hb t : Z) : machine unit unit :=
  (reset_machine tt tt [])
    <| m_radio := zero_libradio <| r_period := p |> <| r_tens_of_minutes := tom |>
                    <| r_ms_ticks := ms |> <| r_main_ticks := mt |> <| r_tick_count := tc |>
                    <| r_heart_beat := h |> |>
    <| m_hbclock := hb |> <| m_timer_count := t |>.

Lemma ticks_keep_time_witness :
  wp (ticks 3) (fun _ m' => wall_clock (m_radio m') = 143 * 60000 + 59990 + 30)
    (bench_clock 10 143 59990 0 0 0 0 0).
Proof.
  apply (ticks_keep_time 3 (bench_clock 10 143 59990 0 0 0 0 0)); done.
Defined.

Lemma ticks_time_bounded_witness :
  wp (ticks 5) (fun _ m' =>
    0 <= r_ms_ticks (m_radio m') < 60000 /\ 254 <= r_tens_of_minutes (m_radio m') <= 255 /\
    (254 = 255 -> r_ms_ticks (m_radio m') = 59999))
    (bench_clock 16 254 59999 0 0 0 0 0).
Proof.
  apply (ticks_time_bounded 5 (bench_clock 16 254 59999 0 0 0 0 0)); done.
Defined.

Lemma delay_expires_witness :
  wp (ticks 5) (fun _ m' => m_thread_ok m' = 1 /\ r_main_ticks (m_radio m') = 7)
    (bench_clock 1 255 0 5 7 0 0 0).
Proof. apply (delay_expires 5 5 (bench_clock 1 255 0 5 7 0 0 0)); done. Defined.

Lemma seconds_accounting_witness :
  wp (count_seconds 15) (fun k m' =>
    100 * k + m_timer_count m' = 30 + 15 * 10 /\ 0 <= m_timer_count m' < 100)
    (bench_clock 10 255 0 0 0 0 0 30).
Proof. apply (seconds_accounting 15 (bench_clock 10 255 0 0 0 0 0 30)); done. Defined.

Lemma song_plays_witness :
  wp (ticks 16) (fun _ m' => m_led m' = true /\ (15%nat = 15%nat -> r_heart_beat (m_radio m') = 0xf7))
    (bench_clock 10 255 0 0 0 0xf7 10 0).
Proof. apply (song_plays 15 1 (bench_clock 10 255 0 0 0 0xf7 10 0)); done. Defined.
