(* ===== verification/State.v ===== *)
(** state.c: the state of the library and what a change of state sets up - the
    LED song, the speed of the clock, the delay of the main loop and the
    reception timeout. The promise of [libradio_set_state] is stated as a
    function on the settings ([mode_after]) and the code is shown to refine it. *)

From S2P Require Import Machine Clock.

Section state.
Context {D X : Type} `{App D X}.

Definition libradio_get_state : fw D X Z := rget r_state.
Definition libradio_get_my_channel : fw D X Z := rget r_curr_channel.

(** The arms of the switch of [libradio_set_state]. *)
Definition set_state_sleep (new_state : Z) : fw D X unit :=
  libradio_power_mode 0;;
  rput r_tens_of_minutes 0xff;;
  p ← rget r_period;
  ticks ← c_div (if new_state =? LIBRADIO_STATE_WARM then 5*60*100 else 60*60*100) p;
  let ticks := if 65535 <? ticks then 65535 else ticks in
  libradio_set_delay (u16 (i16 ticks)).

Definition set_state_listen : fw D X unit :=
  st ← rget r_state;
  when ((st =? LIBRADIO_STATE_COLD) || (st =? LIBRADIO_STATE_WARM)) (libradio_power_mode 1);;
  rput r_my_channel 0;;
  rput r_saw_rx 0;;
  st ← rget r_state;
  fp ← rget r_fast_period;
  (if st =? LIBRADIO_STATE_COLD then
     t ← c_div 6000 fp;
     rput r_timeout (u16 t)
   else
     t ← c_div 12000 fp;
     rput r_timeout (u16 (i16 t)));;
  libradio_set_delay 500.

Definition set_state_error : fw D X unit :=
  p ← rget r_period;
  t ← c_div (60*100) p;
  libradio_set_delay (u16 (i16 t)).

Definition set_state_active : fw D X unit :=
  libradio_power_mode 1;;
  rput r_timeout 6000.

Definition libradio_set_state (new_state : Z) : fw D X unit :=
  st ← rget r_state;
  if negb (new_state =? LIBRADIO_STATE_STARTUP) && (st =? new_state) then mret tt
  else
    libradio_set_song new_state;;
    (if (new_state =? LIBRADIO_STATE_COLD) || (new_state =? LIBRADIO_STATE_WARM) then
       set_state_sleep new_state
     else if new_state =? LIBRADIO_STATE_LISTEN then set_state_listen
     else if new_state =? LIBRADIO_STATE_ERROR then set_state_error
     else set_state_active);;
    rput r_state new_state.

End state.

(** ** What a change of state promises *)

(** How long the device sleeps, in timer interrupts of the given period. *)
Definition sleep_ticks (state period : Z) : Z :=
  Z.min 65535 ((if state =? LIBRADIO_STATE_WARM then 30000 else 360000) / period).

(** [libradio_set_delay] as a function of the record. *)
Definition with_delay (d : Z) (l : libradio) : libradio :=
  l <| r_tick_count := d |>
    <| r_main_ticks := if r_main_ticks l =? 0 then d else r_main_ticks l |>.

Definition song_of (state : Z) : Z := songs !!! Z.to_nat (Z.min state LIBRADIO_STATE_ACTIVE).

(** Whether the clock is running slowly. *)
Definition asleep (l : libradio) : bool :=
  (r_state l =? LIBRADIO_STATE_COLD) || (r_state l =? LIBRADIO_STATE_WARM).

Definition listen_mode (l : libradio) : libradio :=
  with_delay 500
    (l <| r_period := if asleep l then r_fast_period l else r_period l |>
       <| r_my_channel := 0 |> <| r_saw_rx := 0 |>
       <| r_timeout := (if r_state l =? LIBRADIO_STATE_COLD then 6000 else 12000)
                         / r_fast_period l |>).

(** The settings after a change to [s]. *)
Definition mode_after (s : Z) (l : libradio) : libradio :=
  let l := l <| r_heart_beat := song_of s |> in
  let l :=
    if (s =? LIBRADIO_STATE_COLD) || (s =? LIBRADIO_STATE_WARM) then
      with_delay (sleep_ticks s (r_slow_period l))
        (l <| r_period := r_slow_period l |> <| r_tens_of_minutes := 0xff |>)
    else if s =? LIBRADIO_STATE_LISTEN then
      listen_mode l
    else if s =? LIBRADIO_STATE_ERROR then with_delay (6000 / r_period l) l
    else l <| r_period := r_fast_period l |> <| r_timeout := 6000 |> in
  l <| r_state := s |>.

(** The periods the clock can be given ([libradio_set_clock]). *)
Record periods_ok (l : libradio) : Prop := {
  ok_fast : 1 <= r_fast_period l < 256;
  ok_slow : 1 <= r_slow_period l < 256;
  ok_period : 1 <= r_period l < 256
}.

Section state_proofs.
Context {D X : Type} `{StockPower D X}.
Implicit Types m : machine D X.

Lemma wp_libradio_set_delay d Q m :
  wp (libradio_set_delay d) Q m =
    Q tt (m <| m_radio := with_delay d (m_radio m) |> <| m_sreg_i := true |>).
Proof.
  unfold libradio_set_delay, with_delay, cli, sei. wp_simpl. upd_simpl.
  destruct (r_main_ticks (m_radio m) =? 0); wp_simpl; destruct m as [[] ]; reflexivity.
Qed.

(** The registers a change of the clock speed leaves behind. *)
Definition clock_regs (hi : bool) m : machine D X :=
  m <| m_sreg_i := true |> <| m_tccr1b := if hi then 11 else 13 |>
    <| m_tccr1c := 0 |> <| m_timsk1 := 2 |>.

Lemma wp_libradio_power_mode hi Q m :
  wp (libradio_power_mode hi) Q m =
    Q tt (clock_regs (negb (hi =? 0))
      (m <| m_radio ::= fun l =>
              l <| r_period := if hi =? 0 then r_slow_period l else r_fast_period l |> |>)).
Proof.
  unfold libradio_power_mode. rewrite stock_power. unfold stock_power_mode, cli, sei.
  wp_simpl. destruct (hi =? 0); wp_simpl; destruct m as [[] ]; reflexivity.
Qed.

Lemma songs_lookup s : 0 <= s -> songs !! Z.to_nat (Z.min s 6) = Some (song_of s).
Proof.
  intros Hs. unfold song_of. apply list_lookup_lookup_total_lt.
  change (length songs) with 7%nat. unfold LIBRADIO_STATE_ACTIVE. lia.
Qed.

Lemma wp_libradio_set_song s Q m :
  0 <= s -> wp (libradio_set_song s) Q m =
    Q tt (m <| m_radio ::= fun l => l <| r_heart_beat := song_of s |> |>).
Proof.
  intros Hs. unfold libradio_set_song. wp_simpl.
  change LIBRADIO_STATE_ACTIVE with 6.
  replace (if 6 <? s then 6 else s) with (Z.min s 6) by (destruct (Z.ltb_spec 6 s); lia).
  rewrite (wp_array_get _ _ (song_of s)) by (try lia; by apply songs_lookup). by wp_simpl.
Qed.

#[local] Hint Rewrite @wp_libradio_set_delay @wp_libradio_power_mode : wp.

Lemma u16_i16 x : is_u16 x -> u16 (i16 x) = x.
Proof. warith. Qed.

Lemma sleep_ticks_range s p : 1 <= p -> is_u16 (sleep_ticks s p).
Proof.
  intros Hp. unfold sleep_ticks. destruct (s =? _).
  - pose proof (Z.div_pos 30000 p). unfold is_u16. lia.
  - pose proof (Z.div_pos 360000 p). unfold is_u16. lia.
Qed.

Lemma div_u16 a p : 0 <= a < 65536 -> 1 <= p -> is_u16 (a / p).
Proof.
  intros Ha Hp. split; [apply Z.div_pos; lia|].
  apply Z.div_lt_upper_bound; nia.
Qed.

Lemma wp_set_state_sleep s Q m :
  1 <= r_slow_period (m_radio m) ->
  wp (set_state_sleep s) Q m =
    Q tt (clock_regs false (m <| m_radio ::= fun l =>
      with_delay (sleep_ticks s (r_slow_period l))
        (l <| r_period := r_slow_period l |> <| r_tens_of_minutes := 0xff |>) |>)).
Proof.
  intros Hp. unfold set_state_sleep. wp_simpl. unfold clock_regs. upd_simpl. cbn [Z.eqb negb].
  rewrite wp_c_div by (try destruct (s =? _); lia). wp_simpl. upd_simpl. cbn [negb Z.eqb].
  assert (forall x, (if 65535 <? x then 65535 else x) = Z.min 65535 x) as ->.
  { intros x. destruct (Z.ltb_spec 65535 x); lia. }
  change (60*60*100) with 360000. change (5*60*100) with 30000.
  fold (sleep_ticks s (r_slow_period (m_radio m))).
  rewrite u16_i16 by by apply sleep_ticks_range.
  destruct m as [[] ]; reflexivity.
Qed.

Lemma wp_set_state_listen Q m :
  1 <= r_fast_period (m_radio m) ->
  wp set_state_listen Q m =
    Q tt ((if asleep (m_radio m) then clock_regs true m else m)
            <| m_radio := listen_mode (m_radio m) |> <| m_sreg_i := true |>).
Proof.
  intros Hp. unfold set_state_listen, listen_mode, asleep. wp_simpl.
  destruct (r_state (m_radio m) =? LIBRADIO_STATE_COLD) eqn:Ec; cbn [orb];
    [|destruct (r_state (m_radio m) =? LIBRADIO_STATE_WARM) eqn:Ew];
    unfold clock_regs; upd_simpl; rewrite Ec; wp_simpl;
    rewrite wp_c_div by lia; wp_simpl; upd_simpl;
    rewrite ?u16_i16, ?u16_small by (apply div_u16; lia);
    destruct m as [[] ]; reflexivity.
Qed.

Lemma wp_set_state_error Q m :
  1 <= r_period (m_radio m) ->
  wp set_state_error Q m =
    Q tt (m <| m_radio := with_delay (6000 / r_period (m_radio m)) (m_radio m) |>
            <| m_sreg_i := true |>).
Proof.
  intros Hp. unfold set_state_error. wp_simpl. rewrite wp_c_div by lia. wp_simpl.
  by rewrite u16_i16 by (apply div_u16; lia).
Qed.

(** Only the record and the timer registers differ. *)
Definition beside_radio m : machine D X :=
  m <| m_radio := zero_libradio |> <| m_sreg_i := false |>
    <| m_tccr1b := 0 |> <| m_tccr1c := 0 |> <| m_timsk1 := 0 |>.

(** The registers of the timer, and what they are when it runs fast and slow. *)
Definition timer_regs m : Z * Z * Z := (m_tccr1b m, m_tccr1c m, m_timsk1 m).

Definition only_radio m m' : Prop :=
  beside_radio m' = beside_radio m /\
  (timer_regs m' = timer_regs m \/ exists hi : bool, timer_regs m' = (if hi then 11 else 13, 0, 2)).

Lemma only_radio_same m m' :
  beside_radio m' = beside_radio m -> timer_regs m' = timer_regs m -> only_radio m m'.
Proof. intros E1 E2. split; [exact E1|by left]. Qed.

Lemma only_radio_clock hi m m' :
  beside_radio m' = beside_radio m -> timer_regs m' = (if hi : bool then 11 else 13, 0, 2) -> only_radio m m'.
Proof. intros E1 E2. split; [exact E1|right; by exists hi]. Qed.

Lemma mode_after_sleep s l :
  s = LIBRADIO_STATE_COLD \/ s = LIBRADIO_STATE_WARM ->
  r_state (mode_after s l) = s /\
  r_tick_count (mode_after s l) = sleep_ticks s (r_slow_period l) /\
  r_main_ticks (mode_after s l) =
    (if r_main_ticks l =? 0 then sleep_ticks s (r_slow_period l) else r_main_ticks l).
Proof. by intros [-> | ->]. Qed.

Lemma wp_libradio_set_state s m :
  periods_ok (m_radio m) -> 0 <= s < 256 ->
  s = LIBRADIO_STATE_STARTUP \/ r_state (m_radio m) <> s ->
  wp (libradio_set_state s) (fun _ m' =>
    m_radio m' = mode_after s (m_radio m) /\ only_radio m m') m.
Proof.
  intros [Hf Hs Hp] Hr Hch. unfold libradio_set_state. wp_simpl.
  replace (negb (s =? LIBRADIO_STATE_STARTUP) && (r_state (m_radio m) =? s)) with false.
  2: { destruct (Z.eqb_spec s LIBRADIO_STATE_STARTUP), (Z.eqb_spec (r_state (m_radio m)) s);
       cbn [negb andb]; intuition congruence. }
  wp_simpl. rewrite wp_libradio_set_song by lia. wp_simpl. unfold mode_after. cbv zeta.
  destruct ((s =? LIBRADIO_STATE_COLD) || (s =? LIBRADIO_STATE_WARM)).
  { rewrite wp_set_state_sleep by (upd_simpl; lia). wp_simpl.
    split; [done|by apply (only_radio_clock false)]. }
  destruct (s =? LIBRADIO_STATE_LISTEN).
  { rewrite wp_set_state_listen by (upd_simpl; lia). wp_simpl.
    destruct (asleep _); (split; [done|]); [by apply (only_radio_clock true)|by apply only_radio_same]. }
  destruct (s =? LIBRADIO_STATE_ERROR).
  { rewrite wp_set_state_error by (upd_simpl; lia). wp_simpl.
    split; [done|by apply only_radio_same]. }
  unfold set_state_active. wp_simpl. split; [done|by apply (only_radio_clock true)].
Qed.

(** The change to the ERROR state, which leaves the speed of the clock alone. *)
Lemma wp_set_state_error_run m :
  periods_ok (m_radio m) -> r_state (m_radio m) <> LIBRADIO_STATE_ERROR ->
  wp (libradio_set_state LIBRADIO_STATE_ERROR) (fun _ m' =>
    m_radio m' = mode_after LIBRADIO_STATE_ERROR (m_radio m) /\ only_radio m m') m.
Proof.
  intros [Hf Hs Hp] Hch. unfold libradio_set_state. rewrite wp_bind, wp_rget.
  rewrite (proj2 (Z.eqb_neq _ _) Hch), andb_false_r, wp_bind, wp_libradio_set_song by done.
  change ((LIBRADIO_STATE_ERROR =? LIBRADIO_STATE_COLD)
          || (LIBRADIO_STATE_ERROR =? LIBRADIO_STATE_WARM)) with false.
  change (LIBRADIO_STATE_ERROR =? LIBRADIO_STATE_LISTEN) with false.
  change (LIBRADIO_STATE_ERROR =? LIBRADIO_STATE_ERROR) with true. cbv iota.
  rewrite wp_bind, wp_set_state_error by (upd_simpl; lia). rewrite wp_rput.
  split; [done|by apply only_radio_same].
Qed.

(** ** Properties *)

(** [C36] A real change of state, from any settings with non-zero periods, never
    divides by zero or indexes out of range, and leaves exactly the settings
    [mode_after] promises: LED song, clock period, time of day, delay, timeout,
    channel and state. Nothing but the record and the timer registers changes, and
    those are left alone or set for the fast or the slow clock. *)
Theorem set_state_refines s m :
  periods_ok (m_radio m) -> 0 <= s < 256 ->
  s = LIBRADIO_STATE_STARTUP \/ r_state (m_radio m) <> s ->
  wp (libradio_set_state s) (fun _ m' =>
    m_radio m' = mode_after s (m_radio m) /\ only_radio m m') m.
Proof. apply wp_libradio_set_state. Qed.

(** Asking for the state the library is already in (STARTUP aside) changes
    nothing at all. *)
Theorem set_state_idempotent s m :
  s <> LIBRADIO_STATE_STARTUP -> r_state (m_radio m) = s ->
  libradio_set_state s m = Done tt m.
Proof.
  intros Hs Heq. unfold libradio_set_state, mbind, cmd_bind, rget, gets.
  rewrite Heq, Z.eqb_refl. apply Z.eqb_neq in Hs. by rewrite Hs.
Qed.

(** A delay that is still running when the library goes to sleep is not
    replaced: the main loop is woken after what is left of it (here after
    [main_ticks] more ticks), not after the sleeping time. *)
Theorem sleep_keeps_running_delay s n m :
  periods_ok (m_radio m) -> s = LIBRADIO_STATE_COLD \/ s = LIBRADIO_STATE_WARM ->
  r_state (m_radio m) <> s -> m_thread_ok m = 0 ->
  0 < r_main_ticks (m_radio m) < 65536 -> Z.of_nat n = r_main_ticks (m_radio m) ->
  wp (libradio_set_state s;; ticks n) (fun _ m' =>
    r_state (m_radio m') = s /\ m_thread_ok m' = 1 /\
    r_main_ticks (m_radio m') = sleep_ticks s (r_slow_period (m_radio m))) m.
Proof.
  intros Hp Hsl Hne Hok Hmt Hn. rewrite wp_bind.
  eapply wp_mono; [apply wp_libradio_set_state; [done| |by right]|].
  { destruct Hsl as [-> | ->]; done. }
  intros _ m1 [Hr [Hm1 _] ]. rewrite wp_ticks.
  assert (m_thread_ok m1 = 0) as Hok1.
  { rewrite <- Hok. exact (f_equal m_thread_ok Hm1). }
  destruct (mode_after_sleep s (m_radio m) Hsl) as (Hst&Htc&Hmt1). rewrite <- Hr in Hst, Htc, Hmt1.
  rewrite (proj2 (Z.eqb_neq (r_main_ticks (m_radio m)) 0)) in Hmt1 by lia.
  destruct (delay_run (r_main_ticks (m_radio m)) n m1) as [H1 H2]; try done; [lia|].
  rewrite ticks_state, Hst, H1, H2, Htc, (proj2 (Z.eqb_eq _ _) Hn). done.
Qed.
End state_proofs.

#[export] Hint Rewrite @wp_libradio_set_delay @wp_libradio_power_mode
  using typeclasses eauto : wp.

(** ** Instances of the properties *)

(** An application without call-backs of its own. *)
Definition bench_app {D X} : App D X := {|
  operate := fun _ => mret tt;
  fetch_status := fun _ buf _ => mret (0, buf);
  own_power_mode := None
|}.
#[local] Existing Instance bench_app.
#[local] Instance bench_stock {D X} : StockPower D X := eq_refl.

Definition bench_state (st mt tc : Z) : machine unit unit :=
  (reset_machine tt tt [])
    <| m_radio := zero_libradio <| r_state := st |> <| r_fast_period := 1 |>
                    <| r_slow_period := 16 |> <| r_period := 1 |>
                    <| r_main_ticks := mt |> <| r_tick_count := tc |> |>.

Lemma set_state_refines_witness :
  wp (libradio_set_state LIBRADIO_STATE_COLD) (fun _ m' =>
    m_radio m' = mode_after LIBRADIO_STATE_COLD (m_radio (bench_state 5 0 0)) /\
    only_radio (bench_state 5 0 0) m') (bench_state 5 0 0).
Proof.
  apply (set_state_refines LIBRADIO_STATE_COLD (bench_state 5 0 0));
    [split; done|done|by right].
Defined.

Lemma set_state_idempotent_witness :
  libradio_set_state LIBRADIO_STATE_LISTEN (bench_state 5 3 7) = Done tt (bench_state 5 3 7).
Proof. by apply (set_state_idempotent 5 (bench_state 5 3 7)). Defined.

Lemma sleep_keeps_running_delay_witness :
  wp (libradio_set_state LIBRADIO_STATE_COLD;; ticks 500) (fun _ m' =>
    r_state (m_radio m') = LIBRADIO_STATE_COLD /\ m_thread_ok m' = 1 /\
    r_main_ticks (m_radio m') = 22500) (bench_state 5 500 500).
Proof.
  apply (sleep_keeps_running_delay LIBRADIO_STATE_COLD 500 (bench_state 5 500 500));
    [split; done|by left|done..].
Defined.
