(* ===== verification/Spi.v ===== *)
(** packet.c: the exchange of commands with the radio over the SPI bus, and the
    transfer of packets to and from its FIFOs with their checksum. *)

From S2P Require Import Machine.

(** ** References to channels

    A [struct channel *] points to the library's [rxchan] or [txchan] (handle.c)
    or to an object of the application, given by how to read and write it. *)
Inductive chanref (X : Type) :=
| RxChan
| TxChan
| AppChan (get : X -> channel) (set : channel -> X -> X).
Arguments RxChan {X}.
Arguments TxChan {X}.
Arguments AppChan {X} get set.

Definition MAX_COUNT : nat := 1000%nat.

Section spi.
Context {D X : Type} `{Platform D}.

Definition ch_get (r : chanref X) (m : machine D X) : channel :=
  match r with
  | RxChan => m_rxchan m
  | TxChan => m_txchan m
  | AppChan get _ => get (m_app m)
  end.

Definition ch_set (r : chanref X) (c : channel) (m : machine D X) : machine D X :=
  match r with
  | RxChan => m <| m_rxchan := c |>
  | TxChan => m <| m_txchan := c |>
  | AppChan _ set => m <| m_app := set c (m_app m) |>
  end.

Definition ch_load (r : chanref X) : fw D X channel := gets (ch_get r).
Definition ch_store (r : chanref X) (c : channel) : fw D X unit := modify (ch_set r c).

Definition pkt_init : fw D X unit :=
  mput m_pkt_recv_len 0;;
  mput m_pkt_send_len 0;;
  mput m_pkt_index 0;;
  modify (fun m => m <| m_dev ::= spi_init |>).

(** [for (i = 0; i < send_len; i++) if (spi_byte(pkt_data\[i\]) == -1) fail]:
    false when a byte could not be written. *)
Fixpoint pkt_write (n : nat) (i : Z) : fw D X bool :=
  match n with
  | O => mret true
  | S n' =>
      b ← pkt_get i;
      r ← spi b;
      if r =? -1 then mret false else pkt_write n' (i + 1)
  end.

(** The loop that reads the [recv_len] bytes of the answer. *)
Fixpoint pkt_read (n : nat) (j : Z) : fw D X bool :=
  match n with
  | O => mret true
  | S n' =>
      k ← spi 0xff;
      if k <? 0 then mret false else pkt_put j (u8 k);; pkt_read n' (j + 1)
  end.

(** The loop that polls for the clear-to-send byte, [n] tries left. *)
Fixpoint pkt_poll (n : nat) (recv_len : Z) : fw D X Z :=
  match n with
  | O => mret SPI_SEND_TIMEOUT
  | S n' =>
      _setss true;;
      r ← spi 0x44;
      if r <? 0 then _setss false;; mret SPI_SEND_STATUS_FAIL
      else
        k ← spi 0xff;
        if k <? 0 then _setss false;; mret SPI_SEND_ACK_FAIL
        else if k =? 0xff then
          ok ← pkt_read (Z.to_nat recv_len) 0;
          _setss false;;
          mret (if ok : bool then SPI_SEND_OK else SPI_SEND_READ_FAIL)
        else
          _setss false;;
          pkt_poll n' recv_len
  end.

Definition pkt_send (send_len recv_len : Z) : fw D X Z :=
  _setss true;;
  ok ← pkt_write (Z.to_nat send_len) 0;
  _setss false;;
  if ok : bool then pkt_poll MAX_COUNT recv_len else mret SPI_SEND_WRITE_FAIL.

(** Reading [n] bytes of the RX FIFO, and writing bytes to the TX FIFO. *)
Fixpoint fifo_read (n : nat) : fw D X (list Z) :=
  match n with
  | O => mret []
  | S n' => b ← spi 0x00; l ← fifo_read n'; mret (u8 b :: l)
  end.

Fixpoint fifo_write (l : list Z) : fw D X unit :=
  match l with
  | [] => mret tt
  | b :: l' => spi b;; fifo_write l'
  end.

(** The exclusive-or of the header and the first [p_len] bytes of data. *)
Definition packet_csum (p : packet) : Z :=
  xor_bytes (take (Z.to_nat (PACKET_HEADER_LEN + p_len p)) (packet_to_bytes p)).

Definition libradio_rxpacket (chp : chanref X) : fw D X Z :=
  rx_fifo ← rget r_rx_fifo;
  let len := if sizeof_packet <? rx_fifo then sizeof_packet else rx_fifo in
  _setss true;;
  spi SI4463_READ_RX_FIFO;;
  bs ← fifo_read (Z.to_nat len);
  c ← ch_load chp;
  ch_store chp
    (c <| c_packet := packet_of_bytes (overlay bs (packet_to_bytes (c_packet c))) |>);;
  _setss false;;
  c ← ch_load chp;
  when (MAX_PAYLOAD_SIZE <? p_len (c_packet c))
    (ch_store chp (c <| c_packet ::= fun p => p <| p_len := MAX_PAYLOAD_SIZE |> |>));;
  c ← ch_load chp;
  let csum := packet_csum (c_packet c) in
  if negb (csum =? 0x00) then mret 0
  else
    when (p_cmd (c_packet c) <? RADIO_STATUS_RESPONSE) (
      cli;;
      rput r_ms_ticks (p_ticks (c_packet c));;
      sei);;
    mret 1.

(** The 16 bytes sent: the packet up to its length, then 0xff. *)
Definition tx_frame (p : packet) : list Z :=
  let len := Z.to_nat (PACKET_HEADER_LEN + p_len p) in
  take len (packet_to_bytes p) ++ replicate (Z.to_nat SI4463_PACKET_LEN - len) 0xff.

Definition libradio_txpacket (chp : chanref X) : fw D X Z :=
  c ← ch_load chp;
  if MAX_PAYLOAD_SIZE <? p_len (c_packet c) then mret 0
  else
    cli;;
    t ← rget r_ms_ticks;
    ch_store chp (c <| c_packet ::= fun p => p <| p_ticks := t |> |>);;
    sei;;
    c ← ch_load chp;
    ch_store chp (c <| c_packet ::= fun p => p <| p_csum := 0x00 |> |>);;
    c ← ch_load chp;
    ch_store chp (c <| c_packet ::= fun p => p <| p_csum := packet_csum p |> |>);;
    _setss true;;
    spi SI4463_WRITE_TX_FIFO;;
    c ← ch_load chp;
    fifo_write (tx_frame (c_packet c));;
    _setss false;;
    mret 1.

Definition pkt_error (i : Z) : fw D X Z :=
  print (str "spi error " ++ fmt_d i ++ [10]);; mret 0.

End spi.

(** ** Laws of channel references *)

(** A reference of the application reads back what it writes, forgets what it
    overwrites, and writing what is there changes nothing. *)
Definition lawful {X} (r : chanref X) : Prop :=
  match r with
  | AppChan get set =>
      (forall c x, get (set c x) = c) /\ (forall c c' x, set c (set c' x) = set c x) /\
      (forall x, set (get x) x = x)
  | _ => True
  end.

(** The exchange of a sequence of bytes, as a function of the platform. *)
Fixpoint xfer {D} `{Platform D} (l : list Z) (d : D) : list Z * D :=
  match l with
  | [] => ([], d)
  | b :: l' =>
      let x := spi_byte b d in
      let y := xfer l' x.2 in
      (x.1 :: y.1, y.2)
  end.

Section spi_proofs.
Context {D X : Type} `{Platform D}.
Implicit Types (m : machine D X) (r : chanref X).

Lemma ch_get_set r c m : lawful r -> ch_get r (ch_set r c m) = c.
Proof. destruct r; [done..|]. intros [Hgs _]. apply Hgs. Qed.

Lemma ch_set_set r c c' m : lawful r -> ch_set r c (ch_set r c' m) = ch_set r c m.
Proof.
  destruct r; [done..|]. intros (_&Hss&_). simpl. upd_simpl.
  destruct m. unfold upd, set_m_app. cbn. by rewrite Hss.
Qed.

Lemma ch_set_get r m : lawful r -> ch_set r (ch_get r m) m = m.
Proof.
  destruct r as [| |get set]; intros Hr; [by destruct m..|].
  destruct Hr as (_&_&Hsg). destruct m. unfold ch_set, ch_get, upd, set_m_app. cbn. by rewrite Hsg.
Qed.

(** A channel does not overlap the rest of the machine. *)
Lemma ch_get_radio r g m : ch_get r (m <| m_radio ::= g |>) = ch_get r m.
Proof. by destruct r. Qed.
Lemma ch_get_dev r g m : ch_get r (m <| m_dev ::= g |>) = ch_get r m.
Proof. by destruct r. Qed.
Lemma ch_get_ss r g m : ch_get r (m <| m_ss ::= g |>) = ch_get r m.
Proof. by destruct r. Qed.
Lemma ch_get_sreg r g m : ch_get r (m <| m_sreg_i ::= g |>) = ch_get r m.
Proof. by destruct r. Qed.
Lemma ch_get_pkt r g m : ch_get r (m <| m_pkt_data ::= g |>) = ch_get r m.
Proof. by destruct r. Qed.
Lemma ch_get_out r g m : ch_get r (m <| m_out ::= g |>) = ch_get r m.
Proof. by destruct r. Qed.
Lemma ch_set_radio r c m : m_radio (ch_set r c m) = m_radio m.
Proof. by destruct r. Qed.
Lemma ch_set_dev r c m : m_dev (ch_set r c m) = m_dev m.
Proof. by destruct r. Qed.
Lemma ch_set_ss r c m : m_ss (ch_set r c m) = m_ss m.
Proof. by destruct r. Qed.
Lemma ch_set_pkt r c m : m_pkt_data (ch_set r c m) = m_pkt_data m.
Proof. by destruct r. Qed.

(** Writing a channel and writing elsewhere commute. *)
Lemma ch_set_dev_comm r c g m : (ch_set r c m) <| m_dev ::= g |> = ch_set r c (m <| m_dev ::= g |>).
Proof. by destruct r. Qed.
Lemma ch_set_ss_comm r c g m : (ch_set r c m) <| m_ss ::= g |> = ch_set r c (m <| m_ss ::= g |>).
Proof. by destruct r. Qed.
Lemma ch_set_radio_comm r c g m :
  (ch_set r c m) <| m_radio ::= g |> = ch_set r c (m <| m_radio ::= g |>).
Proof. by destruct r. Qed.
Lemma ch_set_sreg_comm r c g m :
  (ch_set r c m) <| m_sreg_i ::= g |> = ch_set r c (m <| m_sreg_i ::= g |>).
Proof. by destruct r. Qed.

Lemma wp_ch_load r Q m : wp (ch_load r) Q m = Q (ch_get r m) m.
Proof. done. Qed.
Lemma wp_ch_store r c Q m : wp (ch_store r c) Q m = Q tt (ch_set r c m).
Proof. done. Qed.
Lemma wp_setss b Q m :
  wp (_setss b) Q m = Q tt (m <| m_ss := b |> <| m_dev ::= spi_select b |>).
Proof. done. Qed.
Lemma wp_spi b Q m :
  wp (spi b) Q m =
    Q (spi_byte b (m_dev m)).1 (m <| m_dev := (spi_byte b (m_dev m)).2 |>).
Proof. unfold wp, spi. by destruct (spi_byte b (m_dev m)). Qed.

Lemma wp_fifo_read n Q m :
  wp (fifo_read n) Q m =
    let x := xfer (replicate n 0x00) (m_dev m) in
    Q (map u8 x.1) (m <| m_dev := x.2 |>).
Proof.
  revert Q m. induction n as [|n IH]; intros Q m; cbn [fifo_read].
  - rewrite wp_ret. by destruct m.
  - rewrite wp_bind, wp_spi, wp_bind, IH. rewrite wp_ret. cbn. upd_simpl.
    by destruct m.
Qed.

Lemma wp_fifo_write l Q m :
  wp (fifo_write l) Q m = Q tt (m <| m_dev := (xfer l (m_dev m)).2 |>).
Proof.
  revert Q m. induction l as [|b l IH]; intros Q m; cbn [fifo_write].
  - rewrite wp_ret. by destruct m.
  - rewrite wp_bind, wp_spi, IH. cbn. upd_simpl. by destruct m.
Qed.
End spi_proofs.

#[export] Hint Rewrite @wp_ch_load @wp_ch_store @wp_setss @wp_spi @wp_fifo_read
  @wp_fifo_write : wp.
#[export] Hint Rewrite @ch_get_radio @ch_get_dev @ch_get_ss @ch_get_sreg @ch_get_pkt
  @ch_get_out @ch_set_radio @ch_set_dev @ch_set_ss @ch_set_pkt
  @ch_set_dev_comm @ch_set_ss_comm @ch_set_radio_comm @ch_set_sreg_comm : chan.

(** ** Frames *)

(** The packet the transmitter sends at time [t]. *)
Definition seal (t : Z) (p : packet) : packet :=
  let q := p <| p_ticks := t |> <| p_csum := 0x00 |> in
  q <| p_csum := packet_csum q |>.

(** The packet as it arrives: what lies behind its length is 0xff. *)
Definition airborne (p : packet) : packet :=
  p <| p_data := take (Z.to_nat (p_len p)) (p_data p) ++
                 replicate (10 - Z.to_nat (p_len p)) 0xff |>.

(** What the receiver makes of a length beyond the payload. *)
Definition rx_clamp (p : packet) : packet :=
  if MAX_PAYLOAD_SIZE <? p_len p then p <| p_len := MAX_PAYLOAD_SIZE |> else p.

Definition header (p : packet) : list Z :=
  [p_ticks p mod 256; p_ticks p / 256; p_node p; p_cmd p; p_len p; p_csum p].

Lemma take_packet p :
  0 <= p_len p ->
  take (Z.to_nat (PACKET_HEADER_LEN + p_len p)) (packet_to_bytes p) =
    header p ++ take (Z.to_nat (p_len p)) (p_data p).
Proof.
  intros Hl. rewrite Z2Nat.inj_add by (unfold PACKET_HEADER_LEN; lia). reflexivity.
Qed.

Lemma packet_csum_split p :
  0 <= p_len p ->
  packet_csum p =
    Z.lxor (xor_bytes (header p)) (xor_bytes (take (Z.to_nat (p_len p)) (p_data p))).
Proof. intros Hl. unfold packet_csum. by rewrite take_packet, xor_bytes_app. Qed.

Lemma seal_good t p : 0 <= p_len p -> packet_csum (seal t p) = 0.
Proof.
  intros Hl. rewrite packet_csum_split by done. unfold seal, header at 1. upd_simpl.
  rewrite packet_csum_split by (upd_simpl; done). unfold header. upd_simpl.
  rewrite !xor_bytes_cons, !xor_bytes_nil. xor_ring.
Qed.

Lemma seal_ok t p :
  packet_ok p -> is_u16 t -> 0 <= p_len p -> packet_ok (seal t p).
Proof.
  intros [Ht Hn Hc Hl Hx Hd Hs] Htt Hl0. unfold seal. split; upd_simpl; try done.
  unfold packet_csum. apply xor_bytes_u8, Forall_take, packet_to_bytes_u8.
  by split; upd_simpl.
Qed.

Lemma airborne_frame p :
  packet_ok p -> p_len p <= 10 -> packet_of_bytes (tx_frame p) = airborne p.
Proof.
  intros Hok Hl. destruct Hok as [Ht _ _ Hl0 _ _ Hs]. unfold is_u8 in Hl0.
  unfold tx_frame. rewrite take_packet by lia.
  replace (Z.to_nat SI4463_PACKET_LEN - Z.to_nat (PACKET_HEADER_LEN + p_len p))%nat
    with (10 - Z.to_nat (p_len p))%nat by (unfold SI4463_PACKET_LEN, PACKET_HEADER_LEN; lia).
  rewrite <- app_assoc. unfold packet_of_bytes, airborne, header, upd, set_p_data. cbn.
  f_equal. unfold is_u16 in Ht. warith.
Qed.

Lemma tx_frame_length p :
  packet_ok p -> p_len p <= 10 -> length (tx_frame p) = 16%nat.
Proof.
  intros Hok Hl. pose proof (ok_len _ Hok) as Hl0. unfold is_u8 in Hl0.
  unfold tx_frame. rewrite take_packet, !length_app, length_take, length_replicate by lia.
  rewrite (ok_size _ Hok). unfold SI4463_PACKET_LEN, PACKET_HEADER_LEN. cbn [length header]. lia.
Qed.

Lemma tx_frame_u8 p : packet_ok p -> bytes (tx_frame p).
Proof.
  intros Hok. unfold tx_frame. apply bytes_app. split.
  - by apply Forall_take, packet_to_bytes_u8.
  - apply Forall_replicate. warith.
Qed.

Lemma airborne_csum p :
  packet_ok p -> p_len p <= 10 -> packet_csum (airborne p) = packet_csum p.
Proof.
  intros Hok Hl. pose proof (ok_len _ Hok) as Hl0. unfold is_u8 in Hl0.
  rewrite !packet_csum_split by (unfold airborne; upd_simpl; lia).
  unfold header, airborne. upd_simpl. do 2 f_equal. rewrite take_app_le.
  - by rewrite take_take, Nat.min_id.
  - rewrite length_take, (ok_size _ Hok). lia.
Qed.

(** ** The two transfers in closed form *)

Section transfers.
Context {D X : Type} `{Platform D}.
Implicit Types (m : machine D X) (r : chanref X).

(** A selected exchange: the platform after the bytes [l] have been shifted out
    between the two edges of the select pin, and the bytes shifted in. *)
Definition selected (l : list Z) (d : D) : list Z * D :=
  let x := xfer l (spi_select true d) in (x.1, spi_select false x.2).

(** What [libradio_rxpacket] leaves in the channel. *)
Definition rx_packet (fifo : Z) (d : D) (p : packet) : packet :=
  let n := Z.to_nat (Z.min sizeof_packet fifo) in
  let l := (selected (SI4463_READ_RX_FIFO :: replicate n 0x00) d).1 in
  rx_clamp (packet_of_bytes (overlay (map u8 (tail l)) (packet_to_bytes p))).

Definition rx_machine r m : machine D X :=
  let fifo := r_rx_fifo (m_radio m) in
  let n := Z.to_nat (Z.min sizeof_packet fifo) in
  let x := selected (SI4463_READ_RX_FIFO :: replicate n 0x00) (m_dev m) in
  let c := ch_get r m in
  ch_set r (c <| c_packet := rx_packet fifo (m_dev m) (c_packet c) |>)
    (m <| m_dev := x.2 |> <| m_ss := false |>).

Lemma wp_libradio_rxpacket r Q m :
  lawful r ->
  wp (libradio_rxpacket r) Q m =
    let q := rx_packet (r_rx_fifo (m_radio m)) (m_dev m) (c_packet (ch_get r m)) in
    let m' := rx_machine r m in
    if packet_csum q =? 0 then
      if p_cmd q <? RADIO_STATUS_RESPONSE then
        Q 1 (m' <| m_radio ::= fun l => l <| r_ms_ticks := p_ticks q |> |>
                <| m_sreg_i := true |>)
      else Q 1 m'
    else Q 0 m'.
Proof.
  intros Hr. unfold libradio_rxpacket, rx_machine, cli, sei. cbv zeta. wp_simpl. upd_simpl.
  replace (if sizeof_packet <? r_rx_fifo (m_radio m) then sizeof_packet
           else r_rx_fifo (m_radio m)) with (Z.min sizeof_packet (r_rx_fifo (m_radio m)))
    by (destruct (Z.ltb_spec sizeof_packet (r_rx_fifo (m_radio m))); lia).
  autorewrite with chan. rewrite !ch_get_set by done. upd_simpl.
  set (n := Z.to_nat _). set (d := m_dev m). set (c := ch_get r m).
  unfold rx_packet, selected. fold n. cbn [xfer fst snd tail].
  match goal with |- context [packet_of_bytes ?l] => set (q0 := packet_of_bytes l) end.
  unfold rx_clamp. destruct (MAX_PAYLOAD_SIZE <? p_len q0);
    wp_simpl; autorewrite with chan; rewrite ?ch_get_set by done; upd_simpl;
    (destruct (packet_csum _ =? 0); cbn [negb]; [|wp_simpl]);
    wp_simpl; try (destruct (_ <? RADIO_STATUS_RESPONSE); wp_simpl);
    rewrite ?ch_set_set by done; by destruct r, m.
Qed.

Lemma wp_libradio_txpacket r Q m :
  lawful r ->
  wp (libradio_txpacket r) Q m =
    let c := ch_get r m in
    if MAX_PAYLOAD_SIZE <? p_len (c_packet c) then Q 0 m
    else
      let q := seal (r_ms_ticks (m_radio m)) (c_packet c) in
      let x := selected (SI4463_WRITE_TX_FIFO :: tx_frame q) (m_dev m) in
      Q 1 (ch_set r (c <| c_packet := q |>)
             (m <| m_sreg_i := true |> <| m_dev := x.2 |> <| m_ss := false |>)).
Proof.
  intros Hr. unfold libradio_txpacket, cli, sei. cbv zeta. wp_simpl.
  destruct (MAX_PAYLOAD_SIZE <? p_len (c_packet (ch_get r m))); [by wp_simpl|].
  wp_simpl. upd_simpl. autorewrite with chan. rewrite !ch_get_set by done. upd_simpl.
  rewrite !ch_set_set by done. unfold selected. cbn [xfer fst snd].
  by destruct r, m.
Qed.

End transfers.

(** ** Frames of the SPI exchanges *)

Section frames.
Context {D X : Type} `{Platform D}.
Implicit Types (m : machine D X) (r : chanref X).

(** The exchange buffer has its declared size and holds bytes. *)
Definition pkt_ok m : Prop := length (m_pkt_data m) = 20%nat /\ bytes (m_pkt_data m).

(** Only the exchange buffer, the select pin and the platform differ:
    putting the old ones back gives the old machine. *)
Definition spi_only m m' : Prop :=
  m' <| m_pkt_data := m_pkt_data m |> <| m_ss := m_ss m |> <| m_dev := m_dev m |> = m.

#[export] Instance spi_only_preorder : PreOrder spi_only.
Proof.
  split; [intros m; by destruct m|]. intros m1 m2 m3 H1 H2. unfold spi_only in *.
  transitivity (m2 <| m_pkt_data := m_pkt_data m1 |> <| m_ss := m_ss m1 |>
                   <| m_dev := m_dev m1 |>); [|done].
  clear H1. rewrite <- H2. by destruct m1, m2, m3.
Qed.

Lemma spi_only_radio m m' : spi_only m m' -> m_radio m' = m_radio m.
Proof. intros <-. done. Qed.

Lemma keeps_setss b : keeps pkt_ok spi_only (_setss b).
Proof. apply keeps_modify. intros m Hm. split; [done|by destruct m]. Qed.

Lemma keeps_spi b : keeps pkt_ok spi_only (spi b).
Proof. intros m Hm. rewrite wp_spi. split; [done|by destruct m]. Qed.

Lemma keeps_pkt_put i v : 0 <= i < 20 -> is_u8 v -> keeps pkt_ok spi_only (pkt_put i v).
Proof.
  intros Hi Hv m [Hm Hb]. rewrite wp_pkt_put by lia. split.
  - split; upd_simpl; [by rewrite length_insert|by apply Forall_insert].
  - by destruct m.
Qed.

Lemma keeps_pkt_get i : 0 <= i < 20 -> keeps pkt_ok spi_only (pkt_get i).
Proof.
  intros Hi m Hm. destruct (Hm) as [Hl _].
  destruct (lookup_lt_is_Some_2 (m_pkt_data m) (Z.to_nat i)) as [b Hb]; [lia|].
  by rewrite (wp_pkt_get _ b) by (done || lia).
Qed.

#[local] Hint Resolve keeps_setss keeps_spi keeps_pkt_put keeps_pkt_get
  spi_only_preorder : keeps.

Lemma keeps_pkt_write n i :
  0 <= i -> i + Z.of_nat n <= 20 -> keeps pkt_ok spi_only (pkt_write n i).
Proof.
  revert i. induction n as [|n IH]; intros i Hi Hn; cbn [pkt_write]; [auto with keeps|].
  apply keeps_bind; [tc_solve|apply keeps_pkt_get; lia|]. intros b.
  apply keeps_bind; [tc_solve|apply keeps_spi|]. intros r.
  apply keeps_if; [auto with keeps|]. apply IH; lia.
Qed.

Lemma keeps_pkt_read n j :
  0 <= j -> j + Z.of_nat n <= 20 -> keeps pkt_ok spi_only (pkt_read n j).
Proof.
  revert j. induction n as [|n IH]; intros j Hj Hn; cbn [pkt_read]; [auto with keeps|].
  apply keeps_bind; [tc_solve|apply keeps_spi|]. intros k.
  apply keeps_if; [auto with keeps|].
  apply keeps_bind; [tc_solve|apply keeps_pkt_put; [lia|apply u8_range]|]. intros _. apply IH; lia.
Qed.

Lemma keeps_pkt_poll n recv :
  0 <= recv <= 20 -> keeps pkt_ok spi_only (pkt_poll n recv).
Proof.
  intros Hr. pose proof (keeps_pkt_read (Z.to_nat recv) 0 ltac:(lia) ltac:(lia)).
  induction n as [|n IH]; cbn [pkt_poll]; auto 20 with keeps.
Qed.

Lemma keeps_pkt_send send recv :
  0 <= send <= 20 -> 0 <= recv <= 20 -> keeps pkt_ok spi_only (pkt_send send recv).
Proof.
  intros Hs Hr. pose proof (keeps_pkt_write (Z.to_nat send) 0 ltac:(lia) ltac:(lia)).
  pose proof (keeps_pkt_poll MAX_COUNT recv Hr). unfold pkt_send. auto 20 with keeps.
Qed.
End frames.

(** ** Properties *)

Section properties.
Context {D X : Type} `{Platform D}.
Implicit Types (m : machine D X) (r : chanref X).

Lemma rx_clamp_len p : p_len (rx_clamp p) <= 10.
Proof.
  unfold rx_clamp. destruct (Z.ltb_spec MAX_PAYLOAD_SIZE (p_len p)); cbv iota; upd_simpl;
    rewrite ?max_payload in *; lia.
Qed.

Lemma rx_clamp_ok p : packet_ok p -> packet_ok (rx_clamp p).
Proof.
  intros [? ? ? ? ? ? ?]. unfold rx_clamp.
  destruct (MAX_PAYLOAD_SIZE <? p_len p); split; upd_simpl; try done.
Qed.

Lemma rx_clamp_id p : p_len p <= 10 -> rx_clamp p = p.
Proof.
  intros Hl. unfold rx_clamp. destruct (Z.ltb_spec MAX_PAYLOAD_SIZE (p_len p)); [|done].
  rewrite max_payload in *. lia.
Qed.

Lemma xfer_length (l : list Z) (d : D) : length (xfer l d).1 = length l.
Proof. revert d. induction l as [|b l IH]; intros d; [done|]. cbn. by rewrite IH. Qed.

Lemma rx_packet_ok fifo (d : D) p : packet_ok p -> is_u8 fifo -> packet_ok (rx_packet fifo d p).
Proof.
  intros Hp Hf. unfold rx_packet, selected. cbn [xfer fst snd tail]. apply rx_clamp_ok.
  set (l := map u8 _).
  assert (bytes l) as Hb. { apply Forall_map, Forall_true. intros b. apply u8_range. }
  assert (length l <= 16)%nat as Hl.
  { unfold l. rewrite length_map, xfer_length, length_replicate. unfold sizeof_packet. lia. }
  pose proof (packet_to_bytes_length p Hp).
  apply packet_of_bytes_ok; [auto with libradio|rewrite overlay_length; lia].
Qed.

Lemma ch_get_rx r m :
  lawful r ->
  c_packet (ch_get r (rx_machine r m)) =
    rx_packet (r_rx_fifo (m_radio m)) (m_dev m) (c_packet (ch_get r m)).
Proof. intros Hr. unfold rx_machine. cbv zeta. by rewrite ch_get_set. Qed.

Lemma rx_machine_radio r m : m_radio (rx_machine r m) = m_radio m.
Proof. unfold rx_machine. autorewrite with chan. by upd_simpl. Qed.

Lemma rx_machine_ss r m : m_ss (rx_machine r m) = false.
Proof. unfold rx_machine. autorewrite with chan. by upd_simpl. Qed.

Lemma rx_machine_channel r m :
  lawful r ->
  ch_get r (rx_machine r m) =
    (ch_get r m) <| c_packet :=
      rx_packet (r_rx_fifo (m_radio m)) (m_dev m) (c_packet (ch_get r m)) |>.
Proof. intros Hr. unfold rx_machine. cbv zeta. by rewrite ch_get_set. Qed.

Lemma with_packet_ok c p : channel_ok c -> packet_ok p -> channel_ok (c <| c_packet := p |>).
Proof. intros [? ? _] ?. by split. Qed.

(** The bytes the radio hands over when the 16 bytes of its FIFO are read. *)
Definition delivered (d : D) : list Z :=
  tail (selected (SI4463_READ_RX_FIFO :: replicate 16 0x00) d).1.

Lemma rx_packet_delivered fifo (d : D) p l :
  16 <= fifo -> packet_ok p -> delivered d = l -> bytes l -> length l = 16%nat ->
  rx_packet fifo d p = rx_clamp (packet_of_bytes l).
Proof.
  intros Hf Hp Hd Hb Hl. unfold rx_packet.
  replace (Z.to_nat (Z.min sizeof_packet fifo)) with 16%nat by (unfold sizeof_packet; lia).
  change (tail _) with (delivered d). rewrite Hd. f_equal. f_equal. unfold overlay.
  rewrite length_map, drop_ge by (rewrite packet_to_bytes_length by done; lia).
  rewrite app_nil_r. by apply map_u8.
Qed.

Lemma tx_frame_delivered t p :
  packet_ok p -> is_u16 t -> p_len p <= 10 ->
  rx_clamp (packet_of_bytes (tx_frame (seal t p))) = airborne (seal t p) /\
  packet_csum (airborne (seal t p)) = 0.
Proof.
  intros Hok Ht Hl. pose proof (ok_len _ Hok) as H0. unfold is_u8 in H0.
  assert (packet_ok (seal t p)) by (apply seal_ok; [done..|lia]).
  assert (p_len (seal t p) = p_len p) as Hlen by done.
  rewrite airborne_frame by (done || lia). split.
  - apply rx_clamp_id. unfold airborne. upd_simpl. lia.
  - rewrite airborne_csum by (done || lia). apply seal_good. lia.
Qed.

(** What a reception leaves: whether the checksum was good, the channel's own
    fields, and the record, changed at most in its clock. *)
Record rx_result r m (v : Z) m' : Prop := {
  rx_value : v = c_bool (packet_csum (c_packet (ch_get r m')) =? 0);
  rx_len : p_len (c_packet (ch_get r m')) <= 10;
  rx_meta : c_state (ch_get r m') = c_state (ch_get r m) /\
            c_priority (ch_get r m') = c_priority (ch_get r m);
  rx_radio : let q := c_packet (ch_get r m') in
    m_radio m' =
      if (packet_csum q =? 0) && (p_cmd q <? RADIO_STATUS_RESPONSE)
      then (m_radio m) <| r_ms_ticks := p_ticks q |> else m_radio m
}.

Lemma wp_rx_result r m :
  lawful r -> wp (libradio_rxpacket r) (fun v m' => rx_result r m v m' /\ m_ss m' = false) m.
Proof.
  intros Hr. rewrite wp_libradio_rxpacket by done. cbv zeta.
  pose proof (ch_get_rx r m Hr) as Hq. set (q := rx_packet _ _ _) in *.
  assert (c_state (ch_get r (rx_machine r m)) = c_state (ch_get r m) /\
          c_priority (ch_get r (rx_machine r m)) = c_priority (ch_get r m)) as Hmeta
    by by rewrite rx_machine_channel.
  pose proof (rx_clamp_len (packet_of_bytes (overlay (map u8 (tail (selected
    (SI4463_READ_RX_FIFO :: replicate (Z.to_nat (Z.min sizeof_packet
      (r_rx_fifo (m_radio m)))) 0) (m_dev m)).1)) (packet_to_bytes (c_packet (ch_get r m)))))) as Hl.
  change (p_len q <= 10) in Hl.
  destruct (packet_csum q =? 0) eqn:Es; [destruct (p_cmd q <? _) eqn:Ec|];
    (split; [|by upd_simpl; rewrite ?rx_machine_ss]); split; autorewrite with chan; cbv zeta; upd_simpl;
    rewrite ?Hq, ?Es, ?Ec, ?rx_machine_radio; done.
Qed.

Lemma rx_channel_ok r m :
  lawful r -> channel_ok (ch_get r m) -> is_u8 (r_rx_fifo (m_radio m)) ->
  wp (libradio_rxpacket r) (fun _ m' => channel_ok (ch_get r m')) m.
Proof.
  intros Hr Hc Hf. rewrite wp_libradio_rxpacket by done. cbv zeta.
  assert (channel_ok (ch_get r (rx_machine r m))) as H1.
  { rewrite rx_machine_channel by done. apply with_packet_ok; [done|].
    apply rx_packet_ok; [by apply ok_packet|done]. }
  destruct (packet_csum _ =? 0); [destruct (_ <? _)|]; by autorewrite with chan.
Qed.

(** Whatever the radio puts on the bus and whatever count it reports for
    its FIFO, receiving a packet stays inside the channel: every field ends in
    the range of its type, the length is at most 10, the chip is deselected, and
    the library's record changes only in its clock, only for a packet with a
    good checksum and a command of the controller. *)
Theorem rx_safe r m :
  lawful r -> channel_ok (ch_get r m) -> is_u8 (r_rx_fifo (m_radio m)) ->
  wp (libradio_rxpacket r) (fun v m' =>
    let q := c_packet (ch_get r m') in
    channel_ok (ch_get r m') /\ p_len q <= 10 /\ m_ss m' = false /\
    v = c_bool (packet_csum q =? 0) /\
    m_radio m' =
      if (packet_csum q =? 0) && (p_cmd q <? RADIO_STATUS_RESPONSE)
      then (m_radio m) <| r_ms_ticks := p_ticks q |> else m_radio m) m.
Proof.
  intros Hr Hc Hf. eapply wp_mono.
  - apply wp_and; [by apply rx_channel_ok|by apply wp_rx_result].
  - intros v m' [H1 [ [] H2] ]. done.
Qed.

(** [C1] A packet of at most 10 bytes that is transmitted is stamped with the
    sender's clock and written to the radio as 16 bytes; every receiver, with
    whatever in its buffer, to which the radio delivers those bytes accepts the
    packet and reads the same time, node, command, length and data, and takes
    over the sender's clock exactly when the command is one of the
    controller's. *)
Theorem frame_round_trip r m :
  lawful r -> packet_ok (c_packet (ch_get r m)) -> is_u16 (r_ms_ticks (m_radio m)) ->
  p_len (c_packet (ch_get r m)) <= 10 ->
  exists frame, length frame = 16%nat /\
  wp (libradio_txpacket r) (fun v m' =>
    v = 1 /\ m_dev m' = (selected (SI4463_WRITE_TX_FIFO :: frame) (m_dev m)).2) m /\
  forall r' (n : machine D X),
    lawful r' -> packet_ok (c_packet (ch_get r' n)) -> 16 <= r_rx_fifo (m_radio n) ->
    delivered (m_dev n) = frame ->
    wp (libradio_rxpacket r') (fun v n' =>
      let p := c_packet (ch_get r m) in
      let q := c_packet (ch_get r' n') in
      let len := Z.to_nat (p_len p) in
      v = 1 /\ p_ticks q = r_ms_ticks (m_radio m) /\ p_node q = p_node p /\
      p_cmd q = p_cmd p /\ p_len q = p_len p /\ take len (p_data q) = take len (p_data p) /\
      r_ms_ticks (m_radio n') =
        if p_cmd p <? RADIO_STATUS_RESPONSE then r_ms_ticks (m_radio m)
        else r_ms_ticks (m_radio n)) n.
Proof.
  intros Hr Hp Ht Hl. set (p := c_packet (ch_get r m)) in *.
  pose proof (ok_len _ Hp) as H0. unfold is_u8 in H0.
  assert (packet_ok (seal (r_ms_ticks (m_radio m)) p)) as Hs by (apply seal_ok; [done..|lia]).
  exists (tx_frame (seal (r_ms_ticks (m_radio m)) p)). split_and!.
  - by apply tx_frame_length.
  - rewrite wp_libradio_txpacket by done. cbv zeta. fold p.
    destruct (Z.ltb_spec MAX_PAYLOAD_SIZE (p_len p)); [rewrite max_payload in *; lia|].
    autorewrite with chan. by upd_simpl.
  - intros r' n Hr' Hn Hf Hd. rewrite wp_libradio_rxpacket by done. cbv zeta.
    rewrite (rx_packet_delivered _ _ _ _ Hf Hn Hd (tx_frame_u8 _ Hs) (tx_frame_length _ Hs Hl)).
    destruct (tx_frame_delivered (r_ms_ticks (m_radio m)) p Hp Ht Hl) as [Hq Hsum].
    pose proof (ch_get_rx r' n Hr') as Hg.
    rewrite (rx_packet_delivered _ _ _ _ Hf Hn Hd (tx_frame_u8 _ Hs) (tx_frame_length _ Hs Hl)), Hq in Hg.
    rewrite Hq, Hsum. cbn [Z.eqb].
    change (p_cmd (airborne (seal (r_ms_ticks (m_radio m)) p))) with (p_cmd p).
    assert (take (Z.to_nat (p_len p)) (p_data (airborne (seal (r_ms_ticks (m_radio m)) p)))
            = take (Z.to_nat (p_len p)) (p_data p)) as Hdata.
    { unfold airborne, seal. upd_simpl. rewrite take_app_le, take_take, Nat.min_id; [done|].
      rewrite length_take, (ok_size _ Hp). lia. }
    destruct (p_cmd p <? RADIO_STATUS_RESPONSE) eqn:Ec; autorewrite with chan; upd_simpl;
      rewrite Hg, ?rx_machine_radio, Hdata; done.
Qed.

(** The exclusive-or of a block of 16 bytes, seen as a packet of length [n]. *)
Lemma packet_csum_bytes l n :
  bytes l -> length l = 16%nat -> l !! 4%nat = Some n ->
  packet_csum (packet_of_bytes l) = xor_bytes (take (Z.to_nat (PACKET_HEADER_LEN + n)) l).
Proof.
  intros Hb Hl Hn. unfold packet_csum. rewrite packet_to_of_bytes by done.
  do 4 f_equal. unfold packet_of_bytes. cbn [p_len]. by apply list_lookup_total_correct.
Qed.

Lemma corrupt_csum l i n x b :
  bytes l -> is_u8 b -> length l = 16%nat -> l !! 4%nat = Some n -> 0 <= n <= 10 ->
  (i < Z.to_nat (PACKET_HEADER_LEN + n))%nat -> i <> 4%nat -> l !! i = Some x -> b <> x ->
  packet_csum (packet_of_bytes l) = 0 ->
  packet_csum (packet_of_bytes (<[i:=b]> l)) <> 0.
Proof.
  intros Hb Hbb Hl Hn Hn10 Hi H4 Hx Hne Hgood.
  rewrite (packet_csum_bytes l n) in Hgood by done. rewrite (packet_csum_bytes _ n).
  - rewrite take_insert_lt by done. rewrite (xor_bytes_insert _ _ x).
    + rewrite Hgood, Z.lxor_0_l. intros E. apply Z.lxor_eq in E. congruence.
    + by rewrite lookup_take_lt.
  - by apply Forall_insert.
  - by rewrite length_insert.
  - by rewrite list_lookup_insert_ne.
Qed.

(** The length in a frame. *)
Lemma frame_length_byte t p : packet_ok p -> p_len p <= 10 -> tx_frame (seal t p) !! 4%nat = Some (p_len p).
Proof.
  intros Hp Hl. pose proof (ok_len _ Hp) as H0. unfold is_u8 in H0.
  unfold tx_frame. rewrite take_packet; [done|]. change (p_len (seal t p)) with (p_len p). lia.
Qed.

(** [C35] A transmitted packet in which one covered byte other than the length
    arrives changed is rejected by every receiver: the checksum does not match. The clock
    is not taken over and nothing of the receiver changes, but for the packet of the
    channel, which holds the corrupted bytes, the command among them, and what the
    exchange with the radio does to that and to the select pin. (The length byte is not
    protected in the same way, see [long_length_accepted].) *)
Theorem corruption_rejected t p i x b r (n : machine D X) :
  packet_ok p -> is_u16 t -> p_len p <= 10 ->
  (i < Z.to_nat (PACKET_HEADER_LEN + p_len p))%nat -> i <> 4%nat ->
  tx_frame (seal t p) !! i = Some x -> is_u8 b -> b <> x ->
  lawful r -> packet_ok (c_packet (ch_get r n)) -> 16 <= r_rx_fifo (m_radio n) ->
  delivered (m_dev n) = <[i:=b]> (tx_frame (seal t p)) ->
  wp (libradio_rxpacket r) (fun v n' => v = 0 /\
    n' = ch_set r ((ch_get r n) <| c_packet := packet_of_bytes (<[i:=b]> (tx_frame (seal t p))) |>)
           (n <| m_dev := (selected (SI4463_READ_RX_FIFO :: replicate 16 0) (m_dev n)).2 |> <| m_ss := false |>)) n.
Proof.
  intros Hp Ht Hl Hi H4 Hx Hb Hne Hr Hn Hf Hd.
  pose proof (ok_len _ Hp) as H0. unfold is_u8 in H0.
  assert (packet_ok (seal t p)) as Hs by (apply seal_ok; [done..|lia]).
  pose proof (tx_frame_u8 _ Hs) as Hu. pose proof (tx_frame_length _ Hs Hl) as Hlen.
  pose proof (frame_length_byte t p Hp Hl) as Hl4.
  assert (rx_clamp (packet_of_bytes (<[i:=b]> (tx_frame (seal t p)))) =
    packet_of_bytes (<[i:=b]> (tx_frame (seal t p)))) as Hid.
  { apply rx_clamp_id. unfold packet_of_bytes. cbn [p_len].
    rewrite list_lookup_total_insert_ne by done. by rewrite (list_lookup_total_correct _ _ _ Hl4). }
  pose proof (rx_packet_delivered (r_rx_fifo (m_radio n)) _ _ _ Hf Hn Hd ltac:(by apply Forall_insert)
    ltac:(by rewrite length_insert)) as Erx. rewrite Hid in Erx.
  rewrite wp_libradio_rxpacket by done. cbv zeta. rewrite Erx.
  destruct (tx_frame_delivered t p Hp Ht Hl) as [Hq Hsum].
  rewrite rx_clamp_id in Hq
    by (unfold packet_of_bytes; cbn [p_len]; by rewrite (list_lookup_total_correct _ _ _ Hl4)).
  rewrite (proj2 (Z.eqb_neq _ 0)).
  - split; [done|]. unfold rx_machine. cbv zeta. rewrite Erx.
    by replace (Z.to_nat (Z.min sizeof_packet (r_rx_fifo (m_radio n)))) with 16%nat by (unfold sizeof_packet; lia).
  - apply (corrupt_csum _ _ (p_len p) x); try done; [lia|]. by rewrite Hq.
Qed.

(** A length above ten is cut to ten before the checksum is taken: in a packet with ten
    bytes of data any such change of the length byte goes unnoticed. *)
Theorem long_length_accepted t p b r (n : machine D X) :
  packet_ok p -> is_u16 t -> p_len p = 10 -> is_u8 b -> 10 < b ->
  lawful r -> packet_ok (c_packet (ch_get r n)) -> 16 <= r_rx_fifo (m_radio n) ->
  delivered (m_dev n) = <[4%nat:=b]> (tx_frame (seal t p)) ->
  wp (libradio_rxpacket r) (fun v n' => v = 1 /\ c_packet (ch_get r n') = airborne (seal t p)) n.
Proof.
  intros Hp Ht Hl Hb H10 Hr Hn Hf Hd.
  assert (packet_ok (seal t p)) as Hs by (apply seal_ok; [done..|lia]).
  pose proof (tx_frame_u8 _ Hs) as Hu. pose proof (tx_frame_length _ Hs ltac:(change (p_len p <= 10); lia)) as Hlen.
  pose proof (frame_length_byte t p Hp ltac:(lia)) as Hl4.
  destruct (tx_frame_delivered t p Hp Ht ltac:(lia)) as [Hq Hsum].
  assert (rx_clamp (packet_of_bytes (<[4%nat:=b]> (tx_frame (seal t p)))) = airborne (seal t p)) as Hid.
  { rewrite <- Hq, (rx_clamp_id (packet_of_bytes (tx_frame (seal t p)))).
    - unfold rx_clamp, packet_of_bytes. cbn [p_len]. rewrite list_lookup_total_insert_eq by lia.
      rewrite max_payload, (proj2 (Z.ltb_lt _ _)) by done. rewrite !list_lookup_total_insert_ne by done.
      rewrite (list_lookup_total_correct _ _ _ Hl4), drop_insert_lt, Hl by lia. done.
    - unfold packet_of_bytes. cbn [p_len]. rewrite (list_lookup_total_correct _ _ _ Hl4). lia. }
  pose proof (rx_packet_delivered (r_rx_fifo (m_radio n)) _ _ _ Hf Hn Hd ltac:(by apply Forall_insert)
    ltac:(by rewrite length_insert)) as Erx. rewrite Hid in Erx.
  rewrite wp_libradio_rxpacket by done. cbv zeta. rewrite Erx, Hsum. cbn [Z.eqb].
  pose proof (ch_get_rx r n Hr) as Hpk. rewrite Erx in Hpk.
  destruct (_ <? _); (split; [done|]); autorewrite with chan; exact Hpk.
Qed.
End properties.

(** ** The handshake of [pkt_send] *)

Section handshake.
Context {D X : Type} `{Platform D}.
Implicit Types (m : machine D X) (d : D).

(** One poll: the command 0x44 and one more byte, between two edges of the
    select pin. The chip is busy while the second reply is not 0xff. *)
Definition cts (d : D) : list Z * D := xfer [0x44; 0xff] (spi_select true d).
Definition busy (d : D) : Prop :=
  exists a k, (cts d).1 = [a; k] /\ 0 <= a /\ 0 <= k /\ k <> 0xff.
Definition ready (d : D) : Prop := exists a, (cts d).1 = [a; 0xff] /\ 0 <= a.
Definition polled (d : D) : D := spi_select false (cts d).2.

Lemma wp_pkt_write n i Q m :
  0 <= i -> (Z.to_nat i + n <= length (m_pkt_data m))%nat ->
  let x := xfer (take n (drop (Z.to_nat i) (m_pkt_data m))) (m_dev m) in
  Forall (fun a => a <> -1) x.1 ->
  wp (pkt_write n i) Q m = Q true (m <| m_dev := x.2 |>).
Proof.
  revert i m. induction n as [|n IH]; intros i m Hi Hn x Hx; cbn [pkt_write].
  { rewrite wp_ret. subst x. rewrite take_0. by destruct m. }
  destruct (lookup_lt_is_Some_2 (m_pkt_data m) (Z.to_nat i)) as [b Hb]; [lia|].
  rewrite wp_bind, (wp_pkt_get _ b) by done. rewrite wp_bind, wp_spi.
  subst x. rewrite (drop_S _ b) in * by done. cbn [take xfer fst snd] in *.
  apply Forall_cons in Hx as [Hx1 Hx]. rewrite (proj2 (Z.eqb_neq _ (-1))) by done.
  rewrite IH; upd_simpl; replace (Z.to_nat (i + 1)) with (S (Z.to_nat i)) by lia.
  - by destruct m.
  - lia.
  - lia.
  - done.
Qed.

Lemma pkt_read_step m d1 l1 f d2 :
  m <| m_dev := d1 |> <| m_pkt_data := l1 |> <| m_pkt_data ::= f |> <| m_dev := d2 |> =
  m <| m_pkt_data := f l1 |> <| m_dev := d2 |>.
Proof. by destruct m. Qed.

Lemma wp_pkt_read n j Q m :
  0 <= j -> (Z.to_nat j + n <= length (m_pkt_data m))%nat ->
  let x := xfer (replicate n 0xff) (m_dev m) in
  Forall (fun a => 0 <= a) x.1 ->
  wp (pkt_read n j) Q m =
    Q true (m <| m_pkt_data ::= fun l =>
                   take (Z.to_nat j) l ++ map u8 x.1 ++ drop (Z.to_nat j + n) l |>
              <| m_dev := x.2 |>).
Proof.
  revert j m. induction n as [|n IH]; intros j m Hj Hn x Hx; cbn [pkt_read].
  { rewrite wp_ret. subst x. destruct m. unfold upd, set_m_pkt_data, set_m_dev. cbn.
    by rewrite Nat.add_0_r, take_drop. }
  rewrite wp_bind, wp_spi. subst x. cbn [replicate xfer fst snd] in *.
  apply Forall_cons in Hx as [Hx1 Hx].
  destruct (Z.ltb_spec (spi_byte 255 (m_dev m)).1 0); [lia|].
  set (v := u8 _). rewrite wp_bind, wp_pkt_put by (upd_simpl; lia). upd_simpl.
  rewrite IH; upd_simpl; rewrite ?length_insert; [|lia..|done].
  set (l := m_pkt_data m) in *.
  replace (Z.to_nat (j + 1)) with (S (Z.to_nat j)) by lia. cbn [map]. fold v.
  assert (take (S (Z.to_nat j)) (<[Z.to_nat j:=v]> l) = take (Z.to_nat j) l ++ [v]) as E1.
  { rewrite (take_S_r _ _ v) by (rewrite list_lookup_insert_eq by lia; done).
    by rewrite take_insert_ge by lia. }
  assert (drop (S (Z.to_nat j) + n) (<[Z.to_nat j:=v]> l) = drop (Z.to_nat j + S n) l) as E2.
  { rewrite drop_insert_lt by lia. f_equal. lia. }
  rewrite pkt_read_step, E1, E2, <- app_assoc. done.
Qed.

(** The answer read after a poll that succeeded. *)
Definition answer (recv : Z) (d : D) : list Z * D := xfer (replicate (Z.to_nat recv) 0xff) (cts d).2.

Lemma wp_pkt_poll_busy n recv Q m :
  busy (m_dev m) ->
  wp (pkt_poll (S n) recv) Q m =
    wp (pkt_poll n recv) Q (m <| m_ss := false |> <| m_dev ::= polled |>).
Proof.
  intros (a&k&Hr&Ha&Hk&Hne). unfold polled, cts in *. cbn [pkt_poll xfer fst snd] in *.
  injection Hr as Hr1 Hr2. wp_simpl. upd_simpl. rewrite Hr1.
  destruct (Z.ltb_spec a 0); [lia|]. wp_simpl. upd_simpl. rewrite Hr2.
  destruct (Z.ltb_spec k 0); [lia|]. rewrite (proj2 (Z.eqb_neq _ _)) by done.
  wp_simpl. by destruct m.
Qed.

Lemma wp_pkt_poll_ready n recv Q m :
  ready (m_dev m) -> 0 <= recv <= 20 -> pkt_ok m ->
  Forall (fun a => 0 <= a) (answer recv (m_dev m)).1 ->
  wp (pkt_poll (S n) recv) Q m =
    Q SPI_SEND_OK (m <| m_pkt_data ::= fun l =>
        map u8 (answer recv (m_dev m)).1 ++ drop (Z.to_nat recv) l |>
      <| m_ss := false |> <| m_dev := spi_select false (answer recv (m_dev m)).2 |>).
Proof.
  intros (a&Hr&Ha) Hrecv [Hsz _] Hans. unfold answer, cts in *.
  cbn [pkt_poll xfer fst snd] in *.
  injection Hr as Hr1 Hr2. wp_simpl. upd_simpl. rewrite Hr1.
  destruct (Z.ltb_spec a 0); [lia|]. wp_simpl. upd_simpl. rewrite Hr2.
  change (255 <? 0) with false. change (255 =? 255) with true. cbv iota. wp_simpl.
  rewrite wp_pkt_read by (upd_simpl; first [done|lia]).
  wp_simpl. upd_simpl. by destruct m.
Qed.

(** The polls of a chip that is busy [j] times and then ready. *)
Lemma wp_pkt_poll_after j n recv Q m :
  (forall i, (i < j)%nat -> busy (Nat.iter i polled (m_dev m))) -> (j <= n)%nat ->
  wp (pkt_poll n recv) Q m =
    wp (pkt_poll (n - j) recv) Q
      (if decide (j = 0%nat) then m
       else m <| m_ss := false |> <| m_dev := Nat.iter j polled (m_dev m) |>).
Proof.
  revert n m. induction j as [|j IH]; intros n m Hb Hj; [by rewrite Nat.sub_0_r|].
  destruct n as [|n]; [lia|]. rewrite wp_pkt_poll_busy by apply (Hb 0%nat ltac:(lia)).
  rewrite IH by (try lia; intros i Hi; upd_simpl; rewrite <- Nat.iter_succ_r; apply Hb; lia).
  cbn [Nat.sub]. upd_simpl. rewrite <- Nat.iter_succ_r. f_equal.
  destruct j as [|j]; by destruct m.
Qed.

(** A call of [pkt_send] whose command is written: the platform afterwards. *)
Definition commanded (send : Z) m : list Z * D :=
  selected (take (Z.to_nat send) (m_pkt_data m)) (m_dev m).

Lemma wp_pkt_send_written send recv Q m :
  0 <= send <= 20 -> pkt_ok m -> Forall (fun a => a <> -1) (commanded send m).1 ->
  wp (pkt_send send recv) Q m =
    wp (pkt_poll MAX_COUNT recv) Q
      (m <| m_ss := false |> <| m_dev := (commanded send m).2 |>).
Proof.
  intros Hs [Hsz _] Hx. unfold pkt_send, commanded, selected in *. wp_simpl.
  cbn [fst snd] in Hx. rewrite wp_pkt_write by (upd_simpl; (lia || done)). wp_simpl.
  upd_simpl. by destruct m.
Qed.

(** When the command's bytes can be written and the chip is busy for
    [j < 1000] polls and then ready, [pkt_send] succeeds: the answer is at the
    start of the buffer, the rest of the buffer and of the machine is
    unchanged, the chip has seen exactly the command, the polls and the read,
    and is deselected. *)
Theorem pkt_send_answers send recv j m :
  0 <= send <= 20 -> 0 <= recv <= 20 -> pkt_ok m ->
  Forall (fun a => a <> -1) (commanded send m).1 -> (j < 1000)%nat ->
  (forall i, (i < j)%nat -> busy (Nat.iter i polled (commanded send m).2)) ->
  let d := Nat.iter j polled (commanded send m).2 in
  ready d -> Forall (fun a => 0 <= a) (answer recv d).1 ->
  pkt_send send recv m = Done SPI_SEND_OK
    (m <| m_pkt_data ::= fun l => map u8 (answer recv d).1 ++ drop (Z.to_nat recv) l |>
       <| m_ss := false |> <| m_dev := spi_select false (answer recv d).2 |>).
Proof.
  intros Hs Hr Hsz Hx Hj Hb d Hrd Ha.
  apply wp_run. intros Q.
  rewrite wp_pkt_send_written, (wp_pkt_poll_after j) by (done || unfold MAX_COUNT; lia).
  replace (MAX_COUNT - j)%nat with (S (MAX_COUNT - j - 1)) by (unfold MAX_COUNT; lia).
  destruct (decide (j = 0%nat)) as [->|];
    rewrite wp_pkt_poll_ready by done; by destruct m.
Qed.

Lemma pkt_poll_code n recv m :
  0 <= recv <= 20 -> pkt_ok m -> m_ss m = false ->
  wp (pkt_poll n recv) (fun v m' => 0 <= v <= 5 /\ m_ss m' = false) m.
Proof.
  intros Hr. revert m. induction n as [|n IH]; intros m Hsz Hss; cbn [pkt_poll].
  { by wp_simpl. }
  wp_simpl. destruct (_ <? 0); [by wp_simpl|]. wp_simpl. destruct (_ <? 0); [by wp_simpl|].
  destruct (_ =? 255); wp_simpl.
  - eapply keeps_wp; [apply (keeps_pkt_read (Z.to_nat recv) 0); lia|done|].
    intros [] m' _ _; by wp_simpl.
  - by apply IH.
Qed.

(** [C39] Every call of [pkt_send] with lengths that fit the buffer returns
    after at most 1000 polls with one of the six result codes, whatever the
    chip does; it stays inside the buffer, changes nothing but the buffer and
    the platform, and leaves the chip deselected. *)
Theorem pkt_send_safe send recv m :
  0 <= send <= 20 -> 0 <= recv <= 20 -> pkt_ok m ->
  wp (pkt_send send recv) (fun v m' =>
    (SPI_SEND_OK <= v <= SPI_SEND_TIMEOUT /\ m_ss m' = false) /\
    pkt_ok m' /\ m' <| m_pkt_data := m_pkt_data m |> <| m_ss := m_ss m |>
                       <| m_dev := m_dev m |> = m) m.
Proof.
  intros Hs Hr Hsz. apply wp_and; [|by apply keeps_pkt_send].
  unfold pkt_send. wp_simpl.
  eapply keeps_wp; [apply (keeps_pkt_write (Z.to_nat send) 0); lia|done|].
  intros [] m' Hsz' _; wp_simpl; [|done]. by apply pkt_poll_code.
Qed.

(** A chip that is busy for 1000 polls makes [pkt_send] give up with the
    timeout code; nothing is read and the buffer still holds the command. *)
Theorem pkt_send_timeout send recv m :
  0 <= send <= 20 -> pkt_ok m -> Forall (fun a => a <> -1) (commanded send m).1 ->
  (forall i, (i < 1000)%nat -> busy (Nat.iter i polled (commanded send m).2)) ->
  pkt_send send recv m = Done SPI_SEND_TIMEOUT
    (m <| m_ss := false |> <| m_dev := Nat.iter 1000 polled (commanded send m).2 |>).
Proof.
  intros Hs Hsz Hx Hb. apply wp_run. intros Q.
  rewrite wp_pkt_send_written, (wp_pkt_poll_after 1000) by (done || unfold MAX_COUNT; lia).
  destruct (decide (1000 = 0)%nat); [done|]. by destruct m.
Qed.
End handshake.

(** ** Instances of the properties *)

(** A platform that replays a script of replies on the SPI bus and holds the
    EEPROM's bytes. *)
#[export] Instance script_platform : Platform (list Z) := {|
  spi_init := fun d => d;
  spi_byte := fun _ d => (hd 0xff d, tl d);
  spi_select := fun _ d => d;
  eeprom_read_byte := fun a _ => u8 a;
  eeprom_write_byte := fun _ _ d => d;
  analog_read := fun _ d => (0, d)
|}.

Definition bench_packet : packet :=
  mk_packet 0 7 RADIO_CMD_ACTIVATE 3 0 [1; 2; 3; 0; 0; 0; 0; 0; 0; 0].

(** A machine whose chip replies with the script [d]. *)
Definition bench_spi (d : list Z) : machine (list Z) unit :=
  (reset_machine d tt [])
    <| m_radio := zero_libradio <| r_ms_ticks := 1000 |> <| r_rx_fifo := 16 |> |>
    <| m_txchan := zero_channel <| c_packet := bench_packet |> |>.

Lemma bench_pkt_ok d : pkt_ok (bench_spi d).
Proof. split; [done|]. by apply Forall_replicate. Qed.

Lemma bench_packet_ok : packet_ok bench_packet.
Proof. split; cbn; try warith; bytes_cons. Qed.

Lemma rx_safe_witness :
  wp (libradio_rxpacket RxChan) (fun v m' =>
    let q := c_packet (m_rxchan m') in
    channel_ok (m_rxchan m') /\ p_len q <= 10 /\ m_ss m' = false /\
    v = c_bool (packet_csum q =? 0) /\
    m_radio m' =
      if (packet_csum q =? 0) && (p_cmd q <? RADIO_STATUS_RESPONSE)
      then (m_radio (bench_spi [0; 1; 2; 3])) <| r_ms_ticks := p_ticks q |>
      else m_radio (bench_spi [0; 1; 2; 3])) (bench_spi [0; 1; 2; 3]).
Proof.
  apply (rx_safe RxChan (bench_spi [0; 1; 2; 3]));
    [done|apply zero_channel_ok|done].
Defined.

Lemma frame_round_trip_witness :
  exists frame, length frame = 16%nat /\
  wp (libradio_rxpacket RxChan) (fun v n' =>
    v = 1 /\ take 3 (p_data (c_packet (m_rxchan n'))) = [1; 2; 3] /\
    r_ms_ticks (m_radio n') = 1000) (bench_spi (0 :: frame)).
Proof.
  destruct (frame_round_trip TxChan (bench_spi [])) as (frame&Hlen&_&Hrx);
    [done|apply bench_packet_ok|done|done|].
  exists frame. split; [done|].
  eapply wp_mono.
  - apply (Hrx RxChan (bench_spi (0 :: frame))); [done|apply zero_packet_ok|done|].
    do 17 (destruct frame as [|? frame]; try done).
  - intros v n' (Hv&_&_&_&_&Hd&Ht). auto.
Defined.

Lemma corruption_rejected_witness :
  let frame := <[7%nat:=9]> (tx_frame (seal 1000 bench_packet)) in
  let n := bench_spi (0 :: frame) in
  wp (libradio_rxpacket RxChan) (fun v n' => v = 0 /\
    n' = n <| m_dev := [] |> <| m_rxchan ::= fun c => c <| c_packet := packet_of_bytes frame |> |>) n.
Proof.
  intros frame n.
  eapply wp_mono; [apply (corruption_rejected 1000 bench_packet 7 2 9 RxChan n); try done|].
  - apply bench_packet_ok.
  - by apply Nat.ltb_lt.
  - apply zero_packet_ok.
  - intros v n' [Hv ->]. split; [exact Hv|reflexivity].
Defined.

(** The chip takes three bytes, is busy once and then answers. *)
Definition bench_reply : list Z := [0; 0; 0;  0; 0;  0; 255; 17; 18].

Lemma pkt_send_answers_witness :
  pkt_send 3 2 (bench_spi bench_reply) = Done SPI_SEND_OK
    ((bench_spi bench_reply) <| m_pkt_data := [17; 18] ++ replicate 18 0 |> <| m_ss := false |>
       <| m_dev := [] |>).
Proof.
  rewrite (pkt_send_answers 3 2 1 (bench_spi bench_reply)); try done.
  - apply bench_pkt_ok.
  - repeat constructor; done.
  - lia.
  - intros [|i] Hi; [|lia]. by exists 0, 0.
  - by exists 0.
  - repeat constructor; done.
Defined.

Lemma pkt_send_safe_witness :
  wp (pkt_send 20 20) (fun v m' =>
    (SPI_SEND_OK <= v <= SPI_SEND_TIMEOUT /\ m_ss m' = false) /\
    pkt_ok m' /\ m' <| m_pkt_data := replicate 20 0 |> <| m_ss := false |>
                       <| m_dev := [0; -1] |> = bench_spi [0; -1]) (bench_spi [0; -1]).
Proof. apply (pkt_send_safe 20 20 (bench_spi [0; -1])); [done..|apply bench_pkt_ok]. Defined.

(** A chip that never leaves its busy state: the script never ends. *)
Lemma busy_script n : busy (replicate (S (S n)) 0).
Proof. by exists 0, 0. Qed.

Lemma pkt_send_timeout_witness :
  exists m', pkt_send 3 2 (bench_spi (replicate 2003 0)) = Done SPI_SEND_TIMEOUT m'.
Proof.
  eexists. apply (pkt_send_timeout 3 2 (bench_spi (replicate 2003 0))).
  - lia.
  - apply bench_pkt_ok.
  - by repeat constructor.
  - intros i Hi.
    assert (Nat.iter i polled (replicate 2000 0) = replicate (2000 - 2 * i) 0) as Hd.
    { revert Hi. induction i as [|i IH]; intros Hi; [done|]. rewrite Nat.iter_succ.
      rewrite IH by lia. replace (2000 - 2 * i)%nat with (S (S (2000 - 2 * S i))) by lia. done. }
    change (commanded _ _).2 with (replicate 2000 0). rewrite Hd.
    replace (2000 - 2 * i)%nat with (S (S (1998 - 2 * i))) by lia. apply busy_script.
Defined.
