(* ===== verification/Invariant.v ===== *)
(** The invariant of the firmware: every object and every register holds values of its type, the
    buffers have their sizes and the clock periods are positive. The accessors,
    the timer interrupt, the changes of state and the exchanges with the radio
    keep it. *)

From S2P Require Import Machine Clock State Spi.

(** What the application promises of its own objects. *)
Class AppInv (X : Type) := app_inv : X -> Prop.

(** A character received is a byte. *)
Definition event_ok (e : event) : Prop := match e with SerialRx c => is_u8 c | _ => True end.

Section invariant.
Context {D X : Type} `{AppInv X}.
Implicit Types m : machine D X.

(** The counters and flags beside the record, and the registers, hold values of their
    types. *)
Definition flags_ok m : Prop :=
  Forall is_u8 [m_thread_ok m; m_elapsed_second m; m_irq_fired m; m_hbclock m;
                m_pkt_index m; m_pkt_send_len m; m_pkt_recv_len m] /\
  is_u16 (m_timer_count m) /\
  Forall is_u8 [m_tccr1b m; m_tccr1c m; m_timsk1 m; m_eicra m; m_eimsk m].

Record fw_ok m : Prop := {
  fw_radio : libradio_ok (m_radio m);
  fw_periods : periods_ok (m_radio m);
  fw_pkt : pkt_ok m;
  fw_status : length (m_statusbuffer m) = 16%nat /\ bytes (m_statusbuffer m);
  fw_rxchan : channel_ok (m_rxchan m);
  fw_txchan : channel_ok (m_txchan m);
  fw_queue : bytes (m_iqueue m);
  fw_events : Forall event_ok (m_events m);
  fw_app : app_inv (m_app m);
  fw_flags : flags_ok m
}.

(** A change of the record that respects the types and the periods. *)
Lemma fw_ok_radio m g :
  fw_ok m -> libradio_ok (g (m_radio m)) -> periods_ok (g (m_radio m)) ->
  fw_ok (m <| m_radio ::= g |>).
Proof. intros [] ??. by split. Qed.

Lemma preserves_rput {T} (range : T -> Prop) (f : libradio -> T)
    `{!Setter f, !TypedField range f} v :
  range v -> (forall l, periods_ok l -> periods_ok (l <| f := v |>)) ->
  preserves fw_ok (rput f v).
Proof.
  intros Hv Hp m Hm. apply fw_ok_radio; [done|apply field_put; [by apply fw_radio|done]|].
  apply Hp, Hm.
Qed.

Lemma preserves_rget {T} (f : libradio -> T) : preserves fw_ok (rget f : fw D X T).
Proof. by intros m Hm. Qed.

Lemma preserves_print l : preserves fw_ok (print l : fw D X unit).
Proof. by intros m []. Qed.

Lemma preserves_cli : preserves fw_ok (cli : fw D X unit).
Proof. by intros m []. Qed.
Lemma preserves_sei : preserves fw_ok (sei : fw D X unit).
Proof. by intros m []. Qed.

(** Reading a field of a known range. *)
Lemma preserves_rget_bind {T B} (range : T -> Prop) (f : libradio -> T)
    `{!Setter f, !TypedField range f} (k : T -> fw D X B) :
  (forall v, range v -> preserves fw_ok (k v)) -> preserves fw_ok (v ← rget f; k v).
Proof.
  intros Hk. apply (preserves_bind_val _ range); [|done]. intros m Hm.
  split; [by apply field_get, fw_radio|done].
Qed.
End invariant.

(** Storing in the flags and the registers. *)
Ltac flags :=
  match goal with
  | H : flags_ok _ |- flags_ok _ =>
      destruct H as (?&?&?);
      repeat match goal with Hf : Forall is_u8 (_ :: _) |- _ => apply Forall_cons in Hf as [? ?] end;
      split; [|split]; upd_simpl;
      repeat first [apply Forall_nil_2 | apply Forall_cons_2 | in_range]
  end.

#[export] Hint Resolve preserves_rget preserves_print preserves_cli preserves_sei : preserves.

(** Storing in a field other than a period. *)
#[export] Hint Extern 1 (preserves fw_ok (rput ?f ?v)) =>
  first [ apply (preserves_rput is_u8 f v) | apply (preserves_rput is_u16 f v) ];
  [in_range|by intros ? [] ] : preserves.

(** Clearing the flag of the main loop. *)
Lemma fw_ok_thread {D X} `{AppInv X} (m : machine D X) : fw_ok m -> fw_ok (m <| m_thread_ok := 0 |>).
Proof. intros []. split; try done. flags. Qed.

(** ** Exchanges with the radio *)

(** A reference to a channel whose content is well formed. *)
Record ref_ok {X} `{AppInv X} (r : chanref X) : Prop := {
  ref_lawful : lawful r;
  ref_get : match r with
            | AppChan get _ => forall x, app_inv x -> channel_ok (get x)
            | _ => True
            end;
  ref_set : match r with
            | AppChan _ set => forall c x, channel_ok c -> app_inv x -> app_inv (set c x)
            | _ => True
            end
}.

Section exchanges.
Context {D X : Type} `{Platform D} `{AppInv X}.
Implicit Types (m : machine D X) (r : chanref X).

Lemma fw_ok_spi m m' : fw_ok m -> pkt_ok m' -> spi_only m m' -> fw_ok m'.
Proof.
  intros [] Hp Hs. unfold spi_only in Hs. rewrite <- Hs in *. by split.
Qed.

Lemma preserves_spi_only {A} (c : fw D X A) :
  keeps pkt_ok spi_only c -> preserves fw_ok c.
Proof.
  intros Hc m Hm. apply safe_wp. eapply keeps_wp; [done|apply Hm|].
  intros _ m' Hp Hs. by apply (fw_ok_spi m).
Qed.

Lemma preserves_setss b : preserves fw_ok (_setss b : fw D X unit).
Proof. apply preserves_spi_only, keeps_setss. Qed.

Lemma preserves_spi b : preserves fw_ok (spi b : fw D X Z).
Proof. apply preserves_spi_only, keeps_spi. Qed.

Lemma preserves_pkt_put i v :
  0 <= i < 20 -> is_u8 v -> preserves fw_ok (pkt_put i v : fw D X unit).
Proof. intros. by apply preserves_spi_only, keeps_pkt_put. Qed.

Lemma preserves_pkt_puts i l :
  0 <= i -> i + Z.of_nat (length l) <= 20 -> bytes l ->
  preserves fw_ok (pkt_puts i l : fw D X unit).
Proof.
  revert i. induction l as [|v l IH]; intros i Hi Hl Hb; cbn [pkt_puts length] in *.
  { apply preserves_ret. }
  apply Forall_cons in Hb as [Hv Hb].
  apply preserves_bind; [apply preserves_pkt_put; [lia|done]|]. intros _. apply IH; [lia..|done].
Qed.

Lemma preserves_pkt_send send recv :
  0 <= send <= 20 -> 0 <= recv <= 20 -> preserves fw_ok (pkt_send send recv : fw D X Z).
Proof. intros. by apply preserves_spi_only, keeps_pkt_send. Qed.

(** A byte read from the buffer is a byte. *)
Lemma preserves_pkt_get_bind {B} i (k : Z -> fw D X B) :
  0 <= i < 20 -> (forall v, is_u8 v -> preserves fw_ok (k v)) ->
  preserves fw_ok (v ← pkt_get i; k v).
Proof.
  intros Hi. apply preserves_bind_val. intros m Hm. apply safe_wp.
  destruct (fw_pkt m Hm) as [Hl Hb].
  destruct (lookup_lt_is_Some_2 (m_pkt_data m) (Z.to_nat i)) as [v Hv]; [lia|].
  rewrite (wp_pkt_get _ v) by (done || lia). split; [|done]. by eapply Forall_lookup_1.
Qed.

Lemma preserves_pkt_error i : preserves fw_ok (pkt_error i : fw D X Z).
Proof. unfold pkt_error. auto with preserves. Qed.

Lemma ch_get_ok r m : ref_ok r -> fw_ok m -> channel_ok (ch_get r m).
Proof. intros [_ Hg _] []. destruct r; cbn; auto. Qed.

Lemma fw_ok_ch_set r c m : ref_ok r -> channel_ok c -> fw_ok m -> fw_ok (ch_set r c m).
Proof. intros [_ _ Hs] Hc []. destruct r; cbn; split; try done. by apply Hs. Qed.

Lemma fw_ok_dev m d b : fw_ok m -> fw_ok (m <| m_dev := d |> <| m_ss := b |>).
Proof. intros []. by split. Qed.

Lemma fw_ok_sreg m b : fw_ok m -> fw_ok (m <| m_sreg_i := b |>).
Proof. intros []. by split. Qed.

Lemma rxpacket_total r m :
  ref_ok r -> fw_ok m ->
  wp (libradio_rxpacket r) (fun v m' => fw_ok m' /\ rx_result r m v m') m.
Proof.
  intros Hr Hm. pose proof (ch_get_ok r m Hr Hm) as Hc. apply wp_and.
  - rewrite wp_libradio_rxpacket by apply Hr. cbv zeta.
    assert (packet_ok (rx_packet (r_rx_fifo (m_radio m)) (m_dev m) (c_packet (ch_get r m)))) as Hq.
    { apply rx_packet_ok; [by apply ok_packet|by apply field_get, fw_radio]. }
    assert (fw_ok (rx_machine r m)) as Hrx.
    { apply fw_ok_ch_set; [done|by apply with_packet_ok|by apply fw_ok_dev]. }
    destruct (packet_csum _ =? 0); [|done]. destruct (_ <? _); [|done].
    apply fw_ok_sreg, fw_ok_radio; [done| |].
    + apply field_put; [by apply fw_radio|by apply ok_ticks].
    + by destruct (fw_periods _ Hrx).
  - eapply wp_mono; [apply wp_rx_result, Hr|]. by intros v m' [? _].
Qed.

Lemma preserves_libradio_rxpacket r :
  ref_ok r -> preserves fw_ok (libradio_rxpacket r : fw D X Z).
Proof.
  intros Hr. apply preserves_wp. intros m Hm.
  eapply wp_mono; [by apply rxpacket_total|]. by intros v m' [? _].
Qed.

Lemma preserves_libradio_txpacket r :
  ref_ok r -> preserves fw_ok (libradio_txpacket r : fw D X Z).
Proof.
  intros Hr. apply preserves_wp. intros m Hm.
  pose proof (ch_get_ok r m Hr Hm) as Hc.
  rewrite wp_libradio_txpacket by apply Hr. cbv zeta.
  destruct (_ <? _); [done|].
  apply fw_ok_ch_set; [done| |by apply fw_ok_dev, fw_ok_sreg].
  apply with_packet_ok; [done|]. apply seal_ok; [by apply ok_packet|by apply field_get, fw_radio|].
  apply ok_len. by apply ok_packet.
Qed.
End exchanges.

#[export] Hint Resolve preserves_setss preserves_spi preserves_pkt_error
  preserves_libradio_rxpacket preserves_libradio_txpacket : preserves.
#[export] Hint Extern 1 (preserves fw_ok (pkt_put _ _)) =>
  apply preserves_pkt_put; [lia|in_range] : preserves.
#[export] Hint Extern 1 (preserves fw_ok (pkt_send _ _)) =>
  apply preserves_pkt_send; lia : preserves.

(** Walks through a command, keeping what is known of the values read. *)
Ltac preserve :=
  lazymatch goal with
  | |- preserves _ (mbind _ (pkt_get _)) =>
      apply preserves_pkt_get_bind; [lia|intros ? ?; preserve]
  | |- preserves _ (mbind _ (rget ?f)) =>
      first [apply (preserves_rget_bind is_u8 f) | apply (preserves_rget_bind is_u16 f)];
      intros ? ?; preserve
  | |- preserves _ (mbind _ _) => apply preserves_bind; [preserve|intros ?; preserve]
  | |- preserves _ (when _ _) => apply preserves_when; preserve
  | |- preserves _ (if _ then _ else _) => apply preserves_if; preserve
  | |- preserves _ (for_loop _ _ _) => apply preserves_for_loop; intros ? ?; preserve
  | |- _ => auto with preserves libradio
  end.

(** ** The clock and the changes of state *)

Section clock_state.
Context {D X : Type} `{AppInv X}.
Implicit Types m : machine D X.

Lemma with_delay_ok d l :
  libradio_ok l -> periods_ok l -> is_u16 d ->
  libradio_ok (with_delay d l) /\ periods_ok (with_delay d l).
Proof.
  intros Hl [] Hd. unfold with_delay. split; [|by split].
  apply field_put; [by apply field_put|]. case_match; [done|]. by apply field_get.
Qed.

Lemma preserves_libradio_set_delay d :
  is_u16 d -> preserves fw_ok (libradio_set_delay d : fw D X unit).
Proof.
  intros Hd. unfold libradio_set_delay. preserve.
Qed.

Lemma song_of_u16 s : 0 <= s -> is_u16 (song_of s).
Proof.
  intros Hs. assert (Forall is_u16 songs) as Hf by (repeat constructor; done).
  by eapply Forall_lookup_1, songs_lookup.
Qed.

Lemma song_step_ok hb p h led : is_u16 h -> is_u16 (song_step hb p h led).1.2.
Proof. intros Hh. unfold song_step. case_match; [apply u16_range|done]. Qed.

Lemma main_step_ok mt tc ok : is_u16 mt -> is_u16 tc -> is_u16 (main_step mt tc ok).1.
Proof. intros. unfold main_step. repeat case_match; try done. apply u16_range. Qed.

Lemma time_step_u16 p tom ms :
  is_u8 tom -> is_u16 ms -> is_u8 (time_step p tom ms).1 /\ is_u16 (time_step p tom ms).2.
Proof.
  intros. unfold time_step. repeat case_match; cbn; auto with libradio. split; [|done].
  apply u8_range.
Qed.

Lemma tick_radio_ok l h tm mn :
  libradio_ok l -> periods_ok l -> is_u16 h -> is_u8 tm.1 -> is_u16 tm.2 -> is_u16 mn.1 ->
  libradio_ok (tick_radio l h tm mn) /\ periods_ok (tick_radio l h tm mn).
Proof.
  intros Hl [] Hh H1 H2 H3. unfold tick_radio. split; [|by split].
  repeat apply field_put; try done. apply u16_range.
Qed.

Lemma song_step_u8 hb p h led : is_u8 (song_step hb p h led).1.1.
Proof. unfold song_step. case_match; apply u8_range. Qed.

Lemma main_step_flag mt tc ok : is_u8 ok -> is_u8 (main_step mt tc ok).2.
Proof. intros. unfold main_step. by repeat case_match. Qed.

Lemma second_step_ok t p e : is_u8 e -> is_u16 (second_step t p e).1 /\ is_u8 (second_step t p e).2.
Proof. intros. unfold second_step. case_match; split; try done; apply u16_range. Qed.

Lemma flags_ok_tick m : flags_ok m -> flags_ok (tick_machine m).
Proof.
  intros Hf. unfold tick_machine. cbv zeta.
  pose proof (song_step_u8 (m_hbclock m) (r_period (m_radio m)) (r_heart_beat (m_radio m)) (m_led m)).
  pose proof (main_step_flag (r_main_ticks (m_radio m)) (r_tick_count (m_radio m)) _ (Forall_lookup_1 _ _ 0 _ (proj1 Hf) eq_refl)).
  destruct (second_step_ok (m_timer_count m) (r_period (m_radio m)) _ (Forall_lookup_1 _ _ 1 _ (proj1 Hf) eq_refl)).
  flags.
Qed.

Lemma fw_ok_tick m : fw_ok m -> fw_ok (tick_machine m).
Proof.
  intros Hm. unfold tick_machine. cbv zeta.
  pose proof (flags_ok_tick m (fw_flags m Hm)) as Hf. unfold tick_machine in Hf. cbv zeta in Hf. revert Hf.
  set (sg := song_step _ _ _ _). set (tm := time_step _ _ _). set (mn := main_step _ _ _). intros Hf.
  assert (is_u16 sg.1.2 /\ is_u8 tm.1 /\ is_u16 tm.2 /\ is_u16 mn.1) as (H1&H2&H3&H4).
  { pose proof (fw_radio m Hm).
    split_and!; [apply song_step_ok|eapply time_step_u16|eapply time_step_u16|apply main_step_ok];
      by apply field_get. }
  destruct (tick_radio_ok (m_radio m) sg.1.2 tm mn) as [Hl Hp]; try done; try apply Hm.
  destruct Hm as []. by split.
Qed.

Lemma preserves_clocktick : preserves fw_ok (clocktick : fw D X unit).
Proof.
  apply preserves_wp. intros m Hm. unfold wp. rewrite clocktick_eq. by apply fw_ok_tick.
Qed.
End clock_state.

Section states.
Context {D X : Type} `{App D X, !AppInv X}.
Implicit Types m : machine D X.

Lemma listen_mode_ok l :
  libradio_ok l -> periods_ok l -> libradio_ok (listen_mode l) /\ periods_ok (listen_mode l).
Proof.
  intros Hl Hp. unfold listen_mode. apply with_delay_ok; [| |done].
  - repeat apply field_put; try done.
    + case_match; by apply field_get.
    + apply div_u16; [case_match; lia|apply Hp].
  - destruct Hp. split; cbn; upd_simpl; try done. by case_match.
Qed.

Lemma mode_after_ok s l :
  is_u8 s -> libradio_ok l -> periods_ok l ->
  libradio_ok (mode_after s l) /\ periods_ok (mode_after s l).
Proof.
  intros Hs Hl Hp. unfold mode_after. cbv zeta.
  set (l1 := l <| r_heart_beat := song_of s |>).
  assert (libradio_ok l1) as Hl1.
  { apply field_put; [done|]. apply song_of_u16. apply Hs. }
  assert (periods_ok l1) as Hp1 by by destruct Hp.
  clearbody l1. clear l Hl Hp.
  assert (forall l', libradio_ok l' /\ periods_ok l' ->
            libradio_ok (l' <| r_state := s |>) /\ periods_ok (l' <| r_state := s |>)) as Hst.
  { intros l' [? [] ]. split; [by apply field_put|by split]. }
  apply Hst. repeat case_match.
  - apply with_delay_ok.
    + repeat apply field_put; try done. by apply field_get.
    + destruct Hp1. by split.
    + apply sleep_ticks_range, Hp1.
  - by apply listen_mode_ok.
  - apply with_delay_ok; [done..|]. apply div_u16; [lia|apply Hp1].
  - split.
    + repeat apply field_put; try done. by apply field_get.
    + destruct Hp1. by split.
Qed.

(** The machine [m] with the record and the timer registers of [m']. *)
Definition with_radio m' m : machine D X :=
  m <| m_radio := m_radio m' |> <| m_sreg_i := m_sreg_i m' |>
    <| m_tccr1b := m_tccr1b m' |> <| m_tccr1c := m_tccr1c m' |>
    <| m_timsk1 := m_timsk1 m' |>.

Lemma only_radio_eq m m' : only_radio m m' -> m' = with_radio m' m.
Proof.
  intros [Ho _]. transitivity (with_radio m' (beside_radio m')); [by destruct m'|].
  rewrite Ho. unfold with_radio, beside_radio. by destruct m.
Qed.

Lemma fw_ok_only_radio m m' :
  fw_ok m -> only_radio m m' -> libradio_ok (m_radio m') -> periods_ok (m_radio m') -> fw_ok m'.
Proof.
  intros [] Ho Hl Hp. assert (flags_ok m') as Hf.
  { pose proof (proj2 Ho) as Hr. rewrite (only_radio_eq m m' Ho).
    assert (is_u8 (m_tccr1b m') /\ is_u8 (m_tccr1c m') /\ is_u8 (m_timsk1 m')) as (?&?&?).
    { unfold timer_regs in Hr. destruct Hr as [ [= -> -> ->]|[hi [= -> -> ->] ] ]; [|by destruct hi]. destruct fw_flags0 as (_&_&Hf).
      repeat match goal with Hf : Forall is_u8 (_ :: _) |- _ => apply Forall_cons in Hf as [? ?] end. done. }
    unfold with_radio. flags. }
  rewrite (only_radio_eq m m' Ho) in Hf |- *. by split.
Qed.

(** The record after [libradio_set_state], whatever the state before. *)
Definition state_set (s : Z) (l : libradio) : libradio :=
  if negb (s =? LIBRADIO_STATE_STARTUP) && (r_state l =? s) then l else mode_after s l.

(** A change of state that happens is the one of [mode_after]. *)
Lemma wp_state_set_from s m :
  is_u8 s -> fw_ok m ->
  (s = LIBRADIO_STATE_STARTUP \/ r_state (m_radio m) <> s ->
   wp (libradio_set_state s) (fun _ m' =>
     m_radio m' = mode_after s (m_radio m) /\ only_radio m m') m) ->
  wp (libradio_set_state s) (fun _ m' =>
    fw_ok m' /\ only_radio m m' /\ m_radio m' = state_set s (m_radio m)) m.
Proof.
  intros Hs Hm Hch. unfold state_set.
  destruct (negb (s =? LIBRADIO_STATE_STARTUP) && (r_state (m_radio m) =? s)) eqn:E.
  - unfold libradio_set_state. wp_simpl. rewrite E. split; [done|]. split; [by apply only_radio_same|done].
  - eapply wp_mono; [apply Hch; zify; lia|].
    intros _ m' [Hr Ho]. split; [|done].
    destruct (mode_after_ok s (m_radio m)) as [Hl Hp]; [done|apply Hm..|].
    rewrite <- Hr in Hl, Hp. by apply (fw_ok_only_radio m).
Qed.

Lemma wp_state_set `{!StockPower D X} s m :
  is_u8 s -> fw_ok m ->
  wp (libradio_set_state s) (fun _ m' =>
    fw_ok m' /\ only_radio m m' /\ m_radio m' = state_set s (m_radio m)) m.
Proof.
  intros Hs Hm. apply wp_state_set_from; [done..|]. apply wp_libradio_set_state; [apply Hm|done].
Qed.

Lemma state_set_state s l : r_state (state_set s l) = s.
Proof.
  unfold state_set. destruct (Z.eqb_spec (r_state l) s) as [E|];
    [rewrite andb_true_r|by rewrite andb_false_r]. by destruct (negb _).
Qed.


(** The ERROR state needs no change of the clock's speed, whatever the application. *)
Lemma wp_state_error m :
  fw_ok m -> wp (libradio_set_state LIBRADIO_STATE_ERROR) (fun _ m' =>
    fw_ok m' /\ only_radio m m' /\
    m_radio m' = state_set LIBRADIO_STATE_ERROR (m_radio m)) m.
Proof.
  intros Hm. apply wp_state_set_from; [done..|]. intros [?|?]; [done|].
  apply wp_set_state_error_run; [apply Hm|done].
Qed.
End states.

(** *** Applications with a power mode of their own *)

(** What the application promises of [libradio_power_mode]. *)
Class PowerLaws (D X : Type) `{App D X, AppInv X} :=
  power_mode_ok hi : preserves fw_ok (libradio_power_mode hi : fw D X unit).

#[export] Instance stock_power_laws {D X} `{StockPower D X, !AppInv X} : PowerLaws D X.
Proof.
  intros hi. apply preserves_wp. intros m Hm. rewrite wp_libradio_power_mode.
  destruct Hm as [Hl [] ]. split; upd_simpl; try done.
  - apply field_put; [done|]. case_match; by apply field_get.
  - split; upd_simpl; try done. by case_match.
  - unfold clock_regs. flags. by case_match.
Qed.

Section own_power.
Context {D X : Type} `{PowerLaws D X}.

(** A period is at least 1, so that it can be divided by. *)
Lemma preserves_period_bind {B} (f : libradio -> Z) (k : Z -> fw D X B) :
  (forall l, periods_ok l -> 1 <= f l) -> (forall p, 1 <= p -> preserves fw_ok (k p)) ->
  preserves fw_ok (p ← rget f; k p).
Proof.
  intros Hf Hk. apply (preserves_bind_val _ (fun p => 1 <= p)); [|done].
  intros m Hm. split; [apply Hf, Hm|done].
Qed.

Lemma preserves_c_div a p : 0 <= a -> 1 <= p -> preserves fw_ok (c_div a p : fw D X Z).
Proof. intros Ha Hp. apply preserves_wp. intros m Hm. by rewrite wp_c_div by lia. Qed.

Lemma preserves_set_song s : 0 <= s -> preserves fw_ok (libradio_set_song s : fw D X unit).
Proof.
  intros Hs. apply preserves_wp. intros m Hm. rewrite wp_libradio_set_song by done.
  apply fw_ok_radio; [done|apply field_put; [apply Hm|by apply song_of_u16]|].
  by destruct (fw_periods _ Hm).
Qed.

Lemma preserves_libradio_set_state s :
  is_u8 s -> preserves fw_ok (libradio_set_state s : fw D X unit).
Proof.
  intros Hs. unfold libradio_set_state.
  apply (preserves_rget_bind is_u8 r_state). intros st Hst.
  apply preserves_if; [apply preserves_ret|].
  apply preserves_bind; [apply preserves_set_song, Hs|intros _].
  apply preserves_bind; [|intros _; preserve]. repeat apply preserves_if.
  - unfold set_state_sleep. apply preserves_bind; [apply power_mode_ok|intros _].
    apply preserves_bind; [preserve|intros _]. cbv zeta.
    apply preserves_period_bind; [intros ? []; lia|intros p Hp].
    apply preserves_bind; [apply preserves_c_div; [case_match; lia|done]|intros t].
    apply preserves_libradio_set_delay, u16_range.
  - unfold set_state_listen. apply (preserves_rget_bind is_u8 r_state). intros st' _.
    apply preserves_bind; [apply preserves_when, power_mode_ok|intros _].
    do 2 (apply preserves_bind; [preserve|intros _]).
    apply (preserves_rget_bind is_u8 r_state). intros st2 _.
    apply preserves_period_bind; [intros ? []; lia|intros p Hp].
    apply preserves_bind; [|intros _; by apply preserves_libradio_set_delay].
    apply preserves_if; (apply preserves_bind; [by apply preserves_c_div|intros t; preserve]).
  - unfold set_state_error. apply preserves_period_bind; [intros ? []; lia|intros p Hp].
    apply preserves_bind; [by apply preserves_c_div|intros t].
    apply preserves_libradio_set_delay, u16_range.
  - unfold set_state_active. apply preserves_bind; [apply power_mode_ok|intros _]. preserve.
Qed.
End own_power.

#[export] Hint Resolve preserves_libradio_set_delay preserves_clocktick
  preserves_libradio_set_state : preserves.

Lemma reset_flags_ok {D X} (d : D) (x : X) evs : flags_ok (reset_machine d x evs).
Proof. split; [|split]; [repeat constructor; done|done|repeat constructor; done]. Qed.

(** ** A machine to try things on *)

Definition bench_inv : AppInv unit := fun _ => True.

(** A set-up library with the radio active, on the script [d] of SPI replies. *)
Definition bench_machine (d : list Z) (evs : list event) : machine (list Z) unit :=
  (reset_machine d tt evs)
    <| m_radio := zero_libradio <| r_state := LIBRADIO_STATE_ACTIVE |> <| r_period := 1 |>
         <| r_fast_period := 1 |> <| r_slow_period := 16 |> <| r_radio_active := 1 |>
         <| r_my_channel := 2 |> <| r_my_node_id := 7 |> <| r_tick_count := 5 |>
         <| r_main_ticks := 5 |> <| r_timeout := 6000 |> |>.

Lemma bench_machine_ok d evs :
  Forall event_ok evs -> @fw_ok _ _ bench_inv (bench_machine d evs).
Proof.
  intros He. split; try apply zero_channel_ok; try done.
  - split; repeat constructor; done.
  - split; [done|]. by apply Forall_replicate.
  - split; [done|]. by apply Forall_replicate.
  - constructor.
  - apply (reset_flags_ok d tt evs).
Qed.
