(* ===== verification/RadioConfig.v ===== *)
(** The table of commands that configures the radio: the macros of radio_config.h
    that power.c uses, each the bytes of one command of the chip, and the array
    made of them, every command preceded by its length and a zero at the end. *)

From S2P Require Import Prelude.

Definition RF_POWER_UP : list Z := [0x02; 0x01; 0x00; 0x01; 0x8C; 0xBA; 0x80].
Definition RF_GPIO_PIN_CFG : list Z := [0x13; 0x60; 0x61; 0x53; 0x54; 0x67; 0x00; 0x00].
Definition RF_GLOBAL_XO_TUNE_2 : list Z := [0x11; 0x00; 0x02; 0x00; 0x52; 0x00].
Definition RF_GLOBAL_CONFIG_1 : list Z := [0x11; 0x00; 0x01; 0x03; 0x60].
Definition RF_INT_CTL_ENABLE_2 : list Z := [0x11; 0x01; 0x02; 0x00; 0x01; 0x10].
Definition RF_INT_CTL_CHIP_ENABLE_1 : list Z := [0x11; 0x01; 0x01; 0x03; 0x00].
Definition RF_FRR_CTL_A_MODE_4 : list Z := [0x11; 0x02; 0x04; 0x00; 0x09; 0x03; 0x07; 0x01].
Definition RF_PREAMBLE_TX_LENGTH_9 : list Z :=
  [0x11; 0x10; 0x09; 0x00; 0x08; 0x14; 0x00; 0x0F;
   0x31; 0x00; 0x00; 0x00; 0x00].
Definition RF_SYNC_CONFIG_5 : list Z := [0x11; 0x11; 0x05; 0x00; 0x01; 0xB4; 0x2B; 0x00; 0x00].
Definition RF_PKT_CRC_CONFIG_7 : list Z :=
  [0x11; 0x12; 0x07; 0x00; 0x84; 0x01; 0x08;
   0xFF; 0xFF; 0x00; 0x02].
Definition RF_PKT_LEN_12 : list Z :=
  [0x11; 0x12; 0x0C; 0x08; 0x00; 0x00; 0x00; 0x30; 0x30; 0x00;
   0x20; 0x04; 0xAA; 0x00; 0x00; 0x00].
Definition RF_PKT_FIELD_2_CRC_CONFIG_12 : list Z :=
  [0x11; 0x12; 0x0C; 0x14; 0x00; 0x00; 0x00; 0x00; 0x00; 0x00;
   0x00; 0x00; 0x00; 0x00; 0x00; 0x00].
Definition RF_PKT_FIELD_5_CRC_CONFIG_12 : list Z :=
  [0x11; 0x12; 0x0C; 0x20; 0x00; 0x00; 0x00; 0x00; 0x00; 0x00;
   0x00; 0x00; 0x00; 0x00; 0x00; 0x00].
Definition RF_PKT_RX_FIELD_3_CRC_CONFIG_9 : list Z :=
  [0x11; 0x12; 0x09; 0x2C; 0x00; 0x00; 0x00; 0x00;
   0x00; 0x00; 0x00; 0x00; 0x00].
Definition RF_MODEM_MOD_TYPE_12 : list Z :=
  [0x11; 0x20; 0x0C; 0x00; 0x02; 0x00; 0x07; 0x07; 0xA1; 0x20;
   0x01; 0x8C; 0xBA; 0x80; 0x00; 0x06].
Definition RF_MODEM_FREQ_DEV_0_1 : list Z := [0x11; 0x20; 0x01; 0x0C; 0x4D].
Definition RF_MODEM_TX_RAMP_DELAY_8 : list Z :=
  [0x11; 0x20; 0x08; 0x18; 0x01; 0x00; 0x08; 0x03;
   0x80; 0x00; 0x20; 0x20].
Definition RF_MODEM_BCR_OSR_1_9 : list Z :=
  [0x11; 0x20; 0x09; 0x22; 0x00; 0x41; 0x07; 0xE0;
   0x7E; 0x07; 0xFF; 0x02; 0x00].
Definition RF_MODEM_AFC_GEAR_7 : list Z :=
  [0x11; 0x20; 0x07; 0x2C; 0x00; 0x12; 0x81;
   0xF8; 0x01; 0xBA; 0xA0].
Definition RF_MODEM_AGC_CONTROL_1 : list Z := [0x11; 0x20; 0x01; 0x35; 0xE2].
Definition RF_MODEM_AGC_WINDOW_SIZE_9 : list Z :=
  [0x11; 0x20; 0x09; 0x38; 0x11; 0x0E; 0x0E; 0x00;
   0x02; 0x33; 0x33; 0x00; 0x28].
Definition RF_MODEM_OOK_CNT1_9 : list Z :=
  [0x11; 0x20; 0x09; 0x42; 0xA4; 0x03; 0xD6; 0x03;
   0x01; 0x89; 0x01; 0x80; 0xFF].
Definition RF_MODEM_RSSI_CONTROL_1 : list Z := [0x11; 0x20; 0x01; 0x4C; 0x02].
Definition RF_MODEM_RSSI_COMP_1 : list Z := [0x11; 0x20; 0x01; 0x4E; 0x40].
Definition RF_MODEM_CLKGEN_BAND_1 : list Z := [0x11; 0x20; 0x01; 0x51; 0x0A].
Definition RF_MODEM_CHFLT_RX1_CHFLT_COE13_7_0_12 : list Z :=
  [0x11; 0x21; 0x0C; 0x00; 0xFF; 0xBA; 0x0F; 0x51; 0xCF; 0xA9;
   0xC9; 0xFC; 0x1B; 0x1E; 0x0F; 0x01].
Definition RF_MODEM_CHFLT_RX1_CHFLT_COE1_7_0_12 : list Z :=
  [0x11; 0x21; 0x0C; 0x0C; 0xFC; 0xFD; 0x15; 0xFF; 0x00; 0x0F;
   0xFF; 0xBA; 0x0F; 0x51; 0xCF; 0xA9].
Definition RF_MODEM_CHFLT_RX2_CHFLT_COE7_7_0_12 : list Z :=
  [0x11; 0x21; 0x0C; 0x18; 0xC9; 0xFC; 0x1B; 0x1E; 0x0F; 0x01;
   0xFC; 0xFD; 0x15; 0xFF; 0x00; 0x0F].
Definition RF_PA_MODE_4 : list Z := [0x11; 0x22; 0x04; 0x00; 0x08; 0x7F; 0x00; 0x3D].
Definition RF_SYNTH_PFDCP_CPFF_7 : list Z :=
  [0x11; 0x23; 0x07; 0x00; 0x2C; 0x0E; 0x0B;
   0x04; 0x0C; 0x73; 0x03].
Definition RF_MATCH_VALUE_1_12 : list Z :=
  [0x11; 0x30; 0x0C; 0x00; 0x00; 0x00; 0x00; 0x00; 0x00; 0x00;
   0x00; 0x00; 0x00; 0x00; 0x00; 0x00].
Definition RF_FREQ_CONTROL_INTE_8 : list Z :=
  [0x11; 0x40; 0x08; 0x00; 0x41; 0x0E; 0x27; 0x62;
   0x4E; 0xC5; 0x20; 0xFE].

Definition RADIO_CONFIGURATION_DATA_ARRAY : list Z :=
  [0x07] ++ RF_POWER_UP ++
  [0x08] ++ RF_GPIO_PIN_CFG ++
  [0x06] ++ RF_GLOBAL_XO_TUNE_2 ++
  [0x05] ++ RF_GLOBAL_CONFIG_1 ++
  [0x06] ++ RF_INT_CTL_ENABLE_2 ++
  [0x05] ++ RF_INT_CTL_CHIP_ENABLE_1 ++
  [0x08] ++ RF_FRR_CTL_A_MODE_4 ++
  [0x0D] ++ RF_PREAMBLE_TX_LENGTH_9 ++
  [0x09] ++ RF_SYNC_CONFIG_5 ++
  [0x0B] ++ RF_PKT_CRC_CONFIG_7 ++
  [0x10] ++ RF_PKT_LEN_12 ++
  [0x10] ++ RF_PKT_FIELD_2_CRC_CONFIG_12 ++
  [0x10] ++ RF_PKT_FIELD_5_CRC_CONFIG_12 ++
  [0x0D] ++ RF_PKT_RX_FIELD_3_CRC_CONFIG_9 ++
  [0x10] ++ RF_MODEM_MOD_TYPE_12 ++
  [0x05] ++ RF_MODEM_FREQ_DEV_0_1 ++
  [0x0C] ++ RF_MODEM_TX_RAMP_DELAY_8 ++
  [0x0D] ++ RF_MODEM_BCR_OSR_1_9 ++
  [0x0B] ++ RF_MODEM_AFC_GEAR_7 ++
  [0x05] ++ RF_MODEM_AGC_CONTROL_1 ++
  [0x0D] ++ RF_MODEM_AGC_WINDOW_SIZE_9 ++
  [0x0D] ++ RF_MODEM_OOK_CNT1_9 ++
  [0x05] ++ RF_MODEM_RSSI_CONTROL_1 ++
  [0x05] ++ RF_MODEM_RSSI_COMP_1 ++
  [0x05] ++ RF_MODEM_CLKGEN_BAND_1 ++
  [0x10] ++ RF_MODEM_CHFLT_RX1_CHFLT_COE13_7_0_12 ++
  [0x10] ++ RF_MODEM_CHFLT_RX1_CHFLT_COE1_7_0_12 ++
  [0x10] ++ RF_MODEM_CHFLT_RX2_CHFLT_COE7_7_0_12 ++
  [0x08] ++ RF_PA_MODE_4 ++
  [0x0B] ++ RF_SYNTH_PFDCP_CPFF_7 ++
  [0x10] ++ RF_MATCH_VALUE_1_12 ++
  [0x0C] ++ RF_FREQ_CONTROL_INTE_8 ++
  [0x00].

(** The commands in their order. *)
Definition config_blocks : list (list Z) :=
  [RF_POWER_UP;
   RF_GPIO_PIN_CFG;
   RF_GLOBAL_XO_TUNE_2;
   RF_GLOBAL_CONFIG_1;
   RF_INT_CTL_ENABLE_2;
   RF_INT_CTL_CHIP_ENABLE_1;
   RF_FRR_CTL_A_MODE_4;
   RF_PREAMBLE_TX_LENGTH_9;
   RF_SYNC_CONFIG_5;
   RF_PKT_CRC_CONFIG_7;
   RF_PKT_LEN_12;
   RF_PKT_FIELD_2_CRC_CONFIG_12;
   RF_PKT_FIELD_5_CRC_CONFIG_12;
   RF_PKT_RX_FIELD_3_CRC_CONFIG_9;
   RF_MODEM_MOD_TYPE_12;
   RF_MODEM_FREQ_DEV_0_1;
   RF_MODEM_TX_RAMP_DELAY_8;
   RF_MODEM_BCR_OSR_1_9;
   RF_MODEM_AFC_GEAR_7;
   RF_MODEM_AGC_CONTROL_1;
   RF_MODEM_AGC_WINDOW_SIZE_9;
   RF_MODEM_OOK_CNT1_9;
   RF_MODEM_RSSI_CONTROL_1;
   RF_MODEM_RSSI_COMP_1;
   RF_MODEM_CLKGEN_BAND_1;
   RF_MODEM_CHFLT_RX1_CHFLT_COE13_7_0_12;
   RF_MODEM_CHFLT_RX1_CHFLT_COE1_7_0_12;
   RF_MODEM_CHFLT_RX2_CHFLT_COE7_7_0_12;
   RF_PA_MODE_4;
   RF_SYNTH_PFDCP_CPFF_7;
   RF_MATCH_VALUE_1_12;
   RF_FREQ_CONTROL_INTE_8].

(** A table in the format of power.c. *)
Definition length_prefixed (bs : list (list Z)) : list Z :=
  concat (map (fun b => Z.of_nat (length b) :: b) bs) ++ [0].

Lemma config_is_blocks : RADIO_CONFIGURATION_DATA_ARRAY = length_prefixed config_blocks.
Proof. reflexivity. Qed.

(** A command is not empty, fits the exchange buffer and is made of bytes. *)
Definition block_ok (b : list Z) : Prop := (1 <= length b <= 20)%nat /\ bytes b.

Lemma config_blocks_ok : Forall block_ok config_blocks.
Proof.
  assert (forallb (fun b => (1 <=? Z.of_nat (length b)) && (Z.of_nat (length b) <=? 20) &&
            forallb (fun x => (0 <=? x) && (x <? 256)) b) config_blocks = true) as H
    by reflexivity.
  rewrite forallb_forall in H. apply Forall_forall. intros b Hb.
  specialize (H b). rewrite <- list_elem_of_In in H. apply H in Hb.
  apply andb_prop in Hb as [Hl Hbs]. apply andb_prop in Hl as [Hl1 Hl2].
  split; [lia|]. rewrite forallb_forall in Hbs. apply Forall_forall. intros x Hx.
  specialize (Hbs x). rewrite <- list_elem_of_In in Hbs. apply Hbs in Hx. unfold is_u8. lia.
Qed.
