(* ===== verification/Si4463.v ===== *)
(** radio.c and power.c: the queries and commands of the Si4463 and its
    configuration at power-up. *)

From S2P Require Import Machine Clock State Spi Invariant RadioConfig.

(** [%04x]. *)
Definition fmt_04x (n : Z) : list Z := replicate (4 - length (fmt_x n)) 48 ++ fmt_x n.

Section radio.
Context {D X : Type} `{Platform D}.

Definition libradio_request_device_status : fw D X Z :=
  pkt_put 0 SI4463_REQUEST_DEVICE_STATE;;
  i ← pkt_send 1 2;
  if negb (i =? SPI_SEND_OK) then pkt_error i;; mret (-1)
  else
    b1 ← pkt_get 1; rput r_curr_channel b1;;
    b0 ← pkt_get 0; rput r_curr_state b0;;
    mret b0.

Definition libradio_get_property (start_prop nprops : Z) : fw D X unit :=
  print (str ">>> Get property: " ++ fmt_x start_prop ++ str " (" ++ fmt_d nprops
           ++ str ")" ++ [10]);;
  pkt_put 0 SI4463_GET_PROPERTY;;
  pkt_put 1 (u8 (Z.shiftr start_prop 8));;
  pkt_put 2 nprops;;
  pkt_put 3 (Z.land start_prop 0xff);;
  i ← pkt_send 4 (u8 (nprops + 2));
  if negb (i =? SPI_SEND_OK) then pkt_error i;; mret tt
  else
    for_loop (Z.to_nat (nprops + 2)) 0 (fun i =>
      b ← pkt_get i;
      print (str "PROP-" ++ fmt_04x (u16 (start_prop + i)) ++ str " = " ++ fmt_x b ++ [10])).

Definition libradio_set_property : fw D X unit := mret tt.

Definition libradio_get_part_info : fw D X unit :=
  pkt_put 0 SI4463_PART_INFO;;
  i ← pkt_send 1 8;
  if negb (i =? SPI_SEND_OK) then mret tt
  else
    b0 ← pkt_get 0; rput r_chip_rev b0;;
    b1 ← pkt_get 1; b2 ← pkt_get 2; rput r_part_id (u16 (Z.lor (Z.shiftl b1 8) b2));;
    b3 ← pkt_get 3; rput r_pbuild b3;;
    b4 ← pkt_get 4; b5 ← pkt_get 5; rput r_device_id (u16 (Z.lor (Z.shiftl b4 8) b5));;
    b6 ← pkt_get 6; rput r_customer b6;;
    b7 ← pkt_get 7; rput r_rom_id b7.

Definition libradio_get_func_info : fw D X unit :=
  pkt_put 0 SI4463_FUNC_INFO;;
  i ← pkt_send 1 6;
  if negb (i =? SPI_SEND_OK) then mret tt
  else
    b0 ← pkt_get 0; rput r_rev_ext b0;;
    b1 ← pkt_get 1; rput r_rev_branch b1;;
    b2 ← pkt_get 2; rput r_rev_int b2;;
    b3 ← pkt_get 3; b4 ← pkt_get 4; rput r_patch (u16 (Z.lor (Z.shiftl b3 8) b4));;
    b5 ← pkt_get 5; rput r_func b5.

Definition libradio_get_packet_info : fw D X Z :=
  pkt_put 0 SI4463_PACKET_INFO;;
  i ← pkt_send 1 2;
  if negb (i =? SPI_SEND_OK) then mret (-1)
  else
    b0 ← pkt_get 0; b1 ← pkt_get 1;
    mret (i16 (Z.lor (Z.shiftl b0 8) b1)).

Definition libradio_ircal : fw D X unit := mret tt.
Definition libradio_protocol_cfg : fw D X unit := mret tt.

Definition libradio_get_ph_status : fw D X unit :=
  pkt_put 0 SI4463_GET_PH_STATUS;;
  pkt_put 1 0xff;;
  i ← pkt_send 2 2;
  if negb (i =? SPI_SEND_OK) then mret tt
  else
    b0 ← pkt_get 0; rput r_ph_pending b0;;
    b1 ← pkt_get 1; rput r_ph_status b1.

Definition libradio_get_modem_status : fw D X unit :=
  pkt_put 0 SI4463_GET_MODEM_STATUS;;
  i ← pkt_send 1 6;
  if negb (i =? SPI_SEND_OK) then mret tt
  else
    b0 ← pkt_get 0; rput r_modem_pending b0;;
    b1 ← pkt_get 1; rput r_modem_status b1;;
    b2 ← pkt_get 2; rput r_current_rssi b2;;
    b3 ← pkt_get 3; rput r_latch_rssi b3;;
    b4 ← pkt_get 4; rput r_ant1_rssi b4;;
    b5 ← pkt_get 5; rput r_ant2_rssi b5.

Definition libradio_get_chip_status : fw D X unit :=
  pkt_put 0 SI4463_GET_CHIP_STATUS;;
  pkt_put 1 0x7f;;
  i ← pkt_send 2 3;
  if negb (i =? SPI_SEND_OK) then mret tt
  else
    b0 ← pkt_get 0; rput r_chip_pending b0;;
    b1 ← pkt_get 1; rput r_chip_status b1;;
    b2 ← pkt_get 2; rput r_cmd_error b2.

Definition libradio_change_radio_state (new_state : Z) : fw D X unit :=
  pkt_put 0 SI4463_CHANGE_STATE;;
  pkt_put 1 (Z.land new_state 0xf);;
  pkt_send 2 0;;
  rput r_curr_state new_state.

Definition libradio_get_fifo_info (clrf : Z) : fw D X Z :=
  pkt_put 0 SI4463_FIFO_INFO;;
  pkt_put 1 clrf;;
  i ← pkt_send 2 2;
  if negb (i =? SPI_SEND_OK) then mret 0
  else
    b1 ← pkt_get 1; rput r_tx_fifo b1;;
    b0 ← pkt_get 0; rput r_rx_fifo b0;;
    mret b0.

Definition libradio_get_int_status : fw D X unit :=
  pkt_put 0 SI4463_GET_INT_STATUS;;
  pkt_put 3 0;; pkt_put 2 0;; pkt_put 1 0;;
  i ← pkt_send 4 8;
  if negb (i =? SPI_SEND_OK) then mret tt
  else
    b0 ← pkt_get 0; rput r_int_pending b0;;
    b1 ← pkt_get 1; rput r_int_status b1;;
    b2 ← pkt_get 2; rput r_ph_pending b2;;
    b3 ← pkt_get 3; rput r_ph_status b3;;
    b4 ← pkt_get 4; rput r_modem_pending b4;;
    b5 ← pkt_get 5; rput r_modem_status b5;;
    b6 ← pkt_get 6; rput r_chip_pending b6;;
    b7 ← pkt_get 7; rput r_chip_status b7.

(** power.c *)

Definition radio_config : list Z := RADIO_CONFIGURATION_DATA_ARRAY.

(** [for (i = 0; i < len; i++) pkt_data\[i\] = pgm_read_byte(&radio_config\[addr++\])] *)
Fixpoint config_copy (n : nat) (i addr : Z) : fw D X unit :=
  match n with
  | O => mret tt
  | S n' =>
      b ← array_get radio_config addr;
      pkt_put i b;;
      config_copy n' (i + 1) (addr + 1)
  end.

Context `{App D X}.

(** The loop over the table from [addr] on: false when a command could not be
    sent. Every pass reads a byte of the table, so [fuel] beyond its length is
    never used up before the read is out of bounds. *)
Fixpoint config_loop (fuel : nat) (addr : Z) : fw D X bool :=
  match fuel with
  | O => fail OutOfBounds
  | S fuel' =>
      len ← array_get radio_config addr;
      if len =? 0 then mret true
      else
        config_copy (Z.to_nat len) 0 (addr + 1);;
        i ← pkt_send len 0;
        if negb (i =? SPI_SEND_OK) then
          pkt_error i;; libradio_set_state LIBRADIO_STATE_ERROR;; mret false
        else config_loop fuel' (addr + 1 + len)
  end.

Definition libradio_power_up : fw D X Z :=
  active ← rget r_radio_active;
  if negb (active =? 0) then mret 0
  else
    print (str "PowerUp!" ++ [10]);;
    ok ← config_loop (S (length radio_config)) 0;
    if negb ok then mret (-1)
    else
      libradio_get_chip_status;;
      libradio_get_part_info;;
      libradio_get_func_info;;
      libradio_get_int_status;;
      libradio_ircal;;
      libradio_request_device_status;;
      libradio_get_fifo_info 3;;
      print (str "Radio Active" ++ [10]);;
      rput r_radio_active 1;;
      mret 0.

Definition libradio_power_down : fw D X unit := rput r_radio_active 0.
End radio.

(** ** What a query of the radio can change *)

(** The record without what the radio reports. *)
Definition settings (l : libradio) : libradio :=
  l <| r_curr_channel := 0 |> <| r_curr_state := 0 |>
    <| r_chip_rev := 0 |> <| r_part_id := 0 |> <| r_pbuild := 0 |> <| r_device_id := 0 |>
    <| r_customer := 0 |> <| r_rom_id := 0 |> <| r_rev_ext := 0 |> <| r_rev_branch := 0 |>
    <| r_rev_int := 0 |> <| r_patch := 0 |> <| r_func := 0 |> <| r_rx_fifo := 0 |>
    <| r_tx_fifo := 0 |> <| r_int_pending := 0 |> <| r_int_status := 0 |>
    <| r_ph_pending := 0 |> <| r_ph_status := 0 |> <| r_modem_pending := 0 |>
    <| r_modem_status := 0 |> <| r_chip_pending := 0 |> <| r_chip_status := 0 |>
    <| r_cmd_error := 0 |> <| r_current_rssi := 0 |> <| r_latch_rssi := 0 |>
    <| r_ant1_rssi := 0 |> <| r_ant2_rssi := 0 |>.

Lemma settings_active l v :
  settings (l <| r_radio_active := v |>) = (settings l) <| r_radio_active := v |>.
Proof. by destruct l. Qed.

Section radio_only.
Context {D X : Type}.
Implicit Types m : machine D X.

(** The machine [m] with the parts of [m'] the queries use. *)
Definition with_query m' m : machine D X :=
  m <| m_radio := m_radio m' |> <| m_pkt_data := m_pkt_data m' |> <| m_ss := m_ss m' |>
    <| m_dev := m_dev m' |> <| m_out := m_out m' |>.

Definition query_only m m' : Prop :=
  settings (m_radio m') = settings (m_radio m) /\ m' = with_query m' m.

#[export] Instance query_only_preorder : PreOrder query_only.
Proof.
  split; [intros m; split; [done|by destruct m]|].
  intros m1 m2 m3 [H1 E1] [H2 E2]. split; [congruence|].
  transitivity (with_query m3 (with_query m2 m1)); [by rewrite <- E1|by destruct m1].
Qed.

Lemma spi_only_query m m' : spi_only m m' -> query_only m m'.
Proof.
  unfold spi_only. intros E. split; [by rewrite <- E|].
  transitivity (with_query m' (m' <| m_pkt_data := m_pkt_data m |> <| m_ss := m_ss m |>
                   <| m_dev := m_dev m |>)); [by destruct m'|by rewrite E].
Qed.

(** The machine [m] with the parts of [m'] the library's calls use: those of the
    queries and the timer's registers. The channels, the application, the
    interrupts and the clock's counters are left alone. *)
Definition with_lib m' m : machine D X :=
  (with_query m' m) <| m_sreg_i := m_sreg_i m' |> <| m_tccr1b := m_tccr1b m' |>
    <| m_tccr1c := m_tccr1c m' |> <| m_timsk1 := m_timsk1 m' |>.

Definition lib_frame m m' : Prop := m' = with_lib m' m.

#[export] Instance lib_frame_preorder : PreOrder lib_frame.
Proof.
  split; [intros m; by_machine m|]. intros m1 m2 m3 E1 E2. unfold lib_frame in *.
  transitivity (with_lib m3 (with_lib m2 m1)); [by rewrite <- E1|by_machine m1].
Qed.

Lemma query_lib_frame m m' : query_only m m' -> lib_frame m m'.
Proof.
  intros [_ E]. unfold lib_frame. transitivity (with_lib m' (with_query m' m)); [|by_machine m].
  rewrite <- E. by_machine m'.
Qed.

Lemma only_radio_lib_frame m m' : only_radio m m' -> lib_frame m m'.
Proof.
  intros E%only_radio_eq. unfold lib_frame.
  transitivity (with_lib m' (with_radio m' m)); [|by_machine m].
  rewrite <- E. by_machine m'.
Qed.

Lemma lib_frame_app m m' : lib_frame m m' -> m_app m' = m_app m.
Proof. intros E. by rewrite E. Qed.

Lemma lib_frame_chan r m m' : lib_frame m m' -> ch_get r m' = ch_get r m.
Proof. intros E. rewrite E. by destruct r. Qed.

Lemma lib_frame_ch_set r c m m' : lib_frame m m' -> lib_frame (ch_set r c m) (ch_set r c m').
Proof.
  intros E. unfold lib_frame. transitivity (ch_set r c (with_lib m' m)); [by rewrite <- E|].
  destruct r; by_machine m.
Qed.

Lemma lib_frame_sent m b d s :
  lib_frame m (m <| m_sreg_i := b |> <| m_dev := d |> <| m_ss := s |>).
Proof. unfold lib_frame. by_machine m. Qed.

Lemma put_radio_lib_frame m g : lib_frame m (m <| m_radio ::= g |>).
Proof. unfold lib_frame. by_machine m. Qed.

Lemma query_only_radio m g :
  settings (g (m_radio m)) = settings (m_radio m) -> query_only m (m <| m_radio ::= g |>).
Proof. intros E. split; [done|by destruct m]. Qed.
End radio_only.

Section queries.
Context {D X : Type} `{Platform D} `{AppInv X}.
Implicit Types m : machine D X.

Lemma keeps_query {A} (c : fw D X A) :
  keeps pkt_ok spi_only c -> keeps fw_ok query_only c.
Proof.
  intros Hc m Hm. eapply keeps_wp; [done|apply Hm|]. intros _ m' Hp Hs.
  split; [by apply (fw_ok_spi m)|by apply spi_only_query].
Qed.

Lemma query_pkt_put i v : 0 <= i < 20 -> is_u8 v -> keeps fw_ok query_only (pkt_put i v : fw D X unit).
Proof. intros. by apply keeps_query, keeps_pkt_put. Qed.

Lemma query_pkt_send a b :
  0 <= a <= 20 -> 0 <= b <= 20 -> keeps fw_ok query_only (pkt_send a b : fw D X Z).
Proof. intros. by apply keeps_query, keeps_pkt_send. Qed.

Lemma query_print l : keeps fw_ok query_only (print l : fw D X unit).
Proof. intros m []. split; [by split|]. split; [done|by destruct m]. Qed.

Lemma query_pkt_error i : keeps fw_ok query_only (pkt_error i : fw D X Z).
Proof.
  unfold pkt_error. apply keeps_bind; [tc_solve|apply query_print|]. intros _.
  apply keeps_ret. tc_solve.
Qed.

(** Reading a byte of the answer. *)
Lemma query_pkt_get {B} i (k : Z -> fw D X B) :
  0 <= i < 20 -> (forall v, is_u8 v -> keeps fw_ok query_only (k v)) ->
  keeps fw_ok query_only (v ← pkt_get i; k v).
Proof.
  intros Hi. apply keeps_bind_val; [tc_solve|]. intros m Hm.
  destruct (fw_pkt m Hm) as [Hl Hb].
  destruct (lookup_lt_is_Some_2 (m_pkt_data m) (Z.to_nat i)) as [v Hv]; [lia|].
  rewrite (wp_pkt_get _ v) by (done || lia). split; [by eapply Forall_lookup_1|done].
Qed.

(** Storing what the radio reported. *)
Lemma query_rput {T} (range : T -> Prop) (f : libradio -> T) `{!Setter f, !TypedField range f} v :
  range v -> (forall l, settings (l <| f := v |>) = settings l) ->
  (forall l, periods_ok l -> periods_ok (l <| f := v |>)) ->
  keeps fw_ok query_only (rput f v : fw D X unit).
Proof.
  intros Hv Hs Hp m Hm. rewrite wp_rput. split; [|by apply query_only_radio].
  apply fw_ok_radio; [done|apply field_put; [by apply fw_radio|done]|]. apply Hp, Hm.
Qed.
End queries.

Ltac query_rput f v :=
  first [ apply (query_rput is_u8 f v) | apply (query_rput is_u16 f v) ];
  [in_range | by intros [] | by intros ? [] ].

Ltac query :=
  lazymatch goal with
  | |- keeps _ _ (mbind _ (pkt_get _)) => apply query_pkt_get; [lia|intros ? ?; query]
  | |- keeps _ _ (mbind _ _) => apply keeps_bind; [tc_solve|query|intros ?; query]
  | |- keeps _ _ (if _ then _ else _) => apply keeps_if; query
  | |- keeps _ _ (rput ?f ?v) => query_rput f v
  | |- keeps _ _ (pkt_put _ _) => apply query_pkt_put; [lia|in_range]
  | |- keeps _ _ (pkt_send _ _) => apply query_pkt_send; lia
  | |- keeps _ _ (mret _) => apply keeps_ret; tc_solve
  | |- keeps _ _ (rget _) => apply keeps_gets; tc_solve
  | |- _ => auto with keeps
  end.

#[export] Hint Resolve query_print query_pkt_error query_only_preorder : keeps.

Section query_frames.
Context {D X : Type} `{Platform D} `{AppInv X}.

Lemma query_request_device_status :
  keeps fw_ok query_only (libradio_request_device_status : fw D X Z).
Proof. unfold libradio_request_device_status. query. Qed.

Lemma query_get_part_info : keeps fw_ok query_only (libradio_get_part_info : fw D X unit).
Proof. unfold libradio_get_part_info. query. Qed.

Lemma query_get_func_info : keeps fw_ok query_only (libradio_get_func_info : fw D X unit).
Proof. unfold libradio_get_func_info. query. Qed.

Lemma query_get_packet_info : keeps fw_ok query_only (libradio_get_packet_info : fw D X Z).
Proof. unfold libradio_get_packet_info. query. Qed.

Lemma query_get_ph_status : keeps fw_ok query_only (libradio_get_ph_status : fw D X unit).
Proof. unfold libradio_get_ph_status. query. Qed.

Lemma query_get_modem_status : keeps fw_ok query_only (libradio_get_modem_status : fw D X unit).
Proof. unfold libradio_get_modem_status. query. Qed.

Lemma query_get_chip_status : keeps fw_ok query_only (libradio_get_chip_status : fw D X unit).
Proof. unfold libradio_get_chip_status. query. Qed.

Lemma query_get_int_status : keeps fw_ok query_only (libradio_get_int_status : fw D X unit).
Proof. unfold libradio_get_int_status. query. Qed.

Lemma query_change_radio_state s :
  is_u8 s -> keeps fw_ok query_only (libradio_change_radio_state s : fw D X unit).
Proof.
  intros Hs. unfold libradio_change_radio_state.
  assert (is_u8 (Z.land s 0xf)).
  { change 0xf with (Z.ones 4). rewrite Z.land_ones by lia. change (2 ^ 4) with 16. warith. }
  query.
Qed.

Lemma query_get_fifo_info c :
  is_u8 c -> keeps fw_ok query_only (libradio_get_fifo_info c : fw D X Z).
Proof. intros Hc. unfold libradio_get_fifo_info. query. Qed.

Lemma query_ircal : keeps fw_ok query_only (libradio_ircal : fw D X unit).
Proof. apply keeps_ret. tc_solve. Qed.

Lemma query_get_property p n :
  is_u16 p -> 0 <= n <= 18 -> keeps fw_ok query_only (libradio_get_property p n : fw D X unit).
Proof.
  intros Hp Hn. unfold libradio_get_property.
  assert (is_u8 (Z.land p 0xff)).
  { change 0xff with (Z.ones 8). rewrite Z.land_ones by lia. change (2 ^ 8) with 256. warith. }
  rewrite (u8_small (n + 2)) by warith. query.
  apply keeps_for_loop; [tc_solve|]. intros i Hi. query.
Qed.
End query_frames.

#[export] Hint Resolve query_ircal query_request_device_status query_get_part_info query_get_func_info
  query_get_packet_info query_get_ph_status query_get_modem_status query_get_chip_status
  query_get_int_status : keeps.
#[export] Hint Extern 1 (keeps _ _ (libradio_get_fifo_info _)) =>
  apply query_get_fifo_info; in_range : keeps.

(** ** The configuration at power-up *)

Section power.
Context {D X : Type} `{Platform D} `{App D X, !AppInv X}.
Implicit Types m : machine D X.

(** The commands sent one after the other, up to the first that fails. *)
Fixpoint send_blocks (bs : list (list Z)) : fw D X bool :=
  match bs with
  | [] => mret true
  | b :: bs' =>
      pkt_puts 0 b;;
      i ← pkt_send (Z.of_nat (length b)) 0;
      if negb (i =? SPI_SEND_OK) then
        pkt_error i;; libradio_set_state LIBRADIO_STATE_ERROR;; mret false
      else send_blocks bs'
  end.

Lemma array_get_app (pre post : list Z) b i m :
  i = Z.of_nat (length pre) -> (array_get (pre ++ b :: post) i : fw D X Z) m = Done b m.
Proof.
  intros ->. apply wp_run. intros Q. rewrite (wp_array_get _ _ b); [done|lia|].
  rewrite Nat2Z.id. by apply list_lookup_middle.
Qed.

(** Equal commands may be exchanged in front of a continuation. *)
Lemma bind_eq {A B} (c c' : fw D X A) (k k' : A -> fw D X B) m :
  c m = c' m -> (forall a m', k a m' = k' a m') -> (c ≫= k) m = (c' ≫= k') m.
Proof. intros Hc Hk. unfold mbind, cmd_bind. rewrite Hc. by destruct (c' m). Qed.

Lemma config_copy_block b i pre post m :
  radio_config = pre ++ b ++ post ->
  config_copy (length b) i (Z.of_nat (length pre)) m = pkt_puts i b m.
Proof.
  revert i pre m. induction b as [|v b IH]; intros i pre m Ht; cbn [length config_copy pkt_puts];
    [done|].
  rewrite (bind_done _ _ m v m); [|rewrite Ht; by apply array_get_app].
  apply bind_eq; [done|]. intros _ m'.
  replace (Z.of_nat (length pre) + 1) with (Z.of_nat (length (pre ++ [v])))
    by (rewrite length_app; simpl; lia).
  apply IH. by rewrite <- app_assoc.
Qed.

Lemma length_prefixed_cons b bs :
  length_prefixed (b :: bs) = Z.of_nat (length b) :: b ++ length_prefixed bs.
Proof. unfold length_prefixed. cbn. by rewrite <- app_assoc. Qed.

Lemma config_loop_blocks fuel bs pre m :
  radio_config = pre ++ length_prefixed bs -> Forall block_ok bs -> (length bs < fuel)%nat ->
  config_loop fuel (Z.of_nat (length pre)) m = send_blocks bs m.
Proof.
  revert fuel pre m. induction bs as [|b bs IH]; intros [|fuel] pre m Ht Hok Hf;
    cbn [length] in *; try lia; cbn [config_loop send_blocks].
  { rewrite (bind_done _ _ m 0 m); [done|]. rewrite Ht. by apply array_get_app. }
  apply Forall_cons in Hok as [ [Hlen Hb] Hok]. rewrite length_prefixed_cons in Ht.
  rewrite (bind_done _ _ m (Z.of_nat (length b)) m); [|rewrite Ht; by apply array_get_app].
  rewrite (proj2 (Z.eqb_neq _ 0)) by lia. rewrite Nat2Z.id.
  apply bind_eq.
  { replace (Z.of_nat (length pre) + 1) with (Z.of_nat (length (pre ++ [Z.of_nat (length b)])))
      by (rewrite length_app; simpl; lia).
    apply (config_copy_block _ _ _ (length_prefixed bs)). by rewrite <- app_assoc. }
  intros _ m1. apply bind_eq; [done|]. intros i m2. destruct (negb _); [done|].
  replace (Z.of_nat (length pre) + 1 + Z.of_nat (length b))
    with (Z.of_nat (length (pre ++ Z.of_nat (length b) :: b)))
    by (rewrite length_app; simpl; lia).
  apply IH; [|done|lia]. by rewrite <- app_assoc.
Qed.

Lemma config_loop_config m :
  config_loop (S (length radio_config)) 0 m = send_blocks config_blocks m.
Proof.
  apply (config_loop_blocks _ _ []); [apply config_is_blocks|apply config_blocks_ok|].
  apply Nat.ltb_lt. reflexivity.
Qed.

(** The loop over the table of radio_config.h ends, never reads past the
    table, and sends exactly its 32 commands, each at its own length, in their
    order, stopping at the first that fails. *)
Theorem power_up_sends_config m :
  length config_blocks = 32%nat /\ Forall block_ok config_blocks /\
  config_loop (S (length radio_config)) 0 m = send_blocks config_blocks m.
Proof.
  split_and!; [done|apply config_blocks_ok|apply config_loop_config].
Qed.

Lemma query_pkt_puts i l :
  0 <= i -> i + Z.of_nat (length l) <= 20 -> bytes l ->
  keeps fw_ok query_only (pkt_puts i l : fw D X unit).
Proof.
  revert i. induction l as [|v l IH]; intros i Hi Hl Hb; cbn [pkt_puts length] in *.
  { apply keeps_ret. tc_solve. }
  apply Forall_cons in Hb as [Hv Hb].
  apply keeps_bind; [tc_solve|apply query_pkt_put; [lia|done]|]. intros _. apply IH; [lia..|done].
Qed.

(** After the commands: all sent, or the ERROR state. *)
Definition sent_all m (ok : bool) m' : Prop :=
  fw_ok m' /\ lib_frame m m' /\
  settings (m_radio m') =
    if ok then settings (m_radio m) else state_set LIBRADIO_STATE_ERROR (settings (m_radio m)).

Lemma settings_state_error l :
  settings (state_set LIBRADIO_STATE_ERROR l) = state_set LIBRADIO_STATE_ERROR (settings l).
Proof.
  unfold state_set. change (r_state (settings l)) with (r_state l).
  destruct (negb _ && _); [done|]. unfold mode_after. destruct l. lazy. reflexivity.
Qed.


Lemma query_only_setting {T} (f : libradio -> T) m m' :
  (forall l, f (settings l) = f l) -> query_only m m' -> f (m_radio m') = f (m_radio m).
Proof. intros Hf [E _]. by rewrite <- (Hf (m_radio m')), E, Hf. Qed.

Lemma send_blocks_total bs m :
  Forall block_ok bs -> fw_ok m -> wp (send_blocks bs) (sent_all m) m.
Proof.
  intros Hbs. revert m. induction Hbs as [|b bs [Hlen Hb] _ IH]; intros m Hm; cbn [send_blocks].
  { by rewrite wp_ret. }
  rewrite wp_bind. eapply keeps_wp; [by apply (query_pkt_puts 0 b); [lia..|]|done|].
  intros _ m1 Hm1 Q1. rewrite wp_bind. eapply keeps_wp; [by apply query_pkt_send; lia|done|].
  intros i m2 Hm2 Q2. assert (query_only m m2) as Q by by etrans.
  destruct (negb _).
  - rewrite wp_bind. eapply keeps_wp; [apply query_pkt_error|done|]. intros _ m3 Hm3 Q3.
    assert (query_only m m3) as Q' by by etrans.
    rewrite wp_bind. eapply wp_mono; [by apply wp_state_error|]. intros _ m4 (Hm4&Ho&Hr).
    rewrite wp_ret. split_and!; [done| |].
    + transitivity m3; [by apply query_lib_frame|by apply only_radio_lib_frame].
    + rewrite Hr, settings_state_error. f_equal. apply Q'.
  - eapply wp_mono; [by apply IH|]. intros ok m3 (Hm3&Hf&Hok). split_and!; [done| |].
    + transitivity m2; [by apply query_lib_frame|done].
    + rewrite Hok. by rewrite (proj1 Q).
Qed.

(** Power-up in the three ways it can end. *)
Inductive power_up_post m : Z -> machine D X -> Prop :=
| was_up : r_radio_active (m_radio m) <> 0 -> power_up_post m 0 m
| came_up m' :
    r_radio_active (m_radio m) = 0 -> lib_frame m m' ->
    settings (m_radio m') = (settings (m_radio m)) <| r_radio_active := 1 |> ->
    power_up_post m 0 m'
| failed_up m' :
    r_radio_active (m_radio m) = 0 -> lib_frame m m' ->
    settings (m_radio m') = state_set LIBRADIO_STATE_ERROR (settings (m_radio m)) ->
    power_up_post m (-1) m'.

Lemma wp_libradio_power_up m :
  fw_ok m -> wp libradio_power_up (fun v m' => fw_ok m' /\ power_up_post m v m') m.
Proof.
  intros Hm. unfold libradio_power_up. wp_simpl.
  destruct (Z.eqb_spec (r_radio_active (m_radio m)) 0) as [Ea|Ea]; cbn [negb];
    [|wp_simpl; split; [done|by constructor]].
  apply (keeps_step fw_ok query_only m); [auto with keeps|done|].
  intros _ m1 [Hm1 Q1]. rewrite wp_bind. unfold wp at 1. rewrite config_loop_config.
  eapply wp_mono; [apply (send_blocks_total config_blocks m1); [apply config_blocks_ok|done]|].
  intros ok m2 (Hm2&Hf2&Hok).
  assert (lib_frame m m2) as Hf by (transitivity m1; [by apply query_lib_frame|done]).
  rewrite (proj1 Q1) in Hok. destruct ok; cbn [negb].
  - assert (fw_ok m2 /\ query_only m2 m2) as H2 by done.
    do 8 (apply (keeps_step fw_ok query_only m2); [auto with keeps|exact H2|];
          clear H2; intros ? ? H2). destruct H2 as [Hm3 Q3].
    wp_simpl. split.
    + apply fw_ok_radio; [done|apply field_put; [by apply fw_radio|done]|].
      by destruct (fw_periods _ Hm3).
    + apply came_up; [done| |].
      * transitivity m2; [done|].
        match goal with |- lib_frame _ (upd _ _ ?x) => transitivity x end;
          [by apply query_lib_frame|apply put_radio_lib_frame].
      * upd_simpl. rewrite <- Hok, <- (proj1 Q3). apply settings_active.
  - rewrite wp_ret. split; [done|]. by apply failed_up.
Qed.

(** Power-up always ends: it does nothing when the radio is already active;
    otherwise either all commands were sent, it returns 0 and the radio is
    marked active, with the settings of the library unchanged, or it returns -1,
    the library has gone to the ERROR state and the radio is not marked active.
    The channels, the application's objects and the interrupts still to come
    are untouched. *)
Theorem power_up_outcome m :
  fw_ok m ->
  wp libradio_power_up (fun v m' =>
    fw_ok m' /\ lib_frame m m' /\
    if negb (r_radio_active (m_radio m) =? 0) then v = 0 /\ m' = m
    else
      (v = 0 /\ r_radio_active (m_radio m') = 1 /\
       settings (m_radio m') = (settings (m_radio m)) <| r_radio_active := 1 |>) \/
      (v = -1 /\ r_radio_active (m_radio m') = 0 /\
       r_state (m_radio m') = LIBRADIO_STATE_ERROR)) m.
Proof.
  intros Hm. eapply wp_mono; [by apply wp_libradio_power_up|].
  intros v m' [Hm' Hpost]. split; [done|]. destruct Hpost as [Ha|m' Ha Hf Hs|m' Ha Hf Hs].
  - rewrite (proj2 (Z.eqb_neq _ _)) by done. done.
  - rewrite Ha. split; [done|]. left. split_and!; try done.
    change (r_radio_active (settings (m_radio m')) = 1). by rewrite Hs.
  - rewrite Ha. split; [done|]. right. split_and!; [done| |].
    + change (r_radio_active (settings (m_radio m')) = 0). rewrite Hs, <- Ha.
      unfold state_set, mode_after. by repeat case_match.
    + change (r_state (settings (m_radio m')) = LIBRADIO_STATE_ERROR). rewrite Hs.
      apply state_set_state.
Qed.
End power.

(** ** The queries are safe *)

Section queries_safe.
Context {D X : Type} `{Platform D} `{AppInv X}.

(** Every query of the radio, whatever the chip answers or fails to answer,
    returns, stays inside the exchange buffer, keeps every field in the range of
    its type, and changes nothing but what the radio reports, the buffer, the
    serial output and the platform. A property request stays inside the buffer
    up to 18 properties. *)
Theorem radio_queries_safe p n c s :
  is_u16 p -> 0 <= n <= 18 -> is_u8 c -> is_u8 s ->
  let q {A} (f : fw D X A) := keeps fw_ok query_only f in
  q libradio_request_device_status /\ q (libradio_get_property p n) /\
  q libradio_get_part_info /\ q libradio_get_func_info /\ q libradio_get_packet_info /\
  q libradio_get_ph_status /\ q libradio_get_modem_status /\ q libradio_get_chip_status /\
  q (libradio_get_fifo_info c) /\ q libradio_get_int_status /\
  q (libradio_change_radio_state s).
Proof.
  intros Hp Hn Hc Hs q. unfold q.
  split_and!; try by auto with keeps.
  - by apply query_get_property.
  - by apply query_change_radio_state.
Qed.
End queries_safe.

(** ** Instances of the properties *)

#[local] Existing Instance bench_app.
#[local] Existing Instance bench_inv.

Lemma radio_queries_safe_witness :
  wp (libradio_get_property 0x100 4) (fun _ m' =>
    fw_ok m' /\ query_only (bench_machine [0; 0; 0; 0; 0; 255; 1; 2; 3; 4; 5; 6] []) m')
    (bench_machine [0; 0; 0; 0; 0; 255; 1; 2; 3; 4; 5; 6] []).
Proof.
  destruct (radio_queries_safe (D:=list Z) (X:=unit) 0x100 4 0 0) as (_&Hq&_);
    [done|lia|done|done|].
  by apply Hq, bench_machine_ok.
Defined.

Definition bench_off : machine (list Z) unit :=
  (bench_machine (replicate 1000 255) []) <| m_radio ::= fun l => l <| r_radio_active := 0 |> |>.

Lemma bench_off_ok : fw_ok bench_off.
Proof.
  apply fw_ok_radio; [by apply bench_machine_ok|apply field_put; [by apply bench_machine_ok|done]|done].
Qed.

Lemma power_up_outcome_witness :
  wp libradio_power_up (fun v m' =>
    fw_ok m' /\ lib_frame bench_off m' /\
    if negb (r_radio_active (m_radio bench_off) =? 0) then v = 0 /\ m' = bench_off
    else
      (v = 0 /\ r_radio_active (m_radio m') = 1 /\
       settings (m_radio m') =
         (settings (m_radio bench_off)) <| r_radio_active := 1 |>) \/
      (v = -1 /\ r_radio_active (m_radio m') = 0 /\
       r_state (m_radio m') = LIBRADIO_STATE_ERROR)) bench_off.
Proof. exact (power_up_outcome bench_off bench_off_ok). Defined.

(** With a chip that answers every poll at once the radio comes up. *)
Example power_up_bench : wp libradio_power_up (fun v _ => v = 0) bench_off.
Proof. vm_compute. reflexivity. Qed.
