(* ===== verification/Wait.v ===== *)
(** wait.c and radio_irq.S: the interrupts that wake the processor, and the wait
    of the main loop for one of them. *)

From S2P Require Import Machine Clock State Spi Invariant.

Section wait.
Context {D X : Type}.

(** radio_irq.S: counts the interrupt and disables further ones. *)
Definition radio_irq : fw D X unit :=
  f ← gets m_irq_fired;
  mput m_irq_fired (u8 (f + 1));;
  e ← gets m_eimsk;
  mput m_eimsk (Z.land e 0xfe).

(** The handler of an interrupt. The radio's pin interrupts only while bit 0 of
    EIMSK is set; an edge kept back is an event that comes later. *)
Definition take_event (e : event) : fw D X unit :=
  match e with
  | Tick => clocktick
  | RadioIrq => k ← gets m_eimsk; when (Z.testbit k 0) radio_irq
  | SerialRx c => modify (fun m => m <| m_iqueue ::= fun q => q ++ [c] |>)
  end.

(** The watchdog's timer is not modelled. *)
Definition _watchdog : fw D X unit := mret tt.

Definition sio_iqueue_empty : fw D X bool := q ← gets m_iqueue; mret (bool_decide (q = [])).

(** One pass over the reasons to stop waiting. *)
Definition wait_status : fw D X Z :=
  _watchdog;;
  f ← gets m_irq_fired;
  let status := if negb (f =? 0) then LIBRADIO_WAIT_RXINT else 0 in
  t ← libradio_tick_wait;
  let status := if negb (t =? 0) then Z.lor status LIBRADIO_WAIT_TIMER else status in
  empty ← sio_iqueue_empty;
  mret (if empty : bool then status else Z.lor status LIBRADIO_WAIT_SERIAL).

(** [_sleep] ends with the next interrupt. *)
Fixpoint wait_loop (evs : list event) : fw D X Z :=
  status ← wait_status;
  if negb (status =? 0) then mret status
  else
    match evs with
    | [] => wait_more
    | e :: evs' => mput m_events evs';; take_event e;; wait_loop evs'
    end.

Definition libradio_wait : fw D X Z := evs ← gets m_events; wait_loop evs.

Definition libradio_irq_enable (flag : Z) : fw D X unit :=
  e ← gets m_eicra; mput m_eicra (Z.land e (255 - 0x03));;
  e ← gets m_eicra; mput m_eicra (Z.lor e 0x02);;
  rput r_catch_irq flag;;
  k ← gets m_eimsk;
  if flag =? 0 then
    mput m_eimsk (Z.land k (255 - 0x01));;
    mput m_irq_fired 0
  else
    mput m_irq_fired 0;;
    mput m_eimsk (Z.lor k 0x01).

Definition libradio_irq_fired : fw D X Z := gets m_irq_fired.
End wait.

(** ** The wait as a function of the events *)

Section wait_proofs.
Context {D X : Type}.
Implicit Types m : machine D X.

(** The machine after an interrupt. *)
Definition absorb (e : event) m : machine D X :=
  match e with
  | Tick => tick_machine m
  | RadioIrq =>
      if Z.testbit (m_eimsk m) 0
      then m <| m_irq_fired ::= fun f => u8 (f + 1) |> <| m_eimsk ::= fun k => Z.land k 0xfe |>
      else m
  | SerialRx c => m <| m_iqueue ::= fun q => q ++ [c] |>
  end.

Definition after (evs : list event) m : machine D X := foldl (fun m e => absorb e m) m evs.

(** The machine after the interrupts [evs], with [rest] still to come. *)
Definition absorbs (evs rest : list event) m : machine D X :=
  (after evs m) <| m_events := rest |>.

Definition wake_status m : Z :=
  Z.lor (Z.lor (if negb (m_irq_fired m =? 0) then LIBRADIO_WAIT_RXINT else 0)
               (if negb (m_thread_ok m =? 0) then LIBRADIO_WAIT_TIMER else 0))
        (if bool_decide (m_iqueue m = []) then 0 else LIBRADIO_WAIT_SERIAL).

Lemma take_event_eq e m : take_event e m = Done tt (absorb e m).
Proof.
  destruct e; [apply clocktick_eq| |done].
  unfold take_event, absorb, radio_irq, mbind, cmd_bind, gets, mput, modify.
  destruct (Z.testbit (m_eimsk m) 0); [|done]. by destruct m.
Qed.

Lemma wait_status_eq m : wait_status m = Done (wake_status m) (m <| m_thread_ok := 0 |>).
Proof.
  unfold wait_status, wake_status, sio_iqueue_empty, libradio_tick_wait, mbind, cmd_bind,
    gets, mput, modify, _watchdog, mret, cmd_ret. cbv zeta. upd_simpl.
  by destruct (m_irq_fired m =? 0), (m_thread_ok m =? 0), (bool_decide _).
Qed.

Lemma wake_status_zero m :
  wake_status m = 0 <-> m_irq_fired m = 0 /\ m_thread_ok m = 0 /\ m_iqueue m = [].
Proof.
  unfold wake_status.
  destruct (Z.eqb_spec (m_irq_fired m) 0), (Z.eqb_spec (m_thread_ok m) 0);
    cbn [negb]; case_bool_decide; cbn; intuition (try done; try lia).
Qed.

Lemma absorb_events e m : m_events (absorb e m) = m_events m.
Proof. destruct e; [done| |done]. unfold absorb. by destruct (Z.testbit (m_eimsk m) 0). Qed.

Lemma absorb_set_events e l m : absorb e (m <| m_events := l |>) = (absorb e m) <| m_events := l |>.
Proof.
  destruct e; [by destruct m| |by destruct m]. unfold absorb. upd_simpl.
  destruct (Z.testbit (m_eimsk m) 0); by destruct m.
Qed.

Lemma absorbs_cons e evs rest m :
  absorbs (e :: evs) rest m = absorbs evs rest (absorb e m).
Proof. done. Qed.

Lemma after_set_events evs l m :
  after evs (m <| m_events := l |>) = (after evs m) <| m_events := l |>.
Proof.
  unfold after. revert m. induction evs as [|e evs IH]; intros m; [done|]. cbn. by rewrite absorb_set_events, IH.
Qed.

Lemma absorbs_set_events evs rest l m :
  absorbs evs rest (m <| m_events := l |>) = absorbs evs rest m.
Proof.
  unfold absorbs. rewrite after_set_events. by destruct (after evs m).
Qed.

Lemma wait_loop_run evs m :
  (exists k, (k <= length evs)%nat /\
     let m' := absorbs (take k evs) (drop k evs) m in
     wake_status m' <> 0 /\
     (forall j, (j < k)%nat -> wake_status (absorbs (take j evs) (drop j evs) m) = 0) /\
     wait_loop evs (m <| m_events := evs |>) =
       Done (wake_status m') (m' <| m_thread_ok := 0 |>)) \/
  ((forall j, (j <= length evs)%nat -> wake_status (absorbs (take j evs) (drop j evs) m) = 0) /\
   wait_loop evs (m <| m_events := evs |>) = Waiting (absorbs evs [] m)).
Proof.
  revert m. induction evs as [|e evs IH]; intros m.
  - cbn [wait_loop]. rewrite (bind_done _ _ _ _ _ (wait_status_eq _)).
    change (wake_status (m <| m_events := [] |>)) with (wake_status m).
    destruct (Z.eqb_spec (wake_status m) 0) as [E|E]; cbn [negb].
    + right. split; [by intros [|j] Hj; [|simpl in Hj; lia]|]. unfold wait_more. f_equal.
      apply wake_status_zero in E as (_&E&_). unfold absorbs. destruct m. cbn in *. by subst.
    + left. exists 0%nat. split_and!; [done|done|lia|done].
  - cbn [wait_loop]. rewrite (bind_done _ _ _ _ _ (wait_status_eq _)).
    change (wake_status (m <| m_events := e :: evs |>)) with (wake_status m).
    destruct (Z.eqb_spec (wake_status m) 0) as [E|E]; cbn [negb].
    + assert ((mput m_events evs;; take_event e;; wait_loop evs)
                (m <| m_events := e :: evs |> <| m_thread_ok := 0 |>) =
              wait_loop evs ((absorb e m) <| m_events := evs |>)) as ->.
      { apply wake_status_zero in E as (_&E&_).
        assert (m <| m_events := e :: evs |> <| m_thread_ok := 0 |> = m <| m_events := e :: evs |>)
          as -> by (destruct m; cbn in *; by subst).
        unfold mput. unfold mbind at 1, cmd_bind, modify.
        rewrite (bind_done _ _ _ _ _ (take_event_eq e _)). f_equal.
        rewrite <- absorb_set_events. by destruct m. }
      destruct (IH (absorb e m)) as [(k&Hk&Hw&Hj&Hr)|[Hj Hr]].
      * left. exists (S k). rewrite Hr. split_and!; [simpl; lia|done| |done].
        intros [|j] Hlt; [done|]. apply Hj. lia.
      * right. rewrite Hr. split; [|done]. intros [|j] Hlt; [done|]. apply Hj. simpl in Hlt. lia.
    + left. exists 0%nat. split_and!; [lia|done|lia|done].
Qed.
End wait_proofs.

(** ** Properties *)

Section properties.
Context {D X : Type}.
Implicit Types m : machine D X.

(** A wait ends exactly at the first moment at which there is a reason to
    end it - immediately, without sleeping, when there is one at the call - and
    returns the reasons, with the timer's flag taken back and the later
    interrupts still to come; when no interrupt of the sequence is a reason it
    is still waiting after all of them. *)
Theorem wait_wakes m :
  let evs := m_events m in
  let at_ k := absorbs (take k evs) (drop k evs) m in
  (exists k, (k <= length evs)%nat /\ wake_status (at_ k) <> 0 /\
     (forall j, (j < k)%nat -> wake_status (at_ j) = 0) /\
     libradio_wait m = Done (wake_status (at_ k)) ((at_ k) <| m_thread_ok := 0 |>)) \/
  ((forall j, (j <= length evs)%nat -> wake_status (at_ j) = 0) /\
   libradio_wait m = Waiting (absorbs evs [] m)).
Proof.
  intros evs at_. unfold libradio_wait. unfold mbind, cmd_bind, gets. fold evs.
  pose proof (wait_loop_run evs m) as H.
  assert (m <| m_events := evs |> = m) as E by (unfold evs; by destruct m).
  by rewrite E in H.
Qed.

Lemma after_ticks n m : after (replicate n Tick) m = Nat.iter n tick_machine m.
Proof.
  revert m. induction n as [|n IH]; intros m; [done|].
  change (after (replicate (S n) Tick) m) with (after (replicate n Tick) (tick_machine m)).
  by rewrite IH, <- Nat.iter_succ_r.
Qed.

Lemma ticks_flags n m :
  m_irq_fired (Nat.iter n tick_machine m) = m_irq_fired m /\
  m_iqueue (Nat.iter n tick_machine m) = m_iqueue m.
Proof. induction n as [|n [IH1 IH2]]; [done|]. by rewrite Nat.iter_succ. Qed.

Lemma wake_ticks n m :
  m_irq_fired m = 0 -> m_iqueue m = [] ->
  wake_status (Nat.iter n tick_machine m) =
    if m_thread_ok (Nat.iter n tick_machine m) =? 0 then 0 else LIBRADIO_WAIT_TIMER.
Proof.
  intros Hi Hq. destruct (ticks_flags n m) as [E1 E2].
  unfold wake_status. rewrite E1, E2, Hi, Hq, bool_decide_eq_true_2 by done.
  by destruct (m_thread_ok _ =? 0).
Qed.

(** A delay of [d] ticks, with nothing else pending. *)
Lemma wait_sleeps_run d rest m :
  m_events m = replicate d Tick ++ rest ->
  r_main_ticks (m_radio m) = Z.of_nat d -> 0 < Z.of_nat d < 65536 ->
  m_thread_ok m = 0 -> m_irq_fired m = 0 -> m_iqueue m = [] ->
  libradio_wait m = Done LIBRADIO_WAIT_TIMER
    ((Nat.iter d tick_machine m) <| m_events := rest |> <| m_thread_ok := 0 |>).
Proof.
  intros He Hmt Hd Hok Hi Hq.
  assert (forall j, (j <= d)%nat ->
    wake_status (absorbs (take j (replicate d Tick ++ rest)) (drop j (replicate d Tick ++ rest)) m)
      = if (j =? d)%nat then LIBRADIO_WAIT_TIMER else 0) as Hw.
  { intros j Hj. rewrite take_app_le by (rewrite length_replicate; lia).
    rewrite take_replicate, Nat.min_l by lia. unfold absorbs. rewrite after_ticks.
    change (wake_status (_ <| m_events := _ |>)) with (wake_status (Nat.iter j tick_machine m)).
    rewrite wake_ticks by done.
    destruct (delay_run (Z.of_nat d) j m Hmt Hd Hok ltac:(lia)) as [-> _].
    destruct (Nat.eqb_spec j d) as [->|]; [by rewrite Z.eqb_refl|].
    by rewrite (proj2 (Z.eqb_neq (Z.of_nat j) _)) by lia. }
  unfold libradio_wait, mbind at 1, cmd_bind, gets. rewrite He.
  assert (m <| m_events := replicate d Tick ++ rest |> = m) as E by (rewrite <- He; by destruct m).
  pose proof (wait_loop_run (replicate d Tick ++ rest) m) as Hrun. rewrite E in Hrun.
  destruct Hrun as [(k&Hk&Hwk&Hbefore&Hr)|[Hnone _] ].
  - assert (k = d) as ->.
    { destruct (Nat.lt_trichotomy k d) as [Hlt|[Heq|Hgt] ]; [|done|].
      - rewrite Hw, (proj2 (Nat.eqb_neq _ _)) in Hwk by lia. done.
      - specialize (Hbefore d Hgt). rewrite Hw, Nat.eqb_refl in Hbefore by lia. done. }
    rewrite Hr, Hw, Nat.eqb_refl by lia. f_equal. unfold absorbs.
    rewrite take_app_length', drop_app_length', after_ticks by by rewrite length_replicate.
    done.
  - specialize (Hnone d). rewrite Hw, Nat.eqb_refl in Hnone by lia.
    rewrite length_app, length_replicate in Hnone. specialize (Hnone ltac:(lia)). done.
Qed.

(** With a delay of [d] ticks running and nothing else pending, the main
    loop sleeps through exactly [d] timer interrupts and then wakes up for the
    timer alone; the time of day has been kept by all [d] of them. *)
Theorem wait_sleeps_delay d rest m :
  m_events m = replicate d Tick ++ rest ->
  r_main_ticks (m_radio m) = Z.of_nat d -> 0 < Z.of_nat d < 65536 ->
  m_thread_ok m = 0 -> m_irq_fired m = 0 -> m_iqueue m = [] ->
  libradio_wait m = Done LIBRADIO_WAIT_TIMER
    ((Nat.iter d tick_machine m) <| m_events := rest |> <| m_thread_ok := 0 |>).
Proof. apply wait_sleeps_run. Qed.

(** Once the radio's interrupt is enabled, any number of edges is latched
    exactly once: the flag is set and further interrupts are off until the next
    [libradio_irq_enable], so the flag cannot wrap back to zero and a packet
    cannot be missed. *)
Theorem irq_latched_once n m :
  wp (libradio_irq_enable 1) (fun _ m' =>
    m_irq_fired m' = 0 /\ r_catch_irq (m_radio m') = 1 /\
    let m'' := after (replicate (S n) RadioIrq) m' in
    m_irq_fired m'' = 1 /\ Z.testbit (m_eimsk m'') 0 = false /\
    Z.testbit (wake_status m'') 0 = true) m.
Proof.
  unfold libradio_irq_enable. wp_simpl. cbn [Z.eqb]. wp_simpl. upd_simpl.
  set (m' := _ <| m_eimsk := _ |>). split; [done|]. split; [done|].
  assert (Z.testbit (m_eimsk m') 0 = true) as Hb.
  { unfold m'. upd_simpl. rewrite Z.lor_spec. apply orb_true_r. }
  assert (forall k (x : machine D X), Z.testbit (m_eimsk x) 0 = false -> after (replicate k RadioIrq) x = x) as Hoff.
  { induction k as [|k IH]; intros x Hx; [done|]. unfold after. cbn [replicate foldl].
    unfold absorb at 2. rewrite Hx. by apply IH. }
  change (after (replicate (S n) RadioIrq) m') with (after (replicate n RadioIrq) (absorb RadioIrq m')).
  unfold absorb. rewrite Hb. rewrite Hoff.
  - split; [done|]. split; [upd_simpl; by rewrite Z.land_spec, andb_false_r|].
    unfold wake_status. upd_simpl. rewrite !Z.lor_spec. cbn. done.
  - upd_simpl. by rewrite Z.land_spec, andb_false_r.
Qed.
End properties.

(** ** The invariant *)

Section wait_invariant.
Context {D X : Type} `{AppInv X}.
Implicit Types m : machine D X.

Lemma fw_ok_absorb e m : event_ok e -> fw_ok m -> fw_ok (absorb e m).
Proof.
  intros He Hm. destruct e; [by apply fw_ok_tick| |].
  - unfold absorb. destruct (Z.testbit (m_eimsk m) 0); [|done]. destruct Hm. split; try done. flags.
  - destruct Hm. split; try done. cbn. upd_simpl. apply bytes_app. split; [done|by apply Forall_singleton].
Qed.

Lemma fw_ok_absorbs evs rest m :
  Forall event_ok evs -> Forall event_ok rest -> fw_ok m -> fw_ok (absorbs evs rest m).
Proof.
  intros He Hr Hm. unfold absorbs.
  assert (fw_ok (after evs m)) as [].
  { unfold after. revert m Hm. induction He; intros m Hm; [done|]. cbn. by apply IHHe, fw_ok_absorb. }
  by split.
Qed.

Lemma preserves_libradio_wait : preserves fw_ok (libradio_wait : fw D X Z).
Proof.
  intros m Hm. unfold libradio_wait, safe. unfold mbind, cmd_bind, gets.
  pose proof (wait_loop_run (m_events m) m) as Hrun.
  assert (m <| m_events := m_events m |> = m) as E by by destruct m.
  rewrite E in Hrun. destruct Hrun as [(k&Hk&_&_&->)|[_ ->] ]; [|done].
  apply fw_ok_thread, fw_ok_absorbs; [apply Forall_take|apply Forall_drop|]; try done; apply Hm.
Qed.

Lemma preserves_libradio_irq_enable flag :
  is_u8 flag -> preserves fw_ok (libradio_irq_enable flag : fw D X unit).
Proof.
  intros Hf. apply preserves_wp. intros m Hm. unfold libradio_irq_enable.
  wp_simpl.
  assert (fw_ok (m <| m_radio ::= fun l => l <| r_catch_irq := flag |> |>)) as [].
  { apply fw_ok_radio; [done|apply field_put; [by apply fw_radio|done]|]. by destruct (fw_periods _ Hm). }
  destruct (flag =? 0); wp_simpl; (split; try done; flags).
Qed.
End wait_invariant.

#[export] Hint Resolve preserves_libradio_wait : preserves.
#[export] Hint Extern 1 (preserves fw_ok (libradio_irq_enable _)) =>
  apply preserves_libradio_irq_enable; in_range : preserves.

(** ** Instances of the properties *)

Lemma wait_sleeps_delay_witness :
  libradio_wait (bench_machine [] (replicate 5 Tick ++ [RadioIrq])) =
    Done LIBRADIO_WAIT_TIMER
      ((Nat.iter 5 tick_machine (bench_machine [] (replicate 5 Tick ++ [RadioIrq])))
         <| m_events := [RadioIrq] |> <| m_thread_ok := 0 |>).
Proof.
  apply (wait_sleeps_delay 5 [RadioIrq] (bench_machine [] (replicate 5 Tick ++ [RadioIrq])));
    [done..|lia|done|done|done].
Defined.
