(* ===== verification/Avr.v ===== *)
(** The assembly files of the library (ioinit.S, setled.S, setss.S, testpt.S,
    radio_irq.S, watchdog.S, locore.S): the instructions they use, the routines as
    programs, and that these do what the rest of the development takes them to do. *)

From S2P Require Import Prelude Cmd Machine Clock Wait.

(** ** The processor

    The I/O registers the routines touch. *)
Inductive ioreg := PORTB | DDRB | PORTC | DDRC | PORTD | DDRD | EIFR | EIMSK | SREG.

#[export] Instance ioreg_eq_dec : EqDecision ioreg.
Proof. solve_decision. Defined.

(** The 32 working registers, the I/O registers, the static variable [_irq_fired], and
    the stack from its top on. *)
Record avr := mk_avr {
  a_reg : Z -> Z;
  a_io : ioreg -> Z;
  a_irq_fired : Z;
  a_stack : list Z
}.

(** The file of registers with one changed. *)
Definition override {K} `{EqDecision K} (k : K) (v : Z) (f : K -> Z) : K -> Z :=
  fun k' => if decide (k = k') then v else f k'.

(** Instructions; a branch says how many instructions it skips. *)
Inductive instr :=
| Ldi (r k : Z)
| In (r : Z) (p : ioreg)
| Out (p : ioreg) (r : Z)
| Sbi (p : ioreg) (b : Z)
| Cbi (p : ioreg) (b : Z)
| Push (r : Z)
| Pop (r : Z)
| Lds_irq_fired (r : Z)
| Sts_irq_fired (r : Z)
| Inc (r : Z)
| Tst (r : Z)
| Breq (skip : nat)
| Nop
| Wdr
| Ret
| Reti.

(** The bits of the status register. *)
Definition SREG_I : Z := 7.
Definition SREG_S : Z := 4.
Definition SREG_V : Z := 3.
Definition SREG_N : Z := 2.
Definition SREG_Z : Z := 1.

Definition put_bit (b : Z) (v : bool) (x : Z) : Z := if v then Z.setbit x b else Z.clearbit x b.

(** The flags of a result, with the overflow flag [v]. *)
Definition flags (v : bool) (res sreg : Z) : Z :=
  put_bit SREG_Z (res =? 0) (put_bit SREG_N (Z.testbit res 7)
    (put_bit SREG_V v (put_bit SREG_S (xorb (Z.testbit res 7) v) sreg))).

Definition set_reg (r v : Z) (a : avr) : avr := mk_avr (override r v (a_reg a)) (a_io a) (a_irq_fired a) (a_stack a).
Definition set_io (p : ioreg) (v : Z) (a : avr) : avr :=
  mk_avr (a_reg a) (override p v (a_io a)) (a_irq_fired a) (a_stack a).

(** Writing ones to EIFR clears its bits. *)
Definition out (p : ioreg) (v : Z) (a : avr) : avr :=
  set_io p (if decide (p = EIFR) then Z.ldiff (a_io a EIFR) v else v) a.

(** An instruction that goes on with the next one. *)
Definition step (i : instr) (a : avr) : option avr :=
  match i with
  | Ldi r k => Some (set_reg r k a)
  | In r p => Some (set_reg r (a_io a p) a)
  | Out p r => Some (out p (a_reg a r) a)
  | Sbi p b => Some (set_io p (Z.setbit (a_io a p) b) a)
  | Cbi p b => Some (set_io p (Z.clearbit (a_io a p) b) a)
  | Push r => Some (mk_avr (a_reg a) (a_io a) (a_irq_fired a) (a_reg a r :: a_stack a))
  | Pop r =>
      match a_stack a with
      | [] => None
      | v :: s => Some (mk_avr (override r v (a_reg a)) (a_io a) (a_irq_fired a) s)
      end
  | Lds_irq_fired r => Some (set_reg r (a_irq_fired a) a)
  | Sts_irq_fired r => Some (mk_avr (a_reg a) (a_io a) (a_reg a r) (a_stack a))
  | Inc r =>
      let v := u8 (a_reg a r + 1) in
      Some (set_io SREG (flags (v =? 0x80) v (a_io a SREG)) (set_reg r v a))
  | Tst r => Some (set_io SREG (flags false (a_reg a r) (a_io a SREG)) a)
  | Nop | Wdr => Some a
  | Breq _ | Ret | Reti => None
  end.

(** A routine up to its return. Branches only go forward, so as much fuel as there are
    instructions is enough. *)
Fixpoint exec (fuel : nat) (code : list instr) (a : avr) : option avr :=
  match fuel, code with
  | S fuel', i :: code' =>
      match i with
      | Ret => Some a
      | Reti => Some (set_io SREG (Z.setbit (a_io a SREG) SREG_I) a)
      | Breq skip =>
          if Z.testbit (a_io a SREG) SREG_Z then exec fuel' (drop skip code') a else exec fuel' code' a
      | _ =>
          match step i a with
          | Some a' => exec fuel' code' a'
          | None => None
          end
      end
  | _, _ => None
  end.

Definition run (code : list instr) (a : avr) : option avr := exec (length code) code a.

(** ** The routines *)

Module Asm.
Definition _ioinit : list instr :=
  [Ldi 16 0xee; Ldi 17 0x02; Out PORTB 17; Out DDRB 16;
   Ldi 16 0x37; Ldi 17 0x00; Out PORTC 17; Out DDRC 16;
   Ldi 16 0xfa; Out PORTD 17; Out DDRD 16; Ret].

Definition _setled : list instr := [Tst 24; Breq 2; Cbi PORTD 3; Ret; Sbi PORTD 3; Ret].

Definition _setss : list instr :=
  [Tst 24; Breq 2; Cbi PORTB 1; Ret; Sbi PORTB 1;
   Nop; Nop; Nop; Nop; Nop; Nop; Nop; Nop; Nop; Nop; Ret].

Definition _testpt : list instr := [Tst 24; Breq 2; Sbi PORTC 5; Ret; Cbi PORTC 5; Ret].

Definition radio_irq : list instr :=
  [Push 24; In 24 SREG; Push 24; Push 25;
   Ldi 24 1; Out EIFR 24; Lds_irq_fired 24; Inc 24; Sts_irq_fired 24; Cbi EIMSK 0;
   Pop 25; Pop 24; Out SREG 24; Pop 24; Reti].

Definition _watchdog : list instr := [Wdr; Ret].

Definition empty : list instr := [Reti].
End Asm.

(** What an interrupt jumps to; [V_libavr] names code of that library. *)
Inductive vector :=
| V_code (code : list instr)
| V_libavr (name : string).

(** The table of the ATmega328P. *)
Definition __vectors : list vector :=
  let empty := V_code Asm.empty in
  [V_libavr "_reset"; V_code Asm.radio_irq; empty; empty; empty; empty; empty; empty; empty; empty;
   empty; V_libavr "_clk_int"; empty; empty; empty; empty; empty; V_libavr "spi_irq";
   V_libavr "sio_in"; V_libavr "sio_out"; empty; empty; empty; empty; empty; empty].

(** The numbers of the interrupts of the events that are modelled. *)
Definition vector_of (e : event) : Z :=
  match e with
  | Tick => 11
  | RadioIrq => 1
  | SerialRx _ => 18
  end.

(** ** What the routines do *)

Lemma override_eq {K} `{EqDecision K} (k : K) v f : override k v f k = v.
Proof. unfold override. by rewrite decide_True. Qed.

Lemma override_ne {K} `{EqDecision K} (k k' : K) v f : k <> k' -> override k v f k' = f k'.
Proof. intros. unfold override. by rewrite decide_False. Qed.

(** The bit of a value after a bit has been set or cleared. *)
Lemma put_bit_spec b v x n : 0 <= b -> Z.testbit (put_bit b v x) n = if n =? b then v else Z.testbit x n.
Proof.
  intros Hb. unfold put_bit. rewrite Z.eqb_sym.
  destruct v; [rewrite Z.setbit_eqb by done|rewrite Z.clearbit_eqb by done];
    destruct (b =? n); cbn; by rewrite ?andb_false_r, ?andb_true_r.
Qed.

(** [tst] sets the zero flag for zero. *)
Lemma flags_zero v res sreg : Z.testbit (flags v res sreg) SREG_Z = (res =? 0).
Proof. unfold flags. by rewrite put_bit_spec. Qed.

Lemma clearbit_land x : is_u8 x -> Z.clearbit x 0 = Z.land x 0xfe.
Proof.
  intros Hx. apply Z.bits_inj'. intros n Hn. rewrite Z.clearbit_eqb, Z.land_spec by done.
  destruct (Z.ltb_spec n 8).
  - assert (n = 0 \/ n = 1 \/ n = 2 \/ n = 3 \/ n = 4 \/ n = 5 \/ n = 6 \/ n = 7) as Hc by lia.
    by repeat (destruct Hc as [->|Hc]; [cbn; by rewrite ?andb_false_r, ?andb_true_r|]); subst;
      cbn; rewrite ?andb_false_r, ?andb_true_r.
  - assert (Z.testbit x n = false) as ->; [|done]. unfold is_u8 in Hx.
    apply (Z.bits_above_log2 x n); [lia|]. destruct (Z.eq_dec x 0) as [->|]; [cbn; lia|].
    apply Z.log2_lt_pow2; [lia|]. pose proof (Z.pow_le_mono_r 2 8 n). lia.
Qed.

(** A run, one closure per register changed; then what the registers hold. *)
Ltac run_code :=
  cbv -[override u8 flags Z.setbit Z.clearbit Z.ldiff Z.add Z.eqb Z.testbit]; reflexivity.
Ltac regs := cbn [a_reg a_io a_irq_fired a_stack]; repeat first [rewrite override_eq | rewrite override_ne by done].

Section shows.
Context {D X : Type} `{Platform D}.
Implicit Types m : machine D X.

(** The processor's view of the machine: the flag of the radio's interrupt and its mask,
    the LED on port D3 and the select pin on port B1, both active low. *)
Record shows (a : avr) m : Prop := {
  shows_fired : a_irq_fired a = m_irq_fired m;
  shows_mask : a_io a EIMSK = m_eimsk m;
  shows_led : Z.testbit (a_io a PORTD) 3 = negb (m_led m);
  shows_ss : Z.testbit (a_io a PORTB) 1 = negb (m_ss m)
}.

(** Registers, stack and the I/O registers outside [ps] are as before. *)
Definition untouched (ps : list ioreg) (a a' : avr) : Prop :=
  (forall r, a_reg a' r = a_reg a r) /\ a_stack a' = a_stack a /\
  forall p, p ∉ ps -> a_io a' p = a_io a p.

Lemma radio_irq_run a m :
  is_u8 (m_eimsk m) -> shows a m ->
  exists a' m', run Asm.radio_irq a = Some a' /\ radio_irq m = Done tt m' /\ shows a' m' /\
    untouched [SREG; EIFR; EIMSK] a a' /\ a_io a' SREG = Z.setbit (a_io a SREG) SREG_I.
Proof.
  intros Hm [Hf Hk Hl Hs]. destruct a as [R P f s]. cbn [a_irq_fired a_io] in *.
  eexists _, (m <| m_irq_fired := u8 (m_irq_fired m + 1) |> <| m_eimsk := Z.land (m_eimsk m) 0xfe |>).
  split; [run_code|]. split; [done|]. split; [|split; [split; [|split; [done|]]|] ].
  - split; regs.
    + by rewrite Hf.
    + rewrite Hk. by apply clearbit_land.
    + exact Hl.
    + exact Hs.
  - intros r. regs. unfold override. repeat case_decide; by subst.
  - intros p Hp. cbn [a_io]. rewrite !not_elem_of_cons in Hp. destruct Hp as (?&?&?&_).
    by rewrite !override_ne by done.
  - by regs.
Qed.

(** The pin [b] of [p] set to [on], and the flags of the test of r24. *)
Definition pin (p : ioreg) (b : Z) (on : bool) (a : avr) : avr :=
  set_io p (put_bit b on (a_io a p)) (set_io SREG (flags false (a_reg a 24) (a_io a SREG)) a).

Lemma breq_flag v res x a : Z.testbit (a_io (set_io SREG (flags v res x) a) SREG) SREG_Z = (res =? 0).
Proof. cbn [set_io a_io]. by rewrite override_eq, flags_zero. Qed.

Ltac run_flag :=
  intros a; unfold run; cbn [length app Asm._setled Asm._setss Asm._testpt exec step drop];
  rewrite breq_flag; destruct (a_reg a 24 =? 0); cbn [exec step];
  unfold pin, put_bit; cbn [negb]; f_equal; f_equal; cbn [set_io a_io]; by rewrite override_ne by done.

Lemma setled_run : forall a, run Asm._setled a = Some (pin PORTD 3 (a_reg a 24 =? 0) a).
Proof. run_flag. Qed.

Lemma setss_run : forall a, run Asm._setss a = Some (pin PORTB 1 (a_reg a 24 =? 0) a).
Proof. run_flag. Qed.

Lemma testpt_run : forall a, run Asm._testpt a = Some (pin PORTC 5 (negb (a_reg a 24 =? 0)) a).
Proof. run_flag. Qed.

(** The other pins of the port, and the rest. *)
Lemma pin_only p b on a :
  0 <= b -> p <> SREG -> untouched [SREG; p] a (pin p b on a) /\
  forall n, Z.testbit (a_io (pin p b on a) p) n = if n =? b then on else Z.testbit (a_io a p) n.
Proof.
  intros Hb Hp. split; [split; [done|split; [done|]]|].
  - intros q Hq. rewrite !not_elem_of_cons in Hq. destruct Hq as (?&?&_). unfold pin, set_io. cbn [a_io].
    by rewrite !override_ne by done.
  - intros n. unfold pin, set_io. cbn [a_io]. rewrite override_eq. by apply put_bit_spec.
Qed.
End shows.

(** ** Properties *)

Section properties.
Context {D X : Type} `{Platform D}.
Implicit Types m : machine D X.

(** [C31] The handler of the radio's interrupt does what the model of it does (it counts
    the interrupt and masks it), and the code it interrupts does not notice: every
    register, the stack and every flag of the status register are as before, and the
    interrupts are on again. *)
Theorem irq_handler_transparent (a : avr) m :
  is_u8 (m_eimsk m) -> shows a m ->
  exists a' m', run Asm.radio_irq a = Some a' /\ radio_irq m = Done tt m' /\ shows a' m' /\
    untouched [SREG; EIFR; EIMSK] a a' /\ a_io a' SREG = Z.setbit (a_io a SREG) SREG_I.
Proof. apply radio_irq_run. Qed.

(** The LED and the select pin follow the flag in r24 the way the model says, and
    nothing else of their ports changes. *)
Theorem pins_follow_flag (a : avr) m :
  shows a m ->
  (exists a' m', run Asm._setled a = Some a' /\ _setled (a_reg a 24) m = Done tt m' /\ shows a' m' /\
     untouched [SREG; PORTD] a a' /\
     forall n, n <> 3 -> Z.testbit (a_io a' PORTD) n = Z.testbit (a_io a PORTD) n) /\
  (exists a' m', run Asm._setss a = Some a' /\
     _setss (negb (a_reg a 24 =? 0)) m = Done tt m' /\ shows a' m' /\ untouched [SREG; PORTB] a a' /\
     forall n, n <> 1 -> Z.testbit (a_io a' PORTB) n = Z.testbit (a_io a PORTB) n).
Proof.
  intros [Hf Hk Hl Hs]. split.
  - eexists _, (m <| m_led := negb (a_reg a 24 =? 0) |>). split; [apply setled_run|]. split; [done|].
    destruct (pin_only PORTD 3 (a_reg a 24 =? 0) a) as [Hu Hb]; [done..|]. split; [|split; [done|]].
    + split; [done|exact Hk| |exact Hs]. rewrite Hb. upd_simpl. by rewrite negb_involutive.
    + intros n Hn. by rewrite Hb, (proj2 (Z.eqb_neq _ _)).
  - eexists _, (m <| m_ss := negb (a_reg a 24 =? 0) |> <| m_dev ::= spi_select (negb (a_reg a 24 =? 0)) |>).
    split; [apply setss_run|]. split; [done|].
    destruct (pin_only PORTB 1 (a_reg a 24 =? 0) a) as [Hu Hb]; [done..|]. split; [|split; [done|]].
    + split; [done|exact Hk|exact Hl|]. rewrite Hb. upd_simpl. by rewrite negb_involutive.
    + intros n Hn. by rewrite Hb, (proj2 (Z.eqb_neq _ _)).
Qed.
End properties.

(** The test point is a pin that nothing else uses. *)
Theorem testpt_outcome a :
  exists a', run Asm._testpt a = Some a' /\ untouched [SREG; PORTC] a a' /\
    forall n, Z.testbit (a_io a' PORTC) n =
      if n =? 5 then negb (a_reg a 24 =? 0) else Z.testbit (a_io a PORTC) n.
Proof. eexists. split; [apply testpt_run|]. by apply pin_only. Qed.

(** Whether a port's direction register makes a pin an output. *)
Definition is_output (a : avr) (ddr : ioreg) (pin : Z) : bool := Z.testbit (a_io a ddr) pin.

(** After the set-up of the ports every pin the routines and the devices drive is an
    output (the select pin, the SPI's data and clock, the LED, the serial output and the
    test point), those that are read are inputs (the SPI's data, the serial input and
    the radio's interrupt), and the radio is not selected. *)
Theorem ports_set_up a :
  exists a', run Asm._ioinit a = Some a' /\
    Forall (fun '(ddr, p) => is_output a' ddr p = true)
      [(DDRB, 1); (DDRB, 3); (DDRB, 5); (DDRD, 3); (DDRD, 1); (DDRC, 5)] /\
    Forall (fun '(ddr, p) => is_output a' ddr p = false) [(DDRB, 4); (DDRD, 0); (DDRD, 2)] /\
    Z.testbit (a_io a' PORTB) 1 = true.
Proof.
  destruct a as [R P f s]. eexists. split; [run_code|].
  split; [|split]; [repeat constructor; unfold is_output; by regs..|by regs].
Qed.

(** The table has an entry for each interrupt of the processor, the handlers of the
    events are those the model runs, and every other handler of this file returns at
    once. *)
Theorem vectors_dispatch c :
  length __vectors = 26%nat /\
  __vectors !! Z.to_nat (vector_of RadioIrq) = Some (V_code Asm.radio_irq) /\
  __vectors !! Z.to_nat (vector_of Tick) = Some (V_libavr "_clk_int") /\
  __vectors !! Z.to_nat (vector_of (SerialRx c)) = Some (V_libavr "sio_in") /\
  forall i code, __vectors !! i = Some (V_code code) -> i <> Z.to_nat (vector_of RadioIrq) ->
    forall a, run code a = Some (set_io SREG (Z.setbit (a_io a SREG) SREG_I) a).
Proof.
  split; [done|]. split; [done|]. split; [done|]. split; [done|]. intros i code Hi Hne a.
  do 26 (destruct i as [|i]; [vm_compute in Hi; first [by destruct (Hne eq_refl)|by simplify_eq]|]). done.
Qed.

(** A processor with something in its registers. *)
Definition bench_avr : avr :=
  mk_avr (fun r => r + 100) (fun p => if decide (p = PORTD) then 8 else if decide (p = PORTB) then 2
    else if decide (p = EIMSK) then 1 else 0x02) 0 [7].

Definition bench_waiting : machine unit unit :=
  (bench_clock 1 0 0 0 0 0 0 0) <| m_eimsk := 1 |>.

Lemma irq_handler_transparent_witness :
  exists a' m', run Asm.radio_irq bench_avr = Some a' /\
    radio_irq bench_waiting = Done tt m' /\ shows a' m' /\
    untouched [SREG; EIFR; EIMSK] bench_avr a' /\ a_io a' SREG = Z.setbit (a_io bench_avr SREG) SREG_I.
Proof. by apply (irq_handler_transparent bench_avr bench_waiting). Defined.
