(* ===== verification/Race.v ===== *)
(** Interrupts between the instructions of the main program: the code that shares the
    clock with the timer interrupt, byte by byte, run in every interleaving.

    The rest of the development takes interrupts while the main loop sleeps. Here a
    thread of the main program is a sequence of actions of one instruction each (the
    processor loads and stores a 16-bit variable in two halves), and whenever
    interrupts are enabled any number of them is taken before the next action. *)

From stdpp Require Import relations.
From S2P Require Import Prelude Cmd Machine Clock Wait.

(** ** Threads *)

Section threads.
Context {D X : Type}.
Implicit Types m : machine D X.

(** [Sleep] goes on after the next interrupt. *)
Inductive thread (A : Type) :=
| Ret (a : A)
| Act {B : Type} (c : fw D X B) (k : B -> thread A)
| Sleep (t : thread A).
Arguments Ret {A} a.
Arguments Act {A B} c k.
Arguments Sleep {A} t.

(** The next instruction of a thread. *)
Definition acts {A} (t : thread A) m (t' : thread A) m' : Prop :=
  match t with
  | Act c k => exists b, c m = Done b m' /\ t' = k b
  | _ => False
  end.

(** An instruction, or an interrupt (its handler, which runs to its end, see
    [take_event_eq]). *)
Inductive istep {A} : thread A * machine D X -> thread A * machine D X -> Prop :=
| step_act t m t' m' : acts t m t' m' -> istep (t, m) (t', m')
| step_irq t m e : m_sreg_i m = true -> istep (t, m) (t, absorb e m)
| step_wake t m e : istep (Sleep t, m) (t, absorb e m).

Definition isteps {A} : relation (thread A * machine D X) := rtc istep.

(** Interrupts only. *)
Definition irq m m' : Prop := exists e, m_sreg_i m = true /\ m' = absorb e m.
Definition irqs : relation (machine D X) := rtc irq.

(** The thread without interrupts. *)
Fixpoint solo {A} (t : thread A) : fw D X A :=
  match t with
  | Ret a => mret a
  | Act c k => b ← c; solo (k b)
  | Sleep _ => wait_more
  end.

(** Whatever the interleaving, what the thread returns satisfies [Q] with the machine. *)
Definition always {A} (t : thread A) m (Q : A -> machine D X -> Prop) : Prop :=
  forall a m', isteps (t, m) (Ret a, m') -> Q a m'.

(** An assertion that interrupts do not disturb. *)
Definition stable (P : machine D X -> Prop) : Prop :=
  forall e m, m_sreg_i m = true -> P m -> P (absorb e m).

Lemma always_ret {A} (a : A) m P (Q : A -> machine D X -> Prop) :
  stable P -> P m -> (forall m', P m' -> Q a m') -> always (Ret a) m Q.
Proof.
  intros Hst HP HQ a' m' Hs. remember (Ret a, m) as s eqn:E. remember (Ret a', m') as s' eqn:E'.
  revert m HP E. induction Hs as [s|s s1 s' Hstep Hs IH]; intros m HP E; subst.
  - simplify_eq. by apply HQ.
  - inversion Hstep as [t m0 t' m1 Ha|t m0 e Hi|]; subst; [done|].
    eapply IH; [done| |done]. by apply Hst.
Qed.

Lemma always_act {A B} (c : fw D X B) (k : B -> thread A) m P Q :
  stable P -> P m ->
  (forall m' b m'', P m' -> c m' = Done b m'' -> always (k b) m'' Q) -> always (Act c k) m Q.
Proof.
  intros Hst HP Hk a m' Hs. remember (Act c k, m) as s eqn:E. remember (Ret a, m') as s' eqn:E'.
  revert m HP E. induction Hs as [s|s s1 s' Hstep Hs IH]; intros m HP E; subst; [done|].
  inversion Hstep as [t m0 t' m1 Ha|t m0 e Hi|]; subst.
  - destruct Ha as (b&Hc&->). by eapply Hk.
  - eapply IH; [done| |done]. by apply Hst.
Qed.

(** Actions that read or change the machine. *)
Lemma always_read {A B} (f : machine D X -> B) (k : B -> thread A) m P Q :
  stable P -> P m -> (forall m', P m' -> always (k (f m')) m' Q) -> always (Act (gets f) k) m Q.
Proof. intros Hst HP Hk. eapply always_act; [done..|]. intros m' b m'' Hm [= <- <-]. by apply Hk. Qed.

Lemma always_write {A} (f : machine D X -> machine D X) (k : unit -> thread A) m P Q :
  stable P -> P m -> (forall m', P m' -> always (k tt) (f m') Q) -> always (Act (modify f) k) m Q.
Proof. intros Hst HP Hk. eapply always_act; [done..|]. intros m' b m'' Hm [= <- <-]. by apply Hk. Qed.

(** Whatever the interleaving, the next instruction meets no fault. *)
Definition faultless {A} (t : thread A) m : Prop :=
  forall t' m', isteps (t, m) (t', m') ->
    match t' with Act c _ => exists b m'', c m' = Done b m'' | _ => True end.

Lemma faultless_ret {A} (a : A) m : faultless (Ret a) m.
Proof.
  intros t' m' Hs. assert (t' = Ret a) as ->; [|done].
  remember (Ret a, m) as s eqn:E. remember (t', m') as s' eqn:E'.
  revert m E. induction Hs as [s|s s1 s' Hstep Hs IH]; intros m E; subst; [by simplify_eq|].
  inversion Hstep as [t m0 t1 m1 Ha|t m0 e Hi|]; subst; [done|]. by eapply IH.
Qed.

Lemma faultless_act {A B} (c : fw D X B) (k : B -> thread A) m P :
  stable P -> P m ->
  (forall m', P m' -> exists b m'', c m' = Done b m'' /\ faultless (k b) m'') -> faultless (Act c k) m.
Proof.
  intros Hst HP Hk t' m' Hs. remember (Act c k, m) as s eqn:E. remember (t', m') as s' eqn:E'.
  revert m HP E. induction Hs as [s|s s1 s' Hstep Hs IH]; intros m HP E; subst.
  - simplify_eq. destruct (Hk _ HP) as (b&m''&Hc&_). by exists b, m''.
  - inversion Hstep as [t m0 t1 m1 Ha|t m0 e Hi|]; subst.
    + destruct Ha as (b&Hc&->). destruct (Hk m HP) as (b'&m''&Hc'&Hf).
      rewrite Hc in Hc'. simplify_eq. by eapply Hf.
    + eapply IH; [done| |done]. by apply Hst.
Qed.

(** While interrupts are off nothing is disturbed. *)
Lemma stable_off P : stable (fun m => m_sreg_i m = false /\ P m).
Proof. intros e m Hi [Hoff _]. congruence. Qed.

Lemma stable_true : stable (fun _ => True).
Proof. done. Qed.
End threads.
Arguments thread D X A : clear implicits.
Arguments Ret {D X A} a.
Arguments Act {D X A B} c k.
Arguments Sleep {D X A} t.

(** ** The code, byte by byte *)

Definition lo (v : Z) : Z := Z.land v 0xff.
Definition hi (v : Z) : Z := Z.shiftr v 8.
Definition join (h l : Z) : Z := h * 256 + l.

Section code.
Context {D X : Type}.

(** The order of the halves is the compiler's. *)
Context (hi_first : bool).

(** [v = radio.f] *)
Definition load16 {A} (f : libradio -> Z) (k : Z -> thread D X A) : thread D X A :=
  let get half := rget (fun l => half (f l)) : fw D X Z in
  if hi_first then Act (get hi) (fun h => Act (get lo) (fun l => k (join h l)))
  else Act (get lo) (fun l => Act (get hi) (fun h => k (join h l))).

(** [radio.f = v] *)
Definition store16 {A} (f : libradio -> Z) `{!Setter f} (v : Z) (k : thread D X A) : thread D X A :=
  let put g := modify (fun m => m <| m_radio ::= fun l => l <| f := g (f l) |> |>) : fw D X unit in
  let put_hi := put (fun old => join (hi v) (lo old)) in
  let put_lo := put (fun old => join (hi old) (lo v)) in
  if hi_first then Act put_hi (fun _ => Act put_lo (fun _ => k))
  else Act put_lo (fun _ => Act put_hi (fun _ => k)).

(** clock.c: libradio_set_delay *)
Definition set_delay_thread (delay : Z) : thread D X unit :=
  store16 r_tick_count delay (
    Act cli (fun _ =>
      load16 r_main_ticks (fun mt =>
        let finish := Act sei (fun _ => Ret tt) in
        if mt =? 0 then store16 r_main_ticks delay finish else finish))).

(** packet.c: the time stamp of a packet in libradio_txpacket. *)
Definition stamp_thread : thread D X Z :=
  Act cli (fun _ => load16 r_ms_ticks (fun t => Act sei (fun _ => Ret t))).

(** packet.c: the clock taken from a packet in libradio_rxpacket. *)
Definition take_time_thread (ticks : Z) : thread D X unit :=
  Act cli (fun _ => store16 r_ms_ticks ticks (Act sei (fun _ => Ret tt))).

(** time.c: libradio_get_ticks *)
Definition get_ticks_thread : thread D X Z := load16 r_ms_ticks Ret.

(** clock.c: libradio_tick_wait *)
Definition tick_wait_thread {A} (k : Z -> thread D X A) : thread D X A :=
  Act (gets m_thread_ok) (fun run_ok => Act (mput m_thread_ok 0) (fun _ => k run_ok)).

(** wait.c: libradio_wait, for [n] rounds of its loop. *)
Fixpoint wait_thread (n : nat) : thread D X Z :=
  match n with
  | O => Act wait_more Ret
  | S n' =>
      Act (gets m_irq_fired) (fun f =>
        let status := if negb (f =? 0) then LIBRADIO_WAIT_RXINT else 0 in
        tick_wait_thread (fun t =>
          let status := if negb (t =? 0) then Z.lor status LIBRADIO_WAIT_TIMER else status in
          Act sio_iqueue_empty (fun empty =>
            let status := if empty : bool then status else Z.lor status LIBRADIO_WAIT_SERIAL in
            if negb (status =? 0) then Ret status else Sleep (wait_thread n'))))
  end.
End code.

(** ** Halves *)

Lemma lo_mod v : lo v = v mod 256.
Proof. unfold lo. change 0xff with (Z.ones 8). by rewrite Z.land_ones. Qed.

Lemma hi_div v : hi v = v / 256.
Proof. unfold hi. by rewrite Z.shiftr_div_pow2. Qed.

Lemma join_halves v : join (hi v) (lo v) = v.
Proof. unfold join. rewrite hi_div, lo_mod. pose proof (Z.div_mod v 256). lia. Qed.

Lemma hi_join h v : hi (join h (lo v)) = h.
Proof.
  unfold join. rewrite hi_div, lo_mod, Z.div_add_l by done.
  rewrite (Z.div_small (v mod 256)) by (by apply Z.mod_pos_bound). lia.
Qed.

Lemma lo_join h v : lo (join h (lo v)) = lo v.
Proof. unfold join. rewrite !lo_mod, Z.add_comm, Z.mod_add, Z.mod_mod by lia. done. Qed.

Lemma join_u16 a b : is_u16 a -> is_u16 b -> is_u16 (join (hi a) (lo b)).
Proof.
  unfold is_u16, join. rewrite hi_div, lo_mod. intros Ha Hb.
  pose proof (Z.mod_pos_bound b 256). pose proof (Z.div_pos a 256). pose proof (Z.div_lt_upper_bound a 256 256).
  lia.
Qed.

Section proofs.
Context {D X : Type}.
Implicit Types m : machine D X.

(** A field of the record on its own. *)
Class Field (f : libradio -> Z) `{!Setter f} : Prop := {
  field_same v l : f (l <| f := v |>) = v;
  field_over v w l : l <| f := w |> <| f := v |> = l <| f := v |>
}.

Local Ltac field := split; [intros v [] | intros v w [] ]; reflexivity.
#[local] Instance field_tick_count : Field r_tick_count := ltac:(field).
#[local] Instance field_main_ticks : Field r_main_ticks := ltac:(field).
#[local] Instance field_ms_ticks : Field r_ms_ticks := ltac:(field).

(** [m] with a field of the record changed. *)
Definition put (f : libradio -> Z) `{!Setter f} v m : machine D X := m <| m_radio ::= fun l => l <| f := v |> |>.

(** *** With interrupts off *)

Lemma always_act_off {A B} (c : fw D X B) (k : B -> thread D X A) m Q :
  m_sreg_i m = false -> (forall b m', c m = Done b m' -> always (k b) m' Q) -> always (Act c k) m Q.
Proof.
  intros Hi Hk. apply (always_act _ _ _ (fun m' => m_sreg_i m' = false /\ m' = m)); [apply stable_off|done|].
  intros m' b m'' [_ ->]. apply Hk.
Qed.

Lemma always_load_off {A} h f (k : Z -> thread D X A) m Q :
  m_sreg_i m = false -> always (k (f (m_radio m))) m Q -> always (load16 h f k) m Q.
Proof.
  intros Hi Hk. unfold load16. cbv zeta.
  destruct h; apply always_act_off; try done; intros ? ? [= <- <-]; apply always_act_off; try done;
    intros ? ? [= <- <-]; by rewrite join_halves.
Qed.

Lemma put_put f `{Field f} v w m : put f v (put f w m) = put f v m.
Proof.
  transitivity (m <| m_radio := (m_radio m) <| f := w |> <| f := v |> |>); [by destruct m|].
  rewrite field_over. by destruct m.
Qed.

Lemma put_get f `{Field f} v m : f (m_radio (put f v m)) = v.
Proof. unfold put. upd_simpl. apply field_same. Qed.

(** Both halves stored. *)
Lemma store_halves f `{Field f} v m :
  put f (join (hi (f (m_radio (put f (join (hi v) (lo (f (m_radio m)))) m)))) (lo v))
    (put f (join (hi v) (lo (f (m_radio m)))) m) = put f v m /\
  put f (join (hi v) (lo (f (m_radio (put f (join (hi (f (m_radio m))) (lo v)) m)))))
    (put f (join (hi (f (m_radio m))) (lo v)) m) = put f v m.
Proof. by rewrite !(put_put f), !(put_get f), hi_join, lo_join, join_halves. Qed.

Lemma always_store_off {A} h f `{Field f} v (k : thread D X A) m Q :
  m_sreg_i m = false -> always k (put f v m) Q -> always (store16 h f v k) m Q.
Proof.
  intros Hi Hk. unfold store16. cbv zeta. destruct (store_halves f v m) as [E1 E2].
  destruct h; apply always_act_off; try done; intros ? ? [= <- <-]; apply always_act_off; try done;
    intros ? ? [= <- <-].
  - rewrite <- E1 in Hk. exact Hk.
  - rewrite <- E2 in Hk. exact Hk.
Qed.

(** *** What interrupts keep *)

(** The counters of the delay fit their variables. *)
Definition counters m : Prop :=
  is_u16 (r_tick_count (m_radio m)) /\ is_u16 (r_main_ticks (m_radio m)).

Lemma absorb_tick_count e m : r_tick_count (m_radio (absorb e m)) = r_tick_count (m_radio m).
Proof. destruct e; [done| |done]. cbn [absorb]. by destruct (Z.testbit _ _). Qed.

Lemma absorb_main_ticks e m :
  r_main_ticks (m_radio (absorb e m)) = r_main_ticks (m_radio m) \/
  r_main_ticks (m_radio (absorb e m)) =
    fst (main_step (r_main_ticks (m_radio m)) (r_tick_count (m_radio m)) (m_thread_ok m)).
Proof. destruct e; [by right| |by left]. left. cbn [absorb]. by destruct (Z.testbit _ _). Qed.

Lemma main_step_u16 mt tc ok : is_u16 mt -> is_u16 tc -> is_u16 (fst (main_step mt tc ok)).
Proof.
  intros Hm Ht. unfold main_step. destruct (mt =? 0); [done|]. cbv zeta.
  destruct (u16 _ =? 0); [done|]. cbn [fst]. apply u16_range.
Qed.

(** The delay keeps running, unless it is zero. *)
Lemma main_step_runs mt tc ok : tc <> 0 -> mt <> 0 -> fst (main_step mt tc ok) <> 0.
Proof.
  intros Ht Hm. unfold main_step. rewrite (proj2 (Z.eqb_neq _ _)) by done. cbv zeta.
  destruct (Z.eqb_spec (u16 (mt - 1)) 0); [done|]. by cbn [fst].
Qed.

Lemma counters_absorb e m : counters m -> counters (absorb e m).
Proof.
  intros [Ht Hm]. split; [by rewrite absorb_tick_count|].
  destruct (absorb_main_ticks e m) as [->| ->]; [done|by apply main_step_u16].
Qed.

(** What [libradio_set_delay] leaves behind. *)
Definition delay_set (delay : Z) m : Prop :=
  r_tick_count (m_radio m) = delay /\ (delay <> 0 -> r_main_ticks (m_radio m) <> 0).

Lemma delay_set_absorb delay e m : delay_set delay m -> delay_set delay (absorb e m).
Proof.
  intros [Ht Hm]. split; [by rewrite absorb_tick_count|]. intros Hd.
  destruct (absorb_main_ticks e m) as [->| ->]; [by apply Hm|].
  apply main_step_runs; [by rewrite Ht|by apply Hm].
Qed.

(** *** libradio_set_delay *)

(** Behind the store of the delay. *)
Lemma set_delay_rest h delay m :
  counters m -> r_tick_count (m_radio m) = delay ->
  always (Act cli (fun _ => load16 h r_main_ticks (fun mt =>
    let finish := Act sei (fun _ => Ret tt) in
    if mt =? 0 then store16 h r_main_ticks delay finish else finish))) m (fun _ => delay_set delay).
Proof.
  intros Hc Ht.
  apply (always_write _ _ _ (fun m' => counters m' /\ r_tick_count (m_radio m') = delay)).
  { intros e m' _ [? ?]. split; [by apply counters_absorb|by rewrite absorb_tick_count]. }
  { done. }
  clear m Hc Ht. intros m [Hc Ht]. apply always_load_off; [done|]. cbv zeta.
  assert (forall m1, m_sreg_i m1 = false -> delay_set delay m1 ->
    always (Act sei (fun _ => Ret tt)) m1 (fun _ => delay_set delay)) as Hfin.
  { intros m1 Hi Hd. apply always_act_off; [done|]. intros ? ? [= <- <-].
    apply (always_ret _ _ (delay_set delay)); [|exact Hd|done]. intros e m' _. apply delay_set_absorb. }
  change (r_main_ticks _) with (r_main_ticks (m_radio m)).
  destruct (Z.eqb_spec (r_main_ticks (m_radio m)) 0) as [Hz|Hz].
  - apply always_store_off; [apply _|done|]. apply Hfin; [done|]. split; [exact Ht|done].
  - apply Hfin; [done|]. by split.
Qed.

Lemma set_delay_always h delay m :
  counters m -> is_u16 delay -> always (set_delay_thread h delay) m (fun _ => delay_set delay).
Proof.
  intros Hc Hd. unfold set_delay_thread, store16. cbv zeta.
  assert (forall e m', m_sreg_i m' = true -> counters m' -> counters (absorb e m')) as Hst
    by (intros e m' _; apply counters_absorb).
  assert (forall m' v, counters m' -> is_u16 v -> counters (put r_tick_count v m')) as Hput
    by (intros m' v [_ Hm] Hv; by split).
  assert (forall m', counters m' -> is_u16 (r_tick_count (m_radio m'))) as Htc by (by intros m' [? _]).
  destruct h.
  - apply (always_write _ _ _ counters); [exact Hst|done|]. clear m Hc. intros m Hc.
    set (m1 := put r_tick_count (join (hi delay) (lo (r_tick_count (m_radio m)))) m).
    apply (always_write _ _ _ (fun m' => counters m' /\ hi (r_tick_count (m_radio m')) = hi delay)).
    + intros e m' Hi [? ?]. split; [by apply Hst|by rewrite absorb_tick_count].
    + split; [apply Hput; [done|apply join_u16; auto]|]. apply hi_join.
    + intros m' [Hc' Hh]. refine (set_delay_rest true delay _ _ _).
      * apply Hput; [done|]. apply join_u16; auto.
      * change (join (hi (r_tick_count (m_radio m'))) (lo delay) = delay). by rewrite Hh, join_halves.
  - apply (always_write _ _ _ counters); [exact Hst|done|]. clear m Hc. intros m Hc.
    apply (always_write _ _ _ (fun m' => counters m' /\ lo (r_tick_count (m_radio m')) = lo delay)).
    + intros e m' Hi [? ?]. split; [by apply Hst|by rewrite absorb_tick_count].
    + split; [apply Hput; [done|apply join_u16; auto]|]. apply lo_join.
    + intros m' [Hc' Hl]. refine (set_delay_rest false delay _ _ _).
      * apply Hput; [done|]. apply join_u16; auto.
      * change (join (hi delay) (lo (r_tick_count (m_radio m'))) = delay). by rewrite Hl, join_halves.
Qed.

(** *** The time stamp, and the time taken over *)

Lemma irqs_stable m : stable (irqs m).
Proof. intros e m' Hi Hm. eapply rtc_r; [exact Hm|]. by exists e. Qed.

Lemma stamp_always h m :
  always (stamp_thread h) m (fun t m' => exists m1,
    irqs m m1 /\ t = r_ms_ticks (m_radio m1) /\ irqs (m1 <| m_sreg_i := true |>) m').
Proof.
  apply (always_write _ _ _ (irqs m)); [apply irqs_stable|apply rtc_refl|]. intros m1 Hm1.
  apply always_load_off; [done|]. apply always_act_off; [done|]. intros ? ? [= <- <-].
  apply (always_ret _ _ (irqs (m1 <| m_sreg_i := true |>))); [apply irqs_stable| |].
  - destruct m1. apply rtc_refl.
  - intros m' Hm'. by exists m1.
Qed.

Lemma take_time_always h ticks m :
  always (take_time_thread h ticks) m (fun _ m' => exists m1,
    irqs m m1 /\ irqs (put r_ms_ticks ticks (m1 <| m_sreg_i := true |>)) m').
Proof.
  apply (always_write _ _ _ (irqs m)); [apply irqs_stable|apply rtc_refl|]. intros m1 Hm1.
  apply always_store_off; [apply _|done|]. apply always_act_off; [done|]. intros ? ? [= <- <-].
  apply (always_ret _ _ (irqs (put r_ms_ticks ticks (m1 <| m_sreg_i := true |>)))); [apply irqs_stable| |].
  - destruct m1. apply rtc_refl.
  - intros m' Hm'. by exists m1.
Qed.

(** *** The threads on their own are the functions *)

Lemma solo_load {A} h f (k : Z -> thread D X A) m : solo (load16 h f k) m = solo (k (f (m_radio m))) m.
Proof.
  unfold load16. destruct h; cbn [solo]; unfold mbind, cmd_bind, rget, gets; by rewrite join_halves.
Qed.

Lemma solo_store {A} h f `{Field f} v (k : thread D X A) m : solo (store16 h f v k) m = solo k (put f v m).
Proof.
  destruct (store_halves f v m) as [E1 E2].
  unfold store16. destruct h; cbn [solo]; unfold mbind, cmd_bind, modify; [by rewrite <- E1|by rewrite <- E2].
Qed.

Lemma solo_set_delay h delay m : solo (set_delay_thread h delay) m = libradio_set_delay delay m.
Proof.
  unfold set_delay_thread. rewrite (solo_store h r_tick_count). cbn [solo].
  unfold libradio_set_delay, mbind, cmd_bind, cli, sei, mput, rput, rget, gets, modify. rewrite solo_load.
  set (m1 := put r_tick_count delay m <| m_sreg_i := false |>).
  change (r_main_ticks (m_radio m1)) with (r_main_ticks (m_radio m)).
  change (r_main_ticks (m_radio (_ <| m_sreg_i := false |>))) with (r_main_ticks (m_radio m)).
  destruct (_ =? 0); cbv zeta; cbn [when]; [rewrite (solo_store h r_main_ticks)|]; by destruct m.
Qed.

Lemma solo_wait n m :
  solo (wait_thread (S n)) m =
    (status ← wait_status; if negb (status =? 0) then mret status else wait_more) m.
Proof.
  cbn [wait_thread]. unfold tick_wait_thread. cbn [solo].
  unfold wait_status, libradio_tick_wait, sio_iqueue_empty, _watchdog, mbind, cmd_bind, gets, mput, modify,
    mret, cmd_ret. cbv zeta.
  destruct (bool_decide _); by destruct (negb (_ =? 0)).
Qed.

(** *** The wait *)

(** A radio interrupt has been counted; it is masked since. *)
Definition radio_waits m : Prop := m_irq_fired m <> 0 /\ Z.testbit (m_eimsk m) 0 = false.

Lemma radio_waits_absorb e m : radio_waits m -> radio_waits (absorb e m).
Proof. intros [Hf Hk]. destruct e; [done| |done]. cbn [absorb]. by rewrite Hk. Qed.

Lemma wait_always n m :
  radio_waits m -> always (wait_thread (S n)) m (fun status _ => Z.testbit status 0 = true).
Proof.
  assert (stable radio_waits) as Hst by (intros e m' _; apply radio_waits_absorb).
  intros Hm. cbn [wait_thread]. unfold tick_wait_thread.
  apply (always_read _ _ _ radio_waits); [exact Hst|done|]. clear m Hm. intros m Hm.
  rewrite (proj2 (Z.eqb_neq (m_irq_fired m) 0)) by apply Hm. cbv zeta. cbn [negb].
  apply (always_read _ _ _ radio_waits); [exact Hst|done|]. clear m Hm. intros m Hm.
  generalize (m_thread_ok m). intros t.
  apply (always_write _ _ _ radio_waits); [exact Hst|done|]. clear m Hm. intros m Hm.
  eapply (always_act _ _ _ radio_waits); [exact Hst|exact Hm|]. intros m1 empty m2 Hm1 [= <- <-].
  set (status := if bool_decide _ then _ else _).
  assert (Z.testbit status 0 = true) as Hs.
  { unfold status. by destruct (negb (t =? 0)), (bool_decide _). }
  assert (status <> 0) as Hne by (intros E; by rewrite E in Hs).
  rewrite (proj2 (Z.eqb_neq _ _)) by done. cbn [negb].
  apply (always_ret _ _ radio_waits); [exact Hst|done|done].
Qed.
End proofs.

(** ** Properties *)

Section properties.
Context {D X : Type}.
Implicit Types m : machine D X.

(** [C11] A delay is set in every interleaving with the interrupts: when
    [libradio_set_delay] has returned the delay is the one asked for and, unless it is
    zero, it is running, whatever was running before and wherever the clock ticked in
    between (also between the halves of a store). Without interrupts the thread is the
    function of the sequential model. *)
Theorem set_delay_settles h delay m :
  counters m -> is_u16 delay ->
  solo (set_delay_thread h delay) m = libradio_set_delay delay m /\
  always (set_delay_thread h delay) m (fun _ => delay_set delay).
Proof. intros Hc Hd. split; [apply solo_set_delay|by apply set_delay_always]. Qed.

(** [C32] The time stamp of a packet is a time the clock has shown: in every interleaving
    it is the value of the clock after some of the interrupts, with the others after
    it. A clock taken over from a packet is not torn either: the ticks come before or
    after the whole of it. *)
Theorem stamp_is_time h ticks m :
  always (stamp_thread h) m (fun t m' => exists m1,
    irqs m m1 /\ t = r_ms_ticks (m_radio m1) /\ irqs (m1 <| m_sreg_i := true |>) m') /\
  always (take_time_thread h ticks) m (fun _ m' => exists m1,
    irqs m m1 /\ irqs (put r_ms_ticks ticks (m1 <| m_sreg_i := true |>)) m').
Proof. split; [apply stamp_always|apply take_time_always]. Qed.

(** [C33] The radio's interrupt may come between the look at its flag and the sleep: the
    main loop then sleeps with a packet waiting. It is not lost: the next interrupt of
    any kind ends the wait, and the packet is among the reasons. *)
Theorem interrupt_in_gap n m e :
  m_sreg_i m = true -> wake_status m = 0 -> Z.testbit (m_eimsk m) 0 = true ->
  exists m', isteps (wait_thread (S (S n)), m) (Sleep (wait_thread (S n)), m') /\ radio_waits m' /\
    istep (Sleep (wait_thread (S n)), m') (wait_thread (S n), absorb e m') /\
    always (wait_thread (S n)) (absorb e m') (fun status _ => Z.testbit status 0 = true).
Proof.
  intros Hi (Hf&Ht&Hq)%wake_status_zero Hk.
  exists (absorb RadioIrq (m <| m_thread_ok := 0 |>)).
  assert (radio_waits (absorb RadioIrq (m <| m_thread_ok := 0 |>))) as Hw.
  { cbn [absorb]. upd_simpl. rewrite Hk. split; upd_simpl; [by rewrite Hf|].
    by rewrite Z.land_spec, andb_false_r. }
  split; [|split; [done|split; [apply step_wake|]]].
  - do 4 (eapply rtc_l; [apply step_act; eexists; by split|]). upd_simpl. rewrite Hf, Ht, Hq. cbn.
    eapply rtc_l; [by apply (step_irq _ _ RadioIrq)|]. apply rtc_refl.
  - apply wait_always. by apply radio_waits_absorb.
Qed.

(** A tick that comes between the look at the flag of the main loop and its clearing is
    lost: the delay has run out and started again, and nobody is told. *)
Theorem tick_lost m :
  m_sreg_i m = true -> m_thread_ok m = 0 -> r_main_ticks (m_radio m) = 1 ->
  exists m', isteps (tick_wait_thread Ret, m) (Ret 0, m') /\ m_thread_ok m' = 0 /\
    r_main_ticks (m_radio m') = r_tick_count (m_radio m).
Proof.
  intros Hi Ht Hm. exists ((absorb Tick m) <| m_thread_ok := 0 |>).
  split; [|split; [done|]].
  - eapply rtc_l; [apply step_act; eexists; by split|]. rewrite Ht.
    eapply rtc_l; [by apply (step_irq _ _ Tick)|].
    eapply rtc_l; [apply step_act; eexists; by split|]. apply rtc_refl.
  - upd_simpl. cbn [absorb]. unfold tick_machine, tick_radio. upd_simpl. unfold main_step. by rewrite Hm.
Qed.
End properties.

(** A machine with interrupts on, its clock at 2.55 s, and the last tick of a delay. *)
Definition bench_race : machine unit unit :=
  (bench_clock 1 0 255 1 500 0 0 0) <| m_sreg_i := true |> <| m_eimsk := 1 |>.

(** The clock read without disabling interrupts: with a tick between the halves the
    value is neither the time before it nor the time after it. *)
Theorem ticks_torn h :
  exists t m', isteps (get_ticks_thread h, bench_race) (Ret t, m') /\ m' = absorb Tick bench_race /\
    t <> r_ms_ticks (m_radio bench_race) /\ t <> r_ms_ticks (m_radio m').
Proof.
  exists (if h then 0 else 511), (absorb Tick bench_race).
  split; [|by destruct h].
  destruct h; (eapply rtc_l; [apply step_act; eexists; by split|]);
    (eapply rtc_l; [by apply (step_irq _ _ Tick)|]);
    (eapply rtc_l; [apply step_act; eexists; by split|]); apply rtc_refl.
Qed.

(** ** Instances of the properties *)

Lemma set_delay_settles_witness :
  solo (set_delay_thread true 5) bench_race = libradio_set_delay 5 bench_race /\
  always (set_delay_thread true 5) bench_race (fun _ => delay_set 5).
Proof. by apply set_delay_settles. Defined.

Lemma interrupt_in_gap_witness :
  exists m', isteps (wait_thread 2, bench_race) (Sleep (wait_thread 1), m') /\ radio_waits m' /\
    istep (Sleep (wait_thread 1), m') (wait_thread 1, absorb Tick m') /\
    always (wait_thread 1) (absorb Tick m') (fun status _ => Z.testbit status 0 = true).
Proof. by apply (interrupt_in_gap 0 bench_race Tick). Defined.
