(* ===== verification/Rxtx.v ===== *)
(** rxtx.c: starting the receiver, receiving a packet into a channel and
    transmitting one from a channel. *)

From S2P Require Import Machine Clock State Spi Invariant Si4463 Wait.

Section rxtx.
Context {D X : Type} `{Platform D} `{App D X}.

Definition libradio_check_rx : fw D X Z :=
  n ← libradio_get_fifo_info 0;
  mret (c_bool (SI4463_PACKET_LEN <=? n)).

Definition libradio_check_tx : fw D X Z :=
  libradio_get_fifo_info 0;;
  n ← rget r_tx_fifo;
  mret (c_bool (SI4463_PACKET_LEN <=? n)).

Definition libradio_set_rx (channo : Z) : fw D X unit :=
  pkt_put 0 SI4463_START_RX;;
  pkt_put 1 channo;;
  pkt_put 2 0;;
  pkt_put 3 0;;
  pkt_put 4 SI4463_PACKET_LEN;;
  pkt_put 5 SI4463_STATE_NOCHANGE;;
  pkt_put 6 SI4463_STATE_READY;;
  pkt_put 7 SI4463_STATE_READY;;
  i ← pkt_send 8 0;
  (if negb (i =? SPI_SEND_OK) then pkt_error i;; mret tt else mret tt);;
  rput r_curr_channel channo.

(** [!radio.radio_active && libradio_power_up() < 0] *)
Definition not_powered : fw D X bool :=
  active ← rget r_radio_active;
  if negb (active =? 0) then mret false
  else v ← libradio_power_up; mret (v <? 0).

Definition libradio_recv_start : fw D X Z :=
  failed ← not_powered;
  if failed : bool then mret 0
  else
    rput r_catch_irq 1;;
    c ← rget r_my_channel;
    libradio_set_rx c;;
    mret 1.

Definition libradio_recv (chp : chanref X) (channo : Z) : fw D X Z :=
  some ← libradio_check_rx;
  ret ← (if negb (some =? 0) then
           ret ← libradio_rxpacket chp;
           (if ret =? 0 then libradio_get_fifo_info 2;; mret tt
            else
              n ← rget r_npacket_rx;
              rput r_npacket_rx (u16 (n + 1));;
              rput r_saw_rx 1);;
           c ← rget r_catch_irq;
           when (negb (c =? 0)) (libradio_irq_enable 1);;
           mret ret
         else mret 0);
  st ← libradio_request_device_status;
  cc ← rget r_curr_channel;
  when (negb (st =? SI4463_STATE_RX) || negb (cc =? channo)) (libradio_set_rx channo);;
  mret ret.

(** The end of [libradio_send]: the packet in the FIFO is transmitted. *)
Definition start_tx (chp : chanref X) (channo : Z) : fw D X Z :=
  pkt_put 0 SI4463_START_TX;;
  pkt_put 1 channo;;
  c ← ch_load chp;
  let i := if LIBRADIO_CHSTATE_TRANSMIT <? c_state c
           then SI4463_STATE_RX else SI4463_STATE_READY in
  pkt_put 2 (u8 (Z.shiftl i 4));;
  pkt_put 3 0;;
  pkt_put 4 SI4463_PACKET_LEN;;
  i ← pkt_send 5 0;
  if negb (i =? SPI_SEND_OK) then pkt_error i
  else
    n ← rget r_npacket_tx;
    rput r_npacket_tx (u16 (n + 1));;
    mret 1.

Definition libradio_send (chp : chanref X) (channo : Z) : fw D X Z :=
  failed ← not_powered;
  if failed : bool then mret 0
  else
    libradio_request_device_status;;
    cs ← rget r_curr_state;
    if negb (cs =? SI4463_STATE_READY) && negb (cs =? SI4463_STATE_RX) then mret 0
    else
      room ← libradio_check_tx;
      if room =? 0 then mret 0
      else
        sent ← libradio_txpacket chp;
        if sent =? 0 then mret 0 else start_tx chp channo.
End rxtx.

(** ** Frames *)

Section frames.
Context {D X : Type} `{Platform D} `{!AppInv X}.
Implicit Types (m : machine D X) (r : chanref X).

Lemma query_set_rx c : is_u8 c -> keeps fw_ok query_only (libradio_set_rx c : fw D X unit).
Proof. intros Hc. unfold libradio_set_rx. query. Qed.

Lemma query_check_rx : keeps fw_ok query_only (libradio_check_rx : fw D X Z).
Proof. unfold libradio_check_rx. query. Qed.

Lemma query_check_tx : keeps fw_ok query_only (libradio_check_tx : fw D X Z).
Proof. unfold libradio_check_tx. query. Qed.

Lemma query_only_chan r m m' : query_only m m' -> ch_get r m' = ch_get r m.
Proof. intros Hq. by apply lib_frame_chan, query_lib_frame. Qed.

(** After [libradio_set_rx] the channel is the one asked for. *)
Lemma wp_set_rx c m :
  is_u8 c -> fw_ok m ->
  wp (libradio_set_rx c) (fun _ m' =>
    (fw_ok m' /\ query_only m m') /\ r_curr_channel (m_radio m') = c) m.
Proof.
  intros Hc Hm. apply wp_and; [by apply query_set_rx|]. unfold libradio_set_rx.
  assert (fw_ok m /\ query_only m m) as H1 by done.
  do 10 (apply (keeps_step fw_ok query_only m); [query|exact H1|]; clear H1; intros ? ? H1).
  by wp_simpl.
Qed.
End frames.

#[export] Hint Resolve query_check_rx query_check_tx : keeps.
#[export] Hint Extern 1 (keeps _ _ (libradio_set_rx _)) =>
  apply query_set_rx; in_range : keeps.

(** ** Transmission *)

Section send.
Context {D X : Type} `{Platform D} `{App D X, !AppInv X}.
Implicit Types (m : machine D X) (r : chanref X).

(** The radio is up, or the attempt failed. *)
Definition power_checked m (failed : bool) m' : Prop :=
  lib_frame m m' /\
  if failed then
    r_radio_active (m_radio m) = 0 /\
    settings (m_radio m') = state_set LIBRADIO_STATE_ERROR (settings (m_radio m))
  else
    r_radio_active (m_radio m') <> 0 /\
    settings (m_radio m') =
      (settings (m_radio m)) <| r_radio_active := r_radio_active (m_radio m') |>.

Lemma wp_not_powered m :
  fw_ok m -> wp not_powered (fun failed m' => fw_ok m' /\ power_checked m failed m') m.
Proof.
  intros Hm. unfold not_powered. wp_simpl.
  destruct (Z.eqb_spec (r_radio_active (m_radio m)) 0) as [Ea|Ea]; cbn [negb].
  - rewrite wp_bind. eapply wp_mono; [by apply wp_libradio_power_up|].
    intros v m' [Hm' Hpost]. rewrite wp_ret. split; [done|].
    destruct Hpost as [Ha|m' Ha Hf Hs|m' Ha Hf Hs]; [done| |done].
    split; [done|]. cbn [Z.ltb Z.compare].
    assert (r_radio_active (m_radio m') = 1) as ->; [|done].
    change (r_radio_active (settings (m_radio m')) = 1). by rewrite Hs.
  - rewrite wp_ret. split; [done|]. split; [done|]. split; [done|]. by destruct (m_radio m).
Qed.

Lemma power_checked_setting {T} (f : libradio -> T) m failed m' :
  (forall l, f (settings l) = f l) -> (forall l v, f (l <| r_radio_active := v |>) = f l) ->
  (forall l, f (state_set LIBRADIO_STATE_ERROR l) = f l) ->
  power_checked m failed m' -> f (m_radio m') = f (m_radio m).
Proof.
  intros Hs Ha He [_ Hp]. rewrite <- (Hs (m_radio m')), <- (Hs (m_radio m)).
  destruct failed; destruct Hp as [_ ->]; auto.
Qed.

(** The channel with its packet stamped with the time and sealed. *)
Definition stamped (t : Z) (c : channel) : channel := c <| c_packet := seal t (c_packet c) |>.

(** What a transmission promises its caller. *)
Record send_post r m (v : Z) m' : Prop := {
  send_result : v = 0 \/ v = 1;
  send_count : r_npacket_tx (m_radio m') = u16 (r_npacket_tx (m_radio m) + v);
  send_time : r_ms_ticks (m_radio m') = r_ms_ticks (m_radio m);
  send_chan : ch_get r m' = ch_get r m \/
              ch_get r m' = stamped (r_ms_ticks (m_radio m)) (ch_get r m);
  send_sent : v = 1 -> r_radio_active (m_radio m') <> 0 /\
                p_len (c_packet (ch_get r m)) <= MAX_PAYLOAD_SIZE /\
                ch_get r m' = stamped (r_ms_ticks (m_radio m)) (ch_get r m);
  send_frame : lib_frame (ch_set r (ch_get r m') m) m'
}.

(** Up to here: nothing the caller sees has changed. *)
Definition unsent r m m' : Prop :=
  r_npacket_tx (m_radio m') = r_npacket_tx (m_radio m) /\
  r_ms_ticks (m_radio m') = r_ms_ticks (m_radio m) /\ ch_get r m' = ch_get r m /\
  lib_frame m m'.

Lemma unsent_post r m m' :
  fw_ok m -> lawful r -> unsent r m m' -> send_post r m 0 m'.
Proof.
  intros Hm Hr (E1&E2&E3&E4). split; [by left| |done|by left|done|].
  - rewrite Z.add_0_r, u16_small; [done|]. by apply field_get, fw_radio.
  - by rewrite E3, ch_set_get.
Qed.

Lemma power_checked_unsent r m failed m' : power_checked m failed m' -> unsent r m m'.
Proof.
  intros Hp. split_and!.
  - apply (power_checked_setting r_npacket_tx m failed); [done..| |done].
    intros l. unfold state_set, mode_after. by repeat case_match.
  - apply (power_checked_setting r_ms_ticks m failed); [done..| |done].
    intros l. unfold state_set, mode_after. by repeat case_match.
  - apply lib_frame_chan, Hp.
  - apply Hp.
Qed.

Lemma query_unsent r m m1 m2 : unsent r m m1 -> query_only m1 m2 -> unsent r m m2.
Proof.
  intros (E1&E2&E3&E4) Q. split_and!.
  - by rewrite (query_only_setting r_npacket_tx m1 m2).
  - by rewrite (query_only_setting r_ms_ticks m1 m2).
  - by rewrite (query_only_chan r m1 m2).
  - etrans; [done|by apply query_lib_frame].
Qed.

(** The command that starts the transmission of the packet in the FIFO. *)
Lemma wp_start_tx r channo m (Q : Z -> machine D X -> Prop) :
  fw_ok m -> ref_ok r -> is_u8 channo ->
  (forall m', fw_ok m' -> query_only m m' -> Q 0 m') ->
  (forall m', fw_ok m' -> query_only m m' ->
     Q 1 (m' <| m_radio ::= fun l => l <| r_npacket_tx := u16 (r_npacket_tx l + 1) |> |>)) ->
  wp (start_tx r channo) Q m.
Proof.
  intros Hm Hr Hc HQ0 HQ1. unfold start_tx.
  assert (fw_ok m /\ query_only m m) as E by done.
  do 2 (apply (keeps_step fw_ok query_only m); [query|exact E|]; clear E; intros ? ? E).
  rewrite wp_bind, wp_ch_load. cbv zeta.
  do 4 (apply (keeps_step fw_ok query_only m); [query|exact E|]; clear E; intros ? ? E).
  destruct (negb _).
  - unfold pkt_error. apply (keeps_step fw_ok query_only m); [apply query_print|exact E|].
    intros _ m' [Hm' Q']. by apply HQ0.
  - destruct E as [Hm' Q']. wp_simpl. by apply (HQ1 _ Hm' Q').
Qed.

(** The transmission of the packet that has been sealed and put in the FIFO: [m] is
    the state in which [libradio_send] was called. *)
Lemma wp_send_sealed r channo m m4 :
  fw_ok m -> fw_ok m4 -> ref_ok r -> is_u8 channo ->
  p_len (c_packet (ch_get r m)) <= MAX_PAYLOAD_SIZE ->
  r_npacket_tx (m_radio m4) = r_npacket_tx (m_radio m) ->
  r_ms_ticks (m_radio m4) = r_ms_ticks (m_radio m) -> r_radio_active (m_radio m4) <> 0 ->
  ch_get r m4 = stamped (r_ms_ticks (m_radio m)) (ch_get r m) ->
  lib_frame (ch_set r (stamped (r_ms_ticks (m_radio m)) (ch_get r m)) m) m4 ->
  wp (start_tx r channo) (fun v m' => fw_ok m' /\ send_post r m v m') m4.
Proof.
  intros Hm Hm4 Hr Hc Hl En Et Ha Ec Ef.
  apply wp_start_tx; [done..| |]; intros m' Hm' Q';
    pose proof (query_only_chan r m4 m' Q') as Ec';
    pose proof (query_only_setting r_npacket_tx m4 m' (fun _ => eq_refl) Q') as E1;
    pose proof (query_only_setting r_ms_ticks m4 m' (fun _ => eq_refl) Q') as E2;
    pose proof (query_only_setting r_radio_active m4 m' (fun _ => eq_refl) Q') as E3;
    assert (lib_frame (ch_set r (ch_get r m') m) m') as Ef'
      by (rewrite Ec', Ec; etrans; [exact Ef|by apply query_lib_frame]).
  - split; [done|]. split; [by left| |congruence|right; congruence|done|done].
    rewrite E1, En, Z.add_0_r, u16_small; [done|]. by apply field_get, fw_radio.
  - split.
    { apply fw_ok_radio; [done|apply field_put; [by apply fw_radio|apply u16_range]|].
      by destruct (fw_periods _ Hm'). }
    split; autorewrite with chan; upd_simpl; [by right| |congruence|right; congruence| |].
    + by rewrite E1, En.
    + intros _. split_and!; [congruence|done|congruence].
    + etrans; [exact Ef'|]. apply put_radio_lib_frame.
Qed.

Lemma wp_libradio_send r channo m :
  fw_ok m -> ref_ok r -> is_u8 channo ->
  wp (libradio_send r channo) (fun v m' => fw_ok m' /\ send_post r m v m') m.
Proof.
  intros Hm Hr Hc. unfold libradio_send. rewrite wp_bind.
  eapply wp_mono; [by apply wp_not_powered|]. intros failed m1 [Hm1 Hp].
  pose proof (power_checked_unsent r m failed m1 Hp) as U1.
  assert (lawful r) as Hlaw by apply Hr.
  destruct failed; [rewrite wp_ret; auto using unsent_post|].
  assert (r_radio_active (m_radio m1) <> 0) as Hact by apply Hp.
  assert (fw_ok m1 /\ query_only m1 m1) as E by done.
  apply (keeps_step fw_ok query_only m1); [query|exact E|]. clear E. intros _ m2 E.
  rewrite wp_bind, wp_rget. destruct (negb _ && _).
  { rewrite wp_ret. split; [apply E|]. apply unsent_post; [done..|].
    by apply (query_unsent r m m1), E. }
  apply (keeps_step fw_ok query_only m1); [query|exact E|]. clear E. intros room m3 [Hm3 Q3].
  pose proof (query_unsent r m m1 m3 U1 Q3) as U3.
  destruct (room =? 0); [rewrite wp_ret; auto using unsent_post|].
  rewrite wp_bind, wp_libradio_txpacket by apply Hr. cbv zeta.
  destruct U3 as (U3a&U3b&U3c&U3d). rewrite U3b, U3c.
  destruct (Z.ltb_spec MAX_PAYLOAD_SIZE (p_len (c_packet (ch_get r m)))) as [Hl|Hl].
  { cbn [Z.eqb]. rewrite wp_ret. by split; [|apply unsent_post]. }
  change (1 =? 0) with false. cbv iota.
  change (_ <| c_packet := seal _ _ |>) with (stamped (r_ms_ticks (m_radio m)) (ch_get r m)).
  pose proof (query_only_setting r_radio_active m1 m3 (fun _ => eq_refl) Q3) as E4.
  set (m4 := ch_set r (stamped _ _) _).
  assert (m_radio m4 = m_radio m3) as Er by (unfold m4; autorewrite with chan; done).
  apply wp_send_sealed; rewrite ?Er; try done; try congruence.
  - apply fw_ok_ch_set; [done| |by apply fw_ok_dev, fw_ok_sreg].
    pose proof (ch_get_ok r m Hr Hm) as Hok. apply with_packet_ok; [done|].
    apply seal_ok; [by apply ok_packet|by apply field_get, fw_radio|].
    apply ok_len. by apply ok_packet.
  - unfold m4. by rewrite ch_get_set by apply Hr.
  - apply lib_frame_ch_set. etrans; [exact U3d|apply lib_frame_sent].
Qed.
End send.

(** ** Reception *)

Section recv.
Context {D X : Type} `{Platform D} `{!AppInv X}.
Implicit Types (m : machine D X) (r : chanref X).

Definition irq_machine (flag : Z) m : machine D X :=
  let k := m_eimsk m in
  m <| m_eicra ::= fun e => Z.lor (Z.land e 252) 2 |>
    <| m_radio ::= fun l => l <| r_catch_irq := flag |> |>
    <| m_irq_fired := 0 |>
    <| m_eimsk := if flag =? 0 then Z.land k 254 else Z.lor k 1 |>.

Lemma wp_libradio_irq_enable flag Q m :
  wp (libradio_irq_enable flag) Q m = Q tt (irq_machine flag m).
Proof.
  unfold libradio_irq_enable, irq_machine. wp_simpl. upd_simpl.
  destruct (flag =? 0); wp_simpl; f_equal; by_machine m.
Qed.

Lemma fw_ok_irq_machine flag m : is_u8 flag -> fw_ok m -> fw_ok (irq_machine flag m).
Proof.
  intros Hf Hm.
  assert (fw_ok (m <| m_radio ::= fun l => l <| r_catch_irq := flag |> |>)) as [].
  { apply fw_ok_radio; [done|apply field_put; [by apply fw_radio|done]|]. by destruct (fw_periods _ Hm). }
  split; try done. unfold irq_machine. flags. case_match; in_range.
Qed.

(** What the caller of [libradio_recv] sees. *)
Definition rx_view r m : Z * Z * Z * Z * channel :=
  (r_npacket_rx (m_radio m), r_saw_rx (m_radio m), r_ms_ticks (m_radio m),
   r_state (m_radio m), ch_get r m).

Lemma query_rx_view r m m' : query_only m m' -> rx_view r m' = rx_view r m.
Proof.
  intros Q. unfold rx_view. rewrite (query_only_chan r m m' Q).
  rewrite (query_only_setting r_npacket_rx m m'), (query_only_setting r_saw_rx m m'),
    (query_only_setting r_ms_ticks m m'), (query_only_setting r_state m m'); done.
Qed.

Lemma irq_rx_view r flag m : rx_view r (irq_machine flag m) = rx_view r m.
Proof. unfold rx_view, irq_machine. by destruct r. Qed.

(** The last step: the radio is listening on the channel, or is made to. *)
Lemma wp_retune channo m (Q : unit -> machine D X -> Prop) :
  fw_ok m -> is_u8 channo ->
  (forall m', fw_ok m' -> query_only m m' -> r_curr_channel (m_radio m') = channo -> Q tt m') ->
  wp (st ← libradio_request_device_status;
      cc ← rget r_curr_channel;
      when (negb (st =? SI4463_STATE_RX) || negb (cc =? channo)) (libradio_set_rx channo)) Q m.
Proof.
  intros Hm Hc HQ.
  apply (keeps_step fw_ok query_only m); [auto with keeps|done|]. intros st m1 [Hm1 Q1].
  rewrite wp_bind, wp_rget, wp_when.
  destruct (negb (st =? SI4463_STATE_RX) || negb (r_curr_channel (m_radio m1) =? channo)) eqn:E.
  - eapply wp_mono; [by apply wp_set_rx|]. intros [] m2 [[Hm2 Q2] Hcc].
    apply HQ; [done|by transitivity m1|done].
  - apply HQ; [done..|]. apply orb_false_elim in E as [_ E]. lia.
Qed.

Lemma wp_retune_ret {A} (v : A) channo m Q :
  fw_ok m -> is_u8 channo ->
  (forall m', fw_ok m' -> query_only m m' -> r_curr_channel (m_radio m') = channo -> Q v m') ->
  wp (st ← libradio_request_device_status;
      cc ← rget r_curr_channel;
      when (negb (st =? SI4463_STATE_RX) || negb (cc =? channo)) (libradio_set_rx channo);;
      mret v) Q m.
Proof.
  intros Hm Hc HQ. pose proof (wp_retune channo m (fun _ m' => Q v m') Hm Hc HQ) as Hw.
  rewrite wp_bind in Hw. rewrite wp_bind. eapply wp_mono; [exact Hw|]. cbv beta. intros st m' Hst.
  rewrite wp_bind, wp_rget in Hst. rewrite wp_bind, wp_rget, wp_bind. eapply wp_mono; [exact Hst|].
  intros [] m'' HQ'. by rewrite wp_ret.
Qed.

(** What a reception promises its caller. *)
Record recv_post r channo m (v : Z) m' : Prop := {
  recv_result : v = 0 \/ v = 1;
  recv_channel : r_curr_channel (m_radio m') = channo;
  recv_count : r_npacket_rx (m_radio m') = u16 (r_npacket_rx (m_radio m) + v);
  recv_saw : r_saw_rx (m_radio m') = if v =? 1 then 1 else r_saw_rx (m_radio m);
  recv_state : r_state (m_radio m') = r_state (m_radio m);
  recv_meta : c_state (ch_get r m') = c_state (ch_get r m) /\
              c_priority (ch_get r m') = c_priority (ch_get r m);
  recv_good : v = 1 -> let q := c_packet (ch_get r m') in
                p_len q <= 10 /\ packet_csum q = 0;
  recv_time : r_ms_ticks (m_radio m') =
    if (v =? 1) && (p_cmd (c_packet (ch_get r m')) <? RADIO_STATUS_RESPONSE)
    then p_ticks (c_packet (ch_get r m')) else r_ms_ticks (m_radio m)
}.

(** The views that satisfy the promise. *)
Definition view_post (x y : Z * Z * Z * Z * channel) (v : Z) : Prop :=
  (v = 0 \/ v = 1) /\
  y.1.1.1.1 = u16 (x.1.1.1.1 + v) /\
  y.1.1.1.2 = (if v =? 1 then 1 else x.1.1.1.2) /\
  y.1.2 = x.1.2 /\
  c_state y.2 = c_state x.2 /\ c_priority y.2 = c_priority x.2 /\
  (v = 1 -> p_len (c_packet y.2) <= 10 /\ packet_csum (c_packet y.2) = 0) /\
  y.1.1.2 = if (v =? 1) && (p_cmd (c_packet y.2) <? RADIO_STATUS_RESPONSE)
            then p_ticks (c_packet y.2) else x.1.1.2.

Lemma view_recv_post r channo m v m' :
  view_post (rx_view r m) (rx_view r m') v -> r_curr_channel (m_radio m') = channo ->
  recv_post r channo m v m'.
Proof. intros (H1&H2&H3&H4&H5&H6&H7&H8) Hc. by split. Qed.

(** The branch of a packet in the FIFO. *)
Definition take_rx r : fw D X Z :=
  ret ← libradio_rxpacket r;
  (if ret =? 0 then libradio_get_fifo_info 2;; mret tt
   else
     n ← rget r_npacket_rx;
     rput r_npacket_rx (u16 (n + 1));;
     rput r_saw_rx 1);;
  c ← rget r_catch_irq;
  when (negb (c =? 0)) (libradio_irq_enable 1);;
  mret ret.

Lemma wp_irq_again ret r m0 m :
  fw_ok m -> view_post (rx_view r m0) (rx_view r m) ret ->
  wp (c ← rget r_catch_irq; when (negb (c =? 0)) (libradio_irq_enable 1);; mret ret)
    (fun v m' => fw_ok m' /\ view_post (rx_view r m0) (rx_view r m') v) m.
Proof.
  intros Hm Hv. rewrite wp_bind, wp_rget, wp_bind, wp_when.
  destruct (negb _); [rewrite wp_libradio_irq_enable|]; rewrite wp_ret; [|done].
  split; [by apply fw_ok_irq_machine|]. by rewrite irq_rx_view.
Qed.

Lemma rx_result_view r m m' :
  rx_result r m 0 m' -> fw_ok m -> view_post (rx_view r m) (rx_view r m') 0.
Proof.
  intros [Hv Hl [H1 H2] Hrad] Hm. cbv zeta in Hrad.
  destruct (packet_csum _ =? 0); [done|]. cbn [andb] in Hrad.
  unfold view_post, rx_view. cbn [fst snd]. rewrite Hrad. split_and!; try done; [by left|].
  rewrite Z.add_0_r, u16_small; [done|]. by apply field_get, fw_radio.
Qed.

(** A good packet, once it has been counted. *)
Definition counted m : machine D X :=
  m <| m_radio ::= fun l => l <| r_npacket_rx := u16 (r_npacket_rx l + 1) |> |>
    <| m_radio ::= fun l => l <| r_saw_rx := 1 |> |>.

Lemma rx_result_counted r m m' :
  rx_result r m 1 m' -> view_post (rx_view r m) (rx_view r (counted m')) 1.
Proof.
  intros [Hv Hl [H1 H2] Hrad]. cbv zeta in Hrad.
  destruct (Z.eqb_spec (packet_csum (c_packet (ch_get r m'))) 0) as [Es|]; [|done].
  cbn [andb] in Hrad.
  assert (ch_get r (counted m') = ch_get r m') as Ec by (unfold counted; by autorewrite with chan).
  unfold view_post, rx_view. cbn [fst snd]. rewrite Ec. unfold counted. upd_simpl.
  rewrite Hrad. cbn [Z.eqb Pos.eqb andb].
  destruct (p_cmd (c_packet (ch_get r m')) <? RADIO_STATUS_RESPONSE); split_and!; try done;
    by right.
Qed.

Lemma fw_ok_counted m : fw_ok m -> fw_ok (counted m).
Proof.
  intros Hm.
  assert (fw_ok (m <| m_radio ::= fun l => l <| r_npacket_rx := u16 (r_npacket_rx l + 1) |> |>)).
  { apply fw_ok_radio; [done|apply field_put; [by apply fw_radio|apply u16_range]|].
    by destruct (fw_periods _ Hm). }
  apply fw_ok_radio; [done|apply field_put; [by apply fw_radio|done]|].
  by destruct (fw_periods _ Hm).
Qed.

Lemma wp_take_rx r m :
  fw_ok m -> ref_ok r ->
  wp (take_rx r) (fun v m' => fw_ok m' /\ view_post (rx_view r m) (rx_view r m') v) m.
Proof.
  intros Hm Hr. unfold take_rx. rewrite wp_bind.
  eapply wp_mono; [by apply rxpacket_total|]. intros v m1 [Hm1 Hres].
  assert (v = 0 \/ v = 1) as [-> | ->].
  { rewrite (rx_value _ _ _ _ Hres). unfold c_bool. case_match; auto. }
  - cbn [Z.eqb]. apply (rx_result_view r m m1) in Hres as Hview; [|done]. rewrite wp_bind.
    apply (keeps_step fw_ok query_only m1); [auto with keeps|done|]. intros _ m2 [Hm2 Q2].
    rewrite wp_ret. apply wp_irq_again; [done|]. by rewrite (query_rx_view r m1 m2).
  - cbn [Z.eqb Pos.eqb]. rewrite wp_bind, wp_bind, wp_rget, wp_bind, !wp_rput.
    apply (wp_irq_again 1 r m (counted m1)); [by apply fw_ok_counted|].
    by apply rx_result_counted.
Qed.

Lemma wp_libradio_recv r channo m :
  fw_ok m -> ref_ok r -> is_u8 channo ->
  wp (libradio_recv r channo) (fun v m' => fw_ok m' /\ recv_post r channo m v m') m.
Proof.
  intros Hm Hr Hc. unfold libradio_recv. fold (take_rx r).
  apply (keeps_step fw_ok query_only m); [auto with keeps|done|]. intros some m1 [Hm1 Q1].
  pose proof (query_rx_view r m m1 Q1) as Hview1.
  rewrite wp_bind.
  assert (wp (if negb (some =? 0) then take_rx r else mret 0)
    (fun v m' => fw_ok m' /\ view_post (rx_view r m) (rx_view r m') v) m1) as Htake.
  { destruct (negb _).
    - rewrite <- Hview1. by apply wp_take_rx.
    - rewrite wp_ret. split; [done|]. rewrite Hview1. unfold view_post, rx_view. cbn [fst snd].
      split_and!; try done; [by left|]. rewrite Z.add_0_r, u16_small; [done|].
      by apply field_get, fw_radio. }
  eapply wp_mono; [exact Htake|]. intros v m2 [Hm2 Hv].
  apply wp_retune_ret; [done..|]. intros m3 Hm3 Q3 Hcc. split; [done|].
  apply view_recv_post; [|done]. by rewrite (query_rx_view r m2 m3).
Qed.
End recv.

Section rxtx_invariant.
Context {D X : Type} `{Platform D} `{App D X, !AppInv X}.

Lemma preserves_libradio_recv r c :
  ref_ok r -> is_u8 c -> preserves fw_ok (libradio_recv r c : fw D X Z).
Proof.
  intros Hr Hc. apply preserves_wp. intros m Hm.
  eapply wp_mono; [by apply wp_libradio_recv|]. by intros v m' [? _].
Qed.

Lemma preserves_libradio_send r c :
  ref_ok r -> is_u8 c -> preserves fw_ok (libradio_send r c : fw D X Z).
Proof.
  intros Hr Hc. apply preserves_wp. intros m Hm.
  eapply wp_mono; [by apply wp_libradio_send|]. by intros v m' [? _].
Qed.

Lemma wp_libradio_recv_start m :
  fw_ok m -> wp libradio_recv_start (fun v m' => fw_ok m' /\ lib_frame m m' /\
    if v =? 1 then r_radio_active (m_radio m') <> 0 /\ r_catch_irq (m_radio m') = 1 /\
                   r_curr_channel (m_radio m') = r_my_channel (m_radio m)
    else v = 0 /\ r_state (m_radio m') = LIBRADIO_STATE_ERROR) m.
Proof.
  intros Hm. unfold libradio_recv_start. rewrite wp_bind.
  eapply wp_mono; [by apply wp_not_powered|]. intros failed m1 (Hm1&Hf&Hp).
  destruct failed.
  - rewrite wp_ret. cbn [Z.eqb]. split_and!; [done..|].
    change (r_state (settings (m_radio m1)) = LIBRADIO_STATE_ERROR).
    rewrite (proj2 Hp). apply state_set_state.
  - wp_simpl. upd_simpl.
    set (m2 := m1 <| m_radio ::= fun l => l <| r_catch_irq := 1 |> |>).
    assert (fw_ok m2) as Hm2.
    { apply fw_ok_radio; [done|apply field_put; [by apply fw_radio|done]|].
      by destruct (fw_periods _ Hm1). }
    eapply wp_mono; [apply (wp_set_rx _ m2); [by apply field_get, fw_radio|done]|].
    intros _ m3 [[Hm3 Q3] Hc]. rewrite ?wp_ret. cbv beta.
    change (1 =? 1) with true. cbv iota. split_and!.
    + done.
    + transitivity m2; [transitivity m1; [done|apply put_radio_lib_frame]|].
      by apply query_lib_frame.
    + rewrite (query_only_setting r_radio_active m2 m3) by done. apply Hp.
    + by rewrite (query_only_setting r_catch_irq m2 m3) by done.
    + rewrite Hc. change (r_my_channel (m_radio m1)) with (r_my_channel (settings (m_radio m1))).
      by rewrite (proj2 Hp).
Qed.

(** What starting the receiver does to the settings. *)
Lemma wp_recv_start_settings m :
  fw_ok m -> wp libradio_recv_start (fun _ m' => fw_ok m' /\ m_app m' = m_app m /\
    (settings (m_radio m') = state_set LIBRADIO_STATE_ERROR (settings (m_radio m)) \/
     exists v, settings (m_radio m') =
       (settings (m_radio m)) <| r_radio_active := v |> <| r_catch_irq := 1 |>)) m.
Proof.
  intros Hm. unfold libradio_recv_start. rewrite wp_bind.
  eapply wp_mono; [by apply wp_not_powered|]. intros failed m1 [Hm1 [Hf Hp] ].
  pose proof (lib_frame_app _ _ Hf) as Ha.
  destruct failed; destruct Hp as [Hv Hp]; [rewrite wp_ret; split_and!; auto|]. wp_simpl. upd_simpl.
  set (m2 := m1 <| m_radio ::= fun l => l <| r_catch_irq := 1 |> |>).
  assert (fw_ok m2) as Hm2.
  { apply fw_ok_radio; [done|apply field_put; [by apply fw_radio|done]|].
    by destruct (fw_periods _ Hm1). }
  eapply wp_mono; [apply (wp_set_rx _ m2); [by apply field_get, fw_radio|done]|].
  intros ? m3 [ [Hm3 Q3] _]. rewrite ?wp_ret. split_and!; [done| |right].
  - by rewrite (lib_frame_app m2 m3) by by apply query_lib_frame.
  - exists (r_radio_active (m_radio m1)). rewrite (proj1 Q3).
    exact (f_equal (fun l => l <| r_catch_irq := 1 |>) Hp).
Qed.

Lemma preserves_libradio_recv_start : preserves fw_ok (libradio_recv_start : fw D X Z).
Proof.
  apply preserves_wp. intros m Hm.
  eapply wp_mono; [by apply wp_libradio_recv_start|]. by intros v m' [? _].
Qed.
End rxtx_invariant.

#[export] Hint Resolve preserves_libradio_recv preserves_libradio_send
  preserves_libradio_recv_start : preserves.

(** ** Properties *)

Section properties.
Context {D X : Type} `{Platform D} `{App D X, !AppInv X}.
Implicit Types (m : machine D X) (r : chanref X).

(** [C29] Transmitting always ends, keeps the invariant and returns 0 or 1. It
    returns 1 only when the radio is powered, the length is at most 10 and the
    packet in the channel has been stamped with the clock and sealed; the packet
    counter goes up by the value returned; the clock, the channel's state and
    priority and the rest of the packet are those the caller left there. Nothing
    but the library's own objects and this channel changes: no other channel, not
    the application's objects, not the interrupts still to come. *)
Theorem send_outcome r channo m :
  fw_ok m -> ref_ok r -> is_u8 channo ->
  wp (libradio_send r channo) (fun v m' => fw_ok m' /\ send_post r m v m') m.
Proof. apply wp_libradio_send. Qed.

(** [C30] Receiving always ends, keeps the invariant and returns 0 or 1, with the
    radio tuned to the channel asked for. With 1 the channel holds a packet of
    length at most 10 with a good checksum, the packet counter has gone up and
    the traffic flag is set; with 0 neither changes. The clock is taken from the
    packet exactly when it is a good one from the controller, and the channel's
    own state and priority and the library's state do not change. *)
Theorem recv_outcome r channo m :
  fw_ok m -> ref_ok r -> is_u8 channo ->
  wp (libradio_recv r channo) (fun v m' => fw_ok m' /\ recv_post r channo m v m') m.
Proof. apply wp_libradio_recv. Qed.

(** Starting the receiver powers the radio up if need be; it returns 1 with
    the radio active, its interrupt wanted and the radio on the library's own
    channel, or 0 with the library in the ERROR state. *)
Theorem recv_start_outcome m :
  fw_ok m -> wp libradio_recv_start (fun v m' => fw_ok m' /\ lib_frame m m' /\
    if v =? 1 then r_radio_active (m_radio m') <> 0 /\ r_catch_irq (m_radio m') = 1 /\
                   r_curr_channel (m_radio m') = r_my_channel (m_radio m)
    else v = 0 /\ r_state (m_radio m') = LIBRADIO_STATE_ERROR) m.
Proof. apply wp_libradio_recv_start. Qed.
End properties.

(** ** Instances of the properties *)

#[local] Existing Instance bench_app.
#[local] Existing Instance bench_inv.

Definition bench_ok : machine (list Z) unit := bench_machine (replicate 200 255) [].

Lemma bench_ok_ok : fw_ok bench_ok.
Proof. by apply bench_machine_ok. Qed.

Lemma txchan_ok : ref_ok (@TxChan unit).
Proof. done. Qed.
Lemma rxchan_ok : ref_ok (@RxChan unit).
Proof. done. Qed.

Lemma send_outcome_witness :
  wp (libradio_send TxChan 3)
    (fun v m' => fw_ok m' /\ send_post TxChan bench_ok v m') bench_ok.
Proof. apply (send_outcome TxChan 3 bench_ok bench_ok_ok txchan_ok). done. Defined.

Lemma recv_outcome_witness :
  wp (libradio_recv RxChan 2)
    (fun v m' => fw_ok m' /\ recv_post RxChan 2 bench_ok v m') bench_ok.
Proof. apply (recv_outcome RxChan 2 bench_ok bench_ok_ok rxchan_ok). done. Defined.

Lemma recv_start_outcome_witness :
  wp libradio_recv_start (fun v m' => fw_ok m' /\ lib_frame bench_ok m' /\
    if v =? 1 then r_radio_active (m_radio m') <> 0 /\ r_catch_irq (m_radio m') = 1 /\
                   r_curr_channel (m_radio m') = r_my_channel (m_radio bench_ok)
    else v = 0 /\ r_state (m_radio m') = LIBRADIO_STATE_ERROR) bench_ok.
Proof. exact (recv_start_outcome bench_ok bench_ok_ok). Defined.
