(* ===== verification/Command.v ===== *)
(** handle.c and command.c: the packets received from the radio, the commands
    they carry and the responses. *)

From S2P Require Import Machine Clock State Spi Invariant Si4463 Wait Rxtx.

Definition MAX_RESPONSE_SIZE : Z := 16.

Section command.
Context {D X : Type} `{Platform D} `{App D X} `{Patience}.

Definition txchan_put {T} (f : channel -> T) `{!Setter f} (v : T) : fw D X unit :=
  modify (fun m => m <| m_txchan ::= fun c => c <| f := v |> |>).

Definition txpacket_put {T} (f : packet -> T) `{!Setter f} (v : T) : fw D X unit :=
  modify (fun m => m <| m_txchan ::= fun c => c <| c_packet ::= fun p => p <| f := v |> |> |>).

(** [while (libradio_request_device_status() == SI4463_STATE_TX) ;], followed
    for [n] passes. *)
Fixpoint tx_wait (n : nat) : fw D X unit :=
  match n with
  | O => wait_more
  | S n' =>
      st ← libradio_request_device_status;
      if st =? SI4463_STATE_TX then tx_wait n' else mret tt
  end.

(** [chp->packet.data\[i\] = buffer\[i\]] *)
Definition copy_byte (buffer : list Z) (i : Z) : fw D X unit :=
  b ← array_get buffer i;
  c ← gets m_txchan;
  d ← array_put (p_data (c_packet c)) i b;
  txpacket_put p_data d.

Definition libradio_send_response (cmd chan addr len : Z) (buffer : list Z) : fw D X unit :=
  txchan_put c_state LIBRADIO_CHSTATE_TRANSMIT;;
  txchan_put c_priority 10;;
  txpacket_put p_node addr;;
  txpacket_put p_len len;;
  txpacket_put p_cmd cmd;;
  let len := if MAX_PAYLOAD_SIZE <? len then MAX_PAYLOAD_SIZE else len in
  for_loop (Z.to_nat len) 0 (copy_byte buffer);;
  ok ← libradio_send TxChan chan;
  when (negb (ok =? 0)) (
    txchan_put c_state LIBRADIO_CHSTATE_EMPTY;;
    txchan_put c_priority 0);;
  tx_wait patience;;
  libradio_recv_start;;
  mret tt.

Definition data_get (pp : packet) (i : Z) : fw D X Z := array_get (p_data pp) i.

(** The arms of the switch. *)
Definition command_status (pp : packet) : fw D X unit :=
  if negb (p_len pp =? 3) then mret tt
  else
    rchan ← data_get pp 0;
    addr ← data_get pp 1;
    i ← data_get pp 2;
    buf ← gets m_statusbuffer;
    r ← fetch_status i buf MAX_RESPONSE_SIZE;
    mput m_statusbuffer r.2;;
    when (0 <? r.1) (
      print (str "Sending status of " ++ fmt_d r.1 ++ str " to " ++ fmt_d rchan ++ [10]);;
      buf ← gets m_statusbuffer;
      libradio_send_response RADIO_STATUS_RESPONSE rchan addr (u8 r.1) buf).

Definition command_activate (pp : packet) : fw D X unit :=
  if negb (p_len pp =? 6) then mret tt
  else
    d2 ← data_get pp 2; d3 ← data_get pp 3; d4 ← data_get pp 4; d5 ← data_get pp 5;
    print (str ">> Activate! " ++ fmt_d d2 ++ str "/" ++ fmt_d d3 ++ str "/" ++ fmt_d d4
             ++ str "/" ++ fmt_d d5 ++ [10]);;
    c1 ← rget r_cat1; c2 ← rget r_cat2; n1 ← rget r_num1; n2 ← rget r_num2;
    print (str ">> ME: " ++ fmt_d c1 ++ str "/" ++ fmt_d c2 ++ str "/" ++ fmt_d n1
             ++ str "/" ++ fmt_d n2 ++ [10]);;
    if negb (d2 =? c1) || negb (d3 =? c2) || negb (d4 =? n1) || negb (d5 =? n2) then mret tt
    else
      d0 ← data_get pp 0; rput r_my_channel d0;;
      d1 ← data_get pp 1; rput r_my_node_id d1;;
      c ← rget r_my_channel; n ← rget r_my_node_id;
      print (str "ACTVD! [C" ++ fmt_d c ++ str "N" ++ fmt_d n ++ str "]" ++ [10]);;
      libradio_set_state LIBRADIO_STATE_ACTIVE.

Definition command_deactivate (pp : packet) : fw D X unit :=
  if negb (p_len pp =? 0) then mret tt
  else
    print (str ">> DeACTVD" ++ [10]);;
    rput r_my_node_id 0;;
    rput r_my_channel 0;;
    libradio_set_state LIBRADIO_STATE_WARM.

Definition command_set_time (pp : packet) : fw D X unit :=
  if negb (p_len pp =? 1) then mret tt
  else
    d0 ← data_get pp 0;
    rput r_tens_of_minutes d0;;
    t ← rget r_tens_of_minutes;
    print (str ">> Set Time: " ++ fmt_u t ++ [10]).

Definition command_set_date (pp : packet) : fw D X unit :=
  if negb (p_len pp =? 2) then mret tt
  else
    d0 ← data_get pp 0; d1 ← data_get pp 1;
    rput r_date (u16 (Z.lor (Z.shiftl d0 8) d1));;
    d ← rget r_date;
    print (str ">> Set Date: " ++ fmt_u d ++ [10]).

(** [statusbuffer\[i\] = eeprom_read_byte(addr + i)] *)
Definition read_eeprom_byte (addr i : Z) : fw D X unit :=
  d ← gets m_dev;
  l ← gets m_statusbuffer;
  l' ← array_put l i (u8 (eeprom_read_byte (u16 (addr + i)) d));
  mput m_statusbuffer l'.

Definition command_read_eeprom (pp : packet) : fw D X unit :=
  if negb (p_len pp =? 4) then mret tt
  else
    print (str ">> Read EEPROM" ++ [10]);;
    rchan ← data_get pp 0;
    len ← data_get pp 1;
    d2 ← data_get pp 2; d3 ← data_get pp 3;
    let addr := i16 (Z.lor (Z.shiftl d2 8) d3) in
    print (str "RChan " ++ fmt_d rchan ++ str ", len:" ++ fmt_d len ++ str ", addr:"
             ++ fmt_d addr ++ [10]);;
    for_loop (Z.to_nat len) 0 (read_eeprom_byte addr);;
    buf ← gets m_statusbuffer;
    libradio_send_response RADIO_EEPROM_RESPONSE rchan (u8 (addr + len)) len buf.

(** [eeprom_write_byte(addr + i, pp->data\[i + 3\])] *)
Definition write_eeprom_byte (pp : packet) (addr i : Z) : fw D X unit :=
  b ← data_get pp (i + 3);
  modify (fun m => m <| m_dev ::= eeprom_write_byte (u16 (addr + i)) b |>).

Definition command_write_eeprom (pp : packet) : fw D X unit :=
  if (p_len pp <? 3) || (22 <? p_len pp) then mret tt
  else
    print (str ">> Write EEPROM (" ++ fmt_d (p_len pp - 2) ++ str "b)" ++ [10]);;
    d0 ← data_get pp 0; d1 ← data_get pp 1;
    let addr := i16 (Z.lor (Z.shiftl d0 8) d1) in
    print (str "Addr: " ++ fmt_d addr ++ [10]);;
    for_loop (Z.to_nat (p_len pp - 2)) 0 (write_eeprom_byte pp addr).

Definition libradio_command (pp : packet) : fw D X unit :=
  st ← rget r_state;
  if negb (p_cmd pp =? RADIO_CMD_ACTIVATE) && (st <? LIBRADIO_STATE_ACTIVE) then mret tt
  else if (p_cmd pp =? RADIO_CMD_NOOP) || (p_cmd pp =? RADIO_STATUS_RESPONSE)
            || (p_cmd pp =? RADIO_EEPROM_RESPONSE) then mret tt
  else if p_cmd pp =? RADIO_CMD_FIRMWARE then mret tt
  else if p_cmd pp =? RADIO_CMD_STATUS then command_status pp
  else if p_cmd pp =? RADIO_CMD_ACTIVATE then command_activate pp
  else if p_cmd pp =? RADIO_CMD_DEACTIVATE then command_deactivate pp
  else if p_cmd pp =? RADIO_CMD_SET_TIME then command_set_time pp
  else if p_cmd pp =? RADIO_CMD_SET_DATE then command_set_date pp
  else if p_cmd pp =? RADIO_CMD_READ_EEPROM then command_read_eeprom pp
  else if p_cmd pp =? RADIO_CMD_WRITE_EEPROM then command_write_eeprom pp
  else operate pp.

(** handle.c *)

Definition libradio_handle_packet : fw D X unit :=
  ch ← rget r_my_channel;
  got ← libradio_recv RxChan ch;
  when (negb (got =? 0)) (
    c ← gets m_rxchan;
    node ← rget r_my_node_id;
    when ((p_node (c_packet c) =? 0) || (p_node (c_packet c) =? node))
      (libradio_command (c_packet c))).
End command.

(** ** What the application promises *)

Class AppLaws (D X : Type) `{App D X, AppInv X} := {
  operate_ok p : packet_ok p -> preserves fw_ok (operate p : fw D X unit);
  fetch_ok i buf (m : machine D X) :
    is_u8 i -> bytes buf -> length buf = 16%nat -> fw_ok m ->
    safe (fetch_status i buf MAX_RESPONSE_SIZE) (fun r m' =>
      fw_ok m' /\ r.1 <= 16 /\ length r.2 = 16%nat /\ bytes r.2) m
}.

(** ** Safety *)

(** The two commands whose handling leaves an array (see the findings). *)
Definition overruns (p : packet) : bool :=
  (p_cmd p =? RADIO_CMD_READ_EEPROM) && (p_len p =? 4) && (16 <? p_data p !!! 1%nat) ||
  (p_cmd p =? RADIO_CMD_WRITE_EEPROM) && (10 <=? p_len p) && (p_len p <=? 22).

Section safety.
Context {D X : Type} `{Platform D} `{PowerLaws D X, !AppLaws D X} `{Patience}.
Implicit Types m : machine D X.

Lemma preserves_tx_wait n : preserves fw_ok (tx_wait n : fw D X unit).
Proof.
  induction n as [|n IH]; cbn [tx_wait]; [by intros m Hm|].
  apply preserves_bind; [eapply preserves_keeps, query_request_device_status|].
  intros st. apply preserves_if; [done|apply preserves_ret].
Qed.

Lemma fw_ok_txchan g m : fw_ok m -> channel_ok (g (m_txchan m)) -> fw_ok (m <| m_txchan ::= g |>).
Proof. intros [] ?. by split. Qed.

Lemma preserves_txchan_state v : is_u8 v -> preserves fw_ok (txchan_put c_state v : fw D X unit).
Proof. intros Hv m Hm. apply fw_ok_txchan; [done|]. destruct (fw_txchan m Hm). by split. Qed.

Lemma preserves_txchan_priority v :
  is_u8 v -> preserves fw_ok (txchan_put c_priority v : fw D X unit).
Proof. intros Hv m Hm. apply fw_ok_txchan; [done|]. destruct (fw_txchan m Hm). by split. Qed.

Lemma preserves_txpacket (g : packet -> packet) :
  (forall p, packet_ok p -> packet_ok (g p)) ->
  preserves fw_ok (modify (fun m => m <| m_txchan ::= fun c => c <| c_packet ::= g |> |>)
                     : fw D X unit).
Proof.
  intros Hg m Hm. apply fw_ok_txchan; [done|]. destruct (fw_txchan m Hm) as [? ? Hp].
  split; upd_simpl; auto.
Qed.

Lemma preserves_copy_byte buf i :
  0 <= i < 10 -> bytes buf -> length buf = 16%nat ->
  preserves fw_ok (copy_byte buf i : fw D X unit).
Proof.
  intros Hi Hb Hl m Hm. apply safe_wp. unfold copy_byte.
  destruct (lookup_lt_is_Some_2 buf (Z.to_nat i)) as [b Hbi]; [lia|].
  pose proof (ok_packet _ (fw_txchan m Hm)) as Hp.
  rewrite wp_bind, (wp_array_get _ _ b) by (done || lia). rewrite wp_bind, wp_gets, wp_bind.
  rewrite wp_array_put by (rewrite (ok_size _ Hp); lia).
  apply fw_ok_txchan; [done|]. destruct (fw_txchan m Hm) as [? ? [] ].
  split; [done..|]. split; upd_simpl; try done.
  - apply Forall_insert; [done|]. exact (Forall_lookup_1 is_u8 buf _ b Hb Hbi).
  - by rewrite length_insert.
Qed.

Lemma preserves_send_response cmd chan addr len buf :
  is_u8 cmd -> is_u8 chan -> is_u8 addr -> is_u8 len -> bytes buf -> length buf = 16%nat ->
  preserves fw_ok (libradio_send_response cmd chan addr len buf : fw D X unit).
Proof.
  intros Hcmd Hch Ha Hl Hb Hlen. unfold libradio_send_response.
  apply preserves_bind; [by apply preserves_txchan_state|intros _].
  apply preserves_bind; [by apply preserves_txchan_priority|intros _].
  do 3 (apply preserves_bind; [apply preserves_txpacket; intros ? []; by split|intros _]).
  apply preserves_bind.
  { apply preserves_for_loop. intros i Hi. apply preserves_copy_byte; [|done..].
    unfold is_u8 in Hl. rewrite max_payload in Hi. destruct (Z.ltb_spec 10 len); lia. }
  intros _. apply preserves_bind; [by apply preserves_libradio_send|]. intros ok.
  apply preserves_bind.
  { apply preserves_when. apply preserves_bind; [by apply preserves_txchan_state|].
    intros _. by apply preserves_txchan_priority. }
  intros _. apply preserves_bind; [apply preserves_tx_wait|]. intros _.
  apply preserves_bind; [apply preserves_libradio_recv_start|]. intros _. apply preserves_ret.
Qed.

(** A byte of the payload. *)
Lemma wp_data_get pp i (Q : Z -> machine D X -> Prop) m :
  packet_ok pp -> 0 <= i < 10 -> wp (data_get pp i) Q m = Q (p_data pp !!! Z.to_nat i) m.
Proof.
  intros Hp Hi. unfold data_get. apply wp_array_get; [lia|].
  apply list_lookup_lookup_total_lt. rewrite (ok_size _ Hp). lia.
Qed.

Lemma data_u8 pp i : packet_ok pp -> (i < 10)%nat -> is_u8 (p_data pp !!! i).
Proof.
  intros Hp Hi. eapply Forall_lookup_1; [apply (ok_data _ Hp)|].
  apply list_lookup_lookup_total_lt. by rewrite (ok_size _ Hp).
Qed.

Lemma preserves_data_get {B} pp i (k : Z -> fw D X B) :
  packet_ok pp -> 0 <= i < 10 ->
  (is_u8 (p_data pp !!! Z.to_nat i) -> preserves fw_ok (k (p_data pp !!! Z.to_nat i))) ->
  preserves fw_ok (v ← data_get pp i; k v).
Proof.
  intros Hp Hi Hk m Hm. rewrite safe_bind. apply safe_wp. rewrite wp_data_get by done.
  apply Hk; [|done]. apply data_u8; [done|lia].
Qed.

(** Continues with what is known of the status buffer. *)
Lemma preserves_statusbuffer {B} (k : list Z -> fw D X B) :
  (forall l, length l = 16%nat -> bytes l -> preserves fw_ok (k l)) ->
  preserves fw_ok (l ← gets m_statusbuffer; k l).
Proof.
  intros Hk m Hm. rewrite safe_bind. apply safe_wp. rewrite wp_gets.
  apply Hk; [apply (fw_status m Hm)..|done].
Qed.

Lemma preserves_put_statusbuffer l :
  length l = 16%nat -> bytes l -> preserves fw_ok (mput m_statusbuffer l : fw D X unit).
Proof. intros Hl Hb m []. by split. Qed.

Lemma preserves_command_status pp : packet_ok pp -> preserves fw_ok (command_status pp : fw D X unit).
Proof.
  intros Hp. unfold command_status. apply preserves_if; [apply preserves_ret|].
  apply preserves_data_get; [done|lia|intros Hr].
  apply preserves_data_get; [done|lia|intros Ha].
  apply preserves_data_get; [done|lia|intros Hi].
  apply preserves_statusbuffer. intros buf Hbl Hb.
  apply (preserves_bind_val _ (fun r : Z * list Z =>
           r.1 <= 16 /\ length r.2 = 16%nat /\ bytes r.2)).
  { intros m Hm. eapply safe_mono; [by apply fetch_ok|]. by intros r m' (?&?&?&?). }
  intros r (Hr1&Hr2&Hr3).
  apply preserves_bind; [by apply preserves_put_statusbuffer|intros _].
  apply preserves_when. apply preserves_bind; [apply preserves_print|intros _].
  apply preserves_statusbuffer. intros buf' Hbl' Hb'.
  apply preserves_send_response; try done; apply u8_range.
Qed.

Lemma preserves_command_activate pp :
  packet_ok pp -> preserves fw_ok (command_activate pp : fw D X unit).
Proof.
  intros Hp. unfold command_activate. apply preserves_if; [apply preserves_ret|].
  do 4 (apply preserves_data_get; [done|lia|intros ?]).
  apply preserves_bind; [apply preserves_print|intros _].
  do 4 (apply preserves_bind; [apply preserves_rget|intros ?]).
  apply preserves_bind; [apply preserves_print|intros _].
  apply preserves_if; [apply preserves_ret|].
  apply preserves_data_get; [done|lia|intros ?].
  apply preserves_bind; [auto with preserves|intros _].
  apply preserves_data_get; [done|lia|intros ?].
  preserve. by apply preserves_libradio_set_state.
Qed.

Lemma preserves_command_read_eeprom pp :
  packet_ok pp -> (p_len pp = 4 -> p_data pp !!! 1%nat <= 16) ->
  preserves fw_ok (command_read_eeprom pp : fw D X unit).
Proof.
  intros Hp Hfit. unfold command_read_eeprom.
  destruct (Z.eqb_spec (p_len pp) 4) as [Hl|]; cbn [negb]; [|apply preserves_ret].
  specialize (Hfit Hl).
  apply preserves_bind; [apply preserves_print|intros _].
  do 4 (apply preserves_data_get; [done|lia|intros ?]).
  apply preserves_bind; [apply preserves_print|intros _].
  apply preserves_bind.
  { apply preserves_for_loop. intros i Hi. unfold read_eeprom_byte.
    change (Z.to_nat 1) with 1%nat in Hi.
    apply preserves_bind; [apply preserves_gets|intros d].
    apply preserves_statusbuffer. intros buf Hbl Hb m Hm.
    rewrite safe_bind. apply safe_wp. rewrite wp_array_put by lia.
    apply preserves_put_statusbuffer; [by rewrite length_insert| |done].
    apply Forall_insert; [done|apply u8_range]. }
  intros _. apply preserves_statusbuffer. intros buf Hbl Hb.
  apply preserves_send_response; try done; apply u8_range.
Qed.

Lemma preserves_command_write_eeprom pp :
  packet_ok pp -> (10 <= p_len pp -> 22 < p_len pp) ->
  preserves fw_ok (command_write_eeprom pp : fw D X unit).
Proof.
  intros Hp Hfit. unfold command_write_eeprom.
  destruct ((p_len pp <? 3) || (22 <? p_len pp)) eqn:E; [apply preserves_ret|].
  apply orb_false_elim in E as [E1 E2].
  apply preserves_bind; [apply preserves_print|intros _].
  do 2 (apply preserves_data_get; [done|lia|intros ?]).
  apply preserves_bind; [apply preserves_print|intros _].
  apply preserves_for_loop. intros i Hi. unfold write_eeprom_byte.
  apply preserves_data_get; [done|lia|intros ?]. intros m []. by split.
Qed.

Lemma preserves_libradio_command pp :
  packet_ok pp -> overruns pp = false -> preserves fw_ok (libradio_command pp : fw D X unit).
Proof.
  intros Hp Hfit. unfold overruns in Hfit. apply orb_false_elim in Hfit as [Hfr Hfw].
  unfold libradio_command. apply preserves_bind; [apply preserves_rget|intros st].
  do 3 (apply preserves_if; [apply preserves_ret|]).
  apply preserves_if; [by apply preserves_command_status|].
  apply preserves_if; [by apply preserves_command_activate|].
  apply preserves_if.
  { unfold command_deactivate. preserve. by apply preserves_libradio_set_state. }
  apply preserves_if.
  { unfold command_set_time. apply preserves_if; [apply preserves_ret|].
    apply preserves_data_get; [done|lia|intros ?]. preserve. }
  apply preserves_if.
  { unfold command_set_date. apply preserves_if; [apply preserves_ret|].
    do 2 (apply preserves_data_get; [done|lia|intros ?]). preserve. }
  destruct (p_cmd pp =? RADIO_CMD_READ_EEPROM).
  { apply preserves_command_read_eeprom; [done|]. intros Hl. rewrite Hl in Hfr. cbn in Hfr. lia. }
  destruct (p_cmd pp =? RADIO_CMD_WRITE_EEPROM).
  { apply preserves_command_write_eeprom; [done|]. intros Hl. cbn [andb] in Hfw.
    apply andb_false_iff in Hfw as [?|?]; lia. }
  by apply operate_ok.
Qed.

(** The packet that [libradio_handle_packet] would receive from [m] is for this
    node and overruns an array. *)
Definition overrun_received m : Prop :=
  exists m',
    libradio_recv RxChan (r_my_channel (m_radio m)) m = Done 1 m' /\
    overruns (c_packet (m_rxchan m')) = true /\
    (p_node (c_packet (m_rxchan m')) = 0 \/
     p_node (c_packet (m_rxchan m')) = r_my_node_id (m_radio m')).

Lemma handle_packet_cases m :
  fw_ok m -> safe libradio_handle_packet (fun _ m' => fw_ok m') m \/ overrun_received m.
Proof.
  intros Hm. unfold libradio_handle_packet, rget, safe. rewrite run_gets.
  assert (is_u8 (r_my_channel (m_radio m))) as Hch by by apply field_get, fw_radio.
  destruct (proj1 (wp_done _ _ _) (wp_libradio_recv RxChan _ m Hm ltac:(done) Hch))
    as (v&m'&Hr&Hm'&Hpost).
  rewrite (bind_done _ _ _ _ _ Hr).
  destruct (recv_result _ _ _ _ _ Hpost) as [-> | ->]; [by left|].
  change (negb (1 =? 0)) with true. cbn [when]. rewrite run_gets, run_gets.
  destruct ((p_node (c_packet (m_rxchan m')) =? 0) ||
            (p_node (c_packet (m_rxchan m')) =? r_my_node_id (m_radio m'))) eqn:En;
    cbn [when]; [|by left].
  destruct (overruns (c_packet (m_rxchan m'))) eqn:Eo.
  - right. exists m'. split_and!; [done..|].
    apply orb_true_iff in En as [En|En]; [left|right]; lia.
  - left. apply preserves_libradio_command; [|done..].
    by apply ok_packet, fw_rxchan.
Qed.
End safety.

(** ** What the commands do *)

(** The record after one of the commands that only concern it. *)
Definition command_record (p : packet) (l : libradio) : libradio :=
  let d i := p_data p !!! i in
  if p_cmd p =? RADIO_CMD_ACTIVATE then
    if (p_len p =? 6) && (d 2%nat =? r_cat1 l) && (d 3%nat =? r_cat2 l) &&
       (d 4%nat =? r_num1 l) && (d 5%nat =? r_num2 l)
    then state_set LIBRADIO_STATE_ACTIVE
           (l <| r_my_channel := d 0%nat |> <| r_my_node_id := d 1%nat |>)
    else l
  else if r_state l <? LIBRADIO_STATE_ACTIVE then l
  else if (p_cmd p =? RADIO_CMD_DEACTIVATE) && (p_len p =? 0) then
    state_set LIBRADIO_STATE_WARM (l <| r_my_node_id := 0 |> <| r_my_channel := 0 |>)
  else if (p_cmd p =? RADIO_CMD_SET_TIME) && (p_len p =? 1) then
    l <| r_tens_of_minutes := d 0%nat |>
  else if (p_cmd p =? RADIO_CMD_SET_DATE) && (p_len p =? 2) then
    l <| r_date := d 0%nat * 256 + d 1%nat |>
  else l.

(** The commands of the library that neither answer nor touch the EEPROM. *)
Definition record_command (c : Z) : bool :=
  bool_decide (c ∈ [RADIO_CMD_NOOP; RADIO_CMD_FIRMWARE; RADIO_CMD_ACTIVATE;
    RADIO_CMD_DEACTIVATE; RADIO_CMD_SET_TIME; RADIO_CMD_SET_DATE;
    RADIO_STATUS_RESPONSE; RADIO_EEPROM_RESPONSE]).

Section effects.
Context {D X : Type} `{Platform D} `{StockPower D X, !AppInv X} `{Patience}.
Implicit Types m : machine D X.

(** The wp of a change of state, for the record. *)
Lemma wp_state_set_record s m :
  is_u8 s -> fw_ok m ->
  wp (libradio_set_state s) (fun _ m' =>
    m_radio m' = state_set s (m_radio m) /\ lib_frame m m') m.
Proof.
  intros Hs Hm. eapply wp_mono; [by apply wp_state_set|].
  intros _ m' (_&Ho&Hr). split; [done|by apply only_radio_lib_frame].
Qed.

(** The machine has come from [m0] and its record is [l]. *)
Definition tracks (m0 : machine D X) (l : libradio) m : Prop :=
  fw_ok m /\ lib_frame m0 m /\ m_radio m = l.

Lemma tracks_print {B} m0 l o (k : fw D X B) Q m :
  tracks m0 l m -> (forall m', tracks m0 l m' -> wp k Q m') -> wp (print o;; k) Q m.
Proof.
  intros (Hm&Hf&Hl) Hk. rewrite wp_bind, wp_print. apply Hk. split_and!; [|etrans; [done|]|done].
  - by apply (preserves_print o m).
  - unfold lib_frame. by_machine m.
Qed.

Lemma tracks_rput {B T} (range : T -> Prop) (f : libradio -> T)
    `{!Setter f, !TypedField range f} m0 l v (k : fw D X B) Q m :
  tracks m0 l m -> range v -> (forall l, periods_ok l -> periods_ok (l <| f := v |>)) ->
  (forall m', tracks m0 (l <| f := v |>) m' -> wp k Q m') -> wp (rput f v;; k) Q m.
Proof.
  intros (Hm&Hf&Hl) Hv Hp Hk. rewrite wp_bind, wp_rput. apply Hk. split_and!.
  - by apply (preserves_rput range f v Hv Hp m).
  - etrans; [done|apply put_radio_lib_frame].
  - upd_simpl. by rewrite Hl.
Qed.

Lemma tracks_rget {B T} (f : libradio -> T) m0 l (k : T -> fw D X B) Q m :
  tracks m0 l m -> wp (k (f l)) Q m -> wp (v ← rget f; k v) Q m.
Proof. intros (Hm&Hf&Hl) Hk. by rewrite wp_bind, wp_rget, Hl. Qed.

Lemma tracks_set_state s m0 l m :
  is_u8 s -> tracks m0 l m ->
  wp (libradio_set_state s) (fun _ m' => tracks m0 (state_set s l) m') m.
Proof.
  intros Hs (Hm&Hf&Hl). eapply wp_mono; [by apply wp_state_set|].
  intros _ m' (Hm'&Ho&Hr). split_and!; [done| |by rewrite Hr, Hl].
  etrans; [done|by apply only_radio_lib_frame].
Qed.

Lemma tracks_refl m : fw_ok m -> tracks m (m_radio m) m.
Proof. done. Qed.

Lemma wp_command_activate p m :
  packet_ok p -> fw_ok m -> p_cmd p = RADIO_CMD_ACTIVATE ->
  wp (command_activate p) (fun _ m' => tracks m (command_record p (m_radio m)) m') m.
Proof.
  intros Hp Hm Hc. pose proof (tracks_refl m Hm) as Ht.
  unfold command_activate, command_record. rewrite Hc.
  change (RADIO_CMD_ACTIVATE =? RADIO_CMD_ACTIVATE) with true. cbv iota.
  destruct (p_len p =? 6); cbn [negb andb]; [|by rewrite wp_ret].
  do 4 (rewrite wp_bind, wp_data_get by (done || lia)).
  change (Z.to_nat 2) with 2%nat. change (Z.to_nat 3) with 3%nat.
  change (Z.to_nat 4) with 4%nat. change (Z.to_nat 5) with 5%nat.
  eapply tracks_print; [done|clear Ht; intros m1 Ht].
  do 4 (eapply tracks_rget; [done|]). eapply tracks_print; [done|clear Ht; intros m2 Ht].
  cbv zeta.
  destruct (_ =? r_cat1 _); cbn [negb orb andb]; [|by rewrite wp_ret].
  destruct (_ =? r_cat2 _); cbn [negb orb andb]; [|by rewrite wp_ret].
  destruct (_ =? r_num1 _); cbn [negb orb andb]; [|by rewrite wp_ret].
  destruct (_ =? r_num2 _); cbn [negb orb andb]; [|by rewrite wp_ret].
  rewrite wp_bind, wp_data_get by (done || lia).
  eapply (tracks_rput is_u8); [tc_solve|done|apply data_u8; [done|lia]|by intros ? []|clear Ht; intros m3 Ht].
  rewrite wp_bind, wp_data_get by (done || lia).
  eapply (tracks_rput is_u8); [tc_solve|done|apply data_u8; [done|lia]|by intros ? []|clear Ht; intros m4 Ht].
  do 2 (eapply tracks_rget; [done|]). eapply tracks_print; [done|clear Ht; intros m5 Ht].
  by apply tracks_set_state.
Qed.

Lemma wp_command_deactivate p m :
  fw_ok m ->
  wp (command_deactivate p) (fun _ m' => tracks m (if p_len p =? 0 then
    state_set LIBRADIO_STATE_WARM
      ((m_radio m) <| r_my_node_id := 0 |> <| r_my_channel := 0 |>) else m_radio m) m') m.
Proof.
  intros Hm. pose proof (tracks_refl m Hm) as Ht. unfold command_deactivate.
  destruct (p_len p =? 0); cbn [negb]; [|by rewrite wp_ret].
  eapply tracks_print; [done|clear Ht; intros m1 Ht].
  eapply (tracks_rput is_u8); [tc_solve|done|done|by intros ? []|clear Ht; intros m3 Ht].
  eapply (tracks_rput is_u8); [tc_solve|done|done|by intros ? []|clear Ht; intros m4 Ht].
  by apply tracks_set_state.
Qed.

Lemma wp_command_set_time p m :
  packet_ok p -> fw_ok m ->
  wp (command_set_time p) (fun _ m' => tracks m (if p_len p =? 1 then
    (m_radio m) <| r_tens_of_minutes := p_data p !!! 0%nat |> else m_radio m) m') m.
Proof.
  intros Hp Hm. pose proof (tracks_refl m Hm) as Ht. unfold command_set_time.
  destruct (p_len p =? 1); cbn [negb]; [|by rewrite wp_ret].
  rewrite wp_bind, wp_data_get by (done || lia).
  eapply (tracks_rput is_u8); [tc_solve|done|apply data_u8; [done|lia]|by intros ? []|clear Ht; intros m1 Ht].
  eapply tracks_rget; [done|]. rewrite wp_bind_ret.
  eapply tracks_print; [done|clear Ht; intros m2 Ht]. by rewrite wp_ret.
Qed.

Lemma wp_command_set_date p m :
  packet_ok p -> fw_ok m ->
  wp (command_set_date p) (fun _ m' => tracks m (if p_len p =? 2 then
    (m_radio m) <| r_date := p_data p !!! 0%nat * 256 + p_data p !!! 1%nat |>
    else m_radio m) m') m.
Proof.
  intros Hp Hm. pose proof (tracks_refl m Hm) as Ht. unfold command_set_date.
  destruct (p_len p =? 2); cbn [negb]; [|by rewrite wp_ret].
  do 2 (rewrite wp_bind, wp_data_get by (done || lia)).
  change (Z.to_nat 0) with 0%nat. change (Z.to_nat 1) with 1%nat.
  pose proof (data_u8 p 0 Hp ltac:(lia)). pose proof (data_u8 p 1 Hp ltac:(lia)).
  rewrite join_bytes, u16_small by warith.
  eapply (tracks_rput is_u16); [tc_solve|done|warith|by intros ? []|clear Ht; intros m1 Ht].
  eapply tracks_rget; [done|]. rewrite wp_bind_ret.
  eapply tracks_print; [done|clear Ht; intros m2 Ht]. by rewrite wp_ret.
Qed.

Lemma wp_libradio_command_record p m :
  packet_ok p -> fw_ok m -> record_command (p_cmd p) = true ->
  wp (libradio_command p) (fun _ m' => tracks m (command_record p (m_radio m)) m') m.
Proof.
  intros Hp Hm Hc%bool_decide_eq_true_1. unfold libradio_command. rewrite wp_bind, wp_rget.
  pose proof (wp_command_activate p m Hp Hm) as Hact.
  pose proof (wp_command_deactivate p m Hm) as Hdeact.
  pose proof (wp_command_set_time p m Hp Hm) as Htime.
  pose proof (wp_command_set_date p m Hp Hm) as Hdate.
  pose proof (tracks_refl m Hm) as Hrefl.
  unfold command_record in *. destruct p as [t n c len cs d]. cbn [p_cmd p_len p_data] in *.
  repeat (apply elem_of_cons in Hc as [->|Hc]; [
    cbn [Z.eqb Pos.eqb negb andb orb]; destruct (r_state (m_radio m) <? LIBRADIO_STATE_ACTIVE);
    cbn in *; try done; try by auto|]).
  by apply elem_of_nil in Hc.
Qed.

(** The channel a response is sent from. *)
Definition response (cmd addr len : Z) (buf : list Z) (c : channel) : channel :=
  mk_channel LIBRADIO_CHSTATE_TRANSMIT 10
    ((c_packet c) <| p_node := addr |> <| p_len := len |> <| p_cmd := cmd |>
       <| p_data ::= fun d =>
            take (Z.to_nat (Z.min len 10)) buf ++ drop (Z.to_nat (Z.min len 10)) d |>).

(** What follows the construction of the packet. *)
Definition send_and_listen (chan : Z) : fw D X unit :=
  ok ← libradio_send TxChan chan;
  when (negb (ok =? 0)) (
    txchan_put c_state LIBRADIO_CHSTATE_EMPTY;;
    txchan_put c_priority 0);;
  tx_wait patience;;
  libradio_recv_start;;
  mret tt.

(** The machine with the payload of [txchan] changed. *)
Definition on_txdata (f : list Z -> list Z) m : machine D X :=
  m <| m_txchan ::= fun c => c <| c_packet ::= fun p => p <| p_data ::= f |> |> |>.

Lemma on_txdata_ext f g m :
  f (p_data (c_packet (m_txchan m))) = g (p_data (c_packet (m_txchan m))) ->
  on_txdata f m = on_txdata g m.
Proof.
  intros E. unfold on_txdata, upd, set_m_txchan, set_c_packet, set_p_data. cbv beta. by rewrite E.
Qed.

Lemma on_txdata_id m : on_txdata (fun d => d) m = m.
Proof. destruct m as [? ? ? ? ? ? ? ? ? ? ? ? [? ? []] ]. reflexivity. Qed.

Lemma on_txdata_twice f g m : on_txdata f (on_txdata g m) = on_txdata (fun d => f (g d)) m.
Proof. by_machine m. Qed.

Lemma copy_bytes_run n i buf (m : machine D X) :
  0 <= i -> (Z.to_nat i + n <= length buf)%nat ->
  (Z.to_nat i + n <= length (p_data (c_packet (m_txchan m))))%nat ->
  for_loop n i (copy_byte buf) m =
    Done tt (on_txdata (fun d =>
      take (Z.to_nat i) d ++ take n (drop (Z.to_nat i) buf) ++ drop (Z.to_nat i + n) d) m).
Proof.
  revert i m. induction n as [|n IH]; intros i m Hi Hb Hd; cbn [for_loop].
  { unfold mret, cmd_ret. f_equal. rewrite <- (on_txdata_id m) at 1. apply on_txdata_ext.
    by rewrite take_0, app_nil_l, Nat.add_0_r, take_drop. }
  destruct (lookup_lt_is_Some_2 buf (Z.to_nat i)) as [b Hbi]; [lia|].
  rewrite (bind_done _ _ m tt (on_txdata (fun _ => <[Z.to_nat i := b]>
             (p_data (c_packet (m_txchan m)))) m)).
  2: { apply wp_run. intros Q. unfold copy_byte.
       rewrite wp_bind, (wp_array_get _ _ b), wp_bind, wp_gets, wp_bind by (done || lia).
       rewrite wp_array_put by lia. done. }
  rewrite IH; [|lia|lia|unfold on_txdata; upd_simpl; rewrite length_insert; lia].
  f_equal. rewrite on_txdata_twice. apply on_txdata_ext.
  set (d := p_data (c_packet (m_txchan m))) in *.
  replace (Z.to_nat (i + 1)) with (S (Z.to_nat i)) by lia.
  rewrite (take_S_r _ _ b) by (rewrite list_lookup_insert_eq by lia; done).
  rewrite take_insert_ge, drop_insert_lt by lia.
  rewrite (drop_S buf b (Z.to_nat i)) by done. cbn [take]. rewrite <- app_assoc. cbn [app].
  do 3 f_equal. f_equal. lia.
Qed.

Lemma run_txchan_put {T B} (f : channel -> T) `{!Setter f} v (k : unit -> fw D X B) m :
  (txchan_put f v ≫= k) m = k tt (m <| m_txchan ::= fun c => c <| f := v |> |>).
Proof. done. Qed.

Lemma run_txpacket_put {T B} (f : packet -> T) `{!Setter f} v (k : unit -> fw D X B) m :
  (txpacket_put f v ≫= k) m =
    k tt (m <| m_txchan ::= fun c => c <| c_packet ::= fun p => p <| f := v |> |> |>).
Proof. done. Qed.

Lemma send_response_run cmd chan addr len buf m :
  fw_ok m -> 0 <= len -> length buf = 16%nat ->
  libradio_send_response cmd chan addr len buf m =
    send_and_listen chan (m <| m_txchan ::= response cmd addr len buf |>).
Proof.
  intros Hm Hl Hb. unfold libradio_send_response.
  set (m1 := m <| m_txchan ::= fun c => mk_channel LIBRADIO_CHSTATE_TRANSMIT 10
    ((c_packet c) <| p_node := addr |> <| p_len := len |> <| p_cmd := cmd |>) |>).
  rewrite !run_txchan_put, !run_txpacket_put.
  match goal with |- mbind _ _ ?x = _ => assert (x = m1) as -> by by_machine m end.
  rewrite max_payload.
  replace (if 10 <? len then 10 else len) with (Z.min len 10)
    by (destruct (Z.ltb_spec 10 len); lia).
  erewrite bind_done; [|apply copy_bytes_run; [lia|lia|] ].
  2: { change (p_data (c_packet (m_txchan m1))) with (p_data (c_packet (m_txchan m))).
       rewrite (ok_size _ (ok_packet _ (fw_txchan m Hm))). lia. }
  unfold send_and_listen. by f_equal.
Qed.

(** *** EEPROM *)

(** The bytes of the EEPROM from [addr] on. *)
Definition eeprom_bytes (d : D) (addr : Z) (n : nat) : list Z :=
  map (fun i => u8 (eeprom_read_byte (u16 (addr + Z.of_nat i)) d)) (seq 0 n).

Definition on_status (l : list Z) m : machine D X := m <| m_statusbuffer := l |>.

Lemma eeprom_bytes_snoc d addr n :
  eeprom_bytes d addr (S n) =
    eeprom_bytes d addr n ++ [u8 (eeprom_read_byte (u16 (addr + Z.of_nat n)) d)].
Proof. unfold eeprom_bytes. by rewrite seq_S, map_app. Qed.

(** The read loop from byte [i] on, when the first [i] are in place. *)
Lemma read_loop_run n i addr l m :
  (i + n <= length l)%nat -> m_statusbuffer m = eeprom_bytes (m_dev m) addr i ++ drop i l ->
  for_loop n (Z.of_nat i) (read_eeprom_byte addr) m =
    Done tt (on_status (eeprom_bytes (m_dev m) addr (i + n) ++ drop (i + n) l) m).
Proof.
  revert i m. induction n as [|n IH]; intros i m Hn Hbuf; cbn [for_loop].
  { rewrite Nat.add_0_r, <- Hbuf. unfold on_status. by destruct m. }
  assert (length (eeprom_bytes (m_dev m) addr i) = i) as Hlen
    by (unfold eeprom_bytes; by rewrite length_map, length_seq).
  set (b := u8 (eeprom_read_byte (u16 (addr + Z.of_nat i)) (m_dev m))).
  assert (<[i := b]> (m_statusbuffer m) = eeprom_bytes (m_dev m) addr (S i) ++ drop (S i) l) as Hput.
  { rewrite Hbuf, eeprom_bytes_snoc, insert_app_r_alt by lia.
    rewrite Hlen, Nat.sub_diag, <- app_assoc. f_equal.
    destruct (lookup_lt_is_Some_2 l i) as [x Hx]; [lia|]. by rewrite (drop_S l x i). }
  rewrite (bind_done _ _ m tt (on_status (<[i := b]> (m_statusbuffer m)) m)).
  2: { unfold read_eeprom_byte. rewrite run_gets, run_gets.
       apply wp_run. intros Q. rewrite wp_bind, wp_array_put by
         (rewrite Hbuf, length_app, Hlen, length_drop; lia).
       rewrite wp_mput, Nat2Z.id. done. }
  replace (Z.of_nat i + 1) with (Z.of_nat (S i)) by lia.
  rewrite IH; [|lia|done]. f_equal. unfold on_status. upd_simpl.
  replace (S i + n)%nat with (i + S n)%nat by lia. by destruct m.
Qed.

Lemma read_loop_overflow n i addr m :
  (i <= 16)%nat -> (16 < i + n)%nat -> length (m_statusbuffer m) = 16%nat ->
  for_loop n (Z.of_nat i) (read_eeprom_byte addr) m = Fault OutOfBounds.
Proof.
  revert i m. induction n as [|n IH]; intros i m Hi Hn Hl; [lia|]. cbn [for_loop].
  destruct (decide (i = 16)%nat) as [->|Hne].
  - apply bind_fault. unfold read_eeprom_byte. rewrite run_gets, run_gets. apply bind_fault.
    unfold array_put. by rewrite Hl.
  - rewrite (bind_done _ _ m tt (on_status (<[i := u8 (eeprom_read_byte
      (u16 (addr + Z.of_nat i)) (m_dev m))]> (m_statusbuffer m)) m)).
    2: { unfold read_eeprom_byte. rewrite run_gets, run_gets.
         apply wp_run. intros Q. rewrite wp_bind, wp_array_put by lia.
         by rewrite wp_mput, Nat2Z.id. }
    replace (Z.of_nat i + 1) with (Z.of_nat (S i)) by lia.
    apply IH; [lia|lia|]. unfold on_status. upd_simpl. by rewrite length_insert.
Qed.

(** The write loop: byte [i] of the EEPROM area is byte [i + 3] of the payload. *)
Definition write_all (p : packet) (addr : Z) (from n : nat) (d : D) : D :=
  foldl (fun d i => eeprom_write_byte (u16 (addr + Z.of_nat i)) (p_data p !!! (i + 3)%nat) d)
    d (seq from n).

Lemma write_loop_run n i p addr m :
  packet_ok p -> (i + n <= 7)%nat ->
  for_loop n (Z.of_nat i) (write_eeprom_byte p addr) m =
    Done tt (m <| m_dev ::= write_all p addr i n |>).
Proof.
  intros Hp. revert i m. induction n as [|n IH]; intros i m Hn; cbn [for_loop]; [by destruct m|].
  rewrite (bind_done _ _ m tt (m <| m_dev ::=
    eeprom_write_byte (u16 (addr + Z.of_nat i)) (p_data p !!! (i + 3)%nat) |>)).
  2: { apply wp_run. intros Q. unfold write_eeprom_byte.
       rewrite wp_bind, wp_data_get by (done || lia). rewrite wp_modify.
       by replace (Z.to_nat (Z.of_nat i + 3)) with (i + 3)%nat by lia. }
  replace (Z.of_nat i + 1) with (Z.of_nat (S i)) by lia. rewrite IH by lia. by destruct m.
Qed.

Lemma write_loop_overrun n i p addr m :
  packet_ok p -> (i <= 7)%nat -> (7 < i + n)%nat ->
  for_loop n (Z.of_nat i) (write_eeprom_byte p addr) m = Fault OutOfBounds.
Proof.
  intros Hp. revert i m. induction n as [|n IH]; intros i m Hi Hn; [lia|]. cbn [for_loop].
  destruct (decide (i = 7)%nat) as [->|Hne].
  - apply bind_fault. unfold write_eeprom_byte. apply bind_fault. unfold data_get, array_get.
    rewrite lookup_ge_None_2; [done|]. rewrite (ok_size _ Hp). lia.
  - rewrite (bind_done _ _ m tt (m <| m_dev ::=
      eeprom_write_byte (u16 (addr + Z.of_nat i)) (p_data p !!! (i + 3)%nat) |>)).
    2: { apply wp_run. intros Q. unfold write_eeprom_byte.
         rewrite wp_bind, wp_data_get by (done || lia). rewrite wp_modify.
         by replace (Z.to_nat (Z.of_nat i + 3)) with (i + 3)%nat by lia. }
    replace (Z.of_nat i + 1) with (Z.of_nat (S i)) by lia. apply IH; lia.
Qed.

(** The address in a payload, as the [int] the code computes. *)
Definition address (hi lo : Z) : Z := i16 (hi * 256 + lo).

(** The steps up to the loops. *)
Lemma run_data_get {B} p i (k : Z -> fw D X B) m :
  packet_ok p -> 0 <= i < 10 -> (data_get p i ≫= k) m = k (p_data p !!! Z.to_nat i) m.
Proof.
  intros Hp Hi. apply bind_done. apply wp_run. intros Q. by rewrite wp_data_get.
Qed.

Lemma run_print {B} l (k : unit -> fw D X B) m :
  (print l ≫= k) m = k tt (m <| m_out ::= fun o => o ++ l |>).
Proof. done. Qed.

Lemma out_twice f g m :
  m <| m_out ::= f |> <| m_out ::= g |> = m <| m_out := g (f (m_out m)) |>.
Proof. by_machine m. Qed.

Lemma read_eeprom_run p m :
  packet_ok p -> p_len p = 4 ->
  exists o, command_read_eeprom p m =
    (for_loop (Z.to_nat (p_data p !!! 1%nat)) 0
       (read_eeprom_byte (address (p_data p !!! 2%nat) (p_data p !!! 3%nat)));;
     buf ← gets m_statusbuffer;
     libradio_send_response RADIO_EEPROM_RESPONSE (p_data p !!! 0%nat)
       (u8 (address (p_data p !!! 2%nat) (p_data p !!! 3%nat) + p_data p !!! 1%nat))
       (p_data p !!! 1%nat) buf) (m <| m_out := o |>).
Proof.
  intros Hp Hl. unfold command_read_eeprom. rewrite Hl. cbn [Z.eqb Pos.eqb negb].
  pose proof (data_u8 p 3 Hp ltac:(lia)).
  eexists. rewrite run_print. do 4 (rewrite run_data_get by (done || lia)).
  cbv zeta. rewrite run_print. rewrite join_bytes by done. unfold address.
  rewrite out_twice. reflexivity.
Qed.

Lemma write_eeprom_run p m :
  packet_ok p -> 3 <= p_len p <= 22 ->
  exists o, command_write_eeprom p m =
    for_loop (Z.to_nat (p_len p - 2)) 0
      (write_eeprom_byte p (address (p_data p !!! 0%nat) (p_data p !!! 1%nat)))
      (m <| m_out := o |>).
Proof.
  intros Hp Hl. unfold command_write_eeprom.
  destruct (Z.ltb_spec (p_len p) 3), (Z.ltb_spec 22 (p_len p)); try lia. cbn [orb].
  pose proof (data_u8 p 1 Hp ltac:(lia)).
  eexists. rewrite run_print. do 2 (rewrite run_data_get by (done || lia)).
  cbv zeta. rewrite run_print. rewrite join_bytes by done. unfold address.
  rewrite out_twice. reflexivity.
Qed.
End effects.

(** ** The wait for the end of a transmission *)

Section tx_wait.
Context {D X : Type} `{Platform D} `{!AppInv X}.
Implicit Types m : machine D X.

(** One question for the state of the device: the answer and the machine. *)
Definition asked m : Z * machine D X :=
  match libradio_request_device_status m with
  | Done st m' => (st, m')
  | _ => (-1, m)
  end.

Definition asked_after (n : nat) m : machine D X := Nat.iter n (fun m => (asked m).2) m.

Lemma asked_run m :
  fw_ok m -> libradio_request_device_status m = Done (asked m).1 (asked m).2 /\ fw_ok (asked m).2.
Proof.
  intros Hm. pose proof (query_request_device_status m Hm) as Hw. unfold asked, wp in *.
  destruct (libradio_request_device_status m); try done. by destruct Hw.
Qed.

Lemma tx_wait_step n m :
  fw_ok m -> tx_wait (S n) m =
    if (asked m).1 =? SI4463_STATE_TX then tx_wait n (asked m).2 else Done tt (asked m).2.
Proof.
  intros Hm. cbn [tx_wait]. rewrite (bind_done _ _ _ _ _ (proj1 (asked_run m Hm))).
  by destruct (_ =? _).
Qed.

Lemma tx_wait_run j n m :
  fw_ok m -> (forall i, (i < j)%nat -> (asked (asked_after i m)).1 = SI4463_STATE_TX) ->
  (asked (asked_after j m)).1 <> SI4463_STATE_TX -> (j < n)%nat ->
  tx_wait n m = Done tt (asked_after (S j) m).
Proof.
  revert n m. induction j as [|j IH]; intros [|n] m Hm Hb Hj Hn; try lia; rewrite tx_wait_step by done.
  - change (asked_after 0 m) with m in Hj. by rewrite (proj2 (Z.eqb_neq _ _)).
  - pose proof (Hb 0%nat ltac:(lia)) as Hb0. change (asked_after 0 m) with m in Hb0.
    rewrite Hb0, Z.eqb_refl.
    assert (forall i, asked_after i (asked m).2 = asked_after (S i) m) as E.
    { intros i. symmetry. apply (Nat.iter_succ_r i (fun m => (asked m).2) m). }
    rewrite (IH n (asked m).2); [by rewrite E|by apply asked_run| |by rewrite E|lia].
    intros i Hi. rewrite E. apply Hb. lia.
Qed.

Lemma tx_wait_stuck n m :
  fw_ok m -> (forall i, (i < n)%nat -> (asked (asked_after i m)).1 = SI4463_STATE_TX) ->
  tx_wait n m = Waiting (asked_after n m).
Proof.
  revert m. induction n as [|n IH]; intros m Hm Hb; [done|]. rewrite tx_wait_step by done.
  pose proof (Hb 0%nat ltac:(lia)) as Hb0. change (asked_after 0 m) with m in Hb0.
  rewrite Hb0, Z.eqb_refl.
  assert (forall i, asked_after i (asked m).2 = asked_after (S i) m) as E.
  { intros i. symmetry. apply (Nat.iter_succ_r i (fun m => (asked m).2) m). }
  rewrite IH; [by rewrite E|by apply asked_run|]. intros i Hi. rewrite E. apply Hb. lia.
Qed.
End tx_wait.

(** ** Properties *)

Section safety_properties.
Context {D X : Type} `{Platform D} `{PowerLaws D X, !AppLaws D X} `{Patience}.
Implicit Types m : machine D X.

(** [C2] Every packet with well-formed fields is handled without undefined
    behaviour and keeps the invariant, whatever the application (if it keeps
    its own promises), the radio and the EEPROM do - except a READ_EEPROM of
    more than 16 bytes and a WRITE_EEPROM with a length of 10 or more. *)
Theorem command_safe p m :
  packet_ok p -> overruns p = false -> fw_ok m ->
  safe (libradio_command p) (fun _ m' => fw_ok m') m.
Proof. intros Hp Ho Hm. by apply preserves_libradio_command. Qed.

(** Handling whatever the radio delivers is free of undefined behaviour
    and keeps the invariant, unless the packet received is for this node and is
    one of the two overrunning commands. *)
Theorem handle_packet_safe m :
  fw_ok m ->
  safe libradio_handle_packet (fun _ m' => fw_ok m') m \/
  exists m',
    libradio_recv RxChan (r_my_channel (m_radio m)) m = Done 1 m' /\
    overruns (c_packet (m_rxchan m')) = true /\
    (p_node (c_packet (m_rxchan m')) = 0 \/
     p_node (c_packet (m_rxchan m')) = r_my_node_id (m_radio m')).
Proof. apply handle_packet_cases. Qed.
End safety_properties.

Section properties.
Context {D X : Type} `{Platform D} `{StockPower D X, !AppInv X} `{Patience}.
Implicit Types m : machine D X.

(** [C28] The commands that only concern the library's record do to it exactly
    what [command_record] says: an activation with the device's own four bytes
    sets channel, node and the ACTIVE state, any other activation nothing; the
    rest are ignored unless the device is active, and then deactivate, set the
    time, set the date (high byte first) or do nothing. They never fail, and
    leave the channels, the application and the interrupts alone. *)
Theorem command_refines p m :
  packet_ok p -> fw_ok m -> record_command (p_cmd p) = true ->
  wp (libradio_command p) (fun _ m' =>
    fw_ok m' /\ lib_frame m m' /\ m_radio m' = command_record p (m_radio m)) m.
Proof. apply wp_libradio_command_record. Qed.

(** While the device is not active every packet except an activation is
    dropped without any effect. *)
Theorem inactive_ignores p m :
  r_state (m_radio m) < LIBRADIO_STATE_ACTIVE -> p_cmd p <> RADIO_CMD_ACTIVATE ->
  libradio_command p m = Done tt m.
Proof.
  intros Hs Hc. unfold libradio_command, rget. rewrite run_gets.
  apply Z.eqb_neq in Hc. rewrite Hc.
  destruct (Z.ltb_spec (r_state (m_radio m)) LIBRADIO_STATE_ACTIVE); [done|lia].
Qed.

(** A request for up to 16 bytes of EEPROM is answered with those bytes, in
    a packet whose node is the low byte of the address after the last byte
    read: the request does not say which node wants the answer. *)
Theorem read_eeprom_answers p m :
  packet_ok p -> fw_ok m -> r_state (m_radio m) = LIBRADIO_STATE_ACTIVE ->
  p_cmd p = RADIO_CMD_READ_EEPROM -> p_len p = 4 -> p_data p !!! 1%nat <= 16 ->
  let addr := address (p_data p !!! 2%nat) (p_data p !!! 3%nat) in
  let len := p_data p !!! 1%nat in
  exists o buf,
    take (Z.to_nat len) buf = eeprom_bytes (m_dev m) addr (Z.to_nat len) /\
    libradio_command p m =
      send_and_listen (p_data p !!! 0%nat)
        (m <| m_out := o |> <| m_statusbuffer := buf |>
           <| m_txchan ::= response RADIO_EEPROM_RESPONSE (u8 (addr + len)) len buf |>).
Proof.
  intros Hp Hm Hs Hc Hl Hn addr len. unfold libradio_command, rget. rewrite run_gets, Hc, Hs.
  destruct (read_eeprom_run p m Hp Hl) as [o Hrun]. exists o.
  pose proof (data_u8 p 1 Hp ltac:(lia)) as Hlen. fold len in Hlen, Hn. unfold is_u8 in Hlen.
  set (n := Z.to_nat len). set (buf := eeprom_bytes (m_dev m) addr n ++ drop n (m_statusbuffer m)).
  destruct (fw_status m Hm) as [Hsl Hsb].
  assert (length (eeprom_bytes (m_dev m) addr n) = n) as Hel
    by (unfold eeprom_bytes; by rewrite length_map, length_seq).
  exists buf. split; [by apply take_app_length'|].
  change (command_read_eeprom p m =
    send_and_listen (p_data p !!! 0%nat) (m <| m_out := o |> <| m_statusbuffer := buf |>
      <| m_txchan ::= response RADIO_EEPROM_RESPONSE (u8 (addr + len)) len buf |>)).
  rewrite Hrun. fold addr len. fold n.
  rewrite (bind_done _ _ _ tt (on_status buf (m <| m_out := o |>))).
  2: { exact (read_loop_run n 0 addr (m_statusbuffer m) (m <| m_out := o |>) ltac:(lia) eq_refl). }
  rewrite run_gets.
  rewrite send_response_run; [done| |lia|].
  - unfold on_status. destruct Hm. split; try done. split.
    + unfold buf. upd_simpl. rewrite length_app, Hel, length_drop. lia.
    + unfold buf. upd_simpl. apply bytes_app. split; [|by apply Forall_drop].
      apply Forall_map, Forall_true. intros i. apply u8_range.
  - unfold on_status, buf. upd_simpl. rewrite length_app, Hel, length_drop. lia.
Qed.

(** A WRITE_EEPROM of [len] from 3 to 9 bytes writes [len - 2] bytes from the
    address on, as announced, but takes them one byte too far in the payload:
    the byte that goes to the address is [data\[3\]], not the [data\[2\]] behind
    the address, and the last is [data\[len\]], which is not part of the payload. *)
Theorem write_eeprom_shifted p m :
  packet_ok p -> r_state (m_radio m) = LIBRADIO_STATE_ACTIVE ->
  p_cmd p = RADIO_CMD_WRITE_EEPROM -> 3 <= p_len p <= 9 ->
  let addr := address (p_data p !!! 0%nat) (p_data p !!! 1%nat) in
  let n := Z.to_nat (p_len p - 2) in
  exists o, libradio_command p m =
    Done tt (m <| m_out := o |> <| m_dev ::= fun d =>
      foldl (fun d i => eeprom_write_byte (u16 (addr + Z.of_nat i)) (p_data p !!! (i + 3)%nat) d)
        d (seq 0 n) |>).
Proof.
  intros Hp Hs Hc Hl addr n. unfold libradio_command, rget. rewrite run_gets, Hc, Hs.
  destruct (write_eeprom_run p m Hp ltac:(lia)) as [o Hrun]. exists o.
  change (command_write_eeprom p m =
    Done tt (m <| m_out := o |> <| m_dev ::= write_all p addr 0 n |>)).
  rewrite Hrun. apply (write_loop_run n 0); [done|lia].
Qed.

(** [C40] The exceptions of [command_safe] are real: received while active, a
    READ_EEPROM of more than 16 bytes writes past the end of the status buffer,
    and a WRITE_EEPROM with a length of 10 or more reads past the end of the
    packet. *)
Theorem overruns_fault p m :
  packet_ok p -> fw_ok m -> r_state (m_radio m) = LIBRADIO_STATE_ACTIVE ->
  overruns p = true -> libradio_command p m = Fault OutOfBounds.
Proof.
  intros Hp Hm Hs Ho. unfold libradio_command, rget. rewrite run_gets, Hs.
  unfold overruns in Ho. apply orb_true_iff in Ho as [Ho|Ho].
  - apply andb_prop in Ho as [ [Hc Hl]%andb_prop Hn].
    apply Z.eqb_eq in Hc, Hl. apply Z.ltb_lt in Hn. rewrite Hc.
    destruct (read_eeprom_run p m Hp Hl) as [o Hrun].
    change (command_read_eeprom p m = Fault OutOfBounds).
    rewrite Hrun. apply bind_fault.
    apply (read_loop_overflow _ 0); [lia|lia|apply (fw_status m Hm)].
  - apply andb_prop in Ho as [ [Hc Hl]%andb_prop Hn].
    apply Z.eqb_eq in Hc. apply Z.leb_le in Hl, Hn. rewrite Hc.
    destruct (write_eeprom_run p m Hp ltac:(lia)) as [o Hrun].
    change (command_write_eeprom p m = Fault OutOfBounds).
    rewrite Hrun. apply (write_loop_overrun _ 0); [done|lia|lia].
Qed.

(** The wait for the end of a transmission asks the radio until it no
    longer reports TX and stops at that very answer; for a radio that never
    does it never ends. *)
Theorem tx_wait_ends j n m :
  fw_ok m -> (forall i, (i < j)%nat -> (asked (asked_after i m)).1 = SI4463_STATE_TX) ->
  ((asked (asked_after j m)).1 <> SI4463_STATE_TX -> (j < n)%nat ->
     tx_wait n m = Done tt (asked_after (S j) m)) /\
  (n = j -> tx_wait n m = Waiting (asked_after n m)).
Proof.
  intros Hm Hb. split.
  - intros Hj Hn. by apply tx_wait_run.
  - intros ->. by apply tx_wait_stuck.
Qed.

(** A response is sent from the library's own channel: a packet for the
    given node with the command, the length and the first bytes of the buffer,
    at most 10 of them, in state TRANSMIT. *)
Theorem response_is_sent cmd chan addr len buf m :
  fw_ok m -> 0 <= len -> length buf = 16%nat ->
  libradio_send_response cmd chan addr len buf m =
    (ok ← libradio_send TxChan chan;
     when (negb (ok =? 0)) (
       txchan_put c_state LIBRADIO_CHSTATE_EMPTY;;
       txchan_put c_priority 0);;
     tx_wait patience;;
     libradio_recv_start;;
     mret tt) (m <| m_txchan ::= response cmd addr len buf |>).
Proof. apply send_response_run. Qed.
End properties.

(** ** Instances of the properties *)

#[local] Existing Instance bench_app.
#[local] Existing Instance bench_inv.
#[local] Instance bench_stock {D X} : StockPower D X := eq_refl.
#[local] Instance bench_patience : Patience := 10%nat.

#[local] Instance bench_laws : AppLaws (list Z) unit.
Proof.
  split.
  - intros p Hp. apply preserves_ret.
  - intros i buf m Hi Hb Hl Hm. split_and!; done.
Qed.

(** A packet with the given command, length and first bytes of payload. *)
Definition bench_cmd (cmd len : Z) (d : list Z) : packet :=
  mk_packet 0 7 cmd len 0 (take 10 (d ++ replicate 10 0)).

Lemma bench_cmd_ok cmd len d :
  is_u8 cmd -> is_u8 len -> bytes d -> packet_ok (bench_cmd cmd len d).
Proof.
  intros Hc Hl Hd. unfold bench_cmd. split; cbn [p_ticks p_node p_cmd p_len p_csum p_data]; try done.
  - apply Forall_take, bytes_app. split; [done|]. by apply Forall_replicate.
  - rewrite length_take, length_app, length_replicate. lia.
Qed.

Definition bench_run : machine (list Z) unit := bench_machine [] [].

Lemma bench_run_ok : fw_ok bench_run.
Proof. by apply bench_machine_ok. Qed.

Lemma command_refines_witness :
  let p := bench_cmd RADIO_CMD_SET_DATE 2 [3; 5] in
  r_date (command_record p (m_radio bench_run)) = 773 /\
  wp (libradio_command p) (fun _ m' =>
    fw_ok m' /\ lib_frame bench_run m' /\
    m_radio m' = command_record p (m_radio bench_run)) bench_run.
Proof.
  intros p. split; [by vm_compute|].
  exact (command_refines p bench_run
           (bench_cmd_ok RADIO_CMD_SET_DATE 2 [3; 5] ltac:(done) ltac:(done) ltac:(bytes_cons))
           bench_run_ok ltac:(done)).
Defined.

Lemma inactive_ignores_witness :
  let m := bench_run <| m_radio ::= fun l => l <| r_state := LIBRADIO_STATE_LISTEN |> |> in
  libradio_command (bench_cmd RADIO_CMD_SET_TIME 1 [3]) m = Done tt m.
Proof.
  apply (inactive_ignores (bench_cmd RADIO_CMD_SET_TIME 1 [3])
    (bench_run <| m_radio ::= fun l => l <| r_state := LIBRADIO_STATE_LISTEN |> |>)); done.
Defined.

Lemma command_safe_witness :
  safe (libradio_command (bench_cmd RADIO_CMD_READ_EEPROM 4 [1; 8; 0; 32]))
    (fun _ m' => fw_ok m') bench_run.
Proof.
  apply (command_safe (bench_cmd RADIO_CMD_READ_EEPROM 4 [1; 8; 0; 32]) bench_run);
    [apply bench_cmd_ok; [done|done|bytes_cons]|done|apply bench_run_ok].
Defined.

Lemma handle_packet_safe_witness :
  safe libradio_handle_packet (fun _ m' => fw_ok m') bench_run \/
  exists m',
    libradio_recv RxChan 2 bench_run = Done 1 m' /\
    overruns (c_packet (m_rxchan m')) = true /\
    (p_node (c_packet (m_rxchan m')) = 0 \/
     p_node (c_packet (m_rxchan m')) = r_my_node_id (m_radio m')).
Proof. exact (handle_packet_safe bench_run bench_run_ok). Defined.

Lemma read_eeprom_answers_witness :
  exists o buf, take 8 buf = [32; 33; 34; 35; 36; 37; 38; 39] /\
    libradio_command (bench_cmd RADIO_CMD_READ_EEPROM 4 [1; 8; 0; 32]) bench_run =
      send_and_listen 1
        (bench_run <| m_out := o |> <| m_statusbuffer := buf |>
           <| m_txchan ::= response RADIO_EEPROM_RESPONSE 40 8 buf |>).
Proof.
  destruct (read_eeprom_answers (bench_cmd RADIO_CMD_READ_EEPROM 4 [1; 8; 0; 32]) bench_run)
    as (o&buf&Hb&Hrun);
    [apply bench_cmd_ok; [done|done|bytes_cons]|apply bench_run_ok|done|done|done|done|].
  exists o, buf. split; [exact Hb|exact Hrun].
Defined.

Lemma write_eeprom_shifted_witness :
  exists o, libradio_command (bench_cmd RADIO_CMD_WRITE_EEPROM 4 [0; 16; 11; 12; 13]) bench_run =
    Done tt (bench_run <| m_out := o |> <| m_dev ::= fun d =>
      eeprom_write_byte 17 13 (eeprom_write_byte 16 12 d) |>).
Proof.
  apply (write_eeprom_shifted (bench_cmd RADIO_CMD_WRITE_EEPROM 4 [0; 16; 11; 12; 13]) bench_run);
    [apply bench_cmd_ok; [done|done|bytes_cons]|done|done|done].
Defined.

Lemma overruns_fault_witness :
  libradio_command (bench_cmd RADIO_CMD_WRITE_EEPROM 10 [0; 16]) bench_run = Fault OutOfBounds.
Proof.
  apply (overruns_fault (bench_cmd RADIO_CMD_WRITE_EEPROM 10 [0; 16]) bench_run);
    [apply bench_cmd_ok; [done|done|bytes_cons]|apply bench_run_ok|done|done].
Defined.

(** A radio that reports TX once and then READY. *)
Definition bench_tx : machine (list Z) unit :=
  bench_machine [0; 0; 255; 7; 2; 0; 0; 255; 3; 2] [].

Lemma tx_wait_ends_witness :
  tx_wait 5 bench_tx = Done tt (asked_after 2 bench_tx) /\
  r_curr_state (m_radio (asked_after 2 bench_tx)) = 3.
Proof.
  split; [|by vm_compute]. apply (tx_wait_ends 1 5 bench_tx).
  - by apply bench_machine_ok.
  - intros [|i] Hi; [by vm_compute|lia].
  - by vm_compute.
  - lia.
Defined.

Lemma response_is_sent_witness :
  libradio_send_response RADIO_STATUS_RESPONSE 4 9 2 (replicate 16 1) bench_run =
    (ok ← libradio_send TxChan 4;
     when (negb (ok =? 0)) (
       txchan_put c_state LIBRADIO_CHSTATE_EMPTY;;
       txchan_put c_priority 0);;
     tx_wait patience;;
     libradio_recv_start;;
     mret tt) (bench_run <| m_txchan ::= response RADIO_STATUS_RESPONSE 9 2 (replicate 16 1) |>).
Proof.
  apply (response_is_sent RADIO_STATUS_RESPONSE 4 9 2 (replicate 16 1) bench_run);
    [apply bench_run_ok|done|done].
Defined.
