(* ===== verification/Loop.v ===== *)
(** init.c, loop.c and debug.c: setting the library up, the main loop of a
    client with its state machine, and the debugging commands of the serial
    line. *)

From S2P Require Import Machine Clock State Spi Invariant Si4463 Wait Rxtx Command.

Section loop.
Context {D X : Type} `{Platform D} `{App D X} `{Patience}.

(** init.c *)

Definition libradio_set_clock (fast slow : Z) : fw D X unit :=
  rput r_period fast;;
  rput r_fast_period fast;;
  rput r_slow_period slow.

Definition libradio_init (c1 c2 n1 n2 : Z) : fw D X unit :=
  mput m_radio zero_libradio;;
  libradio_set_state LIBRADIO_STATE_STARTUP;;
  libradio_set_clock 1 16;;
  fp ← rget r_fast_period; rput r_period fp;;
  rput r_tens_of_minutes 0xff;;
  rput r_tick_count 5;;
  rput r_main_ticks 5;;
  rput r_curr_state SI4463_STATE_SLEEP;;
  rput r_cat1 c1;;
  rput r_cat2 c2;;
  rput r_num1 n1;;
  rput r_num2 n2;;
  pkt_init;;
  libradio_get_fifo_info 3;;
  mret tt.

(** loop.c *)

(** What the loop does when the radio has interrupted. *)
Definition loop_receive : fw D X unit :=
  libradio_set_delay 5;;
  libradio_handle_packet;;
  libradio_get_int_status;;
  libradio_irq_enable 1.

(** The switch on the state. *)
Definition loop_state : fw D X unit :=
  st ← rget r_state;
  if st =? LIBRADIO_STATE_ERROR then libradio_set_state LIBRADIO_STATE_WARM
  else if (st =? LIBRADIO_STATE_STARTUP) || (st =? LIBRADIO_STATE_COLD)
            || (st =? LIBRADIO_STATE_WARM) then libradio_set_state LIBRADIO_STATE_LISTEN
  else if st =? LIBRADIO_STATE_LISTEN then mret tt
  else
    saw ← rget r_saw_rx;
    when (negb (saw =? 0)) (
      rput r_timeout 60000;;
      rput r_saw_rx 0);;
    t ← rget r_timeout;
    rput r_timeout (u16 (t - 1));;
    t ← rget r_timeout;
    when (t =? 0) (libradio_set_state LIBRADIO_STATE_WARM).

Definition libradio_rxloop : fw D X unit :=
  status ← libradio_wait;
  when (negb (Z.land status LIBRADIO_WAIT_RXINT =? 0)) loop_receive;;
  loop_state.

(** debug.c *)

(** libavr's [getchar] waits for the serial line. *)
Definition getchar : fw D X Z :=
  q ← gets m_iqueue;
  match q with
  | [] => wait_more
  | c :: q' => mput m_iqueue q';; mret c
  end.

Definition putchar (c : Z) : fw D X unit := print [c].

(** The values of [%d] or [%x] separated by slashes. *)
Fixpoint slashes (fmt : Z -> list Z) (l : list Z) : list Z :=
  match l with
  | [] => []
  | [x] => fmt x
  | x :: l' => fmt x ++ str "/" ++ slashes fmt l'
  end.

Definition ch_is (ch : Z) (s : string) : bool := bool_decide (str s = [ch]).

Definition debug_fifo : fw D X unit :=
  libradio_get_fifo_info 0;;
  rx ← rget r_rx_fifo; tx ← rget r_tx_fifo;
  print (str "FIFO RX:" ++ fmt_d rx ++ str ",TX:" ++ fmt_d tx ++ [10]).

Definition debug_int_status : fw D X unit :=
  libradio_get_int_status;;
  l ← gets m_radio;
  print (str "INTST:I" ++ slashes fmt_x [r_int_pending l; r_int_status l]
         ++ str ",P" ++ slashes fmt_x [r_ph_pending l; r_ph_status l]
         ++ str ",M" ++ slashes fmt_x [r_modem_pending l; r_modem_status l]
         ++ str ",C" ++ slashes fmt_x [r_chip_pending l; r_chip_status l] ++ [10]).

Definition debug_command (ch : Z) : fw D X unit :=
  if is_digit ch then
    let ch := ch - 48 in
    print (str "-> " ++ fmt_d ch ++ [10]);;
    rput r_my_channel ch
  else if ch_is ch "r" then restart
  else if ch_is ch "i" then libradio_irq_enable 1;; print (str "IRQ-ena" ++ [10])
  else if ch_is ch "o" then libradio_irq_enable 0;; print (str "IRQ-dis" ++ [10])
  else if ch_is ch "h" then libradio_handle_packet;; print (str "handle packet" ++ [10])
  else if ch_is ch "p" then
    libradio_get_part_info;;
    l ← gets m_radio;
    print (str "PART: " ++ slashes fmt_d [r_chip_rev l; i16 (r_part_id l); r_pbuild l;
             i16 (r_device_id l); r_customer l; r_rom_id l] ++ [10])
  else if ch_is ch "f" then
    libradio_get_func_info;;
    l ← gets m_radio;
    print (str "FUNC: " ++ slashes fmt_d [r_rev_ext l; r_rev_branch l; r_rev_int l;
             i16 (r_patch l); r_func l] ++ [10])
  else if ch_is ch "c" then
    libradio_get_chip_status;;
    l ← gets m_radio;
    print (str "CHIP:" ++ slashes fmt_x [r_chip_pending l; r_chip_status l; r_cmd_error l]
             ++ [10])
  else if ch_is ch "d" then
    libradio_request_device_status;;
    l ← gets m_radio;
    print (str "DEVST:" ++ fmt_d (r_curr_state l) ++ str ",CH" ++ fmt_d (r_curr_channel l)
             ++ [10])
  else if ch_is ch "s" then debug_int_status
  else if ch_is ch "G" then libradio_get_fifo_info 3;; debug_fifo
  else if ch_is ch "g" then debug_fifo
  else if ch_is ch "z" then libradio_ircal
  else if ch_is ch "P" then libradio_get_property 0x100 4
  else putchar 10.

Definition libradio_debug : fw D X unit :=
  ch ← getchar;
  if (ch =? 10) || (ch =? 13) then putchar 10
  else
    f ← libradio_irq_fired;
    print (fmt_d f ++ str ">");;
    debug_command ch.
End loop.

(** ** Setting up *)

Section init.
Context {D X : Type} `{Platform D} `{App D X, !AppInv X}.
Implicit Types m : machine D X.

(** Every object but the record is well formed. *)
Definition statics_ok m : Prop :=
  forall l, libradio_ok l -> periods_ok l -> fw_ok (m <| m_radio := l |>).

Lemma reset_statics_ok (d : D) (x : X) evs :
  app_inv x -> Forall event_ok evs -> statics_ok (reset_machine d x evs).
Proof.
  intros Hx He l Hl Hp. split; try apply zero_channel_ok; try done.
  - split; [done|]. by apply Forall_replicate.
  - split; [done|]. by apply Forall_replicate.
  - constructor.
  - apply (reset_flags_ok d x evs).
Qed.

(** The record after [libradio_init]. *)
Definition init_record (c1 c2 n1 n2 : Z) : libradio :=
  zero_libradio <| r_heart_beat := 0xffff |> <| r_timeout := 6000 |>
    <| r_period := 1 |> <| r_fast_period := 1 |> <| r_slow_period := 16 |>
    <| r_tens_of_minutes := 0xff |> <| r_tick_count := 5 |> <| r_main_ticks := 5 |>
    <| r_curr_state := SI4463_STATE_SLEEP |>
    <| r_cat1 := c1 |> <| r_cat2 := c2 |> <| r_num1 := n1 |> <| r_num2 := n2 |>.

Lemma init_record_ok c1 c2 n1 n2 :
  is_u8 c1 -> is_u8 c2 -> is_u8 n1 -> is_u8 n2 ->
  libradio_ok (init_record c1 c2 n1 n2) /\ periods_ok (init_record c1 c2 n1 n2).
Proof.
  intros. unfold init_record. split; [|by split].
  repeat apply field_put; try done; apply zero_libradio_ok.
Qed.

(** The record right after the change to STARTUP, with the periods still zero. *)
Definition startup_record : libradio :=
  zero_libradio <| r_heart_beat := 0xffff |> <| r_timeout := 6000 |>.

(** The machine when the radio is asked for its FIFO. *)
Definition init_machine (c1 c2 n1 n2 : Z) m : machine D X :=
  m <| m_radio := init_record c1 c2 n1 n2 |> <| m_pkt_recv_len := 0 |>
    <| m_pkt_send_len := 0 |> <| m_pkt_index := 0 |> <| m_dev ::= spi_init |>.

(** The settings that follow the change to STARTUP, before whatever comes next. *)
Lemma init_settings_run {B} c1 c2 n1 n2 (k : unit -> fw D X B) m :
  m_radio m = startup_record ->
  (libradio_set_clock 1 16;;
   fp ← rget r_fast_period; rput r_period fp;;
   rput r_tens_of_minutes 0xff;;
   rput r_tick_count 5;;
   rput r_main_ticks 5;;
   rput r_curr_state SI4463_STATE_SLEEP;;
   rput r_cat1 c1;;
   rput r_cat2 c2;;
   rput r_num1 n1;;
   rput r_num2 n2;;
   pkt_init ≫= k) m = k tt (init_machine c1 c2 n1 n2 m).
Proof.
  intros Hl. unfold libradio_set_clock, pkt_init, rput, mput, rget.
  repeat first [rewrite bind_assoc | rewrite run_modify | rewrite run_gets].
  unfold init_machine, init_record. apply (f_equal (k tt)).
  destruct m. cbn in Hl. subst. lazy. reflexivity.
Qed.

Lemma init_machine_ok c1 c2 n1 n2 m :
  is_u8 c1 -> is_u8 c2 -> is_u8 n1 -> is_u8 n2 -> statics_ok m ->
  fw_ok (init_machine c1 c2 n1 n2 m).
Proof.
  intros H1' H2' H3' H4' Hm. destruct (init_record_ok c1 c2 n1 n2) as [Hl Hp]; [done..|].
  destruct (Hm _ Hl Hp). split; try done. unfold init_machine. flags.
Qed.

(** Setting up, given what the change to STARTUP does in the application at hand. *)
Lemma wp_libradio_init_from c1 c2 n1 n2 m m0 :
  libradio_set_state LIBRADIO_STATE_STARTUP (m <| m_radio := zero_libradio |>) = Done tt m0 ->
  m_radio m0 = startup_record -> statics_ok m0 ->
  is_u8 c1 -> is_u8 c2 -> is_u8 n1 -> is_u8 n2 ->
  wp (libradio_init c1 c2 n1 n2) (fun _ m' =>
    fw_ok m' /\ settings (m_radio m') = settings (init_record c1 c2 n1 n2) /\
    m_app m' = m_app m0) m.
Proof.
  intros Hs Hl Hm Hc1 Hc2 Hn1 Hn2.
  assert (libradio_init c1 c2 n1 n2 m =
    (libradio_get_fifo_info 3;; mret tt) (init_machine c1 c2 n1 n2 m0)) as Hrun.
  { unfold libradio_init. unfold mput at 1. rewrite run_modify.
    rewrite (bind_done _ _ _ _ _ Hs). by apply init_settings_run. }
  rewrite (wp_eq _ _ _ _ _ Hrun).
  pose proof (init_machine_ok c1 c2 n1 n2 m0 Hc1 Hc2 Hn1 Hn2 Hm) as Hm1.
  apply (keeps_step fw_ok query_only (init_machine c1 c2 n1 n2 m0)); [auto with keeps|done|].
  intros _ m' [Hm' [Hst E] ]. rewrite wp_ret. split; [done|].
  split; [rewrite Hst; unfold init_machine; by upd_simpl|by rewrite E].
Qed.

(** The library's own power mode starts the fast clock. *)
Lemma startup_run `{!StockPower D X} m :
  libradio_set_state LIBRADIO_STATE_STARTUP (m <| m_radio := zero_libradio |>) =
    Done tt (m <| m_radio := startup_record |> <| m_sreg_i := true |> <| m_tccr1b := 11 |>
               <| m_tccr1c := 0 |> <| m_timsk1 := 2 |>).
Proof.
  apply wp_run. intros Q. unfold libradio_set_state, startup_record. rewrite wp_bind, wp_rget.
  change (negb (LIBRADIO_STATE_STARTUP =? LIBRADIO_STATE_STARTUP)) with false. cbn [andb].
  rewrite wp_bind, wp_libradio_set_song by done.
  change ((LIBRADIO_STATE_STARTUP =? LIBRADIO_STATE_COLD)
          || (LIBRADIO_STATE_STARTUP =? LIBRADIO_STATE_WARM)) with false.
  change (LIBRADIO_STATE_STARTUP =? LIBRADIO_STATE_LISTEN) with false.
  change (LIBRADIO_STATE_STARTUP =? LIBRADIO_STATE_ERROR) with false. cbv iota.
  unfold set_state_active. rewrite wp_bind, wp_bind, wp_libradio_power_mode, !wp_rput.
  by f_equal.
Qed.

Lemma statics_ok_clock m b t c k :
  is_u8 t -> is_u8 c -> is_u8 k -> statics_ok m ->
  statics_ok (m <| m_radio := startup_record |> <| m_sreg_i := b |> <| m_tccr1b := t |>
                <| m_tccr1c := c |> <| m_timsk1 := k |>).
Proof. intros Ht Hc Hk Hm l Hl Hp. destruct (Hm l Hl Hp). split; try done. flags. Qed.

Lemma wp_libradio_init `{!StockPower D X} c1 c2 n1 n2 m :
  is_u8 c1 -> is_u8 c2 -> is_u8 n1 -> is_u8 n2 -> statics_ok m ->
  wp (libradio_init c1 c2 n1 n2) (fun _ m' =>
    fw_ok m' /\ settings (m_radio m') = settings (init_record c1 c2 n1 n2) /\
    m_app m' = m_app m) m.
Proof.
  intros Hc1 Hc2 Hn1 Hn2 Hm.
  exact (wp_libradio_init_from c1 c2 n1 n2 m _ (startup_run m) eq_refl
           (statics_ok_clock m true 11 0 2 ltac:(done) ltac:(done) ltac:(done) Hm) Hc1 Hc2 Hn1 Hn2).
Qed.

Lemma wp_libradio_set_clock fast slow m :
  1 <= fast < 256 -> 1 <= slow < 256 -> fw_ok m ->
  wp (libradio_set_clock fast slow) (fun _ m' => fw_ok m' /\
    m' = m <| m_radio ::= fun l =>
           l <| r_period := fast |> <| r_fast_period := fast |> <| r_slow_period := slow |> |>) m.
Proof.
  intros Hf Hs Hm. unfold libradio_set_clock. wp_simpl.
  match goal with |- fw_ok ?x /\ _ = ?z => assert (x = z) as -> by by destruct m end.
  split; [|done]. apply fw_ok_radio; [done| |].
  - repeat (apply field_put; [|unfold is_u8; lia]). apply Hm.
  - by split.
Qed.
End init.

(** ** The main loop *)

Section main_loop.
Context {D X : Type} `{Platform D} `{StockPower D X, !AppInv X} `{Patience}.
Implicit Types m : machine D X.

(** The record after the switch of [libradio_rxloop]. *)
Definition loop_next (l : libradio) : libradio :=
  if r_state l =? LIBRADIO_STATE_ERROR then mode_after LIBRADIO_STATE_WARM l
  else if (r_state l =? LIBRADIO_STATE_STARTUP) || asleep l then
    mode_after LIBRADIO_STATE_LISTEN l
  else if r_state l =? LIBRADIO_STATE_LISTEN then l
  else
    let l1 := if negb (r_saw_rx l =? 0) then l <| r_timeout := 60000 |> <| r_saw_rx := 0 |>
              else l in
    let l2 := l1 <| r_timeout := u16 (r_timeout l1 - 1) |> in
    if r_timeout l2 =? 0 then mode_after LIBRADIO_STATE_WARM l2 else l2.

Lemma state_set_other s l : r_state l <> s -> state_set s l = mode_after s l.
Proof.
  intros Hs. unfold state_set. rewrite (proj2 (Z.eqb_neq (r_state l) s)) by done. by rewrite andb_false_r.
Qed.

Lemma wp_loop_state m :
  fw_ok m -> wp loop_state (fun _ m' => tracks m (loop_next (m_radio m)) m') m.
Proof.
  intros Hm. pose proof (tracks_refl m Hm) as Ht. unfold loop_state, loop_next, asleep.
  rewrite wp_bind, wp_rget. set (l := m_radio m) in *.
  destruct (Z.eqb_spec (r_state l) LIBRADIO_STATE_ERROR) as [He|He].
  { rewrite <- state_set_other by (rewrite He; done). by apply tracks_set_state. }
  destruct (Z.eqb_spec (r_state l) LIBRADIO_STATE_STARTUP) as [Es|Es]; cbn [orb].
  { rewrite <- state_set_other by (rewrite Es; done). by apply tracks_set_state. }
  destruct (Z.eqb_spec (r_state l) LIBRADIO_STATE_COLD) as [Ec|Ec]; cbn [orb].
  { rewrite <- state_set_other by (rewrite Ec; done). by apply tracks_set_state. }
  destruct (Z.eqb_spec (r_state l) LIBRADIO_STATE_WARM) as [Ew|Ew]; cbn [orb].
  { rewrite <- state_set_other by (rewrite Ew; done). by apply tracks_set_state. }
  destruct (Z.eqb_spec (r_state l) LIBRADIO_STATE_LISTEN) as [El|El]; [by rewrite wp_ret|].
  eapply tracks_rget; [done|]. cbv zeta.
  assert (forall l1 m1, tracks m l1 m1 -> r_state l1 = r_state l ->
    wp (t ← rget r_timeout; rput r_timeout (u16 (t - 1));;
        t ← rget r_timeout; when (t =? 0) (libradio_set_state LIBRADIO_STATE_WARM))
      (fun _ m' => tracks m (
         let l2 := l1 <| r_timeout := u16 (r_timeout l1 - 1) |> in
         if r_timeout l2 =? 0 then mode_after LIBRADIO_STATE_WARM l2 else l2) m') m1) as Hrest.
  { intros l1 m1 Ht1 Hst. eapply tracks_rget; [done|].
    eapply (tracks_rput is_u16); [tc_solve|done|apply u16_range|by intros ? []|intros m2 Ht2].
    eapply tracks_rget; [done|]. cbv zeta. rewrite wp_when.
    destruct (_ =? 0); [|done].
    rewrite <- state_set_other by (change (r_state l1 <> LIBRADIO_STATE_WARM); congruence).
    by apply tracks_set_state. }
  rewrite wp_bind, wp_when. destruct (negb (r_saw_rx l =? 0)).
  - eapply (tracks_rput is_u16); [tc_solve|done|done|by intros ? []|clear Ht; intros m1 Ht].
    rewrite wp_rput. apply Hrest; [|done]. 
    destruct Ht as (Hm1&Hf1&Hl1). split_and!.
    + apply fw_ok_radio; [done|apply field_put; [by apply fw_radio|done]|].
      by destruct (fw_periods _ Hm1).
    + etrans; [done|apply put_radio_lib_frame].
    + upd_simpl. by rewrite Hl1.
  - by apply Hrest.
Qed.

(** *** An active device without traffic *)

Lemma loop_next_active l :
  r_state l = LIBRADIO_STATE_ACTIVE -> r_saw_rx l = 0 -> 1 < r_timeout l < 65536 ->
  loop_next l = l <| r_timeout := r_timeout l - 1 |>.
Proof.
  intros Hs Hw Ht. unfold loop_next, asleep. rewrite Hs, Hw.
  cbn [Z.eqb Pos.eqb negb orb]. cbv zeta. upd_simpl.
  rewrite u16_small by warith. change (LIBRADIO_STATE_ACTIVE =? _) with false.
  cbn [orb]. destruct (Z.eqb_spec (r_timeout l - 1) 0); [lia|done].
Qed.

Lemma loop_next_last l :
  r_state l = LIBRADIO_STATE_ACTIVE -> r_saw_rx l = 0 -> r_timeout l = 1 ->
  r_state (loop_next l) = LIBRADIO_STATE_WARM.
Proof.
  intros Hs Hw Ht. unfold loop_next, asleep. rewrite Hs, Hw.
  cbn [Z.eqb Pos.eqb negb orb]. cbv zeta. upd_simpl. by rewrite Ht.
Qed.

Lemma loop_states_run n k m :
  fw_ok m -> r_state (m_radio m) = LIBRADIO_STATE_ACTIVE -> r_saw_rx (m_radio m) = 0 ->
  r_timeout (m_radio m) < 65536 -> Z.of_nat n < r_timeout (m_radio m) ->
  wp (for_loop n k (fun _ => loop_state)) (fun _ m' =>
    fw_ok m' /\ m_radio m' = (m_radio m) <| r_timeout := r_timeout (m_radio m) - Z.of_nat n |>) m.
Proof.
  revert k m. induction n as [|n IH]; intros k m Hm Hs Hw Ht Hn; cbn [for_loop].
  { rewrite wp_ret. split; [done|]. rewrite Z.sub_0_r. by destruct (m_radio m). }
  rewrite wp_bind. eapply wp_mono; [by apply wp_loop_state|]. intros _ m1 (Hm1&_&Hl1).
  rewrite loop_next_active in Hl1 by (done || lia).
  assert (r_timeout (m_radio m1) = r_timeout (m_radio m) - 1) as Ht1 by by rewrite Hl1.
  eapply wp_mono; [apply IH; [done|by rewrite Hl1|by rewrite Hl1|lia|lia]|].
  intros _ m2 [Hm2 Hl2]. split; [done|]. rewrite Hl2, Ht1, Hl1.
  replace (r_timeout (m_radio m) - 1 - Z.of_nat n)
    with (r_timeout (m_radio m) - Z.of_nat (S n)) by lia. by destruct (m_radio m).
Qed.

(** *** Without traffic *)

(** How many passes an active device waits for traffic, [timeout] being a 16-bit
    variable that is counted down before it is looked at. *)
Definition silence_limit (l : libradio) : Z :=
  if negb (r_saw_rx l =? 0) then 60000 else if r_timeout l =? 0 then 65536 else r_timeout l.

(** The state after [k] passes in which no packet is received. *)
Definition state_after (k : nat) (l : libradio) : Z :=
  if (k =? 0)%nat then r_state l
  else if (r_state l =? LIBRADIO_STATE_STARTUP) || asleep l || (r_state l =? LIBRADIO_STATE_LISTEN)
  then LIBRADIO_STATE_LISTEN
  else
    let limit := if r_state l =? LIBRADIO_STATE_ERROR then 1 else silence_limit l in
    if Z.of_nat k <? limit then r_state l
    else if Z.of_nat k =? limit then LIBRADIO_STATE_WARM
    else LIBRADIO_STATE_LISTEN.

(** What it depends on. *)
Definition vital (l : libradio) : Z * Z * Z := (r_state l, r_timeout l, r_saw_rx l).

Lemma state_after_vital k l l' : vital l = vital l' -> state_after k l = state_after k l'.
Proof. unfold vital, state_after, silence_limit, asleep. by intros [= -> -> ->]. Qed.

Lemma state_after_warm k l : r_state l = LIBRADIO_STATE_WARM ->
  state_after k l = if (k =? 0)%nat then LIBRADIO_STATE_WARM else LIBRADIO_STATE_LISTEN.
Proof. intros Hs. unfold state_after, asleep. by rewrite Hs. Qed.

Lemma state_after_listen k l : r_state l = LIBRADIO_STATE_LISTEN -> state_after k l = LIBRADIO_STATE_LISTEN.
Proof. intros Hs. unfold state_after, asleep. rewrite Hs. by destruct k. Qed.

(** The pass of an active device. *)
Lemma state_after_active k l :
  is_u16 (r_timeout l) -> r_state l <> LIBRADIO_STATE_ERROR ->
  (r_state l =? LIBRADIO_STATE_STARTUP) || asleep l = false -> r_state l <> LIBRADIO_STATE_LISTEN ->
  state_after (S k) l = state_after k (loop_next l).
Proof.
  intros Ht He Hn Hl. unfold loop_next. rewrite (proj2 (Z.eqb_neq _ _) He), Hn, (proj2 (Z.eqb_neq _ _) Hl).
  set (l1 := if negb (r_saw_rx l =? 0) then _ else l). cbv zeta.
  assert (u16 (r_timeout l1 - 1) = silence_limit l - 1 /\ 1 <= silence_limit l /\
    r_saw_rx l1 = 0 /\ r_state l1 = r_state l) as (Hu&Hp&Hw&Hs).
  { unfold l1, silence_limit. destruct (Z.eqb_spec (r_saw_rx l) 0); cbn [negb]; [|upd_simpl; by split_and!].
    destruct (Z.eqb_spec (r_timeout l) 0) as [->|]; [by split_and!|].
    rewrite u16_small by warith. split_and!; [done|unfold is_u16 in Ht; lia|done..]. }
  clearbody l1. upd_simpl. rewrite Hu.
  assert (state_after (S k) l = if Z.of_nat (S k) <? silence_limit l then r_state l
    else if Z.of_nat (S k) =? silence_limit l then LIBRADIO_STATE_WARM else LIBRADIO_STATE_LISTEN) as ->.
  { unfold state_after. cbn [Nat.eqb]. by rewrite Hn, (proj2 (Z.eqb_neq _ _) Hl), (proj2 (Z.eqb_neq _ _) He). }
  set (l2 := l1 <| r_timeout := silence_limit l - 1 |>).
  destruct (Z.eqb_spec (silence_limit l - 1) 0) as [E1|E1].
  - rewrite state_after_warm by reflexivity. rewrite (proj2 (Z.ltb_ge _ _)) by lia.
    destruct k; [by rewrite (proj2 (Z.eqb_eq _ _)) by lia|by rewrite (proj2 (Z.eqb_neq _ _)) by lia].
  - assert (r_timeout l2 = silence_limit l - 1) as Et2 by reflexivity.
    assert (r_state l2 = r_state l) as Es2 by exact Hs. assert (r_saw_rx l2 = 0) as Ew2 by exact Hw.
    clearbody l2. assert (asleep l2 = asleep l) as Ea by (unfold asleep; by rewrite Es2).
    unfold state_after. rewrite Es2, Ea, Hn, (proj2 (Z.eqb_neq _ _) Hl), (proj2 (Z.eqb_neq _ _) He). cbn [orb].
    assert (silence_limit l2 = silence_limit l - 1) as ->
      by (unfold silence_limit at 1; by rewrite Ew2, Et2, (proj2 (Z.eqb_neq _ _) E1)).
    destruct (Nat.eqb_spec k 0); zcases; try done; lia.
Qed.

Lemma state_after_next k l :
  is_u16 (r_timeout l) -> state_after (S k) l = state_after k (loop_next l).
Proof.
  intros Ht. destruct (Z.eqb_spec (r_state l) LIBRADIO_STATE_ERROR) as [He|He].
  { unfold loop_next. rewrite He. rewrite (state_after_warm k) by reflexivity.
    unfold state_after, asleep. rewrite He. cbn [Nat.eqb Z.eqb Pos.eqb orb]. destruct k; [done|].
    zcases; try done; lia. }
  destruct ((r_state l =? LIBRADIO_STATE_STARTUP) || asleep l) eqn:Hn.
  { unfold loop_next. rewrite (proj2 (Z.eqb_neq _ _) He), Hn. rewrite (state_after_listen k) by reflexivity.
    unfold state_after. cbn [Nat.eqb]. by rewrite Hn. }
  destruct (Z.eqb_spec (r_state l) LIBRADIO_STATE_LISTEN) as [Hl|Hl]; [|by apply state_after_active].
  unfold loop_next. rewrite (proj2 (Z.eqb_neq _ _) He), Hn, Hl. by rewrite !state_after_listen.
Qed.

Definition is_radio_irq (e : event) : bool := match e with RadioIrq => true | _ => false end.

(** No interrupt of the radio is pending or to come. *)
Definition quiet m : Prop :=
  fw_ok m /\ m_irq_fired m = 0 /\ Forall (fun e => is_radio_irq e = false) (m_events m).

Lemma after_quiet evs m :
  Forall (fun e => is_radio_irq e = false) evs ->
  vital (m_radio (after evs m)) = vital (m_radio m) /\ m_irq_fired (after evs m) = m_irq_fired m.
Proof.
  unfold after. intros He. revert m. induction He as [|e evs He _ IH]; intros m; [done|]. cbn [foldl].
  destruct (IH (absorb e m)) as [-> ->]. by destruct e.
Qed.

(** A pass without a packet waits and makes the switch. *)
Lemma quiet_pass m :
  quiet m -> safe libradio_rxloop (fun _ m' => quiet m' /\
    exists l, vital l = vital (m_radio m) /\ m_radio m' = loop_next l) m.
Proof.
  intros (Hm&Hi&He). unfold libradio_rxloop. rewrite safe_bind. unfold safe at 1.
  pose proof (preserves_libradio_wait m Hm) as Hok. unfold safe in Hok. revert Hok.
  unfold libradio_wait. rewrite run_gets. pose proof (wait_loop_run (m_events m) m) as Hrun.
  assert (m <| m_events := m_events m |> = m) as E by by destruct m.
  rewrite E in Hrun. destruct Hrun as [(k&Hk&_&_&->)|[_ ->] ]; [|done].
  set (m1 := absorbs (take k (m_events m)) (drop k (m_events m)) m). intros Hok.
  destruct (after_quiet (take k (m_events m)) m) as [Hv1 Hi1]; [by apply Forall_take|].
  assert (Z.land (wake_status m1) LIBRADIO_WAIT_RXINT = 0) as Hnoirq.
  { unfold wake_status. change (m_irq_fired m1) with (m_irq_fired (after (take k (m_events m)) m)).
    rewrite Hi1, Hi. cbn [Z.eqb negb]. destruct (negb _), (bool_decide _); done. }
  rewrite Hnoirq. apply safe_wp. rewrite wp_bind, wp_when. cbn [Z.eqb negb].
  eapply wp_mono; [by apply wp_loop_state|]. intros _ m3 (Hm3&Hf&Hl). split.
  - split; [done|]. rewrite Hf.
    change (m_irq_fired (after (take k (m_events m)) m) = 0 /\
      Forall (fun e => is_radio_irq e = false) (drop k (m_events m))).
    split; [congruence|by apply Forall_drop].
  - eexists. split; [|exact Hl]. exact Hv1.
Qed.

Lemma quiet_passes n k m :
  quiet m -> safe (for_loop n k (fun _ => libradio_rxloop)) (fun _ m' =>
    quiet m' /\ r_state (m_radio m') = state_after n (m_radio m)) m.
Proof.
  revert k m. induction n as [|n IH]; intros k m Hm; cbn [for_loop]; [by split|].
  rewrite safe_bind. eapply safe_mono; [by apply quiet_pass|]. intros _ m1 [Hm1 (l&Hv&Hl)].
  eapply safe_mono; [by apply IH|]. intros _ m2 [Hm2 Hs]. split; [done|].
  rewrite Hs, Hl, <- (state_after_next n l); [by apply state_after_vital|].
  injection Hv as _ -> _. by apply field_get, fw_radio, Hm.
Qed.
End main_loop.

(** ** Safety *)

Section loop_safety.
Context {D X : Type} `{Platform D} `{PowerLaws D X, !AppLaws D X} `{Patience}.
Implicit Types m : machine D X.

(** The wait ends with an interrupt of the radio, and the packet then received is
    for this node and overruns an array. *)
Definition loop_overrun m : Prop :=
  exists status m1 m2,
    libradio_wait m = Done status m1 /\ Z.land status LIBRADIO_WAIT_RXINT <> 0 /\
    libradio_set_delay 5 m1 = Done tt m2 /\ overrun_received m2.

Lemma preserves_loop_state : preserves fw_ok (loop_state : fw D X unit).
Proof.
  unfold loop_state. preserve; by apply preserves_libradio_set_state.
Qed.

Lemma preserves_after_packet :
  preserves fw_ok (libradio_get_int_status;; libradio_irq_enable 1 : fw D X unit).
Proof.
  apply preserves_bind; [eapply preserves_keeps, query_get_int_status|].
  intros u. by apply preserves_libradio_irq_enable.
Qed.

Lemma rxloop_cases m :
  fw_ok m -> safe libradio_rxloop (fun _ m' => fw_ok m') m \/ loop_overrun m.
Proof.
  intros Hm. unfold libradio_rxloop.
  pose proof (preserves_libradio_wait m Hm) as Hw. unfold safe in Hw |- *.
  unfold mbind at 1, cmd_bind at 1.
  destruct (libradio_wait m) as [status m1| | |] eqn:Ew; [|done|by left..].
  destruct (Z.eqb_spec (Z.land status LIBRADIO_WAIT_RXINT) 0) as [E|E]; cbn [negb when].
  { left. by apply preserves_loop_state. }
  pose proof (preserves_libradio_set_delay 5 ltac:(done) m1 Hw) as Hd. unfold safe in Hd.
  destruct (libradio_set_delay 5 m1) as [[] m2| | |] eqn:Ed; [|done|..];
    try (left; unfold loop_receive, mbind, cmd_bind; by rewrite Ed).
  destruct (handle_packet_cases m2 Hd) as [Hh|Ho]; [left|right; by exists status, m1, m2].
  change (safe (loop_receive;; loop_state) (fun _ m' => fw_ok m') m1).
  rewrite safe_bind.
  assert (safe loop_receive (fun _ m' => fw_ok m') m1) as Hr.
  { unfold loop_receive. rewrite safe_bind. unfold safe at 1. rewrite Ed. rewrite safe_bind.
    eapply safe_mono; [exact Hh|]. intros ? m3 Hm3. by apply preserves_after_packet. }
  eapply safe_mono; [exact Hr|]. intros ? m3 Hm3. by apply preserves_loop_state.
Qed.
End loop_safety.

(** ** Properties *)

Section properties.
Context {D X : Type} `{Platform D} `{StockPower D X, !AppInv X} `{Patience}.
Implicit Types m : machine D X.

(** From power-on, whatever the radio answers, setting up returns with every
    object well formed and the settings of the documentation: state STARTUP,
    the fast clock of 10 ms and the slow one of 160 ms, the time unknown, the
    first wake-up after 5 ticks, the radio off and the device's four bytes. *)
Theorem init_establishes c1 c2 n1 n2 m :
  is_u8 c1 -> is_u8 c2 -> is_u8 n1 -> is_u8 n2 -> statics_ok m ->
  wp (libradio_init c1 c2 n1 n2) (fun _ m' =>
    fw_ok m' /\ settings (m_radio m') = settings (init_record c1 c2 n1 n2)) m.
Proof.
  intros. eapply wp_mono; [by apply wp_libradio_init|]. by intros _ m' (?&?&_).
Qed.

(** The switch of the main loop makes exactly the transitions of
    [loop_next]: ERROR to WARM; STARTUP, COLD and WARM to LISTEN; LISTEN stays;
    an active device counts its timeout down, starts it again at 60000 when
    there was traffic, and goes to WARM when it reaches zero. *)
Theorem loop_state_refines m :
  fw_ok m -> wp loop_state (fun _ m' =>
    fw_ok m' /\ lib_frame m m' /\ m_radio m' = loop_next (m_radio m)) m.
Proof. apply wp_loop_state. Qed.

(** An active device that hears nothing stays active for [timeout - 1]
    passes and goes to the WARM sleep on the next one: after a change to ACTIVE
    that is pass 6000, not the 60,000 of the comment in state.c. *)
Theorem active_times_out n m :
  fw_ok m -> r_state (m_radio m) = LIBRADIO_STATE_ACTIVE -> r_saw_rx (m_radio m) = 0 ->
  r_timeout (m_radio m) = Z.of_nat (S n) ->
  wp (for_loop n 0 (fun _ => loop_state)) (fun _ m' =>
    r_state (m_radio m') = LIBRADIO_STATE_ACTIVE /\ r_timeout (m_radio m') = 1 /\
    wp loop_state (fun _ m'' => r_state (m_radio m'') = LIBRADIO_STATE_WARM) m') m.
Proof.
  intros Hm Hs Hw Ht.
  assert (is_u16 (r_timeout (m_radio m))) as Hu by by apply field_get, fw_radio.
  eapply wp_mono; [apply loop_states_run; [done|done|done|apply Hu|lia]|].
  intros _ m1 [Hm1 Hl1].
  assert (r_timeout (m_radio m1) = 1) as Ht1 by (rewrite Hl1; upd_simpl; lia).
  assert (r_state (m_radio m1) = LIBRADIO_STATE_ACTIVE) as Hs1 by by rewrite Hl1.
  assert (r_saw_rx (m_radio m1) = 0) as Hw1 by by rewrite Hl1.
  split_and!; [done|done|].
  eapply wp_mono; [by apply wp_loop_state|]. intros _ m2 (_&_&Hl2).
  rewrite Hl2. by apply loop_next_last.
Qed.

(** [C37] The life of a client that hears nothing, whatever timer ticks and characters
    arrive, as long as its main loop goes on: after [n] passes it is in the state
    [state_after n]. Asleep or started up it listens after one pass, and listens for
    ever, the timeout of that state being compiled out; after an error it goes to the WARM
    sleep first; in any other state (ACTIVE, those an application adds, and LOW_BATTERY)
    it stays for exactly [silence_limit] passes, 60000 if there has just been traffic,
    sleeps WARM for one, and then listens. *)
Theorem client_life n m :
  fw_ok m -> m_irq_fired m = 0 -> Forall (fun e => is_radio_irq e = false) (m_events m) ->
  safe (for_loop n 0 (fun _ => libradio_rxloop)) (fun _ m' =>
    fw_ok m' /\ r_state (m_radio m') = state_after n (m_radio m)) m.
Proof.
  intros Hm Hi He. eapply safe_mono; [by apply quiet_passes|]. by intros ? m' [ [? _] ?].
Qed.
End properties.

Section safety_property.
Context {D X : Type} `{Platform D} `{PowerLaws D X, !AppLaws D X} `{Patience}.
Implicit Types m : machine D X.

(** [C3] A pass of the main loop is free of undefined behaviour and keeps the
    invariant, whatever interrupts arrive, the radio delivers and the
    application does within its promises - unless the packet received is one of
    the two overrunning commands for this node. *)
Theorem rxloop_safe m :
  fw_ok m -> safe libradio_rxloop (fun _ m' => fw_ok m') m \/ loop_overrun m.
Proof. apply rxloop_cases. Qed.
End safety_property.

(** ** Instances of the properties *)

#[local] Existing Instance bench_app.
#[local] Existing Instance bench_inv.
#[local] Existing Instance bench_laws.
#[local] Instance bench_stock {D X} : StockPower D X := eq_refl.
#[local] Instance bench_patience : Patience := 10%nat.

Definition bench_reset : machine (list Z) unit := reset_machine (replicate 100 255) tt [].

Lemma init_establishes_witness :
  wp (libradio_init 1 2 0 9) (fun _ m' =>
    fw_ok m' /\ settings (m_radio m') = settings (init_record 1 2 0 9)) bench_reset.
Proof.
  exact (init_establishes 1 2 0 9 bench_reset ltac:(done) ltac:(done) ltac:(done) ltac:(done)
           (reset_statics_ok _ _ _ I (Forall_nil_2 _))).
Defined.

Lemma loop_state_refines_witness :
  wp loop_state (fun _ m' =>
    fw_ok m' /\ lib_frame bench_run m' /\ m_radio m' = loop_next (m_radio bench_run)) bench_run.
Proof. exact (loop_state_refines bench_run bench_run_ok). Defined.

Definition bench_with (g : libradio -> libradio) evs : machine (list Z) unit :=
  (bench_machine [] evs) <| m_radio ::= g |>.

Lemma bench_with_ok g evs :
  Forall event_ok evs ->
  libradio_ok (g (m_radio bench_run)) -> periods_ok (g (m_radio bench_run)) ->
  fw_ok (bench_with g evs).
Proof. intros He Hl Hp. unfold bench_with. apply fw_ok_radio; [by apply bench_machine_ok|done..]. Qed.

Definition bench_short : machine (list Z) unit := bench_with (fun l => l <| r_timeout := 3 |>) [].

Lemma bench_short_ok : fw_ok bench_short.
Proof.
  apply bench_with_ok; [done| |done]. apply field_put; [apply bench_run_ok|done].
Qed.

Lemma active_times_out_witness :
  wp (for_loop 2 0 (fun _ => loop_state)) (fun _ m' =>
    r_state (m_radio m') = LIBRADIO_STATE_ACTIVE /\ r_timeout (m_radio m') = 1 /\
    wp loop_state (fun _ m'' => r_state (m_radio m'') = LIBRADIO_STATE_WARM) m') bench_short.
Proof. exact (active_times_out 2 bench_short bench_short_ok eq_refl eq_refl eq_refl). Defined.

Definition bench_listen : machine (list Z) unit :=
  bench_with (fun l => l <| r_state := LIBRADIO_STATE_LISTEN |>) [Tick; SerialRx 65; Tick; Tick].

Lemma bench_listen_ok : fw_ok bench_listen.
Proof.
  apply bench_with_ok; [repeat constructor; done| |done].
  apply field_put; [apply bench_run_ok|done].
Qed.

(** An active device with three passes left, ticks enough for the passes, and a
    character. *)
Definition bench_silent : machine (list Z) unit :=
  bench_with (fun l => l <| r_timeout := 3 |>) (SerialRx 65 :: replicate 12 Tick).

Lemma bench_silent_ok : fw_ok bench_silent.
Proof.
  apply bench_with_ok; [repeat constructor; done| |done].
  apply field_put; [apply bench_run_ok|done].
Qed.

Lemma silent_goes_on :
  match for_loop 3 0 (fun _ => libradio_rxloop) bench_silent with Done _ _ => true | _ => false end = true.
Proof. vm_compute. reflexivity. Qed.

Lemma client_life_witness :
  state_after 2 (m_radio bench_silent) = LIBRADIO_STATE_ACTIVE /\
  state_after 4 (m_radio bench_silent) = LIBRADIO_STATE_LISTEN /\
  exists m', for_loop 3 0 (fun _ => libradio_rxloop) bench_silent = Done tt m' /\
    r_state (m_radio m') = LIBRADIO_STATE_WARM.
Proof.
  split; [reflexivity|]. split; [reflexivity|].
  pose proof (client_life 3 bench_silent bench_silent_ok eq_refl ltac:(by repeat constructor)) as Hs.
  pose proof silent_goes_on as Hd. revert Hs Hd. unfold safe.
  generalize (for_loop 3 0 (fun _ => libradio_rxloop) bench_silent). intros [ [] m'| | |m'] Hs Hd; [|done..].
  exists m'. split; [reflexivity|]. exact (proj2 Hs).
Defined.

Lemma rxloop_safe_witness :
  safe libradio_rxloop (fun _ m' => fw_ok m') bench_listen \/ loop_overrun bench_listen.
Proof. exact (rxloop_safe bench_listen bench_listen_ok). Defined.
