(* ===== verification/Debug.v ===== *)
(** debug.c: the debugging commands of the serial line are safe in every
    application, except that the one that handles a packet inherits the
    overruns of the two EEPROM commands. *)

From S2P Require Import Machine Clock State Spi Invariant Si4463 Wait Rxtx Command Loop.

Section debug.
Context {D X : Type} `{Platform D} `{PowerLaws D X, !AppLaws D X} `{Patience}.
Implicit Types m : machine D X.

(** A query followed by a report of what it found. *)
Lemma preserves_query_report (q : fw D X unit) (f : libradio -> list Z) :
  keeps fw_ok query_only q -> preserves fw_ok (q;; l ← gets m_radio; print (f l)).
Proof.
  intros Hq. apply preserves_bind; [by eapply preserves_keeps|intros _].
  apply preserves_bind; [apply preserves_gets|intros l; apply preserves_print].
Qed.

Lemma preserves_debug_fifo : preserves fw_ok (debug_fifo : fw D X unit).
Proof.
  apply preserves_bind; [eapply preserves_keeps; by apply query_get_fifo_info|intros _].
  preserve.
Qed.

(** Every command but the one that handles a packet. *)
Lemma preserves_debug_command ch :
  ch_is ch "h" = false -> preserves fw_ok (debug_command ch : fw D X unit).
Proof.
  intros Hh. unfold debug_command. rewrite Hh.
  destruct (is_digit ch) eqn:Ed.
  { cbv zeta. apply preserves_bind; [apply preserves_print|intros _].
    apply (preserves_rput is_u8 r_my_channel); [|by intros ? [] ].
    unfold is_digit in Ed. unfold is_u8. lia. }
  apply preserves_if; [apply preserves_stop|].
  do 2 (apply preserves_if;
    [apply preserves_bind; [by apply preserves_libradio_irq_enable|intros _; apply preserves_print]|]).
  do 3 (apply preserves_if; [apply preserves_query_report; auto with keeps|]).
  apply preserves_if.
  { apply preserves_bind; [eapply preserves_keeps, query_request_device_status|intros _].
    apply preserves_bind; [apply preserves_gets|intros l; apply preserves_print]. }
  apply preserves_if; [apply preserves_query_report; auto with keeps|].
  apply preserves_if.
  { apply preserves_bind; [eapply preserves_keeps; by apply query_get_fifo_info|intros _].
    apply preserves_debug_fifo. }
  apply preserves_if; [apply preserves_debug_fifo|].
  apply preserves_if; [eapply preserves_keeps, query_ircal|].
  apply preserves_if; [eapply preserves_keeps; by apply query_get_property|].
  apply preserves_print.
Qed.

(** The next character has the packet handled that overruns an array. *)
Definition debug_overrun m : Prop :=
  exists q : list Z, m_iqueue m = 104 :: q /\
    overrun_received (m <| m_iqueue := q |>
      <| m_out ::= fun o => o ++ fmt_d (m_irq_fired m) ++ str ">" |>).

Lemma debug_cases m :
  fw_ok m -> safe libradio_debug (fun _ => fw_ok) m \/ debug_overrun m.
Proof.
  intros Hm. unfold libradio_debug. rewrite safe_bind.
  destruct (m_iqueue m) as [|ch q] eqn:Eq.
  { left. unfold safe at 1, getchar. by rewrite run_gets, Eq. }
  assert (fw_ok (m <| m_iqueue := q |>)) as Hq.
  { pose proof (fw_queue m Hm) as Hb. rewrite Eq in Hb. apply Forall_cons in Hb as [_ Hb].
    destruct Hm. by split. }
  assert (safe getchar (fun a m' => a = ch /\ m' = m <| m_iqueue := q |>) m) as Hget.
  { unfold safe, getchar. by rewrite run_gets, Eq. }
  destruct ((ch =? 10) || (ch =? 13)) eqn:Enl.
  { left. eapply safe_mono; [exact Hget|]. intros a m' [-> ->]. rewrite Enl.
    by apply (preserves_print [10]). }
  set (m2 := m <| m_iqueue := q |> <| m_out ::= fun o => o ++ fmt_d (m_irq_fired m) ++ str ">" |>).
  assert (fw_ok m2) as Hm2 by by apply (preserves_print _ (m <| m_iqueue := q |>)).
  assert (safe (debug_command ch) (fun _ => fw_ok) m2 \/ debug_overrun m) as [Hs|Ho].
  { destruct (ch_is ch "h") eqn:Eh; [|left; by apply preserves_debug_command].
    unfold ch_is in Eh. apply bool_decide_eq_true in Eh. assert (ch = 104) as -> by by injection Eh as <-.
    destruct (handle_packet_cases m2 Hm2) as [Hs|Ho]; [left|right].
    - unfold debug_command. cbv beta.
      change (is_digit 104) with false.
      change (ch_is 104 "r") with false.
      change (ch_is 104 "i") with false.
      change (ch_is 104 "o") with false.
      change (ch_is 104 "h") with true. cbv iota.
      rewrite safe_bind. eapply safe_mono; [exact Hs|]. intros ? m3 Hm3.
      by apply (preserves_print (str "handle packet" ++ [10]) m3).
    - exists q. done. }
  - left. eapply safe_mono; [exact Hget|]. intros a m' [-> ->]. rewrite Enl. exact Hs.
  - by right.
Qed.

(** Whatever character the serial line brings, the debugging commands keep the
    invariant and are free of undefined behaviour, in every application (they
    may restart the processor, and wait when nothing has come) - unless the
    character has the packet handled that is one of the two overrunning
    commands. *)
Theorem debug_safe m :
  fw_ok m -> safe libradio_debug (fun _ => fw_ok) m \/ debug_overrun m.
Proof. apply debug_cases. Qed.
End debug.

(** ** Instances of the properties *)

#[local] Existing Instance bench_app.
#[local] Existing Instance bench_inv.
#[local] Existing Instance bench_laws.
#[local] Instance bench_stock {D X} : StockPower D X := eq_refl.
#[local] Instance bench_patience : Patience := 10%nat.

Lemma debug_safe_witness :
  let m := bench_run <| m_iqueue := str "hz" |> in
  safe libradio_debug (fun _ => fw_ok) m \/ debug_overrun m.
Proof.
  apply (debug_safe (bench_run <| m_iqueue := str "hz" |>)).
  assert (bytes (str "hz")) by by bytes_cons. destruct bench_run_ok. by split.
Defined.
