(* ===== verification/Boot.v ===== *)
(** The registers of the ATmega328P that only the start-up code of the
    applications sets: the timer's counter and period and the serial port. The
    library's own power mode sets the others (Machine.v). Also the rules for what
    runs before the library is set up, when the record is still zero. *)

From S2P Require Import Machine Clock State Spi Invariant Si4463 Wait Rxtx Command Loop.

(** MCUSR is read by the controller only. *)
Record regs := mk_regs {
  g_mcusr : Z;
  g_tcnt1 : Z;
  g_ocr1a : Z;
  g_tccr1a : Z;
  g_ubrr0 : Z;
  g_ucsr0b : Z;
  g_ucsr0c : Z
}.

#[export] Instance eta_regs : Eta regs := fun g =>
  mk_regs (g_mcusr g) (g_tcnt1 g) (g_ocr1a g) (g_tccr1a g) (g_ubrr0 g) (g_ucsr0b g)
    (g_ucsr0c g).
#[export] Instance set_g_mcusr : Setter g_mcusr := ltac:(build_setter).
#[export] Instance set_g_tcnt1 : Setter g_tcnt1 := ltac:(build_setter).
#[export] Instance set_g_ocr1a : Setter g_ocr1a := ltac:(build_setter).
#[export] Instance set_g_tccr1a : Setter g_tccr1a := ltac:(build_setter).
#[export] Instance set_g_ubrr0 : Setter g_ubrr0 := ltac:(build_setter).
#[export] Instance set_g_ucsr0b : Setter g_ucsr0b := ltac:(build_setter).
#[export] Instance set_g_ucsr0c : Setter g_ucsr0c := ltac:(build_setter).

(** The registers by their widths. *)
Record regs_ok (g : regs) : Prop := {
  ok_mcusr : is_u8 (g_mcusr g);
  ok_tcnt1 : is_u16 (g_tcnt1 g);
  ok_ocr1a : is_u16 (g_ocr1a g);
  ok_tccr1a : is_u8 (g_tccr1a g);
  ok_ubrr0 : is_u16 (g_ubrr0 g);
  ok_ucsr0b : is_u8 (g_ucsr0b g);
  ok_ucsr0c : is_u8 (g_ucsr0c g)
}.

(** Bit numbers of the ATmega328P's serial port. *)
Definition RXCIE0 : Z := 7.
Definition RXEN0 : Z := 4.
Definition TXEN0 : Z := 3.
Definition UCSZ01 : Z := 2.
Definition UCSZ00 : Z := 1.

Section boot.
Context {D X : Type} `{Platform D} `{AppInv X}.
Implicit Types m : machine D X.

(** The objects beside the record stay well formed when only these change. *)
Lemma statics_ok_beside m m' :
  statics_ok m -> app_inv (m_app m') ->
  m_pkt_data m' = m_pkt_data m -> m_statusbuffer m' = m_statusbuffer m ->
  m_rxchan m' = m_rxchan m -> m_txchan m' = m_txchan m -> m_iqueue m' = m_iqueue m ->
  m_events m' = m_events m -> (flags_ok m -> flags_ok m') -> statics_ok m'.
Proof.
  intros Hm Hk E1 E2 E3 E4 E5 E6 Hf l Hl Hp. destruct (Hm l Hl Hp).
  assert (flags_ok (m' <| m_radio := l |>)) as Hf' by (apply Hf; assumption).
  unfold pkt_ok in *. upd_simpl_in fw_pkt. upd_simpl_in fw_status. upd_simpl_in fw_rxchan. upd_simpl_in fw_txchan.
  upd_simpl_in fw_queue. upd_simpl_in fw_events.
  split; unfold pkt_ok; upd_simpl; rewrite ?E1, ?E2, ?E3, ?E4, ?E5, ?E6; done.
Qed.

(** Before the library is set up; [P] is whatever else is known. *)
Definition booting (P : machine D X -> Prop) m : Prop :=
  statics_ok m /\ app_inv (m_app m) /\ P m.

Lemma wp_boot {B} (P : machine D X -> Prop) g (k : unit -> fw D X B) Q m :
  booting P m ->
  m_pkt_data (g m) = m_pkt_data m -> m_statusbuffer (g m) = m_statusbuffer m ->
  m_rxchan (g m) = m_rxchan m -> m_txchan (g m) = m_txchan m -> m_iqueue (g m) = m_iqueue m ->
  m_events (g m) = m_events m -> (flags_ok m -> flags_ok (g m)) ->
  app_inv (m_app (g m)) -> P (g m) ->
  (booting P (g m) -> wp (k tt) Q (g m)) -> wp (modify g ≫= k) Q m.
Proof.
  intros (Hm&_&_) E1 E2 E3 E4 E5 E6 Hf Hk Hs HQ. rewrite wp_bind, wp_modify. apply HQ.
  split_and!; [by apply (statics_ok_beside m)|done|done].
Qed.
End boot.

(** A step of the start-up code. That the application's objects stay well formed
    when a register gets a value of its type is taken from the context. *)
Ltac boot :=
  rewrite ?wp_assoc;
  match goal with
  | Hb : booting ?P ?m |- wp (modify ?g ≫= _) _ ?m =>
      apply (wp_boot P); [exact Hb|reflexivity..| | | |];
      [solve [intros ?; flags]
      |solve [apply Hb | auto; match goal with H : _ |- _ => apply H; [apply Hb|intros ? []; by split] end]
      |solve [apply Hb | done]|clear Hb;
       match goal with |- booting _ ?x -> _ => generalize x end; clear m; intros m Hb]
  end.
