(* ===== verification/OilTank.v ===== *)
(** examples/oiltank.c: the tank monitor, a client of the library. Its objects,
    its start-up, its main loop one pass at a time, and its call-backs as an
    instance of the library's interface. *)

From S2P Require Import Machine Clock State Spi Invariant Si4463 Wait Rxtx Command Loop Boot.

Definition TANK_VERSION_H : Z := 1.
Definition TANK_VERSION_L : Z := 5.
Definition OILTANK_CAT1 : Z := 0x7f.
Definition OILTANK_CAT2 : Z := 0x01.

(** The static objects, the counter [tlsecs] of [main] and the registers. *)
Record oiltank := mk_oiltank {
  o_mynum1 : Z;
  o_mynum2 : Z;
  o_battery_voltage : Z;
  o_oil_level : Z;
  o_tlsecs : Z;
  o_regs : regs
}.

#[export] Instance eta_oiltank : Eta oiltank := fun o =>
  mk_oiltank (o_mynum1 o) (o_mynum2 o) (o_battery_voltage o) (o_oil_level o) (o_tlsecs o)
    (o_regs o).
#[export] Instance set_o_mynum1 : Setter o_mynum1 := ltac:(build_setter).
#[export] Instance set_o_mynum2 : Setter o_mynum2 := ltac:(build_setter).
#[export] Instance set_o_battery_voltage : Setter o_battery_voltage := ltac:(build_setter).
#[export] Instance set_o_oil_level : Setter o_oil_level := ltac:(build_setter).
#[export] Instance set_o_tlsecs : Setter o_tlsecs := ltac:(build_setter).
#[export] Instance set_o_regs : Setter o_regs := ltac:(build_setter).

Definition zero_oiltank : oiltank := mk_oiltank 0 0 0 0 0 (mk_regs 0 0 0 0 0 0 0).

Section oiltank.
Context {D : Type} `{Platform D} `{Patience}.

Definition oget {T} (f : oiltank -> T) : fw D oiltank T := gets (fun m => f (m_app m)).
Definition oput {T} (f : oiltank -> T) `{!Setter f} (v : T) : fw D oiltank unit :=
  modify (fun m => m <| m_app ::= fun o => o <| f := v |> |>).
Definition oreg_put {T} (f : regs -> T) `{!Setter f} (v : T) : fw D oiltank unit :=
  modify (fun m => m <| m_app ::= fun o => o <| o_regs ::= fun g => g <| f := v |> |> |>).

(** The call-backs. *)

Definition tank_operate (pp : packet) : fw D oiltank unit :=
  print (str "Oil Tank OPERATE function." ++ [10]);;
  print (str "Command: " ++ fmt_d (p_cmd pp) ++ str ", len: " ++ fmt_d (p_len pp) ++ [10]).

(** [status\[i\] = l0, status\[i + 1\] = l1, ...] *)
Fixpoint status_puts (i : Z) (l status : list Z) : fw D oiltank (list Z) :=
  match l with
  | [] => mret status
  | v :: l' => status ← array_put status i v; status_puts (i + 1) l' status
  end.

Definition tank_status (status_type : Z) (status : list Z) (maxlen : Z)
    : fw D oiltank (Z * list Z) :=
  if maxlen <? 7 then mret (0, status)
  else
    status ← array_put status 0 status_type;
    if status_type =? RADIO_STATUS_STATIC then
      n1 ← oget o_mynum1; n2 ← oget o_mynum2;
      status ← status_puts 1
        [OILTANK_CAT1; OILTANK_CAT2; n1; n2; TANK_VERSION_H; TANK_VERSION_L] status;
      mret (7, status)
    else if status_type =? RADIO_STATUS_DYNAMIC then
      st ← rget r_state;
      bv ← oget o_battery_voltage; ol ← oget o_oil_level;
      status ← status_puts 1
        [st; Z.land (Z.shiftr bv 8) 0xff; Z.land bv 0xff;
         Z.land (Z.shiftr ol 8) 0xff; Z.land ol 0xff] status;
      mret (6, status)
    else mret (0, status).

#[export] Instance oiltank_app : App D oiltank := {|
  operate := tank_operate;
  fetch_status := tank_status;
  own_power_mode := None
|}.

Definition get_battery_voltage : fw D oiltank unit :=
  v ← analog 3; oput o_battery_voltage (i16 v).

Definition get_oil_level : fw D oiltank unit :=
  oput o_oil_level 800;;
  l ← oget o_oil_level;
  print (str "Oil=" ++ fmt_d l ++ [10]).

(** The beginning of [main]: the timer at 10 Hz and the serial port. *)
Definition tank_boot : fw D oiltank unit :=
  _setled 1;;
  cli;;
  oreg_put g_tcnt1 0;;
  oreg_put g_ocr1a 24999;;
  oreg_put g_tccr1a 0;;
  mput m_tccr1b (Z.lor (Z.lor (bit WGM12) (bit CS11)) (bit CS10));;
  mput m_tccr1c 0;;
  mput m_timsk1 (bit OCIE1A);;
  oreg_put g_ubrr0 25;;
  oreg_put g_ucsr0b (Z.lor (Z.lor (bit RXCIE0) (bit RXEN0)) (bit TXEN0));;
  oreg_put g_ucsr0c (Z.lor (bit UCSZ01) (bit UCSZ00));;
  sei;;
  _setled 0;;
  print ([10; 10] ++ str "Oil tank monitor v" ++ fmt_d TANK_VERSION_H ++ str "."
           ++ fmt_d TANK_VERSION_L ++ str "." ++ [10]).

Definition ident_line (n1 n2 : Z) : list Z :=
  str "IDENT " ++ fmt_d OILTANK_CAT1 ++ str "/" ++ fmt_d OILTANK_CAT2 ++ str "/"
    ++ fmt_d n1 ++ str "/" ++ fmt_d n2 ++ [10].

(** The device's number, from the EEPROM or the default 0/1. *)
Definition tank_ident : fw D oiltank unit :=
  d ← gets m_dev;
  oput o_mynum1 (u8 (eeprom_read_byte 0 d));;
  oput o_mynum2 (u8 (eeprom_read_byte 1 d));;
  n1 ← oget o_mynum1; n2 ← oget o_mynum2;
  when ((n1 =? 0xff) || (n2 =? 0xff)) (
    oput o_mynum1 0;;
    oput o_mynum2 1;;
    n1 ← oget o_mynum1;
    modify (fun m => m <| m_dev ::= eeprom_write_byte 0 n1 |>);;
    n2 ← oget o_mynum2;
    modify (fun m => m <| m_dev ::= eeprom_write_byte 1 n2 |>));;
  n1 ← oget o_mynum1; n2 ← oget o_mynum2;
  print (ident_line n1 n2).

(** Everything before the endless loop. *)
Definition tank_start : fw D oiltank unit :=
  tank_boot;;
  tank_ident;;
  n1 ← oget o_mynum1; n2 ← oget o_mynum2;
  libradio_init OILTANK_CAT1 OILTANK_CAT2 n1 n2;;
  libradio_set_clock 10 160;;
  libradio_recv_start;;
  libradio_irq_enable 1;;
  oput o_tlsecs 0;;
  get_battery_voltage;;
  get_oil_level.

(** [if (libradio_elapsed_second() && ++tlsecs >= 300) ...] *)
Definition tank_second : fw D oiltank unit :=
  e ← libradio_elapsed_second;
  when (negb (e =? 0)) (
    s ← oget o_tlsecs;
    oput o_tlsecs (i16 (s + 1));;
    s ← oget o_tlsecs;
    when (300 <=? s) (
      get_battery_voltage;;
      get_oil_level;;
      oput o_tlsecs 0)).

(** A pass of the loop. *)
Definition tank_pass : fw D oiltank unit := libradio_rxloop;; tank_second.

(** [main], for [n] passes of its endless loop. *)
Definition tank_main (n : nat) : fw D oiltank unit := tank_start;; for_loop n 0 (fun _ => tank_pass).
End oiltank.

#[export] Instance oiltank_stock {D} : StockPower D oiltank := eq_refl.

(** ** The invariant *)

(** The numbers are bytes, the measurements are ints, the counter has not reached five
    minutes. *)
Record oiltank_ok (o : oiltank) : Prop := {
  tank_num1 : is_u8 (o_mynum1 o);
  tank_num2 : is_u8 (o_mynum2 o);
  tank_battery : is_i16 (o_battery_voltage o);
  tank_oil : is_i16 (o_oil_level o);
  tank_secs : 0 <= o_tlsecs o < 300;
  tank_regs : regs_ok (o_regs o)
}.

#[export] Instance oiltank_inv : AppInv oiltank := oiltank_ok.

Section safety.
Context {D : Type} `{Platform D} `{Patience}.
Implicit Types m : machine D oiltank.

Lemma run_status_puts i l status m :
  0 <= i -> (Z.to_nat i + length l <= length status)%nat ->
  status_puts i l status m =
    Done (take (Z.to_nat i) status ++ l ++ drop (Z.to_nat i + length l) status) m.
Proof.
  revert i status. induction l as [|v l IH]; intros i status Hi Hl; cbn [status_puts length] in *.
  { by rewrite Nat.add_0_r, app_nil_l, take_drop. }
  rewrite (bind_done _ _ m (<[Z.to_nat i := v]> status) m).
  2: { apply wp_run. intros Q. by rewrite wp_array_put by lia. }
  rewrite IH by (rewrite ?length_insert; lia). f_equal.
  replace (Z.to_nat (i + 1)) with (S (Z.to_nat i)) by lia.
  rewrite (take_S_r _ _ v) by (apply list_lookup_insert_eq; lia).
  rewrite take_insert_ge, drop_insert_lt by lia. rewrite <- app_assoc. cbn [app].
  do 3 f_equal. f_equal. lia.
Qed.

(** What [tank_status] answers. *)
Definition tank_report (stype : Z) m : list Z :=
  let o := m_app m in
  if stype =? RADIO_STATUS_STATIC then
    [stype; OILTANK_CAT1; OILTANK_CAT2; o_mynum1 o; o_mynum2 o; TANK_VERSION_H; TANK_VERSION_L]
  else if stype =? RADIO_STATUS_DYNAMIC then
    [stype; r_state (m_radio m);
     Z.land (Z.shiftr (o_battery_voltage o) 8) 0xff; Z.land (o_battery_voltage o) 0xff;
     Z.land (Z.shiftr (o_oil_level o) 8) 0xff; Z.land (o_oil_level o) 0xff]
  else [].

Lemma tank_status_run stype buf m :
  length buf = 16%nat ->
  tank_status stype buf MAX_RESPONSE_SIZE m =
    let r := tank_report stype m in
    if bool_decide (r = []) then Done (0, <[0%nat := stype]> buf) m
    else Done (Z.of_nat (length r), r ++ drop (length r) buf) m.
Proof.
  intros Hl. unfold tank_status. change (MAX_RESPONSE_SIZE <? 7) with false. cbv iota.
  rewrite (bind_done _ _ m (<[0%nat := stype]> buf) m).
  2: { apply wp_run. intros Q. by rewrite wp_array_put by lia. }
  unfold tank_report. cbv zeta.
  destruct buf as [|b buf]; [done|]. cbn [length] in Hl. cbn [insert list_insert].
  destruct (stype =? RADIO_STATUS_STATIC).
  - unfold oget. rewrite !run_gets. erewrite bind_done; [|apply run_status_puts; cbn; lia]. done.
  - destruct (stype =? RADIO_STATUS_DYNAMIC); [|done].
    unfold oget, rget. rewrite !run_gets.
    erewrite bind_done; [|apply run_status_puts; cbn; lia]. done.
Qed.

Lemma tank_report_ok stype m :
  is_u8 stype -> fw_ok m -> bytes (tank_report stype m) /\ (length (tank_report stype m) <= 7)%nat.
Proof.
  intros Hs Hm. destruct (fw_app m Hm).
  assert (is_u8 (r_state (m_radio m))) by by apply field_get, fw_radio.
  unfold tank_report. cbv zeta. repeat case_match; (split; [|cbn; lia]);
    repeat first [apply Forall_nil_2 | apply Forall_cons_2]; in_range.
Qed.

#[export] Instance oiltank_laws : AppLaws D oiltank.
Proof.
  split.
  - intros p Hp. apply preserves_bind; [apply preserves_print|intros _; apply preserves_print].
  - intros i buf m Hi Hb Hl Hm. unfold safe.
    change (fetch_status i buf MAX_RESPONSE_SIZE m) with (tank_status i buf MAX_RESPONSE_SIZE m).
    rewrite tank_status_run by done. cbv zeta.
    destruct (tank_report_ok i m Hi Hm) as [Hr Hn]. case_bool_decide; cbn [fst snd].
    + split_and!; [done|done|by rewrite length_insert|by apply Forall_insert].
    + split_and!; [done|lia|rewrite length_app, length_drop; lia|].
      by apply (overlay_bytes (tank_report i m) buf).
Qed.

(** The machine after the two measurements. *)
Definition sampled m : machine D oiltank :=
  let r := analog_read 3 (m_dev m) in
  m <| m_dev := r.2 |> <| m_out ::= fun o => o ++ str "Oil=800" ++ [10] |>
    <| m_app ::= fun o => o <| o_battery_voltage := i16 r.1 |> <| o_oil_level := 800 |> |>.

Lemma sample_run m : (get_battery_voltage;; get_oil_level) m = Done tt (sampled m).
Proof.
  unfold get_battery_voltage, get_oil_level, analog, sampled, mbind, cmd_bind.
  destruct (analog_read 3 (m_dev m)) as [v d]. cbn. f_equal.
Qed.

(** What an elapsed second does. *)
Definition second_passed m : machine D oiltank :=
  let m1 := m <| m_elapsed_second := 0 |> in
  if m_elapsed_second m =? 0 then m1
  else if o_tlsecs (m_app m) <? 299 then
    m1 <| m_app ::= fun o => o <| o_tlsecs := o_tlsecs o + 1 |> |>
  else (sampled m1) <| m_app ::= fun o => o <| o_tlsecs := 0 |> |>.

Lemma tank_second_run m :
  0 <= o_tlsecs (m_app m) < 300 -> tank_second m = Done tt (second_passed m).
Proof.
  intros Hs. unfold tank_second, libradio_elapsed_second, second_passed, mput, oget, oput.
  rewrite bind_assoc, run_gets, bind_assoc, run_modify. unfold mbind at 1, cmd_bind at 1, mret, cmd_ret.
  destruct (m_elapsed_second m =? 0); cbn [negb when]; [done|].
  rewrite run_gets, run_modify, run_gets. upd_simpl.
  assert (i16 (o_tlsecs (m_app m) + 1) = o_tlsecs (m_app m) + 1) as -> by warith.
  destruct (Z.leb_spec 300 (o_tlsecs (m_app m) + 1)), (Z.ltb_spec (o_tlsecs (m_app m)) 299);
    try lia; cbn [when].
  - rewrite <- bind_assoc, (bind_done _ _ _ _ _ (sample_run _)). unfold sampled. cbv zeta. by destruct m.
  - done.
Qed.

Lemma tank_secs_ok s m :
  0 <= s < 300 -> fw_ok m -> fw_ok (m <| m_app ::= fun o => o <| o_tlsecs := s |> |>).
Proof. intros Hs [? ? ? ? ? ? ? ? [] ?]. by split. Qed.

Lemma sampled_ok m : fw_ok m -> fw_ok (sampled m).
Proof. intros [? ? ? ? ? ? ? ? [] ?]. split; try done. split; try done. apply i16_range. Qed.

Lemma second_passed_ok m : fw_ok m -> fw_ok (second_passed m).
Proof.
  intros Hm. pose proof (tank_secs _ (fw_app m Hm)) as Hs. unfold second_passed. cbv zeta.
  assert (fw_ok (m <| m_elapsed_second := 0 |>)) as Hm1
    by (destruct Hm; split; try done; flags).
  destruct (m_elapsed_second m =? 0); [done|].
  destruct (Z.ltb_spec (o_tlsecs (m_app m)) 299).
  - apply (tank_secs_ok (o_tlsecs (m_app m) + 1)); [lia|done].
  - by apply tank_secs_ok, sampled_ok.
Qed.

Lemma preserves_tank_second : preserves fw_ok (tank_second : fw D oiltank unit).
Proof.
  intros m Hm. unfold safe. rewrite tank_second_run by apply (fw_app m Hm).
  by apply second_passed_ok.
Qed.

Lemma tank_pass_cases m :
  fw_ok m -> safe tank_pass (fun _ => fw_ok) m \/ loop_overrun m.
Proof.
  intros Hm. destruct (rxloop_cases m Hm) as [Hs|Ho]; [left|by right].
  unfold tank_pass. rewrite safe_bind. eapply safe_mono; [exact Hs|].
  intros ? m' Hm'. by apply preserves_tank_second.
Qed.

(** *** Start-up *)

(** The device's number as read, or the default. *)
Definition tank_number (d : D) : Z * Z :=
  let n1 := u8 (eeprom_read_byte 0 d) in
  let n2 := u8 (eeprom_read_byte 1 d) in
  if (n1 =? 0xff) || (n2 =? 0xff) then (0, 1) else (n1, n2).

(** The four bytes of the device and the two periods. *)
Definition identity (l : libradio) : Z * Z * Z * Z * Z * Z :=
  (r_cat1 l, r_cat2 l, r_num1 l, r_num2 l, r_fast_period l, r_slow_period l).

(** The machine with the number set; the default is written back. *)
Definition identified m : machine D oiltank :=
  let d := m_dev m in
  let n := tank_number d in
  let fresh := (u8 (eeprom_read_byte 0 d) =? 0xff) || (u8 (eeprom_read_byte 1 d) =? 0xff) in
  m <| m_app ::= fun o => o <| o_mynum1 := n.1 |> <| o_mynum2 := n.2 |> |>
    <| m_dev := if fresh then eeprom_write_byte 1 1 (eeprom_write_byte 0 0 d) else d |>
    <| m_out ::= fun o => o ++ ident_line n.1 n.2 |>.

Lemma tank_ident_run m : tank_ident m = Done tt (identified m).
Proof.
  unfold tank_ident, identified, tank_number, oput, oget, print. rewrite run_gets, !run_modify, !run_gets.
  upd_simpl. set (a := u8 (eeprom_read_byte 0 _)). set (b := u8 (eeprom_read_byte 1 _)).
  destruct ((a =? 0xff) || (b =? 0xff)); cbn [when].
  - unfold mbind, cmd_bind, modify, gets. cbn beta iota. destruct m; reflexivity.
  - unfold mbind, cmd_bind, modify, gets. cbn beta iota. destruct m; reflexivity.
Qed.

Lemma tank_number_ok d : is_u8 (tank_number d).1 /\ is_u8 (tank_number d).2.
Proof. unfold tank_number. case_match; split; try done; apply u8_range. Qed.

Lemma oiltank_ok_regs o g :
  app_inv o -> (forall r, regs_ok r -> regs_ok (g r)) -> app_inv (o <| o_regs ::= g |>).
Proof. intros [] Hg. split; try done. by apply Hg. Qed.

Lemma identity_state_error l : identity (state_set LIBRADIO_STATE_ERROR l) = identity l.
Proof. unfold state_set. destruct (_ && _); reflexivity. Qed.

Lemma wp_recv_start_identity m :
  fw_ok m -> wp libradio_recv_start (fun _ m' =>
    fw_ok m' /\ m_app m' = m_app m /\ identity (m_radio m') = identity (m_radio m)) m.
Proof.
  intros Hm. eapply wp_mono; [by apply wp_recv_start_settings|].
  intros ? m' (Hm'&Ha&Hs). split_and!; [done|done|].
  change (identity (settings (m_radio m')) = identity (settings (m_radio m))).
  destruct Hs as [Hs|[v Hs] ]; rewrite Hs; [apply identity_state_error|].
  generalize (settings (m_radio m)). by intros [].
Qed.

(** The firmware set up: its settings, whatever the radio did. *)
Definition tank_set_up (n : Z * Z) m : Prop :=
  fw_ok m /\ identity (m_radio m) = (OILTANK_CAT1, OILTANK_CAT2, n.1, n.2, 10, 160) /\
  o_tlsecs (m_app m) = 0 /\ o_oil_level (m_app m) = 800 /\
  (o_mynum1 (m_app m), o_mynum2 (m_app m)) = n.

Lemma wp_tank_start m :
  statics_ok m -> app_inv (m_app m) ->
  wp tank_start (fun _ => tank_set_up (tank_number (m_dev m))) m.
Proof.
  intros Hm Ha. assert (booting (fun m' => m_dev m' = m_dev m) m) as Hb by done.
  set (d := m_dev m) in *. clearbody d. clear Hm Ha.
  unfold tank_start, tank_boot, cli, sei, _setled, oreg_put, mput, print.
  pose proof oiltank_ok_regs. do 14 boot. destruct Hb as (Hm&Ha&Hd).
  rewrite wp_bind. unfold wp at 1. rewrite tank_ident_run.
  destruct (tank_number_ok (m_dev m)) as [Hn1 Hn2].
  set (m1 := identified m).
  assert (app_inv (m_app m1)) as Ha1 by (destruct Ha; split; done).
  assert (statics_ok m1) as Hm1 by by apply (statics_ok_beside m).
  rewrite Hd in *. set (n := tank_number d) in *.
  change (o_mynum1 (m_app m1)) with (tank_number (m_dev m)).1.
  unfold oget, oput. rewrite wp_bind, wp_gets, wp_bind, wp_gets, wp_bind.
  eapply wp_mono; [by apply wp_libradio_init; try apply Ha1|]. intros _ m2 (Hm2&Hi2&Ea2).
  rewrite wp_bind. eapply wp_mono; [by apply wp_libradio_set_clock|]. intros _ m3 [Hm3 E3].
  rewrite wp_bind. eapply wp_mono; [by apply wp_recv_start_identity|]. intros _ m4 (Hm4&Ea4&Hi4).
  rewrite wp_bind, wp_libradio_irq_enable.
  pose proof (fw_ok_irq_machine 1 m4 ltac:(done) Hm4) as Hm5.
  rewrite wp_bind, wp_modify. unfold wp. rewrite sample_run.
  assert (m_app m4 = m_app m1) as Ea by (rewrite Ea4, E3; exact Ea2).
  split_and!.
  - by apply sampled_ok, tank_secs_ok.
  - change (identity (m_radio m4) = (OILTANK_CAT1, OILTANK_CAT2, n.1, n.2, 10, 160)).
    assert (identity (m_radio m2) = (OILTANK_CAT1, OILTANK_CAT2, n.1, n.2, 1, 16)) as Hid.
    { change (identity (settings (m_radio m2)) = (OILTANK_CAT1, OILTANK_CAT2, n.1, n.2, 1, 16)).
      rewrite Hi2. unfold n. by rewrite <- Hd. }
    rewrite Hi4, E3. unfold identity in *. upd_simpl. by injection Hid as -> -> -> -> _ _.
  - done.
  - done.
  - change ((o_mynum1 (m_app m4), o_mynum2 (m_app m4)) = n). rewrite Ea.
    change (((tank_number (m_dev m)).1, (tank_number (m_dev m)).2) = n).
    by rewrite Hd, <- surjective_pairing.
Qed.
End safety.

(** ** Sleeping through the seconds *)

Section dozing.
Context {D : Type} `{Platform D} `{Patience}.
Implicit Types m : machine D oiltank.

(** Listening with a delay of [d] ticks, and nothing else pending. *)
Record dozing (d : nat) m : Prop := {
  doze_ok : fw_ok m;
  doze_state : r_state (m_radio m) = LIBRADIO_STATE_LISTEN;
  doze_delay : r_tick_count (m_radio m) = Z.of_nat d;
  doze_ticks : r_main_ticks (m_radio m) = Z.of_nat d;
  doze_thread : m_thread_ok m = 0;
  doze_irq : m_irq_fired m = 0;
  doze_queue : m_iqueue m = []
}.

Lemma ticks_beside n m :
  m_dev (Nat.iter n tick_machine m) = m_dev m /\ m_app (Nat.iter n tick_machine m) = m_app m /\
  r_tick_count (m_radio (Nat.iter n tick_machine m)) = r_tick_count (m_radio m).
Proof. induction n as [|n IH]; [done|]. by rewrite Nat.iter_succ. Qed.

Lemma fw_ok_ticks n m : fw_ok m -> fw_ok (Nat.iter n tick_machine m).
Proof. intros Hm. induction n as [|n IH]; [done|]. rewrite Nat.iter_succ. by apply fw_ok_tick. Qed.

Lemma second_passed_beside m :
  m_radio (second_passed m) = m_radio m /\ m_events (second_passed m) = m_events m /\
  m_thread_ok (second_passed m) = m_thread_ok m /\ m_irq_fired (second_passed m) = m_irq_fired m /\
  m_iqueue (second_passed m) = m_iqueue m.
Proof. unfold second_passed. by repeat case_match. Qed.

Lemma second_passed_counts m :
  o_tlsecs (m_app m) < 299 ->
  m_dev (second_passed m) = m_dev m /\
  o_tlsecs (m_app m) <= o_tlsecs (m_app (second_passed m)) <= o_tlsecs (m_app m) + 1.
Proof.
  intros Hs. unfold second_passed. cbv zeta. destruct (m_elapsed_second m =? 0); [upd_simpl; split; [done|lia]|].
  destruct (Z.ltb_spec (o_tlsecs (m_app m)) 299); [|lia]. upd_simpl. split; [done|lia].
Qed.

Lemma tank_pass_dozing d rest m :
  dozing d m -> 0 < Z.of_nat d < 65536 -> m_events m = replicate d Tick ++ rest ->
  o_tlsecs (m_app m) < 299 ->
  wp tank_pass (fun _ m' => dozing d m' /\ m_events m' = rest /\ m_dev m' = m_dev m /\
    o_tlsecs (m_app m) <= o_tlsecs (m_app m') <= o_tlsecs (m_app m) + 1) m.
Proof.
  intros [Hm Hst Htc Hmt Hth Hirq Hq] Hd He Hs.
  assert (Forall event_ok rest) as Hrest.
  { pose proof (fw_events m Hm) as Hev. rewrite He in Hev. by apply Forall_app in Hev as [_ Hev]. }
  unfold tank_pass, libradio_rxloop. rewrite wp_bind, wp_bind. unfold wp at 1.
  rewrite (wait_sleeps_run d rest m He Hmt Hd Hth Hirq Hq).
  change (negb (Z.land LIBRADIO_WAIT_TIMER LIBRADIO_WAIT_RXINT =? 0)) with false.
  cbn [when]. rewrite wp_bind, wp_ret.
  set (m1 := (Nat.iter d tick_machine m) <| m_events := rest |> <| m_thread_ok := 0 |>).
  destruct (ticks_beside d m) as (Ed&Ea&Et). destruct (ticks_flags d m) as [Ei Eq].
  destruct (delay_run (Z.of_nat d) d m Hmt Hd Hth ltac:(lia)) as [_ Em]. rewrite Z.eqb_refl in Em.
  pose proof (ticks_state d m) as Es.
  assert (fw_ok m1) as Hm1 by (apply fw_ok_thread; destruct (fw_ok_ticks d m Hm); by split).
  unfold loop_state. rewrite wp_bind, wp_rget.
  change (r_state (m_radio m1)) with (r_state (m_radio (Nat.iter d tick_machine m))).
  rewrite Es, Hst. cbn [Z.eqb LIBRADIO_STATE_LISTEN LIBRADIO_STATE_ERROR LIBRADIO_STATE_STARTUP
    LIBRADIO_STATE_COLD LIBRADIO_STATE_WARM Pos.eqb orb]. rewrite wp_ret.
  assert (m_app m1 = m_app m) as Ea1 by exact Ea.
  unfold wp. rewrite tank_second_run by apply (fw_app m1 Hm1).
  destruct (second_passed_counts m1) as [Hd2 Hs2]; [by rewrite Ea1|]. rewrite Ea1 in Hs2.
  destruct (second_passed_beside m1) as (E1&E2&E3&E4&E5).
  split_and!; [|by rewrite E2|rewrite Hd2; exact Ed|lia|lia].
  split; rewrite ?E1, ?E3, ?E4, ?E5; try done.
  - by apply second_passed_ok.
  - change (r_state (m_radio (Nat.iter d tick_machine m)) = LIBRADIO_STATE_LISTEN). congruence.
  - change (r_tick_count (m_radio (Nat.iter d tick_machine m)) = Z.of_nat d). congruence.
  - change (r_main_ticks (m_radio (Nat.iter d tick_machine m)) = Z.of_nat d). congruence.
  - change (m_irq_fired (Nat.iter d tick_machine m) = 0). congruence.
  - change (m_iqueue (Nat.iter d tick_machine m) = []). congruence.
Qed.

Lemma tank_passes_dozing n k d rest m :
  dozing d m -> 0 < Z.of_nat d < 65536 -> m_events m = replicate (n * d) Tick ++ rest ->
  o_tlsecs (m_app m) + Z.of_nat n < 300 ->
  wp (for_loop n k (fun _ => tank_pass)) (fun _ m' => m_events m' = rest /\ m_dev m' = m_dev m /\
    o_tlsecs (m_app m') <= o_tlsecs (m_app m) + Z.of_nat n) m.
Proof.
  revert k m. induction n as [|n IH]; intros k m Hz Hd He Hs; cbn [for_loop].
  { rewrite wp_ret. split_and!; [done|done|lia]. }
  rewrite wp_bind. eapply wp_mono.
  { apply (tank_pass_dozing d (replicate (n * d) Tick ++ rest)); [done|done| |lia].
    by rewrite He, Nat.mul_succ_l, Nat.add_comm, replicate_add, app_assoc. }
  intros ? m1 (Hz1&He1&Hd1&Hs1). eapply wp_mono; [apply IH; [done|done|done|lia]|].
  intros ? m2 (He2&Hd2&Hs2). split_and!; [done|congruence|lia].
Qed.
End dozing.

(** ** Properties *)

Section properties.
Context {D : Type} `{Platform D} `{Patience}.
Implicit Types m : machine D oiltank.

(** Start-up of the tank monitor always reaches the main loop: the invariant
    holds, the device has its category and the number of its EEPROM (0/1 when a
    byte of it is unset), the clock runs at 100 ms and 1.6 s, and the first
    measurement is done - whether or not the radio came up. *)
Theorem tank_start_establishes m :
  statics_ok m -> oiltank_ok (m_app m) ->
  wp tank_start (fun _ => tank_set_up (tank_number (m_dev m))) m.
Proof. apply wp_tank_start. Qed.

(** A pass of the tank monitor's main loop keeps the invariant - its counter
    of seconds never passes 300 - and is free of undefined behaviour, whatever
    the radio and the interrupts deliver, unless the packet received is one of
    the two overrunning commands for this node. *)
Theorem tank_pass_safe m :
  fw_ok m -> safe tank_pass (fun _ => fw_ok) m \/ loop_overrun m.
Proof. apply tank_pass_cases. Qed.

(** [C26] The tank monitor as a program: from the static objects as the linker leaves
    them, however many passes of its loop are made and whatever the radio and the
    interrupts deliver, every object stays in the range of its type (the counter of
    seconds below 300) and nothing undefined happens, unless the run has come to
    receive one of the two overrunning commands for this node. *)
Theorem tank_runs n m :
  statics_ok m -> oiltank_ok (m_app m) ->
  safe (tank_main n) (fun _ => fw_ok) m \/
  exists j m', (j < n)%nat /\ tank_main j m = Done tt m' /\ fw_ok m' /\ loop_overrun m'.
Proof.
  intros Hm Hk. apply safe_program_cases; [intros ?; apply tank_pass_cases|].
  eapply wp_mono; [by apply wp_tank_start|]. by intros ? m' [Hm' _].
Qed.

(** [C25] An active tank monitor answers a STATUS request with its report - its
    identity, or its state, battery voltage and oil level with the high bytes
    first, each behind a byte with the kind of the status, which COMMANDS.md leaves out -
    in a packet to the node and on the channel named in the request; a request for any
    other kind of status is not answered. *)
Theorem tank_answers p m :
  packet_ok p -> fw_ok m -> r_state (m_radio m) = LIBRADIO_STATE_ACTIVE ->
  p_cmd p = RADIO_CMD_STATUS -> p_len p = 3 ->
  let stype := p_data p !!! 2%nat in
  let r := tank_report stype m in
  if bool_decide (r = []) then
    libradio_command p m = Done tt (m <| m_statusbuffer ::= <[0%nat := stype]> |>)
  else exists o buf,
    take (length r) buf = r /\
    libradio_command p m =
      send_and_listen (p_data p !!! 0%nat)
        (m <| m_out := o |> <| m_statusbuffer := buf |>
           <| m_txchan ::= response RADIO_STATUS_RESPONSE (p_data p !!! 1%nat)
                (Z.of_nat (length r)) buf |>).
Proof.
  intros Hp Hm Hs Hc Hl stype r. unfold libradio_command, rget. rewrite run_gets, Hc, Hs.
  destruct (fw_status m Hm) as [Hsl Hsb].
  destruct (tank_report_ok stype m) as [Hrb Hrl]; [exact (data_u8 p 2 Hp ltac:(lia))|done|]. fold r in Hrb, Hrl.
  change (if bool_decide (r = []) then
      command_status p m = Done tt (m <| m_statusbuffer ::= <[0%nat := stype]> |>)
    else exists o buf, take (length r) buf = r /\ command_status p m =
      send_and_listen (p_data p !!! 0%nat) (m <| m_out := o |> <| m_statusbuffer := buf |>
        <| m_txchan ::= response RADIO_STATUS_RESPONSE (p_data p !!! 1%nat)
             (Z.of_nat (length r)) buf |>)).
  unfold command_status. rewrite Hl. cbn [Z.eqb Pos.eqb negb].
  do 3 (rewrite run_data_get by (done || lia)). rewrite run_gets.
  pose proof (tank_status_run stype (m_statusbuffer m) m Hsl) as Hrun. cbv zeta in Hrun. fold r in Hrun.
  change (fetch_status (p_data p !!! Z.to_nat 2)) with (tank_status (D:=D) stype).
  set (buf := r ++ drop (length r) (m_statusbuffer m)) in *.
  case_bool_decide as Er; [by rewrite (bind_done _ _ _ _ _ Hrun)|].
  assert (length buf = 16%nat) as Hbl by (unfold buf; rewrite length_app, length_drop; lia).
  assert (0 < Z.of_nat (length r)) as Hpos by (destruct r; [done|cbn; lia]).
  eexists _, buf. split; [by apply take_app_length'|].
  rewrite (bind_done _ _ _ _ _ Hrun). unfold mput. rewrite run_modify. cbn [fst snd].
  apply Z.ltb_lt in Hpos. rewrite Hpos. cbn [when]. rewrite run_print, run_gets. upd_simpl.
  rewrite u8_small by (unfold is_u8; lia).
  rewrite send_response_run; [reflexivity| |lia|done].
  destruct Hm. split; try done. split; [done|]. upd_simpl. by apply (overlay_bytes r).
Qed.

(** A pass counts at most one second, however long it sleeps: a listening
    monitor whose delay is [d] ticks lets [n * d] timer interrupts go by in [n]
    passes, counts at most [n] seconds and measures nothing while that is less
    than 300. With the 500 ticks of the LISTEN state, 50 s each on this device,
    the five minutes of the comment are more than four hours. *)
Theorem seconds_slept_through n d rest m :
  fw_ok m -> r_state (m_radio m) = LIBRADIO_STATE_LISTEN ->
  r_tick_count (m_radio m) = Z.of_nat d -> r_main_ticks (m_radio m) = Z.of_nat d ->
  0 < Z.of_nat d < 65536 -> m_thread_ok m = 0 -> m_irq_fired m = 0 -> m_iqueue m = [] ->
  m_events m = replicate (n * d) Tick ++ rest -> o_tlsecs (m_app m) + Z.of_nat n < 300 ->
  wp (for_loop n 0 (fun _ => tank_pass)) (fun _ m' => m_events m' = rest /\ m_dev m' = m_dev m /\
    o_tlsecs (m_app m') <= o_tlsecs (m_app m) + Z.of_nat n) m.
Proof. intros. by apply (tank_passes_dozing n 0 d rest). Qed.
End properties.

(** ** Instances of the properties *)

#[local] Instance bench_patience : Patience := 10%nat.

Lemma zero_oiltank_ok : oiltank_ok zero_oiltank.
Proof. by split. Qed.

Lemma tank_start_establishes_witness :
  let m := reset_machine (replicate 300 255) zero_oiltank [] in
  wp tank_start (fun _ => tank_set_up (tank_number (m_dev m))) m.
Proof.
  apply (tank_start_establishes (reset_machine (replicate 300 255) zero_oiltank []));
    [|apply zero_oiltank_ok].
  by apply reset_statics_ok; [apply zero_oiltank_ok|constructor].
Defined.

(** A monitor that is set up, in the given state. *)
Definition bench_tank (st : Z) (evs : list event) : machine (list Z) oiltank :=
  (reset_machine [] (zero_oiltank <| o_battery_voltage := 700 |> <| o_oil_level := 800 |>) evs)
    <| m_radio := zero_libradio <| r_state := st |> <| r_period := 10 |> <| r_fast_period := 10 |>
         <| r_slow_period := 160 |> <| r_radio_active := 1 |> <| r_my_channel := 2 |>
         <| r_my_node_id := 7 |> <| r_tick_count := 500 |> <| r_main_ticks := 500 |> |>.

Lemma bench_tank_ok st evs : is_u8 st -> Forall event_ok evs -> fw_ok (bench_tank st evs).
Proof.
  intros Hs He. unfold bench_tank. apply reset_statics_ok; [by split|done| |done].
  repeat apply field_put; try done. apply zero_libradio_ok.
Qed.

Lemma tank_pass_safe_witness :
  safe tank_pass (fun _ => fw_ok) (bench_tank LIBRADIO_STATE_ACTIVE [RadioIrq]) \/
  loop_overrun (bench_tank LIBRADIO_STATE_ACTIVE [RadioIrq]).
Proof.
  apply (tank_pass_safe (bench_tank LIBRADIO_STATE_ACTIVE [RadioIrq])).
  apply bench_tank_ok; [done|by repeat constructor].
Defined.

Definition bench_ask : packet := mk_packet 0 7 RADIO_CMD_STATUS 3 0 [4; 9; 1; 0; 0; 0; 0; 0; 0; 0].

Lemma tank_answers_witness :
  exists o buf, take 6 buf = [1; 6; 2; 188; 3; 32] /\
    libradio_command bench_ask (bench_tank LIBRADIO_STATE_ACTIVE []) =
      send_and_listen 4 ((bench_tank LIBRADIO_STATE_ACTIVE []) <| m_out := o |>
        <| m_statusbuffer := buf |> <| m_txchan ::= response RADIO_STATUS_RESPONSE 9 6 buf |>).
Proof.
  apply (tank_answers bench_ask (bench_tank LIBRADIO_STATE_ACTIVE [])); try done.
  - split; try done. by bytes_cons.
  - by apply bench_tank_ok.
Defined.

Lemma seconds_slept_through_witness :
  let m := bench_tank LIBRADIO_STATE_LISTEN (replicate 1000 Tick ++ [RadioIrq]) in
  wp (for_loop 2 0 (fun _ => tank_pass)) (fun _ m' => m_events m' = [RadioIrq] /\
    m_dev m' = m_dev m /\ o_tlsecs (m_app m') <= 2) m.
Proof.
  apply (seconds_slept_through 2 500 [RadioIrq]
           (bench_tank LIBRADIO_STATE_LISTEN (replicate 1000 Tick ++ [RadioIrq]))); try done.
  apply bench_tank_ok; [done|]. apply Forall_app. split; [by apply Forall_replicate|by repeat constructor].
Defined.

Lemma tank_runs_witness :
  let m := reset_machine (replicate 300 255) zero_oiltank [Tick; RadioIrq] in
  safe (tank_main 2) (fun _ => fw_ok) m \/
  exists j m', (j < 2)%nat /\ tank_main j m = Done tt m' /\ fw_ok m' /\ loop_overrun m'.
Proof.
  apply (tank_runs 2 (reset_machine (replicate 300 255) zero_oiltank [Tick; RadioIrq])); [|apply zero_oiltank_ok].
  by apply reset_statics_ok; [apply zero_oiltank_ok|repeat constructor].
Defined.
