(* ===== verification/Monitor.v ===== *)
(** monitor/monitor.c: the frequency monitor, a client of the library that
    prints every packet it hears. It replaces the library's power mode by one
    that does nothing, and its main loop is its own. *)

From S2P Require Import Machine Clock State Spi Invariant Si4463 Wait Rxtx Command Loop Debug Boot.

Definition MONITOR_VERSION_H : Z := 0.
Definition MONITOR_VERSION_L : Z := 1.

(** The channel the packets are received in, and the registers. The [FILE] that
    [mysetup] fills in belongs to the C library. *)
Record monitor := mk_monitor {
  n_recvchan : channel;
  n_regs : regs
}.

#[export] Instance eta_monitor : Eta monitor := fun n => mk_monitor (n_recvchan n) (n_regs n).
#[export] Instance set_n_recvchan : Setter n_recvchan := ltac:(build_setter).
#[export] Instance set_n_regs : Setter n_regs := ltac:(build_setter).

Definition zero_monitor : monitor := mk_monitor zero_channel (mk_regs 0 0 0 0 0 0 0).

Definition recvchan : chanref monitor := AppChan n_recvchan (fun c n => n <| n_recvchan := c |>).

Section monitor.
Context {D : Type} `{Platform D} `{Patience}.

Definition nreg_put {T} (f : regs -> T) `{!Setter f} (v : T) : fw D monitor unit :=
  modify (fun m => m <| m_app ::= fun n => n <| n_regs ::= fun g => g <| f := v |> |> |>).

(** The call-backs, the power mode among them. *)

Definition monitor_power_mode (hi_flag : Z) : fw D monitor unit := mret tt.
Definition monitor_operate (pp : packet) : fw D monitor unit := mret tt.
Definition monitor_status (status_type : Z) (status : list Z) (maxlen : Z)
    : fw D monitor (Z * list Z) := mret (0, status).

#[export] Instance monitor_app : App D monitor := {|
  operate := monitor_operate;
  fetch_status := monitor_status;
  own_power_mode := Some monitor_power_mode
|}.

Definition hexdigit (ch : Z) : fw D monitor unit :=
  let ch := if 9 <? ch then ch + 7 else ch in
  putchar (ch + 48).

(** The byte [i] of the packet. *)
Definition display_byte (bs : list Z) (i : Z) : fw D monitor unit :=
  value ← array_get bs i;
  putchar (if i =? 6 then 46 else 32);;
  hexdigit (Z.land (Z.shiftr value 4) 15);;
  hexdigit (Z.land value 15).

Definition display_packet (chp : chanref monitor) : fw D monitor unit :=
  l ← gets m_radio;
  print (str "RX" ++ fmt_d (r_my_channel l) ++ str "," ++ fmt_d (r_current_rssi l) ++ str "/"
           ++ fmt_d (r_latch_rssi l) ++ str ":");;
  c ← ch_load chp;
  when (5 <? p_node (c_packet c)) (print (str "N?"));;
  when (16 <? p_cmd (c_packet c)) (print (str "C?"));;
  let len := p_len (c_packet c) in
  when (MAX_PAYLOAD_SIZE <? len) (print (str "L?"));;
  let len := (if MAX_PAYLOAD_SIZE <? len then MAX_PAYLOAD_SIZE else len) + PACKET_HEADER_LEN in
  for_loop (Z.to_nat len) 0 (display_byte (packet_to_bytes (c_packet c)));;
  putchar 10.

(** The beginning of [main]. *)
Definition monitor_boot : fw D monitor unit :=
  _setled 1;;
  cli;;
  nreg_put g_tcnt1 0;;
  nreg_put g_ocr1a 2499;;
  nreg_put g_tccr1a 0;;
  mput m_tccr1b (Z.lor (Z.lor (bit WGM12) (bit CS11)) (bit CS10));;
  mput m_tccr1c 0;;
  mput m_timsk1 (bit OCIE1A);;
  nreg_put g_ubrr0 25;;
  nreg_put g_ucsr0b (Z.lor (Z.lor (bit RXCIE0) (bit RXEN0)) (bit TXEN0));;
  nreg_put g_ucsr0c (Z.lor (bit UCSZ01) (bit UCSZ00));;
  sei;;
  _setled 0;;
  print ([10; 10] ++ str "Radio monitor v" ++ fmt_d MONITOR_VERSION_H ++ str "."
           ++ fmt_d MONITOR_VERSION_L ++ str "." ++ [10]).

(** Everything before the endless loop. *)
Definition monitor_start : fw D monitor unit :=
  monitor_boot;;
  libradio_init 0 0 0 0;;
  libradio_set_clock 1 1;;
  libradio_irq_enable 1;;
  rput r_curr_channel 0;;
  rput r_my_channel 0;;
  libradio_recv_start;;
  rput r_my_node_id 0;;
  libradio_set_state LIBRADIO_STATE_ACTIVE;;
  libradio_set_delay 100;;
  ch ← rget r_my_channel;
  print (str "Listening on channel " ++ fmt_d ch ++ str "." ++ [10]).

(** [while (radio.rx_fifo >= SI4463_PACKET_LEN) ...], followed for [n] passes. *)
Fixpoint drain (n : nat) : fw D monitor unit :=
  match n with
  | O => wait_more
  | S n' =>
      rx ← rget r_rx_fifo;
      if rx <? SI4463_PACKET_LEN then mret tt
      else
        ch ← rget r_my_channel;
        got ← libradio_recv recvchan ch;
        when (negb (got =? 0)) (display_packet recvchan);;
        libradio_get_fifo_info 0;;
        drain n'
  end.

(** What follows the wait and the debugging command in a pass of the loop. *)
Definition monitor_rest (irqf : Z) : fw D monitor unit :=
  e ← libradio_elapsed_second;
  tom ← rget r_tens_of_minutes;
  when (negb (e =? 0) && (143 <? tom)) (rput r_tens_of_minutes 0);;
  when (negb (irqf =? 0)) (
    libradio_get_fifo_info 0;;
    libradio_get_int_status;;
    libradio_get_modem_status;;
    libradio_irq_enable 1);;
  drain patience;;
  _watchdog.

Definition monitor_pass : fw D monitor unit :=
  irqf ← libradio_wait;
  empty ← sio_iqueue_empty;
  when (negb empty) libradio_debug;;
  monitor_rest irqf.

(** [main], for [n] passes of its endless loop. *)
Definition monitor_main (n : nat) : fw D monitor unit :=
  monitor_start;; for_loop n 0 (fun _ => monitor_pass).
End monitor.

(** ** The invariant *)

Record monitor_ok (n : monitor) : Prop := {
  mon_recvchan : channel_ok (n_recvchan n);
  mon_regs : regs_ok (n_regs n)
}.

#[export] Instance monitor_inv : AppInv monitor := monitor_ok.

Lemma recvchan_ok : ref_ok recvchan.
Proof.
  split; [split_and!; [done|done|by intros [] ]|by intros n []|by intros c n Hc []].
Qed.

(** ** What is displayed *)

(** The text of the bytes from number [i] on. *)
Definition hex_char (v : Z) : Z := (if 9 <? v then v + 7 else v) + 48.

Fixpoint hex_dump (i : Z) (bs : list Z) : list Z :=
  match bs with
  | [] => []
  | v :: bs' =>
      (if i =? 6 then 46 else 32) :: hex_char (Z.land (Z.shiftr v 4) 15)
        :: hex_char (Z.land v 15) :: hex_dump (i + 1) bs'
  end.

(** Reading such a text back: the separator, then the two digits. *)
Definition hex_value (c : Z) : Z := if c <? 58 then c - 48 else c - 55.

Fixpoint read_dump (t : list Z) : list Z :=
  match t with
  | _ :: a :: b :: t' => hex_value a * 16 + hex_value b :: read_dump t'
  | _ => []
  end.

(** What precedes the bytes. *)
Definition heading (l : libradio) (p : packet) : list Z :=
  str "RX" ++ fmt_d (r_my_channel l) ++ str "," ++ fmt_d (r_current_rssi l) ++ str "/"
    ++ fmt_d (r_latch_rssi l) ++ str ":"
    ++ (if 5 <? p_node p then str "N?" else [])
    ++ (if 16 <? p_cmd p then str "C?" else [])
    ++ (if MAX_PAYLOAD_SIZE <? p_len p then str "L?" else []).

(** The bytes of the packet that are displayed. *)
Definition displayed (p : packet) : list Z :=
  take (Z.to_nat (Z.min (p_len p) 10 + 6)) (packet_to_bytes p).

Definition said {D X} (t : list Z) (m : machine D X) : machine D X :=
  m <| m_out ::= fun o => o ++ t |>.

Section display.
Context {D : Type} `{Platform D} `{Patience}.
Implicit Types m : machine D monitor.

Lemma hex_char_value v : 0 <= v < 16 -> hex_value (hex_char v) = v.
Proof. intros Hv. unfold hex_value, hex_char. zcases; lia. Qed.

Lemma read_hex_dump i bs : bytes bs -> read_dump (hex_dump i bs) = bs.
Proof.
  intros Hb. revert i. induction Hb as [|v bs Hv Hb IH]; intros i; [done|].
  cbn [hex_dump read_dump]. rewrite IH. f_equal.
  change 15 with (Z.ones 4). rewrite !Z.land_ones, Z.shiftr_div_pow2 by lia.
  unfold is_u8 in Hv. rewrite !hex_char_value by (apply Z.mod_pos_bound; lia).
  change (2 ^ 4) with 16. Z.to_euclidean_division_equations; lia.
Qed.

Lemma said_said t t' m : said t' (said t m) = said (t ++ t') m.
Proof. unfold said, upd, set_m_out. cbn. by rewrite app_assoc. Qed.

Lemma display_bytes_run n i bs m :
  0 <= i -> (Z.to_nat i + n <= length bs)%nat ->
  for_loop n i (display_byte bs) m = Done tt (said (hex_dump i (take n (drop (Z.to_nat i) bs))) m).
Proof.
  revert i m. induction n as [|n IH]; intros i m Hi Hl; cbn [for_loop].
  { unfold said. cbn [take hex_dump]. rewrite take_0. cbn [hex_dump].
    unfold mret, cmd_ret. f_equal. destruct m. unfold upd, set_m_out. cbn. by rewrite app_nil_r. }
  destruct (lookup_lt_is_Some_2 bs (Z.to_nat i)) as [v Hv]; [lia|].
  rewrite (bind_done _ _ m tt (said (hex_dump i [v]) m)).
  2: { apply wp_run. intros Q. unfold display_byte, hexdigit, putchar.
       rewrite wp_bind, (wp_array_get _ _ v) by done. cbv zeta.
       rewrite wp_bind, wp_print, wp_bind, wp_print, wp_print.
       change (Q tt (said [hex_char (Z.land v 15)] (said [hex_char (Z.land (Z.shiftr v 4) 15)]
         (said [if i =? 6 then 46 else 32] m))) = Q tt (said (hex_dump i [v]) m)).
       by rewrite !said_said. }
  rewrite IH, said_said by lia. replace (Z.to_nat (i + 1)) with (S (Z.to_nat i)) by lia.
  by rewrite (drop_S bs v (Z.to_nat i)) by done.
Qed.

Lemma run_ch_load {B} (k : channel -> fw D monitor B) m :
  (ch_load recvchan ≫= k) m = k (n_recvchan (m_app m)) m.
Proof. done. Qed.

Lemma print_when (b : bool) t (k : unit -> fw D monitor unit) m :
  (when b (print t) ≫= k) m = k tt (said (if b then t else []) m).
Proof.
  destruct b; [done|]. unfold said. unfold mbind, cmd_bind, when, mret, cmd_ret. f_equal.
  destruct m. unfold upd, set_m_out. cbn. by rewrite app_nil_r.
Qed.

(** The whole line. *)
Definition display_text (l : libradio) (p : packet) : list Z :=
  heading l p ++ hex_dump 0 (displayed p) ++ [10].

Lemma display_packet_run m :
  fw_ok m -> display_packet recvchan m =
    Done tt (said (display_text (m_radio m) (c_packet (n_recvchan (m_app m)))) m).
Proof.
  intros Hm. pose proof (ok_packet _ (mon_recvchan _ (fw_app m Hm))) as Hp.
  unfold display_packet, display_text, heading. rewrite run_gets.
  set (p := c_packet (n_recvchan (m_app m))) in *.
  set (t0 := str "RX" ++ _). rewrite (bind_done _ _ m tt (said t0 m)) by done.
  rewrite run_ch_load. change (n_recvchan (m_app (said t0 m))) with (n_recvchan (m_app m)).
  fold p. cbv zeta. rewrite !print_when, !said_said. rewrite max_payload.
  change PACKET_HEADER_LEN with 6.
  assert ((if 10 <? p_len p then 10 else p_len p) = Z.min (p_len p) 10) as ->
    by (destruct (Z.ltb_spec 10 (p_len p)); lia).
  assert (length (packet_to_bytes p) = 16%nat) as Hlen.
  { unfold packet_to_bytes. rewrite length_app, (ok_size _ Hp). done. }
  pose proof (ok_len _ Hp) as Hl. unfold is_u8 in Hl.
  erewrite bind_done; [|apply display_bytes_run; [done|rewrite Hlen; lia] ].
  unfold putchar, displayed.
  match goal with |- print [10] (said ?t (said ?t' ?x)) = _ =>
    change (print [10] (said t (said t' x))) with (Done tt (said [10] (said t (said t' x)))) end.
  rewrite !said_said. unfold t0. by rewrite <- !app_assoc.
Qed.
End display.

(** ** Safety *)

Section safety.
Context {D : Type} `{Platform D} `{Patience}.
Implicit Types m : machine D monitor.

#[export] Instance monitor_power : PowerLaws D monitor.
Proof. intros hi. apply preserves_ret. Qed.

#[export] Instance monitor_laws : AppLaws D monitor.
Proof.
  split; [intros p Hp; apply preserves_ret|]. intros i buf m Hi Hb Hl Hm. by split_and!.
Qed.

Lemma said_ok t m : fw_ok m -> fw_ok (said t m).
Proof. intros []. by split. Qed.

Lemma preserves_display_packet : preserves fw_ok (display_packet recvchan : fw D monitor unit).
Proof. intros m Hm. unfold safe. rewrite display_packet_run by done. by apply said_ok. Qed.

Lemma preserves_drain n : preserves fw_ok (drain n : fw D monitor unit).
Proof.
  induction n as [|n IH]; cbn [drain]; [by intros m Hm|].
  apply (preserves_rget_bind is_u8 r_rx_fifo). intros rx _. apply preserves_if; [apply preserves_ret|].
  apply (preserves_rget_bind is_u8 r_my_channel). intros ch Hch.
  apply preserves_bind; [by apply preserves_libradio_recv; [apply recvchan_ok|]|intros got].
  apply preserves_bind; [apply preserves_when, preserves_display_packet|intros _].
  apply preserves_bind; [eapply preserves_keeps; by apply query_get_fifo_info|by intros _].
Qed.

Lemma preserves_monitor_rest irqf : preserves fw_ok (monitor_rest irqf : fw D monitor unit).
Proof.
  unfold monitor_rest. apply preserves_bind; [intros m []; split; try done; flags|intros e].
  apply preserves_bind; [apply preserves_rget|intros tom].
  apply preserves_bind; [preserve|intros _]. apply preserves_bind; [apply preserves_when|intros _].
  - apply preserves_bind; [eapply preserves_keeps; by apply query_get_fifo_info|intros _].
    apply preserves_bind; [eapply preserves_keeps, query_get_int_status|intros _].
    apply preserves_bind; [eapply preserves_keeps, query_get_modem_status|intros _].
    by apply preserves_libradio_irq_enable.
  - apply preserves_bind; [apply preserves_drain|intros _; apply preserves_ret].
Qed.

(** The wait ends with the character that has the overrunning packet handled. *)
Definition pass_debug_overrun m : Prop :=
  exists irqf m1, libradio_wait m = Done irqf m1 /\ debug_overrun m1.

Lemma monitor_pass_cases m :
  fw_ok m -> safe monitor_pass (fun _ => fw_ok) m \/ pass_debug_overrun m.
Proof.
  intros Hm. unfold monitor_pass. pose proof (preserves_libradio_wait m Hm) as Hw.
  unfold safe in Hw |- *. unfold mbind at 1, cmd_bind at 1.
  destruct (libradio_wait m) as [irqf m1| | |] eqn:Ew; [|done|by left..].
  unfold sio_iqueue_empty. rewrite bind_assoc, run_gets.
  destruct (m_iqueue m1) as [|ch q] eqn:Eq.
  { left. by apply (preserves_monitor_rest irqf m1). }
  destruct (debug_cases m1 Hw) as [Hs|Ho]; [left|right; by exists irqf, m1].
  change (safe (libradio_debug;; monitor_rest irqf) (fun _ => fw_ok) m1). rewrite safe_bind.
  eapply safe_mono; [exact Hs|]. intros ? m2 Hm2. by apply preserves_monitor_rest.
Qed.

(** *** Start-up *)

Lemma monitor_startup_run m :
  libradio_set_state LIBRADIO_STATE_STARTUP (m <| m_radio := zero_libradio |>) =
    Done tt (m <| m_radio := startup_record |>).
Proof.
  apply wp_run. intros Q. unfold libradio_set_state, startup_record. rewrite wp_bind, wp_rget.
  change (negb (LIBRADIO_STATE_STARTUP =? LIBRADIO_STATE_STARTUP)) with false. cbn [andb].
  rewrite wp_bind, wp_libradio_set_song by done.
  change ((LIBRADIO_STATE_STARTUP =? LIBRADIO_STATE_COLD)
          || (LIBRADIO_STATE_STARTUP =? LIBRADIO_STATE_WARM)) with false.
  change (LIBRADIO_STATE_STARTUP =? LIBRADIO_STATE_LISTEN) with false.
  change (LIBRADIO_STATE_STARTUP =? LIBRADIO_STATE_ERROR) with false. cbv iota.
  unfold set_state_active, libradio_power_mode. cbn [own_power_mode monitor_app]. unfold monitor_power_mode.
  rewrite wp_bind, wp_bind, wp_ret, !wp_rput. by f_equal.
Qed.

(** The change to the ACTIVE state, without a change of the clock's speed. *)
Lemma wp_monitor_active m :
  r_state (m_radio m) <> LIBRADIO_STATE_ACTIVE ->
  wp (libradio_set_state LIBRADIO_STATE_ACTIVE) (fun _ m' =>
    m' = m <| m_radio ::= fun l => l <| r_heart_beat := song_of LIBRADIO_STATE_ACTIVE |>
           <| r_timeout := 6000 |> <| r_state := LIBRADIO_STATE_ACTIVE |> |>) m.
Proof.
  intros Hs. unfold libradio_set_state. rewrite wp_bind, wp_rget.
  rewrite (proj2 (Z.eqb_neq _ _) Hs), andb_false_r, wp_bind, wp_libradio_set_song by done.
  change ((LIBRADIO_STATE_ACTIVE =? LIBRADIO_STATE_COLD)
          || (LIBRADIO_STATE_ACTIVE =? LIBRADIO_STATE_WARM)) with false.
  change (LIBRADIO_STATE_ACTIVE =? LIBRADIO_STATE_LISTEN) with false.
  change (LIBRADIO_STATE_ACTIVE =? LIBRADIO_STATE_ERROR) with false. cbv iota.
  unfold set_state_active, libradio_power_mode. cbn [own_power_mode monitor_app]. unfold monitor_power_mode.
  rewrite wp_bind, wp_bind, wp_ret, !wp_rput. by destruct m.
Qed.

Lemma monitor_regs_ok n g :
  app_inv n -> (forall r, regs_ok r -> regs_ok (g r)) -> app_inv (n <| n_regs ::= g |>).
Proof. intros [] Hg. split; [done|by apply Hg]. Qed.

(** The monitor listening on channel 0, active and with both periods 10 ms. *)
Definition monitoring m : Prop :=
  fw_ok m /\ r_state (m_radio m) = LIBRADIO_STATE_ACTIVE /\ r_my_channel (m_radio m) = 0 /\
  r_my_node_id (m_radio m) = 0 /\ r_fast_period (m_radio m) = 1 /\ r_slow_period (m_radio m) = 1 /\
  r_tick_count (m_radio m) = 100.

(** Before the change to ACTIVE. *)
Definition idle_settings (l : libradio) : Prop :=
  r_state l <> LIBRADIO_STATE_ACTIVE /\ r_my_channel l = 0 /\
  r_fast_period l = 1 /\ r_slow_period l = 1.

Lemma wp_monitor_start m :
  statics_ok m -> app_inv (m_app m) -> wp monitor_start (fun _ => monitoring) m.
Proof.
  intros Hm Ha. assert (booting (fun _ => True) m) as Hb by done. clear Hm Ha.
  unfold monitor_start, monitor_boot, cli, sei, _setled, nreg_put, mput, print.
  pose proof monitor_regs_ok. do 14 boot. destruct Hb as (Hm&Ha&_).
  rewrite wp_bind. eapply wp_mono.
  { apply (wp_libradio_init_from 0 0 0 0 m _ (monitor_startup_run m)); done. }
  intros _ m1 (Hm1&Hs1&_).
  rewrite wp_bind. eapply wp_mono; [by apply wp_libradio_set_clock|]. intros _ m2 [Hm2 E2].
  rewrite wp_bind, wp_libradio_irq_enable.
  pose proof (fw_ok_irq_machine 1 m2 ltac:(done) Hm2) as Hm3.
  rewrite wp_bind, wp_rput, wp_bind, wp_rput.
  set (m4 := (irq_machine 1 m2) <| m_radio ::= fun l => l <| r_curr_channel := 0 |> |>
               <| m_radio ::= fun l => l <| r_my_channel := 0 |> |>).
  assert (fw_ok m4) as Hm4.
  { apply (preserves_rput is_u8 r_my_channel 0); [done|by intros ? []|].
    by apply (preserves_rput is_u8 r_curr_channel 0); [|by intros ? []|]. }
  set (on := fun l => l <| r_period := 1 |> <| r_fast_period := 1 |> <| r_slow_period := 1 |>
                        <| r_catch_irq := 1 |> <| r_my_channel := 0 |>).
  assert (settings (m_radio m4) = on (settings (init_record 0 0 0 0))) as Hs4
    by (unfold m4; rewrite E2; exact (f_equal on Hs1)).
  clearbody m4. clear m1 m2 Hm1 Hs1 Hm2 E2 Hm3.
  rewrite wp_bind. eapply wp_mono; [by apply wp_recv_start_settings|]. intros _ m5 (Hm5&_&Hs5).
  assert (idle_settings (settings (m_radio m5))) as (I1&I2&I3&I4).
  { rewrite Hs4 in Hs5. by destruct Hs5 as [-> |[v ->] ]. }
  clear Hs5.
  rewrite wp_bind, wp_rput.
  set (m6 := m5 <| m_radio ::= fun l => l <| r_my_node_id := 0 |> |>).
  assert (fw_ok m6) as Hm6 by by apply (preserves_rput is_u8 r_my_node_id 0); [|by intros ? []|].
  rewrite wp_bind. eapply wp_mono; [by apply wp_monitor_active|]. cbv beta. intros _ m7 ->.
  rewrite wp_bind, wp_libradio_set_delay, wp_bind, wp_rget, wp_modify.
  set (m7 := m6 <| m_radio ::= _ |>).
  assert (fw_ok m7) as Hm7.
  { apply fw_ok_radio; [done| |by destruct (fw_periods _ Hm6)].
    do 3 (apply field_put; [|done]). apply Hm6. }
  destruct (with_delay_ok 100 (m_radio m7)) as [Hl Hp]; [apply Hm7|apply Hm7|done|].
  set (m8 := m7 <| m_radio := with_delay 100 (m_radio m7) |> <| m_sreg_i := true |>).
  assert (fw_ok m8) as Hm8 by (destruct Hm7; by split).
  split; [by apply (said_ok _ m8)|].
  exact (conj eq_refl (conj I2 (conj eq_refl (conj I3 (conj I4 eq_refl))))).
Qed.
End safety.

(** ** Properties *)

Section properties.
Context {D : Type} `{Platform D} `{Patience}.
Implicit Types m : machine D monitor.

(** The line printed for a packet: the channel and the signal strengths, marks
    for a node, a command or a length out of the ordinary, and then the header
    and the payload (at most 10 bytes) in hexadecimal, which read back are
    exactly the first bytes of the packet in memory. Nothing else changes. *)
Theorem display_shows_packet m :
  fw_ok m ->
  let p := c_packet (n_recvchan (m_app m)) in
  exists dump,
    display_packet recvchan m = Done tt (said (heading (m_radio m) p ++ dump ++ [10]) m) /\
    read_dump dump = take (Z.to_nat (Z.min (p_len p) 10 + 6)) (packet_to_bytes p).
Proof.
  intros Hm p. exists (hex_dump 0 (displayed p)). split; [by apply display_packet_run|].
  apply read_hex_dump, Forall_take, packet_to_bytes_u8, ok_packet, (mon_recvchan _ (fw_app m Hm)).
Qed.

(** A pass of the monitor's loop - the wait, a debugging command, the status
    of the radio, every packet in its FIFO - keeps the invariant and is free of
    undefined behaviour, whatever the radio, the interrupts and the serial line
    deliver, unless a debugging command has one of the two overrunning packets
    handled. *)
Theorem monitor_pass_safe m :
  fw_ok m -> safe monitor_pass (fun _ => fw_ok) m \/ pass_debug_overrun m.
Proof. apply monitor_pass_cases. Qed.

(** Start-up of the monitor always reaches its loop, active on channel 0, with
    its own power mode and both periods 10 ms, whether or not the radio came up. *)
Theorem monitor_start_establishes m :
  statics_ok m -> app_inv (m_app m) -> wp monitor_start (fun _ => monitoring) m.
Proof. apply wp_monitor_start. Qed.

(** [C27] The frequency monitor as a program: from the static objects as the linker leaves
    them, however many passes of its loop are made (the wait, a debugging command, the
    status of the radio, every packet in its FIFO), it keeps its invariant and nothing
    undefined happens, unless the run has come to a debugging command that has one of
    the two overrunning packets handled. *)
Theorem monitor_runs n m :
  statics_ok m -> app_inv (m_app m) ->
  safe (monitor_main n) (fun _ => fw_ok) m \/
  exists j m', (j < n)%nat /\ monitor_main j m = Done tt m' /\ fw_ok m' /\ pass_debug_overrun m'.
Proof.
  intros Hm Hk. apply safe_program_cases; [intros ?; apply monitor_pass_cases|].
  eapply wp_mono; [by apply wp_monitor_start|]. by intros ? m' [Hm' _].
Qed.
End properties.

(** ** Instances of the properties *)

#[local] Instance bench_patience : Patience := 10%nat.

Lemma zero_monitor_ok : app_inv zero_monitor.
Proof. split; [apply zero_channel_ok|done]. Qed.

Definition bench_monitor (q : list Z) : machine (list Z) monitor :=
  (reset_machine [] (zero_monitor <| n_recvchan := mk_channel 0 0
      (mk_packet 517 2 9 3 161 [1; 6; 171; 0; 0; 0; 0; 0; 0; 0]) |>) [RadioIrq])
    <| m_radio := zero_libradio <| r_state := LIBRADIO_STATE_ACTIVE |> <| r_period := 1 |>
         <| r_fast_period := 1 |> <| r_slow_period := 1 |> <| r_radio_active := 1 |>
         <| r_current_rssi := 80 |> |> <| m_iqueue := q |>.

Lemma bench_monitor_ok q : bytes q -> fw_ok (bench_monitor q).
Proof.
  intros Hq. unfold bench_monitor.
  assert (forall m : machine (list Z) monitor, fw_ok m -> fw_ok (m <| m_iqueue := q |>)) as Hadd
    by (intros m []; by split).
  apply Hadd, reset_statics_ok; [|by repeat constructor| |done].
  - split; [|done]. split; [done|done|]. split; try done. by bytes_cons.
  - repeat apply field_put; try done. apply zero_libradio_ok.
Qed.

Lemma display_shows_packet_witness :
  exists dump,
    display_packet recvchan (bench_monitor []) =
      Done tt (said (str "RX0,80/0:" ++ dump ++ [10]) (bench_monitor [])) /\
    read_dump dump = [5; 2; 2; 9; 3; 161; 1; 6; 171].
Proof. apply (display_shows_packet (bench_monitor [])), bench_monitor_ok. constructor. Defined.

Lemma monitor_pass_safe_witness :
  safe monitor_pass (fun _ => fw_ok) (bench_monitor (str "g")) \/
  pass_debug_overrun (bench_monitor (str "g")).
Proof. apply (monitor_pass_safe (bench_monitor (str "g"))), bench_monitor_ok. by bytes_cons. Defined.

Lemma monitor_start_establishes_witness :
  wp monitor_start (fun _ => monitoring) (reset_machine (replicate 300 255) zero_monitor []).
Proof.
  apply (monitor_start_establishes (reset_machine (replicate 300 255) zero_monitor []));
    [|apply zero_monitor_ok]. by apply reset_statics_ok; [apply zero_monitor_ok|constructor].
Defined.

Lemma monitor_runs_witness :
  let m := reset_machine (replicate 300 255) zero_monitor [Tick; SerialRx 103; RadioIrq] in
  safe (monitor_main 2) (fun _ => fw_ok) m \/
  exists j m', (j < 2)%nat /\ monitor_main j m = Done tt m' /\ fw_ok m' /\ pass_debug_overrun m'.
Proof.
  apply (monitor_runs 2 (reset_machine (replicate 300 255) zero_monitor [Tick; SerialRx 103; RadioIrq]));
    [|apply zero_monitor_ok].
  by apply reset_statics_ok; [apply zero_monitor_ok|repeat constructor].
Defined.
