(* ===== verification/Control.v ===== *)
(** The controller's objects: the channels of transmit.c, the state machine's
    variables of input.c, the registers its start-up code sets, the pointers
    into the channels, and the two leaf functions the other files call back
    into, [reply] of input.c and [set_channel] of enqueue.c. The controller is an
    application of the library whose call-backs do nothing. *)

From stdpp Require Export vector fin_maps.
From S2P Require Import Machine Clock State Spi Invariant Si4463 Wait Rxtx Command Loop Boot.

(** ** control.h *)

Definition CONTROL_C1 : Z := 1.
Definition CONTROL_C2 : Z := 1.
Definition CONTROL_N1 : Z := 1.
Definition CONTROL_N2 : Z := 1.
Definition FW_VERSION_H : Z := 3.
Definition FW_VERSION_L : Z := 1.
Definition MAX_RADIO_CHANNELS : Z := 6.

(** The states of the serial input. *)
Definition IO_STATE_NEWLINE : Z := 0.
Definition IO_STATE_WAITNL : Z := 1.
Definition IO_STATE_WAITCHAN : Z := 2.
Definition IO_STATE_WAITNODE : Z := 3.
Definition IO_STATE_WAITCMD : Z := 4.
Definition IO_STATE_WAITDATA : Z := 5.

(** ** Objects *)

(** [state], [value] and [curr_chp] of input.c, [channels] and [resp_chp] of
    transmit.c and the static [last_modulo] of [tx_check_queues]. A pointer to a
    channel is its index, or [None] for the null pointer. *)
Record control := mk_control {
  k_state : Z;
  k_value : Z;
  k_curr : option Z;
  k_channels : vec channel 6;
  k_resp : option Z;
  k_last_modulo : Z;
  k_regs : regs
}.

#[export] Instance eta_control : Eta control := fun k =>
  mk_control (k_state k) (k_value k) (k_curr k) (k_channels k) (k_resp k)
    (k_last_modulo k) (k_regs k).
#[export] Instance set_k_state : Setter k_state := ltac:(build_setter).
#[export] Instance set_k_value : Setter k_value := ltac:(build_setter).
#[export] Instance set_k_curr : Setter k_curr := ltac:(build_setter).
#[export] Instance set_k_channels : Setter k_channels := ltac:(build_setter).
#[export] Instance set_k_resp : Setter k_resp := ltac:(build_setter).
#[export] Instance set_k_last_modulo : Setter k_last_modulo := ltac:(build_setter).
#[export] Instance set_k_regs : Setter k_regs := ltac:(build_setter).

(** The objects at start-up; [state] is initialised with [IO_STATE_NEWLINE]. *)
Definition zero_control (mcusr : Z) : control :=
  mk_control IO_STATE_NEWLINE 0 None (vreplicate 6 zero_channel) None 0
    (mk_regs mcusr 0 0 0 0 0 0).

(** *** Pointers into [channels] *)

Definition chan_index (i : Z) : option (fin 6) :=
  if i <? 0 then None
  else [0%fin; 1%fin; 2%fin; 3%fin; 4%fin; 5%fin] !! Z.to_nat i.

Definition chan_of (i : Z) (k : control) : channel :=
  match chan_index i with
  | Some f => k_channels k !!! f
  | None => zero_channel
  end.

Definition with_chan (i : Z) (c : channel) (k : control) : control :=
  match chan_index i with
  | Some f => k <| k_channels ::= vinsert f c |>
  | None => k
  end.

(** The objects that belong neither to the channels nor to the wait for an answer. *)
Definition rest (k : control) : Z * Z * option Z * Z * regs :=
  (k_state k, k_value k, k_curr k, k_last_modulo k, k_regs k).

Definition chan_ref (i : Z) : chanref control := AppChan (chan_of i) (with_chan i).

Section control.
Context {D : Type}.

Definition kget {T} (f : control -> T) : fw D control T := gets (fun m => f (m_app m)).
Definition kput {T} (f : control -> T) `{!Setter f} (v : T) : fw D control unit :=
  modify (fun m => m <| m_app ::= fun k => k <| f := v |> |>).

(** [*chp] for [chp = &channels\[i\]]. *)
Definition chan_get (i : Z) : fw D control channel :=
  match chan_index i with
  | Some _ => gets (fun m => chan_of i (m_app m))
  | None => fail OutOfBounds
  end.

(** [chp->f = v]. *)
Definition chan_set (i : Z) (g : channel -> channel) : fw D control unit :=
  c ← chan_get i;
  modify (fun m => m <| m_app ::= with_chan i (g c) |>).

Definition chan_put {T} (f : channel -> T) `{!Setter f} (i : Z) (v : T) : fw D control unit :=
  chan_set i (fun c => c <| f := v |>).

(** [chp->packet.f = v]. *)
Definition cpacket_put {T} (f : packet -> T) `{!Setter f} (i : Z) (v : T) : fw D control unit :=
  chan_set i (fun c => c <| c_packet ::= fun p => p <| f := v |> |>).

(** The pointer is followed. *)
Definition deref (p : option Z) : fw D control Z :=
  match p with
  | Some i => mret i
  | None => fail NullPointer
  end.

(** main.c: the call-backs. *)
#[export] Instance control_app : App D control := {|
  operate := fun _ => mret tt;
  fetch_status := fun _ buf _ => mret (0, buf);
  own_power_mode := None
|}.

(** input.c *)
Definition reply (code : Z) : fw D control unit :=
  (if code =? 0 then print (str "<+" ++ [10])
   else st ← libradio_get_state;
        print (str "<-" ++ fmt_d code ++ str "/" ++ fmt_d st ++ [10]));;
  kput k_state IO_STATE_WAITNL.

(** enqueue.c; the comparison [channo < 0] of an unsigned value is never true. *)
Definition set_channel (channo config : Z) : fw D control unit :=
  if (channo <? 0) || (MAX_RADIO_CHANNELS <=? channo) then mret tt
  else
    when (config <? 3) (chan_put c_state channo config);;
    chan_put c_priority channo 0.
End control.

#[export] Instance control_stock {D} : StockPower D control := eq_refl.

(** ** The invariant *)

Definition chan_ptr_ok (p : option Z) : Prop :=
  match p with Some i => 0 <= i < 6 | None => True end.

(** Every object holds values of its type, a pointer points to a channel or is
    null, and it is not null once a channel has been named. *)
Record control_ok (k : control) : Prop := {
  ctl_state : 0 <= k_state k <= 5;
  ctl_value : is_u8 (k_value k);
  ctl_curr : chan_ptr_ok (k_curr k);
  ctl_named : IO_STATE_WAITNODE <= k_state k -> k_curr k <> None;
  ctl_channels : forall f, channel_ok (k_channels k !!! f);
  ctl_resp : chan_ptr_ok (k_resp k);
  ctl_modulo : 0 <= k_last_modulo k < 500;
  ctl_regs : regs_ok (k_regs k)
}.

#[export] Instance control_inv : AppInv control := control_ok.

Section channels.
Implicit Types k : control.

Lemma chan_index_some i : 0 <= i < 6 -> exists f, chan_index i = Some f /\ Z.of_nat (fin_to_nat f) = i.
Proof.
  intros Hi. assert (i = 0 \/ i = 1 \/ i = 2 \/ i = 3 \/ i = 4 \/ i = 5) as H by lia.
  destruct H as [->|[->|[->|[->|[->| ->] ] ] ] ]; eexists; split; reflexivity.
Qed.

Lemma chan_index_none i : ~ 0 <= i < 6 -> chan_index i = None.
Proof.
  intros Hi. unfold chan_index. destruct (Z.ltb_spec i 0); [done|].
  apply lookup_ge_None_2. cbn. lia.
Qed.

Lemma chan_index_range i f : chan_index i = Some f -> 0 <= i < 6.
Proof.
  intros Hf. destruct (decide (0 <= i < 6)) as [|Hi]; [done|].
  by rewrite chan_index_none in Hf.
Qed.

Lemma chan_index_inj i j f : chan_index i = Some f -> chan_index j = Some f -> i = j.
Proof.
  intros Hi Hj. pose proof (chan_index_range _ _ Hi). pose proof (chan_index_range _ _ Hj).
  destruct (chan_index_some i) as (a&Ha&<-); [done|]. destruct (chan_index_some j) as (b&Hb&<-); [done|].
  congruence.
Qed.

Lemma chan_of_with i c k : 0 <= i < 6 -> chan_of i (with_chan i c k) = c.
Proof.
  intros Hi. unfold chan_of, with_chan. destruct (chan_index_some i Hi) as (f&->&_).
  upd_simpl. apply vlookup_insert.
Qed.

Lemma chan_of_with_ne i j c k : i <> j -> chan_of j (with_chan i c k) = chan_of j k.
Proof.
  intros Hij. unfold chan_of, with_chan.
  destruct (chan_index i) as [f|] eqn:Hf; [|done].
  destruct (chan_index j) as [g|] eqn:Hg; [|done]. upd_simpl.
  apply vlookup_insert_ne. intros ->. by apply Hij, (chan_index_inj i j g).
Qed.

Lemma with_chan_twice i c c' k : with_chan i c (with_chan i c' k) = with_chan i c k.
Proof.
  unfold with_chan. destruct (chan_index i) as [f|]; [|done].
  destruct k as [a b d v e g h]. unfold upd, set_k_channels. cbn. f_equal.
  apply vec_eq. intros j. destruct (decide (f = j)) as [->|];
    rewrite ?vlookup_insert, ?vlookup_insert_ne by done; done.
Qed.

Lemma with_chan_id i k : with_chan i (chan_of i k) k = k.
Proof.
  unfold with_chan, chan_of. destruct (chan_index i) as [f|]; [|done].
  destruct k as [a b d v e g h]. unfold upd, set_k_channels. cbn. f_equal.
  by rewrite vlookup_insert_self.
Qed.

Lemma resp_with_chan i c k : k_resp (with_chan i c k) = k_resp k.
Proof. unfold with_chan. by destruct (chan_index i). Qed.

Lemma rest_with_chan i c k : rest (with_chan i c k) = rest k.
Proof. unfold with_chan. by destruct (chan_index i). Qed.

Lemma chan_ref_lawful i : 0 <= i < 6 -> lawful (chan_ref i).
Proof.
  intros Hi. split_and!; intros; [by apply chan_of_with|by apply with_chan_twice|apply with_chan_id].
Qed.

Lemma chan_of_ok i k : control_ok k -> channel_ok (chan_of i k).
Proof.
  intros Hk. unfold chan_of. destruct (chan_index i); [apply Hk|apply zero_channel_ok].
Qed.

Lemma with_chan_ok i c k : channel_ok c -> control_ok k -> control_ok (with_chan i c k).
Proof.
  intros Hc Hk. unfold with_chan. destruct (chan_index i) as [f|]; [|done].
  destruct Hk. split; upd_simpl; try done. intros g.
  destruct (decide (f = g)) as [->|]; rewrite ?vlookup_insert, ?vlookup_insert_ne; done.
Qed.

Lemma chan_ref_ok i : 0 <= i < 6 -> ref_ok (chan_ref i).
Proof.
  intros Hi. split; [by apply chan_ref_lawful|cbn..].
  - intros k Hk. by apply chan_of_ok.
  - intros c k Hc Hk. by apply with_chan_ok.
Qed.
End channels.

(** ** Rules *)

Section rules.
Context {D : Type}.
Implicit Types m : machine D control.

Lemma wp_kget {T} (f : control -> T) Q m : wp (kget f) Q m = Q (f (m_app m)) m.
Proof. done. Qed.

Lemma wp_kput {T} (f : control -> T) `{!Setter f} v Q m :
  wp (kput f v) Q m = Q tt (m <| m_app ::= fun k => k <| f := v |> |>).
Proof. done. Qed.

Lemma wp_chan_get i Q m : 0 <= i < 6 -> wp (chan_get i) Q m = Q (chan_of i (m_app m)) m.
Proof. intros Hi. unfold chan_get. by destruct (chan_index_some i Hi) as (f&->&_). Qed.

Lemma wp_chan_set i g Q m :
  0 <= i < 6 ->
  wp (chan_set i g) Q m = Q tt (m <| m_app ::= with_chan i (g (chan_of i (m_app m))) |>).
Proof. intros Hi. unfold chan_set. by rewrite wp_bind, wp_chan_get. Qed.

Lemma run_kget {T B} (f : control -> T) (k : T -> fw D control B) m :
  (kget f ≫= k) m = k (f (m_app m)) m.
Proof. done. Qed.

Lemma run_kput {T B} (f : control -> T) `{!Setter f} v (k : unit -> fw D control B) m :
  (kput f v ≫= k) m = k tt (m <| m_app := (m_app m) <| f := v |> |>).
Proof. done. Qed.

Lemma run_chan_get {B} i (k : channel -> fw D control B) m :
  0 <= i < 6 -> (chan_get i ≫= k) m = k (chan_of i (m_app m)) m.
Proof. intros Hi. unfold chan_get. by destruct (chan_index_some i Hi) as (f&->&_). Qed.

Lemma run_chan_set {B} i g (k : unit -> fw D control B) m :
  0 <= i < 6 -> (chan_set i g ≫= k) m =
    k tt (m <| m_app := with_chan i (g (chan_of i (m_app m))) (m_app m) |>).
Proof.
  intros Hi. unfold chan_set, chan_get. by destruct (chan_index_some i Hi) as (f&->&_).
Qed.

Lemma run_chan_put {T B} (f : channel -> T) `{!Setter f} i v (k : unit -> fw D control B) m :
  0 <= i < 6 -> (chan_put f i v ≫= k) m =
    k tt (m <| m_app := with_chan i ((chan_of i (m_app m)) <| f := v |>) (m_app m) |>).
Proof. intros Hi. unfold chan_put. by rewrite run_chan_set. Qed.

Lemma chan_put_run {T} (f : channel -> T) `{!Setter f} i v m :
  0 <= i < 6 -> chan_put f i v m =
    Done tt (m <| m_app := with_chan i ((chan_of i (m_app m)) <| f := v |>) (m_app m) |>).
Proof.
  intros Hi. unfold chan_put, chan_set. rewrite run_chan_get by done. done.
Qed.

Lemma out_app m f g k k' :
  m <| m_out ::= f |> <| m_app := k |> <| m_out ::= g |> <| m_app := k' |> =
    m <| m_out := g (f (m_out m)) |> <| m_app := k' |>.
Proof. by_machine m. Qed.

Lemma app_twice m k k' : m <| m_app := k |> <| m_app := k' |> = m <| m_app := k' |>.
Proof. by destruct m. Qed.

Lemma app_upd g m k : m_app m = k -> m <| m_app ::= g |> = m <| m_app := g k |>.
Proof. intros <-. by destruct m. Qed.

Lemma app_same m : m <| m_app := m_app m |> = m.
Proof. by destruct m. Qed.

Lemma wp_reply code Q m :
  wp (reply code) Q m =
    Q tt (m <| m_out ::= fun o => o ++
             (if code =? 0 then str "<+" ++ [10]
              else str "<-" ++ fmt_d code ++ str "/" ++ fmt_d (r_state (m_radio m)) ++ [10]) |>
            <| m_app ::= fun k => k <| k_state := IO_STATE_WAITNL |> |>).
Proof. unfold reply. by destruct (code =? 0). Qed.

Lemma fw_ok_app m g : fw_ok m -> control_ok (g (m_app m)) -> fw_ok (m <| m_app ::= g |>).
Proof. intros [] ?. by split. Qed.

Lemma preserves_app g :
  (forall k, control_ok k -> control_ok (g k)) ->
  preserves fw_ok (modify (fun m => m <| m_app ::= g |>) : fw D control unit).
Proof. intros Hg m Hm. apply fw_ok_app; [done|]. apply Hg, Hm. Qed.

Lemma preserves_kget {T} (f : control -> T) : preserves fw_ok (kget f : fw D control T).
Proof. by intros m Hm. Qed.

(** What is known of the controller's objects is available to the rest. *)
Lemma preserves_kget_bind {T B} (f : control -> T) (V : T -> Prop) (k : T -> fw D control B) :
  (forall x, control_ok x -> V (f x)) -> (forall v, V v -> preserves fw_ok (k v)) ->
  preserves fw_ok (v ← kget f; k v).
Proof.
  intros Hf Hk. apply (preserves_bind_val _ V); [|done]. intros m Hm.
  split; [apply Hf, Hm|done].
Qed.

Lemma preserves_chan_get {B} i (k : channel -> fw D control B) :
  0 <= i < 6 -> (forall c, channel_ok c -> preserves fw_ok (k c)) ->
  preserves fw_ok (c ← chan_get i; k c).
Proof.
  intros Hi Hk m Hm. rewrite safe_bind. apply safe_wp. rewrite wp_chan_get by done.
  apply Hk; [|done]. apply chan_of_ok, Hm.
Qed.

Lemma yields_chan_get {B} (V : B -> Prop) i (k : channel -> fw D control B) :
  0 <= i < 6 -> (forall c, channel_ok c -> yields fw_ok V (k c)) ->
  yields fw_ok V (c ← chan_get i; k c).
Proof.
  intros Hi Hk m Hm. rewrite safe_bind. apply safe_wp. rewrite wp_chan_get by done.
  apply Hk; [|done]. apply chan_of_ok, Hm.
Qed.

Lemma preserves_chan_set i g :
  0 <= i < 6 -> (forall c, channel_ok c -> channel_ok (g c)) ->
  preserves fw_ok (chan_set i g : fw D control unit).
Proof.
  intros Hi Hg. apply preserves_chan_get; [done|]. intros c Hc.
  apply preserves_app. intros k Hk. apply with_chan_ok; auto.
Qed.

Lemma preserves_chan_state i v :
  0 <= i < 6 -> is_u8 v -> preserves fw_ok (chan_put c_state i v : fw D control unit).
Proof. intros Hi Hv. apply preserves_chan_set; [done|]. intros c []. by split. Qed.

Lemma preserves_chan_priority i v :
  0 <= i < 6 -> is_u8 v -> preserves fw_ok (chan_put c_priority i v : fw D control unit).
Proof. intros Hi Hv. apply preserves_chan_set; [done|]. intros c []. by split. Qed.

Lemma preserves_cpacket_put {T} (f : packet -> T) `{!Setter f} i v :
  0 <= i < 6 -> (forall p, packet_ok p -> packet_ok (p <| f := v |>)) ->
  preserves fw_ok (cpacket_put f i v : fw D control unit).
Proof.
  intros Hi Hp. apply preserves_chan_set; [done|]. intros c []. split; upd_simpl; auto.
Qed.

Lemma control_ok_state k s :
  control_ok k -> 0 <= s < IO_STATE_WAITNODE -> control_ok (k <| k_state := s |>).
Proof.
  intros [] Hs. split; upd_simpl; try done; unfold IO_STATE_WAITNODE in *; lia.
Qed.

Lemma preserves_reply code : preserves fw_ok (reply code : fw D control unit).
Proof.
  unfold reply. apply preserves_bind; [|intros _; apply preserves_app].
  - apply preserves_if; [apply preserves_print|].
    apply preserves_bind; [apply preserves_rget|intros st]. apply preserves_print.
  - intros k Hk. by apply control_ok_state.
Qed.

Lemma preserves_set_channel channo config :
  is_u8 channo -> is_u8 config -> preserves fw_ok (set_channel channo config : fw D control unit).
Proof.
  intros Hn Hc. unfold set_channel.
  destruct ((channo <? 0) || (MAX_RADIO_CHANNELS <=? channo)) eqn:E; [apply preserves_ret|].
  apply orb_false_elim in E as [E1 E2]. unfold MAX_RADIO_CHANNELS in E2.
  apply preserves_bind; [|intros _].
  - apply preserves_when, preserves_chan_state; [lia|done].
  - apply preserves_chan_priority; [lia|done].
Qed.

Lemma control_laws : AppLaws D control.
Proof.
  split.
  - intros p _. apply preserves_ret.
  - intros i buf m _ Hb Hl Hm. cbn. by split_and!.
Qed.
End rules.

#[export] Existing Instance control_laws.
#[export] Hint Resolve preserves_reply preserves_set_channel preserves_kget : preserves.
#[export] Hint Rewrite @wp_kget @wp_kput : wp.
#[export] Hint Extern 1 (preserves fw_ok (chan_put c_state _ _)) =>
  apply preserves_chan_state; [lia|in_range] : preserves.
#[export] Hint Extern 1 (preserves fw_ok (chan_put c_priority _ _)) =>
  apply preserves_chan_priority; [lia|in_range] : preserves.

(** ** A controller to try things on *)

(** The platform's script, the registered state of the channels, and the serial
    line: an active controller on channel 2 as node 7, with empty channels. *)
Definition bench_channel : channel := zero_channel <| c_state := LIBRADIO_CHSTATE_EMPTY |>.

Definition bench_objects : control :=
  (zero_control 0) <| k_channels := vreplicate 6 bench_channel |>.

Definition bench_control (k : control) (q : list Z) : machine (list Z) control :=
  (reset_machine (replicate 300 255) k []) <| m_radio := m_radio (bench_machine [] []) |>
    <| m_iqueue := q |>.

Lemma bench_objects_ok : control_ok bench_objects.
Proof.
  split; try done; try (cbn; lia). intros f. cbn [k_channels bench_objects].
  change (k_channels bench_objects) with (vreplicate 6 bench_channel).
  rewrite vlookup_replicate. split; [done|done|apply zero_packet_ok].
Qed.

Lemma bench_control_ok k q : control_ok k -> bytes q -> fw_ok (bench_control k q).
Proof.
  intros Hk Hq. destruct (bench_machine_ok [] [] (Forall_nil_2 _)). by split.
Qed.
