(* ===== verification/CtlCommand.v ===== *)
(** control/command.c: the commands the controller executes itself, and its own
    status line. *)

From S2P Require Import Machine Clock State Spi Invariant Si4463 Wait Rxtx Command Loop Control.

#[local] Open Scope Z_scope.

Definition RADIO_CMD_SET_CHANNEL : Z := RADIO_CMD_ADDITIONAL_BASE + 0.

Section ctl_command.
Context {D : Type} `{Platform D} `{Patience}.

(** The bytes of the two status blocks; [bv] is the battery voltage. *)
Definition dynamic_status (l : libradio) (bv : Z) : list Z :=
  [r_state l; r_tens_of_minutes l;
   Z.land (Z.shiftr bv 8) 0xff; Z.land bv 0xff;
   Z.land (Z.shiftr (r_npacket_rx l) 8) 0xff; Z.land (r_npacket_rx l) 0xff;
   Z.land (Z.shiftr (r_npacket_tx l) 8) 0xff; Z.land (r_npacket_tx l) 0xff].

Definition static_status : list Z :=
  [CONTROL_C1; CONTROL_C2; CONTROL_N1; CONTROL_N2; FW_VERSION_H; FW_VERSION_L].

(** The line printed for a status block. *)
Definition status_line (l : libradio) (stype : Z) (status : list Z) : list Z :=
  str "<" ++ [u8 (r_my_channel l + 65)] ++ fmt_d (r_my_node_id l) ++ str ":"
    ++ fmt_u (r_ms_ticks l) ++ str ":" ++ fmt_d RADIO_STATUS_RESPONSE ++ str ":"
    ++ fmt_d stype ++ flat_map (fun b => str "," ++ fmt_u b) status ++ [10].

Definition local_status (stype : Z) : fw D control unit :=
  status ←
    (if stype =? RADIO_STATUS_DYNAMIC then
       bv ← analog 3;
       l ← gets m_radio;
       mret (dynamic_status l bv)
     else if stype =? RADIO_STATUS_STATIC then mret static_status
     else mret []);
  l ← gets m_radio;
  print (status_line l stype status).

Definition mycommand_activate (pp : packet) : fw D control Z :=
  if negb (p_len pp =? 3) then mret 0
  else
    d0 ← data_get pp 0; d1 ← data_get pp 1;
    print (str "M-Actvt! ch:" ++ fmt_d d0 ++ str ",node:" ++ fmt_d d1 ++ [10]);;
    rput r_my_channel d0;;
    rput r_my_node_id d1;;
    ok ← libradio_power_up;
    if ok =? 0 then
      print (str "Going to ACTIVE state." ++ [10]);;
      libradio_set_state LIBRADIO_STATE_ACTIVE;;
      libradio_set_delay 1;;
      libradio_power_mode 1;;
      mret 0
    else
      print (str "Radio power-up failed." ++ [10]);;
      mret RADIO_CTLERR_POWER_FAIL.

Definition mycommand_set_time (pp : packet) : fw D control Z :=
  if negb (p_len pp =? 3) then mret 0
  else
    d0 ← data_get pp 0; d1 ← data_get pp 1;
    rput r_ms_ticks (u16 (Z.lor (Z.shiftl d0 8) d1));;
    d2 ← data_get pp 2;
    rput r_tens_of_minutes d2;;
    ms ← rget r_ms_ticks; tom ← rget r_tens_of_minutes;
    print (str ">> Ctlr Time:" ++ fmt_u ms ++ str "/" ++ fmt_u tom ++ [10]);;
    mret 0.

Definition mycommand_status (pp : packet) : fw D control Z :=
  if negb (p_len pp =? 3) then mret 0
  else d2 ← data_get pp 2; local_status d2;; mret 0.

(** One turn of the loop that prints the EEPROM. *)
Definition print_eeprom_byte (addr i : Z) : fw D control unit :=
  when (negb (i =? 0)) (putchar 44);;
  d ← gets m_dev;
  print (fmt_u (u8 (eeprom_read_byte (u16 (addr + i)) d))).

Definition mycommand_read_eeprom (pp : packet) : fw D control Z :=
  if negb (p_len pp =? 5) then mret 0
  else
    rchan ← data_get pp 0;
    rnode ← data_get pp 1;
    len ← data_get pp 2;
    d3 ← data_get pp 3; d4 ← data_get pp 4;
    let addr := i16 (Z.lor (Z.shiftl d3 8) d4) in
    print (str "RChan/Node " ++ fmt_d rchan ++ str ":" ++ fmt_d rnode ++ str ", len:"
             ++ fmt_d len ++ str ", addr:" ++ fmt_d addr ++ [10]);;
    print (str "<" ++ [u8 (rchan + 65)] ++ str ":" ++ fmt_d rnode ++ str ":");;
    for_loop (Z.to_nat len) 0 (print_eeprom_byte addr);;
    putchar 10;;
    mret 0.

Definition print_chan_state (i : Z) : fw D control unit :=
  c ← chan_get i; print (fmt_d (c_state c) ++ str ".").

Definition mycommand_set_channel (pp : packet) : fw D control Z :=
  if negb (p_len pp =? 2) then mret 0
  else
    d0 ← data_get pp 0;
    if (d0 <? 0) || (MAX_RADIO_CHANNELS <? d0) then mret 0
    else
      d1 ← data_get pp 1;
      set_channel d0 d1;;
      print (str "CHn:");;
      for_loop (Z.to_nat MAX_RADIO_CHANNELS) 0 print_chan_state;;
      hb ← rget r_heart_beat;
      print (str ".." ++ fmt_u hb ++ [10]);;
      mret 0.

(** The commands left to the library. *)
Definition library_command (cmd : Z) : bool :=
  (cmd =? RADIO_CMD_NOOP) || (cmd =? RADIO_CMD_FIRMWARE) || (cmd =? RADIO_CMD_DEACTIVATE)
  || (cmd =? RADIO_CMD_SET_DATE) || (cmd =? RADIO_CMD_WRITE_EEPROM).

Definition mycommand (pp : packet) : fw D control Z :=
  if library_command (p_cmd pp) then libradio_command pp;; mret 0
  else if p_cmd pp =? RADIO_CMD_ACTIVATE then mycommand_activate pp
  else if p_cmd pp =? RADIO_CMD_SET_TIME then mycommand_set_time pp
  else if p_cmd pp =? RADIO_CMD_STATUS then mycommand_status pp
  else if p_cmd pp =? RADIO_CMD_READ_EEPROM then mycommand_read_eeprom pp
  else if p_cmd pp =? RADIO_CMD_SET_CHANNEL then mycommand_set_channel pp
  else mret RADIO_CTLERR_BAD_CMD.
End ctl_command.

(** ** Safety *)

Section ctl_command_safety.
Context {D : Type} `{Platform D} `{Patience}.
Implicit Types m : machine D control.

Lemma wp_local_status stype Q m :
  wp (local_status stype) Q m =
    let r := analog_read 3 (m_dev m) in
    let l := m_radio m in
    if stype =? RADIO_STATUS_DYNAMIC then
      Q tt (m <| m_dev := r.2 |>
              <| m_out ::= fun o => o ++ status_line l stype (dynamic_status l r.1) |>)
    else if stype =? RADIO_STATUS_STATIC then
      Q tt (m <| m_out ::= fun o => o ++ status_line l stype static_status |>)
    else Q tt (m <| m_out ::= fun o => o ++ status_line l stype [] |>).
Proof.
  unfold local_status, analog. destruct (stype =? RADIO_STATUS_DYNAMIC).
  - unfold wp, mbind, cmd_bind. by destruct (analog_read 3 (m_dev m)).
  - by destruct (stype =? RADIO_STATUS_STATIC).
Qed.

Lemma preserves_local_status stype : preserves fw_ok (local_status stype : fw D control unit).
Proof.
  apply preserves_wp. intros m []. rewrite wp_local_status. cbv zeta.
  by repeat case_match; split.
Qed.

Lemma preserves_libradio_power_up : preserves fw_ok (libradio_power_up : fw D control Z).
Proof.
  apply preserves_wp. intros m Hm. eapply wp_mono; [by apply wp_libradio_power_up|].
  by intros v m' [? _].
Qed.

Lemma preserves_print_eeprom_byte addr i :
  preserves fw_ok (print_eeprom_byte addr i : fw D control unit).
Proof. unfold print_eeprom_byte, putchar. preserve. Qed.

Lemma preserves_print_chan_state i :
  0 <= i < 6 -> preserves fw_ok (print_chan_state i : fw D control unit).
Proof. intros Hi. apply preserves_chan_get; [done|]. intros c _. apply preserves_print. Qed.

Lemma preserves_mycommand_activate p :
  packet_ok p -> preserves fw_ok (mycommand_activate p : fw D control Z).
Proof.
  intros Hp. unfold mycommand_activate. apply preserves_if; [apply preserves_ret|].
  do 2 (apply preserves_data_get; [done|lia|intros ?]).
  do 3 (apply preserves_bind; [auto with preserves|intros _]).
  apply preserves_bind; [apply preserves_libradio_power_up|intros ok].
  apply preserves_if.
  - apply preserves_bind; [apply preserves_print|intros _].
    apply preserves_bind; [by apply preserves_libradio_set_state|intros _].
    apply preserves_bind; [by apply preserves_libradio_set_delay|intros _].
    apply preserves_bind; [apply power_mode_ok|intros _]. apply preserves_ret.
  - preserve.
Qed.

Lemma preserves_mycommand_set_channel p :
  packet_ok p -> preserves fw_ok (mycommand_set_channel p : fw D control Z).
Proof.
  intros Hp. unfold mycommand_set_channel. apply preserves_if; [apply preserves_ret|].
  apply preserves_data_get; [done|lia|intros ?]. apply preserves_if; [apply preserves_ret|].
  apply preserves_data_get; [done|lia|intros ?].
  apply preserves_bind; [by apply preserves_set_channel|intros _].
  apply preserves_bind; [apply preserves_print|intros _].
  apply preserves_bind; [|intros _; preserve].
  apply preserves_for_loop. intros i Hi. by apply preserves_print_chan_state.
Qed.

(** The command that reads behind its packet. *)
Definition write_overruns (p : packet) : bool :=
  (p_cmd p =? RADIO_CMD_WRITE_EEPROM) && (10 <=? p_len p) && (p_len p <=? 22).

Lemma overruns_write p : p_cmd p <> RADIO_CMD_READ_EEPROM -> overruns p = write_overruns p.
Proof.
  intros Hc. unfold overruns. by rewrite (proj2 (Z.eqb_neq _ _)) by done.
Qed.

Lemma preserves_mycommand p :
  packet_ok p -> write_overruns p = false -> preserves fw_ok (mycommand p : fw D control Z).
Proof.
  intros Hp Ho. unfold mycommand. destruct (library_command (p_cmd p)) eqn:El.
  { apply preserves_bind; [|intros _; apply preserves_ret]. apply preserves_libradio_command; [done|].
    rewrite overruns_write; [done|]. intros E. by rewrite E in El. }
  apply preserves_if; [by apply preserves_mycommand_activate|].
  apply preserves_if.
  { unfold mycommand_set_time. apply preserves_if; [apply preserves_ret|].
    do 2 (apply preserves_data_get; [done|lia|intros ?]).
    apply preserves_bind; [auto with preserves libradio|intros _].
    apply preserves_data_get; [done|lia|intros ?]. preserve. }
  apply preserves_if.
  { unfold mycommand_status. apply preserves_if; [apply preserves_ret|].
    apply preserves_data_get; [done|lia|intros ?].
    apply preserves_bind; [apply preserves_local_status|intros _]. apply preserves_ret. }
  apply preserves_if.
  { unfold mycommand_read_eeprom. apply preserves_if; [apply preserves_ret|].
    do 5 (apply preserves_data_get; [done|lia|intros ?]).
    do 2 (apply preserves_bind; [apply preserves_print|intros _]).
    apply preserves_bind; [|intros _; unfold putchar; preserve].
    apply preserves_for_loop. intros. apply preserves_print_eeprom_byte. }
  apply preserves_if; [by apply preserves_mycommand_set_channel|apply preserves_ret].
Qed.
End ctl_command_safety.

(** ** What the commands do *)

(** The values of [%u] with commas between them. *)
Fixpoint commas (l : list Z) : list Z :=
  match l with
  | [] => []
  | [x] => fmt_u x
  | x :: l' => fmt_u x ++ str "," ++ commas l'
  end.

Section ctl_command_effects.
Context {D : Type} `{Platform D} `{Patience}.
Implicit Types m : machine D control.

Lemma commas_snoc l x : commas (l ++ [x]) = commas l ++ (if decide (l = []) then [] else str ",") ++ fmt_u x.
Proof.
  induction l as [|y l IH]; [done|].
  destruct l as [|z l]; [done|].
  change (commas ((y :: z :: l) ++ [x])) with (fmt_u y ++ str "," ++ commas ((z :: l) ++ [x])).
  rewrite IH, !decide_False by done.
  change (commas (y :: z :: l)) with (fmt_u y ++ str "," ++ commas (z :: l)).
  by rewrite <- !app_assoc.
Qed.

Definition said (o : list Z) m : machine D control := m <| m_out ::= fun l => l ++ o |>.

Lemma said_twice o o' m : said o' (said o m) = said (o ++ o') m.
Proof. unfold said. rewrite out_twice, <- app_assoc. by_machine m. Qed.

Lemma said_nil m : said [] m = m.
Proof.
  unfold said. destruct m. unfold upd, set_m_out. cbn. by rewrite app_nil_r.
Qed.

Lemma eeprom_bytes_nil (d : D) addr n : eeprom_bytes d addr n = [] <-> n = 0%nat.
Proof.
  split; [|by intros ->]. intros E. apply (f_equal length) in E.
  unfold eeprom_bytes in E. rewrite length_map, length_seq in E. done.
Qed.

Lemma print_loop_run n i addr m0 :
  for_loop n (Z.of_nat i) (print_eeprom_byte addr)
    (said (commas (eeprom_bytes (m_dev m0) addr i)) m0) =
  Done tt (said (commas (eeprom_bytes (m_dev m0) addr (i + n))) m0).
Proof.
  revert i. induction n as [|n IH]; intros i; cbn [for_loop]; [by rewrite Nat.add_0_r|].
  rewrite (bind_done _ _ _ tt (said (commas (eeprom_bytes (m_dev m0) addr (S i))) m0)).
  - replace (Z.of_nat i + 1) with (Z.of_nat (S i)) by lia.
    rewrite IH. by replace (S i + n)%nat with (i + S n)%nat by lia.
  - rewrite eeprom_bytes_snoc, commas_snoc, <- said_twice.
    set (m1 := said _ m0). change (m_dev m0) with (m_dev m1).
    unfold print_eeprom_byte, putchar. destruct i as [|i].
    + rewrite decide_True by done. done.
    + rewrite decide_False by (by rewrite eeprom_bytes_nil). rewrite <- said_twice.
      by rewrite (proj2 (Z.eqb_neq (Z.of_nat (S i)) 0)) by lia.
Qed.

(** What is printed before the line with the bytes, for people. *)
Definition eeprom_note (rchan rnode len addr : Z) : list Z :=
  str "RChan/Node " ++ fmt_d rchan ++ str ":" ++ fmt_d rnode ++ str ", len:"
    ++ fmt_d len ++ str ", addr:" ++ fmt_d addr ++ [10].

Definition eeprom_line (rchan rnode : Z) (l : list Z) : list Z :=
  str "<" ++ [u8 (rchan + 65)] ++ str ":" ++ fmt_d rnode ++ str ":" ++ commas l ++ [10].

Lemma mycommand_read_run p m :
  packet_ok p -> p_len p = 5 ->
  let d i := p_data p !!! i in
  let addr := address (d 3%nat) (d 4%nat) in
  mycommand_read_eeprom p m =
    Done 0 (said (eeprom_note (d 0%nat) (d 1%nat) (d 2%nat) addr
      ++ eeprom_line (d 0%nat) (d 1%nat) (eeprom_bytes (m_dev m) addr (Z.to_nat (d 2%nat)))) m).
Proof.
  intros Hp Hl d addr. unfold mycommand_read_eeprom. rewrite Hl. cbn [Z.eqb Pos.eqb negb].
  do 5 (rewrite run_data_get by (done || lia)).
  change (Z.to_nat 0) with 0%nat. change (Z.to_nat 1) with 1%nat.
  change (Z.to_nat 2) with 2%nat. change (Z.to_nat 3) with 3%nat.
  change (Z.to_nat 4) with 4%nat. fold d. cbv zeta.
  rewrite join_bytes by (apply data_u8; [done|lia]). fold (address (d 3%nat) (d 4%nat)).
  fold addr. rewrite !run_print.
  set (m1 := said (eeprom_note (d 0%nat) (d 1%nat) (d 2%nat) addr ++
    str "<" ++ [u8 (d 0%nat + 65)] ++ str ":" ++ fmt_d (d 1%nat) ++ str ":") m).
  transitivity ((for_loop (Z.to_nat (d 2%nat)) (Z.of_nat 0) (print_eeprom_byte addr);;
                 putchar 10;; mret 0) (said (commas (eeprom_bytes (m_dev m1) addr 0)) m1)).
  { unfold eeprom_bytes. cbn [seq map commas]. rewrite said_nil.
    apply (f_equal (for_loop _ _ _;; putchar 10;; mret 0)).
    unfold m1. rewrite <- said_twice. reflexivity. }
  rewrite (bind_done _ _ _ _ _ (print_loop_run _ _ _ _)). unfold putchar. rewrite run_print.
  unfold mret, cmd_ret. f_equal.
  change ((said (commas (eeprom_bytes (m_dev m1) addr (0 + Z.to_nat (d 2%nat)))) m1)
    <| m_out ::= fun o => o ++ [10] |>) with
    (said [10] (said (commas (eeprom_bytes (m_dev m1) addr (0 + Z.to_nat (d 2%nat)))) m1)).
  unfold m1. rewrite !said_twice. f_equal. unfold eeprom_line. by rewrite <- !app_assoc.
Qed.

(** The controller after an activation that came up. *)
Record activated (chan node : Z) m' : Prop := {
  act_state : r_state (m_radio m') = LIBRADIO_STATE_ACTIVE;
  act_radio : r_radio_active (m_radio m') <> 0;
  act_channel : r_my_channel (m_radio m') = chan;
  act_node : r_my_node_id (m_radio m') = node;
  act_clock : r_period (m_radio m') = r_fast_period (m_radio m');
  act_delay : r_tick_count (m_radio m') = 1
}.

Lemma state_set_keeps {T} (f : libradio -> T) s l :
  (forall l v, f (l <| r_heart_beat := v |>) = f l) ->
  (forall l d, f (with_delay d l) = f l) ->
  (forall l v, f (l <| r_period := v |>) = f l) ->
  (forall l v, f (l <| r_tens_of_minutes := v |>) = f l) ->
  (forall l v, f (l <| r_timeout := v |>) = f l) ->
  (forall l v, f (l <| r_state := v |>) = f l) ->
  s <> LIBRADIO_STATE_LISTEN -> f (state_set s l) = f l.
Proof.
  intros H1 H2 H3 H4 H5 H6 Hs. unfold state_set, mode_after. cbv zeta.
  rewrite (proj2 (Z.eqb_neq s LIBRADIO_STATE_LISTEN)) by done.
  repeat case_match; rewrite ?H6, ?H5, ?H4, ?H3, ?H2, ?H1, ?H4, ?H3, ?H1; done.
Qed.

Lemma wp_come_active m :
  fw_ok m -> r_radio_active (m_radio m) <> 0 ->
  wp (libradio_set_state LIBRADIO_STATE_ACTIVE;; libradio_set_delay 1;;
      libradio_power_mode 1;; mret 0)
    (fun v m' => v = 0 /\ lib_frame m m' /\
       activated (r_my_channel (m_radio m)) (r_my_node_id (m_radio m)) m') m.
Proof.
  intros Hm Ha. rewrite wp_bind. eapply wp_mono; [by apply wp_state_set|].
  intros _ m1 (Hm1&Ho&Hr). rewrite wp_bind, wp_libradio_set_delay, wp_bind, wp_libradio_power_mode.
  rewrite wp_ret. split; [done|]. split.
  { etrans; [by apply only_radio_lib_frame|]. unfold lib_frame, clock_regs. by_machine m1. }
  assert (forall T (f : libradio -> T), f (state_set LIBRADIO_STATE_ACTIVE (m_radio m)) = f (m_radio m) ->
            f (m_radio m1) = f (m_radio m)) as Hf by (intros T f E; by rewrite Hr).
  split; unfold clock_regs; upd_simpl; unfold with_delay; upd_simpl; cbn [Z.eqb]; try done.
  - rewrite Hr. apply state_set_state.
  - rewrite Hf; [done|]. by apply state_set_keeps.
  - apply Hf. by apply state_set_keeps.
  - apply Hf. by apply state_set_keeps.
Qed.

Lemma wp_mycommand_activate p m :
  packet_ok p -> fw_ok m -> p_len p = 3 ->
  wp (mycommand_activate p) (fun v m' => lib_frame m m' /\
    (v = 0 /\ activated (p_data p !!! 0%nat) (p_data p !!! 1%nat) m' \/
     v = RADIO_CTLERR_POWER_FAIL /\ r_radio_active (m_radio m') = 0 /\
       r_state (m_radio m') = LIBRADIO_STATE_ERROR)) m.
Proof.
  intros Hp Hm Hl. unfold mycommand_activate. rewrite Hl. cbn [Z.eqb Pos.eqb negb].
  do 2 (rewrite wp_bind, wp_data_get by (done || lia)).
  change (Z.to_nat 0) with 0%nat. change (Z.to_nat 1) with 1%nat.
  pose proof (tracks_refl m Hm) as Ht.
  eapply tracks_print; [done|clear Ht; intros m1 Ht].
  eapply (tracks_rput is_u8); [tc_solve|done|apply data_u8; [done|lia]|by intros ? []|clear Ht; intros m2 Ht].
  eapply (tracks_rput is_u8); [tc_solve|done|apply data_u8; [done|lia]|by intros ? []|clear Ht; intros m3 Ht].
  destruct Ht as (Hm3&Hf3&Hl3). rewrite wp_bind.
  eapply wp_mono; [by apply wp_libradio_power_up|]. intros v m4 [Hm4 Hpost].
  assert (r_my_channel (m_radio m3) = p_data p !!! 0%nat /\
          r_my_node_id (m_radio m3) = p_data p !!! 1%nat) as [Hc Hn] by by rewrite Hl3.
  destruct Hpost as [Hup|m4 Hdown Hf4 Hs4|m4 Hdown Hf4 Hs4].
  - cbn [Z.eqb]. rewrite wp_bind, wp_print. eapply wp_mono.
    { apply wp_come_active; [by apply (preserves_print _ m3)|done]. }
    intros v m5 (->&Hf5&Ha5). rewrite <- Hc, <- Hn. split; [|left; done].
    etrans; [exact Hf3|]. etrans; [|exact Hf5]. unfold lib_frame. by_machine m3.
  - cbn [Z.eqb]. rewrite wp_bind, wp_print. 
    assert (forall T (f : libradio -> T), (forall l, f (settings l) = f l) ->
              f (m_radio m4) = f ((settings (m_radio m3)) <| r_radio_active := 1 |>)) as Hf.
    { intros T f Hset. by rewrite <- Hset, Hs4. }
    eapply wp_mono.
    { apply wp_come_active; [by apply (preserves_print _ m4)|].
      change (r_radio_active (m_radio m4) <> 0). by rewrite (Hf _ r_radio_active). }
    intros v m5 (->&Hf5&Ha5).
    change (activated (r_my_channel (m_radio m4)) (r_my_node_id (m_radio m4)) m5) in Ha5.
    rewrite (Hf _ r_my_channel), (Hf _ r_my_node_id) in Ha5 by done.
    split; [|left; split; [done|]].
    + etrans; [exact Hf3|]. etrans; [exact Hf4|]. etrans; [|exact Hf5].
      unfold lib_frame. by_machine m4.
    + by rewrite <- Hc, <- Hn.
  - cbn [Z.eqb]. rewrite wp_bind, wp_print, wp_ret. split; [|right; split_and!; [done|..] ].
    + etrans; [exact Hf3|]. etrans; [exact Hf4|]. unfold lib_frame. by_machine m4.
    + change (r_radio_active (settings (m_radio m4)) = 0). rewrite Hs4.
      rewrite state_set_keeps by done. done.
    + change (r_state (settings (m_radio m4)) = LIBRADIO_STATE_ERROR). rewrite Hs4.
      apply state_set_state.
Qed.

(** The record after the time has been set over the serial line. *)
Definition time_set (p : packet) (l : libradio) : libradio :=
  l <| r_ms_ticks := p_data p !!! 0%nat * 256 + p_data p !!! 1%nat |>
    <| r_tens_of_minutes := p_data p !!! 2%nat |>.

Lemma wp_mycommand_set_time p m :
  packet_ok p -> fw_ok m -> p_len p = 3 ->
  wp (mycommand_set_time p) (fun v m' => v = 0 /\ tracks m (time_set p (m_radio m)) m') m.
Proof.
  intros Hp Hm Hl. pose proof (tracks_refl m Hm) as Ht.
  unfold mycommand_set_time. rewrite Hl. cbn [Z.eqb Pos.eqb negb].
  pose proof (data_u8 p 0 Hp ltac:(lia)). pose proof (data_u8 p 1 Hp ltac:(lia)).
  do 2 (rewrite wp_bind, wp_data_get by (done || lia)).
  change (Z.to_nat 0) with 0%nat. change (Z.to_nat 1) with 1%nat.
  rewrite join_bytes, u16_small by warith.
  eapply (tracks_rput is_u16); [tc_solve|done|warith|by intros ? []|clear Ht; intros m1 Ht].
  rewrite wp_bind, wp_data_get by (done || lia). change (Z.to_nat 2) with 2%nat.
  eapply (tracks_rput is_u8); [tc_solve|done|apply data_u8; [done|lia]|by intros ? []|clear Ht; intros m2 Ht].
  do 2 (eapply tracks_rget; [done|]). eapply tracks_print; [done|clear Ht; intros m3 Ht].
  by rewrite wp_ret.
Qed.
End ctl_command_effects.

(** ** Properties *)

Section properties.
Context {D : Type} `{Platform D} `{Patience}.
Implicit Types m : machine D control.

(** [C38] Activating the controller over the serial line always ends, touching
    neither the channels nor any other object: it is ACTIVE with its radio
    powered, on the channel and node given, at the fast clock and woken up on
    every tick, or it answers "power failure" with its radio off and the library
    in the ERROR state. *)
Theorem activation_outcome p m :
  packet_ok p -> fw_ok m -> p_cmd p = RADIO_CMD_ACTIVATE -> p_len p = 3 ->
  wp (mycommand p) (fun v m' => lib_frame m m' /\
    (v = 0 /\ activated (p_data p !!! 0%nat) (p_data p !!! 1%nat) m' \/
     v = RADIO_CTLERR_POWER_FAIL /\ r_radio_active (m_radio m') = 0 /\
       r_state (m_radio m') = LIBRADIO_STATE_ERROR)) m.
Proof.
  intros Hp Hm Hc Hl. unfold mycommand. rewrite Hc. by apply wp_mycommand_activate.
Qed.

(** READ_EEPROM on the controller prints one line with the channel letter, the
    node and exactly the bytes of the EEPROM from the address on, as many as
    asked for (up to 255), separated by commas; nothing else changes. *)
Theorem eeprom_is_printed p m :
  packet_ok p -> p_cmd p = RADIO_CMD_READ_EEPROM -> p_len p = 5 ->
  let d i := p_data p !!! i in
  let addr := address (d 3%nat) (d 4%nat) in
  mycommand p m =
    Done 0 (said (eeprom_note (d 0%nat) (d 1%nat) (d 2%nat) addr
      ++ eeprom_line (d 0%nat) (d 1%nat) (eeprom_bytes (m_dev m) addr (Z.to_nat (d 2%nat)))) m).
Proof.
  intros Hp Hc Hl. unfold mycommand. rewrite Hc. by apply mycommand_read_run.
Qed.

(** SET_TIME on the controller sets its clock to exactly the three bytes sent
    and changes nothing else of the record; nothing checks that the ticks are
    below the 60000 of a ten-minute interval. *)
Theorem controller_time_set p m :
  packet_ok p -> fw_ok m -> p_cmd p = RADIO_CMD_SET_TIME -> p_len p = 3 ->
  wp (mycommand p) (fun v m' =>
    v = 0 /\ fw_ok m' /\ lib_frame m m' /\ m_radio m' = time_set p (m_radio m)) m.
Proof.
  intros Hp Hm Hc Hl. unfold mycommand. rewrite Hc. by apply wp_mycommand_set_time.
Qed.
End properties.

(** ** Instances of the properties *)

#[local] Instance bench_patience : Patience := 10%nat.

Lemma activation_outcome_witness :
  let p := bench_cmd RADIO_CMD_ACTIVATE 3 [4; 9] in
  let m := bench_control bench_objects [] in
  wp (mycommand p) (fun v m' => lib_frame m m' /\
    (v = 0 /\ activated (p_data p !!! 0%nat) (p_data p !!! 1%nat) m' \/
     v = RADIO_CTLERR_POWER_FAIL /\ r_radio_active (m_radio m') = 0 /\
       r_state (m_radio m') = LIBRADIO_STATE_ERROR)) m.
Proof.
  apply activation_outcome; [apply bench_cmd_ok; [done|done|bytes_cons]| |done|done].
  apply bench_control_ok; [apply bench_objects_ok|constructor].
Defined.

Lemma eeprom_is_printed_witness :
  mycommand (bench_cmd RADIO_CMD_READ_EEPROM 5 [1; 2; 3; 0; 16]) (bench_control bench_objects []) =
    Done 0 (said (eeprom_note 1 2 3 16 ++
      eeprom_line 1 2 (eeprom_bytes (m_dev (bench_control bench_objects [])) 16 3))
      (bench_control bench_objects [])).
Proof.
  exact (eeprom_is_printed (bench_cmd RADIO_CMD_READ_EEPROM 5 [1; 2; 3; 0; 16])
           (bench_control bench_objects [])
           (bench_cmd_ok RADIO_CMD_READ_EEPROM 5 [1; 2; 3; 0; 16]
              ltac:(done) ltac:(done) ltac:(bytes_cons)) eq_refl eq_refl).
Defined.

Lemma controller_time_set_witness :
  let p := bench_cmd RADIO_CMD_SET_TIME 3 [1; 44; 90] in
  let m := bench_control bench_objects [] in
  wp (mycommand p) (fun v m' =>
    v = 0 /\ fw_ok m' /\ lib_frame m m' /\ m_radio m' = time_set p (m_radio m)) m.
Proof.
  apply controller_time_set; [apply bench_cmd_ok; [done|done|bytes_cons]| |done|done].
  apply bench_control_ok; [apply bench_objects_ok|constructor].
Defined.
