(* ===== verification/CtlQueue.v ===== *)
(** control/enqueue.c and control/transmit.c: a packet complete on the serial
    line is executed or queued, and the queues are transmitted by priority. *)

From S2P Require Import Machine Clock State Spi Invariant Si4463 Wait Rxtx Command Loop Control CtlCommand.

#[local] Open Scope Z_scope.

Definition SET_TIME_MODULO : Z := 500.

(** Whether the controller executes a packet itself. *)
Definition is_local (l : libradio) (p : packet) : bool :=
  (p_node p =? r_my_node_id l)
  || ((p_cmd p =? RADIO_CMD_ACTIVATE) && (r_state l <? LIBRADIO_STATE_ACTIVE)).

Section ctl_queue.
Context {D : Type} `{Platform D} `{Patience}.

(** enqueue.c *)

Definition enqueue (i : Z) : fw D control unit :=
  c ← chan_get i;
  let pp := c_packet c in
  l ← gets m_radio;
  print (str "ENQ:S" ++ fmt_d (r_state l) ++ str ",N" ++ fmt_d (p_node pp) ++ str ",C"
           ++ fmt_d (p_cmd pp) ++ str ",M" ++ fmt_d (r_my_node_id l) ++ [10]);;
  chan_put c_state i LIBRADIO_CHSTATE_TRANSMIT;;
  if is_local l pp then
    code ← mycommand pp;
    reply code;;
    chan_put c_state i LIBRADIO_CHSTATE_EMPTY
  else if negb (r_state l =? LIBRADIO_STATE_ACTIVE) then
    chan_put c_state i LIBRADIO_CHSTATE_EMPTY;;
    reply RADIO_CTLERR_NOT_ACTIVE
  else
    chan_put c_state i (if p_cmd pp =? RADIO_CMD_STATUS then LIBRADIO_CHSTATE_TXRESPOND
                        else LIBRADIO_CHSTATE_TRANSMIT);;
    c ← chan_get i;
    print (str "CMD:" ++ fmt_d (p_cmd pp) ++ str " (datalen" ++ fmt_d (p_len pp) ++ str ") S"
             ++ fmt_d (c_state c) ++ [10]);;
    (if c_priority c =? 0 then chan_put c_priority i (u8 (Z.shiftl (MAX_RADIO_CHANNELS - i) 3))
     else when (c_priority c <? 0xfc) (chan_put c_priority i (u8 (c_priority c + 1))));;
    reply 0.

(** transmit.c *)

(** The loop changes [channels\[0\]] every time: [chp] is not advanced. *)
Definition tx_init : fw D control unit :=
  for_loop (Z.to_nat MAX_RADIO_CHANNELS) 0 (fun _ =>
    chan_put c_state 0 LIBRADIO_CHSTATE_DISABLED;;
    chan_put c_priority 0 0);;
  kput k_resp None.

(** The time packet put into an empty channel. *)
Definition fill_time (i : Z) : fw D control unit :=
  chan_put c_state i LIBRADIO_CHSTATE_TRANSMIT;;
  chan_put c_priority i 0xff;;
  cpacket_put p_node i 0;;
  cpacket_put p_len i 1;;
  cpacket_put p_cmd i RADIO_CMD_SET_TIME;;
  tom ← rget r_tens_of_minutes;
  c ← chan_get i;
  d ← array_put (p_data (c_packet c)) 0 tom;
  cpacket_put p_data i d.

(** The start of a five-second slot: the channel whose turn it is. *)
Definition time_slot : fw D control (option Z) :=
  ms ← rget r_ms_ticks;
  let modulo := ms mod SET_TIME_MODULO in
  last ← kget k_last_modulo;
  chp ← (if modulo <? last then
           ms ← rget r_ms_ticks;
           let channo := (ms / SET_TIME_MODULO) mod MAX_RADIO_CHANNELS in
           c ← chan_get channo;
           when (c_state c =? LIBRADIO_CHSTATE_EMPTY) (
             print (str "C" ++ fmt_d channo ++ str ">state:" ++ fmt_d (c_state c) ++ [10]);;
             fill_time channo);;
           mret (Some channo)
         else mret None);
  kput k_last_modulo modulo;;
  mret chp.

(** The loop that looks for the highest priority, [n] channels from [i] on. *)
Fixpoint pick (n : nat) (i : Z) (nchp : option Z) : fw D control (option Z) :=
  match n with
  | O => mret nchp
  | S n' =>
      c ← chan_get i;
      if (c_priority c =? 0) || (c_state c <? LIBRADIO_CHSTATE_TRANSMIT) then
        pick n' (i + 1) nchp
      else
        match nchp with
        | None => pick n' (i + 1) (Some i)
        | Some j =>
            d ← chan_get j;
            pick n' (i + 1) (if c_priority d <? c_priority c then Some i else Some j)
        end
  end.

Definition bump (i : Z) : fw D control unit :=
  c ← chan_get i;
  when ((LIBRADIO_CHSTATE_TRANSMIT <=? c_state c) && (c_priority c <? 0xfc))
    (chan_put c_priority i (u8 (c_priority c + 2))).

(** The transmission from the chosen channel. *)
Definition tx_channel (i : Z) : fw D control unit :=
  c ← chan_get i;
  print (str "TX" ++ fmt_d i ++ str ":chst:" ++ fmt_d (c_state c) ++ str ",C"
           ++ fmt_d (p_cmd (c_packet c)) ++ str ",len" ++ fmt_d (p_len (c_packet c)) ++ [10]);;
  ok ← libradio_send (chan_ref i) i;
  when (negb (ok =? 0)) (
    c ← chan_get i;
    (if c_state c =? LIBRADIO_CHSTATE_TXRESPOND then
       libradio_irq_enable 1;;
       chan_put c_state i LIBRADIO_CHSTATE_RXRESPONSE1;;
       kput k_resp (Some i)
     else chan_put c_state i LIBRADIO_CHSTATE_EMPTY);;
    chan_put c_priority i 0);;
  for_loop (Z.to_nat MAX_RADIO_CHANNELS) 0 bump.

Definition tx_check_queues : fw D control unit :=
  st ← rget r_state;
  if st <? LIBRADIO_STATE_LISTEN then mret tt
  else
    slot ← time_slot;
    chp ← match slot with
          | None => pick (Z.to_nat MAX_RADIO_CHANNELS) 0 None
          | Some i => mret (Some i)
          end;
    match chp with
    | None => mret tt
    | Some i =>
        c ← chan_get i;
        if c_state c <? LIBRADIO_CHSTATE_EMPTY then mret tt else tx_channel i
    end.
End ctl_queue.

(** ** Safety *)

Section safety.
Context {D : Type} `{Platform D} `{Patience}.
Implicit Types m : machine D control.

Lemma preserves_enqueue i m :
  0 <= i < 6 -> fw_ok m ->
  (let p := c_packet (chan_of i (m_app m)) in
   is_local (m_radio m) p = true -> write_overruns p = false) ->
  safe (enqueue i) (fun _ => fw_ok) m.
Proof.
  intros Hi Hm Ho. pose proof (chan_of_ok i _ (fw_app m Hm)) as Hc.
  unfold enqueue. rewrite safe_bind. apply safe_wp. rewrite wp_chan_get by done. cbv zeta in *.
  pose proof (ok_packet _ Hc) as Hp. set (p := c_packet (chan_of i (m_app m))) in *.
  rewrite safe_bind. apply safe_wp. rewrite wp_gets.
  set (loc := is_local (m_radio m) p) in *. clearbody p loc.
  match goal with |- safe ?c _ _ => assert (preserves fw_ok c) as Hpres; [|by apply Hpres] end.
  apply preserves_bind; [apply preserves_print|intros _].
  apply preserves_bind; [auto with preserves|intros _]. destruct loc.
  - apply preserves_bind; [apply preserves_mycommand; auto|intros code].
    apply preserves_bind; [apply preserves_reply|intros _]. auto with preserves.
  - apply preserves_if.
    { apply preserves_bind; [auto with preserves|intros _]. apply preserves_reply. }
    apply preserves_bind; [apply preserves_chan_state; [done|by case_match]|intros _].
    apply preserves_chan_get; [done|]. intros c' [].
    apply preserves_bind; [apply preserves_print|intros _].
    apply preserves_bind; [|intros _; apply preserves_reply].
    apply preserves_if; [auto with preserves|]. apply preserves_when. auto with preserves libradio.
Qed.

Lemma preserves_fill_time i : 0 <= i < 6 -> preserves fw_ok (fill_time i : fw D control unit).
Proof.
  intros Hi. unfold fill_time.
  do 2 (apply preserves_bind; [auto with preserves|intros _]).
  do 3 (apply preserves_bind;
        [apply preserves_cpacket_put; [done|intros p []; by split]|intros _]).
  apply (preserves_rget_bind is_u8 r_tens_of_minutes). intros tom Htom.
  apply preserves_chan_get; [done|]. intros c Hc m Hm.
  pose proof (ok_packet _ Hc) as Hp. rewrite safe_bind. apply safe_wp.
  rewrite wp_array_put by (rewrite (ok_size _ Hp); lia).
  apply preserves_cpacket_put; [done| |done]. intros q []. destruct Hp. split; upd_simpl; try done.
  - by apply Forall_insert.
  - by rewrite length_insert.
Qed.

(** The slot's channel is a channel. *)
Lemma yields_time_slot : yields fw_ok chan_ptr_ok (time_slot : fw D control (option Z)).
Proof.
  unfold time_slot. apply yields_bind; [apply preserves_rget|intros ms]. cbv zeta.
  apply yields_bind; [apply preserves_kget|intros last].
  apply (yields_bind_val _ chan_ptr_ok).
  - destruct (_ <? _); [|by apply yields_ret].
    apply yields_bind; [apply preserves_rget|intros ms'].
    set (i := _ mod MAX_RADIO_CHANNELS).
    assert (0 <= i < 6) as Hi by (unfold i, MAX_RADIO_CHANNELS; apply Z.mod_pos_bound; lia).
    apply yields_chan_get; [done|]. intros c Hc.
    apply yields_bind; [|by intros _; apply yields_ret]. apply preserves_when.
    apply preserves_bind; [apply preserves_print|intros _]. by apply preserves_fill_time.
  - intros chp Hchp. apply yields_bind; [apply preserves_app|by intros _; apply yields_ret].
    intros k0 []. split; upd_simpl; try done. unfold SET_TIME_MODULO. warith.
Qed.

Lemma yields_pick n i nchp :
  0 <= i -> i + Z.of_nat n <= 6 -> chan_ptr_ok nchp ->
  yields fw_ok chan_ptr_ok (pick n i nchp : fw D control (option Z)).
Proof.
  revert i nchp. induction n as [|n IH]; intros i nchp Hi Hn Hp; cbn [pick]; [by apply yields_ret|].
  apply yields_chan_get; [lia|]. intros c Hc.
  destruct (_ || _); [apply IH; [lia..|done]|].
  destruct nchp as [j|]; [|apply IH; [lia..|cbn; lia] ].
  apply yields_chan_get; [done|]. intros d Hd. apply IH; [lia..|]. case_match; cbn in *; lia.
Qed.

Lemma preserves_bump i : 0 <= i < 6 -> preserves fw_ok (bump i : fw D control unit).
Proof.
  intros Hi. apply preserves_chan_get; [done|]. intros c Hc. apply preserves_when.
  auto with preserves libradio.
Qed.

Lemma preserves_tx_channel i : 0 <= i < 6 -> preserves fw_ok (tx_channel i : fw D control unit).
Proof.
  intros Hi. apply preserves_chan_get; [done|]. intros c Hc.
  apply preserves_bind; [apply preserves_print|intros _].
  apply preserves_bind; [apply preserves_libradio_send; [by apply chan_ref_ok|warith]|intros ok].
  apply preserves_bind; [|intros _; apply preserves_for_loop; intros j Hj; by apply preserves_bump].
  apply preserves_when. apply preserves_chan_get; [done|]. intros c' Hc'.
  apply preserves_bind; [|intros _; auto with preserves].
  apply preserves_if; [|auto with preserves].
  do 2 (apply preserves_bind; [auto with preserves|intros _]).
  apply preserves_app. by intros k [].
Qed.

Lemma preserves_tx_check_queues : preserves fw_ok (tx_check_queues : fw D control unit).
Proof.
  unfold tx_check_queues. apply preserves_bind; [apply preserves_rget|intros st].
  apply preserves_if; [apply preserves_ret|].
  apply (preserves_bind_val _ chan_ptr_ok); [apply yields_time_slot|]. intros slot Hslot.
  apply (preserves_bind_val _ chan_ptr_ok).
  - destruct slot as [i|]; [by apply yields_ret|by apply yields_pick].
  - intros [i|] Hi; [|apply preserves_ret]. apply preserves_chan_get; [done|]. intros c Hc.
    apply preserves_if; [apply preserves_ret|by apply preserves_tx_channel].
Qed.

Lemma preserves_tx_init : preserves fw_ok (tx_init : fw D control unit).
Proof.
  unfold tx_init. apply preserves_bind; [|intros _; apply preserves_app; by intros k []].
  apply preserves_for_loop. intros _ _. apply preserves_bind; [|intros _]; auto with preserves.
Qed.
End safety.

(** ** What the queues promise *)

(** A channel with something to send. *)
Definition pending (k : control) (i : Z) : Prop :=
  0 <= i < 6 /\ c_priority (chan_of i k) <> 0 /\
  LIBRADIO_CHSTATE_TRANSMIT <= c_state (chan_of i k).

(** The choice among the channels below [n]: the highest priority, and among
    equals the lowest number. *)
Definition best (n : Z) (k : control) (o : option Z) : Prop :=
  match o with
  | None => forall j, j < n -> ~ pending k j
  | Some i => i < n /\ pending k i /\ forall j, j < n -> pending k j ->
      c_priority (chan_of j k) < c_priority (chan_of i k) \/
      c_priority (chan_of j k) = c_priority (chan_of i k) /\ i <= j
  end.

(** What a successful transmission leaves of a channel, and what any
    transmission leaves of the others. *)
Definition released (c : channel) : channel :=
  c <| c_state := if c_state c =? LIBRADIO_CHSTATE_TXRESPOND then LIBRADIO_CHSTATE_RXRESPONSE1
                  else LIBRADIO_CHSTATE_EMPTY |> <| c_priority := 0 |>.

Definition bumped (c : channel) : channel :=
  if (LIBRADIO_CHSTATE_TRANSMIT <=? c_state c) && (c_priority c <? 0xfc)
  then c <| c_priority := c_priority c + 2 |> else c.

Lemma bumped_ok c : channel_ok c -> channel_ok (bumped c).
Proof.
  intros []. unfold bumped. destruct (_ && _) eqn:E; [|done]. split; upd_simpl; try done. warith.
Qed.

(** A channel just queued for transmission. *)
Definition queued (i : Z) (c : channel) : channel :=
  c <| c_state := if p_cmd (c_packet c) =? RADIO_CMD_STATUS then LIBRADIO_CHSTATE_TXRESPOND
                  else LIBRADIO_CHSTATE_TRANSMIT |>
    <| c_priority := if c_priority c =? 0 then (6 - i) * 8
                     else if c_priority c <? 0xfc then c_priority c + 1 else c_priority c |>.

Section promises.
Context {D : Type} `{Platform D} `{Patience}.
Implicit Types (m : machine D control) (k : control).

Lemma wp_pick n i nchp Q m :
  0 <= i -> i + Z.of_nat n <= 6 -> best i (m_app m) nchp ->
  (forall o, best (i + Z.of_nat n) (m_app m) o -> Q o m) -> wp (pick n i nchp) Q m.
Proof.
  revert i nchp. induction n as [|n IH]; intros i nchp Hi Hn Hb HQ; cbn [pick].
  { apply HQ. by rewrite Z.add_0_r. }
  assert (forall nchp', best (i + 1) (m_app m) nchp' -> wp (pick n (i + 1) nchp') Q m) as Hnext.
  { intros nchp' Hb'. apply IH; [lia..|done|]. intros o Ho. apply HQ.
    by replace (i + Z.of_nat (S n)) with (i + 1 + Z.of_nat n) by lia. }
  assert (forall j, j < i + 1 -> pending (m_app m) j -> j < i \/ j = i) as Hsplit by lia.
  rewrite wp_bind, wp_chan_get by lia.
  destruct ((c_priority (chan_of i (m_app m)) =? 0) || (c_state (chan_of i (m_app m)) <? LIBRADIO_CHSTATE_TRANSMIT)) eqn:E.
  - assert (~ pending (m_app m) i) as Hnot by (intros (_&?&?); lia).
    apply Hnext. destruct nchp as [j|]; cbn in *.
    + destruct Hb as (?&?&Hb). split_and!; [lia|done|]. intros j' Hj' Hp.
      destruct (Hsplit j' Hj' Hp) as [ | -> ]; [auto|done].
    + intros j Hj Hp. destruct (Hsplit j Hj Hp) as [ | -> ]; [by apply (Hb j)|done].
  - assert (pending (m_app m) i) as Hpi by (split_and!; lia).
    destruct nchp as [j|]; cbn in Hb.
    + destruct Hb as (Hji&Hpj&Hb). rewrite wp_bind, wp_chan_get by apply Hpj.
      apply Hnext. destruct (Z.ltb_spec (c_priority (chan_of j (m_app m))) (c_priority (chan_of i (m_app m)))) as [Hlt|Hge].
      * split_and!; [lia|done|]. intros j' Hj' Hp'.
        destruct (Hsplit j' Hj' Hp') as [Hlt'| -> ]; [left|right; lia].
        destruct (Hb j' Hlt' Hp') as [|[? _] ]; lia.
      * split_and!; [lia|done|]. intros j' Hj' Hp'.
        destruct (Hsplit j' Hj' Hp') as [Hlt'| -> ]; [auto|lia].
    + apply Hnext. split_and!; [lia|done|]. intros j' Hj' Hp'.
      destruct (Hsplit j' Hj' Hp') as [Hlt'| -> ]; [by destruct (Hb j' Hlt')|right; lia].
Qed.

Lemma wp_pick_best Q m :
  (forall o, best 6 (m_app m) o -> Q o m) -> wp (pick (Z.to_nat MAX_RADIO_CHANNELS) 0 None) Q m.
Proof. intros HQ. apply wp_pick; [done..| |done]. intros j Hj (?&_). lia. Qed.

(** The objects after the loop that bumps the channels from [i] on. *)
Lemma wp_bumps n i m :
  0 <= i -> i + Z.of_nat n <= 6 -> control_ok (m_app m) ->
  wp (for_loop n i bump) (fun _ m' =>
    exists k', m' = m <| m_app := k' |> /\ k_resp k' = k_resp (m_app m) /\
      rest k' = rest (m_app m) /\
      forall j, chan_of j k' = if (i <=? j) && (j <? i + Z.of_nat n)
                               then bumped (chan_of j (m_app m)) else chan_of j (m_app m)) m.
Proof.
  revert i m. induction n as [|n IH]; intros i m Hi Hn Hk; cbn [for_loop].
  { rewrite wp_ret. exists (m_app m). split_and!; [by rewrite app_same|done|done|].
    intros j. destruct (Z.leb_spec i j), (Z.ltb_spec j (i + Z.of_nat 0)); try done; lia. }
  rewrite wp_bind. unfold bump at 1. rewrite wp_bind, wp_chan_get by lia.
  set (c := chan_of i (m_app m)).
  pose proof (chan_of_ok i _ Hk) as Hc. fold c in Hc.
  assert (wp (when ((LIBRADIO_CHSTATE_TRANSMIT <=? c_state c) && (c_priority c <? 0xfc))
                (chan_put c_priority i (u8 (c_priority c + 2))))
    (fun _ m' => m' = m <| m_app := with_chan i (bumped c) (m_app m) |>) m) as Hone.
  { rewrite wp_when. unfold bumped. destruct (_ && _) eqn:E.
    - unfold chan_put. rewrite wp_chan_set by lia. fold c.
      rewrite u8_small by (destruct Hc; warith). by destruct m.
    - unfold c. rewrite with_chan_id. by rewrite app_same. }
  eapply wp_mono; [exact Hone|]. intros _ m1 ->.
  eapply wp_mono; [apply IH; [lia..|]|].
  - apply with_chan_ok; [by apply bumped_ok|done].
  - intros _ m' (k'&->&Hr&Hk'&Hj). exists k'. split_and!; [by destruct m| | |].
    + rewrite Hr. apply resp_with_chan.
    + rewrite Hk'. apply rest_with_chan.
    + intros j. rewrite Hj. upd_simpl.
      destruct (decide (i = j)) as [<-|Hne].
      * rewrite chan_of_with by lia. zcases; try lia; done.
      * rewrite chan_of_with_ne by done. zcases; try lia; done.
Qed.

(** A pass that transmitted from channel [i], which held [c]. *)
Record tx_post (i : Z) (c : channel) m (v : Z) m' : Prop := {
  tx_result : v = 0 \/ v = 1;
  tx_count : r_npacket_tx (m_radio m') = u16 (r_npacket_tx (m_radio m) + v);
  tx_sent : v = 1 -> chan_of i (m_app m') =
              bumped (released (stamped (r_ms_ticks (m_radio m)) c));
  tx_kept : v = 0 -> chan_of i (m_app m') = bumped c \/
              chan_of i (m_app m') = bumped (stamped (r_ms_ticks (m_radio m)) c);
  tx_others : forall j, j <> i -> chan_of j (m_app m') = bumped (chan_of j (m_app m));
  tx_waits : k_resp (m_app m') =
    if (v =? 1) && (c_state c =? LIBRADIO_CHSTATE_TXRESPOND) then Some i else k_resp (m_app m);
  tx_rest : rest (m_app m') = rest (m_app m)
}.

Lemma bumped_state c : c_state (bumped c) = c_state c.
Proof. unfold bumped. by case_match. Qed.

Lemma wp_all_bumped m :
  control_ok (m_app m) ->
  wp (for_loop (Z.to_nat MAX_RADIO_CHANNELS) 0 bump) (fun _ m' =>
    m_radio m' = m_radio m /\ k_resp (m_app m') = k_resp (m_app m) /\
    rest (m_app m') = rest (m_app m) /\
    forall j, chan_of j (m_app m') = bumped (chan_of j (m_app m))) m.
Proof.
  intros Hk. eapply wp_mono; [apply wp_bumps; [done..|exact Hk]|].
  intros _ m' (k'&->&Hr&Hk'&Hj). split_and!; [done|done|done|]. intros j. upd_simpl. rewrite Hj.
  destruct ((0 <=? j) && (j <? 0 + Z.of_nat (Z.to_nat MAX_RADIO_CHANNELS))) eqn:E; [done|].
  change (Z.of_nat (Z.to_nat MAX_RADIO_CHANNELS)) with 6 in E. apply andb_false_iff in E.
  unfold chan_of. rewrite chan_index_none by lia. done.
Qed.

(** The end of a transmission: the priority is reset and the waiting channels are
    bumped; [m] is the state before the channel's own state was set. *)
Lemma wp_sent_bumps i c m0 m m1 :
  0 <= i < 6 ->
  r_npacket_tx (m_radio m) = u16 (r_npacket_tx (m_radio m0) + 1) ->
  (forall j, j <> i -> chan_of j (m_app m) = chan_of j (m_app m0)) ->
  k_resp (m_app m) = k_resp (m_app m0) -> rest (m_app m) = rest (m_app m0) ->
  r_npacket_tx (m_radio m1) = r_npacket_tx (m_radio m) -> control_ok (m_app m1) ->
  chan_of i (m_app m1) = (stamped (r_ms_ticks (m_radio m0)) c) <| c_state :=
    if c_state c =? LIBRADIO_CHSTATE_TXRESPOND then LIBRADIO_CHSTATE_RXRESPONSE1
    else LIBRADIO_CHSTATE_EMPTY |> ->
  (forall j, j <> i -> chan_of j (m_app m1) = chan_of j (m_app m)) ->
  k_resp (m_app m1) = (if c_state c =? LIBRADIO_CHSTATE_TXRESPOND then Some i
                       else k_resp (m_app m)) ->
  rest (m_app m1) = rest (m_app m) ->
  wp (chan_put c_priority i 0)
    (fun a => wp (for_loop (Z.to_nat MAX_RADIO_CHANNELS) 0 bump)
       (fun _ m' => tx_post i c m0 1 m')) m1.
Proof.
  intros Hi Hcnt Hoth Hresp Hrest Hrad Hk1 Hci Hcj Hr1 Hk2. unfold chan_put.
  rewrite wp_chan_set by done. eapply wp_mono.
  { apply wp_all_bumped. apply with_chan_ok; [|done]. destruct (chan_of_ok i _ Hk1). by split. }
  intros _ m' (Hr&Hp&Hk'&Hj). split; [by right| | |done| | |].
  - rewrite Hr. upd_simpl. by rewrite Hrad.
  - intros _. rewrite Hj. upd_simpl. rewrite chan_of_with, Hci by done. done.
  - intros j Hne. rewrite Hj. upd_simpl. rewrite chan_of_with_ne by done. by rewrite Hcj, Hoth.
  - rewrite Hp. etrans; [apply (resp_with_chan i _ (m_app m1))|]. by rewrite Hr1, Hresp.
  - rewrite Hk'. etrans; [apply (rest_with_chan i _ (m_app m1))|]. by rewrite Hk2, Hrest.
Qed.

(** The steps after a transmission. *)
Lemma wp_after_send i v c m0 m :
  0 <= i < 6 -> fw_ok m -> (v = 0 \/ v = 1) ->
  r_npacket_tx (m_radio m) = u16 (r_npacket_tx (m_radio m0) + v) ->
  (v = 1 -> chan_of i (m_app m) = stamped (r_ms_ticks (m_radio m0)) c) ->
  (v = 0 -> chan_of i (m_app m) = c \/
            chan_of i (m_app m) = stamped (r_ms_ticks (m_radio m0)) c) ->
  (forall j, j <> i -> chan_of j (m_app m) = chan_of j (m_app m0)) ->
  k_resp (m_app m) = k_resp (m_app m0) -> rest (m_app m) = rest (m_app m0) ->
  wp (when (negb (v =? 0)) (
        c ← chan_get i;
        (if c_state c =? LIBRADIO_CHSTATE_TXRESPOND then
           libradio_irq_enable 1;;
           chan_put c_state i LIBRADIO_CHSTATE_RXRESPONSE1;;
           kput k_resp (Some i)
         else chan_put c_state i LIBRADIO_CHSTATE_EMPTY);;
        chan_put c_priority i 0);;
      for_loop (Z.to_nat MAX_RADIO_CHANNELS) 0 bump) (fun _ m' => tx_post i c m0 v m') m.
Proof.
  intros Hi Hm Hv Hcnt H1 H0' Hoth Hresp Hrest. pose proof (fw_app m Hm) as Hk. rewrite wp_bind, wp_when.
  destruct Hv as [->| ->]; cbn [Z.eqb negb].
  { eapply wp_mono; [by apply wp_all_bumped|]. intros _ m' (Hr&Hp&Hk'&Hj).
    split; [by left|by rewrite Hr|done| | |by rewrite Hp|by rewrite Hk'].
    - intros _. rewrite Hj. destruct (H0' eq_refl) as [-> | ->]; auto.
    - intros j Hne. by rewrite Hj, Hoth. }
  rewrite wp_bind, wp_chan_get by done. rewrite H1 by done.
  change (c_state (stamped _ c)) with (c_state c). rewrite wp_bind.
  pose proof (fun m1 => wp_sent_bumps i c m0 m m1 Hi Hcnt Hoth Hresp Hrest) as Hend.
  destruct (c_state c =? LIBRADIO_CHSTATE_TXRESPOND).
  - rewrite wp_bind, wp_libradio_irq_enable, wp_bind. unfold chan_put at 1.
    rewrite wp_chan_set by done. rewrite wp_kput. apply Hend; unfold irq_machine; upd_simpl.
    + done.
    + pose proof (with_chan_ok i ((chan_of i (m_app m)) <| c_state := LIBRADIO_CHSTATE_RXRESPONSE1 |>)
        (m_app m)) as Hw. destruct Hw; [destruct (chan_of_ok i _ Hk); by split|done|by split].
    + etrans; [exact (chan_of_with i _ _ Hi)|]. by rewrite H1.
    + intros j Hne. exact (chan_of_with_ne i j _ _ (not_eq_sym Hne)).
    + done.
    + apply (rest_with_chan i).
  - unfold chan_put at 1. rewrite wp_chan_set by done. apply Hend; upd_simpl.
    + done.
    + apply with_chan_ok; [|done]. destruct (chan_of_ok i _ Hk). by split.
    + rewrite chan_of_with by done. by rewrite H1.
    + intros j Hne. by apply chan_of_with_ne.
    + apply resp_with_chan.
    + apply rest_with_chan.
Qed.

Lemma wp_tx_channel i m :
  0 <= i < 6 -> fw_ok m ->
  wp (tx_channel i) (fun _ m' => exists v, tx_post i (chan_of i (m_app m)) m v m') m.
Proof.
  intros Hi Hm. unfold tx_channel. rewrite wp_bind, wp_chan_get by done.
  rewrite wp_bind, wp_print. set (o := str "TX" ++ _). clearbody o.
  set (m1 := m <| m_out ::= fun l => l ++ o |>).
  assert (fw_ok m1) as Hm1 by by apply (preserves_print o m).
  rewrite wp_bind. eapply wp_mono.
  { apply (wp_libradio_send (chan_ref i) i m1); [done|by apply chan_ref_ok|warith]. }
  intros v m2 [Hm2 Hpost]. destruct Hpost as [Hv Hcnt _ Hch Hsent Hfr].
  change (ch_get (chan_ref i) m2) with (chan_of i (m_app m2)) in *.
  change (ch_get (chan_ref i) m1) with (chan_of i (m_app m)) in *.
  apply lib_frame_app in Hfr.
  change (m_app (ch_set (chan_ref i) (chan_of i (m_app m2)) m1))
    with (with_chan i (chan_of i (m_app m2)) (m_app m)) in Hfr.
  eapply wp_mono; [apply (wp_after_send i v (chan_of i (m_app m)) m); try done|].
  - intros ->. by apply Hsent.
  - intros j Hne. rewrite Hfr. by apply chan_of_with_ne.
  - rewrite Hfr. apply resp_with_chan.
  - rewrite Hfr. apply rest_with_chan.
  - intros ? m' Hp. by exists v.
Qed.

(** The channel that takes the time packet. *)
Definition time_channel (tom : Z) (c : channel) : channel :=
  c <| c_state := LIBRADIO_CHSTATE_TRANSMIT |> <| c_priority := 0xff |>
    <| c_packet ::= fun p => p <| p_node := 0 |> <| p_len := 1 |>
                               <| p_cmd := RADIO_CMD_SET_TIME |> <| p_data ::= <[0%nat := tom]> |> |>.

Lemma fill_time_run i m :
  0 <= i < 6 -> channel_ok (chan_of i (m_app m)) ->
  fill_time i m = Done tt (m <| m_app ::=
    with_chan i (time_channel (r_tens_of_minutes (m_radio m)) (chan_of i (m_app m))) |>).
Proof.
  intros Hi Hc. pose proof (ok_packet _ Hc) as Hp. unfold fill_time, chan_put, cpacket_put.
  do 5 (rewrite run_chan_set by done; upd_simpl;
        rewrite ?app_twice, ?chan_of_with, ?with_chan_twice by done).
  unfold rget. rewrite run_gets, run_chan_get by done. upd_simpl. rewrite chan_of_with by done.
  apply wp_run. intros Q. rewrite wp_bind, wp_array_put by (upd_simpl; rewrite (ok_size _ Hp); lia).
  rewrite wp_chan_set by done. upd_simpl. rewrite chan_of_with by done. f_equal.
  match goal with |- m <| m_app := with_chan i ?y _ |> <| m_app ::= with_chan i ?x |> = _ =>
    transitivity (m <| m_app := with_chan i x (with_chan i y (m_app m)) |>); [by destruct m|] end.
  rewrite with_chan_twice.
  transitivity (m <| m_app := with_chan i (time_channel (r_tens_of_minutes (m_radio m))
                  (chan_of i (m_app m))) (m_app m) |>); [|by destruct m].
  unfold time_channel. by destruct (chan_of i (m_app m)) as [? ? []].
Qed.

(** The channel whose turn it is, and what it holds when it is transmitted. *)
Definition slot_of (ms : Z) : Z := (ms / SET_TIME_MODULO) mod MAX_RADIO_CHANNELS.

Definition slot_channel (tom : Z) (c : channel) : channel :=
  if c_state c =? LIBRADIO_CHSTATE_EMPTY then time_channel tom c else c.

Lemma slot_range ms : 0 <= slot_of ms < 6.
Proof. apply Z.mod_pos_bound. done. Qed.

Definition modulo_set (ms : Z) (k : control) : control :=
  k <| k_last_modulo := ms mod SET_TIME_MODULO |>.

Lemma wp_time_slot m (Q : option Z -> machine D control -> Prop) :
  fw_ok m ->
  let ms := r_ms_ticks (m_radio m) in
  let i := slot_of ms in
  (if ms mod SET_TIME_MODULO <? k_last_modulo (m_app m) then
     forall o, Q (Some i) (m <| m_out ::= fun l => l ++ o |>
       <| m_app := modulo_set ms (with_chan i (slot_channel (r_tens_of_minutes (m_radio m))
                    (chan_of i (m_app m))) (m_app m)) |>)
   else Q None (m <| m_app := modulo_set ms (m_app m) |>)) ->
  wp time_slot Q m.
Proof.
  intros Hm ms i HQ. unfold time_slot. rewrite wp_bind, wp_rget. fold ms. cbv zeta.
  rewrite wp_bind, wp_kget. destruct (_ <? _); rewrite wp_bind.
  2: { rewrite wp_ret, wp_bind, wp_kput, wp_ret.
       replace (m <| m_app ::= fun k => k <| k_last_modulo := ms mod SET_TIME_MODULO |> |>)
         with (m <| m_app := modulo_set ms (m_app m) |>) by by destruct m. done. }
  pose proof (slot_range ms) as Hi. fold i in Hi.
  pose proof (chan_of_ok i _ (fw_app m Hm)) as Hc.
  rewrite wp_bind, wp_rget. fold ms. fold (slot_of ms). fold i. unfold slot_channel in HQ.
  rewrite wp_bind, wp_chan_get, wp_bind, wp_when by done.
  destruct (c_state (chan_of i (m_app m)) =? LIBRADIO_CHSTATE_EMPTY).
  - rewrite wp_bind, wp_print. set (o := str "C" ++ _). clearbody o.
    unfold wp at 1. rewrite fill_time_run by done. rewrite wp_ret, wp_bind, wp_kput, wp_ret.
    specialize (HQ o). unfold modulo_set in HQ.
    match goal with |- Q _ ?x => match type of HQ with Q _ ?y =>
      replace x with y; [exact HQ|by destruct m] end end.
  - rewrite wp_ret, wp_bind, wp_kput, wp_ret. specialize (HQ []).
    rewrite with_chan_id in HQ.
    match goal with |- Q _ ?x => match type of HQ with Q _ ?y =>
      replace x with y; [exact HQ|] end end.
    destruct m. unfold upd, set_m_out, set_m_app. cbn. by rewrite app_nil_r.
Qed.

Lemma tx_post_from i c m m1 v m' :
  m_radio m1 = m_radio m -> k_resp (m_app m1) = k_resp (m_app m) ->
  (forall j, j <> i -> chan_of j (m_app m1) = chan_of j (m_app m)) ->
  rest (m_app m1) = rest (m_app m) ->
  tx_post i c m1 v m' -> tx_post i c m v m'.
Proof.
  intros Hr Hp Hj Hk []. split; rewrite <- ?Hr, <- ?Hp, <- ?Hk; try done.
  intros j Hne. rewrite <- Hj by done. auto.
Qed.

(** What a call of [tx_check_queues] has done. *)
Definition tx_spec m m' : Prop :=
  let l := m_radio m in
  let k := m_app m in
  let ms := r_ms_ticks l in
  let i := slot_of ms in
  if r_state l <? LIBRADIO_STATE_LISTEN then m' = m
  else if ms mod SET_TIME_MODULO <? k_last_modulo k then
    if c_state (chan_of i k) <? LIBRADIO_CHSTATE_EMPTY then
      exists o, m' = m <| m_out := o |> <| m_app := modulo_set ms k |>
    else exists v, tx_post i (slot_channel (r_tens_of_minutes l) (chan_of i k))
                     (m <| m_app := modulo_set ms k |>) v m'
  else
    (exists j v, best 6 k (Some j) /\
       tx_post j (chan_of j k) (m <| m_app := modulo_set ms k |>) v m') \/
    best 6 k None /\ m' = m <| m_app := modulo_set ms k |>.

Lemma wp_tx_check_queues m : fw_ok m -> wp tx_check_queues (fun _ => tx_spec m) m.
Proof.
  intros Hm. unfold tx_check_queues, tx_spec. cbv zeta. rewrite wp_bind, wp_rget.
  set (ms := r_ms_ticks (m_radio m)). set (i := slot_of ms).
  destruct (r_state (m_radio m) <? LIBRADIO_STATE_LISTEN); [done|]. rewrite wp_bind.
  pose proof (slot_range ms) as Hi. fold i in Hi.
  assert (wp time_slot (fun o m1 => if ms mod SET_TIME_MODULO <? k_last_modulo (m_app m)
    then o = Some i /\ exists l, m1 = m <| m_out := l |> <| m_app := modulo_set ms (with_chan i
           (slot_channel (r_tens_of_minutes (m_radio m)) (chan_of i (m_app m))) (m_app m)) |>
    else o = None /\ m1 = m <| m_app := modulo_set ms (m_app m) |>) m) as Hslot.
  { apply wp_time_slot; [done|]. cbv zeta. fold ms. fold i. case_match; [|done].
    intros o. split; [done|]. by exists (m_out m ++ o). }
  eapply wp_mono; [apply (wp_safe _ _ _ _ Hslot (yields_time_slot m Hm))|].
  intros o m1 [Hpost [_ Hm1] ]. destruct (_ <? k_last_modulo (m_app m)).
  - destruct Hpost as [-> [l ->] ]. set (m1 := m <| m_out := l |> <| m_app := _ |>) in *.
    rewrite wp_bind, wp_ret, wp_bind, wp_chan_get by done.
    assert (chan_of i (m_app m1) = slot_channel (r_tens_of_minutes (m_radio m)) (chan_of i (m_app m)))
      as Hci by exact (chan_of_with i _ (m_app m) Hi).
    rewrite Hci.
    assert ((c_state (slot_channel (r_tens_of_minutes (m_radio m)) (chan_of i (m_app m)))
              <? LIBRADIO_CHSTATE_EMPTY) = (c_state (chan_of i (m_app m)) <? LIBRADIO_CHSTATE_EMPTY)) as ->.
    { unfold slot_channel. destruct (Z.eqb_spec (c_state (chan_of i (m_app m))) LIBRADIO_CHSTATE_EMPTY) as [E|]; [|done].
      by rewrite E. }
    destruct (Z.ltb_spec (c_state (chan_of i (m_app m))) LIBRADIO_CHSTATE_EMPTY) as [Hlt|Hge].
    + rewrite wp_ret. exists l. unfold m1, slot_channel.
      rewrite (proj2 (Z.eqb_neq _ _)) by lia. by rewrite with_chan_id.
    + eapply wp_mono; [by apply wp_tx_channel|]. intros _ m' [v Hp]. exists v.
      rewrite Hci in Hp. eapply tx_post_from; [..|exact Hp]; [done|exact (resp_with_chan i _ (m_app m))| |].
      * intros j Hne. exact (chan_of_with_ne i j _ (m_app m) (not_eq_sym Hne)).
      * unfold m1, modulo_set, rest. upd_simpl. unfold with_chan. by destruct (chan_index i).
  - destruct Hpost as [-> ->]. set (m1 := m <| m_app := _ |>) in *. rewrite wp_bind.
    apply wp_pick_best. intros [j|] Hb; [|by right].
    rewrite wp_bind. pose proof Hb as (_&(Hj&_&Hs)&_). rewrite wp_chan_get by done.
    rewrite (proj2 (Z.ltb_ge _ _)) by (unfold LIBRADIO_CHSTATE_TRANSMIT, LIBRADIO_CHSTATE_EMPTY in *; lia).
    eapply wp_mono; [by apply wp_tx_channel|]. intros _ m' [v Hp]. left. exists j, v.
    split; [exact Hb|exact Hp].
Qed.

(** The answer to the packet and the objects afterwards, when the controller does
    not execute it itself. *)
Definition answer_text (l : libradio) : list Z :=
  if r_state l =? LIBRADIO_STATE_ACTIVE then str "<+" ++ [10]
  else str "<-" ++ fmt_d RADIO_CTLERR_NOT_ACTIVE ++ str "/" ++ fmt_d (r_state l) ++ [10].

Definition after_enqueue (i : Z) (l : libradio) (k : control) : control :=
  (with_chan i (if r_state l =? LIBRADIO_STATE_ACTIVE then queued i (chan_of i k)
                else (chan_of i k) <| c_state := LIBRADIO_CHSTATE_EMPTY |>) k)
    <| k_state := IO_STATE_WAITNL |>.

Lemma run_reply code m :
  reply code m = Done tt (m <| m_out ::= fun o => o ++
             (if code =? 0 then str "<+" ++ [10]
              else str "<-" ++ fmt_d code ++ str "/" ++ fmt_d (r_state (m_radio m)) ++ [10]) |>
            <| m_app := (m_app m) <| k_state := IO_STATE_WAITNL |> |>).
Proof. apply wp_run. intros Q. rewrite wp_reply. by f_equal. Qed.

Lemma enqueue_remote i m :
  0 <= i < 6 -> channel_ok (chan_of i (m_app m)) ->
  is_local (m_radio m) (c_packet (chan_of i (m_app m))) = false ->
  exists note, enqueue i m = Done tt (m
    <| m_out := m_out m ++ note ++ answer_text (m_radio m) |>
    <| m_app := after_enqueue i (m_radio m) (m_app m) |>).
Proof.
  intros Hi Hc Hl. unfold enqueue, answer_text, after_enqueue. rewrite run_chan_get by done. cbv zeta.
  rewrite run_gets, run_print. set (n1 := str "ENQ:S" ++ _).
  rewrite run_chan_put by done. rewrite Hl. cbv iota. upd_simpl.
  destruct (r_state (m_radio m) =? LIBRADIO_STATE_ACTIVE); cbn [negb].
  - rewrite run_chan_put by done. upd_simpl.
    rewrite chan_of_with, with_chan_twice, run_chan_get by done. upd_simpl.
    rewrite chan_of_with by done. upd_simpl. rewrite run_print. set (n2 := str "CMD:" ++ _).
    exists (n1 ++ n2). clearbody n1 n2.
    set (c := chan_of i (m_app m)) in *. set (st := if p_cmd (c_packet c) =? RADIO_CMD_STATUS then _ else _).
    assert (forall m1 pr, m_app m1 = with_chan i (c <| c_state := st |>) (m_app m) ->
      pr = (if c_priority c =? 0 then (6 - i) * 8
            else if c_priority c <? 0xfc then c_priority c + 1 else c_priority c) ->
      (if c_priority c =? 0 then
         chan_put c_priority i (u8 (Z.shiftl (MAX_RADIO_CHANNELS - i) 3))
       else when (c_priority c <? 252) (chan_put c_priority i (u8 (c_priority c + 1)))) m1
      = Done tt (m1 <| m_app := with_chan i (c <| c_state := st |> <| c_priority := pr |>) (m_app m) |>)) as Hp.
    { intros m1 pr Hm1 ->. destruct Hc as [_ Hpr _]. fold c in Hpr.
      destruct (c_priority c =? 0) eqn:E.
      - rewrite chan_put_run, Hm1, with_chan_twice, chan_of_with by done.
        rewrite Z.shiftl_mul_pow2 by lia. change (2 ^ 3) with 8. unfold MAX_RADIO_CHANNELS.
        by rewrite u8_small by warith.
      - destruct (c_priority c <? 252) eqn:E2; cbn [when].
        + rewrite chan_put_run, Hm1, with_chan_twice, chan_of_with by done.
          by rewrite u8_small by warith.
        + replace ((c <| c_state := st |>) <| c_priority := c_priority c |>) with (c <| c_state := st |>)
            by by destruct c. rewrite <- Hm1. by destruct m1. }
    erewrite bind_done by (apply Hp; reflexivity). rewrite run_reply. f_equal. upd_simpl.
    unfold queued. fold st. clear Hp Hl Hc. clearbody st c.
    rewrite ?app_twice, !out_app. upd_simpl. by rewrite <- !app_assoc.
  - rewrite run_chan_put by done. upd_simpl. rewrite chan_of_with, with_chan_twice by done.
    rewrite run_reply. exists n1. clearbody n1. f_equal. upd_simpl.
    rewrite ?app_twice, !out_app. upd_simpl. by rewrite <- !app_assoc.
Qed.
End promises.

(** ** Properties *)

Section properties.
Context {D : Type} `{Platform D} `{Patience}.
Implicit Types m : machine D control.

(** [C4] A pass over the transmit queues always ends and does exactly what the
    priorities promise: nothing below LISTEN; at the start of a five-second slot
    the slot's channel is sent, with the time if it is empty, unless it is disabled
    or only read; otherwise the pending channel with the highest priority is sent,
    the lowest number among equals. A sent packet empties its channel (or makes
    it wait for the answer to a STATUS), an unsent one is kept, every other
    pending channel moves up by two, and no other object of the controller
    changes. *)
Theorem tx_refines m : fw_ok m -> wp tx_check_queues (fun _ => tx_spec m) m.
Proof. apply wp_tx_check_queues. Qed.

(** A complete packet for another node is queued and answered with "+" when the
    controller is ACTIVE: it waits with the priority of its channel, or one
    above the priority the channel has kept, and a STATUS request is marked as
    wanting an answer. When the controller is not ACTIVE the packet is dropped,
    the channel emptied, and the error reported. *)
Theorem enqueue_outcome i m :
  0 <= i < 6 -> channel_ok (chan_of i (m_app m)) ->
  is_local (m_radio m) (c_packet (chan_of i (m_app m))) = false ->
  exists note, enqueue i m = Done tt (m
    <| m_out := m_out m ++ note ++ answer_text (m_radio m) |>
    <| m_app := after_enqueue i (m_radio m) (m_app m) |>).
Proof. apply enqueue_remote. Qed.

(** [tx_init] disables the first channel and no other, and forgets the channel that
    waited for an answer: the loop never advances its pointer. *)
Lemma tx_init_first_only m :
  tx_init m = Done tt (m <| m_app := (with_chan 0 ((chan_of 0 (m_app m))
      <| c_state := LIBRADIO_CHSTATE_DISABLED |> <| c_priority := 0 |>) (m_app m))
      <| k_resp := None |> |>).
Proof.
  unfold tx_init. change (Z.to_nat MAX_RADIO_CHANNELS) with 6%nat. cbn [for_loop].
  do 6 (rewrite !bind_assoc, !run_chan_put by done; upd_simpl;
    rewrite ?chan_of_with, ?with_chan_twice by done).
  unfold kput, modify, mret, cmd_ret, mbind, cmd_bind. by destruct (chan_of 0 (m_app m)), m.
Qed.
End properties.

(** ** Instances of the properties *)

#[local] Instance bench_patience : Patience := 10%nat.

(** Channel 1 holds a STATUS request for node 9, channel 4 a command with a higher
    priority. *)
Definition bench_queued : control :=
  with_chan 4 (bench_channel <| c_state := LIBRADIO_CHSTATE_TRANSMIT |> <| c_priority := 60 |>
      <| c_packet := bench_cmd RADIO_CMD_SET_DATE 3 [2; 3; 4] |>)
    (with_chan 1 (bench_channel <| c_state := LIBRADIO_CHSTATE_TXRESPOND |> <| c_priority := 40 |>
        <| c_packet := (bench_cmd RADIO_CMD_STATUS 3 [2; 9; 0]) <| p_node := 9 |> |>)
       bench_objects).

Lemma bench_queued_ok : control_ok bench_queued.
Proof.
  assert (packet_ok (bench_cmd RADIO_CMD_STATUS 3 [2; 9; 0])) as [] by
    (apply bench_cmd_ok; [done|done|bytes_cons]).
  apply with_chan_ok; [|apply with_chan_ok; [|apply bench_objects_ok] ]; split; try done.
  apply bench_cmd_ok; [done|done|bytes_cons].
Qed.

Lemma tx_refines_witness :
  (best 6 bench_queued (Some 4) /\ wp tx_check_queues (fun _ => tx_spec (bench_control bench_queued []))
     (bench_control bench_queued [])).
Proof.
  split.
  - split_and!; [done|by split_and!|]. intros j Hj [Hr _].
    assert (j = 0 \/ j = 1 \/ j = 2 \/ j = 3 \/ j = 4 \/ j = 5) as Hcases by lia.
    destruct Hcases as [->|[->|[->|[->|[->| ->] ] ] ] ]; by (left + (right; split)).
  - apply (tx_refines (bench_control bench_queued [])).
    apply bench_control_ok; [apply bench_queued_ok|constructor].
Defined.

Lemma enqueue_outcome_witness :
  let m := bench_control bench_queued [] in
  exists note, enqueue 1 m = Done tt (m
    <| m_out := m_out m ++ note ++ answer_text (m_radio m) |>
    <| m_app := after_enqueue 1 (m_radio m) (m_app m) |>).
Proof.
  apply (enqueue_outcome 1 (bench_control bench_queued [])); [done| |done].
  apply chan_of_ok, bench_queued_ok.
Defined.
