(* ===== verification/CtlFair.v ===== *)
(** Fairness of the transmit queues: a packet that waits in a channel is overtaken
    by a bounded number of others. *)

From S2P Require Import Machine Clock State Spi Invariant Si4463 Wait Rxtx Command Loop Control CtlCommand CtlQueue.

#[local] Open Scope Z_scope.

(** A packet waits in channel [i] for its transmission. *)
Definition ready (i : Z) (k : control) : Prop :=
  0 <= i < 6 /\ c_priority (chan_of i k) <> 0 /\
  (c_state (chan_of i k) = LIBRADIO_CHSTATE_TRANSMIT \/
   c_state (chan_of i k) = LIBRADIO_CHSTATE_TXRESPOND).

(** The priority that a channel has or will get when it is queued, not below the
    largest one that a channel gets when it was idle. *)
Definition rank (c : channel) : Z :=
  Z.max 48 (if LIBRADIO_CHSTATE_TRANSMIT <=? c_state c then c_priority c else c_priority c + 1).

(** What may happen between two passes as far as the packet in channel [i] is
    concerned: the packet stays, and the other channels are emptied, filled and
    queued, which does not raise their rank. *)
Definition calm (i : Z) (k k' : control) : Prop :=
  ready i k' /\ c_priority (chan_of i k) <= c_priority (chan_of i k') /\
  forall j, 0 <= j < 6 -> j <> i -> rank (chan_of j k') <= rank (chan_of j k).






Section fairness.
Context {D : Type} `{Platform D} `{Patience}.
Implicit Types m : machine D control.















(** Queueing a packet in another channel, or refusing it, is calm. *)
Lemma rank_queued j c :
  0 <= j < 6 -> c_state c < LIBRADIO_CHSTATE_TRANSMIT -> rank (queued j c) <= rank c.
Proof.
  intros Hj Hs. unfold rank, queued. upd_simpl. rewrite (proj2 (Z.leb_gt _ (c_state c))) by done.
  repeat case_match; unfold LIBRADIO_CHSTATE_TRANSMIT, LIBRADIO_CHSTATE_TXRESPOND in *; lia.
Qed.

Lemma enqueue_calm i j l k :
  ready i k -> 0 <= j < 6 -> j <> i -> c_state (chan_of j k) < LIBRADIO_CHSTATE_TRANSMIT ->
  calm i k (after_enqueue j l k).
Proof.
  intros Hr Hj Hji Hs. unfold after_enqueue.
  set (c := if r_state l =? LIBRADIO_STATE_ACTIVE then _ else _).
  assert (chan_of i ((with_chan j c k) <| k_state := IO_STATE_WAITNL |>) = chan_of i k) as Ei
    by exact (chan_of_with_ne j i c k Hji).
  split_and!; [|by rewrite Ei|].
  - unfold ready. by rewrite Ei.
  - intros x Hx Hxi. destruct (Z.eq_dec x j) as [->|Hne].
    + change (rank (chan_of j (with_chan j c k)) <= rank (chan_of j k)).
      rewrite chan_of_with by done. unfold c. case_match; [by apply rank_queued|].
      unfold rank. upd_simpl. rewrite (proj2 (Z.leb_gt _ (c_state _))) by done. done.
    + change (rank (chan_of x (with_chan j c k)) <= rank (chan_of x k)).
      by rewrite chan_of_with_ne.
Qed.
End fairness.

(** ** Properties *)

Section properties.
Context {D : Type} `{Platform D} `{Patience}.
Implicit Types m : machine D control.

End properties.

(** ** An instance *)

#[local] Instance bench_patience : Patience := 10%nat.



