(* ===== verification/CtlRace.v ===== *)
(** The controller against its timer interrupt: transmit.c and command.c touch the clock
    with interrupts enabled, in two halves. *)

From stdpp Require Import relations.
From S2P Require Import Machine Clock State Spi Invariant Wait Race Control CtlCommand CtlQueue.

#[local] Open Scope Z_scope.

Section code.
Context {D : Type} `{Platform D} `{Patience}.

(** The order of the halves is the compiler's. *)
Context (hi_first : bool).

(** What is done to a channel is not shared with an interrupt and is one action. *)
Definition slot_packet (channo : Z) : fw D control unit :=
  c ← chan_get channo;
  when (c_state c =? LIBRADIO_CHSTATE_EMPTY) (
    print (str "C" ++ fmt_d channo ++ str ">state:" ++ fmt_d (c_state c) ++ [10]);;
    fill_time channo).

Definition slot_turn (modulo channo : Z) : thread D control (option Z) :=
  Act (slot_packet channo) (fun _ => Act (kput k_last_modulo modulo) (fun _ => Ret (Some channo))).

Definition slot_found (modulo : Z) : thread D control (option Z) :=
  Act (kget k_last_modulo) (fun last =>
    if modulo <? last then
      load16 hi_first r_ms_ticks (fun ms =>
        slot_turn modulo ((ms / SET_TIME_MODULO) mod MAX_RADIO_CHANNELS))
    else Act (kput k_last_modulo modulo) (fun _ => Ret None)).

(** transmit.c: the start of a five-second slot. *)
Definition slot_thread : thread D control (option Z) :=
  load16 hi_first r_ms_ticks (fun ms => slot_found (ms mod SET_TIME_MODULO)).

(** command.c: mycommand_set_time, once the bytes have been put together. *)
Definition set_time_thread (ticks tom : Z) : thread D control unit :=
  store16 hi_first r_ms_ticks ticks (Act (rput r_tens_of_minutes tom) (fun _ => Ret tt)).
End code.

(** ** Proofs *)

Section proofs.
Context {D : Type} `{Platform D} `{Patience}.
Implicit Types m : machine D control.

(** On its own the thread is the function. *)
Lemma solo_slot h m : solo (slot_thread h) m = time_slot m.
Proof.
  unfold slot_thread, slot_found, slot_turn, slot_packet, time_slot. rewrite solo_load. unfold rget. rewrite run_gets. cbn [solo]. cbv zeta.
  rewrite !run_kget. destruct (_ <? _).
  - rewrite solo_load. cbn [solo]. unfold mbind, cmd_bind, gets.
    set (i := (r_ms_ticks (m_radio m) / _) mod _).
    destruct (chan_get i m) as [c m1| | |]; [|done..].
    destruct (when _ _ m1) as [[] m2| | |]; done.
  - cbn [solo]. unfold mbind, cmd_bind, mret, cmd_ret. by destruct (kput _ _ m).
Qed.

(** Interrupts leave a 16-bit clock a 16-bit clock. *)
Definition clock16 m : Prop := is_u16 (r_ms_ticks (m_radio m)).

Lemma clock16_absorb e m : clock16 m -> clock16 (absorb e m).
Proof.
  unfold clock16. intros Hm. destruct e; [|cbn [absorb]; by case_match|done].
  cbn [absorb]. destruct (tick_machine_time m) as (_&->&_). unfold time_step.
  case_match; [done|]. cbv zeta. case_match; [done|]. apply u16_range.
Qed.

Lemma always_load {A} h (k : Z -> thread D control A) m Q :
  clock16 m -> (forall v m', is_u16 v -> clock16 m' -> always (k v) m' Q) ->
  always (load16 h r_ms_ticks k) m Q.
Proof.
  assert (stable (fun m => clock16 m)) as Hst by (intros e m' _; apply clock16_absorb).
  intros Hm Hk. unfold load16. destruct h;
    (apply (always_read _ _ _ clock16); [exact Hst|exact Hm|]; intros m1 Hm1;
     apply (always_read _ _ _ clock16); [exact Hst|exact Hm1|]; intros m2 Hm2;
     apply Hk; [by apply join_u16|exact Hm2]).
Qed.

(** The slot that is found, whatever the halves. *)
Lemma slot_always h m :
  clock16 m -> always (slot_thread h) m (fun slot m' =>
    (forall i, slot = Some i -> 0 <= i < MAX_RADIO_CHANNELS) /\ 0 <= k_last_modulo (m_app m') < SET_TIME_MODULO).
Proof.
  assert (forall modulo slot m1, 0 <= modulo < SET_TIME_MODULO ->
    (forall i, slot = Some i -> 0 <= i < MAX_RADIO_CHANNELS) ->
    always (Act (kput k_last_modulo modulo) (fun _ => Ret slot)) m1 (fun slot m' =>
      (forall i, slot = Some i -> 0 <= i < MAX_RADIO_CHANNELS) /\
      0 <= k_last_modulo (m_app m') < SET_TIME_MODULO)) as Hend.
  { intros modulo slot m1 Hmod Hslot. apply (always_write _ _ _ (fun _ => True)); [done|done|]. intros m2 _.
    apply (always_ret _ _ (fun m' => k_last_modulo (m_app m') = modulo)); [|done|].
    - intros e m' _ <-. destruct e; [done| |done]. cbn [absorb]. by case_match.
    - intros m' ->. by split. }
  intros Hm. unfold slot_thread, slot_found. apply always_load; [exact Hm|]. intros ms m1 Hms Hm1. cbv zeta.
  pose proof (Z.mod_pos_bound ms SET_TIME_MODULO ltac:(done)) as Hmod.
  apply (always_read _ _ _ clock16); [intros e m' _; apply clock16_absorb|exact Hm1|]. intros m2 Hm2.
  destruct (_ <? _); [|by apply Hend].
  apply always_load; [exact Hm2|]. intros ms2 m3 Hms2 Hm3. cbv zeta.
  unfold slot_turn. eapply (always_act _ _ _ (fun _ => True)); [done|done|]. intros m4 u m5 _ _. apply Hend; [exact Hmod|].
  intros i [= <-]. by apply Z.mod_pos_bound.
Qed.

(** *** A slot out of turn *)

(** The channel whose turn it is gets its packet, or is left alone. *)
Lemma fill_runs i m :
  0 <= i < 6 -> channel_ok (chan_of i (m_app m)) ->
  exists m', slot_packet i m = Done tt m' /\ m_radio m' = m_radio m /\
    m_app m' = with_chan i (slot_channel (r_tens_of_minutes (m_radio m)) (chan_of i (m_app m))) (m_app m).
Proof.
  intros Hi Hc. assert (wp (slot_packet i) (fun _ m' => m_radio m' = m_radio m /\
    m_app m' = with_chan i (slot_channel (r_tens_of_minutes (m_radio m)) (chan_of i (m_app m))) (m_app m)) m) as Hw.
  { unfold slot_packet, slot_channel. rewrite wp_bind, wp_chan_get, wp_when by done.
    case_match; [|by rewrite with_chan_id].
    rewrite wp_bind, wp_print. unfold wp. by rewrite fill_time_run. }
  apply wp_done in Hw as ([]&m'&E&Hr). by exists m'.
Qed.

(** What the thread relies on: a 16-bit clock and well-formed objects. *)
Definition slot_ready m : Prop := clock16 m /\ control_ok (m_app m).

Lemma absorb_app e m : m_app (absorb e m) = m_app m.
Proof. destruct e; [done| |done]. cbn [absorb]. by case_match. Qed.

Lemma stable_ready : stable (fun m => slot_ready m).
Proof. intros e m _ [Hc Ha]. split; [by apply clock16_absorb|by rewrite absorb_app]. Qed.

Lemma faultless_load {A} h (k : Z -> thread D control A) m :
  slot_ready m -> (forall v m', slot_ready m' -> faultless (k v) m') ->
  faultless (load16 h r_ms_ticks k) m.
Proof.
  intros Hm Hk. unfold load16.
  destruct h; (apply (faultless_act _ _ _ slot_ready); [apply stable_ready|exact Hm|]; intros m1 Hm1;
    eexists _, m1; split; [reflexivity|]; apply (faultless_act _ _ _ slot_ready); [apply stable_ready|exact Hm1|];
    intros m2 Hm2; eexists _, m2; split; [reflexivity|]; by apply Hk).
Qed.

Lemma slot_faultless h m : slot_ready m -> faultless (slot_thread h) m.
Proof.
  assert (forall modulo (slot : option Z) m1, faultless (Act (kput k_last_modulo modulo) (fun _ => Ret slot)) m1) as Hend.
  { intros. apply (faultless_act _ _ _ (fun _ => True)); [done|done|]. intros m2 _. eexists _, _.
    split; [reflexivity|apply faultless_ret]. }
  intros Hm. unfold slot_thread, slot_found. apply faultless_load; [exact Hm|]. intros ms m1 Hm1. cbv zeta.
  apply (faultless_act _ _ _ slot_ready); [apply stable_ready|exact Hm1|]. intros m2 Hm2.
  eexists _, m2. split; [reflexivity|]. destruct (_ <? _); [|apply Hend].
  apply faultless_load; [exact Hm2|]. intros ms2 m3 Hm3. unfold slot_turn.
  apply (faultless_act _ _ _ slot_ready); [apply stable_ready|exact Hm3|]. intros m4 [_ Ha].
  destruct (fill_runs ((ms2 / SET_TIME_MODULO) mod MAX_RADIO_CHANNELS) m4) as (m5&E&_);
    [by apply Z.mod_pos_bound|by apply chan_of_ok|]. exists tt, m5. split; [exact E|apply Hend].
Qed.

(** A tick between the halves of the first read. *)
Lemma slot_torn (h : bool) m :
  let m1 := absorb Tick m in
  let t0 := r_ms_ticks (m_radio m) in
  let t1 := r_ms_ticks (m_radio m1) in
  let ms := if h then Race.join (hi t0) (lo t1) else Race.join (hi t1) (lo t0) in
  let i := (t1 / SET_TIME_MODULO) mod MAX_RADIO_CHANNELS in
  m_sreg_i m = true -> control_ok (m_app m) -> ms mod SET_TIME_MODULO < k_last_modulo (m_app m) ->
  exists m', isteps (slot_thread h, m) (Ret (Some i), m') /\ m_radio m' = m_radio m1 /\
    m_app m' = (with_chan i (slot_channel (r_tens_of_minutes (m_radio m1)) (chan_of i (m_app m))) (m_app m))
                 <| k_last_modulo := ms mod SET_TIME_MODULO |>.
Proof.
  intros m1 t0 t1 ms i Hi Hk Hlt. apply Z.ltb_lt in Hlt.
  destruct (fill_runs i m1) as (m2&E2&Er&Ea); [by apply Z.mod_pos_bound|by apply (chan_of_ok i)|].
  exists (m2 <| m_app ::= fun k => k <| k_last_modulo := ms mod SET_TIME_MODULO |> |>). split; [|split; [exact Er|upd_simpl; by rewrite Ea] ].
  eapply (transitivity (y := (slot_found h (ms mod SET_TIME_MODULO), m1))).
  { unfold slot_thread, load16, ms. destruct h;
      (eapply rtc_l; [apply step_act; eexists; by split|]);
      (eapply rtc_l; [by apply (step_irq _ _ Tick)|]);
      (eapply rtc_l; [apply step_act; eexists; by split|]); apply rtc_refl. }
  eapply rtc_l; [apply step_act; eexists; by split|]. change (k_last_modulo (m_app m1)) with (k_last_modulo (m_app m)).
  rewrite Hlt.
  eapply (transitivity (y := (slot_turn (ms mod SET_TIME_MODULO) i, m1))).
  { unfold load16, i, t1. rewrite <- (join_halves (r_ms_ticks (m_radio m1))). destruct h;
      do 2 (eapply rtc_l; [apply step_act; eexists; by split|]); apply rtc_refl. }
  eapply rtc_l; [apply step_act; eexists; by split|].
  eapply rtc_l; [apply step_act; eexists; by split|]. apply rtc_refl.
Qed.
End proofs.

(** ** Properties *)

Section properties.
Context {D : Type} `{Platform D} `{Patience}.
Implicit Types m : machine D control.

(** A time torn by the timer interrupt does no harm to the controller itself: in every
    interleaving, the two reads of the clock at the start of a slot being of different
    times and each of them possibly of no time at all, no instruction meets a fault (the
    channel that is looked at exists), and the remainder that is kept is below 500.
    Without interrupts the thread is the function of the sequential model. *)
Theorem slot_in_bounds (h : bool) m :
  is_u16 (r_ms_ticks (m_radio m)) -> control_ok (m_app m) ->
  solo (slot_thread h) m = time_slot m /\
  faultless (slot_thread h) m /\
  always (slot_thread h) m (fun slot m' =>
    (forall i, slot = Some i -> 0 <= i < MAX_RADIO_CHANNELS) /\
    0 <= k_last_modulo (m_app m') < SET_TIME_MODULO).
Proof. intros Hm Ha. split; [apply solo_slot|]. split; [by apply slot_faultless|by apply slot_always]. Qed.

(** No slot starts while the remainder does not decrease. *)
Lemma slot_not_due m :
  k_last_modulo (m_app m) <= r_ms_ticks (m_radio m) mod SET_TIME_MODULO ->
  exists m', time_slot m = Done None m' /\ m_app m' = modulo_set (r_ms_ticks (m_radio m)) (m_app m).
Proof.
  intros Hl. apply Z.ltb_ge in Hl. exists (m <| m_app ::= modulo_set (r_ms_ticks (m_radio m)) |>).
  split; [|reflexivity].
  apply wp_run. intros Q. unfold time_slot. rewrite wp_bind, wp_rget. cbv zeta.
  rewrite wp_bind, wp_kget, Hl, wp_bind, wp_ret, wp_bind, wp_kput, wp_ret. done.
Qed.

(** [C34] A slot that starts in the middle of another: 2.55 s into a slot no channel has
    its turn, neither before the tick that comes then nor after it; but with that tick
    between the halves in which the clock is read, the remainder seems to have wrapped
    around: channel 0, which had its turn 2.55 s ago, has another one, and a time packet
    is put into it when it is empty. *)
Theorem slot_out_of_turn (h : bool) m :
  m_sreg_i m = true -> control_ok (m_app m) ->
  r_ms_ticks (m_radio m) = 255 -> r_period (m_radio m) = 1 -> r_tens_of_minutes (m_radio m) <> 255 ->
  11 < k_last_modulo (m_app m) <= 255 ->
  (exists m', solo (slot_thread h) m = Done None m' /\ m_app m' = modulo_set 255 (m_app m)) /\
  (exists m', solo (slot_thread h) (absorb Tick m) = Done None m' /\ m_app m' = modulo_set 256 (m_app m)) /\
  exists m', isteps (slot_thread h, m) (Ret (Some 0), m') /\ r_ms_ticks (m_radio m') = 256 /\
    chan_of 0 (m_app m') = slot_channel (r_tens_of_minutes (m_radio m)) (chan_of 0 (m_app m)).
Proof.
  intros Hi Hk Ht Hp Htom Hl.
  assert (r_ms_ticks (m_radio (absorb Tick m)) = 256 /\
    r_tens_of_minutes (m_radio (absorb Tick m)) = r_tens_of_minutes (m_radio m)) as [Ht1 Htom1].
  { destruct (tick_machine_time m) as (E1&E2&_). cbn [absorb]. rewrite E1, E2, Hp, Ht. unfold time_step.
    by rewrite (proj2 (Z.eqb_neq _ _)). }
  rewrite !solo_slot. split; [|split].
  - destruct (slot_not_due m) as (m'&E&Ea); [rewrite Ht; exact (proj2 Hl)|]. rewrite Ht in Ea. by exists m'.
  - destruct (slot_not_due (absorb Tick m)) as (m'&E&Ea).
    { rewrite Ht1. change (k_last_modulo (m_app (absorb Tick m))) with (k_last_modulo (m_app m)).
      change (256 mod SET_TIME_MODULO) with 256. lia. }
    rewrite Ht1 in Ea. by exists m'.
  - destruct (slot_torn h m Hi Hk) as (m'&Hs&Er&Ea).
    { rewrite Ht1, Ht. destruct h;
        match goal with |- ?a < _ => let v := eval vm_compute in a in change a with v end; lia. }
    rewrite Ht1 in Hs, Ea. rewrite Htom1 in Ea. exists m'. split; [exact Hs|]. rewrite Er. split; [exact Ht1|].
    rewrite Ea. change ((256 / SET_TIME_MODULO) mod MAX_RADIO_CHANNELS) with 0.
    change (chan_of 0 (with_chan 0 (slot_channel (r_tens_of_minutes (m_radio m)) (chan_of 0 (m_app m))) (m_app m)) =
      slot_channel (r_tens_of_minutes (m_radio m)) (chan_of 0 (m_app m))). by rewrite chan_of_with.
Qed.
End properties.

#[local] Instance race_patience : Patience := 10%nat.

(** The controller at 2.55 s, in the middle of a slot, with interrupts on. *)
Definition race_objects : control := bench_objects <| k_last_modulo := 254 |>.

Definition race_control : machine (list Z) control :=
  (reset_machine [] race_objects []) <| m_radio := zero_libradio <| r_ms_ticks := 255 |> <| r_period := 1 |> |>
    <| m_sreg_i := true |>.

Lemma race_objects_ok : control_ok race_objects.
Proof. pose proof bench_objects_ok as []. by split. Qed.

(** The next instruction. *)
Ltac act := apply step_act; eexists; split; reflexivity.

(** The time set from the serial line, with a tick between the halves of the store: the
    clock is neither the time that was sent nor the tick after it, but off by 2.56 s. *)
Theorem time_set_torn (h : bool) :
  exists m', isteps (set_time_thread h 4351 87, race_control) (Ret tt, m') /\
    r_ms_ticks (m_radio m') = if h then 4607 else 4096.
Proof.
  destruct h; eexists; (split;
    [eapply rtc_l; [act|]; eapply rtc_l; [by apply (step_irq _ _ Tick)|];
       do 2 (eapply rtc_l; [act|]); apply rtc_refl|by vm_compute]).
Qed.

(** ** Instances of the properties *)

Lemma slot_in_bounds_witness :
  solo (slot_thread true) race_control = time_slot race_control /\
  faultless (slot_thread true) race_control /\
  always (slot_thread true) race_control (fun slot m' =>
    (forall i, slot = Some i -> 0 <= i < MAX_RADIO_CHANNELS) /\
    0 <= k_last_modulo (m_app m') < SET_TIME_MODULO).
Proof. apply slot_in_bounds; [done|apply race_objects_ok]. Defined.

Lemma slot_out_of_turn_witness :
  (exists m', solo (slot_thread true) race_control = Done None m' /\ m_app m' = modulo_set 255 race_objects) /\
  (exists m', solo (slot_thread true) (absorb Tick race_control) = Done None m' /\
     m_app m' = modulo_set 256 race_objects) /\
  exists m', isteps (slot_thread true, race_control) (Ret (Some 0), m') /\ r_ms_ticks (m_radio m') = 256 /\
    chan_of 0 (m_app m') = slot_channel 0 (chan_of 0 race_objects).
Proof. apply (slot_out_of_turn true race_control); [done|apply race_objects_ok|done|done|done|done]. Defined.
