(* ===== verification/CtlInput.v ===== *)
(** control/input.c: the state machine that reads packets from the serial line. *)

From S2P Require Import Machine Clock State Spi Invariant Si4463 Wait Rxtx Command Loop Control CtlCommand CtlQueue.

#[local] Open Scope Z_scope.

(** The argument of the switch: the states fit in three bits. *)
Definition STATE (s ch : Z) : Z := Z.lor (Z.shiftl ch 3) s.

(** [case STATE(s, c)] for the characters [c] of a string. *)
Definition is_case (st ch s : Z) (cs : string) : bool :=
  existsb (fun c => STATE st ch =? STATE s c) (str cs).

Section ctl_input.
Context {D : Type} `{Platform D} `{Patience}.

Definition curr_chp : fw D control Z := p ← kget k_curr; deref p.

Definition input_newline (st : Z) : fw D control unit :=
  when (IO_STATE_WAITCMD <=? st) (i ← curr_chp; enqueue i);;
  kput k_state IO_STATE_NEWLINE.

(** A channel letter. *)
Definition input_channel (ch : Z) : fw D control unit :=
  kput k_value (u8 (ch - 65));;
  v ← kget k_value;
  if (v <? 0) || (MAX_RADIO_CHANNELS <=? v) then reply RADIO_CTLERR_INVALID_CHANNEL
  else
    kput k_curr (Some v);;
    c ← chan_get v;
    if LIBRADIO_CHSTATE_EMPTY <? c_state c then reply RADIO_CTLERR_BUSY
    else
      chan_put c_state v LIBRADIO_CHSTATE_ADDING;;
      kput k_state IO_STATE_WAITNODE;;
      kput k_value 0.

Definition input_digit (ch : Z) : fw D control unit :=
  v ← kget k_value; kput k_value (u8 (v * 10 + ch - 48)).

Definition input_node : fw D control unit :=
  kput k_state IO_STATE_WAITCMD;;
  i ← curr_chp;
  v ← kget k_value;
  cpacket_put p_node i v;;
  kput k_value 0.

Definition input_cmd (ch : Z) : fw D control unit :=
  i ← curr_chp;
  v ← kget k_value;
  cpacket_put p_cmd i v;;
  cpacket_put p_len i 0;;
  kput k_value 0;;
  if ch_is ch "." then
    enqueue i;;
    kput k_state IO_STATE_WAITNL
  else kput k_state IO_STATE_WAITDATA.

Definition input_data (ch : Z) : fw D control unit :=
  i ← curr_chp;
  c ← chan_get i;
  let len := p_len (c_packet c) in
  if MAX_PAYLOAD_SIZE <=? len then reply RADIO_CTLERR_TOO_BIG
  else
    cpacket_put p_len i (u8 (len + 1));;
    v ← kget k_value;
    d ← array_put (p_data (c_packet c)) len v;
    cpacket_put p_data i d;;
    kput k_value 0;;
    when (ch_is ch ".") (
      enqueue i;;
      kput k_state IO_STATE_WAITNL).

(** The character just read. *)
Definition input_char (ch : Z) : fw D control unit :=
  st ← kget k_state;
  if (ch =? 10) || (ch =? 13) then input_newline st
  else if is_case st ch IO_STATE_NEWLINE ">" then kput k_state IO_STATE_WAITCHAN
  else if is_case st ch IO_STATE_WAITCHAN "ABCDEFGH" then input_channel ch
  else if is_case st ch IO_STATE_WAITCHAN "R" then restart
  else if is_case st ch IO_STATE_WAITCHAN "ST" then
    local_status (u8 (ch - 83));;
    kput k_state IO_STATE_NEWLINE
  else if is_case st ch IO_STATE_WAITNODE "0123456789"
          || is_case st ch IO_STATE_WAITCMD "0123456789"
          || is_case st ch IO_STATE_WAITDATA "0123456789" then input_digit ch
  else if is_case st ch IO_STATE_WAITNODE ":" then input_node
  else if is_case st ch IO_STATE_WAITCMD ":." then input_cmd ch
  else if is_case st ch IO_STATE_WAITDATA ",." then input_data ch
  else when (negb (st =? IO_STATE_WAITNL)) (reply RADIO_CTLERR_NEWLINE).

Definition process_input : fw D control unit :=
  ch ← getchar;
  input_char (u8 ch).
End ctl_input.

(** ** The cases of the switch *)

Lemma STATE_value s ch : 0 <= s < 8 -> STATE s ch = ch * 8 + s.
Proof.
  intros Hs. unfold STATE. rewrite Z.shiftl_mul_pow2 by lia. change (2 ^ 3) with 8.
  rewrite <- Z.add_lor_land. replace (Z.land (ch * 8) s) with 0; [lia|].
  symmetry. apply Z.bits_inj'. intros n Hn. rewrite Z.land_spec, Z.bits_0.
  change 8 with (2 ^ 3). destruct (Z.ltb_spec n 3).
  - by rewrite Z.mul_pow2_bits_low by lia.
  - rewrite <- (Z.mod_small s (2 ^ 3)) by lia. rewrite Z.mod_pow2_bits_high by lia.
    apply andb_false_r.
Qed.

(** A case is taken exactly in its state and on its characters. *)
Lemma is_case_spec st ch s cs :
  0 <= st < 8 -> 0 <= s < 8 ->
  is_case st ch s cs = (st =? s) && existsb (Z.eqb ch) (str cs).
Proof.
  intros Hst Hs. unfold is_case. induction (str cs) as [|c l IH]; cbn [existsb]; [by rewrite andb_false_r|].
  rewrite IH, !STATE_value by done.
  destruct (Z.eqb_spec (ch * 8 + st) (c * 8 + s)), (Z.eqb_spec st s), (Z.eqb_spec ch c); try lia; done.
Qed.

Lemma is_case_true st ch s cs :
  0 <= st < 8 -> 0 <= s < 8 -> is_case st ch s cs = true -> st = s /\ In ch (str cs).
Proof.
  intros Hst Hs. rewrite is_case_spec by done. intros [E1 E2]%andb_prop.
  split; [lia|]. apply existsb_exists in E2 as (c&Hin&E). by replace ch with c by lia.
Qed.

(** ** Safety *)

Definition is_newline (ch : Z) : bool := (ch =? 10) || (ch =? 13).

(** The packet that the character hands over to [enqueue]. *)
Definition finished (ch : Z) (k : control) : option packet :=
  match k_curr k with
  | None => None
  | Some i =>
      let p := c_packet (chan_of i k) in
      if is_newline ch then if IO_STATE_WAITCMD <=? k_state k then Some p else None
      else if (k_state k =? IO_STATE_WAITDATA) && (ch =? 46) && (p_len p <? 10) then
        Some (p <| p_len := p_len p + 1 |>
                <| p_data ::= <[Z.to_nat (p_len p) := k_value k]> |>)
      else None
  end.

Section safety.
Context {D : Type} `{Platform D} `{Patience}.
Implicit Types m : machine D control.

(** The controller is made to execute a command that reads behind its packet. *)
Definition input_overruns (ch : Z) m : Prop :=
  exists p, finished ch (m_app m) = Some p /\
    is_local (m_radio m) p = true /\ write_overruns p = true.

Lemma safe_enqueue i m (Q : Prop) :
  0 <= i < 6 -> fw_ok m ->
  (is_local (m_radio m) (c_packet (chan_of i (m_app m))) = true ->
   write_overruns (c_packet (chan_of i (m_app m))) = true -> Q) ->
  safe (enqueue i) (fun _ => fw_ok) m \/ Q.
Proof.
  intros Hi Hm HQ. set (p := c_packet (chan_of i (m_app m))) in *.
  destruct (is_local (m_radio m) p && write_overruns p) eqn:E.
  - right. apply andb_prop in E as [? ?]. auto.
  - left. apply preserves_enqueue; [done..|]. cbv zeta. fold p. intros El. by rewrite El in E.
Qed.

(** Safety up to a condition, followed by the rest. *)
Lemma safe_then {A B} (c : fw D control A) (k : A -> fw D control B) (Q : Prop) m :
  safe c (fun _ => fw_ok) m \/ Q -> (forall a, preserves fw_ok (k a)) ->
  safe (c ≫= k) (fun _ => fw_ok) m \/ Q.
Proof.
  intros [Hc|HQ] Hk; [left|by right]. rewrite safe_bind.
  eapply safe_mono; [exact Hc|]. intros a m' Hm'. by apply Hk.
Qed.

Lemma preserves_kstate s :
  0 <= s < IO_STATE_WAITNODE -> preserves fw_ok (kput k_state s : fw D control unit).
Proof. intros Hs. apply preserves_app. intros k Hk. by apply control_ok_state. Qed.

Lemma preserves_kvalue v : is_u8 v -> preserves fw_ok (kput k_value v : fw D control unit).
Proof. intros Hv. apply preserves_app. intros k []. by split. Qed.

Lemma wp_curr_chp i Q m : k_curr (m_app m) = Some i -> wp curr_chp Q m = Q i m.
Proof. intros E. unfold curr_chp. by rewrite wp_bind, wp_kget, E. Qed.

Lemma safe_input_newline m :
  fw_ok m -> forall ch, is_newline ch = true ->
  safe (input_newline (k_state (m_app m))) (fun _ => fw_ok) m \/ input_overruns ch m.
Proof.
  intros Hm ch Hch. unfold input_newline. apply safe_then; [|intros _; by apply preserves_kstate].
  destruct (Z.leb_spec IO_STATE_WAITCMD (k_state (m_app m))) as [Hs|Hs]; cbn [when]; [|by left].
  destruct Hm as [? ? ? ? ? ? ? ? Hk] eqn:E. clear E.
  destruct (k_curr (m_app m)) as [i|] eqn:Ei.
  2: { exfalso. apply (ctl_named _ Hk); [|done]. unfold IO_STATE_WAITNODE, IO_STATE_WAITCMD in *. lia. }
  pose proof (ctl_curr _ Hk) as Hi. rewrite Ei in Hi. cbn in Hi.
  rewrite safe_bind. unfold safe at 1, curr_chp, mbind, cmd_bind, kget, gets. rewrite Ei.
  apply safe_enqueue; [done..|]. intros Hl Ho. eexists. split; [|done].
  unfold finished. rewrite Ei, Hch. rewrite (proj2 (Z.leb_le _ _)) by done. done.
Qed.

(** A channel has been named: what the steps of a packet keep. *)
Definition named (i : Z) m : Prop := fw_ok m /\ k_curr (m_app m) = Some i.

Lemma named_intro m :
  fw_ok m -> IO_STATE_WAITNODE <= k_state (m_app m) -> exists i, 0 <= i < 6 /\ named i m.
Proof.
  intros Hm Hs. pose proof (fw_app m Hm) as Hk.
  destruct (k_curr (m_app m)) as [i|] eqn:E; [|by destruct (ctl_named _ Hk)].
  exists i. pose proof (ctl_curr _ Hk) as Hi. rewrite E in Hi. done.
Qed.

Lemma named_app i g m :
  (forall k, control_ok k -> k_curr k = Some i -> control_ok (g k) /\ k_curr (g k) = Some i) ->
  named i m -> named i (m <| m_app ::= g |>).
Proof.
  intros Hg [Hm Hc]. destruct (Hg (m_app m)) as [Hk Hc']; [apply Hm|done|].
  split; [by apply fw_ok_app|done].
Qed.

Lemma named_state i s :
  0 <= s <= 5 -> preserves (named i) (kput k_state s : fw D control unit).
Proof.
  intros Hs m. apply named_app. intros k [] Hc. split; [|done].
  split; upd_simpl; try done. intros _. by rewrite Hc.
Qed.

Lemma named_value i v : is_u8 v -> preserves (named i) (kput k_value v : fw D control unit).
Proof. intros Hv m. apply named_app. intros k [] Hc. split; [by split|done]. Qed.

Lemma curr_with_chan i c k : k_curr (with_chan i c k) = k_curr k.
Proof. unfold with_chan. by destruct (chan_index i). Qed.

Lemma named_chan_set i j g :
  0 <= j < 6 -> (forall c, channel_ok c -> channel_ok (g c)) ->
  preserves (named i) (chan_set j g : fw D control unit).
Proof.
  intros Hj Hg m Hm. apply safe_wp. rewrite wp_chan_set by done.
  apply named_app; [|done]. intros k Hk Hc. split; [|by rewrite curr_with_chan].
  apply with_chan_ok; [|done]. apply Hg, chan_of_ok, Hm.
Qed.

Lemma named_cpacket_put {T} (f : packet -> T) `{!Setter f} i j v :
  0 <= j < 6 -> (forall p, packet_ok p -> packet_ok (p <| f := v |>)) ->
  preserves (named i) (cpacket_put f j v : fw D control unit).
Proof.
  intros Hj Hp. apply named_chan_set; [done|]. intros c []. split; upd_simpl; auto.
Qed.

Lemma named_reply i code : preserves (named i) (reply code : fw D control unit).
Proof.
  intros m [Hm Hc]. apply safe_wp. rewrite wp_reply. split; [|done].
  apply (fw_ok_app (m <| m_out ::= _ |>)); [by apply (preserves_print _ m)|].
  apply control_ok_state; [apply Hm|done].
Qed.

Lemma named_safe {A} i (c : fw D control A) m :
  preserves (named i) c -> named i m -> safe c (fun _ => fw_ok) m.
Proof. intros Hc Hm. eapply safe_mono; [by apply Hc|]. by intros a m' [? _]. Qed.

(** Reading the value and the pointer. *)
Lemma named_kvalue_bind {B} i (k : Z -> fw D control B) :
  (forall v, is_u8 v -> preserves (named i) (k v)) ->
  preserves (named i) (v ← kget k_value; k v).
Proof.
  intros Hk. apply (preserves_bind_val _ is_u8); [|done]. intros m Hm.
  split; [apply ctl_value, (proj1 Hm)|done].
Qed.

Lemma named_curr_bind {B} i (k : Z -> fw D control B) :
  preserves (named i) (k i) -> preserves (named i) (j ← curr_chp; k j).
Proof.
  intros Hk m Hm. rewrite safe_bind. apply safe_wp.
  rewrite (wp_curr_chp i) by apply Hm. by apply Hk.
Qed.

Lemma named_chan_get {B} i j (k : channel -> fw D control B) :
  0 <= j < 6 -> (forall c, channel_ok c -> preserves (named i) (k c)) ->
  preserves (named i) (c ← chan_get j; k c).
Proof.
  intros Hj Hk m Hm. rewrite safe_bind. apply safe_wp. rewrite wp_chan_get by done.
  apply Hk; [|done]. apply chan_of_ok, Hm.
Qed.

Lemma preserves_input_channel ch : preserves fw_ok (input_channel ch : fw D control unit).
Proof.
  unfold input_channel.
  apply preserves_bind; [apply preserves_kvalue, u8_range|intros _].
  apply preserves_bind; [apply preserves_kget|intros v].
  destruct ((v <? 0) || (MAX_RADIO_CHANNELS <=? v)) eqn:E; [apply preserves_reply|].
  apply orb_false_elim in E as [E1 E2]. unfold MAX_RADIO_CHANNELS in E2.
  assert (0 <= v < 6) as Hv by lia. clear E1 E2.
  intros m Hm. rewrite safe_bind.
  change (safe (c ← chan_get v;
    (if LIBRADIO_CHSTATE_EMPTY <? c_state c then reply RADIO_CTLERR_BUSY
     else chan_put c_state v LIBRADIO_CHSTATE_ADDING;; kput k_state IO_STATE_WAITNODE;;
          kput k_value 0)) (fun _ => fw_ok) (m <| m_app ::= fun k => k <| k_curr := Some v |> |>)).
  apply (named_safe v).
  - apply named_chan_get; [done|]. intros c Hc. apply preserves_if; [apply named_reply|].
    apply preserves_bind; [apply named_chan_set; [done|by intros ? []; split]|intros _].
    apply preserves_bind; [by apply named_state|intros _]. by apply named_value.
  - split; [|done]. apply fw_ok_app; [done|]. destruct (fw_app m Hm). by split.
Qed.

Lemma preserves_input_digit ch : preserves fw_ok (input_digit ch : fw D control unit).
Proof.
  unfold input_digit. apply preserves_bind; [apply preserves_kget|intros v].
  apply preserves_kvalue, u8_range.
Qed.

Lemma named_input_node i : 0 <= i < 6 -> preserves (named i) (input_node : fw D control unit).
Proof.
  intros Hi. unfold input_node. apply preserves_bind; [by apply named_state|intros _].
  apply named_curr_bind, named_kvalue_bind. intros v Hv.
  apply preserves_bind; [|intros _; by apply named_value].
  apply named_cpacket_put; [done|]. intros p []. by split.
Qed.

(** The controller's objects when the command, or a byte of data, is stored. *)
Definition stored (i : Z) (g : packet -> packet) (k : control) : control :=
  (with_chan i ((chan_of i k) <| c_packet ::= g |>) k) <| k_value := 0 |>.

Lemma channel_twice (g h : packet -> packet) (c : channel) :
  c <| c_packet ::= g |> <| c_packet ::= h |> = c <| c_packet ::= fun p => h (g p) |>.
Proof. by destruct c. Qed.

Lemma run_curr_chp {B} i (k : Z -> fw D control B) m :
  k_curr (m_app m) = Some i -> (curr_chp ≫= k) m = k i m.
Proof. intros E. apply bind_done. unfold curr_chp. by rewrite run_kget, E. Qed.

Lemma run_cpacket_put {T B} (f : packet -> T) `{!Setter f} i v (k : unit -> fw D control B) m :
  0 <= i < 6 -> (cpacket_put f i v ≫= k) m =
    k tt (m <| m_app := with_chan i
           ((chan_of i (m_app m)) <| c_packet ::= fun p => p <| f := v |> |>) (m_app m) |>).
Proof. intros Hi. unfold cpacket_put. by rewrite run_chan_set. Qed.

Lemma input_cmd_run i ch m :
  0 <= i < 6 -> k_curr (m_app m) = Some i ->
  input_cmd ch m =
    (if ch_is ch "." then enqueue i;; kput k_state IO_STATE_WAITNL
     else kput k_state IO_STATE_WAITDATA)
    (m <| m_app ::= stored i (fun p => p <| p_cmd := k_value (m_app m) |> <| p_len := 0 |>) |>).
Proof.
  intros Hi Hc. unfold input_cmd. rewrite (run_curr_chp i) by done. rewrite run_kget.
  rewrite !run_cpacket_put by done. rewrite run_kput. upd_simpl. rewrite ?app_twice.
  rewrite chan_of_with by done. rewrite with_chan_twice, channel_twice. done.
Qed.

Definition add_byte (v : Z) (p : packet) : packet :=
  p <| p_len := p_len p + 1 |> <| p_data ::= <[Z.to_nat (p_len p) := v]> |>.

Lemma input_data_run i ch m :
  0 <= i < 6 -> k_curr (m_app m) = Some i -> packet_ok (c_packet (chan_of i (m_app m))) ->
  p_len (c_packet (chan_of i (m_app m))) < 10 ->
  input_data ch m =
    (when (ch_is ch ".") (enqueue i;; kput k_state IO_STATE_WAITNL))
    (m <| m_app ::= stored i (add_byte (k_value (m_app m))) |>).
Proof.
  intros Hi Hc Hp Hl. unfold input_data. rewrite (run_curr_chp i) by done.
  rewrite run_chan_get by done. cbv zeta.
  set (c := chan_of i (m_app m)) in *. pose proof (ok_len _ Hp) as Hlen.
  rewrite (proj2 (Z.leb_gt _ _)) by (rewrite max_payload; lia).
  rewrite run_cpacket_put by done. fold c. rewrite run_kget. upd_simpl.
  replace (k_value (with_chan i _ (m_app m))) with (k_value (m_app m))
    by (unfold with_chan; by case_match).
  rewrite (bind_done _ _ _ (<[Z.to_nat (p_len (c_packet c)) := k_value (m_app m)]>
             (p_data (c_packet c))) (m <| m_app := with_chan i
               (c <| c_packet ::= fun p => p <| p_len := u8 (p_len (c_packet c) + 1) |> |>)
               (m_app m) |>)).
  2: { apply wp_run. intros Q. rewrite wp_array_put; [done|]. rewrite (ok_size _ Hp).
       unfold is_u8 in Hlen. lia. }
  rewrite run_cpacket_put, run_kput by done. upd_simpl. rewrite ?app_twice.
  rewrite chan_of_with by done. rewrite with_chan_twice, channel_twice.
  rewrite u8_small by warith.
  unfold stored, add_byte. fold c. 
  replace (c <| c_packet ::= fun p => p <| p_len := p_len (c_packet c) + 1 |>
      <| p_data := <[Z.to_nat (p_len (c_packet c)):=k_value (m_app m)]> (p_data (c_packet c)) |> |>)
    with (c <| c_packet ::= fun p => p <| p_len := p_len p + 1 |>
      <| p_data ::= <[Z.to_nat (p_len p):=k_value (m_app m)]> |> |>) by by destruct c as [? ? []].
  apply (f_equal (when (ch_is ch ".") (enqueue i;; kput k_state IO_STATE_WAITNL))).
  by destruct m.
Qed.

Lemma chan_of_stored i g k :
  0 <= i < 6 -> chan_of i (stored i g k) = (chan_of i k) <| c_packet ::= g |>.
Proof. intros Hi. unfold stored. by apply (chan_of_with i _ k). Qed.

Lemma named_stored i g m :
  0 <= i < 6 -> packet_ok (g (c_packet (chan_of i (m_app m)))) ->
  named i m -> named i (m <| m_app ::= stored i g |>).
Proof.
  intros Hi Hp [Hm Hc]. pose proof (chan_of_ok i _ (fw_app m Hm)) as [].
  split; [|unfold stored; upd_simpl; by rewrite curr_with_chan].
  apply fw_ok_app; [done|]. unfold stored.
  destruct (with_chan_ok i ((chan_of i (m_app m)) <| c_packet ::= g |>) (m_app m)); [by split|apply Hm|].
  by split.
Qed.

Lemma add_byte_ok v p : packet_ok p -> is_u8 v -> p_len p < 10 -> packet_ok (add_byte v p).
Proof.
  intros [] Hv Hl. split; unfold add_byte; upd_simpl; try done.
  - warith.
  - by apply Forall_insert.
  - by rewrite length_insert.
Qed.

Lemma safe_input_cmd i ch m :
  0 <= i < 6 -> named i m -> safe (input_cmd ch) (fun _ => fw_ok) m.
Proof.
  intros Hi [Hm Hc]. unfold safe. rewrite (input_cmd_run i) by done.
  set (m1 := m <| m_app ::= _ |>).
  pose proof (ok_packet _ (chan_of_ok i _ (fw_app m Hm))) as Hp.
  assert (named i m1) as Hm1.
  { apply named_stored; [done| |done]. pose proof (ctl_value _ (fw_app m Hm)). destruct Hp. by split. }
  destruct (ch_is ch ".").
  - change (safe (enqueue i;; kput k_state IO_STATE_WAITNL) (fun _ => fw_ok) m1).
    destruct (safe_then (enqueue i) (fun _ => kput k_state IO_STATE_WAITNL) False m1) as [Hs|[] ];
      [|intros _; by apply preserves_kstate|exact Hs].
    apply safe_enqueue; [done|apply Hm1|]. unfold m1. upd_simpl.
    rewrite chan_of_stored by done. intros _. unfold write_overruns. upd_simpl.
    by rewrite andb_false_r.
  - eapply named_safe; [by apply named_state|done].
Qed.

Lemma ch_is_dot ch : ch_is ch "." = (ch =? 46).
Proof.
  unfold ch_is. destruct (Z.eqb_spec ch 46) as [->|Hne]; [done|].
  apply bool_decide_eq_false. intros E. apply Hne. by injection E.
Qed.

Lemma safe_input_data i ch m :
  0 <= i < 6 -> named i m -> k_state (m_app m) = IO_STATE_WAITDATA -> is_newline ch = false ->
  safe (input_data ch) (fun _ => fw_ok) m \/ input_overruns ch m.
Proof.
  intros Hi Hnm Hs Hnl. pose proof Hnm as [Hm Hc].
  pose proof (ok_packet _ (chan_of_ok i _ (fw_app m Hm))) as Hp.
  destruct (Z.leb_spec 10 (p_len (c_packet (chan_of i (m_app m))))) as [Hl|Hl].
  { left. unfold safe, input_data. rewrite (run_curr_chp i), run_chan_get by done. cbv zeta.
    rewrite (proj2 (Z.leb_le _ _)) by (rewrite max_payload; lia).
    apply (named_safe i _ m); [apply named_reply|done]. }
  unfold safe. rewrite (input_data_run i) by done. rewrite ch_is_dot.
  set (m1 := m <| m_app ::= _ |>).
  assert (named i m1) as Hm1.
  { apply named_stored; [done| |done]. apply add_byte_ok; [done|apply ctl_value, Hm|done]. }
  destruct (Z.eqb_spec ch 46) as [->|]; cbn [when]; [|left; apply Hm1].
  change (safe (enqueue i;; kput k_state IO_STATE_WAITNL) (fun _ => fw_ok) m1 \/
          input_overruns 46 m).
  apply safe_then; [|intros _; by apply preserves_kstate].
  apply safe_enqueue; [done|apply Hm1|]. unfold m1. upd_simpl.
  rewrite chan_of_stored by done. intros Hloc Ho. eexists. split; [|done].
  unfold finished. rewrite Hc, Hnl, Hs. rewrite (proj2 (Z.ltb_lt _ _)) by done. done.
Qed.

Lemma input_char_cases ch m :
  fw_ok m -> safe (input_char ch) (fun _ => fw_ok) m \/ input_overruns ch m.
Proof.
  intros Hm. pose proof (fw_app m Hm) as Hk. pose proof (ctl_state _ Hk) as Hst.
  unfold input_char, safe. rewrite run_kget. fold (is_newline ch).
  destruct (is_newline ch) eqn:Hnl; [by apply safe_input_newline|].
  destruct (is_case _ _ _ ">"); [left; by apply preserves_kstate|].
  destruct (is_case _ _ _ "ABCDEFGH"); [left; by apply preserves_input_channel|].
  destruct (is_case _ _ _ "R"); [by left|].
  destruct (is_case _ _ _ "ST").
  { left. apply (preserves_bind fw_ok); [apply preserves_local_status| |done].
    intros _. by apply preserves_kstate. }
  destruct (_ || _ || _); [left; by apply preserves_input_digit|].
  destruct (is_case _ _ IO_STATE_WAITNODE ":") eqn:E1.
  { apply is_case_true in E1 as [E1 _]; [|unfold IO_STATE_WAITNODE; lia..].
    destruct (named_intro m) as (i&Hi&Hn); [done|lia|].
    left. apply (named_safe i _ m); [by apply named_input_node|done]. }
  destruct (is_case _ _ IO_STATE_WAITCMD ":.") eqn:E2.
  { apply is_case_true in E2 as [E2 _]; [|unfold IO_STATE_WAITCMD; lia..].
    destruct (named_intro m) as (i&Hi&Hn); [done|rewrite E2; unfold IO_STATE_WAITCMD, IO_STATE_WAITNODE; lia|].
    left. by apply (safe_input_cmd i). }
  destruct (is_case _ _ IO_STATE_WAITDATA ",.") eqn:E3.
  { apply is_case_true in E3 as [E3 _]; [|unfold IO_STATE_WAITDATA; lia..].
    destruct (named_intro m) as (i&Hi&Hn); [done|rewrite E3; unfold IO_STATE_WAITDATA, IO_STATE_WAITNODE; lia|].
    by apply (safe_input_data i). }
  left. by apply (preserves_when _ _ _ (preserves_reply _)).
Qed.

Lemma process_input_cases ch q m :
  fw_ok m -> m_iqueue m = ch :: q ->
  safe process_input (fun _ => fw_ok) m \/ input_overruns ch m.
Proof.
  intros Hm Hq. unfold process_input, getchar. rewrite safe_bind, safe_bind.
  unfold safe at 1, gets. rewrite Hq.
  pose proof (fw_queue m Hm) as Hb. rewrite Hq in Hb. apply Forall_cons in Hb as [Hch Hb].
  assert (fw_ok (m <| m_iqueue := q |>)) as Hm1 by (destruct Hm; by split).
  destruct (input_char_cases (u8 ch) _ Hm1) as [Hs|Ho]; [left; exact Hs|right].
  rewrite u8_small in Ho by done. exact Ho.
Qed.
End safety.

(** ** Reading a packet *)

(** The packet in the notation of the serial line: [>A5:7:1,2,3.] is a packet on
    channel 0 for node 5 with command 7 and three bytes of data. *)
Definition packet_text (i node cmd : Z) (data : list Z) : list Z :=
  str ">" ++ [65 + i] ++ fmt_u node ++ str ":" ++ fmt_u cmd
    ++ (if decide (data = []) then [] else str ":" ++ commas data) ++ str ".".

(** The packet it stands for, in a buffer that held [p]. *)
Definition read_packet (node cmd : Z) (data : list Z) (p : packet) : packet :=
  p <| p_node := node |> <| p_cmd := cmd |> <| p_len := Z.of_nat (length data) |>
    <| p_data ::= overlay data |>.

(** The controller's objects in the middle of a packet for channel [i]: the state
    of the input, the value read so far and the packet so far. *)
Definition typed (i st v : Z) (p : packet) (k : control) : control :=
  (with_chan i ((chan_of i k) <| c_state := LIBRADIO_CHSTATE_ADDING |> <| c_packet := p |>) k)
    <| k_curr := Some i |> <| k_value := v |> <| k_state := st |>.

Section typed.
Implicit Types (k : control) (p : packet).

Lemma chan_of_typed i st v p k :
  0 <= i < 6 -> chan_of i (typed i st v p k) =
    (chan_of i k) <| c_state := LIBRADIO_CHSTATE_ADDING |> <| c_packet := p |>.
Proof. intros Hi. exact (chan_of_with i _ k Hi). Qed.

Lemma typed_value i st v v' p k : (typed i st v p k) <| k_value := v' |> = typed i st v' p k.
Proof. unfold typed, with_chan. case_match; by destruct k. Qed.

Lemma typed_state i st st' v p k : (typed i st v p k) <| k_state := st' |> = typed i st' v p k.
Proof. unfold typed, with_chan. case_match; by destruct k. Qed.

Lemma with_chan_curr i c o k : with_chan i c (k <| k_curr := o |>) = (with_chan i c k) <| k_curr := o |>.
Proof. unfold with_chan. case_match; by destruct k. Qed.
Lemma with_chan_value i c o k : with_chan i c (k <| k_value := o |>) = (with_chan i c k) <| k_value := o |>.
Proof. unfold with_chan. case_match; by destruct k. Qed.
Lemma with_chan_state i c o k : with_chan i c (k <| k_state := o |>) = (with_chan i c k) <| k_state := o |>.
Proof. unfold with_chan. case_match; by destruct k. Qed.

Lemma typed_packet i st v p (g : packet -> packet) k :
  0 <= i < 6 ->
  with_chan i ((chan_of i (typed i st v p k)) <| c_packet ::= g |>) (typed i st v p k) =
    typed i st v (g p) k.
Proof.
  intros Hi. rewrite chan_of_typed by done. unfold typed.
  rewrite with_chan_state, with_chan_value, with_chan_curr, with_chan_twice. done.
Qed.

Lemma typed_stored i st v p g k :
  0 <= i < 6 -> stored i g (typed i st v p k) = typed i st 0 (g p) k.
Proof.
  intros Hi. unfold stored. by rewrite typed_packet, typed_value.
Qed.
End typed.

Section reading.
Context {D : Type} `{Platform D} `{Patience}.
Implicit Types (m : machine D control) (k : control) (p : packet).

Fixpoint process_inputs (n : nat) : fw D control unit :=
  match n with
  | O => mret tt
  | S n' => process_input;; process_inputs n'
  end.

(** Reading [s] does nothing but take the objects from [k] to [k']. *)
Definition reads (s : list Z) k k' : Prop :=
  forall m q n, m_app m = k -> m_iqueue m = s ++ q ->
    process_inputs (length s + n) m =
      process_inputs n (m <| m_iqueue := q |> <| m_app := k' |>).

Lemma reads_app s t k1 k2 k3 : reads s k1 k2 -> reads t k2 k3 -> reads (s ++ t) k1 k3.
Proof.
  intros Hs Ht m q n Hm Hq. rewrite length_app, <- Nat.add_assoc.
  rewrite (Hs m (t ++ q)) by (done || by rewrite app_assoc).
  by rewrite (Ht _ q).
Qed.

Lemma process_input_run ch q m :
  is_u8 ch -> m_iqueue m = ch :: q ->
  process_input m = input_char ch (m <| m_iqueue := q |>).
Proof.
  intros Hch Hq. unfold process_input.
  rewrite (bind_done _ _ _ ch (m <| m_iqueue := q |>)); [by rewrite u8_small|].
  unfold getchar. rewrite run_gets, Hq. done.
Qed.

Lemma reads_char ch k k' :
  is_u8 ch -> (forall m, m_app m = k -> input_char ch m = Done tt (m <| m_app := k' |>)) ->
  reads [ch] k k'.
Proof.
  intros Hch Hrun m q n Hm Hq. cbn [length Nat.add process_inputs].
  rewrite (bind_done _ _ m tt (m <| m_iqueue := q |> <| m_app := k' |>)); [done|].
  rewrite (process_input_run ch q) by done. by apply Hrun.
Qed.

Lemma read_start k :
  k_state k = IO_STATE_NEWLINE -> reads (str ">") k (k <| k_state := IO_STATE_WAITCHAN |>).
Proof.
  intros Hs. apply reads_char; [done|]. intros m Hm. unfold input_char.
  rewrite run_kget, Hm, Hs. cbn. unfold kput, modify. rewrite <- Hm. by destruct m.
Qed.

(** A letter after the prompt names a channel. *)
Lemma input_letter i m :
  0 <= i < 6 -> k_state (m_app m) = IO_STATE_WAITCHAN ->
  input_char (65 + i) m = input_channel (65 + i) m.
Proof.
  intros Hi Hs. unfold input_char. rewrite run_kget, Hs.
  assert (i = 0 \/ i = 1 \/ i = 2 \/ i = 3 \/ i = 4 \/ i = 5) as Hcases by lia.
  by destruct Hcases as [->|[->|[->|[->|[->| ->] ] ] ] ].
Qed.

Lemma read_channel i k :
  0 <= i < 6 -> k_state k = IO_STATE_WAITCHAN ->
  c_state (chan_of i k) <= LIBRADIO_CHSTATE_EMPTY ->
  reads [65 + i] k (typed i IO_STATE_WAITNODE 0 (c_packet (chan_of i k)) k).
Proof.
  intros Hi Hs He. apply reads_char; [warith|]. intros m Hm.
  rewrite input_letter by (done || by rewrite Hm).
  unfold input_channel. rewrite run_kput, run_kget. upd_simpl.
  replace (u8 (65 + i - 65)) with i by warith.
  rewrite (proj2 (Z.ltb_ge i 0)), (proj2 (Z.leb_gt MAX_RADIO_CHANNELS i))
    by (unfold MAX_RADIO_CHANNELS; lia). cbn [orb].
  rewrite run_kput, run_chan_get by done. upd_simpl. rewrite Hm.
  rewrite (proj2 (Z.ltb_ge _ _)) by done.
  unfold chan_put. rewrite run_chan_set by done. upd_simpl.
  rewrite run_kput. unfold kput, modify. f_equal. upd_simpl.
  rewrite with_chan_curr, with_chan_value. unfold typed.
  replace ((chan_of i k) <| c_state := LIBRADIO_CHSTATE_ADDING |>
             <| c_packet := c_packet (chan_of i k) |>)
    with ((chan_of i k) <| c_state := LIBRADIO_CHSTATE_ADDING |>) by by destruct (chan_of i k).
  generalize (with_chan i ((chan_of i k) <| c_state := LIBRADIO_CHSTATE_ADDING |>) k).
  intros k1. destruct k1. by destruct m.
Qed.

(** A character of a packet for channel [i], in one of the later states. *)
Lemma read_digit i st v p k ch :
  0 <= i < 6 -> st = IO_STATE_WAITNODE \/ st = IO_STATE_WAITCMD \/ st = IO_STATE_WAITDATA ->
  is_digit ch = true ->
  reads [ch] (typed i st v p k) (typed i st (u8 (v * 10 + ch - 48)) p k).
Proof.
  intros Hi Hst Hch. unfold is_digit in Hch. apply reads_char; [warith|]. intros m Hm.
  assert (input_char ch m = input_digit ch m) as ->.
  { unfold input_char. rewrite run_kget, Hm. change (k_state (typed i st v p k)) with st.
    assert (ch = 48 \/ ch = 49 \/ ch = 50 \/ ch = 51 \/ ch = 52 \/ ch = 53 \/ ch = 54 \/
            ch = 55 \/ ch = 56 \/ ch = 57) as Hd by lia.
    destruct Hst as [->|[->| ->] ]; repeat (destruct Hd as [->|Hd]; [done|]); by subst. }
  unfold input_digit. rewrite run_kget, Hm. change (k_value (typed i st v p k)) with v.
  unfold kput, modify. f_equal. rewrite <- (typed_value i st v), <- Hm. by destruct m.
Qed.

Lemma read_digits i st p k l v :
  0 <= i < 6 -> st = IO_STATE_WAITNODE \/ st = IO_STATE_WAITCMD \/ st = IO_STATE_WAITDATA ->
  Forall (fun c => is_digit c = true) l ->
  reads l (typed i st (u8 v) p k)
    (typed i st (u8 (foldl (fun v c => v * 10 + (c - 48)) v l)) p k).
Proof.
  intros Hi Hst Hl. revert v. induction Hl as [|c l Hc Hl IH]; intros v.
  { intros m q n Hm Hq. cbn [app] in Hq. cbn [length Nat.add foldl]. f_equal.
    rewrite <- Hm, <- Hq. by destruct m. }
  change (c :: l) with ([c] ++ l). eapply reads_app; [by apply read_digit|].
  cbn [foldl]. replace (u8 (u8 v * 10 + c - 48)) with (u8 (v * 10 + (c - 48))) by warith.
  apply IH.
Qed.

(** A number below 256. *)
Lemma read_number i st p k n :
  0 <= i < 6 -> st = IO_STATE_WAITNODE \/ st = IO_STATE_WAITCMD \/ st = IO_STATE_WAITDATA ->
  is_u8 n -> reads (fmt_u n) (typed i st 0 p k) (typed i st n p k).
Proof.
  intros Hi Hst Hn. pose proof (read_digits i st p k (fmt_u n) 0 Hi Hst) as Hr.
  fold (undec (fmt_u n)) in Hr. rewrite undec_fmt_u, (u8_small n) in Hr by warith.
  apply Hr, fmt_u_digits. apply Hn.
Qed.

Lemma read_node i v p k :
  0 <= i < 6 ->
  reads (str ":") (typed i IO_STATE_WAITNODE v p k)
    (typed i IO_STATE_WAITCMD 0 (p <| p_node := v |>) k).
Proof.
  intros Hi. change (str ":") with [58]. apply reads_char; [done|]. intros m Hm.
  assert (input_char 58 m = input_node m) as ->.
  { unfold input_char. rewrite run_kget, Hm. done. }
  unfold input_node. rewrite run_kput, Hm, typed_state.
  rewrite (run_curr_chp i), run_kget by done. rewrite run_cpacket_put by done. upd_simpl.
  change (k_value (typed i IO_STATE_WAITCMD v p k)) with v.
  rewrite typed_packet by done. unfold kput, modify. f_equal.
Qed.

Lemma read_cmd i v p k :
  0 <= i < 6 ->
  reads (str ":") (typed i IO_STATE_WAITCMD v p k)
    (typed i IO_STATE_WAITDATA 0 (p <| p_cmd := v |> <| p_len := 0 |>) k).
Proof.
  intros Hi. change (str ":") with [58]. apply reads_char; [done|]. intros m Hm.
  assert (input_char 58 m = input_cmd 58 m) as ->.
  { unfold input_char. rewrite run_kget, Hm. done. }
  rewrite (input_cmd_run i) by (done || by rewrite Hm).
  change (ch_is 58 ".") with false. unfold kput, modify. f_equal. upd_simpl. rewrite Hm.
  change (k_value (typed i IO_STATE_WAITCMD v p k)) with v.
  rewrite (app_upd _ m _ Hm), typed_stored by done. by rewrite <- (typed_state i IO_STATE_WAITCMD).
Qed.

(** A byte of data and the comma behind it. *)
Lemma read_byte i v p k :
  0 <= i < 6 -> packet_ok p -> p_len p < 10 ->
  reads (str ",") (typed i IO_STATE_WAITDATA v p k)
    (typed i IO_STATE_WAITDATA 0 (add_byte v p) k).
Proof.
  intros Hi Hp Hl. change (str ",") with [44]. apply reads_char; [done|]. intros m Hm.
  assert (input_char 44 m = input_data 44 m) as ->.
  { unfold input_char. rewrite run_kget, Hm. done. }
  rewrite (input_data_run i) by (done || by rewrite Hm, ?chan_of_typed).
  change (ch_is 44 ".") with false. unfold when, mret, cmd_ret. f_equal. rewrite Hm.
  change (k_value (typed i IO_STATE_WAITDATA v p k)) with v.
  by rewrite (app_upd _ m _ Hm), typed_stored.
Qed.

Definition add_bytes (p : packet) (l : list Z) : packet := foldl (fun p v => add_byte v p) p l.

Lemma add_bytes_eq p l :
  0 <= p_len p -> p_len p + Z.of_nat (length l) <= 10 -> length (p_data p) = 10%nat ->
  add_bytes p l = p <| p_len := p_len p + Z.of_nat (length l) |>
    <| p_data := take (Z.to_nat (p_len p)) (p_data p) ++ l
                   ++ drop (Z.to_nat (p_len p) + length l) (p_data p) |>.
Proof.
  revert p. induction l as [|v l IH]; intros p H0' Hl Hd.
  - cbn. rewrite Z.add_0_r, Nat.add_0_r, take_drop. by destruct p.
  - cbn [length] in Hl. cbn [add_bytes foldl]. fold (add_bytes (add_byte v p) l).
    rewrite IH; unfold add_byte; upd_simpl; rewrite ?length_insert; [|lia..|done].
    set (n := Z.to_nat (p_len p)). replace (Z.to_nat (p_len p + 1)) with (S n) by lia.
    assert (n < length (p_data p))%nat as Hn by lia.
    rewrite (take_S_r _ _ v) by (apply list_lookup_insert_eq; lia).
    rewrite take_insert_ge, drop_insert_lt by lia. cbn [length].
    replace (S n + length l)%nat with (n + S (length l))%nat by lia.
    replace (p_len p + 1 + Z.of_nat (length l)) with (p_len p + Z.of_nat (S (length l))) by lia.
    rewrite <- app_assoc. by destruct p.
Qed.

Lemma add_bytes_ok p l :
  packet_ok p -> bytes l -> p_len p + Z.of_nat (length l) <= 10 ->
  packet_ok (add_bytes p l) /\ p_len (add_bytes p l) = p_len p + Z.of_nat (length l).
Proof.
  intros [] Hb Hl. unfold is_u8 in *. rewrite add_bytes_eq by (done || lia). split; [|done].
  split; upd_simpl; try done; [unfold is_u8; lia| |].
  - repeat (apply bytes_app; split); [by apply Forall_take|done|by apply Forall_drop].
  - rewrite !length_app, length_take, length_drop. lia.
Qed.

Lemma read_data i p k l x :
  0 <= i < 6 -> packet_ok p -> p_len p + Z.of_nat (length l) < 10 -> bytes (l ++ [x]) ->
  reads (commas (l ++ [x])) (typed i IO_STATE_WAITDATA 0 p k)
    (typed i IO_STATE_WAITDATA x (add_bytes p l) k).
Proof.
  intros Hi Hp. revert x. induction l as [|y l IH] using rev_ind; intros x Hl Hb.
  - cbn [app commas]. apply read_number; [done|by auto|]. by apply Forall_cons in Hb as [? _].
  - apply bytes_app in Hb as [Hb [Hx _]%Forall_cons].
    rewrite commas_snoc, decide_False by (by destruct l).
    rewrite length_app in Hl. cbn [length] in Hl.
    eapply reads_app; [apply IH; [lia|done]|].
    destruct (add_bytes_ok p l Hp) as [Hp' Hl']; [by apply bytes_app in Hb as [? _]|lia|].
    eapply reads_app; [apply read_byte; [done|done|lia]|].
    unfold add_bytes. rewrite foldl_app. cbn [foldl].
    apply read_number; [done|by auto|done].
Qed.

(** The full stop hands the packet over. *)
Lemma read_end i st v p k m q :
  0 <= i < 6 -> packet_ok p ->
  (st = IO_STATE_WAITCMD \/ st = IO_STATE_WAITDATA /\ p_len p < 10) ->
  m_app m = typed i st v p k -> m_iqueue m = str "." ++ q ->
  process_input m = (enqueue i;; kput k_state IO_STATE_WAITNL)
    (m <| m_iqueue := q |> <| m_app := typed i st 0
       (if st =? IO_STATE_WAITCMD then p <| p_cmd := v |> <| p_len := 0 |> else add_byte v p) k |>).
Proof.
  intros Hi Hp Hst Hm Hq. rewrite (process_input_run 46 q) by done.
  set (m1 := m <| m_iqueue := q |>). assert (m_app m1 = typed i st v p k) as Hm1 by done.
  destruct Hst as [->|[-> Hl] ].
  - assert (input_char 46 m1 = input_cmd 46 m1) as ->.
    { unfold input_char. rewrite run_kget, Hm1. done. }
    rewrite (input_cmd_run i) by (done || by rewrite Hm1).
    change (ch_is 46 ".") with true. rewrite (app_upd _ m1 _ Hm1), typed_stored, Hm1 by done. done.
  - assert (input_char 46 m1 = input_data 46 m1) as ->.
    { unfold input_char. rewrite run_kget, Hm1. done. }
    rewrite (input_data_run i) by (done || by rewrite Hm1, ?chan_of_typed).
    change (ch_is 46 ".") with true. rewrite (app_upd _ m1 _ Hm1), typed_stored, Hm1 by done. done.
Qed.

Lemma typed_again i st v p s k : typed i st v p (k <| k_state := s |>) = typed i st v p k.
Proof.
  unfold typed. rewrite with_chan_state. destruct k. by destruct (with_chan _ _ _).
Qed.

Lemma read_head i node k :
  0 <= i < 6 -> is_u8 node -> k_state k = IO_STATE_NEWLINE ->
  c_state (chan_of i k) <= LIBRADIO_CHSTATE_EMPTY ->
  reads (str ">" ++ [65 + i] ++ fmt_u node ++ str ":") k
    (typed i IO_STATE_WAITCMD 0 ((c_packet (chan_of i k)) <| p_node := node |>) k).
Proof.
  intros Hi Hn Hs He. eapply reads_app; [by apply read_start|].
  eapply reads_app; [apply (read_channel i); [done..|exact He]|]. rewrite typed_again.
  eapply reads_app; [apply read_number; [done|by auto|done]|]. by apply read_node.
Qed.
Lemma read_packet_eq node cmd l x p :
  Z.of_nat (length (l ++ [x])) <= 10 -> length (p_data p) = 10%nat ->
  add_byte x (add_bytes (p <| p_node := node |> <| p_cmd := cmd |> <| p_len := 0 |>) l) =
    read_packet node cmd (l ++ [x]) p.
Proof.
  intros Hl Hd.
  change (add_byte x (add_bytes ?q l)) with (foldl (fun p v => add_byte v p) (add_bytes q l) [x]).
  unfold add_bytes. rewrite <- foldl_app.
  match goal with |- foldl _ ?q ?d = _ => change (add_bytes q d = read_packet node cmd d p) end.
  rewrite add_bytes_eq by done. unfold read_packet, overlay. destruct p. upd_simpl. done.
Qed.

Lemma process_inputs_1 m : process_inputs 1 m = process_input m.
Proof. cbn. unfold mbind, cmd_bind. by destruct (process_input m) as [[]| | |]. Qed.

(** The last character of a text. *)
Lemma read_tail s k k' m q text (c : fw D control unit) :
  reads s k k' -> m_app m = k -> m_iqueue m = text ++ q -> text = s ++ str "." ->
  (forall m1, m_app m1 = k' -> m_iqueue m1 = str "." ++ q -> process_input m1 = c m1) ->
  process_inputs (length text) m = c (m <| m_iqueue := str "." ++ q |> <| m_app := k' |>).
Proof.
  intros Hs Hm Hq -> Hc. rewrite length_app.
  rewrite (Hs m (str "." ++ q)) by (done || by rewrite Hq, <- app_assoc).
  change (length (str ".")) with 1%nat. rewrite process_inputs_1. by apply Hc.
Qed.

Lemma read_text i node cmd data m q :
  0 <= i < 6 -> is_u8 node -> is_u8 cmd -> bytes data -> Z.of_nat (length data) <= 10 ->
  packet_ok (c_packet (chan_of i (m_app m))) ->
  k_state (m_app m) = IO_STATE_NEWLINE ->
  c_state (chan_of i (m_app m)) <= LIBRADIO_CHSTATE_EMPTY ->
  m_iqueue m = packet_text i node cmd data ++ q ->
  process_inputs (length (packet_text i node cmd data)) m =
    (enqueue i;; kput k_state IO_STATE_WAITNL)
      (m <| m_iqueue := q |>
         <| m_app := typed i (if decide (data = []) then IO_STATE_WAITCMD else IO_STATE_WAITDATA) 0
              (read_packet node cmd data (c_packet (chan_of i (m_app m)))) (m_app m) |>).
Proof.
  intros Hi Hn Hc Hb Hl Hp Hs He Hq. set (k := m_app m) in *.
  set (p := c_packet (chan_of i k)) in *. set (p1 := p <| p_node := node |>).
  assert (packet_ok p1) as Hp1 by (destruct Hp; by split).
  pose proof (read_head i node k Hi Hn Hs He) as Hhead. fold p p1 in Hhead.
  pose proof (read_number i IO_STATE_WAITCMD p1 k cmd Hi ltac:(auto) Hc) as Hcmd.
  pose proof (reads_app _ _ _ _ _ Hhead Hcmd) as Hpre.
  set (pre := (str ">" ++ [65 + i] ++ fmt_u node ++ str ":") ++ fmt_u cmd) in *.
  destruct data as [|x l _] using rev_ind.
  - rewrite (read_tail _ _ _ m q _ (fun m1 => (enqueue i;; kput k_state IO_STATE_WAITNL)
        (m1 <| m_iqueue := q |> <| m_app := typed i IO_STATE_WAITCMD 0
           (p1 <| p_cmd := cmd |> <| p_len := 0 |>) k |>)) Hpre eq_refl Hq); [done| |].
    { unfold packet_text, pre. rewrite decide_True by done. by rewrite <- !app_assoc. }
    intros m1 Hm1 Hq1. erewrite read_end; [|done|exact Hp1|by left|exact Hm1|exact Hq1]. done.
  - rewrite decide_False by (by destruct l). rewrite length_app in Hl. cbn [length] in Hl.
    set (p2 := p1 <| p_cmd := cmd |> <| p_len := 0 |>).
    assert (packet_ok p2) as Hp2 by (destruct Hp1; by split).
    pose proof (read_data i p2 k l x Hi Hp2 ltac:(change (p_len p2) with 0; lia) Hb) as Hdata.
    pose proof (reads_app _ _ _ _ _ Hpre (reads_app _ _ _ _ _ (read_cmd i cmd p1 k Hi) Hdata)) as Hall.
    apply bytes_app in Hb as [Hb _].
    destruct (add_bytes_ok p2 l Hp2 Hb ltac:(change (p_len p2) with 0; lia)) as [Hp3 Hl3].
    rewrite (read_tail _ _ _ m q _ (fun m1 => (enqueue i;; kput k_state IO_STATE_WAITNL)
        (m1 <| m_iqueue := q |> <| m_app := typed i IO_STATE_WAITDATA 0
           (read_packet node cmd (l ++ [x]) p) k |>)) Hall eq_refl Hq); [done| |].
    { unfold packet_text, pre. rewrite decide_False by (by destruct l). by rewrite <- !app_assoc. }
    intros m1 Hm1 Hq1. erewrite read_end; [|done|exact Hp3| |exact Hm1|exact Hq1].
    + change (IO_STATE_WAITDATA =? IO_STATE_WAITCMD) with false. cbv iota.
      unfold p2, p1. rewrite read_packet_eq; [done| |apply Hp].
      rewrite length_app. cbn [length]. lia.
    + right. split; [done|]. rewrite Hl3. change (p_len p2) with 0. lia.
Qed.
End reading.

(** ** Properties *)

Section properties.
Context {D : Type} `{Platform D} `{Patience}.
Implicit Types m : machine D control.

(** A character from the serial line, whatever it is and in whatever state of
    the input, is handled without leaving any array or following a pointer that
    was never set, and keeps the invariant of the controller, unless it
    completes a command that the controller executes itself and that reads
    behind its packet. *)
Theorem process_input_safe ch q m :
  fw_ok m -> m_iqueue m = ch :: q ->
  safe process_input (fun _ => fw_ok) m \/
  exists p, finished ch (m_app m) = Some p /\
    is_local (m_radio m) p = true /\ write_overruns p = true.
Proof. apply process_input_cases. Qed.

(** [C6] The serial notation is read back exactly: at the start of a line, the text
    of a packet with any node, command and up to ten bytes of data, for an empty
    channel, hands that very packet to [enqueue] on that channel and leaves the
    input waiting for the end of the line, having changed nothing else on the
    way. *)
Theorem text_is_packet i node cmd data m q :
  0 <= i < 6 -> is_u8 node -> is_u8 cmd -> bytes data -> Z.of_nat (length data) <= 10 ->
  packet_ok (c_packet (chan_of i (m_app m))) ->
  k_state (m_app m) = IO_STATE_NEWLINE ->
  c_state (chan_of i (m_app m)) <= LIBRADIO_CHSTATE_EMPTY ->
  m_iqueue m = packet_text i node cmd data ++ q ->
  process_inputs (length (packet_text i node cmd data)) m =
    (enqueue i;; kput k_state IO_STATE_WAITNL)
      (m <| m_iqueue := q |>
         <| m_app := typed i (if decide (data = []) then IO_STATE_WAITCMD else IO_STATE_WAITDATA) 0
              (read_packet node cmd data (c_packet (chan_of i (m_app m)))) (m_app m) |>).
Proof. apply read_text. Qed.

(** A channel that is still being filled, queued or waiting for an answer
    refuses a new packet as soon as its letter is read; the channels are left
    alone. *)
Theorem busy_channel_refused i m q :
  0 <= i < 6 -> k_state (m_app m) = IO_STATE_NEWLINE ->
  LIBRADIO_CHSTATE_EMPTY < c_state (chan_of i (m_app m)) ->
  m_iqueue m = str ">" ++ [65 + i] ++ q ->
  process_inputs 2 m = Done tt (m <| m_iqueue := q |>
    <| m_out := m_out m ++ str "<-" ++ fmt_d RADIO_CTLERR_BUSY ++ str "/"
                  ++ fmt_d (r_state (m_radio m)) ++ [10] |>
    <| m_app := (m_app m) <| k_curr := Some i |> <| k_value := i |>
                  <| k_state := IO_STATE_WAITNL |> |>).
Proof.
  intros Hi Hs Hb Hq.
  rewrite (read_start (m_app m) Hs m ([65 + i] ++ q) 1%nat eq_refl Hq : process_inputs 2 m = _).
  rewrite process_inputs_1.
  rewrite (process_input_run (65 + i) q) by (warith || done).
  rewrite input_letter by done. unfold input_channel. rewrite run_kput, run_kget. upd_simpl.
  replace (u8 (65 + i - 65)) with i by warith.
  rewrite (proj2 (Z.ltb_ge i 0)), (proj2 (Z.leb_gt MAX_RADIO_CHANNELS i))
    by (unfold MAX_RADIO_CHANNELS; lia). cbn [orb].
  rewrite run_kput, run_chan_get by done. upd_simpl.
  rewrite (proj2 (Z.ltb_lt _ _)) by done. rewrite run_reply. f_equal.
Qed.
End properties.

(** ** Instances of the properties *)

#[local] Instance bench_patience : Patience := 10%nat.

Lemma process_input_safe_witness :
  let m := bench_control bench_objects [62] in
  safe process_input (fun _ => fw_ok) m \/
  exists p, finished 62 (m_app m) = Some p /\
    is_local (m_radio m) p = true /\ write_overruns p = true.
Proof.
  apply (process_input_safe 62 [] (bench_control bench_objects [62])); [|done].
  apply bench_control_ok; [apply bench_objects_ok|by bytes_cons].
Defined.

(** [>B9:22:1,20.] and the newline. *)
Lemma text_is_packet_witness :
  let m := bench_control bench_objects (str ">B9:22:1,20." ++ [10]) in
  process_inputs 12 m =
    (enqueue 1;; kput k_state IO_STATE_WAITNL)
      (m <| m_iqueue := [10] |> <| m_app := typed 1 IO_STATE_WAITDATA 0
         (read_packet 9 22 [1; 20] (c_packet (chan_of 1 (m_app m)))) (m_app m) |>).
Proof.
  apply (text_is_packet 1 9 22 [1; 20] (bench_control bench_objects (str ">B9:22:1,20." ++ [10])) [10]);
    [done|done|done|bytes_cons|done|apply zero_packet_ok|done|done|done].
Defined.

Lemma busy_channel_refused_witness :
  let m := bench_control bench_queued (str ">E") in
  process_inputs 2 m = Done tt (m <| m_iqueue := [] |>
    <| m_out := m_out m ++ str "<-" ++ fmt_d RADIO_CTLERR_BUSY ++ str "/"
                  ++ fmt_d (r_state (m_radio m)) ++ [10] |>
    <| m_app := (m_app m) <| k_curr := Some 4 |> <| k_value := 4 |>
                  <| k_state := IO_STATE_WAITNL |> |>).
Proof. by apply (busy_channel_refused 4 (bench_control bench_queued (str ">E")) []). Defined.
