(* ===== verification/CtlMain.v ===== *)
(** control/response.c, init.c and main.c: passing a client's answer up the serial
    line, setting the controller up, and its main loop. *)

From S2P Require Import Machine Clock State Spi Invariant Si4463 Wait Rxtx Command Loop Boot Control CtlCommand CtlQueue CtlInput.

#[local] Open Scope Z_scope.

Section ctl_main.
Context {D : Type} `{Platform D} `{Patience}.

Definition reg_put {T} (f : regs -> T) `{!Setter f} (v : T) : fw D control unit :=
  modify (fun m => m <| m_app ::= fun k => k <| k_regs ::= fun g => g <| f := v |> |> |>).

(** response.c *)

Definition print_data (pp : packet) (i : Z) : fw D control unit :=
  when (0 <? i) (putchar 44);;
  d ← data_get pp i;
  print (fmt_d d).

Definition txresponse (i : Z) : fw D control unit :=
  from_chan ← libradio_get_my_channel;
  c ← chan_get i;
  let from_node := p_node (c_packet c) in
  print (str "RCV from " ++ fmt_d from_node ++ str " on ch" ++ fmt_d from_chan ++ [10]);;
  ok ← libradio_recv (chan_ref i) from_chan;
  if ok =? 0 then mret tt
  else
    c ← chan_get i;
    let pp := c_packet c in
    print (str "<" ++ [u8 (from_chan + 65)] ++ fmt_d from_node ++ str ":" ++ fmt_u (p_ticks pp)
             ++ str ":" ++ fmt_d (p_cmd pp) ++ str ":");;
    let len := if MAX_PAYLOAD_SIZE <? p_len pp then MAX_PAYLOAD_SIZE else p_len pp in
    for_loop (Z.to_nat len) 0 (print_data pp);;
    putchar 10.

(** init.c *)

Definition clock_init : fw D control unit :=
  reg_put g_tcnt1 0;;
  reg_put g_ocr1a 2499;;
  reg_put g_tccr1a 0;;
  mput m_tccr1b (Z.lor (Z.lor (bit WGM12) (bit CS11)) (bit CS10));;
  mput m_tccr1c 0;;
  mput m_timsk1 (bit OCIE1A).

(** [fdevopen] connects printf and getchar to the line: the output and the input
    queue of the machine. *)
Definition serial_init : fw D control unit :=
  reg_put g_ubrr0 103;;
  reg_put g_ucsr0b (Z.lor (Z.lor (bit RXCIE0) (bit RXEN0)) (bit TXEN0));;
  reg_put g_ucsr0c (Z.lor (bit UCSZ01) (bit UCSZ00)).

(** main.c *)

(** Everything before the endless loop. *)
Definition control_start : fw D control unit :=
  cli;;
  _setled 1;;
  clock_init;;
  serial_init;;
  sei;;
  g ← kget k_regs;
  print (str "MCUSR" ++ fmt_x (g_mcusr g) ++ [10]);;
  reg_put g_mcusr 0;;
  print ([10] ++ str "Main radio control system v" ++ fmt_d FW_VERSION_H ++ str "."
           ++ fmt_d FW_VERSION_L ++ str "." ++ [10]);;
  local_status RADIO_STATUS_DYNAMIC;;
  local_status RADIO_STATUS_STATIC;;
  libradio_init CONTROL_C1 CONTROL_C2 CONTROL_N1 CONTROL_N2;;
  tx_init;;
  libradio_set_state LIBRADIO_STATE_WARM.

(** The part of a pass that looks for the answer of a client. *)
Definition check_answer : fw D control unit :=
  resp ← kget k_resp;
  match resp with
  | None => mret tt
  | Some i =>
      got ← libradio_check_rx;
      if negb (got =? 0) then
        txresponse i;;
        chan_put c_state i LIBRADIO_CHSTATE_EMPTY;;
        kput k_resp None
      else
        c ← chan_get i;
        if c_state c =? LIBRADIO_CHSTATE_RXRESPONSE4 then
          print (str "Response timeout!" ++ [10]);;
          chan_put c_state i LIBRADIO_CHSTATE_EMPTY;;
          kput k_resp None
        else chan_put c_state i (u8 (c_state c + 1))
  end.

(** A pass of the loop: the wait and the answer, the serial line, the queues. *)
Definition pass_wait : fw D control unit := libradio_wait;; check_answer.

Definition pass_input : fw D control unit :=
  empty ← sio_iqueue_empty;
  when (negb empty) process_input.

Definition pass_queues : fw D control unit :=
  resp ← kget k_resp;
  match resp with
  | None => tx_check_queues
  | Some _ => mret tt
  end.

Definition control_pass : fw D control unit := pass_wait;; pass_input;; pass_queues.

(** [main], for [n] passes of its endless loop. *)
Definition control_main (n : nat) : fw D control unit :=
  control_start;; for_loop n 0 (fun _ => control_pass).
End ctl_main.

(** ** Safety *)

Section safety.
Context {D : Type} `{Platform D} `{Patience}.
Implicit Types m : machine D control.

Lemma wp_print_data pp i m :
  packet_ok pp -> 0 <= i < 10 -> fw_ok m -> wp (print_data pp i) (fun _ => fw_ok) m.
Proof.
  intros Hp Hi Hm. unfold print_data. rewrite wp_bind, wp_when.
  assert (forall m1, fw_ok m1 -> wp (d ← data_get pp i; print (fmt_d d)) (fun _ => fw_ok) m1) as Hrest.
  { intros m1 Hm1. rewrite wp_bind, wp_data_get by done. by apply (preserves_print _ m1). }
  destruct (0 <? i); [|by apply Hrest]. apply Hrest. by apply (preserves_print [44] m).
Qed.

(** Passing an answer up always ends. *)
Lemma wp_txresponse i m :
  0 <= i < 6 -> fw_ok m -> wp (txresponse i) (fun _ => fw_ok) m.
Proof.
  intros Hi Hm. unfold txresponse, libradio_get_my_channel.
  rewrite wp_bind, wp_rget, wp_bind, wp_chan_get, wp_bind, wp_print by done.
  set (o := str "RCV from " ++ _). clearbody o.
  assert (fw_ok (m <| m_out ::= fun l => l ++ o |>)) as Hm1 by by apply (preserves_print o m).
  rewrite wp_bind. eapply wp_mono.
  { apply wp_libradio_recv; [exact Hm1|by apply chan_ref_ok|by apply field_get, fw_radio]. }
  intros ok m2 [Hm2 Hpost]. destruct (ok =? 0) eqn:E; [by rewrite wp_ret|].
  rewrite wp_bind, wp_chan_get by done. cbv zeta. rewrite wp_bind, wp_print.
  pose proof (ok_packet _ (chan_of_ok i _ (fw_app m2 Hm2))) as Hp.
  set (pp := c_packet (chan_of i (m_app m2))) in *. clearbody pp.
  set (o2 := str "<" ++ _). clearbody o2. rewrite wp_bind.
  apply (wp_for_loop (fun _ => fw_ok)); [by apply (preserves_print o2 m2)| |].
  - intros j m3 Hj Hm3. apply wp_print_data; [done| |done].
    rewrite max_payload in Hj. destruct Hp as [_ _ _ Hlen _ _ _]. unfold is_u8 in Hlen.
    destruct (Z.ltb_spec 10 (p_len pp)); lia.
  - intros m3 Hm3. by apply (preserves_print [10] m3).
Qed.

Lemma preserves_check_answer : preserves fw_ok (check_answer : fw D control unit).
Proof.
  unfold check_answer. apply (preserves_kget_bind k_resp chan_ptr_ok); [apply ctl_resp|].
  intros [i|] Hi; [|apply preserves_ret].
  apply preserves_bind; [eapply preserves_keeps, query_check_rx|intros got].
  assert (preserves fw_ok (chan_put c_state i LIBRADIO_CHSTATE_EMPTY;; kput k_resp None
            : fw D control unit)) as Hend.
  { apply preserves_bind; [by apply preserves_chan_state|intros _]. apply preserves_app.
    intros k []. by split. }
  apply preserves_if.
  - apply preserves_bind; [|by intros _]. apply preserves_wp. intros m Hm. by apply wp_txresponse.
  - apply preserves_chan_get; [done|]. intros c Hc. apply preserves_if.
    + apply preserves_bind; [apply preserves_print|by intros _].
    + apply preserves_chan_state; [done|apply u8_range].
Qed.

Lemma preserves_pass_wait : preserves fw_ok (pass_wait : fw D control unit).
Proof.
  apply preserves_bind; [apply preserves_libradio_wait|intros _; apply preserves_check_answer].
Qed.

Lemma preserves_pass_queues : preserves fw_ok (pass_queues : fw D control unit).
Proof.
  apply preserves_bind; [apply preserves_kget|]. intros [i|]; [apply preserves_ret|].
  apply preserves_tx_check_queues.
Qed.

(** The pass reads a character that makes the controller execute the command
    that reads behind its packet. *)
Definition pass_overruns m : Prop :=
  exists m1 ch q, pass_wait m = Done tt m1 /\ m_iqueue m1 = ch :: q /\ input_overruns ch m1.

Lemma control_pass_cases m :
  fw_ok m -> safe control_pass (fun _ => fw_ok) m \/ pass_overruns m.
Proof.
  intros Hm. unfold control_pass, safe. pose proof (preserves_pass_wait m Hm) as Hw.
  unfold safe in Hw. unfold mbind at 1, cmd_bind at 1.
  destruct (pass_wait m) as [[] m1| | |] eqn:Ew; [|done|by left..].
  assert (safe pass_input (fun _ => fw_ok) m1 \/ pass_overruns m) as [Hi|Ho].
  { unfold safe, pass_input, sio_iqueue_empty. rewrite bind_assoc, run_gets.
    destruct (m_iqueue m1) as [|ch q] eqn:Eq; [by left|].
    destruct (process_input_cases ch q m1 Hw Eq) as [Hs|Ho]; [left; exact Hs|].
    right. by exists m1, ch, q. }
  - left. change (safe (pass_input;; pass_queues) (fun _ => fw_ok) m1). rewrite safe_bind.
    eapply safe_mono; [exact Hi|]. intros [] m2 Hm2. by apply preserves_pass_queues.
  - by right.
Qed.

(** *** Waiting for an answer *)

(** The wait for the answer on channel [i] is over, or in its [n]-th pass. *)
Definition awaiting (i n : Z) m : Prop :=
  fw_ok m /\
  (k_resp (m_app m) = None /\ c_state (chan_of i (m_app m)) = LIBRADIO_CHSTATE_EMPTY \/
   k_resp (m_app m) = Some i /\ n <= 3 /\
   c_state (chan_of i (m_app m)) = LIBRADIO_CHSTATE_RXRESPONSE1 + n).

Lemma wp_answered i n m :
  0 <= i < 6 -> fw_ok m ->
  wp (chan_put c_state i LIBRADIO_CHSTATE_EMPTY;; kput k_resp None) (fun _ => awaiting i n) m.
Proof.
  intros Hi Hm. rewrite wp_bind. unfold chan_put. rewrite wp_chan_set, wp_kput by done.
  set (k1 := with_chan i ((chan_of i (m_app m)) <| c_state := LIBRADIO_CHSTATE_EMPTY |>) (m_app m)).
  assert (control_ok k1) as Hk1.
  { apply with_chan_ok; [|apply Hm]. destruct (chan_of_ok i _ (fw_app m Hm)). by split. }
  split.
  - change (fw_ok (m <| m_app ::= fun _ => k1 <| k_resp := None |> |>)).
    apply fw_ok_app; [done|]. destruct Hk1. by split.
  - left. split; [done|]. change (c_state (chan_of i k1) = LIBRADIO_CHSTATE_EMPTY).
    unfold k1. by rewrite chan_of_with.
Qed.

Lemma wp_check_answer i n m :
  0 <= i < 6 -> 0 <= n -> awaiting i n m -> wp check_answer (fun _ => awaiting i (n + 1)) m.
Proof.
  intros Hi Hn [Hm [ [Hr Hs] |(Hr&Hn3&Hs)] ]; unfold check_answer; rewrite wp_bind, wp_kget, Hr.
  { rewrite wp_ret. split; [done|by left]. }
  apply (keeps_step fw_ok query_only m); [apply query_check_rx|done|].
  intros got m1 [Hm1 [_ E] ].
  assert (m_app m1 = m_app m) as Ea by by rewrite E. clear E.
  destruct (negb (got =? 0)).
  - rewrite wp_bind. eapply wp_mono; [by apply wp_txresponse|]. intros ? m2 Hm2. by apply wp_answered.
  - rewrite wp_bind, wp_chan_get, Ea, Hs by done.
    destruct (Z.eqb_spec (LIBRADIO_CHSTATE_RXRESPONSE1 + n) LIBRADIO_CHSTATE_RXRESPONSE4) as [E4|E4].
    + rewrite wp_bind, wp_print. apply wp_answered; [done|by apply (preserves_print _ m1)].
    + unfold LIBRADIO_CHSTATE_RXRESPONSE1, LIBRADIO_CHSTATE_RXRESPONSE4 in *.
      pose proof (preserves_chan_state i (u8 (6 + n + 1)) Hi (u8_range _) m1 Hm1) as Hok.
      revert Hok. unfold safe, wp. rewrite chan_put_run by done. intros Hok.
      split; [done|]. right. upd_simpl. rewrite resp_with_chan, chan_of_with, Ea by done.
      split_and!; [done|lia|]. upd_simpl. rewrite u8_small by warith. unfold LIBRADIO_CHSTATE_RXRESPONSE1. lia.
Qed.

Lemma wp_check_answers i m :
  0 <= i < 6 -> awaiting i 0 m ->
  wp (for_loop 4 0 (fun _ => check_answer)) (fun _ m' => awaiting i 4 m') m.
Proof.
  intros Hi Hm. apply (wp_for_loop (fun n m => awaiting i n m)); [done| |done].
  intros n m' Hn Hm'. apply wp_check_answer; [done|lia|done].
Qed.

(** *** Starting up *)

Lemma control_ok_regs k g :
  app_inv k -> (forall r, regs_ok r -> regs_ok (g r)) -> app_inv (k <| k_regs ::= g |>).
Proof. intros [] Hg. split; try done. by apply Hg. Qed.

Lemma zero_control_ok mcusr : is_u8 mcusr -> control_ok (zero_control mcusr).
Proof.
  intros Hs. split; try done; try (cbn; lia).
  intros f. cbn [k_channels zero_control]. rewrite vlookup_replicate. apply zero_channel_ok.
Qed.

Lemma booting_status s t m :
  booting (fun m => k_state (m_app m) = s) m ->
  wp (local_status t) (fun _ => booting (fun m => k_state (m_app m) = s)) m.
Proof.
  intros (Hm&Hk&Hs). rewrite wp_local_status. cbv zeta.
  repeat case_match; (split_and!; [by apply (statics_ok_beside m)|done|done]).
Qed.

Lemma state_with_chan i c k : k_state (with_chan i c k) = k_state k.
Proof. unfold with_chan. by destruct (chan_index i). Qed.

Lemma wp_tx_init m :
  fw_ok m -> wp tx_init (fun _ m' =>
    fw_ok m' /\ m_radio m' = m_radio m /\ k_resp (m_app m') = None /\
    k_state (m_app m') = k_state (m_app m)) m.
Proof.
  intros Hm. unfold tx_init. rewrite wp_bind.
  apply (wp_for_loop (fun _ m' => fw_ok m' /\ m_radio m' = m_radio m /\
                                   k_state (m_app m') = k_state (m_app m))); [done| |].
  - intros i m1 _ (Hm1&Hr&Hs). rewrite wp_bind. unfold chan_put.
    rewrite !wp_chan_set by done. upd_simpl. rewrite !state_with_chan. split_and!; [|done..].
    pose proof (chan_of_ok 0 _ (fw_app m1 Hm1)).
    apply fw_ok_app; [apply fw_ok_app; [done|]|]; upd_simpl.
    + apply with_chan_ok; [|apply Hm1]. destruct H1. by split.
    + rewrite chan_of_with by done. apply with_chan_ok; [destruct H1; by split|].
      apply with_chan_ok; [|apply Hm1]. destruct H1. by split.
  - intros m1 (Hm1&Hr&Hs). rewrite wp_kput. split_and!; [|done..].
    apply fw_ok_app; [done|]. destruct (fw_app m1 Hm1). by split.
Qed.

Lemma wp_control_start m :
  statics_ok m -> control_ok (m_app m) ->
  wp control_start (fun _ m' =>
    fw_ok m' /\ r_state (m_radio m') = LIBRADIO_STATE_WARM /\
    k_resp (m_app m') = None /\ k_state (m_app m') = k_state (m_app m)) m.
Proof.
  intros Hm Hk. assert (booting (fun m' => k_state (m_app m') = k_state (m_app m)) m) as Hb by done.
  set (s := k_state (m_app m)) in *. clearbody s. clear Hm Hk.
  unfold control_start, cli, sei, _setled, clock_init, serial_init, reg_put, mput. pose proof control_ok_regs. do 12 boot.
  rewrite wp_bind, wp_kget. unfold print, reg_put. do 3 boot.
  rewrite wp_bind. eapply wp_mono; [by apply booting_status|]. clear m Hb.
  intros ? m Hb. cbv beta in Hb.
  rewrite wp_bind. eapply wp_mono; [by apply booting_status|]. clear m Hb.
  intros ? m (Hm&Hk&Hs).
  rewrite wp_bind. eapply wp_mono.
  { apply (wp_libradio_init CONTROL_C1 CONTROL_C2 CONTROL_N1 CONTROL_N2); done. }
  intros _ m2 (Hm2&_&Ea).
  rewrite wp_bind. eapply wp_mono; [by apply wp_tx_init|].
  intros _ m3 (Hm3&_&Hr&Hs3). eapply wp_mono; [by apply wp_state_set|].
  intros _ m4 (Hm4&Ho&El). split_and!; [done|by rewrite El, state_set_state| |].
  - by rewrite (lib_frame_app m3 m4) by by apply only_radio_lib_frame.
  - rewrite (lib_frame_app m3 m4) by by apply only_radio_lib_frame. by rewrite Hs3, Ea.
Qed.
End safety.

(** ** Properties *)

Section properties.
Context {D : Type} `{Platform D} `{Patience}.
Implicit Types m : machine D control.

(** Start-up, from the static objects as the linker leaves them, always reaches
    the main loop: the invariant holds, the library sleeps in the WARM state,
    and no answer is awaited. *)
Theorem start_establishes m :
  statics_ok m -> control_ok (m_app m) ->
  wp control_start (fun _ m' =>
    fw_ok m' /\ r_state (m_radio m') = LIBRADIO_STATE_WARM /\
    k_resp (m_app m') = None /\ k_state (m_app m') = k_state (m_app m)) m.
Proof. apply wp_control_start. Qed.

(** A pass of the controller's main loop (wait, answer, serial line, queues)
    keeps the invariant and is free of undefined behaviour, whatever the radio,
    the interrupts and the serial line deliver, unless the line has it execute a
    command that reads behind its packet. *)
Theorem control_pass_safe m :
  fw_ok m -> safe control_pass (fun _ => fw_ok) m \/ pass_overruns m.
Proof. apply control_pass_cases. Qed.

(** [C18] The controller as a program: from the static objects as the linker leaves them,
    however many passes of its loop (wait, answer, serial line, queues) are made and
    whatever the radio, the interrupts and the serial line deliver, it is free of
    undefined behaviour and keeps its invariant; the one exception is a run that has
    come so far that the line has it execute a command that reads behind its packet. *)
Theorem controller_runs n m :
  statics_ok m -> control_ok (m_app m) ->
  safe (control_main n) (fun _ => fw_ok) m \/
  exists j m', (j < n)%nat /\ control_main j m = Done tt m' /\ fw_ok m' /\ pass_overruns m'.
Proof.
  intros Hm Hk. apply safe_program_cases; [intros ?; apply control_pass_cases|].
  eapply wp_mono; [by apply wp_control_start|]. by intros ? m' [Hm' _].
Qed.

(** The wait for a client's answer ends: four looks after the STATUS request on
    channel [i] was sent, whatever the radio has reported and received, the
    channel is empty and no answer is awaited, so that the queues run again. *)
Theorem response_ends i m :
  0 <= i < 6 -> fw_ok m -> k_resp (m_app m) = Some i ->
  c_state (chan_of i (m_app m)) = LIBRADIO_CHSTATE_RXRESPONSE1 ->
  wp (for_loop 4 0 (fun _ => check_answer)) (fun _ m' =>
    fw_ok m' /\ k_resp (m_app m') = None /\
    c_state (chan_of i (m_app m')) = LIBRADIO_CHSTATE_EMPTY) m.
Proof.
  intros Hi Hm Hr Hs. eapply wp_mono; [apply (wp_check_answers i); [done|]|].
  - split; [done|]. right. split_and!; [done|done|by rewrite Hs].
  - intros ? m' [Hm' [ [? ?] |(?&?&?)] ]; [done|lia].
Qed.
End properties.

(** ** Instances of the properties *)

#[local] Instance bench_patience : Patience := 10%nat.

Lemma start_establishes_witness :
  let m := reset_machine (replicate 300 255) (zero_control 1) [] in
  wp control_start (fun _ m' =>
    fw_ok m' /\ r_state (m_radio m') = LIBRADIO_STATE_WARM /\
    k_resp (m_app m') = None /\ k_state (m_app m') = k_state (m_app m)) m.
Proof.
  apply (start_establishes (reset_machine (replicate 300 255) (zero_control 1) []));
    [|by apply zero_control_ok].
  by apply reset_statics_ok; [by apply zero_control_ok|constructor].
Defined.

Lemma control_pass_safe_witness :
  let m := bench_control bench_queued (str ">E") in
  safe control_pass (fun _ => fw_ok) m \/ pass_overruns m.
Proof.
  apply (control_pass_safe (bench_control bench_queued (str ">E"))).
  apply bench_control_ok; [apply bench_queued_ok|by bytes_cons].
Defined.

(** Channel 1 waits for its answer. *)
Definition bench_waiting : control :=
  (with_chan 1 (bench_channel <| c_state := LIBRADIO_CHSTATE_RXRESPONSE1 |>) bench_objects)
    <| k_resp := Some 1 |>.

Lemma bench_waiting_ok : control_ok bench_waiting.
Proof.
  assert (control_ok (with_chan 1 (bench_channel <| c_state := LIBRADIO_CHSTATE_RXRESPONSE1 |>)
                        bench_objects)) as [].
  { apply with_chan_ok; [|apply bench_objects_ok]. split; [done|done|apply zero_packet_ok]. }
  by split.
Qed.

Lemma response_ends_witness :
  let m := bench_control bench_waiting [] in
  wp (for_loop 4 0 (fun _ => check_answer)) (fun _ m' =>
    fw_ok m' /\ k_resp (m_app m') = None /\
    c_state (chan_of 1 (m_app m')) = LIBRADIO_CHSTATE_EMPTY) m.
Proof.
  apply (response_ends 1 (bench_control bench_waiting [])); [done| |done|done].
  apply bench_control_ok; [apply bench_waiting_ok|constructor].
Defined.

Lemma controller_runs_witness :
  let m := reset_machine (replicate 300 255) (zero_control 1) [Tick; SerialRx 62; Tick] in
  safe (control_main 3) (fun _ => fw_ok) m \/
  exists j m', (j < 3)%nat /\ control_main j m = Done tt m' /\ fw_ok m' /\ pass_overruns m'.
Proof.
  apply (controller_runs 3 (reset_machine (replicate 300 255) (zero_control 1) [Tick; SerialRx 62; Tick]));
    [|by apply zero_control_ok].
  by apply reset_statics_ok; [by apply zero_control_ok|repeat constructor].
Defined.
