(* ===== verification/Lrmon.v ===== *)
(** The daemon on the host: its objects (lrmon.h and the globals of its files), the
    system calls it makes, and the timer queue of timer.c.

    An [int] of the host has 32 bits. What the daemon logs is left out; the bytes
    it writes to the serial line are recorded in [h_sent]. *)

From stdpp Require Import gmap.
From S2P Require Import Prelude Cmd Packet.

(** ** The system below *)

(** What [select] returns, with the time that was left and the descriptors that can be
    read. *)
Record selected := mk_selected {
  sel_n : Z;
  sel_sec : Z;
  sel_usec : Z;
  sel_ready : gset Z
}.

(** The state of the operating system is a parameter, as are the answers of its calls:
    whether memory is given, how many bytes a [write] to the serial line takes
    (negative on failure), what a [read] of at most so many bytes of it delivers, the
    time, and what a [select] for the descriptors below a bound that are in a set
    returns after at most so many seconds and microseconds. *)
Class System (D : Type) := {
  sys_malloc : Z -> D -> bool * D;
  sys_write : list Z -> D -> Z * D;
  sys_read : Z -> D -> option (list Z) * D;
  sys_gettimeofday : D -> option (Z * Z) * D;
  sys_time : D -> Z * D;
  sys_select : Z -> gset Z -> Z -> Z -> D -> selected * D
}.

(** [read] delivers bytes, and no more than asked for. *)
Class SystemLaws (D : Type) `{System D} := {
  read_bound n d l d' :
    0 <= n -> sys_read n d = (Some l, d') -> Z.of_nat (length l) <= n /\ bytes l
}.

(** ** Objects *)

(** The two functions that are ever given to the timer queue. *)
Inductive timer_func :=
| F_state_machine
| F_dynamic_status_timer.

#[export] Instance timer_func_eq_dec : EqDecision timer_func.
Proof. solve_decision. Defined.

Record sstatus := mk_sstatus {
  s_c1 : Z; s_c2 : Z; s_n1 : Z; s_n2 : Z; s_fw_h : Z; s_fw_l : Z
}.

Record dstatus := mk_dstatus {
  d_radio_state : Z;
  d_tens_of_minutes : Z;
  d_battery_voltage : Z;
  d_npacket_rx : Z;
  d_npacket_tx : Z
}.

(** [struct termios], as far as the program knows it: of the control characters it
    sets two, [c_vmin] and [c_vtime], and leaves the others as they are. *)
Record termios := mk_termios {
  c_iflag : Z;
  c_oflag : Z;
  c_cflag : Z;
  c_lflag : Z;
  c_vmin : Z;
  c_vtime : Z;
  c_ispeed : Z;
  c_ospeed : Z
}.

(** A queue of timers is the list of the nodes from [timerq] on; of the list
    [tq_free] only its length matters. [h_buffer] holds the first [offset] bytes
    of [buffer]. [h_tty] records the settings last given to the serial line. *)
Record host (D : Type) := mk_host {
  h_state : Z;
  h_retries : Z;
  h_timerq : list (Z * timer_func);
  h_tq_free : nat;
  h_tv_sec : Z;
  h_tv_usec : Z;
  h_failure_status : Z;
  h_response_received : Z;
  h_response_node : Z;
  h_sstatus : sstatus;
  h_dstatus : dstatus;
  h_buffer : list Z;
  h_sent : list Z;
  h_siofd : Z;
  h_maxfd : Z;
  h_mrfds : gset Z;
  h_tty : option termios;
  h_sys : D
}.
Arguments mk_host {D}.
Arguments h_state {D}. Arguments h_retries {D}. Arguments h_timerq {D}.
Arguments h_tq_free {D}. Arguments h_tv_sec {D}. Arguments h_tv_usec {D}.
Arguments h_failure_status {D}. Arguments h_response_received {D}.
Arguments h_response_node {D}. Arguments h_sstatus {D}. Arguments h_dstatus {D}.
Arguments h_buffer {D}. Arguments h_sent {D}. Arguments h_siofd {D}. Arguments h_maxfd {D}.
Arguments h_mrfds {D}. Arguments h_tty {D}. Arguments h_sys {D}.

#[export] Instance eta_host {D} : Eta (host D) := fun h =>
  mk_host (h_state h) (h_retries h) (h_timerq h) (h_tq_free h) (h_tv_sec h) (h_tv_usec h)
    (h_failure_status h) (h_response_received h) (h_response_node h) (h_sstatus h)
    (h_dstatus h) (h_buffer h) (h_sent h) (h_siofd h) (h_maxfd h) (h_mrfds h) (h_tty h) (h_sys h).

Section setters.
Context {D : Type}.
#[export] Instance set_h_state : Setter (@h_state D) := ltac:(build_setter).
#[export] Instance set_h_retries : Setter (@h_retries D) := ltac:(build_setter).
#[export] Instance set_h_timerq : Setter (@h_timerq D) := ltac:(build_setter).
#[export] Instance set_h_tq_free : Setter (@h_tq_free D) := ltac:(build_setter).
#[export] Instance set_h_tv_sec : Setter (@h_tv_sec D) := ltac:(build_setter).
#[export] Instance set_h_tv_usec : Setter (@h_tv_usec D) := ltac:(build_setter).
#[export] Instance set_h_failure_status : Setter (@h_failure_status D) := ltac:(build_setter).
#[export] Instance set_h_response_received : Setter (@h_response_received D) := ltac:(build_setter).
#[export] Instance set_h_response_node : Setter (@h_response_node D) := ltac:(build_setter).
#[export] Instance set_h_sstatus : Setter (@h_sstatus D) := ltac:(build_setter).
#[export] Instance set_h_dstatus : Setter (@h_dstatus D) := ltac:(build_setter).
#[export] Instance set_h_buffer : Setter (@h_buffer D) := ltac:(build_setter).
#[export] Instance set_h_sent : Setter (@h_sent D) := ltac:(build_setter).
#[export] Instance set_h_siofd : Setter (@h_siofd D) := ltac:(build_setter).
#[export] Instance set_h_maxfd : Setter (@h_maxfd D) := ltac:(build_setter).
#[export] Instance set_h_mrfds : Setter (@h_mrfds D) := ltac:(build_setter).
#[export] Instance set_h_tty : Setter (@h_tty D) := ltac:(build_setter).
#[export] Instance set_h_sys : Setter (@h_sys D) := ltac:(build_setter).
End setters.

(** Code of the daemon; [exit()] ends the process: what follows it is not run. *)
Abbreviation daemon D := (cmd (host D)).

Section access.
Context {D : Type}.

Definition hget {T} (f : host D -> T) : daemon D T := gets f.
Definition hput {T} (f : host D -> T) `{!Setter f} (v : T) : daemon D unit :=
  modify (fun h => h <| f := v |>).
Definition exit {A} : daemon D A := restart.

(** A call of the system. *)
Definition syscall {A} (c : D -> A * D) : daemon D A := fun h =>
  let (a, d) := c (h_sys h) in Done a (h <| h_sys := d |>).
End access.

(** ** timer.c *)

Definition DEFAULT_TIMEOUT : Z := 60.

(** Two pointers and an integer, on a 64-bit host. *)
Definition sizeof_timerq : Z := 24.

(** The walk along the queue: [cur] is the node reached, [rest] what is behind it and
    [secs] the seconds left for the new node. *)
Fixpoint insert_after (secs : Z) (func : timer_func) (cur : Z * timer_func)
    (rest : list (Z * timer_func)) : list (Z * timer_func) :=
  match rest with
  | [] => [cur; (secs, func)]
  | nxt :: rest' =>
      if secs <? fst nxt then cur :: (secs, func) :: rest
      else cur :: insert_after (i32 (secs - fst cur)) func nxt rest'
  end.

(** The queue without its first node for [func]. *)
Fixpoint remove_first (func : timer_func) (q : list (Z * timer_func))
    : option (list (Z * timer_func)) :=
  match q with
  | [] => None
  | n :: q' =>
      if decide (snd n = func) then Some q'
      else option_map (cons n) (remove_first func q')
  end.

(** The last node of the run of expired nodes that starts with [cur], and the queue
    behind it. *)
Fixpoint last_ready (cur : Z * timer_func) (rest : list (Z * timer_func))
    : (Z * timer_func) * list (Z * timer_func) :=
  match rest with
  | [] => (cur, [])
  | nxt :: rest' => if fst nxt =? 0 then last_ready nxt rest' else (cur, rest)
  end.

Section timer.
Context {D : Type} `{System D}.

Definition timer_init : daemon D unit :=
  hput h_timerq [];;
  hput h_tq_free O;;
  hput h_tv_sec DEFAULT_TIMEOUT;;
  hput h_tv_usec 0.

(** A node from the free list, or a new one. *)
Definition timer_alloc : daemon D unit :=
  free ← hget h_tq_free;
  match free with
  | S n => hput h_tq_free n
  | O =>
      ok ← syscall (sys_malloc sizeof_timerq);
      if ok : bool then mret tt else exit
  end.

Definition timer_insert (func : timer_func) (secs : Z) : daemon D unit :=
  timer_alloc;;
  q ← hget h_timerq;
  match q with
  | [] =>
      hput h_timerq [(0, func)];;
      hput h_tv_sec secs;;
      hput h_tv_usec 0
  | hd :: rest =>
      if secs <? fst hd then
        hput h_timerq ((0, func) :: (i32 (fst hd - secs), snd hd) :: rest);;
        hput h_tv_sec secs;;
        hput h_tv_usec 0
      else hput h_timerq (insert_after secs func hd rest)
  end.

Definition timer_remove (func : timer_func) : daemon D unit :=
  q ← hget h_timerq;
  match remove_first func q with
  | None => mret tt
  | Some q' =>
      free ← hget h_tq_free;
      hput h_timerq q';;
      hput h_tq_free (S free)
  end.

(** [call] runs the function of a node. The nodes before the last expired one are
    neither run nor freed. *)
Definition timer_expiry (call : timer_func -> daemon D unit) : daemon D unit :=
  q ← hget h_timerq;
  match q with
  | [] =>
      hput h_tv_sec DEFAULT_TIMEOUT;;
      hput h_tv_usec 0
  | hd :: rest =>
      let '(run, behind) := last_ready hd rest in
      (match behind with
       | nxt :: behind' =>
           hput h_timerq ((0, snd nxt) :: behind');;
           hput h_tv_sec (fst nxt)
       | [] =>
           hput h_timerq [];;
           hput h_tv_sec DEFAULT_TIMEOUT
       end);;
      call (snd run);;
      free ← hget h_tq_free;
      hput h_tq_free (S free)
  end.
End timer.

(** ** Safe execution

    [exit] ends a run without undefined behaviour, so what is proved of the daemon
    are safety statements: what holds whenever the code goes on. *)

Section rules.
Context {D : Type}.
Implicit Types h : host D.

Lemma safe_hget {T} (f : host D -> T) Q h : safe (hget f) Q h = Q (f h) h.
Proof. done. Qed.

Lemma safe_hput {T} (f : host D -> T) `{!Setter f} v Q h : safe (hput f v) Q h = Q tt (h <| f := v |>).
Proof. done. Qed.

Lemma safe_ret {A} (a : A) Q h : safe (mret a) Q h = Q a h.
Proof. done. Qed.

Lemma safe_exit {A} (Q : A -> host D -> Prop) h : safe exit Q h.
Proof. done. Qed.

Lemma safe_syscall {A} (c : D -> A * D) Q h :
  safe (syscall c) Q h = Q (fst (c (h_sys h))) (h <| h_sys := snd (c (h_sys h)) |>).
Proof. unfold safe, syscall. by destruct (c (h_sys h)). Qed.

Lemma safe_when b (c : daemon D unit) Q h : safe (when b c) Q h = if b then safe c Q h else Q tt h.
Proof. by destruct b. Qed.
End rules.

Create Rewrite HintDb safe.
#[export] Hint Rewrite @safe_bind @safe_hget @safe_hput @safe_ret @safe_syscall @safe_when : safe.

(** ** The timer queue *)

Section queue.
Implicit Types (q : list (Z * timer_func)) (f : timer_func).

(** When the nodes behind a point in time run, if nothing else happens. *)
Fixpoint due_from (t : Z) q : list (Z * timer_func) :=
  match q with
  | [] => []
  | n :: q' => (t + fst n, snd n) :: due_from (t + fst n) q'
  end.

(** When the nodes of the queue run: the timeout is that of the first one. *)
Definition due (tv : Z) q : list (Z * timer_func) :=
  match q with
  | [] => []
  | n :: q' => (tv, snd n) :: due_from tv q'
  end.

Definition total q : Z := foldr (fun n s => fst n + s) 0 q.

Definition nonneg : list (Z * timer_func) -> Prop := Forall (fun n => 0 <= fst n).

Lemma total_nonneg q : nonneg q -> 0 <= total q.
Proof. induction 1; cbn; [lia|]. unfold total in *. lia. Qed.

Lemma due_from_funcs t q : map snd (due_from t q) = map snd q.
Proof. revert t. induction q as [|n q IH]; intros t; cbn; [done|]. by rewrite IH. Qed.

(** Timers that run [s] seconds later. *)
Definition shift (s : Z) : list (Z * timer_func) -> list (Z * timer_func) :=
  map (fun n => (fst n + s, snd n)).

Lemma due_from_shift t s q : due_from (t + s) q = shift s (due_from t q).
Proof.
  revert t. induction q as [|n q IH]; intros t; [done|]. cbn [due_from shift map fst snd].
  replace (t + s + fst n) with (t + fst n + s) by lia. by rewrite IH.
Qed.

Lemma due_from_app t q1 q2 : due_from t (q1 ++ q2) = due_from t q1 ++ due_from (t + total q1) q2.
Proof.
  revert t. induction q1 as [|n q1 IH]; intros t; cbn [app due_from].
  - unfold total. cbn [foldr]. by rewrite Z.add_0_r.
  - rewrite IH. unfold total. cbn [foldr]. by rewrite Z.add_assoc.
Qed.

(** The head of the queue has no time before it. *)
Lemma due_head tv n q : due tv (n :: q) = due_from (tv - fst n) (n :: q).
Proof. cbn [due due_from]. by replace (tv - fst n + fst n) with tv by lia. Qed.

(** Where the walk leaves the new node: behind [n], with the interval that makes it run
    later by the interval of [n]. *)
Lemma insert_after_split secs f cur rest :
  nonneg (cur :: rest) -> total (cur :: rest) <= secs + 2 ^ 31 -> secs < 2 ^ 31 ->
  exists q1 n q2 s, cur :: rest = q1 ++ n :: q2 /\ insert_after secs f cur rest = q1 ++ n :: (s, f) :: q2 /\
    total (q1 ++ [n]) + s = secs + fst n.
Proof.
  revert secs cur. induction rest as [|nxt rest IH]; intros secs cur Hpos Hlo Hhi; cbn [insert_after].
  { exists [], cur, [], secs. split_and!; [done..|]. unfold total. cbn. lia. }
  pose proof Hpos as [Hc Hpos']%Forall_cons. pose proof Hpos' as [Hn Hr]%Forall_cons.
  pose proof (total_nonneg _ Hr) as Htr. unfold total in Hlo, Htr. cbn [foldr] in Hlo.
  destruct (Z.ltb_spec secs (fst nxt)) as [Hlt|Hge].
  { exists [], cur, (nxt :: rest), secs. split_and!; [done..|]. unfold total. cbn. lia. }
  rewrite (i32_small (secs - fst cur)) by lia.
  destruct (IH (secs - fst cur) nxt Hpos') as (q1&n&q2&s&E1&E2&Ht);
    [unfold total; cbn [foldr]; lia|lia|].
  exists (cur :: q1), n, q2, s. rewrite E1, E2. split_and!; [done..|].
  unfold total in *. cbn [app foldr]. lia.
Qed.

(** The same in the times at which the timers run: the new one is behind the timer of time
    [t], whose interval is [gap]. *)
Lemma insert_after_due tv secs f n0 rest :
  nonneg (n0 :: rest) -> 0 <= secs < 2 ^ 31 -> total (n0 :: rest) < 2 ^ 31 ->
  exists d1 t k d2 gap, due tv (n0 :: rest) = d1 ++ (t, k) :: d2 /\ map fst (n0 :: rest) !! length d1 = Some gap /\
    let t' := tv + (secs - fst n0) + gap in
    due tv (insert_after secs f n0 rest) = d1 ++ (t, k) :: (t', f) :: shift (t' - t) d2.
Proof.
  intros Hpos Hs Ht. destruct (insert_after_split secs f n0 rest) as (q1&n&q2&s&E1&E2&Hsum); [done|lia|lia|].
  assert (exists q, insert_after secs f n0 rest = n0 :: q) as [q Eq]
    by (destruct rest; cbn [insert_after]; [|case_match]; by eexists).
  rewrite due_head, Eq, due_head, <- Eq, E1, E2, !due_from_app.
  set (v := tv - fst n0). cbn [due_from fst snd].
  exists (due_from v q1), (v + total q1 + fst n), (snd n), (due_from (v + total q1 + fst n) q2), (fst n).
  split; [reflexivity|]. split.
  { rewrite <- (length_map snd), due_from_funcs, length_map.
    rewrite map_app, lookup_app_r by by rewrite length_map. by rewrite length_map, Nat.sub_diag. }
  cbv zeta. assert (total (q1 ++ [n]) = total q1 + fst n) as Hn
    by (clear; unfold total; induction q1 as [|x q1 IH]; cbn [app foldr] in *; lia).
  rewrite <- due_from_shift. do 2 f_equal. f_equal; [f_equal; lia|]. f_equal. lia.
Qed.

(** By how much the timers behind [(s, f)] run earlier when it is taken out: by its
    interval, or, when it is the first one, by that of the next one, which gets its
    timeout. *)
Definition hastened (q1 : list (Z * timer_func)) (s : Z) (q2 : list (Z * timer_func)) : Z :=
  match q1, q2 with
  | [], n :: _ => fst n
  | _, _ => s
  end.

Lemma remove_due tv q1 s f q2 :
  exists d1 t d2, due tv (q1 ++ (s, f) :: q2) = d1 ++ (t, f) :: d2 /\ length d1 = length q1 /\
    due tv (q1 ++ q2) = d1 ++ shift (- hastened q1 s q2) d2.
Proof.
  destruct q1 as [|n q1]; cbn [app due fst snd hastened].
  - exists [], tv, (due_from tv q2). split; [done|]. split; [done|].
    destruct q2 as [|n q2]; [done|]. cbn [due due_from app]. cbn [shift map fst snd].
    fold (shift (- fst n) (due_from (tv + fst n) q2)). rewrite <- due_from_shift.
    replace (tv + fst n + - fst n) with tv by lia. done.
  - rewrite !due_from_app. cbn [due_from fst snd].
    exists ((tv, snd n) :: due_from tv q1), (tv + total q1 + s), (due_from (tv + total q1 + s) q2).
    split; [done|]. split; [cbn [length]; f_equal; by rewrite <- (length_map snd), due_from_funcs, length_map|].
    cbn [app]. do 2 f_equal. rewrite <- due_from_shift. f_equal. lia.
Qed.

Lemma remove_first_split f q1 s q2 :
  f ∉ map snd q1 -> remove_first f (q1 ++ (s, f) :: q2) = Some (q1 ++ q2).
Proof.
  induction q1 as [|n q1 IH]; cbn [app map remove_first snd]; [by rewrite decide_True|].
  rewrite not_elem_of_cons. intros [Hne Hin]. rewrite decide_False by done. by rewrite IH.
Qed.

Lemma remove_first_None f q : remove_first f q = None <-> f ∉ map snd q.
Proof.
  induction q as [|n q IH]; cbn; [split; [intros _; apply not_elem_of_nil|done]|].
  rewrite not_elem_of_cons. destruct (decide (snd n = f)) as [->|Hne].
  { split; [done|]. by intros []. }
  rewrite <- IH. destruct (remove_first f q); cbn; [by split; [|intros []]|].
  split; [|done]. intros _. split; [congruence|done].
Qed.

Lemma remove_first_Some f q q' :
  remove_first f q = Some q' -> map snd q ≡ₚ f :: map snd q'.
Proof.
  revert q'. induction q as [|n q IH]; intros q' Hq; cbn in *; [done|].
  destruct (decide (snd n = f)) as [<-|Hne]; [by simplify_eq|].
  destruct (remove_first f q) as [q1|]; [|done]. simplify_eq/=. rewrite (IH q1) by done. constructor.
Qed.
End queue.

Section timers.
Context {D : Type} `{System D}.
Implicit Types h : host D.

(** Getting a node changes nothing but the free list and the system. *)
Lemma safe_timer_alloc Q h :
  (forall n d, Q tt (h <| h_tq_free := n |> <| h_sys := d |>)) -> safe timer_alloc Q h.
Proof.
  intros HQ. unfold timer_alloc. autorewrite with safe. destruct (h_tq_free h) as [|n] eqn:E.
  - autorewrite with safe. destruct (fst (sys_malloc _ _)); [|apply safe_exit].
    rewrite safe_ret. specialize (HQ O (snd (sys_malloc sizeof_timerq (h_sys h)))).
    rewrite <- E in HQ. by destruct h.
  - rewrite safe_hput. specialize (HQ n (h_sys h)). by destruct h.
Qed.

(** In the queue of the daemon, which has at most one other node. *)
Lemma safe_insert_first f secs Q h :
  h_timerq h = [] ->
  (forall n d, Q tt (h <| h_tq_free := n |> <| h_sys := d |> <| h_timerq := [(0, f)] |>
                       <| h_tv_sec := secs |> <| h_tv_usec := 0 |>)) ->
  safe (timer_insert f secs) Q h.
Proof.
  intros Hq HQ. unfold timer_insert. rewrite safe_bind. apply safe_timer_alloc. intros n d.
  autorewrite with safe. upd_simpl. rewrite Hq. autorewrite with safe. apply HQ.
Qed.

Lemma safe_insert_second f g s secs Q h :
  h_timerq h = [(s, g)] -> s <= secs ->
  (forall n d, Q tt (h <| h_tq_free := n |> <| h_sys := d |> <| h_timerq := [(s, g); (secs, f)] |>)) ->
  safe (timer_insert f secs) Q h.
Proof.
  intros Hq Hs HQ. unfold timer_insert. rewrite safe_bind. apply safe_timer_alloc. intros n d.
  autorewrite with safe. upd_simpl. rewrite Hq. cbn [fst].
  rewrite (proj2 (Z.ltb_ge _ _)) by done. rewrite safe_hput. apply HQ.
Qed.

Lemma safe_timer_remove f Q h :
  (forall n q', remove_first f (h_timerq h) = Some q' ->
     Q tt (h <| h_timerq := q' |> <| h_tq_free := n |>)) ->
  (remove_first f (h_timerq h) = None -> Q tt h) ->
  safe (timer_remove f) Q h.
Proof.
  intros HS HN. unfold timer_remove. rewrite safe_bind, safe_hget.
  destruct (remove_first f (h_timerq h)) as [q'|] eqn:E; [|by apply HN].
  autorewrite with safe. by apply HS.
Qed.
End timers.

(** ** Properties *)

Section properties.
Context {D : Type} `{System D}.
Implicit Types h : host D.

(** [C24] When the timers run, as the operations of timer.c leave it. One that is set for
    less than the interval of the first is put before the others and runs in time, and
    they run as if the interval of the first had just begun; one set into an empty queue
    runs in time as well; any other is put behind some timer of the queue, and runs late
    by the interval of that timer, less the interval of the first (which is 0 unless the
    one before it has been taken out); the timers behind it are moved by what separates
    the two. Taking a timer out hastens those behind it, by its interval, or,
    when it is the first one, by that of the next one, which inherits its timeout. When the
    first timer expires alone its function is run once, and the others still run when they
    were to run. *)
Theorem timer_times h :
  let tv := h_tv_sec h in
  let q := h_timerq h in
  let now := due tv q in
  (forall f secs, nonneg q -> 0 <= secs < 2 ^ 31 -> total q < 2 ^ 31 ->
    safe (timer_insert f secs) (fun _ h' =>
      let later := due (h_tv_sec h') (h_timerq h') in
      match q with
      | [] => later = [(secs, f)]
      | n0 :: _ =>
          if secs <? fst n0 then later = (secs, f) :: shift (fst n0 - tv) now
          else exists d1 t k d2 gap, now = d1 ++ (t, k) :: d2 /\ map fst q !! length d1 = Some gap /\
            let t' := tv + (secs - fst n0) + gap in
            later = d1 ++ (t, k) :: (t', f) :: shift (t' - t) d2
      end) h) /\
  (forall f q1 s q2, q = q1 ++ (s, f) :: q2 -> f ∉ map snd q1 ->
    safe (timer_remove f) (fun _ h' => h_tv_sec h' = tv /\
      exists d1 t d2, now = d1 ++ (t, f) :: d2 /\ length d1 = length q1 /\
        due tv (h_timerq h') = d1 ++ shift (- hastened q1 s q2) d2) h) /\
  (forall call n0 rest, q = n0 :: rest -> Forall (fun n => fst n <> 0) (take 1 rest) ->
    exists h1, timer_expiry call h = (call (snd n0);; free ← hget h_tq_free; hput h_tq_free (S free)) h1 /\
      due (h_tv_sec h1) (h_timerq h1) = shift (- tv) (tail now)).
Proof.
  intros tv q now. unfold now, q. split; [|split].
  - intros f secs Hpos Hs Ht. unfold timer_insert. rewrite safe_bind. apply safe_timer_alloc. intros n d.
    autorewrite with safe. upd_simpl. destruct (h_timerq h) as [|n0 rest] eqn:Hq; [by autorewrite with safe|].
    pose proof Hpos as [H0 Hr]%Forall_cons. pose proof (total_nonneg _ Hr) as Htr. unfold total in Ht, Htr. cbn [foldr] in Ht.
    destruct (Z.ltb_spec secs (fst n0)) as [Hlt|Hge]; autorewrite with safe; upd_simpl.
    + rewrite i32_small by lia. cbn [due due_from shift map fst snd]. fold (shift (fst n0 - tv) (due_from tv rest)).
      rewrite <- due_from_shift. f_equal. f_equal; [f_equal; lia|]. f_equal. lia.
    + by apply insert_after_due.
  - intros f q1 s q2 Hq Hf. rewrite Hq. apply safe_timer_remove.
    + intros n q'. rewrite Hq, remove_first_split by done. intros [= <-]. upd_simpl. split; [done|].
      apply remove_due.
    + rewrite Hq, remove_first_split by done. done.
  - intros call n0 rest Hq Hn. unfold timer_expiry, hget. rewrite run_gets, Hq.
    unfold tv. destruct rest as [|n rest]; cbn [last_ready due due_from tail fst snd].
    { eexists. split; [unfold hput; rewrite bind_assoc, !run_modify; reflexivity|]. done. }
    apply Forall_cons in Hn as [Hn _]. rewrite (proj2 (Z.eqb_neq _ _) Hn).
    eexists. split; [unfold hput; rewrite bind_assoc, !run_modify; reflexivity|]. upd_simpl.
    cbn [due fst snd shift map]. fold (shift (- h_tv_sec h) (due_from (h_tv_sec h + fst n) rest)).
    rewrite <- due_from_shift. do 2 f_equal; [f_equal; lia|lia].
Qed.
End properties.

(** ** A system to try things on *)

(** Memory and the line never fail, the clock stands still, a [select] returns when
    the time is over with something to read everywhere, and the reads deliver the given
    pieces. *)
#[export] Instance script_system : System (list (list Z)) := {|
  sys_malloc := fun _ d => (true, d);
  sys_write := fun l d => (Z.of_nat (length l), d);
  sys_read := fun n d => (Some (map u8 (take (Z.to_nat n) (hd [] d))), tl d);
  sys_gettimeofday := fun d => (Some (1728916419, 323578), d);
  sys_time := fun d => (1728916419, d);
  sys_select := fun _ fds _ _ d => (mk_selected (Z.of_nat (size fds)) 0 0 fds, d)
|}.

#[export] Instance script_system_laws : SystemLaws (list (list Z)).
Proof.
  split. intros n d l d' Hn [= <- <-]. split.
  - rewrite length_map, length_take. lia.
  - apply Forall_forall. intros x Hx. apply list_elem_of_fmap in Hx as (y&->&_). apply u8_range.
Qed.

(** The daemon in state [st], with the timers [q]. *)
Definition bench_host (st : Z) (q : list (Z * timer_func)) (d : list (list Z)) : host (list (list Z)) :=
  mk_host st 0 q 0 5 0 (-1) 0 0 (mk_sstatus 0 0 0 0 0 0) (mk_dstatus 0 0 0 0 0) [] [] 3 3 {[3]} None d.

(** Half a minute and a minute after the next status request the state machine is due
    again. A timer set for 40 s runs after 75, behind the second; without the status
    request the others run 30 s earlier. *)
Lemma timer_times_witness :
  let q := [(0, F_dynamic_status_timer); (30, F_state_machine); (30, F_state_machine)] in
  let h := bench_host 11 q [] in
  due (h_tv_sec h) q = [(5, F_dynamic_status_timer); (35, F_state_machine); (65, F_state_machine)] /\
  (exists h' d1 t k d2 gap, timer_insert F_dynamic_status_timer 40 h = Done tt h' /\
    due 5 q = d1 ++ (t, k) :: d2 /\ map fst q !! length d1 = Some gap /\
    due 5 (h_timerq h') = d1 ++ (t, k) :: (45 + gap, F_dynamic_status_timer) :: shift (45 + gap - t) d2) /\
  (exists h', timer_remove F_dynamic_status_timer h = Done tt h' /\
    due 5 (h_timerq h') = [(5, F_state_machine); (35, F_state_machine)]).
Proof.
  intros q h. split; [reflexivity|]. destruct (timer_times h) as (Hi&Hr&_). split.
  - destruct (Hi F_dynamic_status_timer 40 ltac:(by repeat constructor) ltac:(done) ltac:(done))
      as (d1&t&k&d2&gap&Hnow&Hg&Hd).
    eexists _, d1, t, k, d2, gap. split; [reflexivity|]. split; [exact Hnow|]. split; [exact Hg|exact Hd].
  - specialize (Hr F_dynamic_status_timer [] 0 [(30, F_state_machine); (30, F_state_machine)] eq_refl
      ltac:(apply not_elem_of_nil)).
    destruct Hr as [_ (d1&t&d2&Hnow&Hl&Hd)]. destruct d1; [|done].
    eexists. split; [reflexivity|]. injection Hnow as _ <-. exact Hd.
Defined.
