(* ===== verification/LrCommand.v ===== *)
(** lrmon/serial.c (sending) and lrmon/command.c: what the daemon writes to the
    controller. *)

From S2P Require Import Prelude Cmd Packet Lrmon.

(** The size of the line buffer of [send_command]. *)
Definition OBUFFER_SIZE : Z := 1024.

(** The text [send_command] builds: each byte of data after a colon or a comma. *)
Fixpoint data_text (first : bool) (l : list Z) : list Z :=
  match l with
  | [] => []
  | v :: l' => (if first then str ":" else str ",") ++ fmt_d v ++ data_text false l'
  end.

Definition command_text (chan node cmd : Z) (data : list Z) : list Z :=
  str ">" ++ [u8 (chan + 65)] ++ fmt_d node ++ str ":" ++ fmt_d cmd
    ++ data_text true data ++ str ".".

Section lr_command.
Context {D : Type} `{System D}.

(** [write(siofd, msg, len) != len] ends the daemon. *)
Definition sio_write (msg : list Z) : daemon D unit :=
  n ← syscall (sys_write msg);
  if n =? Z.of_nat (length msg) then modify (fun h => h <| h_sent ::= fun l => l ++ msg |>)
  else exit.

Definition sio_send (msg : list Z) : daemon D unit :=
  sio_write msg;;
  sio_write [13; 10].

(** The line and its terminating null must fit the buffer. *)
Definition send_command (chan node cmd : Z) (data : list Z) (dlen : Z) : daemon D unit :=
  if Z.of_nat (length data) <? dlen then fail OutOfBounds
  else
    let text := command_text chan node cmd (take (Z.to_nat dlen) data) in
    if OBUFFER_SIZE <? Z.of_nat (length text) + 1 then fail OutOfBounds
    else sio_send text.

Definition local_activate : daemon D unit :=
  send_command 0 0 RADIO_CMD_ACTIVATE [0; 1; 0] 3.

Definition client_activate (data : list Z) (dlen : Z) : daemon D unit :=
  send_command 0 0 RADIO_CMD_ACTIVATE data dlen.

Definition request_local_status (type : Z) : daemon D unit :=
  sio_send (str ">" ++ [u8 (type + 83)]).

Definition request_client_status (chan node type : Z) : daemon D unit :=
  send_command chan node RADIO_CMD_STATUS [1; 1; type] 3.

(** The three bytes of SET_TIME: the hundredths of a second in the interval of ten
    minutes, high byte first, and the number of the interval in the day. *)
Definition time_data (sec usec : Z) : list Z :=
  let ticks := i32 (Z.rem sec (60 * 60 * 24)) in
  let tod := Z.quot ticks 600 in
  let ticks := i32 (i32 (Z.rem ticks 600 * 100) + Z.quot usec 10000) in
  [Z.land (Z.shiftr ticks 8) 0xff; Z.land ticks 0xff; tod].

Definition set_time : daemon D unit :=
  now ← syscall sys_gettimeofday;
  match now with
  | None => mret tt
  | Some (sec, usec) => send_command 0 1 RADIO_CMD_SET_TIME (time_data sec usec) 3
  end.

Definition set_date : daemon D unit :=
  now ← syscall sys_time;
  let date := i32 (Z.quot now (60 * 60 * 24)) in
  send_command 0 1 RADIO_CMD_SET_DATE [Z.land (Z.shiftr date 8) 0xff; Z.land date 0xff] 2.

Definition set_channel (chan state : Z) : daemon D unit :=
  send_command 0 1 RADIO_CMD_USER0 [chan; state] 2.

Definition reset_controller : daemon D unit := sio_send (str ">R").
End lr_command.

(** ** The length of the lines *)

Lemma digits_bound n b x acc : (length (digits n b x acc) <= n + length acc)%nat.
Proof.
  revert x acc. induction n as [|n IH]; intros x acc; cbn [digits]; [done|].
  case_match; [cbn; lia|]. specialize (IH (x / b) (digit (x mod b) :: acc)). cbn in IH. lia.
Qed.

Lemma fmt_u_bound n : (length (fmt_u n) <= 20)%nat.
Proof. pose proof (digits_bound digits_fuel 10 n []) as Hd. unfold fmt_u. cbn in *. lia. Qed.

Lemma fmt_d_bound n : (length (fmt_d n) <= 21)%nat.
Proof.
  unfold fmt_d. pose proof (fmt_u_bound n). pose proof (fmt_u_bound (- n)).
  case_match; cbn [length]; lia.
Qed.

Lemma data_text_bound b l : (length (data_text b l) <= 22 * length l)%nat.
Proof.
  revert b. induction l as [|v l IH]; intros b; cbn [data_text length]; [done|].
  rewrite !length_app. pose proof (fmt_d_bound v). specialize (IH false).
  change (length (if b then str ":" else str ",")) with (length (if b then [58] else [44])).
  destruct b; cbn [length]; lia.
Qed.

Lemma command_text_bound chan node cmd data :
  (length (command_text chan node cmd data) <= 46 + 22 * length data)%nat.
Proof.
  unfold command_text. rewrite !length_app.
  pose proof (fmt_d_bound node). pose proof (fmt_d_bound cmd). pose proof (data_text_bound true data).
  change (length (str ">")) with 1%nat. change (length (str ":")) with 1%nat.
  change (length (str ".")) with 1%nat. cbn [length]. lia.
Qed.

(** ** What a call sends *)

(** [h'] is [h] after the bytes [out] have been written. *)
Definition wrote {D} (out : list Z) (h h' : host D) : Prop :=
  exists d, h' = h <| h_sent := h_sent h ++ out |> <| h_sys := d |>.

(** A line of text as it goes over the wire. *)
Definition sio_line (msg : list Z) : list Z := msg ++ [13; 10].

Section sending.
Context {D : Type} `{System D}.
Implicit Types h : host D.

Lemma wrote_nil h d : wrote [] h (h <| h_sys := d |>).
Proof. exists d. rewrite app_nil_r. by destruct h. Qed.

Lemma wrote_app o1 o2 h1 h2 h3 : wrote o1 h1 h2 -> wrote o2 h2 h3 -> wrote (o1 ++ o2) h1 h3.
Proof.
  intros [d1 ->] [d2 ->]. exists d2. upd_simpl. rewrite app_assoc. by destruct h1.
Qed.

Lemma safe_sio_write msg h : safe (sio_write msg) (fun _ => wrote msg h) h.
Proof.
  unfold sio_write. autorewrite with safe. destruct (_ =? _); [|apply safe_exit].
  unfold safe, modify. eexists. by destruct h.
Qed.

Lemma safe_sio_send msg h : safe (sio_send msg) (fun _ => wrote (sio_line msg) h) h.
Proof.
  unfold sio_send. rewrite safe_bind. eapply safe_mono; [apply safe_sio_write|].
  intros ? h1 H1. eapply safe_mono; [apply safe_sio_write|]. intros ? h2 H2. exact (wrote_app msg [13; 10] h h1 h2 H1 H2).
Qed.

Lemma safe_send_command chan node cmd data h :
  (length data <= 40)%nat ->
  safe (send_command chan node cmd data (Z.of_nat (length data)))
    (fun _ => wrote (sio_line (command_text chan node cmd data)) h) h.
Proof.
  intros Hl. unfold send_command. rewrite Z.ltb_irrefl, Nat2Z.id, take_ge by done.
  pose proof (command_text_bound chan node cmd data).
  rewrite (proj2 (Z.ltb_ge _ _)) by (unfold OBUFFER_SIZE; lia). apply safe_sio_send.
Qed.

(** SET_TIME is sent unless the clock cannot be read. *)
Definition time_line (msg : list Z) : Prop :=
  msg = [] \/ exists sec usec,
    msg = sio_line (command_text 0 1 RADIO_CMD_SET_TIME (time_data sec usec)).

Definition date_line (msg : list Z) : Prop := exists hi lo,
  msg = sio_line (command_text 0 1 RADIO_CMD_SET_DATE [hi; lo]) /\ is_u8 hi /\ is_u8 lo.

Lemma safe_set_time h : safe set_time (fun _ h' => exists msg, time_line msg /\ wrote msg h h') h.
Proof.
  unfold set_time. autorewrite with safe. set (d := snd (sys_gettimeofday (h_sys h))).
  destruct (fst (sys_gettimeofday (h_sys h))) as [[sec usec]|].
  - eapply safe_mono; [apply (safe_send_command 0 1 RADIO_CMD_SET_TIME (time_data sec usec)); cbn; lia|].
    intros ? h' Hw. exists (sio_line (command_text 0 1 RADIO_CMD_SET_TIME (time_data sec usec))).
    split; [right; by eauto|]. exact (wrote_app [] _ _ _ _ (wrote_nil h d) Hw).
  - exists []. split; [by left|apply wrote_nil].
Qed.

Lemma safe_set_date h : safe set_date (fun _ h' => exists msg, date_line msg /\ wrote msg h h') h.
Proof.
  unfold set_date. autorewrite with safe. set (d := snd (sys_time (h_sys h))).
  set (date := i32 _). set (hi := Z.land (Z.shiftr date 8) 0xff). set (lo := Z.land date 0xff).
  eapply safe_mono; [apply (safe_send_command 0 1 RADIO_CMD_SET_DATE [hi; lo]); cbn; lia|].
  intros ? h' Hw. exists (sio_line (command_text 0 1 RADIO_CMD_SET_DATE [hi; lo])). split.
  - exists hi, lo. split_and!; [done|apply land_ff_u8..].
  - exact (wrote_app [] _ _ _ _ (wrote_nil h d) Hw).
Qed.
End sending.
