(* ===== verification/LrState.v ===== *)
(** lrmon/state.c: the steps by which the daemon brings the controller up. *)

From S2P Require Import Prelude Cmd Packet Lrmon LrCommand.

Definition STATE_UNKNOWN : Z := 0.
Definition STATE_SREQUEST : Z := 1.
Definition STATE_SEND_RESET : Z := 2.
Definition STATE_DREQUEST : Z := 3.
Definition STATE_ACTIVATE : Z := 4.
Definition STATE_SET_TIME : Z := 5.
Definition STATE_SET_DATE : Z := 6.
Definition STATE_ACTIVATE_CH0 : Z := 7.
Definition STATE_ACTIVATE_CH1 : Z := 8.
Definition STATE_ACTIVATE_CH2 : Z := 9.
Definition STATE_ACTIVATE_CH3 : Z := 10.
Definition STATE_READY : Z := 11.

Section lr_state.
Context {D : Type} `{System D}.

Definition state_init : daemon D unit :=
  hput h_state STATE_UNKNOWN;;
  hput h_retries 0;;
  timer_insert F_state_machine 3.

Definition dynamic_status_timer : daemon D unit :=
  request_local_status RADIO_STATUS_DYNAMIC;;
  timer_insert F_dynamic_status_timer 300.

(** [retries++] *)
Definition retry : daemon D unit := n ← hget h_retries; hput h_retries (i32 (n + 1)).

(** The cases of the switch, last first; each returns [next_timeout] and falls
    through to the next by calling it. *)

Definition chstate_of (i : Z) : Z :=
  if i =? 3 then LIBRADIO_CHSTATE_READ else LIBRADIO_CHSTATE_EMPTY.

Definition case_channel : daemon D Z :=
  st ← hget h_state;
  let i := st - STATE_ACTIVATE_CH0 in
  fs ← hget h_failure_status;
  if negb (fs =? 0) then set_channel i (chstate_of i);; retry;; mret 5
  else
    hput h_retries 0;;
    if st =? STATE_ACTIVATE_CH3 then
      hput h_state STATE_READY;;
      dynamic_status_timer;;
      mret 5
    else
      hput h_failure_status (-1);;
      hput h_state (st + 1);;
      set_channel (st + 1 - STATE_ACTIVATE_CH0) (chstate_of i);;
      mret 5.

Definition case_set_date : daemon D Z :=
  fs ← hget h_failure_status;
  if negb (fs =? 0) then set_date;; retry;; mret 5
  else
    hput h_failure_status (-1);;
    hput h_state STATE_ACTIVATE_CH0;;
    hput h_retries 0;;
    case_channel.

Definition case_set_time : daemon D Z :=
  fs ← hget h_failure_status;
  if negb (fs =? 0) then set_time;; retry;; mret 5
  else
    hput h_failure_status (-1);;
    hput h_state STATE_SET_DATE;;
    hput h_retries 0;;
    case_set_date.

Definition case_activate : daemon D Z :=
  fs ← hget h_failure_status;
  if negb (fs =? 0) then local_activate;; retry;; mret 5
  else
    hput h_failure_status (-1);;
    hput h_state STATE_SET_TIME;;
    hput h_retries 0;;
    case_set_time.

Definition case_drequest : daemon D Z :=
  rr ← hget h_response_received;
  if rr =? 0 then request_local_status RADIO_STATUS_DYNAMIC;; retry;; mret 5
  else
    node ← hget h_response_node;
    hput h_retries 0;;
    if node =? 1 then
      hput h_state STATE_SET_TIME;;
      hput h_failure_status (-1);;
      set_time;;
      mret 5
    else
      hput h_state STATE_ACTIVATE;;
      hput h_failure_status (-1);;
      case_activate.

Definition case_srequest : daemon D Z :=
  rr ← hget h_response_received;
  if rr =? 0 then request_local_status RADIO_STATUS_STATIC;; retry;; mret 3
  else
    hput h_state STATE_DREQUEST;;
    hput h_retries 0;;
    hput h_response_received 0;;
    case_drequest.

Definition case_unknown : daemon D Z :=
  hput h_retries 0;;
  hput h_response_received 0;;
  hput h_state STATE_SREQUEST;;
  case_srequest.

Definition case_send_reset : daemon D Z :=
  reset_controller;;
  hput h_state STATE_UNKNOWN;;
  hput h_retries 0;;
  mret 5.

Definition state_switch : daemon D Z :=
  st ← hget h_state;
  if st =? STATE_SEND_RESET then case_send_reset
  else if st =? STATE_UNKNOWN then case_unknown
  else if st =? STATE_SREQUEST then case_srequest
  else if st =? STATE_DREQUEST then case_drequest
  else if st =? STATE_ACTIVATE then case_activate
  else if st =? STATE_SET_TIME then case_set_time
  else if st =? STATE_SET_DATE then case_set_date
  else if (st =? STATE_ACTIVATE_CH0) || (st =? STATE_ACTIVATE_CH1)
          || (st =? STATE_ACTIVATE_CH2) || (st =? STATE_ACTIVATE_CH3) then case_channel
  else hput h_state STATE_UNKNOWN;; mret 600.

Definition state_machine : daemon D unit :=
  timer_remove F_state_machine;;
  st ← hget h_state;
  if st =? STATE_READY then mret tt
  else
    n ← hget h_retries;
    when (10 <? n) (hput h_state STATE_SEND_RESET);;
    next_timeout ← state_switch;
    timer_insert F_state_machine next_timeout.

Definition state_ready : daemon D Z := st ← hget h_state; mret (c_bool (st =? STATE_READY)).

(** The functions of the timer queue. *)
Definition call (f : timer_func) : daemon D unit :=
  match f with
  | F_state_machine => state_machine
  | F_dynamic_status_timer => dynamic_status_timer
  end.
End lr_state.

(** ** What the state machine promises *)

(** The variables the state machine decides by. *)
Record view := mk_view {
  v_state : Z;
  v_retries : Z;
  v_received : Z;
  v_failure : Z;
  v_node : Z
}.

Definition view_of {D} (h : host D) : view :=
  mk_view (h_state h) (h_retries h) (h_response_received h) (h_failure_status h) (h_response_node h).

(** What can be asked of the controller. *)
Inductive request :=
| Q_reset
| Q_status (type : Z)
| Q_activate
| Q_set_time
| Q_set_date
| Q_set_channel (chan chstate : Z).

(** The bytes that ask for it. *)
Definition says (r : option request) (msg : list Z) : Prop :=
  match r with
  | None => msg = []
  | Some Q_reset => msg = sio_line (str ">R")
  | Some (Q_status t) => msg = sio_line (str ">" ++ [u8 (t + 83)])
  | Some Q_activate => msg = sio_line (command_text 0 0 RADIO_CMD_ACTIVATE [0; 1; 0])
  | Some Q_set_time => time_line msg
  | Some Q_set_date => date_line msg
  | Some (Q_set_channel c s) => msg = sio_line (command_text 0 1 RADIO_CMD_USER0 [c; s])
  end.

(** A step: the new variables, the request, and the seconds until the next step if
    nothing is heard. *)
Record step := mk_step { a_view : view; a_ask : option request; a_wait : Z }.

Definition again (v : view) (r : request) (t : Z) : step :=
  mk_step (mk_view (v_state v) (i32 (v_retries v + 1)) (v_received v) (v_failure v) (v_node v)) (Some r) t.

(** The next phase begins with its first request, [n] of which have been made. *)
Definition enter (st n : Z) (v : view) (r : request) : step :=
  mk_step (mk_view st n (v_received v) (-1) (v_node v)) (Some r) 5.

Definition advance (v : view) : step :=
  let st := if 10 <? v_retries v then STATE_SEND_RESET else v_state v in
  if st =? STATE_SEND_RESET then
    mk_step (mk_view STATE_UNKNOWN 0 (v_received v) (v_failure v) (v_node v)) (Some Q_reset) 5
  else if st =? STATE_UNKNOWN then
    mk_step (mk_view STATE_SREQUEST 1 0 (v_failure v) (v_node v)) (Some (Q_status RADIO_STATUS_STATIC)) 3
  else if st =? STATE_SREQUEST then
    if v_received v =? 0 then again v (Q_status RADIO_STATUS_STATIC) 3
    else mk_step (mk_view STATE_DREQUEST 1 0 (v_failure v) (v_node v))
           (Some (Q_status RADIO_STATUS_DYNAMIC)) 5
  else if st =? STATE_DREQUEST then
    if v_received v =? 0 then again v (Q_status RADIO_STATUS_DYNAMIC) 5
    else if v_node v =? 1 then enter STATE_SET_TIME 0 v Q_set_time
    else enter STATE_ACTIVATE 1 v Q_activate
  else if st =? STATE_ACTIVATE then
    if v_failure v =? 0 then enter STATE_SET_TIME 1 v Q_set_time else again v Q_activate 5
  else if st =? STATE_SET_TIME then
    if v_failure v =? 0 then enter STATE_SET_DATE 1 v Q_set_date else again v Q_set_time 5
  else if st =? STATE_SET_DATE then
    if v_failure v =? 0 then
      enter STATE_ACTIVATE_CH0 1 v (Q_set_channel 0 LIBRADIO_CHSTATE_EMPTY)
    else again v Q_set_date 5
  else
    let i := st - STATE_ACTIVATE_CH0 in
    if negb (v_failure v =? 0) then again v (Q_set_channel i (chstate_of i)) 5
    else if i =? 3 then
      mk_step (mk_view STATE_READY 0 (v_received v) 0 (v_node v)) (Some (Q_status RADIO_STATUS_DYNAMIC)) 5
    else enter (st + 1) 0 v (Q_set_channel (i + 1) (chstate_of i)).

(** The controller is up and the timer of the dynamic status runs. *)
Definition ready (v : view) : bool := v_state v =? STATE_READY.

Record went {D} (a : step) (h : host D) (n : Z) (h' : host D) : Prop := {
  went_view : view_of h' = a_view a;
  went_wait : n = a_wait a;
  went_sent : exists msg, says (a_ask a) msg /\ h_sent h' = h_sent h ++ msg;
  went_timers : h_timerq h' = if ready (a_view a) then [(0, F_dynamic_status_timer)] else [];
  went_timeout : ready (a_view a) = true -> h_tv_sec h' = 300;
  went_rest : h_sstatus h' = h_sstatus h /\ h_dstatus h' = h_dstatus h /\ h_buffer h' = h_buffer h
}.

Section machine.
Context {D : Type} `{System D}.
Implicit Types h : host D.

Lemma went_from a h1 h n h' :
  h_sent h1 = h_sent h -> h_sstatus h1 = h_sstatus h -> h_dstatus h1 = h_dstatus h ->
  h_buffer h1 = h_buffer h -> went a h1 n h' -> went a h n h'.
Proof. intros E1 E2 E3 E4 []. by split; rewrite <- ?E1, <- ?E2, <- ?E3, <- ?E4. Qed.

(** Asking (again): the request is sent and counted. *)
Lemma safe_ask (send : daemon D unit) r t h :
  safe send (fun _ h' => exists msg, says (Some r) msg /\ wrote msg h h') h ->
  h_timerq h = [] -> h_state h <> STATE_READY ->
  safe (send;; retry;; mret t) (went (again (view_of h) r t) h) h.
Proof.
  intros Hs Hq Hst. rewrite safe_bind. eapply safe_mono; [exact Hs|].
  intros ? h1 (msg&Hm&d&->). unfold retry. autorewrite with safe. upd_simpl.
  assert (ready (a_view (again (view_of h) r t)) = false) as Hr by by apply Z.eqb_neq.
  split; rewrite ?Hr; try done. by exists msg.
Qed.

Lemma says_status t h :
  safe (request_local_status t) (fun _ h' => exists msg, says (Some (Q_status t)) msg /\ wrote msg h h') h.
Proof. eapply safe_mono; [apply safe_sio_send|]. intros ? h' Hw. eexists. split; [done|exact Hw]. Qed.

Lemma says_activate h :
  safe local_activate (fun _ h' => exists msg, says (Some Q_activate) msg /\ wrote msg h h') h.
Proof.
  eapply safe_mono; [apply (safe_send_command 0 0 RADIO_CMD_ACTIVATE [0; 1; 0]); cbn; lia|].
  intros ? h' Hw. eexists. split; [done|exact Hw].
Qed.

Lemma says_channel c s h :
  safe (set_channel c s)
    (fun _ h' => exists msg, says (Some (Q_set_channel c s)) msg /\ wrote msg h h') h.
Proof.
  eapply safe_mono; [apply (safe_send_command 0 1 RADIO_CMD_USER0 [c; s]); cbn; lia|].
  intros ? h' Hw. eexists. split; [done|exact Hw].
Qed.

(** The step in each phase, while there have not been too many retries. *)
Ltac phase Hr Hst :=
  unfold advance, view_of; cbn [v_retries v_state v_received v_failure v_node];
  rewrite (proj2 (Z.ltb_ge _ _) Hr); rewrite ?Hst; reflexivity.

Lemma advance_channel v :
  v_retries v <= 10 -> STATE_ACTIVATE_CH0 <= v_state v <= STATE_ACTIVATE_CH3 ->
  advance v =
    let i := v_state v - STATE_ACTIVATE_CH0 in
    if negb (v_failure v =? 0) then again v (Q_set_channel i (chstate_of i)) 5
    else if i =? 3 then
      mk_step (mk_view STATE_READY 0 (v_received v) 0 (v_node v)) (Some (Q_status RADIO_STATUS_DYNAMIC)) 5
    else enter (v_state v + 1) 0 v (Q_set_channel (i + 1) (chstate_of i)).
Proof.
  intros Hr Hst. assert (v_state v = 7 \/ v_state v = 8 \/ v_state v = 9 \/ v_state v = 10) as Hcases
    by (unfold STATE_ACTIVATE_CH0, STATE_ACTIVATE_CH3 in *; lia).
  destruct Hcases as [E|[E|[E|E] ] ]; phase Hr E.
Qed.

(** The phases of the channels. *)
Lemma safe_case_channel h :
  h_timerq h = [] -> STATE_ACTIVATE_CH0 <= h_state h <= STATE_ACTIVATE_CH3 -> h_retries h <= 10 ->
  safe case_channel (went (advance (view_of h)) h) h.
Proof.
  intros Hq Hst Hr. rewrite advance_channel by done. cbv zeta.
  change (v_state (view_of h)) with (h_state h). change (v_failure (view_of h)) with (h_failure_status h).
  unfold case_channel. rewrite safe_bind, safe_hget, safe_bind, safe_hget.
  unfold STATE_ACTIVATE_CH0, STATE_ACTIVATE_CH3 in *.
  destruct (Z.eqb_spec (h_failure_status h) 0) as [Ef|]; cbn [negb].
  2: { apply safe_ask; [apply says_channel|done|unfold STATE_READY; lia]. }
  rewrite safe_bind, safe_hput.
  replace (h_state h - 7 =? 3) with (h_state h =? 10) by lia.
  destruct (Z.eqb_spec (h_state h) 10) as [E10|].
  - rewrite safe_bind, safe_hput, safe_bind. unfold dynamic_status_timer. rewrite safe_bind.
    eapply safe_mono; [apply says_status|]. intros ? h1 (msg&Hm&d&->). cbv beta.
    apply safe_insert_first; [done|]. intros n d'. rewrite safe_ret.
    split; [|done|by exists msg|done|done|done]. unfold view_of. upd_simpl. by rewrite Ef.
  - rewrite safe_bind, safe_hput, safe_bind, safe_hput, safe_bind.
    eapply safe_mono; [apply says_channel|]. intros ? h1 (msg&Hm&d&->). cbv beta.
    rewrite safe_ret. unfold enter.
    assert (forall w o t, ready (a_view (mk_step (mk_view (h_state h + 1) 0 w (-1) o) (Some t) 5)) = false) as Hrd
      by (intros; apply Z.eqb_neq; cbn; unfold STATE_READY; lia).
    split; rewrite ?Hrd; try done. exists msg. split; [|done].
    by replace (h_state h - 7 + 1) with (h_state h + 1 - 7) by lia.
Qed.

(** A phase in which a failure is answered by asking again, and success falls
    through to the next phase. *)
Lemma fall_through (next : daemon D Z) st h :
  h_failure_status h = 0 -> h_timerq h = [] ->
  (forall h1, h_timerq h1 = [] -> h_state h1 = st -> h_retries h1 <= 10 ->
     safe next (went (advance (view_of h1)) h1) h1) ->
  safe (hput h_failure_status (-1);; hput h_state st;; hput h_retries 0;; next)
    (went (advance (mk_view st 0 (h_response_received h) (-1) (h_response_node h))) h) h.
Proof.
  intros Hf Hq Hnext. rewrite !safe_bind, safe_hput, safe_bind, safe_hput, safe_bind, safe_hput.
  eapply safe_mono; [apply Hnext; done|]. intros n h' Hw.
  by eapply went_from; [..|exact Hw].
Qed.

Lemma safe_case_set_date h :
  h_timerq h = [] -> h_state h = STATE_SET_DATE -> h_retries h <= 10 ->
  safe case_set_date (went (advance (view_of h)) h) h.
Proof.
  intros Hq Hst Hr. unfold case_set_date. rewrite safe_bind, safe_hget.
  assert (advance (view_of h) = if h_failure_status h =? 0 then
      enter STATE_ACTIVATE_CH0 1 (view_of h) (Q_set_channel 0 LIBRADIO_CHSTATE_EMPTY)
    else again (view_of h) Q_set_date 5) as -> by phase Hr Hst.
  destruct (Z.eqb_spec (h_failure_status h) 0) as [Ef|]; cbn [negb].
  - apply fall_through; [done|done|]. intros h1 Hq1 Hst1 Hr1. apply safe_case_channel; [done| |done].
    by rewrite Hst1.
  - apply safe_ask; [apply safe_set_date|done|by rewrite Hst].
Qed.

Lemma safe_case_set_time h :
  h_timerq h = [] -> h_state h = STATE_SET_TIME -> h_retries h <= 10 ->
  safe case_set_time (went (advance (view_of h)) h) h.
Proof.
  intros Hq Hst Hr. unfold case_set_time. rewrite safe_bind, safe_hget.
  assert (advance (view_of h) = if h_failure_status h =? 0 then
      enter STATE_SET_DATE 1 (view_of h) Q_set_date
    else again (view_of h) Q_set_time 5) as -> by phase Hr Hst.
  destruct (Z.eqb_spec (h_failure_status h) 0) as [Ef|]; cbn [negb].
  - apply fall_through; [done|done|]. apply safe_case_set_date.
  - apply safe_ask; [apply safe_set_time|done|by rewrite Hst].
Qed.

Lemma safe_case_activate h :
  h_timerq h = [] -> h_state h = STATE_ACTIVATE -> h_retries h <= 10 ->
  safe case_activate (went (advance (view_of h)) h) h.
Proof.
  intros Hq Hst Hr. unfold case_activate. rewrite safe_bind, safe_hget.
  assert (advance (view_of h) = if h_failure_status h =? 0 then
      enter STATE_SET_TIME 1 (view_of h) Q_set_time
    else again (view_of h) Q_activate 5) as -> by phase Hr Hst.
  destruct (Z.eqb_spec (h_failure_status h) 0) as [Ef|]; cbn [negb].
  - apply fall_through; [done|done|]. apply safe_case_set_time.
  - apply safe_ask; [apply says_activate|done|by rewrite Hst].
Qed.

Lemma safe_case_drequest h :
  h_timerq h = [] -> h_state h = STATE_DREQUEST -> h_retries h <= 10 ->
  safe case_drequest (went (advance (view_of h)) h) h.
Proof.
  intros Hq Hst Hr. unfold case_drequest. rewrite safe_bind, safe_hget.
  assert (advance (view_of h) = if h_response_received h =? 0 then
      again (view_of h) (Q_status RADIO_STATUS_DYNAMIC) 5
    else if h_response_node h =? 1 then enter STATE_SET_TIME 0 (view_of h) Q_set_time
    else enter STATE_ACTIVATE 1 (view_of h) Q_activate) as -> by phase Hr Hst.
  destruct (h_response_received h =? 0).
  { apply safe_ask; [apply says_status|done|by rewrite Hst]. }
  rewrite safe_bind, safe_hget, safe_bind, safe_hput. destruct (h_response_node h =? 1).
  - rewrite safe_bind, safe_hput, safe_bind, safe_hput, safe_bind.
    eapply safe_mono; [apply safe_set_time|]. intros ? h1 (msg&Hm&d&->). cbv beta. rewrite safe_ret.
    split; try done. by exists msg.
  - rewrite safe_bind, safe_hput, safe_bind, safe_hput.
    set (h1 := h <| h_retries := 0 |> <| h_state := STATE_ACTIVATE |> <| h_failure_status := -1 |>).
    eapply safe_mono; [apply (safe_case_activate h1); done|]. intros n h' Hw.
    by eapply went_from; [..|exact Hw].
Qed.

Lemma safe_case_srequest h :
  h_timerq h = [] -> h_state h = STATE_SREQUEST -> h_retries h <= 10 ->
  safe case_srequest (went (advance (view_of h)) h) h.
Proof.
  intros Hq Hst Hr. unfold case_srequest. rewrite safe_bind, safe_hget.
  assert (advance (view_of h) = if h_response_received h =? 0 then
      again (view_of h) (Q_status RADIO_STATUS_STATIC) 3
    else mk_step (mk_view STATE_DREQUEST 1 0 (h_failure_status h) (h_response_node h))
           (Some (Q_status RADIO_STATUS_DYNAMIC)) 5) as -> by phase Hr Hst.
  destruct (h_response_received h =? 0).
  { apply safe_ask; [apply says_status|done|by rewrite Hst]. }
  rewrite safe_bind, safe_hput, safe_bind, safe_hput, safe_bind, safe_hput.
  set (h1 := h <| h_state := STATE_DREQUEST |> <| h_retries := 0 |> <| h_response_received := 0 |>).
  eapply safe_mono; [apply (safe_case_drequest h1); done|]. intros n h' Hw.
  by eapply went_from; [..|exact Hw].
Qed.

Lemma safe_case_unknown h :
  h_timerq h = [] -> h_state h = STATE_UNKNOWN -> h_retries h <= 10 ->
  safe case_unknown (went (advance (view_of h)) h) h.
Proof.
  intros Hq Hst Hr. unfold case_unknown.
  assert (advance (view_of h) =
    mk_step (mk_view STATE_SREQUEST 1 0 (h_failure_status h) (h_response_node h))
      (Some (Q_status RADIO_STATUS_STATIC)) 3) as -> by phase Hr Hst.
  rewrite safe_bind, safe_hput, safe_bind, safe_hput, safe_bind, safe_hput.
  set (h1 := h <| h_retries := 0 |> <| h_response_received := 0 |> <| h_state := STATE_SREQUEST |>).
  eapply safe_mono; [apply (safe_case_srequest h1); done|]. intros n h' Hw.
  by eapply went_from; [..|exact Hw].
Qed.

Lemma safe_case_send_reset h :
  h_timerq h = [] -> h_state h = STATE_SEND_RESET ->
  safe case_send_reset (went (advance (view_of h)) h) h.
Proof.
  intros Hq Hst. unfold case_send_reset.
  assert (advance (view_of h) =
    mk_step (mk_view STATE_UNKNOWN 0 (h_response_received h) (h_failure_status h) (h_response_node h))
      (Some Q_reset) 5) as ->.
  { unfold advance, view_of. cbn [v_retries v_state]. rewrite Hst. by destruct (10 <? h_retries h). }
  rewrite safe_bind. eapply safe_mono; [apply safe_sio_send|]. intros ? h1 [d ->]. cbv beta.
  rewrite safe_bind, safe_hput, safe_bind, safe_hput, safe_ret.
  split; try done. by exists (sio_line (str ">R")).
Qed.

(** The whole switch. *)
Lemma safe_state_switch h :
  h_timerq h = [] -> STATE_UNKNOWN <= h_state h < STATE_READY ->
  (h_state h <> STATE_SEND_RESET -> h_retries h <= 10) ->
  safe state_switch (went (advance (view_of h)) h) h.
Proof.
  intros Hq Hst Hr. unfold state_switch. rewrite safe_bind, safe_hget.
  destruct (Z.eqb_spec (h_state h) STATE_SEND_RESET); [by apply safe_case_send_reset|].
  specialize (Hr n).
  destruct (Z.eqb_spec (h_state h) STATE_UNKNOWN); [by apply safe_case_unknown|].
  destruct (Z.eqb_spec (h_state h) STATE_SREQUEST); [by apply safe_case_srequest|].
  destruct (Z.eqb_spec (h_state h) STATE_DREQUEST); [by apply safe_case_drequest|].
  destruct (Z.eqb_spec (h_state h) STATE_ACTIVATE); [by apply safe_case_activate|].
  destruct (Z.eqb_spec (h_state h) STATE_SET_TIME); [by apply safe_case_set_time|].
  destruct (Z.eqb_spec (h_state h) STATE_SET_DATE); [by apply safe_case_set_date|].
  unfold STATE_UNKNOWN, STATE_READY, STATE_SEND_RESET, STATE_SREQUEST, STATE_DREQUEST, STATE_ACTIVATE,
    STATE_SET_TIME, STATE_SET_DATE, STATE_ACTIVATE_CH0, STATE_ACTIVATE_CH1, STATE_ACTIVATE_CH2,
    STATE_ACTIVATE_CH3 in *.
  assert ((h_state h =? 7) || (h_state h =? 8) || (h_state h =? 9) || (h_state h =? 10) = true) as -> by lia.
  apply safe_case_channel; [done|unfold STATE_ACTIVATE_CH0, STATE_ACTIVATE_CH3; lia|done].
Qed.

(** *** The timers of the daemon *)

(** What holds of the timers around the state machine: as long as the controller is
    not up nothing but the state machine is scheduled; once it is up the
    dynamic status is. *)
Record scheduled h : Prop := {
  sch_state : STATE_UNKNOWN <= h_state h <= STATE_READY;
  sch_retries : 0 <= h_retries h <= 11;
  sch_buffer : bytes (h_buffer h) /\ (length (h_buffer h) < 1024)%nat;
  sch_timers : if h_state h =? STATE_READY then
      exists s, 0 <= s /\ (h_timerq h = [(s, F_dynamic_status_timer)] \/
                          exists t, 0 < t /\ (h_timerq h = [(s, F_dynamic_status_timer); (t, F_state_machine)] \/
                                              h_timerq h = [(s, F_state_machine); (t, F_dynamic_status_timer)]))
    else h_timerq h = [] \/ exists s, 0 <= s /\ h_timerq h = [(s, F_state_machine)]
}.

(** And the next step of the daemon is scheduled. *)
Definition alive h : Prop := scheduled h /\ (h_state h <> STATE_READY -> h_timerq h <> []).

(** The state machine's own timer taken out of the queue. *)
Lemma sm_removed h :
  scheduled h ->
  safe (timer_remove F_state_machine) (fun _ h' => exists n,
    h' = h <| h_timerq := h_timerq h' |> <| h_tq_free := n |> /\
    if h_state h =? STATE_READY then exists s, 0 <= s /\ h_timerq h' = [(s, F_dynamic_status_timer)]
    else h_timerq h' = []) h.
Proof.
  intros [_ _ _ Ht].
  assert (h = h <| h_timerq := h_timerq h |> <| h_tq_free := h_tq_free h |>) as Esame by by destruct h.
  apply safe_timer_remove; [intros n q' Hq'|intros Hn].
  - exists n. split; [done|]. upd_simpl. destruct (h_state h =? STATE_READY).
    + destruct Ht as (s&Hs&[E|(t&Htt&[E|E])]); rewrite E in Hq'; vm_compute in Hq'; simplify_eq.
      * by exists s.
      * exists t. split; [lia|done].
    + destruct Ht as [E|(s&Hs&E)]; rewrite E in Hq'; vm_compute in Hq'; by simplify_eq.
  - exists (h_tq_free h). split; [done|]. destruct (h_state h =? STATE_READY).
    + destruct Ht as (s&Hs&[E|(t&Htt&[E|E])]); rewrite E in Hn; vm_compute in Hn; simplify_eq. by exists s.
    + destruct Ht as [E|(s&Hs&E)]; [done|]. rewrite E in Hn. by vm_compute in Hn.
Qed.

(** The outcome of a call of the state machine before the controller is up. *)
Record stepped (a : step) h h' : Prop := {
  stepped_view : view_of h' = a_view a;
  stepped_sent : exists msg, says (a_ask a) msg /\ h_sent h' = h_sent h ++ msg;
  stepped_timers : h_timerq h' =
    if ready (a_view a) then [(0, F_dynamic_status_timer); (a_wait a, F_state_machine)]
    else [(0, F_state_machine)];
  stepped_timeout : h_tv_sec h' = if ready (a_view a) then 300 else a_wait a;
  stepped_rest : h_sstatus h' = h_sstatus h /\ h_dstatus h' = h_dstatus h /\ h_buffer h' = h_buffer h
}.

Lemma advance_wait v : 3 <= a_wait (advance v) <= 5.
Proof. unfold advance, again, enter. cbv zeta. repeat case_match; cbn; lia. Qed.

Lemma advance_range v :
  STATE_UNKNOWN <= v_state v < STATE_READY -> 0 <= v_retries v <= 11 ->
  STATE_UNKNOWN <= v_state (a_view (advance v)) <= STATE_READY /\
  0 <= v_retries (a_view (advance v)) <= 11.
Proof.
  intros Hs Hr. unfold advance, again, enter. cbv zeta.
  destruct (Z.ltb_spec 10 (v_retries v)) as [|Hle]; [by cbn|].
  rewrite (i32_small (v_retries v + 1)) by lia.
  unfold STATE_UNKNOWN, STATE_READY, STATE_SEND_RESET, STATE_SREQUEST, STATE_DREQUEST, STATE_ACTIVATE,
    STATE_SET_TIME, STATE_SET_DATE, STATE_ACTIVATE_CH0 in *.
  repeat case_match; cbn [a_view v_state v_retries]; lia.
Qed.

Lemma safe_state_machine h :
  scheduled h -> h_state h <> STATE_READY ->
  safe state_machine (fun _ => stepped (advance (view_of h)) h) h.
Proof.
  intros Hs Hst. unfold state_machine. rewrite safe_bind.
  eapply safe_mono; [by apply sm_removed|]. intros ? h1 (n&E1&Hq1). cbv beta in *.
  rewrite (proj2 (Z.eqb_neq _ _) Hst) in Hq1.
  assert (view_of h1 = view_of h) as Ev by by rewrite E1.
  assert (h_sent h1 = h_sent h /\ h_sstatus h1 = h_sstatus h /\ h_dstatus h1 = h_dstatus h /\
          h_buffer h1 = h_buffer h /\ h_state h1 = h_state h /\ h_retries h1 = h_retries h)
    as (Es&Ess&Eds&Eb&Est&Er) by by rewrite E1.
  clear E1. rewrite safe_bind, safe_hget, Est, (proj2 (Z.eqb_neq _ _) Hst).
  rewrite safe_bind, safe_hget, safe_bind, safe_when. destruct Hs as [Hrange _ _ _].
  assert (STATE_UNKNOWN <= h_state h < STATE_READY) as Hrange' by lia. clear Hrange.
  assert (forall h2 a, h_timerq h2 = [] -> STATE_UNKNOWN <= h_state h2 < STATE_READY ->
            (h_state h2 <> STATE_SEND_RESET -> h_retries h2 <= 10) ->
            advance (view_of h2) = a -> 
            h_sent h2 = h_sent h -> h_sstatus h2 = h_sstatus h -> h_dstatus h2 = h_dstatus h ->
            h_buffer h2 = h_buffer h ->
            safe (next_timeout ← state_switch; timer_insert F_state_machine next_timeout)
              (fun _ => stepped a h) h2) as Hrest.
  { intros h2 st Hq2 Hr2 Hn2 <- E1 E2 E3 E4. rewrite safe_bind.
    eapply safe_mono; [by apply safe_state_switch|]. intros w h3 [Hv -> Hsent Hq Htv Hrest].
    rewrite E1 in Hsent. rewrite E2, E3, E4 in Hrest.
    destruct (ready (a_view (advance (view_of h2)))) eqn:Erd; cbv iota in Hq.
    - apply (safe_insert_second _ F_dynamic_status_timer 0); [done|pose proof (advance_wait (view_of h2)); lia|].
      intros n' d. split; rewrite ?Erd; try done. upd_simpl. by apply Htv.
    - apply safe_insert_first; [done|]. intros n' d. split; rewrite ?Erd; done. }
  destruct (Z.ltb_spec 10 (h_retries h)) as [Hlt|Hge]; rewrite Er.
  - rewrite (proj2 (Z.ltb_lt _ _) Hlt), safe_hput. apply Hrest; try done.
    unfold view_of in Ev. injection Ev as _ _ Ev1 Ev2 Ev3.
    unfold advance, view_of. upd_simpl. cbn [v_retries v_state v_received v_failure v_node].
    by rewrite Er, Ev1, Ev2, Ev3, (proj2 (Z.ltb_lt _ _) Hlt).
  - rewrite (proj2 (Z.ltb_ge _ _) Hge). apply Hrest; try done; [by rewrite Est|by rewrite Er|by rewrite Ev].
Qed.

Lemma stepped_alive h h' :
  scheduled h -> h_state h <> STATE_READY -> stepped (advance (view_of h)) h h' -> alive h'.
Proof.
  intros Hs Hst [Hv _ Ht _ (_&_&Hb)].
  destruct (advance_range (view_of h)) as [Hr1 Hr2]; [pose proof (sch_state h Hs); cbn; lia|apply Hs|].
  rewrite <- Hv in Ht, Hr1, Hr2. unfold ready in Ht.
  change (v_state (view_of h')) with (h_state h') in *. change (v_retries (view_of h')) with (h_retries h') in *.
  pose proof (advance_wait (view_of h)). destruct Hs as [_ _ Hbuf _].
  split; [split; [done|done|by rewrite Hb|]|].
  - destruct (h_state h' =? STATE_READY).
    + exists 0. split; [done|]. right. eexists. split; [|left; exact Ht]. lia.
    + right. by exists 0.
  - intros Hne. rewrite (proj2 (Z.eqb_neq _ _) Hne) in Ht. by rewrite Ht.
Qed.

(** Once the controller is up, the state machine has nothing left to do. *)
Lemma ready_state_machine h :
  scheduled h -> h_state h = STATE_READY ->
  safe state_machine (fun _ h' => alive h' /\ h_state h' = STATE_READY /\
    h_sstatus h' = h_sstatus h /\ h_dstatus h' = h_dstatus h) h.
Proof.
  intros Hs E. unfold state_machine. rewrite safe_bind. eapply safe_mono; [by apply sm_removed|].
  intros ? h1 (n&E1&Hq). cbv beta in *. rewrite (proj2 (Z.eqb_eq _ _) E) in Hq.
  assert (h_state h1 = STATE_READY /\ h_retries h1 = h_retries h /\ h_buffer h1 = h_buffer h /\
          h_sstatus h1 = h_sstatus h /\ h_dstatus h1 = h_dstatus h)
    as (Est&Er&Eb&Es&Ed) by (rewrite E1; by split_and!). clear E1.
  rewrite safe_bind, safe_hget, Est, Z.eqb_refl, safe_ret. destruct Hs as [Hrange Hret Hbuf _].
  split; [|done]. split; [|by rewrite Est]. split; rewrite ?Est, ?Er, ?Eb; try done. rewrite Z.eqb_refl.
  destruct Hq as (s&Hs&Hq). exists s. split; [done|by left].
Qed.

(** The state machine leaves the next step scheduled, whatever it has been called for. *)
Lemma alive_state_machine h : scheduled h -> safe state_machine (fun _ => alive) h.
Proof.
  intros Hs. destruct (Z.eq_dec (h_state h) STATE_READY) as [E|E].
  - eapply safe_mono; [by apply ready_state_machine|]. by intros ? h' [? _].
  - eapply safe_mono; [by apply safe_state_machine|]. intros ? h' Hst. by eapply stepped_alive.
Qed.

(** It does not touch what is known of the controller. *)
Lemma state_machine_keeps h :
  scheduled h -> safe state_machine (fun _ h' =>
    alive h' /\ h_sstatus h' = h_sstatus h /\ h_dstatus h' = h_dstatus h) h.
Proof.
  intros Hs. destruct (Z.eq_dec (h_state h) STATE_READY) as [E|E].
  - eapply safe_mono; [by apply ready_state_machine|]. by intros ? h' (?&_&?&?).
  - eapply safe_mono; [by apply safe_state_machine|]. intros ? h' Hst.
    split; [by eapply stepped_alive|]. by destruct Hst as [_ _ _ _ (?&?&_)].
Qed.

(** The other timer, once the controller is up. *)
Lemma alive_dynamic_status_timer h :
  h_state h = STATE_READY -> 0 <= h_retries h <= 11 ->
  bytes (h_buffer h) /\ (length (h_buffer h) < 1024)%nat ->
  h_timerq h = [] \/ h_timerq h = [(0, F_state_machine)] ->
  safe dynamic_status_timer (fun _ => alive) h.
Proof.
  intros Hst Hr Hb Hq. unfold dynamic_status_timer. rewrite safe_bind.
  eapply safe_mono; [apply says_status|]. intros ? h1 (msg&_&d&->). cbv beta.
  destruct Hq as [Hq|Hq].
  - apply safe_insert_first; [done|]. intros n d'. split; [|done].
    split; upd_simpl; rewrite ?Hst; try done. exists 0. split; [done|by left].
  - apply (safe_insert_second _ F_state_machine 0); [done|done|]. intros n d'. split; [|done].
    split; upd_simpl; rewrite ?Hst; try done. exists 0. split; [done|]. right. exists 300. split; [done|by right].
Qed.

(** An expired timer: its function runs, and the daemon stays alive. *)
Lemma alive_timer_expiry h : alive h -> safe (timer_expiry call) (fun _ => alive) h.
Proof.
  intros [ [Hrange Hret Hbuf Ht] Hne]. unfold timer_expiry. rewrite safe_bind, safe_hget.
  assert (forall f h1, safe (call f) (fun _ => alive) h1 ->
    safe (call f;; free ← hget h_tq_free; hput h_tq_free (S free)) (fun _ => alive) h1) as Hfree.
  { intros f h1 Hc. rewrite safe_bind. eapply safe_mono; [exact Hc|]. intros ? h2 [ [] ?].
    rewrite safe_bind, safe_hget, safe_hput. by split; [split|]. }
  destruct (Z.eqb_spec (h_state h) STATE_READY) as [E|E].
  - destruct Ht as (s&Hs&[Eq|(t&Htt&[Eq|Eq])]); rewrite Eq; cbn [last_ready fst snd].
    + rewrite !safe_bind, !safe_hput. apply Hfree. apply alive_dynamic_status_timer; [done..|by left].
    + rewrite (proj2 (Z.eqb_neq t 0)) by lia. rewrite !safe_bind, !safe_hput. apply Hfree.
      apply alive_dynamic_status_timer; [done..|by right].
    + rewrite (proj2 (Z.eqb_neq t 0)) by lia. rewrite !safe_bind, !safe_hput. apply Hfree.
      apply alive_state_machine. split; try done. upd_simpl. rewrite (proj2 (Z.eqb_eq _ _) E).
      exists 0. split; [done|by left].
  - destruct Ht as [Eq|(s&Hs&Eq)]; [by destruct (Hne E)|]. rewrite Eq. cbn [last_ready fst snd].
    rewrite !safe_bind, !safe_hput. apply Hfree. apply alive_state_machine. split; try done.
    upd_simpl. rewrite (proj2 (Z.eqb_neq _ _) E). by left.
Qed.

(** *** Progress *)

(** How far the controller has been brought up. *)
Definition phase_of (st : Z) : Z :=
  if st =? STATE_SREQUEST then 1 else if st =? STATE_DREQUEST then 2
  else if st <? STATE_ACTIVATE then 0 else st - 1.

(** The request of the present phase has been answered. *)
Definition answered (v : view) : bool :=
  if (v_state v =? STATE_SREQUEST) || (v_state v =? STATE_DREQUEST) then negb (v_received v =? 0)
  else v_failure v =? 0.

Lemma advance_phase v :
  STATE_ACTIVATE <= v_state v < STATE_READY \/ v_state v = STATE_SREQUEST \/ v_state v = STATE_DREQUEST ->
  v_retries v <= 10 ->
  if answered v then phase_of (v_state v) < phase_of (v_state (a_view (advance v)))
  else v_state (a_view (advance v)) = v_state v.
Proof.
  intros Hs Hr. unfold advance, answered. rewrite (proj2 (Z.ltb_ge _ _) Hr).
  unfold again, enter, phase_of, STATE_UNKNOWN, STATE_READY, STATE_SEND_RESET, STATE_SREQUEST, STATE_DREQUEST,
    STATE_ACTIVATE, STATE_SET_TIME, STATE_SET_DATE, STATE_ACTIVATE_CH0 in *.
  cbv zeta. destruct Hs as [Hs|[Hs|Hs] ]; repeat case_match; cbn [a_view v_state] in *; lia.
Qed.
End machine.

(** ** Properties *)

Section properties.
Context {D : Type} `{System D}.
Implicit Types h : host D.

(** [C15] Until the controller is up, a call of the state machine does exactly one step
    of the bring-up: it asks for what the phase is waiting for, or for the first
    thing of the next phase if the answer has come, resets the controller after
    more than ten tries, counts, and has itself called again after the seconds of
    the phase; nothing else changes. *)
Theorem machine_refines h :
  scheduled h -> h_state h <> STATE_READY ->
  safe state_machine (fun _ => stepped (advance (view_of h)) h) h.
Proof. apply safe_state_machine. Qed.

(** The bring-up ends with the next status request due, and the state machine five
    seconds behind it. When the request has been sent, its answer makes the state machine
    leave the queue, so that the request after it inherits those five seconds: it is
    repeated then, and not after the 300 seconds it was set for. *)
Theorem second_request_early h :
  h_state h = STATE_READY -> h_timerq h = [(0, F_dynamic_status_timer); (5, F_state_machine)] ->
  safe (timer_expiry call) (fun _ h1 =>
    due (h_tv_sec h1) (h_timerq h1) = [(5, F_state_machine); (305, F_dynamic_status_timer)] /\
    safe state_machine (fun _ h2 => due (h_tv_sec h2) (h_timerq h2) = [(5, F_dynamic_status_timer)]) h1) h.
Proof.
  intros Hst Hq. unfold timer_expiry. rewrite safe_bind, safe_hget, Hq. cbn [last_ready fst snd Z.eqb].
  rewrite !safe_bind, !safe_hput. cbn [call]. unfold dynamic_status_timer. rewrite safe_bind.
  rewrite safe_bind. eapply safe_mono; [apply says_status|]. intros ? h1 (msg&_&d&->). cbv beta.
  apply (safe_insert_second _ F_state_machine 0); [done|done|]. intros n d'. cbv beta.
  rewrite safe_bind, safe_hget, safe_hput. upd_simpl. split; [done|].
  unfold state_machine. rewrite safe_bind. apply safe_timer_remove; [|done].
  intros n' q' [= <-]. rewrite safe_bind, safe_hget. upd_simpl. rewrite Hst. done.
Qed.
End properties.

(** ** An instance *)

Lemma machine_refines_witness :
  let h := bench_host STATE_SET_TIME [(0, F_state_machine)] [] in
  safe state_machine (fun _ => stepped (advance (view_of h)) h) h.
Proof.
  apply (machine_refines (bench_host STATE_SET_TIME [(0, F_state_machine)] [])); [|done].
  split; [done|done|by split; [constructor|cbn; lia]|]. right. by exists 0.
Defined.
