(* ===== verification/LrInput.v ===== *)
(** lrmon/response.c, lrmon/main.c and the reading half of lrmon/serial.c: from the
    bytes of the serial line to the state machine, and the main loop. *)

From S2P Require Import Prelude Cmd Packet Lrmon LrCommand LrState.

(** ** The C library on strings

    A string is the list of its characters before the null. *)

(** A plain [char] of the host is signed. *)
Definition i8 (x : Z) : Z := (x + 128) mod 256 - 128.

(** The character a pointer into a string points to. *)
Definition char_at (l : list Z) : Z := i8 (hd 0 l).

Definition is_space (c : Z) : bool := (c =? 32) || ((9 <=? c) && (c <=? 13)).

Fixpoint skip_spaces (l : list Z) : list Z :=
  match l with
  | c :: l' => if is_space c then skip_spaces l' else l
  | [] => []
  end.

Fixpoint leading_digits (l : list Z) : list Z :=
  match l with
  | c :: l' => if is_digit c then c :: leading_digits l' else []
  | [] => []
  end.

(** [strtol] saturates at the limits of a [long]. *)
Definition clamp_long (x : Z) : Z := Z.max (- 2 ^ 63) (Z.min (2 ^ 63 - 1) x).

Definition sign_of (l : list Z) : bool * list Z :=
  match l with
  | c :: l' => if c =? 45 then (true, l') else if c =? 43 then (false, l') else (false, l)
  | [] => (false, [])
  end.

Definition atoi (s : list Z) : Z :=
  let '(neg, l) := sign_of (skip_spaces s) in
  let v := undec (leading_digits l) in
  i32 (clamp_long (if neg then - v else v)).

(** [strchr]: the string up to the first [c], and what is behind it. *)
Fixpoint split_at (c : Z) (l : list Z) : list Z * option (list Z) :=
  match l with
  | [] => ([], None)
  | x :: l' =>
      if x =? c then ([], Some l')
      else let '(a, b) := split_at c l' in (x :: a, b)
  end.

(** ** main.c: crack *)

(** The fields of the line, at most [nargs]; the rest of the line is dropped. *)
Fixpoint crack (line : list Z) (nargs : nat) (delim : Z) : list (list Z) :=
  match nargs with
  | O => []
  | S n =>
      match split_at delim line with
      | (a, None) => [a]
      | (a, Some line') => a :: crack line' n delim
      end
  end.

(** ** response.c *)

Definition quoted (s : string) : list Z := [34] ++ str s ++ [34].

Definition json_text (chan node ticks : Z) (argp : list Z) : list Z :=
  str "{" ++ quoted "chan" ++ str ":" ++ fmt_d chan ++ str "," ++ quoted "node" ++ str ":"
    ++ fmt_d node ++ str "," ++ quoted "cmd" ++ str ":" ++ fmt_d RADIO_STATUS_RESPONSE
    ++ str "," ++ quoted "ticks" ++ str ":" ++ fmt_d ticks ++ str "," ++ quoted "data"
    ++ str ":[" ++ argp ++ str "]}".

(** [(a << 8) | b] on ints that [atoi] has read, unchecked. The shift of a negative number
    or out of the range of [int], which C leaves undefined, keeps the low 32 bits, as gcc
    documents it; no theorem depends on that case. *)
Definition join_ints (a b : Z) : Z := Z.lor (i32 (Z.shiftl a 8)) b.

Definition static_of (idata : list Z) : option sstatus :=
  match idata with
  | [0; c1; c2; n1; n2; fh; fl] => Some (mk_sstatus (i8 c1) (i8 c2) (i8 n1) (i8 n2) (i8 fh) (i8 fl))
  | _ => None
  end.

Definition dynamic_of (idata : list Z) : option dstatus :=
  match idata with
  | [1; st; tom; bh; bl; rh; rl; th; tl] =>
      Some (mk_dstatus (i8 st) (i8 tom) (join_ints bh bl) (join_ints rh rl) (join_ints th tl))
  | _ => None
  end.

Section lr_input.
Context {D : Type} `{System D}.

(** rmq.c: the message is logged; sending it is compiled out. *)
Definition rmq_publish (msg : list Z) : daemon D unit := mret tt.

Definition local_response (argp : list Z) : daemon D unit :=
  let idata := map atoi (crack argp 16 44) in
  match static_of idata with
  | Some s => hput h_sstatus s
  | None => mret tt
  end;;
  match dynamic_of idata with
  | Some d => hput h_dstatus d
  | None => mret tt
  end.

(** The text is written to a buffer of 64 bytes more than the data. *)
Definition response (chan node ticks : Z) (argp : list Z) : daemon D unit :=
  rr ← hget h_response_received;
  hput h_response_received (i32 (rr + 1));;
  hput h_response_node node;;
  let size := Z.of_nat (length argp) + 64 in
  ok ← syscall (sys_malloc size);
  if negb ok then exit
  else if size <? Z.of_nat (length (json_text chan node ticks argp)) + 1 then fail OutOfBounds
  else
    rmq_publish (json_text chan node ticks argp);;
    when (node <? 2) (local_response argp).

(** main.c: parse_data *)

Definition parse_failure (data : list Z) : daemon D unit :=
  let code := atoi (fst (split_at 47 data)) in
  hput h_failure_status (if code <? 1 then 99 else code);;
  state_machine.

Definition parse_response (data : list Z) : daemon D unit :=
  match crack data 8 58 with
  | [a0; a1; a2; a3] =>
      let chan := char_at a0 - 65 in
      if (chan <? 0) || (15 <? chan) then mret tt
      else
        let node := atoi (tl a0) in
        if (node <? 0) || (255 <? node) then mret tt
        else
          let ticks := atoi a1 in
          if ticks <? 0 then mret tt
          else
            let cmd := atoi a2 in
            if (cmd <? 0) || (255 <? cmd) then mret tt
            else when (cmd =? RADIO_STATUS_RESPONSE) (
              hput h_failure_status 0;;
              response chan node ticks a3;;
              state_machine)
  | _ => mret tt
  end.

Definition parse_data (data : list Z) : daemon D unit :=
  if negb (char_at data =? 60) then mret tt
  else
    let data := tl data in
    if char_at data =? 43 then
      hput h_failure_status 0;;
      state_machine
    else if char_at data =? 45 then parse_failure (tl data)
    else parse_response data.
End lr_input.

(** ** serial.c: process_sio *)

Definition BUFFER_SIZE : Z := 1024.

Definition is_eol (c : Z) : bool := (c =? 13) || (c =? 10).

(** The string at the beginning of the buffer. *)
Definition c_string (l : list Z) : list Z := fst (split_at 0 l).

(** [strpbrk]: the line before the first end of line, and what is behind it. *)
Fixpoint split_line (l : list Z) : option (list Z * list Z) :=
  match l with
  | [] => None
  | c :: l' =>
      if is_eol c then Some ([], l')
      else match split_line l' with
           | None => None
           | Some (a, b) => Some (c :: a, b)
           end
  end.

Fixpoint skip_eols (l : list Z) : list Z :=
  match l with
  | c :: l' => if is_eol c then skip_eols l' else l
  | [] => []
  end.

Section lr_loop.
Context {D : Type} `{System D}.

(** The loop over the lines of the buffer; it returns what is left over. Each round
    consumes the end of a line, so as much fuel as there are bytes is enough. *)
Fixpoint sio_lines (fuel : nat) (text : list Z) : daemon D (list Z) :=
  match fuel with
  | O => mret text
  | S fuel' =>
      match split_line text with
      | None => mret text
      | Some (line, rest) =>
          when (negb (bool_decide (line = []))) (parse_data line);;
          sio_lines fuel' (skip_eols rest)
      end
  end.

Definition process_sio : daemon D unit :=
  buffer ← hget h_buffer;
  got ← syscall (sys_read (BUFFER_SIZE - Z.of_nat (length buffer) - 1));
  match got with
  | None => exit
  | Some [] => mret tt
  | Some l =>
      let buffer := buffer ++ l in
      if BUFFER_SIZE <=? Z.of_nat (length buffer) then fail OutOfBounds
      else
        let text := c_string buffer in
        rest ← sio_lines (length text) text;
        hput h_buffer rest
  end.

(** ** main.c: the main loop *)

(** A round of the loop. *)
Definition main_pass : daemon D unit :=
  maxfd ← hget h_maxfd;
  rfds ← hget h_mrfds;
  sec ← hget h_tv_sec;
  usec ← hget h_tv_usec;
  r ← syscall (sys_select (i32 (maxfd + 1)) rfds sec usec);
  hput h_tv_sec (sel_sec r);;
  hput h_tv_usec (sel_usec r);;
  if sel_n r <? 0 then exit
  else
    when ((sel_sec r =? 0) && (sel_usec r =? 0)) (timer_expiry call);;
    if sel_n r =? 0 then mret tt
    else
      siofd ← hget h_siofd;
      when (bool_decide (siofd ∈ sel_ready r)) process_sio.

(** The first [n] rounds of the loop, which has no end. *)
Fixpoint main_loop (n : nat) : daemon D unit :=
  match n with
  | O => mret tt
  | S n' => main_pass;; main_loop n'
  end.
End lr_loop.

(** ** Safety: the daemon stays alive *)

Lemma atoi_range s : - 2 ^ 31 <= atoi s < 2 ^ 31.
Proof.
  unfold atoi. destruct (sign_of (skip_spaces s)) as [neg l]. unfold i32.
  pose proof (Z.mod_pos_bound (clamp_long (if neg then - undec (leading_digits l)
    else undec (leading_digits l)) + 2147483648) 4294967296 ltac:(done)). lia.
Qed.

Lemma fmt_d_length k n :
  0 <= n < 10 ^ Z.of_nat k -> (1 <= k)%nat -> (length (fmt_d n) <= k)%nat.
Proof. intros Hn Hk. rewrite fmt_d_u by lia. by apply fmt_u_length. Qed.

(** The message for the broker fits its buffer. *)
Lemma json_fits chan node ticks argp :
  0 <= chan <= 15 -> 0 <= node <= 255 -> 0 <= ticks < 2 ^ 31 ->
  (length (json_text chan node ticks argp) < length argp + 64)%nat.
Proof.
  intros Hc Hn Ht. unfold json_text. rewrite !length_app.
  pose proof (fmt_d_length 2 chan ltac:(lia) ltac:(lia)).
  pose proof (fmt_d_length 3 node ltac:(lia) ltac:(lia)).
  pose proof (fmt_d_length 10 ticks ltac:(lia) ltac:(lia)).
  repeat match goal with
  | |- context [length (str ?s)] =>
      let n := eval vm_compute in (length (str s)) in change (length (str s)) with n
  | |- context [length (quoted ?s)] =>
      let n := eval vm_compute in (length (quoted s)) in change (length (quoted s)) with n
  end.
  change (length (fmt_d RADIO_STATUS_RESPONSE)) with 1%nat. lia.
Qed.

Section alive.
Context {D : Type} `{System D}.
Implicit Types h : host D.

(** What the timers and the reading depend on. *)
Definition core h := (h_state h, h_retries h, h_timerq h, h_buffer h).

Lemma alive_core h h' : core h' = core h -> alive h -> alive h'.
Proof.
  intros E [ [] ?]. unfold core in E. injection E as E1 E2 E3 E4.
  split; [|by rewrite E1, E3]. split; rewrite ?E1, ?E2, ?E3, ?E4; done.
Qed.

Lemma safe_local_response argp h :
  safe (local_response argp) (fun _ h' => core h' = core h) h.
Proof.
  unfold local_response. rewrite safe_bind.
  destruct (static_of _), (dynamic_of _); done.
Qed.

Lemma safe_response chan node ticks argp h :
  0 <= chan <= 15 -> 0 <= node <= 255 -> 0 <= ticks < 2 ^ 31 ->
  safe (response chan node ticks argp) (fun _ h' => core h' = core h) h.
Proof.
  intros Hc Hn Ht. unfold response.
  rewrite safe_bind, safe_hget, safe_bind, safe_hput, safe_bind, safe_hput. cbv zeta.
  rewrite safe_bind, safe_syscall. case_match; [apply safe_exit|].
  pose proof (json_fits chan node ticks argp Hc Hn Ht).
  rewrite (proj2 (Z.ltb_ge _ _)) by lia. unfold rmq_publish.
  rewrite safe_bind, safe_ret, safe_when. case_match; [|done].
  eapply safe_mono; [apply safe_local_response|]. intros ? h' E. exact E.
Qed.

Lemma safe_then_machine (c : daemon D unit) h :
  alive h -> safe c (fun _ h' => core h' = core h) h -> safe (c;; state_machine) (fun _ => alive) h.
Proof.
  intros Hm Hc. rewrite safe_bind. eapply safe_mono; [exact Hc|]. intros ? h' E.
  apply alive_state_machine. by apply (alive_core h).
Qed.

Lemma alive_parse_response data h : alive h -> safe (parse_response data) (fun _ => alive) h.
Proof.
  intros Hm. unfold parse_response.
  destruct (crack data 8 58) as [|a0 [|a1 [|a2 [|a3 [|] ] ] ] ]; try done.
  set (chan := char_at a0 - 65). set (node := atoi (tl a0)). set (ticks := atoi a1). cbv zeta.
  destruct ((chan <? 0) || (15 <? chan)) eqn:Ec; [done|].
  destruct ((node <? 0) || (255 <? node)) eqn:En; [done|].
  destruct (ticks <? 0) eqn:Et; [done|]. case_match; [done|].
  rewrite safe_when. case_match; [|done].
  pose proof (atoi_range a1) as Hr. fold ticks in Hr.
  set (h1 := h <| h_failure_status := 0 |>).
  rewrite safe_bind, safe_hput. change (safe (response chan node ticks a3;; state_machine) (fun _ => alive) h1).
  apply safe_then_machine; [by apply (alive_core h)|]. apply safe_response; lia.
Qed.

Lemma alive_parse_data data h : alive h -> safe (parse_data data) (fun _ => alive) h.
Proof.
  intros Hm. unfold parse_data. case_match; [done|]. cbv zeta. case_match.
  { by apply safe_then_machine. }
  case_match; [|by apply alive_parse_response]. unfold parse_failure. cbv zeta.
  by apply safe_then_machine.
Qed.

(** *** Reading the line *)

Lemma split_line_Some l a b :
  split_line l = Some (a, b) -> exists e, is_eol e = true /\ l = a ++ e :: b /\ Forall (fun c => is_eol c = false) a.
Proof.
  revert a. induction l as [|c l IH]; intros a Hl; cbn in *; [done|].
  destruct (is_eol c) eqn:Ec; [simplify_eq; by exists c|].
  destruct (split_line l) as [ [a' b']|]; [|done]. simplify_eq.
  destruct (IH a' eq_refl) as (e&He&->&Ha). exists e. split_and!; [done|done|by constructor].
Qed.

Lemma skip_eols_suffix l : exists p, l = p ++ skip_eols l /\ Forall (fun c => is_eol c = true) p.
Proof.
  induction l as [|c l IH]; cbn; [by exists []|]. destruct (is_eol c) eqn:E; [|by exists []].
  destruct IH as (p&Ep&Hp). exists (c :: p). rewrite Ep at 1. split; [done|by constructor].
Qed.

Lemma alive_sio_lines n text h :
  alive h -> bytes text ->
  safe (sio_lines n text) (fun rest h' => alive h' /\ bytes rest /\ (length rest <= length text)%nat) h.
Proof.
  revert text h. induction n as [|n IH]; intros text h Hm Hb; cbn [sio_lines]; [done|].
  destruct (split_line text) as [ [line rest]|] eqn:E; [|done].
  apply split_line_Some in E as (e&_&->&_). apply bytes_app in Hb as [_ [_ Hb]%Forall_cons].
  destruct (skip_eols_suffix rest) as (p&Ep&_).
  rewrite safe_bind. apply (safe_mono _ (fun _ => alive)).
  { rewrite safe_when. case_match; [by apply alive_parse_data|done]. }
  intros ? h1 Hm1. eapply safe_mono; [apply (IH (skip_eols rest) h1); [done|]|].
  - rewrite Ep in Hb. by apply bytes_app in Hb as [_ ?].
  - intros r h2 (?&?&Hl). split_and!; [done|done|]. rewrite length_app. cbn [length].
    rewrite Ep, length_app. lia.
Qed.

Lemma c_string_prefix l : exists r, l = c_string l ++ r.
Proof.
  unfold c_string. induction l as [|c l [r Hr]]; cbn [split_at]; [by exists []|].
  destruct (c =? 0); [by exists (c :: l)|]. destruct (split_at 0 l) as [a b]. cbn in *.
  exists r. by rewrite <- Hr.
Qed.

Lemma alive_process_sio `{!SystemLaws D} h : alive h -> safe process_sio (fun _ => alive) h.
Proof.
  intros Hm. unfold process_sio. rewrite safe_bind, safe_hget, safe_bind, safe_syscall.
  pose proof (sch_buffer h (proj1 Hm)) as [Hb Hl]. set (n := BUFFER_SIZE - _ - 1).
  pose proof (read_bound n (h_sys h)) as Hread.
  destruct (sys_read n (h_sys h)) as [got d]. cbn [fst snd].
  destruct got as [ [|c l]|]; [by apply (alive_core h)| |apply safe_exit].
  destruct (Hread (c :: l) d) as [Hlen Hbytes]; [unfold n, BUFFER_SIZE; lia|done|].
  cbv zeta. set (buffer := h_buffer h ++ c :: l).
  assert (bytes buffer) as Hbb by by apply bytes_app.
  assert (length buffer < 1024)%nat as Hbl.
  { unfold buffer, n, BUFFER_SIZE in *. rewrite length_app. lia. }
  rewrite (proj2 (Z.leb_gt _ _)) by (unfold BUFFER_SIZE; lia).
  destruct (c_string_prefix buffer) as [r Hr].
  assert (bytes (c_string buffer) /\ (length (c_string buffer) <= length buffer)%nat) as [Hcb Hcl].
  { split; [rewrite Hr in Hbb; by apply bytes_app in Hbb as [? _]|]. rewrite Hr at 2. rewrite length_app. lia. }
  rewrite safe_bind. eapply safe_mono; [apply (alive_sio_lines _ _ (h <| h_sys := d |>)); [by apply (alive_core h)|done]|].
  intros rest h1 ([ [] Hne]&Hrb&Hrl). rewrite safe_hput. split; [|done]. split; try done.
  split; [done|]. upd_simpl. lia.
Qed.

Lemma alive_main_pass `{!SystemLaws D} h : alive h -> safe main_pass (fun _ => alive) h.
Proof.
  intros Hm. unfold main_pass. rewrite !safe_bind. autorewrite with safe.
  destruct (sys_select _ _ _ _ (h_sys h)) as [r d]. cbn [fst snd].
  set (h1 := _ <| h_tv_usec := _ |>).
  assert (alive h1) as Hm1 by by apply (alive_core h). case_match; [apply safe_exit|].
  rewrite safe_bind. apply (safe_mono _ (fun _ => alive)).
  { rewrite safe_when. case_match; [by apply alive_timer_expiry|done]. }
  intros ? h2 Hm2. case_match; [done|]. rewrite safe_bind, safe_hget, safe_when.
  case_match; [by apply alive_process_sio|done].
Qed.

Lemma alive_main_loop `{!SystemLaws D} n h : alive h -> safe (main_loop n) (fun _ => alive) h.
Proof.
  revert h. induction n as [|n IH]; intros h Hm; cbn [main_loop]; [done|].
  rewrite safe_bind. eapply safe_mono; [by apply alive_main_pass|]. intros ? h1. apply IH.
Qed.
End alive.

(** ** Lines, however they arrive *)

(** The lines of a text that are handed to [parse_data], and the incomplete line left
    over. *)
Fixpoint cut_lines (fuel : nat) (text : list Z) : list (list Z) * list Z :=
  match fuel with
  | O => ([], text)
  | S fuel' =>
      match split_line text with
      | None => ([], text)
      | Some (line, rest) =>
          let '(ls, left_over) := cut_lines fuel' (skip_eols rest) in
          ((if decide (line = []) then ls else line :: ls), left_over)
      end
  end.

(** The same character by character: [acc] is the line so far. *)
Fixpoint lines_from (acc text : list Z) : list (list Z) * list Z :=
  match text with
  | [] => ([], acc)
  | c :: text' =>
      if is_eol c then
        let '(ls, left_over) := lines_from [] text' in
        ((if decide (acc = []) then ls else acc :: ls), left_over)
      else lines_from (acc ++ [c]) text'
  end.

Lemma lines_from_app acc a b :
  lines_from acc (a ++ b) =
    let '(ls1, r1) := lines_from acc a in
    let '(ls2, r2) := lines_from r1 b in (ls1 ++ ls2, r2).
Proof.
  revert acc. induction a as [|c a IH]; intros acc; cbn [app lines_from].
  { by destruct (lines_from acc b). }
  destruct (is_eol c); [|apply IH]. rewrite IH.
  destruct (lines_from [] a) as [ls1 r1], (lines_from r1 b) as [ls2 r2]. by case_decide.
Qed.

Lemma lines_from_plain acc a :
  Forall (fun c => is_eol c = false) a -> lines_from acc a = ([], acc ++ a).
Proof.
  intros Ha. revert acc. induction Ha as [|c a Hc Ha IH]; intros acc; cbn; [by rewrite app_nil_r|].
  rewrite Hc, IH. by rewrite <- app_assoc.
Qed.

Lemma lines_from_eols p b :
  Forall (fun c => is_eol c = true) p -> lines_from [] (p ++ b) = lines_from [] b.
Proof.
  induction 1 as [|c p Hc Hp IH]; [done|]. cbn. rewrite Hc, IH.
  by destruct (lines_from [] b).
Qed.

(** What is left over holds no end of line. *)
Lemma lines_from_left acc a ls r :
  Forall (fun c => is_eol c = false) acc -> lines_from acc a = (ls, r) ->
  Forall (fun c => is_eol c = false) r.
Proof.
  revert acc ls. induction a as [|c a IH]; intros acc ls Hacc E; cbn in E; [by simplify_eq|].
  destruct (is_eol c) eqn:Ec.
  - destruct (lines_from [] a) as [ls1 r1] eqn:E1. simplify_eq. by eapply (IH []).
  - eapply IH; [|exact E]. apply Forall_app. split; [done|]. by constructor.
Qed.

Lemma split_line_None l : split_line l = None -> Forall (fun c => is_eol c = false) l.
Proof.
  induction l as [|c l IH]; cbn; intros E; [constructor|].
  destruct (is_eol c) eqn:Ec; [done|]. destruct (split_line l) as [ [? ?]|]; [done|].
  constructor; [done|]. by apply IH.
Qed.

Lemma cut_lines_from n text : (length text <= n)%nat -> cut_lines n text = lines_from [] text.
Proof.
  revert text. induction n as [|n IH]; intros text Hn; cbn [cut_lines].
  { destruct text; [done|cbn in Hn; lia]. }
  destruct (split_line text) as [ [line rest]|] eqn:E.
  - apply split_line_Some in E as (e&He&->&Hline).
    destruct (skip_eols_suffix rest) as (p&Ep&Hp).
    rewrite lines_from_app, lines_from_plain by done. cbn [lines_from app]. rewrite He.
    rewrite length_app in Hn. cbn [length] in Hn. rewrite IH.
    + rewrite Ep at 2. rewrite lines_from_eols by done. by destruct (lines_from [] (skip_eols rest)).
    + rewrite Ep, length_app in Hn. lia.
  - rewrite lines_from_plain; [done|by apply split_line_None].
Qed.

Section lines.
Context {D : Type} `{System D}.
Implicit Types h : host D.

Fixpoint parse_all (ls : list (list Z)) : daemon D unit :=
  match ls with
  | [] => mret tt
  | l :: ls' => parse_data l;; parse_all ls'
  end.

Lemma sio_lines_cut n text h :
  sio_lines n text h =
    (let '(ls, left_over) := cut_lines n text in parse_all ls;; mret left_over) h.
Proof.
  revert text h. induction n as [|n IH]; intros text h; cbn [sio_lines cut_lines]; [done|].
  destruct (split_line text) as [ [line rest]|]; [|done].
  destruct (cut_lines n (skip_eols rest)) as [ls r] eqn:E.
  assert (forall h1, sio_lines n (skip_eols rest) h1 = (parse_all ls;; mret r) h1) as Hrest
    by (intros h1; by rewrite IH, E).
  case_decide as Hd.
  - rewrite bool_decide_true by done. exact (Hrest h).
  - rewrite bool_decide_false by done. cbn [negb when parse_all]. rewrite bind_assoc.
    unfold mbind, cmd_bind. destruct (parse_data line h) as [ [] h1| | |]; [exact (Hrest h1)|done..].
Qed.

(** A full buffer without an end of line. *)
Lemma full_buffer_run `{!SystemLaws D} h d l :
  length (h_buffer h) = 1023%nat -> sys_read 0 (h_sys h) = (Some l, d) ->
  process_sio h = Done tt (h <| h_sys := d |>).
Proof.
  intros Hb Hr. destruct (read_bound 0 _ _ _ ltac:(lia) Hr) as [Hl _].
  destruct l; [|cbn in Hl; lia].
  unfold process_sio, hget. rewrite run_gets, Hb.
  change (BUFFER_SIZE - Z.of_nat 1023 - 1) with 0.
  rewrite (bind_done _ _ h (Some []) (h <| h_sys := d |>)); [done|].
  unfold syscall. by rewrite Hr.
Qed.
End lines.

(** *** Positive answers *)

Section progress.
Context {D : Type} `{System D}.
Implicit Types h : host D.

Lemma answered_retries v : answered v = true -> v_retries v <= 10 ->
  STATE_ACTIVATE <= v_state v < STATE_READY -> v_retries (a_view (advance v)) <= 1.
Proof.
  intros Ha Hr Hs. unfold advance. rewrite (proj2 (Z.ltb_ge _ _) Hr). revert Ha.
  unfold answered, again, enter, STATE_UNKNOWN, STATE_READY, STATE_SEND_RESET, STATE_SREQUEST,
    STATE_DREQUEST, STATE_ACTIVATE, STATE_SET_TIME, STATE_SET_DATE, STATE_ACTIVATE_CH0 in *.
  cbv zeta. repeat case_match; cbn [a_view v_retries]; lia.
Qed.

(** One answer leads to a later phase. *)
Lemma good_answer h :
  alive h -> STATE_ACTIVATE <= h_state h < STATE_READY -> h_retries h <= 10 ->
  safe (parse_data (str "<+")) (fun _ h' =>
    alive h' /\ h_retries h' <= 1 /\ phase_of (h_state h) < phase_of (h_state h')) h.
Proof.
  intros Hm Hst Hr. set (h1 := h <| h_failure_status := 0 |>).
  change (safe state_machine (fun _ h' =>
    alive h' /\ h_retries h' <= 1 /\ phase_of (h_state h) < phase_of (h_state h')) h1).
  assert (alive h1) as [Hs1 _] by by apply (alive_core h).
  assert (h_state h1 <> STATE_READY) as Hne by (change (h_state h1) with (h_state h); lia).
  eapply safe_mono; [by apply safe_state_machine|]. intros ? h' Hstep.
  split; [by eapply stepped_alive|].
  pose proof (advance_phase (view_of h1) ltac:(by left) Hr) as Hp.
  assert (answered (view_of h1) = true) as Ha.
  { unfold answered. change (v_state (view_of h1)) with (h_state h).
    unfold STATE_ACTIVATE, STATE_SREQUEST, STATE_DREQUEST in *.
    rewrite (proj2 (Z.eqb_neq (h_state h) 1)), (proj2 (Z.eqb_neq (h_state h) 3)) by lia. done. }
  pose proof (answered_retries (view_of h1) Ha Hr Hst) as Hr'.
  rewrite Ha in Hp. destruct Hstep as [Hv _ _ _ _]. rewrite <- Hv in Hp, Hr'. split; [exact Hr'|exact Hp].
Qed.

(** Once the controller is up, answers change nothing of that. *)
Lemma ready_answers n i h :
  alive h -> h_state h = STATE_READY ->
  safe (for_loop n i (fun _ => parse_data (str "<+"))) (fun _ h' => alive h' /\ h_state h' = STATE_READY) h.
Proof.
  revert i h. induction n as [|n IH]; intros i h Hm Hst; cbn [for_loop]; [done|].
  rewrite safe_bind. set (h1 := h <| h_failure_status := 0 |>).
  change (safe state_machine (fun _ h' => safe (for_loop n (i + 1) (fun _ => parse_data (str "<+")))
    (fun _ h' => alive h' /\ h_state h' = STATE_READY) h') h1).
  assert (alive h1) as [Hs1 _] by by apply (alive_core h).
  eapply safe_mono; [by apply ready_state_machine|]. intros ? h2 (Hm2&E2&_). by apply IH.
Qed.

Lemma good_answers n i h :
  alive h -> STATE_ACTIVATE <= h_state h -> h_retries h <= 10 ->
  safe (for_loop n i (fun _ => parse_data (str "<+"))) (fun _ h' =>
    alive h' /\ (h_state h' = STATE_READY \/ phase_of (h_state h) + Z.of_nat n <= phase_of (h_state h'))) h.
Proof.
  revert i h. induction n as [|n IH]; intros i h Hm Hst Hr; cbn [for_loop].
  { rewrite safe_ret. split; [done|]. right. lia. }
  rewrite safe_bind. pose proof (sch_state h (proj1 Hm)) as Hrange.
  destruct (Z.eq_dec (h_state h) STATE_READY) as [E|E].
  - rewrite <- safe_bind. eapply safe_mono; [apply (ready_answers (S n) i); done|].
    intros ? h' [? ?]. split; [done|by left].
  - eapply safe_mono; [apply good_answer; [done|lia|done]|]. intros ? h1 (Hm1&Hr1&Hp).
    assert (STATE_ACTIVATE <= h_state h1) as Hst1.
    { revert Hp Hst. unfold phase_of, STATE_ACTIVATE, STATE_SREQUEST, STATE_DREQUEST. zcases; lia. }
    eapply safe_mono; [apply IH; [done|done|lia]|]. intros ? h2 [Hm2 [?|Hp2] ]; split; [done|by left|done|].
    right. lia.
Qed.
End progress.

(** ** Properties *)

Section properties.
Context {D : Type} `{System D}.
Implicit Types h : host D.

(** However the bytes from the controller are cut into reads, the same lines are
    parsed in the same order: the lines of [a] and then those of what is left of
    [a] followed by [b] are the lines of [a] and [b] in one piece. *)
Theorem reads_reassembled a b h1 h2 :
  let '(ls, left_over) := cut_lines (length a) a in
  sio_lines (length a) a h1 = (parse_all ls;; mret left_over) h1 /\
  let '(ls', left_over') := cut_lines (length (left_over ++ b)) (left_over ++ b) in
  sio_lines (length (left_over ++ b)) (left_over ++ b) h2 = (parse_all ls';; mret left_over') h2 /\
  cut_lines (length (a ++ b)) (a ++ b) = (ls ++ ls', left_over').
Proof.
  destruct (cut_lines (length a) a) as [ls r] eqn:Ea.
  split; [by rewrite sio_lines_cut, Ea|].
  destruct (cut_lines (length (r ++ b)) (r ++ b)) as [ls' r'] eqn:Eb.
  split; [by rewrite sio_lines_cut, Eb|].
  rewrite cut_lines_from in Ea, Eb |- * by lia. rewrite lines_from_app, Ea.
  assert (lines_from [] (r ++ b) = lines_from r b) as Er; [|by rewrite <- Er, Eb].
  rewrite lines_from_app, (lines_from_plain [] r); [cbn [app]; by destruct (lines_from r b)|].
  eapply (lines_from_left []); [constructor|exact Ea].
Qed.

(** A line that fills the buffer stops the daemon from reading for good: nothing
    is read any more, and nothing is thrown away. *)
Theorem full_buffer_stuck `{!SystemLaws D} h d l :
  length (h_buffer h) = 1023%nat -> sys_read 0 (h_sys h) = (Some l, d) ->
  process_sio h = Done tt (h <| h_sys := d |>).
Proof. apply full_buffer_run. Qed.

(** The bring-up completes: from the activation on, seven positive answers in a
    row (to the activation, the time, the date and the four channels) take the
    daemon to the READY state, whatever has been retried before, unless it ends
    because the line fails. *)
Theorem bring_up_completes h :
  alive h -> STATE_ACTIVATE <= h_state h -> h_retries h <= 10 ->
  safe (for_loop 7 0 (fun _ => parse_data (str "<+"))) (fun _ h' =>
    alive h' /\ h_state h' = STATE_READY) h.
Proof.
  intros Hm Hst Hr. eapply safe_mono; [by apply (good_answers 7)|].
  intros ? h' [Hm' [?|Hp] ]; [done|]. split; [done|].
  pose proof (sch_state h' (proj1 Hm')) as Hrange. revert Hp Hst Hrange.
  unfold phase_of, STATE_READY, STATE_ACTIVATE, STATE_UNKNOWN, STATE_SREQUEST, STATE_DREQUEST. zcases; lia.
Qed.
End properties.

(** ** Instances of the properties *)

Lemma full_buffer_stuck_witness :
  let h := (bench_host 0 [] [str "<+" ++ [10] ]) <| h_buffer := replicate 1023 65 |> in
  process_sio h = Done tt (h <| h_sys := [] |>).
Proof.
  apply (full_buffer_stuck ((bench_host 0 [] [str "<+" ++ [10] ]) <| h_buffer := replicate 1023 65 |>) [] []);
    [apply length_replicate|done].
Defined.

Lemma bring_up_completes_witness :
  safe (for_loop 7 0 (fun _ => parse_data (str "<+"))) (fun _ h' =>
    alive h' /\ h_state h' = STATE_READY)
    (bench_host STATE_ACTIVATE [(0, F_state_machine)] []).
Proof.
  apply (bring_up_completes (bench_host STATE_ACTIVATE [(0, F_state_machine)] [])); [|done|done].
  split; [|done]. split; [done|done|by split; [constructor|cbn; lia]|]. right. by exists 0.
Defined.
