(* ===== verification/LrMain.v ===== *)
(** lrmon/serial.c (opening and closing the line), lrmon/rmq.c and [main] of
    lrmon/main.c: from the command line to the main loop. *)

From stdpp Require Import gmap.
From S2P Require Import Prelude Cmd Packet Lrmon LrCommand LrState LrInput.

(** ** The calls made before the main loop *)

(** The terminal: the constants B<n> of termios.h, [open] of a path (negative on
    failure), and getting and setting the attributes; and [fork] and [close]. *)
Class Terminal (D : Type) := {
  baud : Z -> Z;
  sys_open : list Z -> D -> Z * D;
  sys_tcgetattr : Z -> D -> option termios * D;
  sys_tcsetattr : Z -> termios -> D -> Z * D;
  sys_close : Z -> D -> unit * D;
  sys_fork : D -> Z * D
}.

(** The client library of the message broker, as far as it is called: whether there is
    a socket, the status of opening it to a host and a port, whether the login to a
    virtual host as a user with a password gets a normal answer, and the descriptor of
    the socket. *)
Class Broker (D : Type) := {
  amqp_new_connection : D -> unit * D;
  amqp_tcp_socket_new : D -> bool * D;
  amqp_socket_open : list Z -> Z -> D -> Z * D;
  amqp_login : list Z -> list Z -> list Z -> D -> bool * D;
  amqp_get_sockfd : D -> Z * D
}.

(** The size of an [fd_set]. *)
Definition FD_SETSIZE : Z := 1024.

(** No process has more open files than fit a set, and only B0 is 0. *)
Class DescriptorLaws (D : Type) `{Terminal D} `{Broker D} := {
  baud_set v : v <> 0 -> baud v <> 0;
  open_bound path d : fst (sys_open path d) < FD_SETSIZE;
  sockfd_bound d : fst (amqp_get_sockfd d) < FD_SETSIZE
}.

Section descriptors.
Context {D : Type}.

(** [FD_SET(fd, &mrfds)] and [FD_CLR(fd, &mrfds)] *)
Definition FD_SET (fd : Z) : daemon D unit :=
  if (fd <? 0) || (FD_SETSIZE <=? fd) then fail OutOfBounds
  else modify (fun h => h <| h_mrfds ::= fun s => {[fd]} ∪ s |>).

Definition FD_CLR (fd : Z) : daemon D unit :=
  if (fd <? 0) || (FD_SETSIZE <=? fd) then fail OutOfBounds
  else modify (fun h => h <| h_mrfds ::= fun s => s ∖ {[fd]} |>).

(** [if (maxfd < fd) maxfd = fd;] *)
Definition raise_maxfd (fd : Z) : daemon D unit :=
  maxfd ← hget h_maxfd;
  when (maxfd <? fd) (hput h_maxfd fd).
End descriptors.

(** ** serial.c *)

(** Flags of termios.h. *)
Definition CSIZE : Z := 0x30.
Definition CS8 : Z := 0x30.
Definition CREAD : Z := 0x80.
Definition PARENB : Z := 0x100.
Definition CLOCAL : Z := 0x800.
Definition ISIG : Z := 1.

Definition speed_values : list Z :=
  [50; 75; 110; 134; 150; 200; 300; 600; 1200; 1800; 2400; 4800; 9600; 19200; 38400;
   57600; 115200; 230400].

(** The mode of the line: eight bits, no parity, no modem lines, and no processing of
    what comes or goes. *)
Definition raw_mode (t : termios) : termios :=
  mk_termios 0 0 (Z.lor (Z.ldiff (c_cflag t) (Z.lor CSIZE PARENB)) (Z.lor (Z.lor CLOCAL CREAD) CS8))
    0 1 1 (c_ispeed t) (c_ospeed t).

(** [cfsetispeed] and [cfsetospeed], or signals if there is no speed. *)
Definition with_speed (code : Z) (t : termios) : termios :=
  if negb (code =? 0) then
    mk_termios (c_iflag t) (c_oflag t) (c_cflag t) (c_lflag t) (c_vmin t) (c_vtime t) code code
  else
    mk_termios (c_iflag t) (c_oflag t) (c_cflag t) (Z.lor (c_lflag t) ISIG) (c_vmin t) (c_vtime t)
      (c_ispeed t) (c_ospeed t).

Section serial.
Context {D : Type} `{System D} `{Terminal D}.

(** The table ends with a value of 0. *)
Definition speeds : list (Z * Z) := map (fun v => (v, baud v)) speed_values ++ [(0, 0)].

(** The search in the table; there is nothing behind its end. *)
Fixpoint find_speed (table : list (Z * Z)) (speed : Z) : daemon D (option Z) :=
  match table with
  | [] => fail OutOfBounds
  | (value, code) :: table' =>
      if value =? 0 then mret None
      else if value =? speed then mret (Some code)
      else find_speed table' speed
  end.

(** The line after it has been opened. *)
Definition sio_setup (fd code : Z) : daemon D unit :=
  t ← syscall (sys_tcgetattr fd);
  match t with
  | None => exit
  | Some t =>
      let t := with_speed code (raw_mode t) in
      r ← syscall (sys_tcsetattr fd t);
      if r <? 0 then exit
      else
        hput h_tty (Some t);;
        FD_SET fd;;
        raise_maxfd fd;;
        sio_write (str "R" ++ [13; 10]);;
        hput h_buffer []
  end.

Definition sio_init (device : list Z) (speed : Z) : daemon D unit :=
  code ← find_speed speeds speed;
  match code with
  | None => exit
  | Some code =>
      fd ← syscall (sys_open device);
      hput h_siofd fd;;
      if fd <? 0 then exit else sio_setup fd code
  end.

Definition sio_close : daemon D unit :=
  fd ← hget h_siofd;
  FD_CLR fd;;
  syscall (sys_close fd).
End serial.

(** ** rmq.c *)

Definition AMQP_STATUS_OK : Z := 0.
Definition RABBITMQ_VHOST : list Z := str "/".
Definition RABBITMQ_USER : list Z := str "guest".
Definition RABBITMQ_PASS : list Z := str "guest".

(** The host and the port of [host\[:port\]]. *)
Definition broker_address (rmq_host : list Z) : list Z * Z :=
  match split_at 58 rmq_host with
  | (host, Some cp) => (host, atoi cp)
  | (host, None) => (host, 5672)
  end.

Section rmq.
Context {D : Type} `{Broker D}.

(** The descriptor is kept in a local variable only. [None] is the null pointer. *)
Definition rmq_init (rmq_host : option (list Z)) : daemon D unit :=
  match rmq_host with
  | None => fail NullPointer
  | Some rmq_host =>
      let '(host, port) := broker_address rmq_host in
      syscall amqp_new_connection;;
      socket ← syscall amqp_tcp_socket_new;
      if negb socket then exit
      else
        status ← syscall (amqp_socket_open host port);
        if negb (status =? AMQP_STATUS_OK) then exit
        else
          normal ← syscall (amqp_login RABBITMQ_VHOST RABBITMQ_USER RABBITMQ_PASS);
          if negb normal then exit
          else
            rmqfd ← syscall amqp_get_sockfd;
            if rmqfd <? 0 then exit
            else
              FD_SET rmqfd;;
              raise_maxfd rmqfd
  end.
End rmq.

(** ** main.c *)

(** The options that take an argument: r, s and l. *)
Definition takes_arg (c : Z) : bool := (c =? 114) || (c =? 115) || (c =? 108).

(** What [getopt(argc, argv, "r:s:l:")] returns call by call, with [optarg], for the
    words behind the name of the program; 63 is its question mark, after which nothing
    is asked any more. Words that are no options are skipped. *)
Fixpoint getopts (argv : list (list Z)) : list (Z * list Z) :=
  match argv with
  | [] => []
  | w :: argv' =>
      if negb (hd 0 w =? 45) then getopts argv'
      else
        match tl w with
        | [] => getopts argv'
        | c :: arg =>
            if (c =? 45) && bool_decide (arg = []) then []
            else if negb (takes_arg c) then [(63, [])]
            else if negb (bool_decide (arg = [])) then (c, arg) :: getopts argv'
            else
              match argv' with
              | [] => [(63, [])]
              | a :: argv'' => (c, a) :: getopts argv''
              end
        end
  end.

(** The variables the options set. *)
Record settings := mk_settings {
  o_speed : Z;
  o_device : list Z;
  o_rmqhost : option (list Z)
}.

Section start.
Context {D : Type} `{System D} `{Terminal D} `{Broker D}.

(** [usage] prints how to call the program and ends it. *)
Definition usage {A} : daemon D A := exit.

Fixpoint set_options (opts : list (Z * list Z)) (s : settings) : daemon D settings :=
  match opts with
  | [] => mret s
  | (c, optarg) :: opts' =>
      if c =? 114 then set_options opts' (mk_settings (o_speed s) (o_device s) (Some optarg))
      else if c =? 115 then
        let speed := atoi optarg in
        if speed <=? 0 then usage
        else set_options opts' (mk_settings speed (o_device s) (o_rmqhost s))
      else if c =? 108 then set_options opts' (mk_settings (o_speed s) optarg (o_rmqhost s))
      else usage
  end.

(** [strdup("localhost:5672")] *)
Definition default_broker : daemon D (option (list Z)) :=
  ok ← syscall (sys_malloc 15);
  mret (if ok : bool then Some (str "localhost:5672") else None).

(** The parent of the fork ends, unless the code is built with DEBUG. *)
Definition detach (DEBUG : bool) : daemon D unit :=
  when (negb DEBUG) (
    i ← syscall sys_fork;
    if i <? 0 then exit
    else if negb (i =? 0) then exit
    else mret tt).

(** [main] up to its loop. *)
Definition main_init (DEBUG : bool) (argv : list (list Z)) : daemon D unit :=
  rmqhost ← default_broker;
  s ← set_options (getopts argv) (mk_settings 38400 (str "/dev/ttyUSB0") rmqhost);
  hput h_maxfd 0;;
  hput h_mrfds ∅;;
  timer_init;;
  sio_init (o_device s) (o_speed s);;
  rmq_init (o_rmqhost s);;
  state_init;;
  detach DEBUG.

(** What is behind the loop is never reached. *)
Definition lrmon_main (DEBUG : bool) (argv : list (list Z)) (rounds : nat) : daemon D unit :=
  main_init DEBUG argv;;
  main_loop rounds.
End start.

(** ** What the rest of the daemon leaves alone *)

(** The descriptors and the settings of the line. *)
Definition opened {D} (h : host D) : Z * Z * gset Z * option termios :=
  (h_siofd h, h_maxfd h, h_mrfds h, h_tty h).

(** [c] opens and closes nothing. *)
Definition leaves {D A} (c : daemon D A) : Prop :=
  forall h a h', c h = Done a h' -> opened h' = opened h.

Section frame.
Context {D : Type}.

Lemma leaves_bind {A B} (c : daemon D A) (k : A -> daemon D B) :
  leaves c -> (forall a, leaves (k a)) -> leaves (c ≫= k).
Proof.
  intros Hc Hk h b h' E. unfold mbind, cmd_bind in E. destruct (c h) as [a h1| | |] eqn:E1; [|done..].
  rewrite (Hk _ _ _ _ E). by eapply Hc.
Qed.

Lemma leaves_ret {A} (a : A) : leaves (mret a : daemon D A).
Proof. by intros h ? ? [= <- <-]. Qed.

Lemma leaves_hget {T} (f : host D -> T) : leaves (hget f).
Proof. by intros h ? ? [= <- <-]. Qed.

Lemma leaves_hput {T} (f : host D -> T) `{!Setter f} v :
  (forall h, opened (h <| f := v |>) = opened h) -> leaves (hput f v).
Proof. intros Hf h ? ? [= <- <-]. apply Hf. Qed.

Lemma leaves_modify (f : host D -> host D) : (forall h, opened (f h) = opened h) -> leaves (modify f).
Proof. intros Hf h ? ? [= <- <-]. apply Hf. Qed.

Lemma leaves_syscall {A} (c : D -> A * D) : leaves (syscall c).
Proof. intros h ? ?. unfold syscall. destruct (c (h_sys h)). by intros [= <- <-]. Qed.

Lemma leaves_exit {A} : leaves (exit : daemon D A).
Proof. done. Qed.

Lemma leaves_fail {A} e : leaves (fail e : daemon D A).
Proof. done. Qed.

Lemma leaves_when b (c : daemon D unit) : leaves c -> leaves (when b c).
Proof. destruct b; [done|]. intros _. apply leaves_ret. Qed.

(** What is safe and opens nothing does both. *)
Lemma safe_leaves {A} (c : daemon D A) Q h :
  safe c Q h -> leaves c -> safe c (fun a h' => Q a h' /\ opened h' = opened h) h.
Proof.
  unfold safe. intros Hs Hl. destruct (c h) as [a h'| | |] eqn:E; [|done..]. split; [done|]. by eapply Hl.
Qed.
End frame.

Create HintDb leaves discriminated.
#[export] Hint Resolve leaves_ret leaves_hget leaves_syscall leaves_exit leaves_fail : leaves.
#[export] Hint Extern 1 (leaves (hput _ _)) => apply leaves_hput; reflexivity : leaves.
#[export] Hint Extern 1 (leaves (modify _)) => apply leaves_modify; reflexivity : leaves.

(** Statement by statement. *)
Ltac leave :=
  repeat first
    [ solve [auto with leaves]
    | progress cbv zeta
    | apply leaves_bind; [|intros ?]
    | apply leaves_when
    | case_match ].

Section untouched.
Context {D : Type} `{System D}.

Lemma leaves_timer_insert f secs : leaves (timer_insert f secs : daemon D unit).
Proof. unfold timer_insert, timer_alloc. leave. Qed.

Lemma leaves_timer_remove f : leaves (timer_remove f : daemon D unit).
Proof. unfold timer_remove. leave. Qed.

Lemma leaves_sio_write msg : leaves (sio_write msg : daemon D unit).
Proof. unfold sio_write. leave. Qed.

Lemma leaves_send_command chan node cmd data n : leaves (send_command chan node cmd data n : daemon D unit).
Proof. pose proof leaves_sio_write. unfold send_command, sio_send. leave. Qed.
End untouched.
#[export] Hint Resolve leaves_timer_insert leaves_timer_remove leaves_sio_write leaves_send_command : leaves.

Section untouched.
Context {D : Type} `{System D}.

Lemma leaves_case_channel : leaves (case_channel : daemon D Z).
Proof. unfold case_channel, set_channel, dynamic_status_timer, request_local_status, sio_send, retry. leave. Qed.

Lemma leaves_case_activate : leaves (case_activate : daemon D Z).
Proof.
  pose proof leaves_case_channel.
  unfold case_activate, case_set_time, case_set_date, local_activate, set_time, set_date, retry. leave.
Qed.

Lemma leaves_case_unknown : leaves (case_unknown : daemon D Z).
Proof.
  pose proof leaves_case_activate.
  unfold case_unknown, case_srequest, case_drequest, request_local_status, sio_send, set_time, retry. leave.
Qed.

Lemma leaves_state_machine : leaves (state_machine : daemon D unit).
Proof.
  pose proof leaves_case_channel. pose proof leaves_case_activate. pose proof leaves_case_unknown.
  unfold state_machine, state_switch, case_send_reset, reset_controller, sio_send. leave;
    unfold case_set_date, case_set_time, case_srequest, case_drequest, set_date, set_time,
      request_local_status, sio_send, retry; leave.
Qed.

Lemma leaves_parse_data data : leaves (parse_data data : daemon D unit).
Proof.
  pose proof leaves_state_machine.
  unfold parse_data, parse_failure, parse_response, response, rmq_publish, local_response. leave.
Qed.

Lemma leaves_sio_lines n text : leaves (sio_lines n text : daemon D (list Z)).
Proof.
  pose proof leaves_parse_data. revert text.
  induction n as [|n IH]; intros text; cbn [sio_lines]; leave.
Qed.

Lemma leaves_main_pass : leaves (main_pass : daemon D unit).
Proof.
  pose proof leaves_state_machine. pose proof leaves_sio_lines.
  unfold main_pass, timer_expiry, process_sio, call, dynamic_status_timer, request_local_status, sio_send.
  leave.
Qed.

Lemma leaves_main_loop n : leaves (main_loop n : daemon D unit).
Proof. pose proof leaves_main_pass. induction n as [|n IH]; cbn [main_loop]; leave. Qed.
End untouched.

(** ** The start *)

(** The command line as a whole: the last value of an option, if any. *)
Fixpoint last_arg (c : Z) (opts : list (Z * list Z)) (d : list Z) : list Z :=
  match opts with
  | [] => d
  | (c', a) :: opts' => last_arg c opts' (if c' =? c then a else d)
  end.

Definition speed_of (argv : list (list Z)) : Z := atoi (last_arg 115 (getopts argv) (str "38400")).
Definition device_of (argv : list (list Z)) : list Z := last_arg 108 (getopts argv) (str "/dev/ttyUSB0").

(** Options the program knows, the speeds being positive. *)
Definition good_option (o : Z * list Z) : bool :=
  (fst o =? 114) || (fst o =? 108) || (fst o =? 115) && (0 <? atoi (snd o)).

(** Every descriptor of the set is one that [select] looks at. *)
Definition below_max {D} (h : host D) : Prop := forall fd, fd ∈ h_mrfds h -> 0 <= fd <= h_maxfd h.

(** The serial line is watched. *)
Definition listening {D} (h : host D) : Prop := h_siofd h ∈ h_mrfds h /\ below_max h.

(** A line of eight bits without parity at the speed [code], unprocessed. *)
Record raw_line (code : Z) (t : termios) : Prop := {
  raw_modes : c_iflag t = 0 /\ c_oflag t = 0 /\ c_lflag t = 0;
  raw_size : Z.land (c_cflag t) CSIZE = CS8;
  raw_parity : Z.land (c_cflag t) PARENB = 0;
  raw_receiver : Z.land (c_cflag t) (Z.lor CLOCAL CREAD) = Z.lor CLOCAL CREAD;
  raw_wait : c_vmin t = 1 /\ c_vtime t = 1;
  raw_speed : c_ispeed t = code /\ c_ospeed t = code
}.

Lemma raw_mode_raw code t : code <> 0 -> raw_line code (with_speed code (raw_mode t)).
Proof.
  intros Hc. unfold with_speed, raw_mode. rewrite (proj2 (Z.eqb_neq _ _)) by done. cbn [negb].
  split; cbn [c_iflag c_oflag c_cflag c_lflag c_vmin c_vtime c_ispeed c_ospeed]; try done.
  - rewrite Z.land_lor_distr_l. replace (Z.land (Z.ldiff _ _) CSIZE) with 0; [done|].
    apply Z.bits_inj'. intros n Hn. rewrite Z.bits_0, Z.land_spec, Z.ldiff_spec, Z.lor_spec.
    destruct (Z.testbit CSIZE n); cbn; [by rewrite andb_false_r|by rewrite andb_false_r].
  - rewrite Z.land_lor_distr_l. replace (Z.land (Z.ldiff _ _) PARENB) with 0; [done|].
    apply Z.bits_inj'. intros n Hn. rewrite Z.bits_0, Z.land_spec, Z.ldiff_spec, Z.lor_spec.
    destruct (Z.testbit PARENB n); [by rewrite orb_true_r, andb_false_r|by rewrite andb_false_r].
  - apply Z.bits_inj'. intros n Hn. rewrite !Z.land_spec, Z.lor_spec.
    destruct (Z.testbit (Z.lor CLOCAL CREAD) n) eqn:E; [|by rewrite andb_false_r].
    rewrite Z.lor_spec, E. by rewrite orb_true_r.
Qed.

Lemma below_max_with {D} (h h' : host D) fd :
  below_max h -> 0 <= fd -> h_mrfds h' = {[fd]} ∪ h_mrfds h -> h_maxfd h' = Z.max (h_maxfd h) fd ->
  below_max h'.
Proof. intros Hb Hfd E1 E2 x. rewrite E1, E2. intros [->%elem_of_singleton|Hx%Hb]%elem_of_union; lia. Qed.

Lemma watched_second (fd fd' : Z) : fd ∈ {[fd']} ∪ ({[fd]} ∪ ∅ : gset Z).
Proof. set_solver. Qed.

Section start_up.
Context {D : Type} `{System D} `{Terminal D} `{Broker D}.
Implicit Types h : host D.

Lemma safe_FD_SET fd Q h :
  0 <= fd < FD_SETSIZE -> safe (FD_SET fd) Q h = Q tt (h <| h_mrfds := {[fd]} ∪ h_mrfds h |>).
Proof.
  intros Hfd. unfold FD_SET. by rewrite (proj2 (Z.ltb_ge _ _)), (proj2 (Z.leb_gt _ _)) by lia.
Qed.

Lemma safe_raise_maxfd fd Q h :
  safe (raise_maxfd fd) Q h = Q tt (h <| h_maxfd := Z.max (h_maxfd h) fd |>).
Proof.
  unfold raise_maxfd. autorewrite with safe. destruct (Z.ltb_spec (h_maxfd h) fd).
  - by rewrite Z.max_r by lia.
  - rewrite Z.max_l by lia. by destruct h.
Qed.

Lemma find_speed_run vs speed h :
  Forall (fun v => v <> 0) vs ->
  find_speed (map (fun v => (v, baud v)) vs ++ [(0, 0)]) speed h =
    Done (if decide (speed ∈ vs) then Some (baud speed) else None) h.
Proof.
  induction 1 as [|v vs Hv Hvs IH]; cbn [map app find_speed]; [done|].
  rewrite (proj2 (Z.eqb_neq v 0)) by done. destruct (Z.eqb_spec v speed) as [->|Hne].
  - by rewrite decide_True by apply list_elem_of_here.
  - rewrite IH. apply f_equal2; [|done]. apply decide_ext. rewrite elem_of_cons.
    split; [by right|by intros [?|?] ].
Qed.

Lemma speed_values_set : Forall (fun v => v <> 0) speed_values.
Proof. by repeat constructor. Qed.

(** The host with the line open. *)
Definition with_line (fd : Z) (t : termios) (d : D) h : host D :=
  h <| h_siofd := fd |> <| h_tty := Some t |> <| h_mrfds := {[fd]} ∪ h_mrfds h |>
    <| h_maxfd := Z.max (h_maxfd h) fd |> <| h_sent := h_sent h ++ (str "R" ++ [13; 10]) |>
    <| h_buffer := [] |> <| h_sys := d |>.

Lemma safe_sio_setup fd code h :
  0 <= fd < FD_SETSIZE -> code <> 0 ->
  safe (sio_setup fd code) (fun _ h' => exists t d,
    raw_line code t /\ h' = with_line fd t d (h <| h_siofd := fd |>)) (h <| h_siofd := fd |>).
Proof.
  intros Hfd Hc. unfold sio_setup. rewrite safe_bind, safe_syscall. upd_simpl.
  destruct (sys_tcgetattr fd (h_sys h)) as [ [t|] d]; cbn [fst snd]; [|apply safe_exit].
  cbv zeta. rewrite safe_bind, safe_syscall. case_match; [apply safe_exit|].
  rewrite safe_bind, safe_hput, safe_bind, safe_FD_SET, safe_bind, safe_raise_maxfd, safe_bind by done.
  eapply safe_mono; [apply safe_sio_write|]. intros ? h1 [d1 ->]. rewrite safe_hput.
  eexists (with_speed code (raw_mode t)), d1. split; [by apply raw_mode_raw|]. by destruct h.
Qed.
Context `{!DescriptorLaws D}.

Lemma safe_sio_init device speed h :
  safe (sio_init device speed) (fun _ h' =>
    speed ∈ speed_values /\ exists fd t d d0,
      0 <= fd /\ fst (sys_open device d0) = fd /\ raw_line (baud speed) t /\ h' = with_line fd t d h) h.
Proof.
  unfold sio_init. rewrite safe_bind. unfold safe at 1, speeds.
  rewrite find_speed_run by apply speed_values_set. case_decide as Hin; [|done].
  rewrite safe_bind, safe_syscall, safe_bind, safe_hput.
  pose proof (open_bound device (h_sys h)) as Hb.
  destruct (sys_open device (h_sys h)) as [fd d] eqn:E. cbn [fst snd] in *.
  destruct (Z.ltb_spec fd 0); [apply safe_exit|].
  pose proof (baud_set speed) as Hc. pose proof speed_values_set as Hv.
  rewrite Forall_forall in Hv.
  eapply safe_mono; [apply (safe_sio_setup fd (baud speed) (h <| h_sys := d |>)); [lia|auto]|].
  intros ? h' (t&d'&Hraw&->). split; [done|]. exists fd, t, d', (h_sys h). rewrite E. by destruct h.
Qed.

(** The host with the broker connected. *)
Definition with_broker (fd : Z) (d : D) h : host D :=
  h <| h_mrfds := {[fd]} ∪ h_mrfds h |> <| h_maxfd := Z.max (h_maxfd h) fd |> <| h_sys := d |>.

Lemma safe_rmq_init rmq_host h :
  safe (rmq_init (Some rmq_host)) (fun _ h' => exists fd d, 0 <= fd /\ h' = with_broker fd d h) h.
Proof.
  unfold rmq_init. destruct (broker_address rmq_host) as [host port].
  rewrite safe_bind, safe_syscall, safe_bind, safe_syscall. case_match; [apply safe_exit|].
  rewrite safe_bind, safe_syscall. case_match; [apply safe_exit|].
  rewrite safe_bind, safe_syscall. case_match; [apply safe_exit|]. rewrite safe_bind, safe_syscall.
  upd_simpl. set (d := snd (amqp_login _ _ _ _)).
  pose proof (sockfd_bound d) as Hb. destruct (amqp_get_sockfd d) as [fd d']. cbn [fst snd] in *.
  destruct (Z.ltb_spec fd 0); [apply safe_exit|].
  rewrite safe_bind, safe_FD_SET, safe_raise_maxfd by lia. exists fd, d'. by destruct h.
Qed.

(** The options are all taken, the last of each counting, or the program ends. *)
Lemma set_options_run opts ds dl s h :
  o_speed s = atoi ds -> o_device s = dl -> is_Some (o_rmqhost s) ->
  (if forallb good_option opts then
     exists host, set_options opts s h =
       Done (mk_settings (atoi (last_arg 115 opts ds)) (last_arg 108 opts dl) (Some host)) h
   else set_options opts s h = Restart h).
Proof.
  revert ds dl s. induction opts as [|[c a] opts IH]; intros ds dl s Es El Er; cbn [forallb set_options last_arg].
  { destruct Er as [host Eh]. exists host. rewrite <- Es, <- El, <- Eh. by destruct s. }
  unfold good_option at 1. cbn [fst snd].
  destruct (Z.eqb_spec c 114) as [->|]; [by apply IH|].
  destruct (Z.eqb_spec c 115) as [->|]; cbn [Z.eqb orb andb Pos.eqb].
  - destruct (Z.leb_spec (atoi a) 0).
    + by rewrite (proj2 (Z.ltb_ge _ _)) by done.
    + rewrite (proj2 (Z.ltb_lt _ _)) by done. by apply IH.
  - destruct (Z.eqb_spec c 108) as [->|]; [by apply IH|done].
Qed.

Lemma safe_detach DEBUG h : safe (detach DEBUG) (fun _ h' => exists d, h' = h <| h_sys := d |>) h.
Proof.
  unfold detach. rewrite safe_when. destruct DEBUG; cbn [negb]; [exists (h_sys h); by destruct h|].
  rewrite safe_bind, safe_syscall. case_match; [apply safe_exit|]. case_match; [apply safe_exit|].
  rewrite safe_ret. eauto.
Qed.

(** What is ready before the main loop. *)
Record started (argv : list (list Z)) (sent : list Z) h : Prop := {
  st_speed : speed_of argv ∈ speed_values;
  st_device : exists d, fst (sys_open (device_of argv) d) = h_siofd h;
  st_line : exists t, h_tty h = Some t /\ raw_line (baud (speed_of argv)) t;
  st_listening : listening h;
  st_sent : h_sent h = sent ++ (str "R" ++ [13; 10]);
  st_timer : h_timerq h = [(0, F_state_machine)] /\ h_tv_sec h = 3;
  st_unknown : h_state h = STATE_UNKNOWN /\ h_retries h = 0;
  st_alive : alive h
}.

Lemma safe_state_init Q h :
  h_timerq h = [] ->
  (forall n d, Q tt (h <| h_state := STATE_UNKNOWN |> <| h_retries := 0 |> <| h_tq_free := n |>
     <| h_sys := d |> <| h_timerq := [(0, F_state_machine)] |> <| h_tv_sec := 3 |> <| h_tv_usec := 0 |>)) ->
  safe state_init Q h.
Proof.
  intros Hq HQ. unfold state_init. rewrite safe_bind, safe_hput, safe_bind, safe_hput.
  by apply safe_insert_first.
Qed.

Lemma safe_main_init DEBUG argv h :
  fst (sys_malloc 15 (h_sys h)) = true ->
  safe (main_init DEBUG argv) (fun _ => started argv (h_sent h)) h.
Proof.
  intros Hm. unfold main_init, default_broker, timer_init.
  rewrite !safe_bind. cbv beta. rewrite safe_syscall, safe_ret, Hm, safe_bind.
  pose proof (set_options_run (getopts argv) (str "38400") (str "/dev/ttyUSB0")
    (mk_settings 38400 (str "/dev/ttyUSB0") (Some (str "localhost:5672")))
    (h <| h_sys := snd (sys_malloc 15 (h_sys h)) |>) eq_refl eq_refl ltac:(done)) as Ho.
  destruct (forallb _ _); [destruct Ho as [host Ho]|]; unfold safe at 1; rewrite Ho; [|done].
  do 6 rewrite ?safe_bind, safe_hput. rewrite safe_bind.
  eapply safe_mono; [apply safe_sio_init|]. intros ? h1 (Hv&fd&t&d&d0&Hfd&Eopen&Hraw&->).
  rewrite safe_bind. cbn [o_rmqhost].
  eapply safe_mono; [apply safe_rmq_init|]. intros ? h2 (rfd&d'&Hrfd&->).
  rewrite safe_bind. apply safe_state_init; [done|]. intros n d1.
  eapply safe_mono; [apply safe_detach|]. intros ? h3 [d2 ->].
  cbn [o_speed o_device] in *. split.
  - done.
  - by exists d0.
  - by exists t.
  - split.
    + apply watched_second.
    + eapply (below_max_with (with_line fd t d (h <| h_maxfd := 0 |> <| h_mrfds := ∅ |>))); [|exact Hrfd|done|done].
      eapply (below_max_with (h <| h_maxfd := 0 |> <| h_mrfds := ∅ |>)); [|exact Hfd|done|done].
      intros x Hx. by apply elem_of_empty in Hx.
  - done.
  - done.
  - done.
  - split; [|done]. split; try done; [split; [apply Forall_nil_2|change (0 < 1024)%nat; lia]|]. right. by exists 0.
Qed.

(** What the start does when it does not like the command line. *)
Lemma refused_options DEBUG argv h :
  fst (sys_malloc 15 (h_sys h)) = true ->
  forallb good_option (getopts argv) = false \/ speed_of argv ∉ speed_values ->
  exists h', main_init DEBUG argv h = Restart h' /\
    h_sys h' = snd (sys_malloc 15 (h_sys h)) /\ h_sent h' = h_sent h /\ h_tty h' = h_tty h.
Proof.
  intros Hm Hbad. set (h1 := h <| h_sys := snd (sys_malloc 15 (h_sys h)) |>).
  assert (default_broker h = Done (Some (str "localhost:5672")) h1) as Hd.
  { unfold default_broker, mbind, cmd_bind, syscall, h1.
    destruct (sys_malloc 15 (h_sys h)) as [ok d]. cbn [fst snd] in *. by subst. }
  unfold main_init. rewrite (bind_done _ _ _ _ _ Hd).
  pose proof (set_options_run (getopts argv) (str "38400") (str "/dev/ttyUSB0")
    (mk_settings 38400 (str "/dev/ttyUSB0") (Some (str "localhost:5672"))) h1 eq_refl eq_refl ltac:(done)) as Ho.
  destruct (forallb _ _).
  - destruct Hbad as [|Hbad]; [done|]. destruct Ho as [host Ho]. rewrite (bind_done _ _ _ _ _ Ho).
    fold (speed_of argv). unfold sio_init, speeds, mbind, cmd_bind, hput, modify, timer_init. cbn [o_speed o_device].
    unfold mbind, cmd_bind, hput, modify.
    rewrite find_speed_run by apply speed_values_set. rewrite decide_False by done. by eexists.
  - unfold mbind, cmd_bind. rewrite Ho. by eexists.
Qed.

(** The passes keep what the start has opened. *)
Lemma safe_lrmon_main DEBUG argv n h `{!SystemLaws D} :
  fst (sys_malloc 15 (h_sys h)) = true ->
  safe (lrmon_main DEBUG argv n) (fun _ h' => alive h' /\ listening h') h.
Proof.
  intros Hm. unfold lrmon_main. rewrite safe_bind. eapply safe_mono; [by apply safe_main_init|].
  intros ? h1 [_ _ _ Hl _ _ _ Ha].
  eapply safe_mono; [apply safe_leaves; [by apply alive_main_loop|apply leaves_main_loop]|].
  intros ? h2 [Ha2 [= E1 E2 E3 _]%(f_equal id)]. split; [done|].
  unfold listening, below_max in *. by rewrite E1, E2, E3.
Qed.
End start_up.

(** *** When nothing fails *)

(** Every call succeeds, and the daemon is the child of the fork. *)
Class Serving (D : Type) `{System D} `{Terminal D} `{Broker D} := {
  malloc_ok n d : fst (sys_malloc n d) = true;
  write_ok l d : fst (sys_write l d) = Z.of_nat (length l);
  open_ok path d : 0 <= fst (sys_open path d);
  tcgetattr_ok fd d : is_Some (fst (sys_tcgetattr fd d));
  tcsetattr_ok fd t d : 0 <= fst (sys_tcsetattr fd t d);
  fork_child d : fst (sys_fork d) = 0;
  socket_ok d : fst (amqp_tcp_socket_new d) = true;
  connect_ok host port d : fst (amqp_socket_open host port d) = AMQP_STATUS_OK;
  login_ok v u p d : fst (amqp_login v u p d) = true;
  sockfd_ok d : 0 <= fst (amqp_get_sockfd d)
}.

Lemma wp_of_safe {S A} (c : cmd S A) Q s : safe c Q s -> wp c (fun _ _ => True) s -> wp c Q s.
Proof. unfold safe, wp. by destruct (c s). Qed.

Section completes.
Context {D : Type} `{System D} `{Terminal D} `{Broker D} `{!DescriptorLaws D} `{!Serving D}.
Implicit Types h : host D.

(** [c] returns, with a value that satisfies [V]. *)
Definition returns {A} (c : daemon D A) (V : A -> Prop) : Prop := forall h, wp c (fun a _ => V a) h.

Lemma returns_bind {A B} (c : daemon D A) (k : A -> daemon D B) V V' :
  returns c V -> (forall a, V a -> returns (k a) V') -> returns (c ≫= k) V'.
Proof. intros Hc Hk h. rewrite wp_bind. eapply wp_mono; [apply Hc|]. intros a h' Ha. by apply Hk. Qed.

Lemma returns_ret {A} (a : A) (V : A -> Prop) : V a -> returns (mret a) V.
Proof. by intros Ha h. Qed.

Lemma returns_hget {T} (f : host D -> T) : returns (hget f) (fun _ => True).
Proof. done. Qed.

Lemma returns_hput {T} (f : host D -> T) `{!Setter f} v : returns (hput f v) (fun _ => True).
Proof. done. Qed.

Lemma returns_modify (f : host D -> host D) : returns (modify f) (fun _ => True).
Proof. done. Qed.

Lemma returns_syscall {A} (c : D -> A * D) (V : A -> Prop) : (forall d, V (fst (c d))) -> returns (syscall c) V.
Proof. intros HV h. unfold wp, syscall. specialize (HV (h_sys h)). by destruct (c (h_sys h)). Qed.

Lemma returns_true {A} (c : daemon D A) V : returns c V -> returns c (fun _ => True).
Proof. intros Hc h. by eapply wp_mono; [apply Hc|]. Qed.

(** Statement by statement, when nothing is asked of the values. *)
Ltac return_ :=
  repeat first
    [ solve [apply returns_ret; done | apply returns_hget | apply returns_hput | apply returns_modify]
    | progress cbv zeta
    | eapply returns_bind; [|intros ? ?]
    | case_match ].

Lemma returns_timer_insert f secs : returns (timer_insert f secs) (fun _ => True).
Proof.
  assert (returns timer_alloc (fun _ => True)) as Ha.
  { unfold timer_alloc. eapply returns_bind; [apply returns_hget|]. intros [|n] _; [|apply returns_hput].
    eapply returns_bind; [apply (returns_syscall _ (fun b => b = true)), malloc_ok|].
    intros ? ->. by apply returns_ret. }
  unfold timer_insert. eapply returns_bind; [exact Ha|]. intros _ _. return_.
Qed.

Lemma returns_watch fd : 0 <= fd < FD_SETSIZE -> returns (FD_SET fd;; raise_maxfd fd) (fun _ => True).
Proof.
  intros Hfd h. apply wp_of_safe; [by rewrite safe_bind, safe_FD_SET, safe_raise_maxfd by done|].
  rewrite wp_bind. unfold FD_SET. rewrite (proj2 (Z.ltb_ge _ _)), (proj2 (Z.leb_gt _ _)) by lia.
  cbn [orb]. rewrite wp_modify. unfold raise_maxfd. rewrite wp_bind. unfold hget. rewrite wp_gets, wp_when.
  by case_match.
Qed.

Lemma returns_sio_write msg : returns (sio_write msg) (fun _ => True).
Proof.
  unfold sio_write. eapply returns_bind; [apply (returns_syscall _ (fun n => n = Z.of_nat (length msg))), write_ok|].
  intros ? ->. rewrite Z.eqb_refl. apply returns_modify.
Qed.

Lemma returns_sio_init device speed :
  speed ∈ speed_values -> returns (sio_init device speed) (fun _ => True).
Proof.
  intros Hin. unfold sio_init. eapply (returns_bind _ _ (fun c => is_Some c)).
  { intros h. unfold wp, speeds. rewrite find_speed_run by apply speed_values_set. by rewrite decide_True. }
  intros ? [code ->].
  eapply (returns_bind _ _ (fun fd => 0 <= fd < FD_SETSIZE)).
  { apply returns_syscall. intros d. split; [apply open_ok|apply open_bound]. }
  intros fd Hfd. eapply returns_bind; [apply returns_hput|]. intros _ _.
  rewrite (proj2 (Z.ltb_ge _ _)) by lia. unfold sio_setup.
  eapply (returns_bind _ _ (fun t => is_Some t)); [apply returns_syscall, tcgetattr_ok|]. intros ? [t ->].
  eapply (returns_bind _ _ (fun r => 0 <= r)); [apply returns_syscall; intros; apply tcsetattr_ok|].
  intros r Hr. rewrite (proj2 (Z.ltb_ge _ _)) by done.
  eapply returns_bind; [apply returns_hput|]. intros _ _ h. rewrite <- (wp_bind_assoc (FD_SET fd)).
  revert h. eapply returns_bind; [by apply returns_watch|]. intros _ _.
  eapply returns_bind; [apply returns_sio_write|]. intros _ _. apply returns_hput.
Qed.

Lemma returns_rmq_init host : returns (rmq_init (Some host)) (fun _ => True).
Proof.
  unfold rmq_init. destruct (broker_address host) as [a port].
  eapply (returns_bind _ _ (fun _ => True)); [by apply returns_syscall|]. intros _ _.
  eapply (returns_bind _ _ (fun b => b = true)); [apply returns_syscall, socket_ok|]. intros ? ->. cbn [negb].
  eapply (returns_bind _ _ (fun r => r = AMQP_STATUS_OK)); [apply returns_syscall; intros; apply connect_ok|].
  intros ? ->. cbn [negb Z.eqb AMQP_STATUS_OK].
  eapply (returns_bind _ _ (fun b => b = true)); [apply returns_syscall; intros; apply login_ok|].
  intros ? ->. cbn [negb].
  eapply (returns_bind _ _ (fun fd => 0 <= fd < FD_SETSIZE)).
  { apply returns_syscall. intros d. split; [apply sockfd_ok|apply sockfd_bound]. }
  intros fd Hfd. rewrite (proj2 (Z.ltb_ge _ _)) by lia. by apply returns_watch.
Qed.

Lemma returns_main_init DEBUG argv :
  forallb good_option (getopts argv) = true -> speed_of argv ∈ speed_values ->
  returns (main_init DEBUG argv) (fun _ => True).
Proof.
  intros Ho Hv. unfold main_init, default_broker.
  eapply (returns_bind _ _ (fun o => is_Some o)).
  { eapply returns_bind; [apply (returns_syscall _ (fun b => b = true)), malloc_ok|].
    intros ? ->. by apply returns_ret. }
  intros r Hr. eapply (returns_bind _ _ (fun s => exists l host, s = mk_settings (speed_of argv) l (Some host))).
  { intros h. pose proof (set_options_run (getopts argv) (str "38400") (str "/dev/ttyUSB0")
      (mk_settings 38400 (str "/dev/ttyUSB0") r) h eq_refl eq_refl Hr) as Hs.
    rewrite Ho in Hs. destruct Hs as [host Hs]. unfold wp. rewrite Hs. by eexists _, host. }
  intros ? (l&host&->). unfold timer_init. cbn [o_speed o_device o_rmqhost].
  eapply returns_bind; [apply returns_hput|]. intros _ _.
  eapply returns_bind; [apply returns_hput|]. intros _ _.
  eapply (returns_bind _ _ (fun _ => True)); [return_|]. intros _ _.
  eapply returns_bind; [by apply returns_sio_init|]. intros _ _.
  eapply returns_bind; [apply returns_rmq_init|]. intros _ _.
  eapply (returns_bind _ _ (fun _ => True)).
  { unfold state_init. do 2 (eapply returns_bind; [apply returns_hput|]; intros _ _). apply returns_timer_insert. }
  intros _ _. unfold detach. destruct DEBUG; cbn [negb when]; [by apply returns_ret|].
  eapply (returns_bind _ _ (fun i => i = 0)); [apply returns_syscall, fork_child|]. intros ? ->.
  by apply returns_ret.
Qed.
End completes.

(** A round in which only the broker has something to say: it is not read, so the next
    [select] returns at once. *)
Lemma broker_unread {D} `{System D} r d h :
  sys_select (i32 (h_maxfd h + 1)) (h_mrfds h) (h_tv_sec h) (h_tv_usec h) (h_sys h) = (r, d) ->
  0 < sel_n r -> 0 < sel_sec r -> h_siofd h ∉ sel_ready r ->
  main_pass h = Done tt (h <| h_sys := d |> <| h_tv_sec := sel_sec r |> <| h_tv_usec := sel_usec r |>).
Proof.
  intros Hsel Hn Hs Hfd. unfold main_pass, mbind, cmd_bind, hget, gets, syscall, hput, modify.
  rewrite Hsel. upd_simpl. rewrite (proj2 (Z.ltb_ge _ _)), (proj2 (Z.eqb_neq (sel_sec r) 0)) by lia.
  cbn [andb when]. unfold mret, cmd_ret. rewrite (proj2 (Z.eqb_neq (sel_n r) 0)) by lia.
  unfold when. destruct (bool_decide _) eqn:E; [|done]. by apply bool_decide_eq_true in E.
Qed.

(** ** Properties *)

Section properties.
Context {D : Type} `{System D} `{Terminal D} `{Broker D} `{!DescriptorLaws D}.
Implicit Types h : host D.

(** [C14] The daemon starts: with options it knows, a speed of its table and calls that
    succeed, [main] reaches its loop with the device of the command line open as a raw
    line of eight bits at the speed asked for (the last of its option, or the default),
    the controller's boot loader told to start it, the serial line and the broker
    among the descriptors that are watched, and the state machine due in three
    seconds. *)
Theorem daemon_starts `{!Serving D} DEBUG argv h :
  forallb good_option (getopts argv) = true -> speed_of argv ∈ speed_values ->
  wp (main_init DEBUG argv) (fun _ => started argv (h_sent h)) h.
Proof.
  intros Ho Hv. apply wp_of_safe; [apply safe_main_init, malloc_ok|by apply returns_main_init].
Qed.

(** A command line that is not understood, or a speed that is not in the table, is
    refused before anything is opened: the system has been asked for the default
    address of the broker only, and nothing has been sent. *)
Theorem bad_options_refused DEBUG argv h :
  fst (sys_malloc 15 (h_sys h)) = true ->
  forallb good_option (getopts argv) = false \/ speed_of argv ∉ speed_values ->
  exists h', main_init DEBUG argv h = Restart h' /\
    h_sys h' = snd (sys_malloc 15 (h_sys h)) /\ h_sent h' = h_sent h /\ h_tty h' = h_tty h.
Proof. apply refused_options. Qed.

(** [C8] The daemon never runs out of things to do: from the command line on, whatever
    [select] reports and whatever bytes arrive, however they are cut, every round of
    the main loop keeps every index inside its array, watches the serial line, and
    leaves the next step scheduled (the state machine until the controller is up, the
    request for its status afterwards), or ends the process. *)
Theorem daemon_stays_alive `{!SystemLaws D} DEBUG argv n h :
  fst (sys_malloc 15 (h_sys h)) = true ->
  safe (lrmon_main DEBUG argv n) (fun _ h' => alive h' /\ listening h') h.
Proof. apply safe_lrmon_main; apply _. Qed.
End properties.



(** ** Instances of the properties *)

#[export] Instance script_terminal : Terminal (list (list Z)) := {|
  baud := fun v => v;
  sys_open := fun _ d => (3, d);
  sys_tcgetattr := fun _ d => (Some (mk_termios 0x500 5 0xcbd 0x8a3b 1 0 13 13), d);
  sys_tcsetattr := fun _ _ d => (0, d);
  sys_close := fun _ d => (tt, d);
  sys_fork := fun d => (0, d)
|}.

#[export] Instance script_broker : Broker (list (list Z)) := {|
  amqp_new_connection := fun d => (tt, d);
  amqp_tcp_socket_new := fun d => (true, d);
  amqp_socket_open := fun _ _ d => (0, d);
  amqp_login := fun _ _ _ d => (true, d);
  amqp_get_sockfd := fun d => (4, d)
|}.

#[export] Instance script_descriptors : DescriptorLaws (list (list Z)).
Proof. by split. Qed.

#[export] Instance script_serving : Serving (list (list Z)).
Proof. by split. Qed.

(** [lrmond -s 9600 -l/dev/ttyS1] *)
Definition bench_argv : list (list Z) := [str "-s"; str "9600"; str "-l/dev/ttyS1"].

Example options_taken :
  getopts bench_argv = [(115, str "9600"); (108, str "/dev/ttyS1")] /\
  speed_of bench_argv = 9600 /\ device_of bench_argv = str "/dev/ttyS1".
Proof. by vm_compute. Qed.

(** A start and two rounds, in which a static status arrives in two pieces. *)
Example daemon_runs :
  match lrmon_main false bench_argv 2
    (bench_host 0 [] [str "<A1:9:9:0,1,1,1"; str ",1,3,1" ++ [13; 10] ]) with
  | Done _ h => s_fw_h (h_sstatus h) = 3 /\ h_state h = STATE_DREQUEST
  | _ => False
  end.
Proof. by vm_compute. Qed.

Lemma daemon_starts_witness :
  wp (main_init true bench_argv) (fun _ => started bench_argv []) (bench_host 0 [] []).
Proof.
  apply (daemon_starts true bench_argv (bench_host 0 [] [])); [done|].
  apply (bool_decide_unpack _). by vm_compute.
Defined.

Lemma bad_options_refused_witness :
  exists h', main_init true [str "-s"; str "9601"] (bench_host 0 [] []) = Restart h' /\
    h_sys h' = [] /\ h_sent h' = [] /\ h_tty h' = None.
Proof.
  refine (bad_options_refused true [str "-s"; str "9601"] (bench_host 0 [] []) eq_refl (or_intror _)).
  apply (bool_decide_unpack _). by vm_compute.
Defined.

Lemma daemon_stays_alive_witness :
  safe (lrmon_main false bench_argv 3) (fun _ h' => alive h' /\ listening h')
    (bench_host 0 [] [str "<A1:9:9:0,1,1,1,1,3,1" ++ [13; 10] ++ str "<"; str "+" ++ [10] ]).
Proof.
  apply (daemon_stays_alive false bench_argv 3
    (bench_host 0 [] [str "<A1:9:9:0,1,1,1,1,3,1" ++ [13; 10] ++ str "<"; str "+" ++ [10] ])).
  done.
Defined.
