(* ===== verification/LrSilence.v ===== *)
(** lrmon when the controller says nothing: how the main loop of main.c, the timers of
    timer.c and the state machine of state.c go on without an answer, and what becomes
    of a controller that has once been brought up. *)

From S2P Require Import Prelude Cmd Packet Lrmon LrCommand LrState LrInput LrMain.

(** ** Silence *)

(** Every [select] runs into its timeout. *)
Class Silence (D : Type) `{System D} := {
  select_silent nfds fds sec usec d : fst (sys_select nfds fds sec usec d) = mk_selected 0 0 0 ∅
}.

(** [n] steps of the bring-up, one after the other. *)
Fixpoint night (n : nat) (v : view) : list step :=
  match n with
  | O => []
  | S n' => advance v :: night n' (a_view (advance v))
  end.

Definition dawn (n : nat) (v : view) : view := Nat.iter n (fun v => a_view (advance v)) v.

(** The seconds they are apart. *)
Definition waits (l : list step) : Z := foldr (fun a s => a_wait a + s) 0 l.

(** The controller is not up, and no answer has been heard that would make it so. *)
Definition hopeless (v : view) : Prop :=
  STATE_UNKNOWN <= v_state v < STATE_READY /\ 0 <= v_retries v <= 11 /\
  (v_state v = STATE_ACTIVATE_CH3 -> v_failure v <> 0).

(** A bound on the steps to the next reset: one that asks for what the next phase
    waits for, eleven tries, and the reset. *)
Definition togo (v : view) : Z :=
  if 10 <? v_retries v then 1
  else if v_state v =? STATE_SEND_RESET then 1
  else if v_state v =? STATE_UNKNOWN then 12
  else if answered v then 13
  else 12 - v_retries v.

Lemma togo_bound v : hopeless v -> 1 <= togo v <= 13.
Proof. intros (_&Hr&_). unfold togo. repeat case_match; lia. Qed.

Lemma hopeless_step v : hopeless v -> hopeless (a_view (advance v)).
Proof.
  intros (Hs&Hr&Hc). destruct (advance_range v Hs Hr) as [Hs' Hr'].
  assert (forall st, v_state (a_view (advance v)) = st ->
    st <> STATE_READY /\ (st = STATE_ACTIVATE_CH3 -> v_failure (a_view (advance v)) <> 0)) as Hgo.
  { intros st <-. clear Hs' Hr'. revert Hs Hc. unfold advance, again, enter.
    unfold STATE_READY, STATE_UNKNOWN, STATE_SEND_RESET, STATE_SREQUEST, STATE_DREQUEST, STATE_ACTIVATE,
      STATE_SET_TIME, STATE_SET_DATE, STATE_ACTIVATE_CH0, STATE_ACTIVATE_CH3 in *.
    intros Hs Hc. cbv zeta. repeat case_match; cbn [a_view v_state v_failure] in *; lia. }
  destruct (Hgo _ eq_refl) as [Hn Hc']. split; [lia|]. by split.
Qed.

(** Each step that is not the reset comes closer to it. *)
Lemma togo_step v :
  hopeless v -> a_ask (advance v) = Some Q_reset \/ togo (a_view (advance v)) < togo v.
Proof.
  intros (Hs&Hr&Hc). unfold togo, answered, advance, again, enter in *.
  unfold STATE_READY, STATE_UNKNOWN, STATE_SEND_RESET, STATE_SREQUEST, STATE_DREQUEST, STATE_ACTIVATE,
    STATE_SET_TIME, STATE_SET_DATE, STATE_ACTIVATE_CH0, STATE_ACTIVATE_CH3 in *.
  destruct (Z.ltb_spec 10 (v_retries v)) as [|Hle]; [by left|].
  rewrite (i32_small (v_retries v + 1)) by lia. cbv zeta.
  repeat (case_match; try (by left); try (right; cbn [a_view v_state v_retries v_received v_failure] in *; lia)).
Qed.

Lemma night_resets v :
  hopeless v -> exists k, Z.of_nat k < togo v /\ a_ask (advance (dawn k v)) = Some Q_reset /\
    forall j, (j <= k)%nat -> hopeless (dawn j v).
Proof.
  remember (Z.to_nat (togo v)) as n eqn:En. revert v En.
  induction n as [n IH] using lt_wf_ind. intros v -> Hv. pose proof (togo_bound v Hv) as Hb.
  destruct (togo_step v Hv) as [Hq|Hlt].
  { exists 0%nat. split; [lia|]. split; [done|]. intros j Hj. by replace j with 0%nat by lia. }
  pose proof (hopeless_step v Hv) as Hv'. pose proof (togo_bound _ Hv') as Hb'.
  destruct (IH (Z.to_nat (togo (a_view (advance v)))) ltac:(lia) _ eq_refl Hv') as (k&Hk&Hq&Hh).
  exists (S k). split; [lia|]. unfold dawn in *. rewrite Nat.iter_succ_r. split; [done|].
  intros [|j] Hj; [done|]. rewrite Nat.iter_succ_r. apply Hh. lia.
Qed.

Lemma waits_bound n v : 0 <= waits (night n v) <= 5 * Z.of_nat n.
Proof.
  revert v. induction n as [|n IH]; intros v; [done|].
  change (waits (night (S n) v)) with (a_wait (advance v) + waits (night n (a_view (advance v)))).
  pose proof (advance_wait v). specialize (IH (a_view (advance v))). lia.
Qed.

(** ** The loop in silence *)

Section silence.
Context {D : Type} `{System D} `{Terminal D} `{Broker D} `{!DescriptorLaws D} `{!Serving D}.
Implicit Types h : host D.

(** The first [n] rounds of the main loop, with the seconds that [select] has waited. *)
Fixpoint timed_loop (n : nat) : daemon D Z :=
  match n with
  | O => mret 0
  | S n' =>
      sec ← hget h_tv_sec;
      main_pass;;
      later ← timed_loop n';
      mret (sec + later)
  end.

Lemma timed_loop_main n h : main_loop n h = (timed_loop n;; mret tt) h.
Proof.
  revert h. induction n as [|n IH]; intros h; cbn [main_loop timed_loop]; [done|].
  rewrite !bind_assoc. unfold mbind, cmd_bind, hget, gets in *.
  destruct (main_pass h) as [ [] h1| | |]; [|done..]. rewrite IH. by destruct (timed_loop n h1).
Qed.

(** *** When nothing fails, the state machine returns *)

Lemma returns_sio_send msg : returns (sio_send msg) (fun _ => True).
Proof. unfold sio_send. eapply returns_bind; [|intros _ _]; apply returns_sio_write. Qed.

Lemma returns_send_command chan node cmd data n :
  n = Z.of_nat (length data) -> (length data <= 40)%nat ->
  returns (send_command chan node cmd data n) (fun _ => True).
Proof.
  intros -> Hl. unfold send_command. rewrite Z.ltb_irrefl, Nat2Z.id, take_ge by done. cbv zeta.
  pose proof (command_text_bound chan node cmd data).
  rewrite (proj2 (Z.ltb_ge _ _)) by (unfold OBUFFER_SIZE; lia). apply returns_sio_send.
Qed.

Lemma returns_timer_remove f : returns (timer_remove f : daemon D unit) (fun _ => True).
Proof.
  unfold timer_remove. eapply returns_bind; [apply returns_hget|]. intros q _. case_match; [|by apply returns_ret].
  eapply returns_bind; [apply returns_hget|]. intros n _. eapply returns_bind; [apply returns_hput|].
  intros _ _. apply returns_hput.
Qed.
End silence.

Create HintDb returns discriminated.
#[export] Hint Resolve returns_hget returns_hput returns_modify : returns.
#[export] Hint Extern 1 (returns (sio_send _) _) => apply returns_sio_send : returns.
#[export] Hint Extern 1 (returns (timer_insert _ _) _) => apply returns_timer_insert : returns.
#[export] Hint Extern 1 (returns (timer_remove _) _) => apply returns_timer_remove : returns.
#[export] Hint Extern 1 (returns (mret _) _) => apply (returns_ret _ (fun _ => True)); exact I : returns.
#[export] Hint Extern 1 (returns (syscall _) _) => apply (returns_syscall _ (fun _ => True)); done : returns.
#[export] Hint Extern 1 (returns (send_command _ _ _ _ _) _) =>
  apply returns_send_command; [reflexivity|cbn; lia] : returns.

(** Statement by statement. *)
Ltac come_back :=
  repeat first
    [ eassumption
    | solve [auto with returns]
    | progress cbv zeta
    | match goal with |- returns (mbind _ _) _ => eapply returns_bind; [|intros ? ?] end
    | case_match ].

Section silence.
Context {D : Type} `{System D} `{Terminal D} `{Broker D} `{!DescriptorLaws D} `{!Serving D}.
Implicit Types h : host D.

Lemma returns_case_channel : returns (case_channel : daemon D Z) (fun _ => True).
Proof.
  unfold case_channel, set_channel, retry, dynamic_status_timer, request_local_status. come_back.
Qed.

Lemma returns_case_activate : returns (case_activate : daemon D Z) (fun _ => True).
Proof.
  pose proof returns_case_channel.
  unfold case_activate, case_set_time, case_set_date, local_activate, set_time, set_date, retry. come_back.
Qed.

Lemma returns_case_unknown : returns (case_unknown : daemon D Z) (fun _ => True).
Proof.
  pose proof returns_case_activate.
  unfold case_unknown, case_srequest, case_drequest, request_local_status, set_time, retry. come_back.
Qed.

Lemma returns_state_machine : returns (state_machine : daemon D unit) (fun _ => True).
Proof.
  pose proof returns_case_channel. pose proof returns_case_activate. pose proof returns_case_unknown.
  unfold state_machine, state_switch, case_send_reset, reset_controller, case_srequest, case_drequest,
    case_set_time, case_set_date, set_time, set_date, request_local_status, retry, when. come_back.
Qed.

Lemma returns_timer_expiry : returns (timer_expiry call : daemon D unit) (fun _ => True).
Proof.
  pose proof returns_state_machine.
  unfold timer_expiry, call, dynamic_status_timer, request_local_status. come_back.
Qed.

(** *** A round *)

(** An expired timer, as long as the controller is not up. *)
Lemma expiry_steps h :
  alive h -> h_state h <> STATE_READY ->
  safe (timer_expiry call) (fun _ => stepped (advance (view_of h)) h) h.
Proof.
  intros [ [Hrange Hret Hbuf Ht] Hne] Hst. rewrite (proj2 (Z.eqb_neq _ _) Hst) in Ht.
  destruct Ht as [Eq|(s&Hs&Eq)]; [by destruct (Hne Hst)|].
  unfold timer_expiry. rewrite safe_bind, safe_hget, Eq. cbn [last_ready fst snd call].
  rewrite safe_bind, safe_bind, safe_hput, safe_hput, safe_bind.
  set (h1 := h <| h_timerq := [] |> <| h_tv_sec := DEFAULT_TIMEOUT |>).
  eapply safe_mono; [apply (safe_state_machine h1)|].
  - split; [done|done|done|]. change (h_state h1) with (h_state h).
    rewrite (proj2 (Z.eqb_neq _ _) Hst). by left.
  - done.
  - intros ? h2 [Hv Hsent Htm Hto Hrest]. cbv beta. rewrite safe_bind, safe_hget, safe_hput. by split.
Qed.

Context `{!Silence D}.

(** A round in which nothing is heard is a step of the bring-up. *)
Lemma silent_pass h :
  alive h -> h_state h <> STATE_READY ->
  wp main_pass (fun _ h' => stepped (advance (view_of h)) h h' /\ alive h') h.
Proof.
  intros Ha Hst. unfold main_pass, hget, hput. rewrite !wp_bind, wp_gets, wp_bind, wp_gets, wp_bind, wp_gets, wp_bind, wp_gets.
  rewrite wp_bind. unfold wp at 1, syscall.
  pose proof (select_silent (i32 (h_maxfd h + 1)) (h_mrfds h) (h_tv_sec h) (h_tv_usec h) (h_sys h)) as Hsel.
  destruct (sys_select _ _ _ _ (h_sys h)) as [r d]. cbn [fst] in Hsel. subst r.
  rewrite wp_bind, wp_modify, wp_bind, wp_modify. cbn [sel_n sel_sec sel_usec sel_ready Z.ltb Z.eqb Z.compare andb when].
  set (h1 := _ <| h_tv_usec := _ |>). rewrite wp_bind.
  assert (alive h1) as Ha1 by by apply (alive_core h).
  eapply wp_mono; [apply wp_of_safe; [by apply expiry_steps|apply returns_timer_expiry]|].
  intros ? h2 Hs2. rewrite wp_ret. split; [by destruct Hs2; split|].
  apply (stepped_alive h1); [apply Ha1|done|done].
Qed.

Lemma silent_rounds n h :
  alive h -> hopeless (view_of h) ->
  wp (timed_loop n) (fun t h' =>
    alive h' /\ view_of h' = dawn n (view_of h) /\
    t + h_tv_sec h' = h_tv_sec h + waits (night n (view_of h)) /\
    h_tv_sec h' = default (h_tv_sec h) (a_wait <$> last (night n (view_of h))) /\
    exists msgs, Forall2 (fun a msg => says (a_ask a) msg) (night n (view_of h)) msgs /\
      h_sent h' = h_sent h ++ concat msgs) h.
Proof.
  revert h. induction n as [|n IH]; intros h Ha Hh; cbn [timed_loop].
  { rewrite wp_ret. split; [done|]. split; [done|]. split; [cbn; lia|]. split; [done|]. exists []. by rewrite app_nil_r. }
  assert (h_state h <> STATE_READY) as Hst by (destruct Hh as [Hr _]; cbn in Hr; lia).
  unfold hget. rewrite wp_bind, wp_gets, wp_bind.
  eapply wp_mono; [by apply silent_pass|]. cbv beta. intros _ h1 [ [Hv (msg&Hm&Hsent) _ Hto _] Ha1].
  pose proof (hopeless_step _ Hh) as Hh1. rewrite <- Hv in Hh1.
  assert (ready (a_view (advance (view_of h))) = false) as Hr.
  { rewrite <- Hv. destruct Hh1 as [Hr _]. apply Z.eqb_neq. lia. }
  rewrite Hr in Hto. rewrite wp_bind. eapply wp_mono; [by apply IH|]. cbv beta.
  intros t h2 (Ha2&Hv2&Ht2&Hl2&msgs&Hms&Hsent2). rewrite wp_ret. split; [done|].
  unfold dawn in *. rewrite Nat.iter_succ_r, <- Hv. split; [done|].
  cbn [night waits foldr]. rewrite <- Hv. split; [unfold waits in Ht2; lia|].
  split; [rewrite Hl2, last_cons, Hto; by destruct (last _)|].
  exists (msg :: msgs). split; [by constructor|]. cbn [concat]. by rewrite Hsent2, Hsent, <- app_assoc.
Qed.

Lemma night_snoc n v : night (S n) v = night n v ++ [advance (dawn n v)].
Proof.
  revert v. induction n as [|n IH]; intros v; [done|]. unfold dawn. rewrite Nat.iter_succ_r.
  change (night (S (S n)) v) with (advance v :: night (S n) (a_view (advance v))). by rewrite IH.
Qed.

Lemma waits_app l1 l2 : waits (l1 ++ l2) = waits l1 + waits l2.
Proof. unfold waits. induction l1 as [|a l1 IH]; cbn; [done|]. rewrite IH. lia. Qed.

Lemma reset_view v : a_ask (advance v) = Some Q_reset -> v_state (a_view (advance v)) = STATE_UNKNOWN.
Proof. unfold advance, again, enter. cbv zeta. by repeat case_match. Qed.

(** *** Until the reset *)

Lemma silence_ends h :
  alive h -> hopeless (view_of h) ->
  exists n, (1 <= n <= 13)%nat /\
    wp (timed_loop n) (fun t h' => t <= h_tv_sec h + 60 /\ alive h' /\ h_state h' = STATE_UNKNOWN /\
      exists asked, h_sent h' = h_sent h ++ asked ++ sio_line (str ">R")) h.
Proof.
  intros Ha Hh. destruct (night_resets _ Hh) as (k&Hk&Hq&_). pose proof (togo_bound _ Hh).
  exists (S k). split; [lia|]. eapply wp_mono; [by apply silent_rounds|]. cbv beta.
  intros t h' (Ha'&Hv&Ht&Hlast&msgs&Hms&Hsent). rewrite night_snoc in Ht, Hlast, Hms. rewrite last_snoc in Hlast.
  apply Forall2_app_inv_l in Hms as (m1&m2&_&Hm2&->).
  apply Forall2_cons_inv_l in Hm2 as (m&?&Hm&Hnil&->). apply Forall2_nil_inv_l in Hnil as ->.
  assert (view_of h' = a_view (advance (dawn k (view_of h)))) as Hv' by (rewrite Hv; unfold dawn; by rewrite Nat.iter_succ).
  rewrite Hq in Hm. cbn [says] in Hm. subst m.
  split; [|split; [done|split] ].
  - rewrite waits_app in Ht. pose proof (waits_bound k (view_of h)).
    cbn in Hlast. unfold waits in Ht at 2. cbn [foldr] in Ht. lia.
  - change (v_state (view_of h') = STATE_UNKNOWN). rewrite Hv'. by apply reset_view.
  - exists (concat m1). rewrite Hsent, concat_app. cbn [concat]. by rewrite app_nil_r.
Qed.

(** *** A controller that never answers *)

(** What it is sent in 38 seconds: eleven requests for its status, and a reset. *)
Definition knocks : list Z :=
  concat (replicate 11 (sio_line (str ">S"))) ++ sio_line (str ">R").

Lemma night_unanswered v :
  v_state v = STATE_UNKNOWN -> v_retries v = 0 ->
  map a_ask (night 12 v) = replicate 11 (Some (Q_status RADIO_STATUS_STATIC)) ++ [Some Q_reset] /\
  waits (night 12 v) = 38 /\ dawn 12 v = mk_view STATE_UNKNOWN 0 0 (v_failure v) (v_node v).
Proof. destruct v as [st r rr fs node]. cbn [v_state v_retries]. intros -> ->. by split_and!. Qed.

Lemma says_known rs msgs n :
  rs = replicate n (Some (Q_status RADIO_STATUS_STATIC)) ++ [Some Q_reset] ->
  Forall2 says rs msgs -> concat msgs = concat (replicate n (sio_line (str ">S"))) ++ sio_line (str ">R").
Proof.
  intros ->. revert msgs. induction n as [|n IH]; intros msgs Hms; cbn [replicate app] in Hms.
  - apply Forall2_cons_inv_l in Hms as (m&?&Hm&Hnil&->). apply Forall2_nil_inv_l in Hnil as ->.
    cbn [says] in Hm. by subst m.
  - apply Forall2_cons_inv_l in Hms as (m&ms&Hm&Hms&->). cbn [concat replicate]. rewrite (IH ms Hms).
    cbn [says] in Hm. subst m. by rewrite <- app_assoc.
Qed.

Lemma one_cycle h :
  alive h -> h_state h = STATE_UNKNOWN -> h_retries h = 0 ->
  wp (timed_loop 12) (fun t h' =>
    alive h' /\ h_state h' = STATE_UNKNOWN /\ h_retries h' = 0 /\ t + h_tv_sec h' = h_tv_sec h + 38 /\
    h_sent h' = h_sent h ++ knocks) h.
Proof.
  intros Ha Hst Hr. destruct (night_unanswered (view_of h) Hst Hr) as (Hn&Hw&Hd).
  eapply wp_mono.
  { apply (silent_rounds 12 h Ha). unfold hopeless. cbn [view_of v_state v_retries]. rewrite Hst, Hr. by split_and!. }
  cbv beta. intros t h' (Ha'&Hv&Ht&_&msgs&Hms&Hsent). rewrite Hd in Hv. rewrite Hw in Ht.
  split; [done|]. split; [exact (f_equal v_state Hv)|]. split; [exact (f_equal v_retries Hv)|].
  split; [exact Ht|]. rewrite Hsent. unfold knocks. f_equal. apply (says_known _ _ 11 Hn).
  by apply Forall2_fmap_l.
Qed.

Lemma timed_loop_app a b h :
  timed_loop (a + b) h = (t1 ← timed_loop a; t2 ← timed_loop b; mret (t1 + t2)) h.
Proof.
  revert h. induction a as [|a IH]; intros h; cbn [Nat.add timed_loop].
  - unfold mbind, cmd_bind, mret, cmd_ret. by destruct (timed_loop b h).
  - unfold mbind, cmd_bind, hget, gets, mret, cmd_ret in *.
    destruct (main_pass h) as [ [] h1| | |]; [|done..]. rewrite IH.
    destruct (timed_loop a h1) as [t1 h2| | |]; [|done..].
    destruct (timed_loop b h2) as [t2 h3| | |]; [|done..]. f_equal. lia.
Qed.

Lemma cycles k h :
  alive h -> h_state h = STATE_UNKNOWN -> h_retries h = 0 ->
  wp (timed_loop (k * 12)) (fun t h' =>
    alive h' /\ t + h_tv_sec h' = h_tv_sec h + 38 * Z.of_nat k /\
    h_sent h' = h_sent h ++ concat (replicate k knocks)) h.
Proof.
  revert h. induction k as [|k IH]; intros h Ha Hst Hr.
  { cbn [Nat.mul timed_loop replicate concat]. rewrite wp_ret, app_nil_r. split; [done|]. split; [lia|done]. }
  change (S k * 12)%nat with (12 + k * 12)%nat. rewrite (wp_eq _ _ _ _ _ (timed_loop_app 12 (k * 12) h)).
  rewrite wp_bind. eapply wp_mono; [by apply one_cycle|]. cbv beta. intros t1 h1 (Ha1&Hst1&Hr1&Ht1&Hs1).
  rewrite wp_bind. eapply wp_mono; [by apply IH|]. cbv beta. intros t2 h2 (Ha2&Ht2&Hs2).
  rewrite wp_ret. split; [done|]. split; [lia|]. cbn [replicate concat]. by rewrite Hs2, Hs1, <- app_assoc.
Qed.
End silence.

(** ** A controller that has been up *)

(** The request for the dynamic status. *)
Definition status_request : list Z := sio_line (str ">T").

(** From the READY state, [c] does not leave it, and sends nothing else. *)
Definition calm {D A} (c : daemon D A) : Prop :=
  forall h a h', h_state h = STATE_READY -> c h = Done a h' ->
    h_state h' = STATE_READY /\ exists k, h_sent h' = h_sent h ++ concat (replicate k status_request).

Section calm.
Context {D : Type}.

Lemma calm_bind {A B} (c : daemon D A) (k : A -> daemon D B) :
  calm c -> (forall a, calm (k a)) -> calm (c ≫= k).
Proof.
  intros Hc Hk h b h' Hh E. unfold mbind, cmd_bind in E. destruct (c h) as [a h1| | |] eqn:E1; [|done..].
  destruct (Hc _ _ _ Hh E1) as [Hh1 [k1 Ek1] ]. destruct (Hk a _ _ _ Hh1 E) as [Hh2 [k2 Ek2] ].
  split; [done|]. exists (k1 + k2)%nat. by rewrite replicate_add, concat_app, Ek2, Ek1, <- app_assoc.
Qed.

Lemma calm_same {A} (c : daemon D A) :
  (forall h a h', c h = Done a h' -> h_state h' = h_state h /\ h_sent h' = h_sent h) -> calm c.
Proof.
  intros Hc h a h' Hh E. destruct (Hc _ _ _ E) as [-> ->]. split; [done|]. exists 0%nat. by rewrite app_nil_r.
Qed.

Lemma calm_ret {A} (a : A) : calm (mret a : daemon D A).
Proof. apply calm_same. by intros h ? ? [= <- <-]. Qed.

Lemma calm_hget {T} (f : host D -> T) : calm (hget f).
Proof. apply calm_same. by intros h ? ? [= <- <-]. Qed.

Lemma calm_hput {T} (f : host D -> T) `{!Setter f} v :
  (forall h, h_state (h <| f := v |>) = h_state h /\ h_sent (h <| f := v |>) = h_sent h) -> calm (hput f v).
Proof. intros Hf. apply calm_same. intros h ? ? [= <- <-]. apply Hf. Qed.

Lemma calm_syscall {A} (c : D -> A * D) : calm (syscall c).
Proof. apply calm_same. intros h ? ?. unfold syscall. destruct (c (h_sys h)). by intros [= <- <-]. Qed.

Lemma calm_exit {A} : calm (exit : daemon D A).
Proof. done. Qed.

Lemma calm_fail {A} e : calm (fail e : daemon D A).
Proof. done. Qed.

Lemma calm_when b (c : daemon D unit) : calm c -> calm (when b c).
Proof. destruct b; [done|]. intros _. apply calm_ret. Qed.

(** What is safe and calm does both. *)
Lemma safe_calm {A} (c : daemon D A) Q h :
  safe c Q h -> calm c -> h_state h = STATE_READY ->
  safe c (fun a h' => Q a h' /\ h_state h' = STATE_READY /\
    exists k, h_sent h' = h_sent h ++ concat (replicate k status_request)) h.
Proof.
  unfold safe. intros Hs Hc Hh. destruct (c h) as [a h'| | |] eqn:E; [|done..]. split; [done|]. by eapply Hc.
Qed.
End calm.

Create HintDb calm discriminated.
#[export] Hint Resolve calm_ret calm_hget calm_syscall calm_exit calm_fail : calm.
#[export] Hint Extern 1 (calm (hput _ _)) => apply calm_hput; by split : calm.

(** Statement by statement. *)
Ltac calm_down :=
  repeat first
    [ assumption
    | solve [auto with calm]
    | progress cbv zeta
    | match goal with |- calm (mbind _ _) => apply calm_bind; [|intros ?] end
    | apply calm_when
    | case_match ].

Section up.
Context {D : Type} `{System D}.
Implicit Types h : host D.

Lemma calm_timer_insert f secs : calm (timer_insert f secs : daemon D unit).
Proof. unfold timer_insert, timer_alloc. calm_down. Qed.

Lemma calm_timer_remove f : calm (timer_remove f : daemon D unit).
Proof. unfold timer_remove. calm_down. Qed.

Lemma calm_state_machine : calm (state_machine : daemon D unit).
Proof.
  intros h a h' Hh E. unfold state_machine, mbind, cmd_bind in E.
  destruct (timer_remove F_state_machine h) as [ [] h1| | |] eqn:E1; [|done..].
  destruct (calm_timer_remove F_state_machine _ _ _ Hh E1) as [Hh1 Hs1].
  unfold hget, gets in E. cbv beta iota in E. rewrite Hh1, Z.eqb_refl in E. cbv [mret cmd_ret] in E. by simplify_eq.
Qed.

Lemma calm_dynamic_status_timer : calm (dynamic_status_timer : daemon D unit).
Proof.
  unfold dynamic_status_timer, request_local_status. apply calm_bind; [|intros _; apply calm_timer_insert].
  intros h a h' Hh E. pose proof (safe_sio_send (str ">T") h) as Hs. unfold safe in Hs.
  change (str ">" ++ [u8 (RADIO_STATUS_DYNAMIC + 83)]) with (str ">T") in E. rewrite E in Hs.
  destruct Hs as [d ->]. split; [done|]. exists 1%nat. cbn [replicate concat]. by rewrite app_nil_r.
Qed.

Lemma calm_parse_data data : calm (parse_data data : daemon D unit).
Proof.
  pose proof calm_state_machine.
  unfold parse_data, parse_failure, parse_response, response, rmq_publish, local_response. calm_down.
Qed.

Lemma calm_sio_lines n text : calm (sio_lines n text : daemon D (list Z)).
Proof.
  pose proof calm_parse_data. revert text. induction n as [|n IH]; intros text; cbn [sio_lines]; calm_down; auto.
Qed.

Lemma calm_main_loop n : calm (main_loop n : daemon D unit).
Proof.
  pose proof calm_state_machine. pose proof calm_sio_lines. pose proof calm_dynamic_status_timer.
  induction n as [|n IH]; cbn [main_loop]; [apply calm_ret|].
  apply calm_bind; [|done]. unfold main_pass, timer_expiry, process_sio, call. calm_down; auto.
Qed.
End up.

(** ** Properties *)

Section properties.
Context {D : Type} `{System D} `{Terminal D} `{Broker D} `{!DescriptorLaws D} `{!Serving D} `{!Silence D}.
Implicit Types h : host D.

(** [C16] A controller that has stopped answering is reset: from any moment of the bring-up,
    unless the answer to the last request has just come, at most thirteen rounds of the
    main loop without an answer end with the reset of the controller and the bring-up
    starting anew, no later than a minute after the timer that is running. *)
Theorem silent_controller_reset h :
  alive h -> h_state h <> STATE_READY ->
  (h_state h = STATE_ACTIVATE_CH3 -> h_failure_status h <> 0) ->
  exists n, (1 <= n <= 13)%nat /\
    wp (timed_loop n) (fun t h' => t <= h_tv_sec h + 60 /\ alive h' /\ h_state h' = STATE_UNKNOWN /\
      exists asked, h_sent h' = h_sent h ++ asked ++ sio_line (str ">R")) h.
Proof.
  intros Ha Hst Hc. apply silence_ends; [done|]. destruct Ha as [ [Hs Hr _ _] _].
  split; [|by split]. change (v_state (view_of h)) with (h_state h). lia.
Qed.

(** [C17] A controller that never answers: from the command line on, the daemon tells the
    boot loader to start it, and then for ever asks eleven times for its status and
    resets it, once every 38 seconds, and nothing else. *)
Theorem dead_controller_cycle DEBUG argv k h :
  forallb good_option (getopts argv) = true -> speed_of argv ∈ speed_values ->
  wp (main_init DEBUG argv;; timed_loop (k * 12)) (fun t h' =>
    t + h_tv_sec h' = 3 + 38 * Z.of_nat k /\
    h_sent h' = h_sent h ++ sio_line (str "R") ++ concat (replicate k knocks)) h.
Proof.
  intros Ho Hv. rewrite wp_bind. eapply wp_mono.
  { apply wp_of_safe; [apply safe_main_init, malloc_ok|by apply returns_main_init]. }
  cbv beta. intros _ h1 [_ _ _ _ Hs [_ Ht] [Hst Hr] Ha].
  eapply wp_mono; [by apply cycles|]. cbv beta. intros t h2 (_&Ht2&Hs2). split; [lia|].
  by rewrite Hs2, Hs, <- app_assoc.
Qed.
End properties.

Section ready.
Context {D : Type} `{System D} `{!SystemLaws D}.
Implicit Types h : host D.

(** [C22] Once the controller is up it is taken to be up for good: whatever arrives or fails
    to arrive, the daemon stays in the READY state and sends nothing but requests for
    the dynamic status, so that a controller which dies or restarts after that is
    neither reset nor activated again. *)
Theorem ready_for_good n h :
  alive h -> h_state h = STATE_READY ->
  safe (main_loop n) (fun _ h' => alive h' /\ h_state h' = STATE_READY /\
    exists k, h_sent h' = h_sent h ++ concat (replicate k status_request)) h.
Proof. intros Ha Hst. apply safe_calm; [by apply alive_main_loop|apply calm_main_loop|done]. Qed.
End ready.

(** ** Instances of the properties *)

(** A host on which everything works and nobody speaks. *)
#[local] Instance still_system : System unit := {|
  sys_malloc := fun _ d => (true, d);
  sys_write := fun l d => (Z.of_nat (length l), d);
  sys_read := fun _ d => (Some [], d);
  sys_gettimeofday := fun d => (Some (1728916419, 323578), d);
  sys_time := fun d => (1728916419, d);
  sys_select := fun _ _ _ _ d => (mk_selected 0 0 0 ∅, d)
|}.

#[local] Instance still_terminal : Terminal unit := {|
  baud := fun v => v;
  sys_open := fun _ d => (3, d);
  sys_tcgetattr := fun _ d => (Some (mk_termios 0x500 5 0xcbd 0x8a3b 1 0 13 13), d);
  sys_tcsetattr := fun _ _ d => (0, d);
  sys_close := fun _ d => (tt, d);
  sys_fork := fun d => (0, d)
|}.

#[local] Instance still_broker : Broker unit := {|
  amqp_new_connection := fun d => (tt, d);
  amqp_tcp_socket_new := fun d => (true, d);
  amqp_socket_open := fun _ _ d => (0, d);
  amqp_login := fun _ _ _ d => (true, d);
  amqp_get_sockfd := fun d => (4, d)
|}.

#[local] Instance still_descriptors : DescriptorLaws unit.
Proof. by split. Qed.

#[local] Instance still_serving : Serving unit.
Proof. by split. Qed.

#[local] Instance still_silence : Silence unit.
Proof. by split. Qed.

(** A daemon in the middle of the bring-up, whose last request has been answered. *)
Definition still_host (st fs : Z) : host unit :=
  mk_host st 4 [(0, F_state_machine)] 0 5 0 fs 1 0 (mk_sstatus 0 0 0 0 0 0) (mk_dstatus 0 0 0 0 0)
    [] [] 3 3 {[3]} None tt.

Lemma still_alive st fs : STATE_UNKNOWN <= st < STATE_READY -> alive (still_host st fs).
Proof.
  intros Hst. assert (st <> STATE_READY) as Hne by lia.
  split; [|done]. split; [cbn; lia|done|by split; [constructor|cbn; lia]|].
  change (h_state (still_host st fs)) with st. rewrite (proj2 (Z.eqb_neq _ _) Hne). right. by exists 0.
Qed.

(** The time has been set, and then nothing more is heard: the date is asked for eleven
    times. *)
Example date_asked_eleven_times :
  match timed_loop 12 (still_host STATE_SET_TIME 0) with
  | Done t h => t = 60 /\ h_state h = STATE_UNKNOWN
  | _ => False
  end.
Proof. by vm_compute. Qed.

Lemma silent_controller_reset_witness :
  exists n, (1 <= n <= 13)%nat /\
    wp (timed_loop n) (fun t h' => t <= 65 /\ alive h' /\ h_state h' = STATE_UNKNOWN /\
      exists asked, h_sent h' = asked ++ sio_line (str ">R")) (still_host STATE_SET_TIME 0).
Proof.
  apply (silent_controller_reset (still_host STATE_SET_TIME 0)); [by apply still_alive|done|done].
Defined.

Lemma dead_controller_cycle_witness :
  wp (main_init true bench_argv;; timed_loop (2 * 12)) (fun t h' =>
    t + h_tv_sec h' = 79 /\ h_sent h' = sio_line (str "R") ++ concat (replicate 2 knocks))
    (still_host STATE_UNKNOWN 0).
Proof.
  apply (dead_controller_cycle true bench_argv 2 (still_host STATE_UNKNOWN 0)); [done|].
  apply (bool_decide_unpack _). by vm_compute.
Defined.

Lemma ready_for_good_witness :
  safe (main_loop 3) (fun _ h' => alive h' /\ h_state h' = STATE_READY /\
    exists k, h_sent h' = concat (replicate k status_request))
    (bench_host STATE_READY [(0, F_dynamic_status_timer)] [str "<-5/0" ++ [10]; str "<A1:9:9:0,1,1,1,1,3,1" ++ [10] ]).
Proof.
  apply (ready_for_good 3
    (bench_host STATE_READY [(0, F_dynamic_status_timer)] [str "<-5/0" ++ [10]; str "<A1:9:9:0,1,1,1,1,3,1" ++ [10] ]));
    [|done].
  split; [|done]. split; [done|done|by split; [constructor|cbn; lia]|]. exists 0. split; [done|by left].
Defined.
