(* ===== verification/LrFeed.v ===== *)
(** serial.c, read by read: however the bytes of the controller are cut into reads, the
    buffer of [process_sio] hands the same lines to [parse_data]. *)

From S2P Require Import Prelude Cmd Packet Lrmon LrCommand LrState LrInput.

(** ** A read, and what is done with it *)

Section feeding.
Context {D : Type} `{System D}.

(** [process_sio] once [read] has returned. *)
Definition digest (got : option (list Z)) : daemon D unit :=
  match got with
  | None => exit
  | Some [] => mret tt
  | Some l =>
      buffer ← hget h_buffer;
      if BUFFER_SIZE <=? Z.of_nat (length (buffer ++ l)) then fail OutOfBounds
      else
        let text := c_string (buffer ++ l) in
        rest ← sio_lines (length text) text;
        hput h_buffer rest
  end.

Lemma process_sio_digest h :
  process_sio h =
    (got ← syscall (sys_read (BUFFER_SIZE - Z.of_nat (length (h_buffer h)) - 1)); digest got) h.
Proof.
  unfold process_sio, digest, hget. rewrite run_gets. unfold mbind, cmd_bind, syscall.
  destruct (sys_read _ (h_sys h)) as [got d]. by destruct got as [ [|c l]|].
Qed.

(** One read after the other. *)
Fixpoint digest_all (cs : list (list Z)) : daemon D unit :=
  match cs with
  | [] => mret tt
  | c :: cs' => digest (Some c);; digest_all cs'
  end.
End feeding.

(** Each piece fits behind what is left of the line before it, as [read] is asked for no
    more, and holds no null. *)
Fixpoint fits (buffer : list Z) (cs : list (list Z)) : Prop :=
  match cs with
  | [] => True
  | c :: cs' =>
      (length (buffer ++ c) < 1024)%nat /\ Forall (fun b => b <> 0) c /\ fits (lines_from buffer c).2 cs'
  end.

(** ** What is parsed does not look at the buffer *)

(** The outcome [o] with another buffer. *)
Definition with_buffer {D A} (b : list Z) (o : outcome (host D) A) : outcome (host D) A :=
  match o with
  | Done a h => Done a (h <| h_buffer := b |>)
  | Fault f => Fault f
  | Restart h => Restart (h <| h_buffer := b |>)
  | Waiting h => Waiting (h <| h_buffer := b |>)
  end.

Definition blind {D A} (c : daemon D A) : Prop :=
  forall h b, c (h <| h_buffer := b |>) = with_buffer b (c h).

Section blind.
Context {D : Type}.

Lemma blind_bind {A B} (c : daemon D A) (k : A -> daemon D B) :
  blind c -> (forall a, blind (k a)) -> blind (c ≫= k).
Proof.
  intros Hc Hk h b. unfold mbind, cmd_bind. rewrite Hc. destruct (c h); [|done..]. cbn. apply Hk.
Qed.

Lemma blind_ret {A} (a : A) : blind (mret a : daemon D A).
Proof. done. Qed.

Lemma blind_hget {T} (f : host D -> T) : (forall h b, f (h <| h_buffer := b |>) = f h) -> blind (hget f).
Proof. intros Hf h b. unfold hget, gets. by rewrite Hf. Qed.

Lemma blind_modify (f : host D -> host D) :
  (forall h b, f (h <| h_buffer := b |>) = (f h) <| h_buffer := b |>) -> blind (modify f).
Proof. intros Hf h b. unfold modify. by rewrite Hf. Qed.

Lemma blind_syscall {A} (c : D -> A * D) : blind (syscall c).
Proof.
  intros h b. unfold syscall. change (h_sys (h <| h_buffer := b |>)) with (h_sys h).
  by destruct (c (h_sys h)).
Qed.

Lemma blind_exit {A} : blind (exit : daemon D A).
Proof. done. Qed.

Lemma blind_fail {A} e : blind (fail e : daemon D A).
Proof. done. Qed.

Lemma blind_when b (c : daemon D unit) : blind c -> blind (when b c).
Proof. by destruct b. Qed.
End blind.

Create HintDb blind discriminated.
#[export] Hint Resolve blind_ret blind_syscall blind_exit blind_fail : blind.
#[export] Hint Extern 1 (blind (hget _)) => apply blind_hget; reflexivity : blind.
#[export] Hint Extern 1 (blind (hput _ _)) => apply blind_modify; reflexivity : blind.
#[export] Hint Extern 1 (blind (modify _)) => apply blind_modify; reflexivity : blind.

(** Statement by statement. *)
Ltac look_away :=
  repeat first
    [ assumption
    | solve [auto with blind]
    | progress cbv zeta
    | match goal with |- blind (mbind _ _) => apply blind_bind; [|intros ?] end
    | apply blind_when
    | case_match ].

Section blind.
Context {D : Type} `{System D}.

Lemma blind_timer_insert f secs : blind (timer_insert f secs : daemon D unit).
Proof. unfold timer_insert, timer_alloc. look_away. Qed.

Lemma blind_timer_remove f : blind (timer_remove f : daemon D unit).
Proof. unfold timer_remove. look_away. Qed.

Lemma blind_sio_send msg : blind (sio_send msg : daemon D unit).
Proof. unfold sio_send, sio_write. look_away. Qed.

Lemma blind_send_command chan node cmd data n : blind (send_command chan node cmd data n : daemon D unit).
Proof. pose proof blind_sio_send. unfold send_command. look_away. Qed.
End blind.
#[export] Hint Resolve blind_timer_insert blind_timer_remove blind_sio_send blind_send_command : blind.

Section blind.
Context {D : Type} `{System D}.

Lemma blind_case_activate : blind (case_activate : daemon D Z).
Proof.
  unfold case_activate, case_set_time, case_set_date, case_channel, local_activate, set_time, set_date, set_channel,
    dynamic_status_timer, request_local_status, retry. look_away.
Qed.

Lemma blind_state_machine : blind (state_machine : daemon D unit).
Proof.
  pose proof blind_case_activate.
  unfold state_machine, state_switch, case_unknown, case_srequest, case_drequest, case_send_reset, case_set_time,
    case_set_date, case_channel, set_time, set_date, set_channel, reset_controller, dynamic_status_timer,
    request_local_status, retry. look_away.
Qed.

Lemma blind_parse_all ls : blind (parse_all ls : daemon D unit).
Proof.
  pose proof blind_state_machine. induction ls as [|l ls IH]; cbn [parse_all]; [apply blind_ret|].
  apply blind_bind; [|done].
  unfold parse_data, parse_failure, parse_response, response, rmq_publish, local_response. look_away.
Qed.

(** *** The pieces together *)

Lemma c_string_whole l : Forall (fun b => b <> 0) l -> c_string l = l.
Proof.
  unfold c_string. induction 1 as [|b l Hb Hl IH]; cbn [split_at]; [done|].
  rewrite (proj2 (Z.eqb_neq _ _)) by done. destruct (split_at 0 l) as [a r]. cbn in *. by rewrite IH.
Qed.

Lemma lines_from_nonzero acc a :
  Forall (fun b => b <> 0) acc -> Forall (fun b => b <> 0) a -> Forall (fun b => b <> 0) (lines_from acc a).2.
Proof.
  intros Hacc Ha. revert acc Hacc. induction Ha as [|c a Hc Ha IH]; intros acc Hacc; cbn [lines_from]; [done|].
  destruct (is_eol c).
  - specialize (IH [] (Forall_nil_2 _)). by destruct (lines_from [] a).
  - apply IH. apply Forall_app. split; [done|by constructor].
Qed.

(** What is left of a line holds no end of line and no null. *)
Definition partial (l : list Z) : Prop :=
  Forall (fun c => is_eol c = false) l /\ Forall (fun b => b <> 0) l.

Lemma digest_lines c h :
  partial (h_buffer h) -> (length (h_buffer h ++ c) < 1024)%nat -> Forall (fun b => b <> 0) c ->
  digest (Some c) h =
    (parse_all (lines_from (h_buffer h) c).1;; hput h_buffer (lines_from (h_buffer h) c).2) h.
Proof.
  intros [Hp Hz] Hl Hc. destruct c as [|x c].
  { cbn. unfold hput, modify, mret, cmd_ret, mbind, cmd_bind. by destruct h. }
  unfold digest, hget. rewrite run_gets. set (l := x :: c) in *.
  rewrite (proj2 (Z.leb_gt _ _)) by (unfold BUFFER_SIZE; lia). cbv zeta.
  rewrite c_string_whole by (by apply Forall_app).
  unfold mbind at 1, cmd_bind at 1. rewrite sio_lines_cut, cut_lines_from by done.
  rewrite lines_from_app, lines_from_plain by done. cbn [app].
  destruct (lines_from (h_buffer h) l) as [ls r]. cbn [fst snd]. unfold mbind, cmd_bind, mret, cmd_ret.
  by destruct (parse_all ls h).
Qed.

Lemma parse_all_app a b h : parse_all (a ++ b) h = (parse_all a;; parse_all b) h.
Proof.
  revert h. induction a as [|l a IH]; intros h; cbn [app parse_all]; [done|]. rewrite bind_assoc.
  unfold mbind, cmd_bind in *. destruct (parse_data l h) as [ [] h1| | |]; [apply IH|done..].
Qed.

(** The same outcome, the buffer of a process that has not come to its end aside. *)
Definition same_outcome (o1 o2 : outcome (host D) unit) : Prop :=
  match o1, o2 with
  | Done _ h1, Done _ h2 => h1 = h2
  | Fault f1, Fault f2 => f1 = f2
  | Restart h1, Restart h2 | Waiting h1, Waiting h2 => h1 <| h_buffer := [] |> = h2 <| h_buffer := [] |>
  | _, _ => False
  end.

Lemma digest_all_lines cs h :
  partial (h_buffer h) -> fits (h_buffer h) cs ->
  same_outcome (digest_all cs h)
    ((parse_all (lines_from (h_buffer h) (concat cs)).1;;
      hput h_buffer (lines_from (h_buffer h) (concat cs)).2) h).
Proof.
  revert h. induction cs as [|c cs IH]; intros h Hp Hf; cbn [digest_all concat].
  { cbn. by destruct h. }
  destruct Hf as (Hl&Hz&Hf). rewrite lines_from_app.
  pose proof (digest_lines c h Hp Hl Hz) as Hd.
  assert (partial (lines_from (h_buffer h) c).2) as Hp1.
  { destruct Hp as [Hp1 Hp2]. destruct (lines_from (h_buffer h) c) as [ls r] eqn:E. split; [by eapply lines_from_left|].
    pose proof (lines_from_nonzero (h_buffer h) c Hp2 Hz) as Hn. by rewrite E in Hn. }
  destruct (lines_from (h_buffer h) c) as [ls1 r1]. cbn [fst snd] in *.
  unfold mbind at 1, cmd_bind at 1. rewrite Hd. clear Hd.
  destruct (lines_from r1 (concat cs)) as [ls2 r2] eqn:E2. cbn [fst snd].
  unfold mbind, cmd_bind. rewrite parse_all_app. unfold mbind, cmd_bind.
  destruct (parse_all ls1 h) as [ [] h1| | |] eqn:E1; [|done..].
  cbv beta iota delta [hput modify].
  specialize (IH (h1 <| h_buffer := r1 |>) Hp1 Hf).
  change (h_buffer (h1 <| h_buffer := r1 |>)) with r1 in IH. rewrite E2 in IH. cbn [fst snd] in IH.
  unfold mbind, cmd_bind in IH. rewrite (blind_parse_all ls2 h1 r1) in IH.
  destruct (digest_all cs _) as [ [] h2| | |], (parse_all ls2 h1) as [ [] h3| | |]; cbn in IH |- *; done.
Qed.
End blind.

(** ** Properties *)

Section properties.
Context {D : Type} `{System D}.
Implicit Types h : host D.

(** [C23] However the bytes from the controller are cut into reads, the same is done with
    them: any number of reads, each of what fits behind the line begun so far, with
    [process_sio] called for each, comes to the same end as parsing the lines of all the
    bytes in one piece, in their order, and keeping the incomplete line that is left.
    ([digest] is [process_sio] after its read.) *)
Theorem reads_are_lines cs h :
  partial (h_buffer h) -> fits (h_buffer h) cs ->
  let '(ls, left_over) := lines_from (h_buffer h) (concat cs) in
  (forall h1, process_sio h1 =
     (got ← syscall (sys_read (BUFFER_SIZE - Z.of_nat (length (h_buffer h1)) - 1)); digest got) h1) /\
  same_outcome (digest_all cs h) ((parse_all ls;; hput h_buffer left_over) h) /\
  partial left_over.
Proof.
  intros Hp Hf. pose proof (digest_all_lines cs h Hp Hf) as Hd.
  assert (Forall (fun b => b <> 0) (concat cs)) as Hz.
  { clear Hd Hp. revert Hf. generalize (h_buffer h). induction cs as [|c cs IH]; intros b; cbn [concat fits]; [constructor|].
    intros (_&Hc&Hf). apply Forall_app. split; [done|by eapply IH]. }
  destruct Hp as [Hp1 Hp2]. pose proof (lines_from_nonzero _ _ Hp2 Hz) as Hn.
  destruct (lines_from (h_buffer h) (concat cs)) as [ls r] eqn:E.
  split; [apply process_sio_digest|]. split; [exact Hd|]. split; [by eapply lines_from_left|exact Hn].
Qed.
End properties.

(** ** Instances of the properties *)

(** An answer and a half in three reads. *)
Definition bench_pieces : list (list Z) := [str "<"; str "+" ++ [13; 10]; [10] ++ str "<-5"].

Lemma reads_are_lines_witness :
  let h := bench_host STATE_SET_TIME [(0, F_state_machine)] [] in
  same_outcome (digest_all bench_pieces h) ((parse_all [str "<+"];; hput h_buffer (str "<-5")) h).
Proof.
  refine (proj1 (proj2 (reads_are_lines bench_pieces (bench_host STATE_SET_TIME [(0, F_state_machine)] []) _ _))).
  - by split; constructor.
  - vm_compute. repeat split; repeat constructor; discriminate.
Defined.
