(* ===== verification/Link.v ===== *)
(** The daemon and the controller on the two ends of the serial line: what one writes
    is what the other reads. *)

From S2P Require Import Machine Clock State Spi Invariant Si4463 Wait Rxtx Command Loop Control CtlCommand CtlQueue CtlInput.
From S2P Require Import Lrmon LrCommand LrState LrInput.

#[local] Open Scope Z_scope.

(** ** From the daemon to the controller *)

Lemma data_text_commas l :
  Forall (fun v => 0 <= v) l ->
  data_text false l = (if decide (l = []) then [] else str ",") ++ commas l.
Proof.
  induction 1 as [|v l Hv Hl IH]; [done|]. cbn [data_text]. rewrite IH, fmt_d_u by done.
  destruct l as [|w l]; [cbn; by rewrite app_nil_r|]. rewrite !decide_False by done. done.
Qed.

(** The daemon writes packets in the notation that the controller reads. *)
Lemma command_is_packet_text i node cmd data :
  0 <= i < 6 -> 0 <= node -> 0 <= cmd -> Forall (fun v => 0 <= v) data ->
  command_text i node cmd data = packet_text i node cmd data.
Proof.
  intros Hi Hn Hc Hd. unfold command_text, packet_text. rewrite !fmt_d_u by done.
  replace (u8 (i + 65)) with (65 + i) by warith.
  destruct Hd as [|v l Hv Hl]; [done|]. rewrite decide_False by done.
  cbn [data_text]. rewrite data_text_commas, fmt_d_u by done.
  destruct l as [|w l]; [rewrite decide_True by done; cbn [commas app]; by rewrite app_nil_r|].
  rewrite (decide_False (P := w :: l = [])) by done.
  change (commas (v :: w :: l)) with (fmt_u v ++ str "," ++ commas (w :: l)).
  by rewrite <- !app_assoc.
Qed.

Lemma bytes_nonneg l : bytes l -> Forall (fun v => 0 <= v) l.
Proof. intros Hl. eapply Forall_impl; [exact Hl|]. intros x Hx. apply Hx. Qed.

(** ** From the controller to the daemon *)

Lemma split_at_first c a b : c ∉ a -> split_at c (a ++ c :: b) = (a, Some b).
Proof.
  induction a as [|x a IH]; cbn; intros Hc; [by rewrite Z.eqb_refl|].
  apply not_elem_of_cons in Hc as [Hx Ha]. rewrite (proj2 (Z.eqb_neq x c)) by congruence.
  by rewrite IH.
Qed.

Lemma split_at_none c a : c ∉ a -> split_at c a = (a, None).
Proof.
  induction a as [|x a IH]; cbn; intros Hc; [done|].
  apply not_elem_of_cons in Hc as [Hx Ha]. rewrite (proj2 (Z.eqb_neq x c)) by congruence.
  by rewrite IH.
Qed.

Lemma crack_field d a b n : d ∉ a -> crack (a ++ d :: b) (S n) d = a :: crack b n d.
Proof. intros Hd. cbn. by rewrite split_at_first. Qed.

Lemma crack_last d a n : d ∉ a -> crack a (S n) d = [a].
Proof. intros Hd. cbn. by rewrite split_at_none. Qed.

Lemma fmt_u_free c n : 0 <= n -> is_digit c = false -> c ∉ fmt_u n.
Proof.
  intros Hn Hc Hin. pose proof (fmt_u_digits n Hn) as Hd. rewrite Forall_forall in Hd.
  specialize (Hd c Hin). congruence.
Qed.

Lemma leading_digits_all l : Forall (fun c => is_digit c = true) l -> leading_digits l = l.
Proof. induction 1 as [|c l Hc Hl IH]; cbn; [done|]. by rewrite Hc, IH. Qed.

(** Numbers survive the trip. *)
Lemma atoi_fmt_u n : 0 <= n < 2 ^ 31 -> atoi (fmt_u n) = n.
Proof.
  intros Hn. pose proof (fmt_u_digits n ltac:(lia)) as Hd.
  pose proof (undec_fmt_u n ltac:(lia)) as Hv. pose proof (fmt_u_nonempty n) as Hne.
  unfold atoi. destruct (fmt_u n) as [|c l]; [done|].
  pose proof Hd as [Hc _]%Forall_cons. unfold is_digit in Hc.
  assert (skip_spaces (c :: l) = c :: l) as ->.
  { cbn. assert (is_space c = false) as ->; [unfold is_space; lia|done]. }
  assert (sign_of (c :: l) = (false, c :: l)) as ->.
  { cbn. rewrite (proj2 (Z.eqb_neq c 45)), (proj2 (Z.eqb_neq c 43)) by lia. done. }
  rewrite leading_digits_all, Hv by done. unfold clamp_long.
  replace (Z.max (- 2 ^ 63) (Z.min (2 ^ 63 - 1) n)) with n by lia. apply i32_small. lia.
Qed.

Lemma crack_commas a l n :
  44 ∉ a -> Forall (fun v => 0 <= v) l -> (length l < n)%nat ->
  crack (a ++ flat_map (fun b => str "," ++ fmt_u b) l) n 44 = a :: map fmt_u l.
Proof.
  intros Ha Hl. revert a n Ha. induction Hl as [|v l Hv Hl IH]; intros a n Ha Hn;
    (destruct n as [|n]; [cbn in Hn; lia|]).
  - cbn [flat_map map]. rewrite app_nil_r. by apply crack_last.
  - cbn [flat_map map]. change (str ",") with [44]. rewrite <- !app_assoc. cbn [app].
    rewrite crack_field by done. f_equal. apply IH; [by apply fmt_u_free|cbn in Hn; lia].
Qed.

(** The line of a status block, without its end. *)
Definition status_text (l : libradio) (stype : Z) (status : list Z) : list Z :=
  str "<" ++ [u8 (r_my_channel l + 65)] ++ fmt_d (r_my_node_id l) ++ str ":"
    ++ fmt_u (r_ms_ticks l) ++ str ":" ++ fmt_d RADIO_STATUS_RESPONSE ++ str ":"
    ++ fmt_d stype ++ flat_map (fun b => str "," ++ fmt_u b) status.

Lemma status_line_text l stype status : status_line l stype status = status_text l stype status ++ [10].
Proof. unfold status_line, status_text. by rewrite <- !app_assoc. Qed.

Section lines.
Context {D : Type} `{System D}.
Implicit Types h : host D.

Lemma status_args_free t status :
  Forall (fun v => 0 <= v) status -> 0 <= t ->
  58 ∉ fmt_d t ++ flat_map (fun b => str "," ++ fmt_u b) status.
Proof.
  intros Hs Ht. rewrite fmt_d_u by done. apply not_elem_of_app. split; [by apply fmt_u_free|].
  induction Hs as [|v l Hv Hl IH]; cbn [flat_map]; [apply not_elem_of_nil|].
  apply not_elem_of_app. split; [|done]. change (str ",") with [44]. cbn [app].
  apply not_elem_of_cons. split; [done|]. by apply fmt_u_free.
Qed.

(** The daemon takes the line of a status block apart. *)
Lemma parse_status l t status h :
  0 <= r_my_channel l <= 15 -> is_u8 (r_my_node_id l) -> is_u16 (r_ms_ticks l) ->
  Forall (fun v => 0 <= v) status -> 0 <= t ->
  parse_data (status_text l t status) h =
    (hput h_failure_status 0;;
     response (r_my_channel l) (r_my_node_id l) (r_ms_ticks l)
       (fmt_d t ++ flat_map (fun b => str "," ++ fmt_u b) status);;
     state_machine) h.
Proof.
  intros Hc Hn Ht Hs H0t. unfold status_text.
  set (args := fmt_d t ++ flat_map _ status).
  assert (58 ∉ args) as Hargs by by apply status_args_free.
  clearbody args. replace (u8 (r_my_channel l + 65)) with (r_my_channel l + 65) by warith.
  set (c := r_my_channel l) in *. rewrite fmt_d_u by apply Hn.
  unfold parse_data. change (str "<") with [60]. cbn [app tl].
  change (char_at (60 :: _) =? 60) with true. cbn [negb]. cbv zeta.
  assert (char_at ((c + 65) :: fmt_u (r_my_node_id l) ++ str ":" ++ fmt_u (r_ms_ticks l) ++ str ":"
            ++ fmt_d RADIO_STATUS_RESPONSE ++ str ":" ++ args) = c + 65) as Hch.
  { unfold char_at, i8. cbn [hd]. rewrite Z.mod_small by lia. lia. }
  rewrite Hch, (proj2 (Z.eqb_neq (c + 65) 43)), (proj2 (Z.eqb_neq (c + 65) 45)) by lia.
  unfold parse_response. change (str ":") with [58]. cbn [app].
  change ((c + 65) :: fmt_u (r_my_node_id l) ++ ?x) with (((c + 65) :: fmt_u (r_my_node_id l)) ++ x).
  rewrite crack_field.
  2: { apply not_elem_of_cons. split; [lia|]. apply fmt_u_free; [apply Hn|done]. }
  rewrite crack_field by (apply fmt_u_free; [apply Ht|done]).
  change (fmt_d RADIO_STATUS_RESPONSE) with (fmt_u 9).
  rewrite crack_field by by apply fmt_u_free. rewrite crack_last by done.
  unfold is_u8, is_u16 in *. cbn [tl].
  assert (char_at ((c + 65) :: fmt_u (r_my_node_id l)) = c + 65) as ->.
  { unfold char_at, i8. cbn [hd]. rewrite Z.mod_small by lia. lia. }
  rewrite !atoi_fmt_u by lia. cbv zeta.
  replace (c + 65 - 65) with c by lia.
  rewrite (proj2 (Z.ltb_ge c 0)), (proj2 (Z.ltb_ge 15 c)) by lia.
  rewrite (proj2 (Z.ltb_ge (r_my_node_id l) 0)), (proj2 (Z.ltb_ge 255 (r_my_node_id l))) by lia.
  rewrite (proj2 (Z.ltb_ge (r_ms_ticks l) 0)) by lia. done.
Qed.

(** What the daemon learns from the dynamic status. *)
Definition dstatus_of (l : libradio) (bv : Z) : dstatus :=
  mk_dstatus (i8 (r_state l)) (i8 (r_tens_of_minutes l)) bv (r_npacket_rx l) (r_npacket_tx l).

Definition sstatus_of_controller : sstatus :=
  mk_sstatus CONTROL_C1 CONTROL_C2 CONTROL_N1 CONTROL_N2 FW_VERSION_H FW_VERSION_L.

Lemma split_u16 x : is_u16 x -> join_ints (Z.land (Z.shiftr x 8) 0xff) (Z.land x 0xff) = x.
Proof.
  intros Hx. unfold join_ints. change 0xff with (Z.ones 8). rewrite !Z.land_ones by lia.
  rewrite Z.shiftr_div_pow2 by lia. change (2 ^ 8) with 256. unfold is_u16 in Hx.
  rewrite (Z.mod_small (x / 256)) by (split; [apply Z.div_pos; lia|apply Z.div_lt_upper_bound; lia]).
  rewrite Z.shiftl_mul_pow2 by lia. change (2 ^ 8) with 256.
  pose proof (Z.mod_pos_bound x 256 ltac:(lia)). pose proof (Z.div_mod x 256 ltac:(lia)).
  rewrite i32_small by lia. rewrite lor_join by (unfold is_u8; lia). lia.
Qed.

Lemma atoi_status t status :
  0 <= t < 2 ^ 31 -> Forall (fun v => 0 <= v < 2 ^ 31) status -> (length status < 16)%nat ->
  map atoi (crack (fmt_d t ++ flat_map (fun b => str "," ++ fmt_u b) status) 16 44) = t :: status.
Proof.
  intros Ht Hs Hl. rewrite fmt_d_u by lia. rewrite crack_commas.
  - cbn [map]. rewrite atoi_fmt_u by done. f_equal. clear Hl. induction Hs as [|v l Hv Hs IH]; cbn [map]; [done|].
    by rewrite atoi_fmt_u, IH.
  - apply fmt_u_free; [lia|done].
  - eapply Forall_impl; [exact Hs|]. cbn. lia.
  - done.
Qed.

Lemma byte_of_int x : 0 <= Z.land x 0xff < 2 ^ 31.
Proof. pose proof (land_ff_u8 x). unfold is_u8 in *. lia. Qed.

Lemma dynamic_arrives l bv :
  is_u8 (r_state l) -> is_u8 (r_tens_of_minutes l) -> is_u16 bv ->
  is_u16 (r_npacket_rx l) -> is_u16 (r_npacket_tx l) ->
  local_response (D := D) (fmt_d RADIO_STATUS_DYNAMIC
    ++ flat_map (fun b => str "," ++ fmt_u b) (dynamic_status l bv)) =
  (mret tt;; hput h_dstatus (dstatus_of l bv)).
Proof.
  intros Hs Ht Hb Hr Hx. unfold local_response. cbv zeta.
  rewrite atoi_status; [|done| |cbn; lia].
  - unfold dynamic_status. cbn [static_of dynamic_of RADIO_STATUS_DYNAMIC].
    by rewrite !split_u16.
  - unfold dynamic_status, is_u8 in *. repeat (apply Forall_cons_2); try apply byte_of_int; [lia|lia|apply Forall_nil_2].
Qed.

Lemma static_arrives :
  local_response (D := D) (fmt_d RADIO_STATUS_STATIC
    ++ flat_map (fun b => str "," ++ fmt_u b) static_status) =
  (hput h_sstatus sstatus_of_controller;; mret tt).
Proof.
  unfold local_response. cbv zeta. rewrite atoi_status; [done|done|by repeat constructor|cbn; lia].
Qed.

(** The answer of a local status, from the text to what is known of the controller. *)
Lemma status_learnt l t status (c : daemon D unit) (P : host D -> Prop) h :
  0 <= r_my_channel l <= 15 -> 0 <= r_my_node_id l < 2 -> is_u16 (r_ms_ticks l) ->
  Forall (fun v => 0 <= v) status -> 0 <= t -> alive h ->
  local_response (fmt_d t ++ flat_map (fun b => str "," ++ fmt_u b) status) = c ->
  (forall h1, core h1 = core h -> h_sstatus h1 = h_sstatus h -> h_dstatus h1 = h_dstatus h ->
     safe c (fun _ h' => core h' = core h /\
       forall h2, h_sstatus h2 = h_sstatus h' -> h_dstatus h2 = h_dstatus h' -> P h2) h1) ->
  safe (parse_data (status_text l t status)) (fun _ h' => alive h' /\ P h') h.
Proof.
  intros Hc Hn Ht Hs H0t Hm El Hlearn. unfold safe at 1.
  rewrite parse_status by (unfold is_u8; lia || done).
  change (safe (hput h_failure_status 0;;
     response (r_my_channel l) (r_my_node_id l) (r_ms_ticks l)
       (fmt_d t ++ flat_map (fun b => str "," ++ fmt_u b) status);;
     state_machine) (fun _ h' => alive h' /\ P h') h).
  set (args := fmt_d t ++ _) in *. rewrite safe_bind, safe_hput, safe_bind. unfold is_u16 in Ht.
  unfold response. rewrite safe_bind, safe_hget, safe_bind, safe_hput, safe_bind, safe_hput. cbv zeta.
  rewrite safe_bind, safe_syscall. case_match; [apply safe_exit|].
  pose proof (json_fits (r_my_channel l) (r_my_node_id l) (r_ms_ticks l) args Hc ltac:(lia) ltac:(lia)).
  rewrite (proj2 (Z.ltb_ge (Z.of_nat (length args) + 64) _)) by lia.
  unfold rmq_publish. rewrite safe_bind, safe_ret.
  rewrite safe_when, (proj2 (Z.ltb_lt (r_my_node_id l) 2)) by lia. rewrite El.
  eapply safe_mono; [by apply Hlearn|]. intros ? h1 [Hcore HP]. cbv beta.
  assert (alive h1) as [Hs1 _] by by apply (alive_core h).
  eapply safe_mono; [by apply state_machine_keeps|]. intros ? h2 (Ha&E1&E2). split; [done|by apply HP].
Qed.
End lines.

(** ** The time of day *)

(** What the controller's clock is set to: hundredths of a second in the interval of
    ten minutes, and the number of the interval in the day. *)
Definition clock_ticks (sec usec : Z) : Z := sec mod 600 * 100 + usec / 10000.
Definition clock_interval (sec : Z) : Z := sec mod 86400 / 600.

Lemma clock_range sec usec :
  0 <= sec -> 0 <= usec < 1000000 ->
  0 <= clock_ticks sec usec < 60000 /\ 0 <= clock_interval sec < 144.
Proof. intros. unfold clock_ticks, clock_interval. Z.to_euclidean_division_equations. lia. Qed.

Lemma time_data_eq sec usec :
  0 <= sec -> 0 <= usec < 1000000 ->
  time_data sec usec =
    [clock_ticks sec usec / 256; clock_ticks sec usec mod 256; clock_interval sec].
Proof.
  intros Hs Hu. destruct (clock_range sec usec Hs Hu) as [Ht Hi]. unfold time_data.
  assert (Z.rem sec (60 * 60 * 24) = sec mod 86400) as -> by (by rewrite Z.rem_mod_nonneg by lia).
  pose proof (Z.mod_pos_bound sec 86400 ltac:(lia)) as Hd.
  rewrite (i32_small (sec mod 86400)) by lia. cbv zeta.
  rewrite (Z.rem_mod_nonneg (sec mod 86400)) by lia. rewrite !Z.quot_div_nonneg by lia.
  assert (sec mod 86400 mod 600 = sec mod 600) as -> by (Z.to_euclidean_division_equations; lia).
  pose proof (Z.mod_pos_bound sec 600 ltac:(lia)).
  rewrite (i32_small (sec mod 600 * 100)) by lia. fold (clock_ticks sec usec).
  rewrite i32_small by lia. fold (clock_interval sec).
  change 0xff with (Z.ones 8). rewrite !Z.land_ones, Z.shiftr_div_pow2 by lia. change (2 ^ 8) with 256.
  f_equal. rewrite Z.mod_small; [done|]. split; [apply Z.div_pos; lia|apply Z.div_lt_upper_bound; lia].
Qed.

Section clock.
Context {P : Type} `{Platform P} `{Patience}.
Implicit Types m : machine P control.

Lemma typed_ok i st v p k :
  0 <= i < 6 -> 0 <= st <= 5 -> is_u8 v -> packet_ok p -> control_ok k -> control_ok (typed i st v p k).
Proof.
  intros Hi Hst Hv Hp Hk.
  assert (control_ok (with_chan i ((chan_of i k) <| c_state := LIBRADIO_CHSTATE_ADDING |>
                                     <| c_packet := p |>) k)) as [].
  { apply with_chan_ok; [|done]. destruct (chan_of_ok i k Hk). by split. }
  unfold typed. by split.
Qed.

Lemma read_packet_ok node cmd data p :
  is_u8 node -> is_u8 cmd -> bytes data -> (length data <= 10)%nat -> packet_ok p ->
  packet_ok (read_packet node cmd data p).
Proof.
  intros Hn Hc Hd Hl []. unfold read_packet. split; upd_simpl; try done.
  - unfold is_u8. lia.
  - by apply overlay_bytes.
  - rewrite overlay_length; [done|lia].
Qed.

(** The controller sets its clock. *)
Lemma wp_enqueue_set_time i m :
  0 <= i < 6 -> fw_ok m ->
  let p := c_packet (chan_of i (m_app m)) in
  is_local (m_radio m) p = true -> p_cmd p = RADIO_CMD_SET_TIME -> p_len p = 3 ->
  wp (enqueue i;; kput k_state IO_STATE_WAITNL) (fun _ m' => m_radio m' = time_set p (m_radio m)) m.
Proof.
  intros Hi Hm p Hl Hc Hlen. pose proof (ok_packet _ (chan_of_ok i _ (fw_app m Hm))) as Hp. fold p in Hp.
  rewrite wp_bind. unfold enqueue. rewrite wp_bind, wp_chan_get by done. cbv zeta. fold p.
  rewrite wp_bind, wp_gets, wp_bind, wp_print. set (o := str "ENQ:S" ++ _). clearbody o.
  rewrite wp_bind. unfold chan_put at 1. rewrite wp_chan_set by done. upd_simpl. rewrite Hl, wp_bind.
  set (m1 := m <| m_out ::= fun l => l ++ o |>).
  assert (fw_ok m1) as Hm1 by by apply (preserves_print o m).
  set (g := with_chan i ((chan_of i (m_app m)) <| c_state := LIBRADIO_CHSTATE_TRANSMIT |>)).
  assert (fw_ok (m1 <| m_app ::= g |>)) as Hm2.
  { apply fw_ok_app; [done|]. apply with_chan_ok; [|apply Hm1].
    destruct (chan_of_ok i _ (fw_app m Hm)). by split. }
  set (m2 := m1 <| m_app ::= g |>) in *. assert (m_radio m2 = m_radio m) as Er by done.
  clearbody m2. clear Hm1 m1 g. unfold mycommand. rewrite Hc.
  change (wp (mycommand_set_time p) (fun a => wp (reply a;; chan_put c_state i LIBRADIO_CHSTATE_EMPTY)
    (fun _ => wp (kput k_state IO_STATE_WAITNL) (fun _ m' => m_radio m' = time_set p (m_radio m)))) m2).
  eapply wp_mono; [by apply wp_mycommand_set_time|]. intros ? m3 [-> (_&_&Hr)]. cbv beta.
  rewrite wp_bind, wp_reply. unfold chan_put. rewrite wp_chan_set, wp_kput by done.
  upd_simpl. by rewrite Hr, Er.
Qed.

(** The line that sets the time, as the controller reads it. *)
Lemma clock_line sec usec m q :
  fw_ok m -> r_my_node_id (m_radio m) = 1 -> k_state (m_app m) = IO_STATE_NEWLINE ->
  c_state (chan_of 0 (m_app m)) <= LIBRADIO_CHSTATE_EMPTY ->
  0 <= sec -> 0 <= usec < 1000000 ->
  let text := command_text 0 1 RADIO_CMD_SET_TIME (time_data sec usec) in
  m_iqueue m = text ++ q ->
  wp (process_inputs (length text)) (fun _ m' => m_radio m' =
    (m_radio m) <| r_ms_ticks := clock_ticks sec usec |> <| r_tens_of_minutes := clock_interval sec |>) m.
Proof.
  intros Hm Hnode Hs He Hsec Husec text Hq.
  destruct (clock_range sec usec Hsec Husec) as [Ht Hi].
  set (data := time_data sec usec) in *. pose proof (time_data_eq sec usec Hsec Husec) as Ed. fold data in Ed.
  assert (bytes data) as Hb.
  { rewrite Ed. repeat (apply Forall_cons_2); [| | |apply Forall_nil_2]; unfold is_u8;
      Z.to_euclidean_division_equations; lia. }
  assert (length data = 3%nat) as Hdl by by rewrite Ed.
  assert (text = packet_text 0 1 RADIO_CMD_SET_TIME data) as Et.
  { apply command_is_packet_text; [done..|by apply bytes_nonneg]. }
  clearbody data text. subst text.
  pose proof (fw_app m Hm) as Hk. pose proof (ok_packet _ (chan_of_ok 0 _ Hk)) as Hp0.
  set (p0 := c_packet (chan_of 0 (m_app m))) in *. set (p := read_packet 1 RADIO_CMD_SET_TIME data p0).
  assert (packet_ok p) as Hp by (apply read_packet_ok; [done..|lia|done]).
  assert (data <> []) as Hne by by destruct data.
  unfold wp. rewrite (read_text 0 1 RADIO_CMD_SET_TIME data m q); try done; [|lia].
  rewrite decide_False by done. fold p0 p. set (k1 := typed 0 IO_STATE_WAITDATA 0 p (m_app m)).
  assert (control_ok k1) as Hk1 by by apply typed_ok.
  assert (c_packet (chan_of 0 k1) = p) as Ep by (unfold k1; by rewrite chan_of_typed).
  clearbody k1. set (m1 := m <| m_iqueue := q |> <| m_app := k1 |>).
  assert (fw_ok m1) as Hm1.
  { pose proof (fw_queue m Hm) as Hqb. rewrite Hq in Hqb. apply bytes_app in Hqb as [_ Hqb].
    destruct Hm. by split. }
  change (wp (enqueue 0;; kput k_state IO_STATE_WAITNL) (fun _ m' => m_radio m' =
    (m_radio m) <| r_ms_ticks := clock_ticks sec usec |> <| r_tens_of_minutes := clock_interval sec |>) m1).
  eapply wp_mono.
  { apply (wp_enqueue_set_time 0 m1); [done|done|..]; change (m_app m1) with k1; rewrite Ep.
    - unfold is_local. change (m_radio m1) with (m_radio m). by rewrite Hnode.
    - done.
    - change (Z.of_nat (length data) = 3). by rewrite Hdl. }
  intros ? m' Hr. cbv beta in Hr. change (m_app m1) with k1 in Hr. change (m_radio m1) with (m_radio m) in Hr.
  rewrite Hr, Ep. unfold time_set, p. change (p_data (read_packet 1 RADIO_CMD_SET_TIME data p0)) with (overlay data (p_data p0)).
  rewrite Ed. unfold overlay. cbn [app lookup_total list_lookup_total].
  replace (clock_ticks sec usec / 256 * 256 + clock_ticks sec usec mod 256) with (clock_ticks sec usec);
    [done|]. pose proof (Z.div_mod (clock_ticks sec usec) 256 ltac:(lia)). lia.
Qed.
End clock.

(** ** Properties *)

(** The controller when the packet for channel [i] has been read and [q] is still to
    come. *)
Definition handed_over {P} (i node cmd : Z) (data q : list Z) (m : machine P control) : machine P control :=
  m <| m_iqueue := q |>
    <| m_app := typed i (if decide (data = []) then IO_STATE_WAITCMD else IO_STATE_WAITDATA) 0
         (read_packet node cmd data (c_packet (chan_of i (m_app m)))) (m_app m) |>.

(** The controller's negative answer. *)
Definition failure_text (code state : Z) : list Z := str "<-" ++ fmt_d code ++ str "/" ++ fmt_d state.

Section properties.
Context {P : Type} `{Platform P} `{Patience} {D : Type} `{System D}.
Implicit Types (m : machine P control) (h : host D).

(** [C19] A command the daemon sends arrives: whatever the channel, the node, the command
    and the data of up to ten bytes, the bytes written to the line are read by the
    controller, at the start of a line and with the channel empty, as exactly that
    packet on that channel, which is handed to [enqueue]. *)
Theorem command_arrives i node cmd data h :
  0 <= i < 6 -> is_u8 node -> is_u8 cmd -> bytes data -> (length data <= 10)%nat ->
  safe (send_command i node cmd data (Z.of_nat (length data))) (fun _ h' =>
    exists text, h_sent h' = h_sent h ++ text ++ [13; 10] /\
      forall m q,
        packet_ok (c_packet (chan_of i (m_app m))) -> k_state (m_app m) = IO_STATE_NEWLINE ->
        c_state (chan_of i (m_app m)) <= LIBRADIO_CHSTATE_EMPTY -> m_iqueue m = text ++ q ->
        process_inputs (length text) m =
          (enqueue i;; kput k_state IO_STATE_WAITNL) (handed_over i node cmd data q m)) h.
Proof.
  intros Hi Hn Hc Hd Hl. eapply safe_mono; [apply safe_send_command; lia|]. intros ? h' [d ->].
  exists (packet_text i node cmd data). split.
  - rewrite <- (command_is_packet_text i) by (done || apply Hn || apply Hc || by apply bytes_nonneg). done.
  - intros m q Hp Hs He Hq. apply read_text; done || lia.
Qed.

(** [C7] The time arrives: when the daemon sends the time, the controller (activated by
    the daemon as node 1, its first channel empty) sets its clock to the hundredths
    of a second within the ten minutes, which are below 60000, and to the number
    of the ten-minute interval in the day, which is below 144, and changes nothing
    else of its record. *)
Theorem clock_is_set sec usec d h :
  sys_gettimeofday (h_sys h) = (Some (sec, usec), d) -> 0 <= sec -> 0 <= usec < 1000000 ->
  0 <= clock_ticks sec usec < 60000 /\ 0 <= clock_interval sec < 144 /\
  safe set_time (fun _ h' =>
    exists text, h_sent h' = h_sent h ++ text ++ [13; 10] /\
      forall m q,
        fw_ok m -> r_my_node_id (m_radio m) = 1 -> k_state (m_app m) = IO_STATE_NEWLINE ->
        c_state (chan_of 0 (m_app m)) <= LIBRADIO_CHSTATE_EMPTY -> m_iqueue m = text ++ q ->
        wp (process_inputs (length text)) (fun _ m' => m_radio m' =
          (m_radio m) <| r_ms_ticks := clock_ticks sec usec |>
                      <| r_tens_of_minutes := clock_interval sec |>) m) h.
Proof.
  intros Hd Hs Hu. destruct (clock_range sec usec Hs Hu) as [Ht Hi]. split_and!; [lia..|].
  unfold set_time. rewrite safe_bind, safe_syscall, Hd. cbn [fst snd].
  eapply safe_mono; [apply (safe_send_command 0 1 RADIO_CMD_SET_TIME (time_data sec usec)); cbn; lia|].
  intros ? h' [d' ->]. exists (command_text 0 1 RADIO_CMD_SET_TIME (time_data sec usec)). split; [done|].
  intros m q Hm Hn Hk He Hq. by eapply clock_line.
Qed.

(** [C21] The status arrives: the line the controller prints for its dynamic status is
    taken apart by the daemon into the same battery voltage and packet counts; its
    state and the ten-minute interval pass through a signed [char], so that an
    interval from 128 on (after 21:20) is learnt as a negative number. *)
Theorem status_is_learnt l bv h :
  0 <= r_my_channel l <= 15 -> 0 <= r_my_node_id l < 2 -> is_u16 (r_ms_ticks l) ->
  is_u8 (r_state l) -> is_u8 (r_tens_of_minutes l) -> is_u16 bv ->
  is_u16 (r_npacket_rx l) -> is_u16 (r_npacket_tx l) -> alive h ->
  status_line l RADIO_STATUS_DYNAMIC (dynamic_status l bv) =
    status_text l RADIO_STATUS_DYNAMIC (dynamic_status l bv) ++ [10] /\
  safe (parse_data (status_text l RADIO_STATUS_DYNAMIC (dynamic_status l bv)))
    (fun _ h' => alive h' /\ h_dstatus h' = dstatus_of l bv) h.
Proof.
  intros Hc Hn Ht Hs Htom Hb Hr Hx Hm. split; [apply status_line_text|].
  apply (status_learnt l RADIO_STATUS_DYNAMIC (dynamic_status l bv)
           (mret tt;; hput h_dstatus (dstatus_of l bv)) (fun h' => h_dstatus h' = dstatus_of l bv));
    [done|done|done| |done|done| |].
  - unfold dynamic_status, is_u8 in *.
    repeat (apply Forall_cons_2); try apply byte_of_int; [lia|lia|apply Forall_nil_2].
  - by apply dynamic_arrives.
  - intros h1 E1 E2 E3. rewrite safe_bind, safe_ret, safe_hput. split; [exact E1|].
    intros h2 _ E. exact E.
Qed.

(** The reset arrives: at the start of a line the bytes the daemon sends to reset the
    controller restart its processor, whatever it is doing with its channels. *)
Theorem reset_restarts h :
  safe reset_controller (fun _ h' =>
    exists text, h_sent h' = h_sent h ++ text ++ [13; 10] /\
      forall m q, k_state (m_app m) = IO_STATE_NEWLINE -> m_iqueue m = text ++ q ->
        process_inputs (length text) m =
          Restart (m <| m_iqueue := q |> <| m_app ::= fun k => k <| k_state := IO_STATE_WAITCHAN |> |>)) h.
Proof.
  eapply safe_mono; [apply safe_sio_send|]. intros ? h' [d ->]. exists (str ">R"). split; [done|].
  intros m q Hs Hq. change (length (str ">R")) with 2%nat. cbn [process_inputs].
  rewrite (bind_done _ _ _ tt (m <| m_iqueue := 82 :: q |> <| m_app ::= fun k => k <| k_state := IO_STATE_WAITCHAN |> |>)).
  - unfold mbind, cmd_bind. rewrite (process_input_run 82 q) by done. unfold input_char. rewrite run_kget. upd_simpl.
    reflexivity.
  - rewrite (process_input_run 62 (82 :: q)) by done. unfold input_char. rewrite run_kget. upd_simpl. rewrite Hs.
    by destruct m.
Qed.

(** A failure arrives: the controller's negative answer makes the daemon take the
    same code as the status of its last request, and act on it. *)
Theorem failure_arrives code m h :
  1 <= code < 2 ^ 31 -> 0 <= r_state (m_radio m) ->
  let text := failure_text code (r_state (m_radio m)) in
  reply code m = Done tt (m <| m_out ::= fun o => o ++ text ++ [10] |>
                            <| m_app := (m_app m) <| k_state := IO_STATE_WAITNL |> |>) /\
  parse_data text h = (hput h_failure_status code;; state_machine) h.
Proof.
  intros Hc Hs. cbv zeta. unfold failure_text. split.
  - rewrite run_reply. rewrite (proj2 (Z.eqb_neq code 0)) by lia. by rewrite <- !app_assoc.
  - rewrite fmt_d_u by lia. unfold parse_data. change (str "<-") with [60; 45]. cbn [app tl].
    change (char_at (60 :: _) =? 60) with true. change (char_at (45 :: _) =? 43) with false.
    change (char_at (45 :: _) =? 45) with true. cbn [negb tl]. unfold parse_failure. change (str "/") with [47].
    cbn [app]. rewrite split_at_first by (apply fmt_u_free; [lia|done]). cbn [fst]. cbv zeta.
    rewrite atoi_fmt_u by lia. by rewrite (proj2 (Z.ltb_ge code 1)) by lia.
Qed.
End properties.

(** ** Instances of the properties *)

#[local] Instance bench_patience : Patience := 10%nat.

Definition bench_daemon : host (list (list Z)) := bench_host STATE_SET_TIME [(0, F_state_machine)] [].

Lemma bench_daemon_alive : alive bench_daemon.
Proof.
  split; [|done]. split; [done|done|by split; [constructor|cbn; lia]|]. right. by exists 0.
Qed.

Lemma command_arrives_witness :
  safe (send_command 1 9 22 [1; 20] 2) (fun _ h' =>
    exists text, h_sent h' = h_sent bench_daemon ++ text ++ [13; 10] /\
      forall (m : machine (list Z) control) q,
        packet_ok (c_packet (chan_of 1 (m_app m))) -> k_state (m_app m) = IO_STATE_NEWLINE ->
        c_state (chan_of 1 (m_app m)) <= LIBRADIO_CHSTATE_EMPTY -> m_iqueue m = text ++ q ->
        process_inputs (length text) m =
          (enqueue 1;; kput k_state IO_STATE_WAITNL) (handed_over 1 9 22 [1; 20] q m)) bench_daemon.
Proof. apply (command_arrives 1 9 22 [1; 20] bench_daemon); [done|done|done|bytes_cons|cbn; lia]. Defined.

Lemma clock_is_set_witness :
  0 <= 21932 < 60000 /\ 0 <= 87 < 144 /\
  safe set_time (fun _ h' =>
    exists text, h_sent h' = h_sent bench_daemon ++ text ++ [13; 10] /\
      forall (m : machine (list Z) control) q,
        fw_ok m -> r_my_node_id (m_radio m) = 1 -> k_state (m_app m) = IO_STATE_NEWLINE ->
        c_state (chan_of 0 (m_app m)) <= LIBRADIO_CHSTATE_EMPTY -> m_iqueue m = text ++ q ->
        wp (process_inputs (length text)) (fun _ m' => m_radio m' =
          (m_radio m) <| r_ms_ticks := 21932 |> <| r_tens_of_minutes := 87 |>) m) bench_daemon.
Proof. apply (clock_is_set 1728916419 323578 [] bench_daemon); [done|lia|lia]. Defined.

Lemma status_is_learnt_witness :
  let l := (m_radio (bench_control bench_objects [])) <| r_my_node_id := 1 |> in
  status_line l RADIO_STATUS_DYNAMIC (dynamic_status l 700) =
    status_text l RADIO_STATUS_DYNAMIC (dynamic_status l 700) ++ [10] /\
  safe (parse_data (status_text l RADIO_STATUS_DYNAMIC (dynamic_status l 700)))
    (fun _ h' => alive h' /\ h_dstatus h' = dstatus_of l 700) bench_daemon.
Proof.
  apply (status_is_learnt ((m_radio (bench_control bench_objects [])) <| r_my_node_id := 1 |>) 700 bench_daemon);
    try done. apply bench_daemon_alive.
Defined.

Lemma failure_arrives_witness :
  let text := failure_text RADIO_CTLERR_BUSY LIBRADIO_STATE_ACTIVE in
  reply RADIO_CTLERR_BUSY (bench_control bench_objects []) =
    Done tt ((bench_control bench_objects []) <| m_out ::= fun o => o ++ text ++ [10] |>
      <| m_app := (m_app (bench_control bench_objects [])) <| k_state := IO_STATE_WAITNL |> |>) /\
  parse_data text bench_daemon =
      (hput h_failure_status RADIO_CTLERR_BUSY;; state_machine) bench_daemon.
Proof. apply (failure_arrives RADIO_CTLERR_BUSY (bench_control bench_objects []) bench_daemon); done. Defined.
