(* ===== verification/Bringup.v ===== *)
(** The bring-up, with both programs in the loop: the daemon's requests are executed by
    the controller, whose answers take the daemon to its next request. *)

From S2P Require Import Machine Clock State Spi Invariant Si4463 Wait Rxtx Command Loop Control CtlCommand CtlQueue CtlInput.
From S2P Require Import Lrmon LrCommand LrState LrInput Link.

#[local] Open Scope Z_scope.

(** ** Lines the daemon does not look at *)

Definition plain (l : list Z) : Prop := Forall (fun c => is_eol c = false) l.

Lemma plain_app a b : plain a -> plain b -> plain (a ++ b).
Proof. intros. by apply Forall_app. Qed.

Lemma plain_fmt_u n : 0 <= n -> plain (fmt_u n).
Proof.
  intros Hn. eapply Forall_impl; [by apply fmt_u_digits|]. intros c Hc. unfold is_digit, is_eol in *. lia.
Qed.

Lemma plain_fmt_d n : plain (fmt_d n).
Proof.
  unfold fmt_d. destruct (Z.ltb_spec n 0); [|by apply plain_fmt_u].
  apply Forall_cons_2; [done|]. apply plain_fmt_u. lia.
Qed.

Create HintDb plain discriminated.
#[export] Hint Resolve plain_app plain_fmt_d plain_fmt_u : plain.
#[export] Hint Extern 1 (plain (str _)) => by repeat constructor : plain.

(** Complete lines that are not for the program. *)
Definition noise (o : list Z) : Prop :=
  exists ls, lines_from [] o = (ls, []) /\ Forall (fun l => char_at l <> 60) ls.

Lemma noise_app a b : noise a -> noise b -> noise (a ++ b).
Proof.
  intros (la&Ea&Ha) (lb&Eb&Hb). exists (la ++ lb). split; [|by apply Forall_app].
  by rewrite lines_from_app, Ea, Eb.
Qed.

Lemma lines_from_line l : plain l -> l <> [] -> lines_from [] (l ++ [10]) = ([l], []).
Proof.
  intros Hl Hne. rewrite lines_from_app, lines_from_plain by done. cbn. by rewrite decide_False.
Qed.

Lemma noise_line l : char_at l <> 60 -> plain l -> noise (l ++ [10]).
Proof.
  intros Hc Hl. destruct l as [|c l]; [by exists []|].
  exists [c :: l]. split; [by apply lines_from_line|]. by apply Forall_cons_2.
Qed.

Section ignoring.
Context {D : Type} `{System D}.

Lemma parse_ignored ls l (h : host D) :
  Forall (fun l => char_at l <> 60) ls -> parse_all (ls ++ [l]) h = parse_data l h.
Proof.
  induction 1 as [|l1 ls Hl Hls IH]; cbn [app parse_all].
  - unfold mbind, cmd_bind. by destruct (parse_data l h) as [ []| | |].
  - rewrite (bind_done _ _ h tt h); [exact IH|]. unfold parse_data. by rewrite (proj2 (Z.eqb_neq _ _)).
Qed.

(** A positive answer behind noise. *)
Lemma answer_heard t (h : host D) :
  noise t -> parse_all (lines_from [] (t ++ str "<+" ++ [10])).1 h =
    state_machine (h <| h_failure_status := 0 |>).
Proof.
  intros (ls&E&Hls). rewrite lines_from_app, E.
  rewrite (lines_from_line (str "<+")) by (done || by repeat constructor).
  cbn [fst]. by rewrite parse_ignored.
Qed.
End ignoring.

(** ** What the controller does with a line for itself *)

Section obeying.
Context {P : Type} `{Platform P} `{Patience}.
Implicit Types (m : machine P control) (g : libradio -> libradio) (e : Z -> channel -> channel).

(** Nothing but the record changes, by [g], and the channels, each by [e]; something is
    said. *)
Record effect g e (t : list Z) m m' : Prop := {
  eff_radio : m_radio m' = g (m_radio m);
  eff_queue : m_iqueue m' = m_iqueue m;
  eff_out : m_out m' = m_out m ++ t;
  eff_channels : forall j, 0 <= j < 6 -> chan_of j (m_app m') = e j (chan_of j (m_app m))
}.

(** The command [p], executed by the controller itself, succeeds. *)
Definition executes p g e m : Prop :=
  wp (mycommand p) (fun v m' => v = 0 /\ exists t, noise t /\ effect g e t m m') m.

Lemma executes_time p m :
  packet_ok p -> fw_ok m -> p_cmd p = RADIO_CMD_SET_TIME -> p_len p = 3 ->
  executes p (time_set p) (fun _ c => c) m.
Proof.
  intros Hp Hm Hc Hl. unfold executes, mycommand, mycommand_set_time. rewrite Hc, Hl. cbv zeta.
  change (library_command RADIO_CMD_SET_TIME) with false. cbv iota.
  change (RADIO_CMD_SET_TIME =? RADIO_CMD_ACTIVATE) with false.
  change (RADIO_CMD_SET_TIME =? RADIO_CMD_SET_TIME) with true. cbv iota. cbn [Z.eqb Pos.eqb negb].
  pose proof (data_u8 p 0 Hp ltac:(lia)). pose proof (data_u8 p 1 Hp ltac:(lia)).
  pose proof (data_u8 p 2 Hp ltac:(lia)).
  do 2 (rewrite wp_bind, wp_data_get by (done || lia)).
  change (Z.to_nat 0) with 0%nat in *. change (Z.to_nat 1) with 1%nat in *.
  rewrite join_bytes, u16_small by warith.
  rewrite wp_bind, wp_rput, wp_bind, wp_data_get by (done || lia). change (Z.to_nat 2) with 2%nat in *.
  rewrite wp_bind, wp_rput, wp_bind, wp_rget, wp_bind, wp_rget, wp_bind, wp_print, wp_ret.
  split; [done|]. eexists. split; [|split; [done|done|done|done]].
  upd_simpl. rewrite !app_assoc. apply noise_line; [done|].
  unfold is_u8 in *. rewrite <- !app_assoc. repeat apply plain_app; auto with plain; apply plain_fmt_u; lia.
Qed.

(** The record after the date has been set. *)
Definition date_set (p : packet) (l : libradio) : libradio :=
  l <| r_date := p_data p !!! 0%nat * 256 + p_data p !!! 1%nat |>.

Lemma executes_date p m :
  packet_ok p -> fw_ok m -> r_state (m_radio m) = LIBRADIO_STATE_ACTIVE ->
  p_cmd p = RADIO_CMD_SET_DATE -> p_len p = 2 -> executes p (date_set p) (fun _ c => c) m.
Proof.
  intros Hp Hm Ha Hc Hl. unfold executes, mycommand, libradio_command. rewrite Hc.
  change (library_command RADIO_CMD_SET_DATE) with true. cbv iota.
  rewrite wp_bind, wp_bind, wp_rget, Ha. change (wp (command_set_date p)
    (fun _ => wp (mret 0) (fun v m' => v = 0 /\ exists t, noise t /\ effect (date_set p) (fun _ c => c) t m m')) m).
  unfold command_set_date. rewrite Hl. cbn [Z.eqb Pos.eqb negb].
  pose proof (data_u8 p 0 Hp ltac:(lia)). pose proof (data_u8 p 1 Hp ltac:(lia)).
  do 2 (rewrite wp_bind, wp_data_get by (done || lia)).
  change (Z.to_nat 0) with 0%nat in *. change (Z.to_nat 1) with 1%nat in *.
  rewrite join_bytes, u16_small by warith.
  rewrite wp_bind, wp_rput, wp_bind, wp_rget, wp_print, wp_ret.
  split; [done|]. eexists. split; [|split; [done|done|done|done]].
  upd_simpl. rewrite !app_assoc. apply noise_line; [done|].
  unfold is_u8 in *. repeat apply plain_app; auto with plain; apply plain_fmt_u; lia.
Qed.

Definition channel_set (d st : Z) : Z -> channel -> channel :=
  fun j c => if j =? d then c <| c_state := st |> <| c_priority := 0 |> else c.

Lemma wp_print_states n i m (Q : unit -> machine P control -> Prop) :
  0 <= i -> i + Z.of_nat n <= 6 ->
  (forall t, plain t -> Q tt (m <| m_out ::= fun o => o ++ t |>)) ->
  wp (for_loop n i print_chan_state) Q m.
Proof.
  intros Hi Hn HQ.
  apply (wp_for_loop (fun _ m' => exists t, plain t /\ m' = m <| m_out ::= fun o => o ++ t |>)).
  - exists []. split; [constructor|]. destruct m. unfold upd, set_m_out. cbn. by rewrite app_nil_r.
  - intros j m' Hj (t&Ht&->). unfold print_chan_state. rewrite wp_bind, wp_chan_get, wp_print by lia.
    match goal with |- exists _, _ /\ _ <| m_out ::= fun o => o ++ ?x |> = _ => exists (t ++ x) end.
    split; [auto with plain|]. destruct m. unfold upd, set_m_out. cbn. by rewrite <- ?app_assoc.
  - intros m' (t&Ht&->). by apply HQ.
Qed.

Lemma executes_channel d st p m :
  packet_ok p -> fw_ok m -> p_cmd p = RADIO_CMD_SET_CHANNEL -> p_len p = 2 ->
  0 <= d < 6 -> st < 3 -> p_data p !!! 0%nat = d -> p_data p !!! 1%nat = st ->
  executes p (fun l => l) (channel_set d st) m.
Proof.
  intros Hp Hm Hc Hl Hd Hst E0 E1. unfold executes, mycommand, mycommand_set_channel. rewrite Hc, Hl.
  change (library_command RADIO_CMD_SET_CHANNEL) with false. cbv iota.
  change (RADIO_CMD_SET_CHANNEL =? RADIO_CMD_ACTIVATE) with false.
  change (RADIO_CMD_SET_CHANNEL =? RADIO_CMD_SET_TIME) with false.
  change (RADIO_CMD_SET_CHANNEL =? RADIO_CMD_STATUS) with false.
  change (RADIO_CMD_SET_CHANNEL =? RADIO_CMD_READ_EEPROM) with false.
  change (RADIO_CMD_SET_CHANNEL =? RADIO_CMD_SET_CHANNEL) with true. cbv iota. cbn [Z.eqb Pos.eqb negb].
  rewrite wp_bind, wp_data_get by (done || lia). change (Z.to_nat 0) with 0%nat. rewrite E0.
  rewrite (proj2 (Z.ltb_ge d 0)), (proj2 (Z.ltb_ge MAX_RADIO_CHANNELS d)) by (unfold MAX_RADIO_CHANNELS; lia).
  cbn [orb]. rewrite wp_bind, wp_data_get by (done || lia). change (Z.to_nat 1) with 1%nat. rewrite E1.
  rewrite wp_bind. unfold Control.set_channel.
  rewrite (proj2 (Z.ltb_ge d 0)), (proj2 (Z.leb_gt MAX_RADIO_CHANNELS d)) by (unfold MAX_RADIO_CHANNELS; lia).
  cbn [orb]. rewrite (proj2 (Z.ltb_lt st 3)) by done. cbn [when]. unfold chan_put.
  rewrite wp_bind, wp_chan_set, wp_chan_set by done. upd_simpl. rewrite chan_of_with by done.
  rewrite wp_bind, wp_print, wp_bind. apply wp_print_states; [done|done|]. intros t Ht.
  rewrite wp_bind, wp_rget, wp_bind, wp_print, wp_ret. split; [done|].
  eexists. split; [|split; [done|done|by upd_simpl; rewrite <- !app_assoc|]].
  - rewrite !app_assoc. apply noise_line; [done|].
    pose proof (field_get (f := r_heart_beat) _ (fw_radio _ Hm)) as Hb. cbn in Hb.
    repeat apply plain_app; auto with plain. apply plain_fmt_u. upd_simpl. apply Hb.
  - intros j Hj. upd_simpl. rewrite with_chan_twice. unfold channel_set.
    destruct (Z.eqb_spec j d) as [->|Hne]; [by rewrite chan_of_with|by rewrite chan_of_with_ne by congruence].
Qed.

(** The controller has done what was asked: its record has changed by [g], the channels
    but the first by [e], and it has answered "+". *)
Record done_with g e m m' : Prop := {
  dw_ok : fw_ok m';
  dw_radio : m_radio m' = g (m_radio m);
  dw_out : exists t, noise t /\ m_out m' = m_out m ++ t ++ str "<+" ++ [10];
  dw_channels : forall j, 0 < j < 6 -> chan_of j (m_app m') = e j (chan_of j (m_app m));
  dw_first : c_state (chan_of 0 (m_app m')) = LIBRADIO_CHSTATE_EMPTY
}.

Lemma wp_enqueue_local p g e m :
  fw_ok m -> c_packet (chan_of 0 (m_app m)) = p -> is_local (m_radio m) p = true -> write_overruns p = false ->
  (forall m1, fw_ok m1 -> m_radio m1 = m_radio m -> executes p g e m1) ->
  wp (enqueue 0) (fun _ m' => done_with g e m m' /\ m_iqueue m' = m_iqueue m) m.
Proof.
  intros Hm Hpk Hl Ho He. set (n0 := str "ENQ:S" ++ fmt_d (r_state (m_radio m)) ++ str ",N" ++ fmt_d (p_node p)
    ++ str ",C" ++ fmt_d (p_cmd p) ++ str ",M" ++ fmt_d (r_my_node_id (m_radio m)) ++ [10]).
  assert (noise n0) as Hn0.
  { unfold n0. rewrite !app_assoc. apply noise_line; [done|]. repeat apply plain_app; auto with plain. }
  set (m1 := m <| m_out ::= fun o => o ++ n0 |>
    <| m_app ::= with_chan 0 ((chan_of 0 (m_app m)) <| c_state := LIBRADIO_CHSTATE_TRANSMIT |>) |>).
  assert (fw_ok m1) as Hm1.
  { apply fw_ok_app; [by apply (preserves_print n0 m)|]. apply with_chan_ok; [|apply (fw_app m Hm)].
    destruct (chan_of_ok 0 _ (fw_app m Hm)). by split. }
  assert (wp (enqueue 0) (fun _ m' => m_radio m' = g (m_radio m) /\ m_iqueue m' = m_iqueue m /\
    (exists t, noise t /\ m_out m' = m_out m ++ t ++ str "<+" ++ [10]) /\
    (forall j, 0 < j < 6 -> chan_of j (m_app m') = e j (chan_of j (m_app m))) /\
    c_state (chan_of 0 (m_app m')) = LIBRADIO_CHSTATE_EMPTY) m) as Hrun.
  { unfold enqueue. rewrite wp_bind, wp_chan_get by done. cbv zeta. rewrite Hpk.
    rewrite wp_bind, wp_gets, wp_bind, wp_print, wp_bind. unfold chan_put at 1.
    rewrite wp_chan_set by done. upd_simpl. rewrite Hl, wp_bind. fold n0.
    change (m <| m_out ::= _ |> <| m_app ::= _ |>) with m1.
    eapply wp_mono; [by apply (He m1)|]. intros v m2 (->&t&Ht&[E1 E2 E3 E4]). cbv beta.
    rewrite wp_bind, wp_reply. cbn [Z.eqb]. unfold chan_put. rewrite wp_chan_set by done. upd_simpl.
    split; [by rewrite E1|]. split; [by rewrite E2|]. split; [exists (n0 ++ t)|split].
    - split; [by apply noise_app|]. rewrite E3. unfold m1. upd_simpl. by rewrite <- !app_assoc.
    - intros j Hj. rewrite chan_of_with_ne by lia. 
      change (chan_of j (m_app m2) = e j (chan_of j (m_app m))). rewrite E4 by lia.
      unfold m1. upd_simpl. by rewrite chan_of_with_ne by lia.
    - by rewrite chan_of_with. }
  eapply wp_mono; [apply (wp_safe _ _ _ _ Hrun (preserves_enqueue 0 m ltac:(done) Hm ltac:(rewrite Hpk; auto)))|].
  cbv beta. intros _ m' [(E1&E2&E3&E4&E5) Hm']. split; [split; assumption|exact E2].
Qed.

(** *** A line *)

Lemma process_inputs_app a b m :
  process_inputs (a + b) m = (process_inputs a;; process_inputs b) m.
Proof.
  revert m. induction a as [|a IH]; intros m; [done|]. cbn [Nat.add process_inputs].
  unfold mbind, cmd_bind in *. destruct (process_input m) as [ [] m1| | |]; [apply IH|done..].
Qed.

Lemma process_eol c q m :
  is_eol c = true -> k_state (m_app m) < IO_STATE_WAITCMD -> m_iqueue m = c :: q ->
  process_input m = Done tt (m <| m_iqueue := q |> <| m_app ::= fun k => k <| k_state := IO_STATE_NEWLINE |> |>).
Proof.
  intros Hc Hs Hq. unfold is_eol in Hc. rewrite (process_input_run c q) by (unfold is_u8; lia || done).
  unfold input_char. rewrite run_kget. upd_simpl.
  replace ((c =? 10) || (c =? 13)) with true by (destruct (Z.eqb_spec c 10), (Z.eqb_spec c 13); done || lia).
  unfold input_newline. by rewrite (proj2 (Z.leb_gt _ _)) by lia.
Qed.

(** The end of a line after a command: the next one may come. *)
Lemma process_crlf m :
  fw_ok m -> k_state (m_app m) = IO_STATE_WAITNL -> m_iqueue m = [13; 10] ->
  wp (process_inputs 2) (fun _ m' => fw_ok m' /\ m_iqueue m' = [] /\ k_state (m_app m') = IO_STATE_NEWLINE /\
    m_radio m' = m_radio m /\ m_out m' = m_out m /\
    forall j, chan_of j (m_app m') = chan_of j (m_app m)) m.
Proof.
  intros Hm Hs Hq. cbn [process_inputs].
  set (f := fun k => k <| k_state := IO_STATE_NEWLINE |>).
  assert (forall q m, fw_ok m -> bytes q -> fw_ok (m <| m_iqueue := q |> <| m_app ::= f |>)) as Hok.
  { intros q m1 [] Hb. assert (control_ok (f (m_app m1))) as Hf by by apply control_ok_state. by split. }
  unfold wp. rewrite (bind_done _ _ m tt (m <| m_iqueue := [10] |> <| m_app ::= f |>))
    by (apply (process_eol 13); [done|by rewrite Hs|done]).
  assert (fw_ok (m <| m_iqueue := [10] |> <| m_app ::= f |>)) as Hm1 by (apply Hok; [done|by bytes_cons]).
  set (m1 := m <| m_iqueue := [10] |> <| m_app ::= f |>) in *.
  rewrite (bind_done _ _ m1 tt (m1 <| m_iqueue := [] |> <| m_app ::= f |>))
    by (apply (process_eol 10); done).
  change (fw_ok (m1 <| m_iqueue := [] |> <| m_app ::= f |>) /\ [] = @nil Z /\
    k_state (f (m_app m1)) = IO_STATE_NEWLINE /\ m_radio m = m_radio m /\ m_out m = m_out m /\
    forall j, chan_of j (m_app m) = chan_of j (m_app m)).
  split; [apply Hok; [exact Hm1|constructor]|]. repeat split; reflexivity.
Qed.

(** An active controller, at the start of a line, its first channel free. *)
Record serving m : Prop := {
  sv_ok : fw_ok m;
  sv_active : r_state (m_radio m) = LIBRADIO_STATE_ACTIVE;
  sv_node : r_my_node_id (m_radio m) = 1;
  sv_newline : k_state (m_app m) = IO_STATE_NEWLINE;
  sv_free : c_state (chan_of 0 (m_app m)) <= LIBRADIO_CHSTATE_EMPTY
}.

Definition local_packet cmd data m : packet := read_packet 1 cmd data (c_packet (chan_of 0 (m_app m))).

Lemma local_packet_ok cmd data m :
  serving m -> is_u8 cmd -> bytes data -> (length data <= 10)%nat -> packet_ok (local_packet cmd data m).
Proof. intros [Hm _ _ _ _] ???. apply read_packet_ok; [done..|]. apply ok_packet, (chan_of_ok 0), (fw_app m Hm). Qed.

Lemma wp_local_line cmd data g e m :
  serving m -> is_u8 cmd -> cmd <> RADIO_CMD_WRITE_EEPROM -> bytes data -> (0 < length data <= 10)%nat ->
  m_iqueue m = sio_line (command_text 0 1 cmd data) ->
  (forall m1, fw_ok m1 -> m_radio m1 = m_radio m -> executes (local_packet cmd data m) g e m1) ->
  wp (process_inputs (length (m_iqueue m))) (fun _ m' =>
    done_with g e m m' /\ m_iqueue m' = [] /\ k_state (m_app m') = IO_STATE_NEWLINE) m.
Proof.
  intros Hsv Hc Hne Hd Hl Hq He. pose proof (local_packet_ok cmd data m Hsv Hc Hd ltac:(lia)) as Hp.
  destruct Hsv as [Hm Ha Hn Hs Hf].
  rewrite (command_is_packet_text 0) in Hq by (done || apply Hc || by apply bytes_nonneg).
  rewrite Hq. unfold sio_line in *. set (text := packet_text 0 1 cmd data) in *. rewrite length_app.
  change (length [13; 10]) with 2%nat. unfold wp. rewrite process_inputs_app.
  pose proof (ok_packet _ (chan_of_ok 0 _ (fw_app m Hm))) as Hp0.
  pose proof (read_text 0 1 cmd data m [13; 10] ltac:(done) ltac:(done) Hc Hd ltac:(lia) Hp0 Hs Hf Hq) as Hread.
  fold text in Hread. rewrite decide_False in Hread by (by destruct data; cbn in Hl; lia || done).
  fold (local_packet cmd data m) in Hread. set (k1 := typed 0 IO_STATE_WAITDATA 0 (local_packet cmd data m) (m_app m)) in *.
  assert (control_ok k1) as Hk1 by (apply typed_ok; [done..|apply (fw_app m Hm)]).
  assert (c_packet (chan_of 0 k1) = local_packet cmd data m) as Ek by (unfold k1; by rewrite chan_of_typed).
  assert (forall j, 0 < j < 6 -> chan_of j k1 = chan_of j (m_app m)) as Ej.
  { intros j Hj. change (chan_of j k1) with (chan_of j (with_chan 0 ((chan_of 0 (m_app m)) <| c_state := LIBRADIO_CHSTATE_ADDING |>
      <| c_packet := local_packet cmd data m |>) (m_app m))). by rewrite chan_of_with_ne by lia. }
  clearbody k1. set (m1 := m <| m_iqueue := [13; 10] |> <| m_app := k1 |>) in *.
  assert (fw_ok m1) as Hm1 by (destruct Hm; split; try done; by bytes_cons).
  unfold mbind at 1, cmd_bind at 1. rewrite Hread.
  change (wp ((enqueue 0;; kput k_state IO_STATE_WAITNL);; process_inputs 2) (fun _ m' =>
    done_with g e m m' /\ m_iqueue m' = [] /\ k_state (m_app m') = IO_STATE_NEWLINE) m1).
  rewrite wp_bind, wp_bind. eapply wp_mono.
  { apply (wp_enqueue_local (local_packet cmd data m) g e m1 Hm1 Ek); [| |intros m2 Hm2 E; by apply He].
    - unfold is_local. change (m_radio m1) with (m_radio m). by rewrite Hn.
    - unfold write_overruns. by rewrite (proj2 (Z.eqb_neq _ _)). }
  cbv beta. intros _ m2 [ [Hm2 E1 E2 E3 E4] Hq2]. rewrite wp_kput.
  eapply wp_mono; [apply process_crlf; [|done|exact Hq2]|].
  { apply fw_ok_app; [exact Hm2|]. by apply control_ok_state; [apply (fw_app m2 Hm2)|]. }
  cbv beta. intros _ m3 (Hm3&Hq3&Hs3&Er&Eo&Ec). upd_simpl_in Er. upd_simpl_in Eo.
  split; [|done]. split; [exact Hm3|by rewrite Er, E1|by rewrite Eo|intros j Hj|].
  - rewrite Ec. change (chan_of j (m_app m2) = e j (chan_of j (m_app m))). rewrite E3 by done.
    change (m_app m1) with k1. by rewrite Ej.
  - rewrite Ec. exact E4.
Qed.
End obeying.

(** ** The two programs together *)

Lemma bytes_fmt_d n : bytes (fmt_d n).
Proof.
  assert (forall k, 0 <= k -> bytes (fmt_u k)) as Hu.
  { intros k Hk. eapply Forall_impl; [by apply fmt_u_digits|]. intros c Hc. unfold is_digit, is_u8 in *. lia. }
  unfold fmt_d. destruct (Z.ltb_spec n 0); [|by apply Hu]. apply Forall_cons_2; [done|]. apply Hu. lia.
Qed.

Lemma bytes_data_text b l : bytes (data_text b l).
Proof.
  revert b. induction l as [|v l IH]; intros b; [constructor|]. cbn [data_text].
  repeat (apply bytes_app; split); [destruct b; by bytes_cons|apply bytes_fmt_d|apply IH].
Qed.

Lemma bytes_command_line i node cmd data : bytes (sio_line (command_text i node cmd data)).
Proof.
  unfold sio_line, command_text.
  repeat (apply bytes_app; split); try apply bytes_fmt_d; try apply bytes_data_text; try by bytes_cons.
Qed.

(** The phases from SET_TIME to READY, and what the daemon asks for when it comes to one
    of them. *)
Definition phase (k : Z) : Z := STATE_SET_TIME + k.

Definition ask (k : Z) : request :=
  if k =? 1 then Q_set_date
  else if k =? 6 then Q_status RADIO_STATUS_DYNAMIC
  else Q_set_channel (k - 2) LIBRADIO_CHSTATE_EMPTY.

Lemma advance_answered k v :
  0 <= k < 6 -> v_state v = phase k -> v_retries v <= 10 -> v_failure v = 0 ->
  v_state (a_view (advance v)) = phase (k + 1) /\ v_retries (a_view (advance v)) <= 10 /\
  a_ask (advance v) = Some (ask (k + 1)).
Proof.
  intros Hk Hs Hr Hf. unfold advance. rewrite (proj2 (Z.ltb_ge _ _) Hr). cbv zeta. rewrite Hs, Hf.
  assert (k = 0 \/ k = 1 \/ k = 2 \/ k = 3 \/ k = 4 \/ k = 5) as Hc by lia.
  destruct Hc as [->|[->|[->|[->|[->| ->] ] ] ] ]; cbn; by split_and!.
Qed.

Lemma bytes_ask k msg : 1 <= k <= 6 -> says (Some (ask k)) msg -> bytes msg.
Proof.
  intros Hk. assert (k = 1 \/ k = 2 \/ k = 3 \/ k = 4 \/ k = 5 \/ k = 6) as Hc by lia.
  destruct Hc as [->|[->|[->|[->|[->| ->] ] ] ] ]; cbn [ask Z.eqb Pos.eqb says].
  1: intros (hi&lo&->&_&_); apply bytes_command_line.
  1-4: intros ->; apply bytes_command_line.
  intros ->. by bytes_cons.
Qed.

Section joint.
Context {P D : Type} `{Platform P} `{Patience} `{System D}.
Implicit Types (m : machine P control) (h : host D).

(** An exchange: the controller reads what the daemon has written, the daemon the lines
    that the controller prints, and what the daemon writes is on its way to the
    controller. *)
Definition exchange : cmd (machine P control * host D) unit := fun '(m, h) =>
  match process_inputs (length (m_iqueue m)) m with
  | Done _ m' =>
      match parse_all (lines_from [] (drop (length (m_out m)) (m_out m'))).1 h with
      | Done _ h' => Done tt (m' <| m_iqueue := drop (length (h_sent h)) (h_sent h') |>, h')
      | Fault f => Fault f
      | Restart h' => Restart (m', h')
      | Waiting h' => Waiting (m', h')
      end
  | Fault f => Fault f
  | Restart m' => Restart (m', h)
  | Waiting m' => Waiting (m', h)
  end.

(** A command that the controller executes takes the daemon one phase on. *)
Lemma safe_exchange k g e m h :
  0 <= k < 6 -> alive h -> h_state h = phase k -> h_retries h <= 10 ->
  wp (process_inputs (length (m_iqueue m))) (fun _ m' =>
    done_with g e m m' /\ m_iqueue m' = [] /\ k_state (m_app m') = IO_STATE_NEWLINE) m ->
  safe exchange (fun _ '(m', h') =>
    (alive h' /\ h_state h' = phase (k + 1) /\ h_retries h' <= 10) /\
    says (Some (ask (k + 1))) (m_iqueue m') /\ fw_ok m' /\ k_state (m_app m') = IO_STATE_NEWLINE /\
    m_radio m' = g (m_radio m) /\ c_state (chan_of 0 (m_app m')) = LIBRADIO_CHSTATE_EMPTY /\
    forall j, 0 < j < 6 -> chan_of j (m_app m') = e j (chan_of j (m_app m))) (m, h).
Proof.
  intros Hk Ha Hst Hre Hrun. unfold safe, exchange. unfold wp in Hrun.
  destruct (process_inputs _ m) as [ [] m1| | |]; [|done..].
  destruct Hrun as ([Hm1 E1 (t&Ht&E2) E3 E4]&_&Hs1).
  rewrite E2, drop_app_length, answer_heard by done. set (h1 := h <| h_failure_status := 0 |>).
  assert (alive h1) as Hal by by apply (alive_core h).
  assert (h_state h1 <> STATE_READY) as Hne.
  { change (h_state h1) with (h_state h). rewrite Hst. unfold phase, STATE_SET_TIME, STATE_READY. lia. }
  destruct (advance_answered k (view_of h1) Hk Hst Hre eq_refl) as (Av&Ar&Aa).
  pose proof (safe_state_machine h1 (proj1 Hal) Hne) as Hsm. unfold safe in Hsm.
  destruct (state_machine h1) as [ [] h'| | |]; [|done..].
  pose proof (stepped_alive h1 h' (proj1 Hal) Hne Hsm) as Hal'.
  destruct Hsm as [Hv (msg&Hmsg&Hsent) _ _ _]. rewrite Aa in Hmsg.
  rewrite <- Hv in Av, Ar. change (h_sent h1) with (h_sent h) in Hsent.
  assert (drop (length (h_sent h)) (h_sent h') = msg) as -> by (by rewrite Hsent, drop_app_length).
  split; [split; [exact Hal'|split; [exact Av|exact Ar]]|]. split; [exact Hmsg|].
  split; [|split; [exact Hs1|split; [exact E1|split; [exact E4|exact E3]]]].
  pose proof (bytes_ask (k + 1) msg ltac:(lia) Hmsg) as Hb. destruct Hm1. by split.
Qed.

(** *** The phases *)

(** The controller is ready for the next line, and its clock shows the time it was
    given. *)
Record served (t i : Z) m : Prop := {
  se_serving : serving m;
  se_ticks : r_ms_ticks (m_radio m) = t;
  se_interval : r_tens_of_minutes (m_radio m) = i
}.

(** [g] changes nothing that the daemon has set before. *)
Definition keeps_time g : Prop := forall l : libradio,
  r_state (g l) = r_state l /\ r_my_node_id (g l) = r_my_node_id l /\
  r_ms_ticks (g l) = r_ms_ticks l /\ r_tens_of_minutes (g l) = r_tens_of_minutes l.

Definition came_to (k t i : Z) : machine P control * host D -> Prop := fun '(m, h) =>
  (alive h /\ h_state h = phase k /\ h_retries h <= 10) /\ says (Some (ask k)) (m_iqueue m) /\ served t i m /\
  forall j, 1 <= j <= 3 -> j + 3 <= k -> c_state (chan_of j (m_app m)) = LIBRADIO_CHSTATE_EMPTY.

(** What is executed in a phase, on the record and on the channels. *)
Lemma request_obeyed k t i m :
  1 <= k < 6 -> served t i m -> says (Some (ask k)) (m_iqueue m) ->
  exists g, keeps_time g /\
  wp (process_inputs (length (m_iqueue m))) (fun _ m' =>
    done_with g (if k =? 1 then fun _ c => c else channel_set (k - 2) LIBRADIO_CHSTATE_EMPTY) m m' /\
    m_iqueue m' = [] /\ k_state (m_app m') = IO_STATE_NEWLINE) m.
Proof.
  intros Hk [Hsv _ _] Hmsg. unfold ask in Hmsg. destruct (Z.eqb_spec k 1) as [->|Hne].
  - destruct Hmsg as (hi&lo&Hq&Hhi&Hlo). assert (bytes [hi; lo]) as Hb by by bytes_cons.
    exists (date_set (local_packet RADIO_CMD_SET_DATE [hi; lo] m)).
    split; [intros []; by split_and!|].
    apply (wp_local_line RADIO_CMD_SET_DATE [hi; lo]); try done; [cbn; lia|].
    intros m1 Hm1 Er. apply executes_date; [|exact Hm1| |done|done].
    + apply local_packet_ok; [done|done|done|cbn; lia].
    + rewrite Er. apply Hsv.
  - rewrite (proj2 (Z.eqb_neq k 6)) in Hmsg by lia. cbn [says] in Hmsg.
    set (d := k - 2) in *. assert (bytes [d; LIBRADIO_CHSTATE_EMPTY]) as Hb.
    { apply Forall_cons_2; [unfold is_u8; lia|by bytes_cons]. }
    exists (fun l => l). split; [intros []; by split_and!|].
    apply (wp_local_line RADIO_CMD_USER0 [d; LIBRADIO_CHSTATE_EMPTY]); try done; [cbn; lia|].
    intros m1 Hm1 Er.
    apply executes_channel; [|exact Hm1|done|done|lia|done| |].
    + apply local_packet_ok; [done|done|done|cbn; lia].
    + done.
    + done.
Qed.

Lemma safe_phase k t i s :
  1 <= k < 6 -> came_to k t i s -> safe exchange (fun _ => came_to (k + 1) t i) s.
Proof.
  destruct s as [m h]. intros Hk ((Ha&Hst&Hre)&Hmsg&Hsv&Hch).
  destruct (request_obeyed k t i m Hk Hsv Hmsg) as (g&Hg&Hrun).
  destruct Hsv as [ [Hm Hac Hn Hnl Hf] Ht Hi]. destruct (Hg (m_radio m)) as (G1&G2&G3&G4).
  eapply safe_mono; [eapply (safe_exchange k); [lia|done|done|done|exact Hrun]|].
  intros ? [m' h'] (Hh&Hmsg'&Hm'&Hnl'&Er&E0&Ec).
  split; [exact Hh|]. split; [exact Hmsg'|]. split.
  { split; [split; [exact Hm'|by rewrite Er, G1|by rewrite Er, G2|exact Hnl'|by rewrite E0] |by rewrite Er, G3|by rewrite Er, G4]. }
  intros j Hj Hjk. rewrite Ec by lia. destruct (Z.eqb_spec k 1) as [->|Hne]; [lia|].
  unfold channel_set. destruct (Z.eqb_spec j (k - 2)); [done|]. apply Hch; lia.
Qed.

Lemma safe_phases n k from t i s :
  1 <= k -> k + Z.of_nat n <= 6 -> came_to k t i s ->
  safe (for_loop n from (fun _ => exchange)) (fun _ => came_to (k + Z.of_nat n) t i) s.
Proof.
  revert k from s. induction n as [|n IH]; intros k from s Hk Hn Hs; cbn [for_loop].
  { rewrite Z.add_0_r. exact Hs. }
  rewrite safe_bind. eapply safe_mono; [apply (safe_phase k t i); [lia|exact Hs]|].
  intros ? s1 Hs1. cbv beta. replace (k + Z.of_nat (S n)) with (k + 1 + Z.of_nat n) by lia.
  apply IH; [lia|lia|exact Hs1].
Qed.

(** The first exchange sets the time. *)
Lemma safe_set_time_phase sec usec m h :
  alive h -> h_state h = STATE_SET_TIME -> h_retries h <= 10 -> serving m ->
  0 <= sec -> 0 <= usec < 1000000 ->
  m_iqueue m = sio_line (command_text 0 1 RADIO_CMD_SET_TIME (time_data sec usec)) ->
  safe exchange (fun _ => came_to 1 (clock_ticks sec usec) (clock_interval sec)) (m, h).
Proof.
  intros Ha Hst Hre Hsv Hs Hu Hq. destruct (clock_range sec usec Hs Hu) as [Ht Hi].
  rewrite time_data_eq in Hq by done.
  set (data := [clock_ticks sec usec / 256; clock_ticks sec usec mod 256; clock_interval sec]) in *.
  assert (bytes data) as Hb.
  { repeat (apply Forall_cons_2); [| | |apply Forall_nil_2]; unfold is_u8; Z.to_euclidean_division_equations; lia. }
  eapply safe_mono.
  { apply (safe_exchange 0 (time_set (local_packet RADIO_CMD_SET_TIME data m)) (fun _ c => c)); [lia|done|done|done|].
    apply (wp_local_line RADIO_CMD_SET_TIME data); try done; [cbn; lia|].
    intros m1 Hm1 _. apply executes_time; [|exact Hm1|done|done].
    apply local_packet_ok; [done|done|done|cbn; lia]. }
  intros ? [m' h'] (Hh&Hmsg&Hm'&Hnl&Er&E0&_). destruct Hsv as [Hm Hac Hn _ _].
  split; [exact Hh|]. split; [exact Hmsg|].
  split; [split; [split; [exact Hm'|by rewrite Er|by rewrite Er|exact Hnl|by rewrite E0]| |by rewrite Er]|intros; lia].
  rewrite Er. change (clock_ticks sec usec / 256 * 256 + clock_ticks sec usec mod 256 = clock_ticks sec usec).
  pose proof (Z.div_mod (clock_ticks sec usec) 256). lia.
Qed.
End joint.

(** ** Properties *)

Section properties.
Context {P D : Type} `{Platform P} `{Patience} `{System D}.
Implicit Types (m : machine P control) (h : host D).

(** [C20] The bring-up completes with both programs in the loop: the daemon has just sent
    the time to an active controller; after six exchanges (the time, the date, four
    channels), in each of which the controller executes the line it has received and
    the daemon finds the "+" among the lines the controller prints, the daemon is READY
    and the controller's clock shows what the daemon sent, unless the daemon has ended
    because the line failed. The channels 1 to 3 are then EMPTY - channel 3 too, which
    state.c means to be READ. *)
Theorem bring_up_in_loop sec usec m h :
  alive h -> h_state h = STATE_SET_TIME -> h_retries h <= 10 -> serving m ->
  0 <= sec -> 0 <= usec < 1000000 ->
  m_iqueue m = sio_line (command_text 0 1 RADIO_CMD_SET_TIME (time_data sec usec)) ->
  safe (for_loop 6 0 (fun _ => exchange)) (fun _ '(m', h') =>
    alive h' /\ h_state h' = STATE_READY /\ serving m' /\
    r_ms_ticks (m_radio m') = clock_ticks sec usec /\
    r_tens_of_minutes (m_radio m') = clock_interval sec /\
    forall j, 1 <= j <= 3 -> c_state (chan_of j (m_app m')) = LIBRADIO_CHSTATE_EMPTY) (m, h).
Proof.
  intros Ha Hst Hre Hsv Hs Hu Hq.
  match goal with |- safe _ ?Q ?s => change (safe (exchange;; for_loop 5 1 (fun _ => exchange)) Q s) end.
  rewrite safe_bind.
  eapply safe_mono; [by apply (safe_set_time_phase sec usec)|]. intros ? s1 Hs1.
  eapply safe_mono; [apply (safe_phases 5 1 1 (clock_ticks sec usec) (clock_interval sec)); [done|done|exact Hs1]|].
  intros ? [m' h'] ((Ha'&Hst'&_)&_&[Hsv' Et Ei]&Hch).
  split_and!; [exact Ha'|exact Hst'|exact Hsv'|exact Et|exact Ei|]. intros j Hj. apply Hch; lia.
Qed.
End properties.

(** ** Instances of the properties *)

#[local] Instance bring_patience : Patience := 10%nat.

(** A controller that is node 1, with the line that sets the time of 14:33:39. *)
Definition bring_control : machine (list Z) control :=
  (bench_control bench_objects (sio_line (command_text 0 1 RADIO_CMD_SET_TIME (time_data 1728916419 323578))))
    <| m_radio ::= fun l => l <| r_my_node_id := 1 |> |>.

Lemma bring_control_serving : serving bring_control.
Proof.
  pose proof (bench_control_ok bench_objects (sio_line (command_text 0 1 RADIO_CMD_SET_TIME (time_data 1728916419 323578)))
    bench_objects_ok (bytes_command_line _ _ _ _)) as Hm.
  pose proof (fw_radio _ Hm) as Hl. pose proof (fw_periods _ Hm) as Hp.
  split; [|reflexivity|reflexivity|reflexivity|vm_compute; discriminate].
  unfold bring_control. apply fw_ok_radio; [exact Hm|..]; revert Hl Hp;
    generalize (m_radio (bench_control bench_objects (sio_line (command_text 0 1 RADIO_CMD_SET_TIME (time_data 1728916419 323578)))));
    intros l Hl Hp; [by apply field_put|destruct Hp; split; assumption].
Qed.

(** Both programs, run. *)
Example bring_up_runs :
  match for_loop 6 0 (fun _ => exchange) (bring_control, bench_daemon) with
  | Done _ (m, h) => h_state h = STATE_READY /\ r_ms_ticks (m_radio m) = 21932 /\
                     r_tens_of_minutes (m_radio m) = 87 /\ m_iqueue m = str ">T" ++ [13; 10]
  | _ => False
  end.
Proof. by vm_compute. Qed.

Lemma bring_up_in_loop_witness :
  safe (for_loop 6 0 (fun _ => exchange)) (fun _ '(m', h') =>
    alive h' /\ h_state h' = STATE_READY /\ serving m' /\
    r_ms_ticks (m_radio m') = clock_ticks 1728916419 323578 /\
    r_tens_of_minutes (m_radio m') = clock_interval 1728916419 /\
    forall j, 1 <= j <= 3 -> c_state (chan_of j (m_app m')) = LIBRADIO_CHSTATE_EMPTY)
    (bring_control, bench_daemon).
Proof.
  apply (bring_up_in_loop 1728916419 323578 bring_control bench_daemon);
    [apply bench_daemon_alive|reflexivity|cbn; lia|apply bring_control_serving|lia|lia|reflexivity].
Defined.
