(* ===== verification/Air.v ===== *)
(** The controller and its clients over the radio: what the one puts into the transmit
    FIFO of its radio the other finds in the receive FIFO of its own, and handles. The
    radios and the air are parameters; what is used of them is [frame_waiting]. *)

From S2P Require Import Machine Clock State Spi Invariant Si4463 Wait Rxtx Command Loop Boot Control CtlCommand CtlQueue CtlInput CtlMain.
From S2P Require Import Lrmon LrCommand LrState LrInput Link Bringup Spi.

#[local] Open Scope Z_scope.

(** ** A frame in the receive FIFO *)

Section waiting.
Context {D : Type} `{Platform D}.

(** The radio, asked for the state of its FIFOs, is busy for fewer polls than
    [pkt_send] makes, reports 16 bytes received, and then hands over [f]. *)
Definition frame_waiting (f : list Z) (d : D) : Prop :=
  let q := selected [SI4463_FIFO_INFO; 0] d in
  Forall (fun a => a <> -1) q.1 /\
  exists (j : nat) tx, (j < 1000)%nat /\
    (forall i, (i < j)%nat -> busy (Nat.iter i polled q.2)) /\
    let d1 := Nat.iter j polled q.2 in
    ready d1 /\ (answer 2 d1).1 = [16; tx] /\ 0 <= tx /\
    delivered (spi_select false (answer 2 d1).2) = f.
End waiting.

(** ** What a reception leaves of the record *)

(** The record without what the radio reports, and without whether its interrupt is
    wanted again. *)
Definition told (l : libradio) : libradio := (settings l) <| r_catch_irq := 0 |>.

Section reception.
Context {D X : Type} `{Platform D} `{!AppInv X}.
Implicit Types (m : machine D X) (r : chanref X).

Lemma told_query m m' : query_only m m' -> told (m_radio m') = told (m_radio m).
Proof. intros [E _]. unfold told. rewrite E. reflexivity. Qed.

Lemma told_irq flag m : told (m_radio (irq_machine flag m)) = told (m_radio m).
Proof.
  unfold irq_machine. upd_simpl. generalize (m_radio m). intros []. reflexivity.
Qed.

(** The query finds the frame. *)
Lemma wp_check_rx_waiting f m :
  fw_ok m -> frame_waiting f (m_dev m) ->
  wp libradio_check_rx (fun v m' => v = 1 /\ fw_ok m' /\ query_only m m' /\
    16 <= r_rx_fifo (m_radio m') /\ delivered (m_dev m') = f) m.
Proof.
  intros Hm (Hw&j&tx&Hj&Hb&Hrd&Ha&Htx&Hf).
  assert (wp libradio_check_rx (fun v m' => v = 1 /\ 16 <= r_rx_fifo (m_radio m') /\
    delivered (m_dev m') = f) m) as Hrun.
  { unfold libradio_check_rx, libradio_get_fifo_info. pose proof (fw_pkt _ Hm) as [Hlen Hbytes].
    rewrite wp_assoc, wp_bind, wp_pkt_put by lia.
    rewrite wp_assoc, wp_bind, wp_pkt_put by (upd_simpl; rewrite length_insert; lia). upd_simpl.
    match goal with |- wp _ _ ?x => set (m1 := x) end.
    assert (commanded 2 m1 = selected [SI4463_FIFO_INFO; 0] (m_dev m)) as Hcmd.
    { unfold commanded, m1. upd_simpl. f_equal. by destruct (m_pkt_data m) as [|? [|? ?] ]. }
    assert (pkt_ok m1) as Hok1.
    { unfold pkt_ok, m1. upd_simpl. rewrite !length_insert. split; [done|].
      repeat apply Forall_insert; done. }
    rewrite <- Hcmd in *.
    assert (Forall (fun a => 0 <= a) (answer 2 (Nat.iter j polled (commanded 2 m1).2)).1) as Hpos
      by (rewrite Ha; by repeat constructor).
    pose proof (pkt_send_answers 2 2 j m1 ltac:(lia) ltac:(lia) Hok1 Hw Hj Hb Hrd Hpos) as Hs.
    rewrite wp_assoc, (wp_bind_run _ _ _ _ _ _ Hs), Ha. clear Hs.
    change (negb (SPI_SEND_OK =? SPI_SEND_OK)) with false. cbv iota.
    rewrite wp_assoc, wp_bind, (wp_pkt_get 1 (u8 tx)) by (upd_simpl; done).
    rewrite wp_assoc, wp_bind, wp_rput, wp_assoc, wp_bind, (wp_pkt_get 0 16) by (upd_simpl; done).
    rewrite wp_assoc, wp_bind, wp_rput, wp_bind, !wp_ret. upd_simpl. by split_and!. }
  pose proof (query_check_rx m Hm) as Hq.
  eapply wp_mono; [exact (wp_and _ _ _ _ Hrun Hq)|]. cbv beta.
  intros v m' [(->&H1&H2) [H3 H4] ]. by split_and!.
Qed.

(** The record after a packet of [p] with the time [t] has been heard. *)
Definition heard (t : Z) (p : packet) (l : libradio) : libradio :=
  (if p_cmd p <? RADIO_STATUS_RESPONSE then l <| r_ms_ticks := t |> else l)
    <| r_npacket_rx := u16 (r_npacket_rx l + 1) |> <| r_saw_rx := 1 |>.

Lemma told_heard t p l l' : told l' = told l -> told (heard t p l') = told (heard t p l).
Proof.
  intros E. assert (forall l0, told (heard t p l0) = heard t p (told l0)) as Hc.
  { intros []. unfold heard. destruct (_ <? _); reflexivity. }
  rewrite !Hc, E. reflexivity.
Qed.

(** The frame of [p] is read and accepted. *)
Lemma wp_take_waiting r t p m :
  ref_ok r -> fw_ok m -> packet_ok p -> is_u16 t -> p_len p <= 10 ->
  16 <= r_rx_fifo (m_radio m) -> delivered (m_dev m) = tx_frame (seal t p) ->
  wp (take_rx r) (fun v m' => v = 1 /\ fw_ok m' /\
    c_packet (ch_get r m') = airborne (seal t p) /\ told (m_radio m') = told (heard t p (m_radio m))) m.
Proof.
  intros Hr Hm Hp Ht Hl Hf Hd. unfold take_rx. rewrite wp_bind.
  pose proof (ok_len _ Hp) as H0. unfold is_u8 in H0.
  assert (packet_ok (seal t p)) as Hs by (apply seal_ok; [done..|lia]).
  destruct (tx_frame_delivered t p Hp Ht Hl) as [Hq Hsum].
  assert (wp (libradio_rxpacket r) (fun v m' => v = 1 /\
    c_packet (ch_get r m') = airborne (seal t p) /\
    m_radio m' = if p_cmd p <? RADIO_STATUS_RESPONSE then (m_radio m) <| r_ms_ticks := t |> else m_radio m) m) as Hrx.
  { rewrite wp_libradio_rxpacket by apply Hr. cbv zeta.
    pose proof (rx_packet_delivered (r_rx_fifo (m_radio m)) (m_dev m) (c_packet (ch_get r m)) _ Hf
      (ok_packet _ (ch_get_ok r m Hr Hm)) Hd (tx_frame_u8 _ Hs) (tx_frame_length _ Hs Hl)) as Erx.
    rewrite Hq in Erx. rewrite Erx, Hsum. cbn [Z.eqb].
    change (p_cmd (airborne (seal t p))) with (p_cmd p). change (p_ticks (airborne (seal t p))) with t.
    destruct (p_cmd p <? RADIO_STATUS_RESPONSE); (split; [done|]); autorewrite with chan;
      upd_simpl; rewrite rx_machine_channel, rx_machine_radio by apply Hr; upd_simpl; by rewrite Erx. }
  eapply wp_mono; [apply wp_and; [exact Hrx|by apply rxpacket_total]|].
  cbv beta. intros v m1 [(->&Hc&Hrad) [Hm1 _] ]. cbn [Z.eqb].
  rewrite wp_bind, wp_bind, wp_rget, wp_bind, !wp_rput.
  change (wp (c ← rget r_catch_irq; when (negb (c =? 0)) (libradio_irq_enable 1);; mret 1)
    (fun v m' => v = 1 /\ fw_ok m' /\ c_packet (ch_get r m') = airborne (seal t p) /\
      told (m_radio m') = told (heard t p (m_radio m))) (counted m1)).
  assert (told (m_radio (counted m1)) = told (heard t p (m_radio m))) as Htold.
  { unfold counted. upd_simpl. rewrite Hrad. unfold heard. destruct (_ <? _); reflexivity. }
  assert (c_packet (ch_get r (counted m1)) = airborne (seal t p)) as Hc2
    by (unfold counted; by autorewrite with chan).
  pose proof (fw_ok_counted m1 Hm1) as Hm2.
  rewrite wp_bind, wp_rget, wp_bind, wp_when.
  destruct (negb _); [rewrite wp_libradio_irq_enable|]; rewrite wp_ret; (split; [done|]).
  - split; [by apply fw_ok_irq_machine|]. split; [|rewrite told_irq; exact Htold].
    unfold irq_machine. autorewrite with chan. by destruct r.
  - split; [done|]. split; [exact Hc2|exact Htold].
Qed.

Lemma wp_recv_waiting r t p channo m :
  ref_ok r -> fw_ok m -> packet_ok p -> is_u16 t -> p_len p <= 10 -> is_u8 channo ->
  frame_waiting (tx_frame (seal t p)) (m_dev m) ->
  wp (libradio_recv r channo) (fun v m' => v = 1 /\ fw_ok m' /\
    c_packet (ch_get r m') = airborne (seal t p) /\ told (m_radio m') = told (heard t p (m_radio m))) m.
Proof.
  intros Hr Hm Hp Ht Hl Hc Hw. unfold libradio_recv. fold (take_rx r : fw D X Z).
  rewrite wp_bind. eapply wp_mono; [by apply (wp_check_rx_waiting (tx_frame (seal t p)))|].
  cbv beta. intros v m1 (->&Hm1&Hq1&Hf&Hd). cbn [Z.eqb negb].
  rewrite wp_bind. eapply wp_mono; [by apply (wp_take_waiting r t p)|].
  cbv beta. intros v m2 (->&Hm2&Hp2&Ht2).
  apply wp_retune_ret; [done..|]. intros m3 Hm3 Hq3 _. split; [done|]. split; [done|].
  split.
  - by rewrite (query_only_chan r m2 m3 Hq3).
  - rewrite (told_query m2 m3 Hq3), Ht2. apply told_heard, told_query, Hq1.
Qed.
End reception.

(** *** What a command does depends on the settings only *)

(** [g] commutes with forgetting what the radio reports. *)
Definition settled (g : libradio -> libradio) : Prop := forall l, told (g l) = told (g (told l)).

Lemma settled_eq g l l' : settled g -> told l' = told l -> told (g l') = told (g l).
Proof. intros Hg E. rewrite (Hg l'), (Hg l), E. reflexivity. Qed.

Lemma settled_state_set s : settled (state_set s).
Proof.
  intros l. unfold state_set. change (r_state (told l)) with (r_state l).
  destruct (negb _ && _); [reflexivity|].
  unfold mode_after. cbv zeta. destruct l.
  destruct (_ || _); [reflexivity|]. destruct (s =? LIBRADIO_STATE_LISTEN); [reflexivity|].
  destruct (s =? LIBRADIO_STATE_ERROR); reflexivity.
Qed.

Lemma settled_comp g1 g2 : settled g1 -> settled g2 -> settled (fun l => g2 (g1 l)).
Proof. intros H1 H2 l. rewrite H2, (H1 l), <- H2. reflexivity. Qed.

Lemma settled_command_record p : settled (command_record p).
Proof.
  intros l. unfold command_record. cbv zeta.
  change (r_cat1 (told l)) with (r_cat1 l). change (r_cat2 (told l)) with (r_cat2 l).
  change (r_num1 (told l)) with (r_num1 l). change (r_num2 (told l)) with (r_num2 l).
  change (r_state (told l)) with (r_state l).
  destruct (p_cmd p =? RADIO_CMD_ACTIVATE).
  { destruct (_ && _); [|by destruct l].
    apply (settled_comp (fun l => l <| r_my_channel := _ |> <| r_my_node_id := _ |>));
      [by intros []|apply settled_state_set]. }
  destruct (r_state l <? LIBRADIO_STATE_ACTIVE); [by destruct l|].
  destruct (_ && _).
  { apply (settled_comp (fun l => l <| r_my_node_id := _ |> <| r_my_channel := _ |>));
      [by intros []|apply settled_state_set]. }
  destruct (_ && _); [by destruct l|]. destruct (_ && _); by destruct l.
Qed.

(** What lies behind the length of a command does not matter. *)
Lemma command_record_airborne t p l :
  packet_ok p -> command_record (airborne (seal t p)) l = command_record p l.
Proof.
  intros Hp. pose proof (ok_size _ Hp) as Hd. unfold airborne, seal, command_record. upd_simpl.
  cbv zeta. revert Hd. generalize (p_len p) (p_cmd p) (p_data p). intros len cmd d Hd.
  do 10 (destruct d as [|? d]; [done|]). destruct d; [|done].
  destruct (Z.eqb_spec len 6) as [->|]; [reflexivity|].
  destruct (Z.eqb_spec len 1) as [->|];
    [|destruct (Z.eqb_spec len 2) as [->|] ];
    cbn [Z.eqb Pos.eqb andb]; rewrite ?andb_false_r, ?andb_true_r; reflexivity.
Qed.

Section handling.
Context {D X : Type} `{Platform D} `{StockPower D X, !AppInv X} `{Patience}.
Implicit Types m : machine D X.

(** A packet that has arrived is obeyed if it is for this node, or for all. *)
Definition addressed (p : packet) (l : libradio) : bool := (p_node p =? 0) || (p_node p =? r_my_node_id l).

Definition obeyed (t : Z) (p : packet) (l : libradio) : libradio :=
  if addressed p l then command_record p (heard t p l) else heard t p l.

Lemma told_obeyed t p l l' :
  told l' = told (heard t p l) ->
  told (if addressed p l' then command_record p l' else l') = told (obeyed t p l).
Proof.
  intros E. unfold obeyed. assert (r_my_node_id l' = r_my_node_id l) as En.
  { apply (f_equal r_my_node_id) in E. change (r_my_node_id l' = r_my_node_id (heard t p l)) in E.
    rewrite E. unfold heard. by destruct (_ <? _). }
  unfold addressed. rewrite En. destruct (_ || _); [|exact E].
  exact (settled_eq _ _ _ (settled_command_record p) E).
Qed.

Lemma wp_handle_waiting t p m :
  fw_ok m -> packet_ok p -> is_u16 t -> p_len p <= 10 -> record_command (p_cmd p) = true ->
  frame_waiting (tx_frame (seal t p)) (m_dev m) ->
  wp libradio_handle_packet (fun _ m' => fw_ok m' /\
    told (m_radio m') = told (obeyed t p (m_radio m))) m.
Proof.
  intros Hm Hp Ht Hl Hc Hw. unfold libradio_handle_packet. rewrite wp_bind, wp_rget, wp_bind.
  eapply wp_mono; [apply (wp_recv_waiting RxChan t p); try done; by apply field_get, fw_radio|].
  cbv beta. intros v m1 (->&Hm1&Hpk&Hr). cbn [Z.eqb negb when ch_get] in *.
  rewrite wp_bind, wp_gets, wp_bind, wp_rget, wp_when, Hpk.
  assert (packet_ok (airborne (seal t p))) as Ha by (rewrite <- Hpk; apply ok_packet, fw_rxchan, Hm1).
  pose proof (told_obeyed t p (m_radio m) (m_radio m1) Hr) as Hto. unfold addressed at 1 in Hto.
  change (p_node (airborne (seal t p))) with (p_node p).
  destruct (_ || _); [|by split].
  eapply wp_mono; [by apply wp_libradio_command_record|]. cbv beta. intros _ m2 (Hm2&_&Er).
  split; [done|]. rewrite Er, command_record_airborne by done. exact Hto.
Qed.
End handling.

(** Transmitting hands the frame to the radio. *)
Lemma wp_tx_frame {D X} `{Platform D} (r : chanref X) (m : machine D X) :
  lawful r -> p_len (c_packet (ch_get r m)) <= 10 ->
  wp (libradio_txpacket r) (fun v m' => v = 1 /\
    m_dev m' = (selected (SI4463_WRITE_TX_FIFO ::
      tx_frame (seal (r_ms_ticks (m_radio m)) (c_packet (ch_get r m)))) (m_dev m)).2) m.
Proof.
  intros Hr Hl. rewrite wp_libradio_txpacket by done. cbv zeta.
  destruct (Z.ltb_spec MAX_PAYLOAD_SIZE (p_len (c_packet (ch_get r m)))); [rewrite max_payload in *; lia|].
  split; [done|]. by autorewrite with chan.
Qed.

Section over_air.
Context {D1 D2 X1 X2 : Type} `{Platform D1} `{Platform D2}.
Context `{StockPower D2 X2, !AppInv X2} `{Patience}.
Implicit Types (m : machine D1 X1) (n : machine D2 X2).

Lemma command_travels (r : chanref X1) m :
  let p := c_packet (ch_get r m) in
  let t := r_ms_ticks (m_radio m) in
  lawful r -> packet_ok p -> p_len p <= 10 -> record_command (p_cmd p) = true -> is_u16 t ->
  exists frame, length frame = 16%nat /\
  wp (libradio_txpacket r) (fun v m' => v = 1 /\
    m_dev m' = (selected (SI4463_WRITE_TX_FIFO :: frame) (m_dev m)).2) m /\
  forall n, fw_ok n -> frame_waiting frame (m_dev n) ->
    wp libradio_handle_packet (fun _ n' => fw_ok n' /\ told (m_radio n') = told (obeyed t p (m_radio n))) n.
Proof.
  intros p t Hr Hp Hl Hc Ht. exists (tx_frame (seal t p)).
  assert (packet_ok (seal t p)) as Hs.
  { apply seal_ok; [done..|]. pose proof (ok_len _ Hp) as Hl0. unfold is_u8 in Hl0. lia. }
  split; [by apply tx_frame_length|]. split; [by apply wp_tx_frame|].
  intros n Hn Hw. by apply wp_handle_waiting.
Qed.

(** A command over the air: the packet in the channel that a node transmits goes
    as sixteen bytes into the FIFO of its radio, and a client whose radio holds those
    bytes finds the packet, accepts it, keeps the sender's clock, and, if it is the one
    addressed (by its node number, or by 0), ends with the settings the command asks
    for; if it is not, only the clock and the packet count change. What the FIFO held
    behind the length of the packet plays no part. *)
Theorem command_over_air (r : chanref X1) m :
  let p := c_packet (ch_get r m) in
  let t := r_ms_ticks (m_radio m) in
  lawful r -> packet_ok p -> p_len p <= 10 -> record_command (p_cmd p) = true -> is_u16 t ->
  exists frame, length frame = 16%nat /\
  wp (libradio_txpacket r) (fun v m' => v = 1 /\
    m_dev m' = (selected (SI4463_WRITE_TX_FIFO :: frame) (m_dev m)).2) m /\
  forall n, fw_ok n -> frame_waiting frame (m_dev n) ->
    wp libradio_handle_packet (fun _ n' => fw_ok n' /\ told (m_radio n') = told (obeyed t p (m_radio n))) n.
Proof. apply command_travels. Qed.
End over_air.

(** ** The controller's clock *)

Section clock.
Context {D1 D2 X : Type} `{Platform D1} `{Platform D2}.
Context `{StockPower D2 X, !AppInv X} `{Patience}.
Implicit Types (m : machine D1 control) (n : machine D2 X).

Lemma obeyed_time t tom c l :
  channel_ok c -> LIBRADIO_STATE_ACTIVE <= r_state l ->
  obeyed t (c_packet (time_channel tom c)) l =
    l <| r_ms_ticks := t |> <| r_npacket_rx := u16 (r_npacket_rx l + 1) |> <| r_saw_rx := 1 |>
      <| r_tens_of_minutes := tom |>.
Proof.
  intros Hc Ha. pose proof (ok_size _ (ok_packet _ Hc)) as Hs. unfold obeyed, command_record.
  change (r_state (heard _ _ _)) with (r_state l). rewrite (proj2 (Z.ltb_ge _ _) Ha).
  destruct c as [s pr [k n cm len x d] ]. cbn in Hs. destruct d as [|? d]; [done|]. reflexivity.
Qed.

(** [C12] The controller's clock reaches its clients: the packet that the controller puts
    into an empty channel at the start of a slot, transmitted and found by an active
    client, sets the time of day and the clock of the client to the controller's, and
    leaves its state, its address and its date alone. *)
Theorem clock_reaches_client i m :
  0 <= i < 6 -> fw_ok m ->
  exists frame, length frame = 16%nat /\
  wp (fill_time i;; libradio_txpacket (chan_ref i)) (fun v m' => v = 1 /\
    m_dev m' = (selected (SI4463_WRITE_TX_FIFO :: frame) (m_dev m)).2) m /\
  forall n, fw_ok n -> LIBRADIO_STATE_ACTIVE <= r_state (m_radio n) -> frame_waiting frame (m_dev n) ->
    wp libradio_handle_packet (fun _ n' => fw_ok n' /\
      let l := m_radio n in let l' := m_radio n' in
      r_ms_ticks l' = r_ms_ticks (m_radio m) /\ r_tens_of_minutes l' = r_tens_of_minutes (m_radio m) /\
      r_state l' = r_state l /\ r_date l' = r_date l /\
      r_my_channel l' = r_my_channel l /\ r_my_node_id l' = r_my_node_id l) n.
Proof.
  intros Hi Hm.
  pose proof (chan_of_ok i _ (fw_app m Hm)) as Hc.
  set (m1 := m <| m_app ::= with_chan i (time_channel (r_tens_of_minutes (m_radio m)) (chan_of i (m_app m))) |>).
  assert (ch_get (chan_ref i) m1 = time_channel (r_tens_of_minutes (m_radio m)) (chan_of i (m_app m))) as E.
  { unfold m1. cbn [chan_ref ch_get]. upd_simpl. by rewrite chan_of_with. }
  assert (packet_ok (c_packet (ch_get (chan_ref i) m1))) as Hp.
  { pose proof (preserves_fill_time i Hi m Hm) as Hf. unfold safe in Hf. rewrite fill_time_run in Hf by done.
    apply ok_packet, (chan_of_ok i), (fw_app _ Hf). }
  destruct (command_travels (chan_ref i) m1) as (frame&Hlen&Htx&Hrx);
    [by apply chan_ref_lawful|exact Hp|by rewrite E|by rewrite E|change (is_u16 (r_ms_ticks (m_radio m))); by apply field_get, fw_radio|].
  exists frame. split; [exact Hlen|]. split.
  { rewrite wp_bind. unfold wp at 1. rewrite fill_time_run by done. exact Htx. }
  intros n Hn Ha Hw. eapply wp_mono; [exact (Hrx n Hn Hw)|]. cbv beta. intros _ n' [Hn' Hto]. split; [done|].
  rewrite E in Hto. rewrite (obeyed_time _ _ _ _ Hc Ha) in Hto.
  revert Hto. generalize (m_radio n'). intros l Hto. cbv zeta.
  split_and!; match goal with |- ?f _ = _ => apply (f_equal f) in Hto; exact Hto end.
Qed.
End clock.

(** ** A client's answer, up to the daemon *)

(** The bytes of a payload as the controller prints them. *)
Definition fields (l : list Z) : list Z := tail (flat_map (fun b => str "," ++ fmt_d b) l).

Lemma fields_snoc l b :
  fields (l ++ [b]) = fields l ++ (if (0 <? length l)%nat then str "," else []) ++ fmt_d b.
Proof.
  unfold fields. rewrite flat_map_app. cbn [flat_map]. rewrite app_nil_r.
  destruct l as [|a l]; [reflexivity|]. cbn [flat_map length Nat.ltb Nat.leb].
  change (str ",") with [44]. cbn [app tail]. by rewrite <- app_assoc.
Qed.

Lemma fields_bytes b l : bytes l -> fields (b :: l) = fmt_d b ++ flat_map (fun v => str "," ++ fmt_u v) l.
Proof.
  intros Hl. unfold fields. cbn [flat_map]. change (str ",") with [44]. cbn [app tail]. f_equal.
  induction Hl as [|v l Hv Hl IH]; [done|]. cbn [flat_map]. rewrite IH. unfold is_u8 in Hv.
  by rewrite fmt_d_u by lia.
Qed.

Section answers.
Context {D : Type} `{Platform D} `{Patience}.
Implicit Types m : machine D control.

Lemma wp_print_fields n pp m (Q : unit -> machine D control -> Prop) :
  packet_ok pp -> (n <= 10)%nat ->
  Q tt (m <| m_out ::= fun o => o ++ fields (take n (p_data pp)) |>) ->
  wp (for_loop n 0 (print_data pp)) Q m.
Proof.
  intros Hp Hn HQ. pose proof (ok_size _ Hp) as Hs.
  apply (wp_for_loop (fun j m' =>
    m' = m <| m_out ::= fun o => o ++ fields (take (Z.to_nat j) (p_data pp)) |>)).
  - unfold fields. cbn. destruct m. unfold upd, set_m_out. cbn. by rewrite app_nil_r.
  - intros j m' Hj ->. unfold print_data.
    assert (exists b, p_data pp !! Z.to_nat j = Some b) as [b Hb] by (apply lookup_lt_is_Some; lia).
    replace (Z.to_nat (j + 1)) with (S (Z.to_nat j)) by lia.
    rewrite (take_S_r _ _ _ Hb), fields_snoc, length_take, Nat.min_l by lia.
    assert ((0 <? Z.to_nat j)%nat = (0 <? j)) as ->.
    { destruct (Z.ltb_spec 0 j); [apply Nat.ltb_lt|apply Nat.ltb_ge]; lia. }
    rewrite wp_bind, wp_when. destruct (0 <? j).
    + unfold putchar. rewrite wp_print, wp_bind, wp_data_get, wp_print by (done || lia).
      rewrite (list_lookup_total_correct _ _ _ Hb). destruct m. unfold upd, set_m_out. cbn.
      by rewrite <- !app_assoc.
    + rewrite wp_bind, wp_data_get, wp_print by (done || lia).
      rewrite (list_lookup_total_correct _ _ _ Hb). destruct m. unfold upd, set_m_out. cbn.
      by rewrite <- !app_assoc.
  - intros m' ->. rewrite Z.add_0_l, Nat2Z.id. exact HQ.
Qed.
End answers.

(** *** What a reception says *)

Section chatting.
Context {D X : Type} `{Platform D}.
Implicit Types m : machine D X.

(** Nothing is said but complete lines that are not for the daemon. *)
Definition chatter m m' : Prop := exists t, noise t /\ m_out m' = m_out m ++ t.

Lemma chatter_same m m' : m_out m' = m_out m -> chatter m m'.
Proof. intros E. exists []. split; [by exists []|by rewrite app_nil_r]. Qed.

Lemma chatter_trans m1 m2 m3 : chatter m1 m2 -> chatter m2 m3 -> chatter m1 m3.
Proof.
  intros (a&Ha&E1) (b&Hb&E2). exists (a ++ b). split; [by apply noise_app|]. by rewrite E2, E1, app_assoc.
Qed.

Definition chats {A} (c : fw D X A) : Prop := forall m a m', c m = Done a m' -> chatter m m'.

Lemma chats_bind {A B} (c : fw D X A) (k : A -> fw D X B) :
  chats c -> (forall a, chats (k a)) -> chats (c ≫= k).
Proof.
  intros Hc Hk m b m'. unfold mbind, cmd_bind. destruct (c m) as [a m1| | |] eqn:E; [|done..].
  intros Hb. by eapply chatter_trans; [eapply Hc|eapply Hk].
Qed.

Lemma chats_ret {A} (a : A) : chats (mret a).
Proof. intros m a' m' [= _ <-]. by apply chatter_same. Qed.

Lemma chats_gets {A} (f : machine D X -> A) : chats (gets f).
Proof. intros m a' m' [= _ <-]. by apply chatter_same. Qed.

Lemma chats_modify f : (forall m, m_out (f m) = m_out m) -> chats (modify f).
Proof. intros Hf m a' m' [= _ <-]. by apply chatter_same. Qed.

Lemma chats_fail {A} f : chats (fail f : fw D X A).
Proof. by intros m a m'. Qed.

Lemma chats_when b c : chats c -> chats (when b c).
Proof. destruct b; [done|intros _; apply chats_ret]. Qed.

Lemma chats_if {A} (b : bool) (c c' : fw D X A) : chats c -> chats c' -> chats (if b then c else c').
Proof. by destruct b. Qed.

Lemma chats_spi b : chats (spi b : fw D X Z).
Proof. intros m a m'. unfold spi. destruct (spi_byte _ _). intros [= _ <-]. by apply chatter_same. Qed.

Lemma chats_error i : chats (pkt_error i : fw D X Z).
Proof.
  intros m a m' [= _ <-]. eexists (str "spi error " ++ fmt_d i ++ [10]). split; [|reflexivity].
  rewrite app_assoc. apply noise_line; [done|auto with plain].
Qed.

Lemma chats_array_get {A} (l : list A) i : chats (array_get l i : fw D X A).
Proof. unfold array_get. repeat case_match; (apply chats_fail || apply chats_ret). Qed.

Lemma chats_array_put {A} (l : list A) i x : chats (array_put l i x : fw D X (list A)).
Proof. unfold array_put. case_match; (apply chats_fail || apply chats_ret). Qed.

(** Walks through a command. *)
Ltac chat :=
  lazymatch goal with
  | |- chats (mbind _ _) => apply chats_bind; [chat|intros; chat]
  | |- chats (when _ _) => apply chats_when; chat
  | |- chats (if _ then _ else _) => apply chats_if; chat
  | |- chats (mret _) => apply chats_ret
  | |- chats (gets _) => apply chats_gets
  | |- chats (rget _) => apply chats_gets
  | |- chats (spi _) => apply chats_spi
  | |- chats (pkt_error _) => apply chats_error
  | |- chats (array_get _ _) => apply chats_array_get
  | |- chats (array_put _ _ _) => apply chats_array_put
  | |- chats (ch_load _) => apply chats_gets
  | |- chats (ch_store ?r _) => apply chats_modify; intros ?; by destruct r
  | |- chats (modify _) => by apply chats_modify
  | |- chats (rput _ _) => by apply chats_modify
  | |- chats (mput _ _) => by apply chats_modify
  | |- chats (pkt_put _ _) => unfold pkt_put; chat
  | |- chats (pkt_get _) => unfold pkt_get; chat
  | |- chats (_setss _) => by apply chats_modify
  | |- _ => by auto
  end.

Lemma chats_write n i : chats (pkt_write n i : fw D X bool).
Proof. revert i. induction n as [|n IH]; intros i; cbn [pkt_write]; chat. Qed.

Lemma chats_read n j : chats (pkt_read n j : fw D X bool).
Proof. revert j. induction n as [|n IH]; intros j; cbn [pkt_read]; chat. Qed.

Lemma chats_poll n r : chats (pkt_poll n r : fw D X Z).
Proof. pose proof chats_read. induction n as [|n IH]; cbn [pkt_poll]; chat. Qed.

Lemma chats_send s r : chats (pkt_send s r : fw D X Z).
Proof. pose proof chats_write. pose proof chats_poll. unfold pkt_send. chat. Qed.

Lemma chats_fifo n : chats (fifo_read n : fw D X (list Z)).
Proof. induction n as [|n IH]; cbn [fifo_read]; chat. Qed.

Lemma chats_recv `{App D X} (r : chanref X) c : chats (libradio_recv r c).
Proof.
  pose proof chats_send. pose proof chats_fifo.
  unfold libradio_recv, libradio_check_rx, libradio_get_fifo_info, libradio_rxpacket, libradio_irq_enable,
    libradio_request_device_status, libradio_set_rx, cli, sei. chat.
Qed.
End chatting.

Section published.
Context {D : Type} `{Platform D} `{Patience}.
Implicit Types m : machine D control.

(** The record of a client, as the controller names it: by its own channel, the node it
    has asked, and the clock of the answer. *)
Definition answering (i t : Z) (m : machine D control) : libradio :=
  zero_libradio <| r_my_channel := r_curr_channel (m_radio m) |>
    <| r_my_node_id := p_node (c_packet (chan_of i (m_app m))) |> <| r_ms_ticks := t |>.

Definition answer_line (i t : Z) (p : packet) (m : machine D control) : list Z :=
  status_text (answering i t m) (hd 0 (p_data p)) (take (Z.to_nat (p_len p) - 1) (tail (p_data p))).

Lemma airborne_take p n :
  packet_ok p -> (n <= Z.to_nat (p_len p) <= 10)%nat -> take n (p_data (airborne p)) = take n (p_data p).
Proof.
  intros Hp Hn. unfold airborne. upd_simpl.
  rewrite take_app_le by (rewrite length_take, (ok_size _ Hp); lia). by rewrite take_take, Nat.min_l by lia.
Qed.

Lemma answer_line_fields i t p m :
  packet_ok p -> 1 <= p_len p <= 10 ->
  str "<" ++ [u8 (r_curr_channel (m_radio m) + 65)] ++ fmt_d (p_node (c_packet (chan_of i (m_app m))))
    ++ str ":" ++ fmt_u t ++ str ":" ++ fmt_d RADIO_STATUS_RESPONSE ++ str ":"
    ++ fields (take (Z.to_nat (p_len p)) (p_data p)) = answer_line i t p m.
Proof.
  intros Hp Hl. pose proof (ok_size _ Hp) as Hs. pose proof (ok_data _ Hp) as Hd.
  unfold answer_line, status_text. destruct (p_data p) as [|b d]; [done|]. inversion Hd; subst.
  replace (Z.to_nat (p_len p)) with (S (Z.to_nat (p_len p) - 1)) by lia. cbn [take hd tail].
  rewrite fields_bytes by by apply Forall_take. by rewrite Nat.sub_succ, Nat.sub_0_r.
Qed.

Lemma wp_txresponse_waiting i t p m :
  0 <= i < 6 -> fw_ok m -> packet_ok p -> is_u16 t -> 1 <= p_len p <= 10 ->
  p_cmd p = RADIO_STATUS_RESPONSE -> frame_waiting (tx_frame (seal t p)) (m_dev m) ->
  wp (txresponse i) (fun _ m' => exists before, noise before /\
    m_out m' = m_out m ++ before ++ answer_line i t p m ++ [10]) m.
Proof.
  intros Hi Hm Hp Ht Hl Hc Hw. unfold txresponse, libradio_get_my_channel.
  rewrite wp_bind, wp_rget, wp_bind, wp_chan_get, wp_bind, wp_print by done.
  set (o := str "RCV from " ++ _).
  assert (noise o) as Ho by (unfold o; rewrite !app_assoc; apply noise_line; [done|];
    repeat apply plain_app; auto with plain).
  clearbody o.
  assert (fw_ok (m <| m_out ::= fun l => l ++ o |>)) as Hm1 by by apply (preserves_print o m).
  rewrite wp_bind. eapply wp_mono.
  { apply wp_run_and; [apply (wp_recv_waiting (chan_ref i) t p); [by apply chan_ref_ok|exact Hm1|done|done|lia| |exact Hw]|].
    - by apply field_get, fw_radio.
    - apply chats_recv. }
  cbv beta. intros v m2 [(->&Hm2&Hpk&_) (o2&Ho2&Eout)]. cbn [Z.eqb chan_ref ch_get] in *.
  rewrite wp_bind, wp_chan_get by done. cbv zeta. rewrite wp_bind, wp_print.
  assert (packet_ok (airborne (seal t p))) as Ha by (rewrite <- Hpk; apply ok_packet, chan_of_ok, (fw_app m2 Hm2)).
  rewrite Hpk, wp_bind. change (p_len (airborne (seal t p))) with (p_len p).
  change (p_ticks (airborne (seal t p))) with t. change (p_cmd (airborne (seal t p))) with (p_cmd p).
  rewrite Hc, max_payload, (proj2 (Z.ltb_ge _ _)) by lia.
  apply wp_print_fields; [done|lia|]. unfold putchar. rewrite wp_print. upd_simpl.
  rewrite (airborne_take (seal t p) (Z.to_nat (p_len p)));
    [|apply seal_ok; done || lia|change (p_len (seal t p)) with (p_len p); lia].
  change (p_data (seal t p)) with (p_data p).
  exists (o ++ o2). split; [by apply noise_app|]. rewrite <- answer_line_fields by done.
  rewrite Eout. upd_simpl. rewrite <- !app_assoc. reflexivity.
Qed.

Lemma plain_fields l : plain (fields l).
Proof.
  unfold fields. assert (plain (flat_map (fun b => str "," ++ fmt_d b) l)) as Hp.
  { induction l as [|b l IH]; [constructor|]. cbn [flat_map]. auto with plain. }
  destruct Hp; [constructor|done].
Qed.

(** The line reads as a line. *)
Lemma answer_line_plain i t p m :
  packet_ok p -> 1 <= p_len p <= 10 -> is_u16 t -> 0 <= r_curr_channel (m_radio m) <= 15 ->
  plain (answer_line i t p m).
Proof.
  intros Hp Hl Ht Hc. rewrite <- answer_line_fields by done.
  repeat apply plain_app; auto with plain; [|apply plain_fmt_u, Ht|apply plain_fields].
  apply Forall_singleton. unfold is_eol. rewrite u8_small by warith. lia.
Qed.
End published.

Section to_daemon.
Context {D1 D2 D3 X : Type} `{Platform D1} `{Platform D2} `{System D3} `{Patience}.
Implicit Types (n : machine D1 X) (m : machine D2 control) (h : host D3).

(** [C13] An answer on its way to the daemon: the status a client transmits goes as sixteen
    bytes into the FIFO of its radio; a controller that finds those bytes while it waits
    for the answer of channel [i] prints them on its serial line, among whatever else it
    has to say; and the daemon, which reads all of that from the beginning of a line on,
    finds complete lines, and in them the channel the controller listens on, the node it
    has asked, the clock of the client and the bytes of the status, once, and carries its
    conversation on. *)
Theorem answer_published (r : chanref X) n :
  let p := c_packet (ch_get r n) in
  let t := r_ms_ticks (m_radio n) in
  lawful r -> packet_ok p -> 1 <= p_len p <= 10 -> p_cmd p = RADIO_STATUS_RESPONSE -> is_u16 t ->
  exists frame, length frame = 16%nat /\
  wp (libradio_txpacket r) (fun v n' => v = 1 /\
    m_dev n' = (selected (SI4463_WRITE_TX_FIFO :: frame) (m_dev n)).2) n /\
  forall i m h,
    let c := r_curr_channel (m_radio m) in
    let node := p_node (c_packet (chan_of i (m_app m))) in
    0 <= i < 6 -> fw_ok m -> 0 <= c <= 15 -> frame_waiting frame (m_dev m) ->
    wp (txresponse i) (fun _ m' => exists said ls,
      m_out m' = m_out m ++ said /\ lines_from [] said = (ls, []) /\
      parse_all ls h =
        (hput h_failure_status 0;;
         response c node t (fields (take (Z.to_nat (p_len p)) (p_data p)));;
         state_machine) h) m.
Proof.
  intros p t Hr Hp Hl Hc Ht. exists (tx_frame (seal t p)).
  pose proof (ok_size _ Hp) as Hs. pose proof (ok_data _ Hp) as Hd.
  split; [apply tx_frame_length; [apply seal_ok; done || lia|exact (proj2 Hl)]|].
  split; [apply wp_tx_frame; [done|fold p; lia]|].
  intros i m h c node Hi Hm Hch Hw.
  pose proof (chan_of_ok i _ (fw_app m Hm)) as Hci. pose proof (ok_node _ (ok_packet _ Hci)) as Hnode.
  eapply wp_mono; [by apply (wp_txresponse_waiting i t p)|]. intros _ m' (before&(ls&Els&Hls)&Eout).
  pose proof (answer_line_plain i t p m Hp Hl Ht Hch) as Hpl.
  exists (before ++ answer_line i t p m ++ [10]), (ls ++ [answer_line i t p m]).
  split; [exact Eout|]. split; [rewrite lines_from_app, Els, lines_from_line by done; done|].
  rewrite parse_ignored by done. clear Hpl Els Eout.
  unfold answer_line. destruct (p_data p) as [|b d]; [done|].
  inversion Hd as [|? ? Hb Hd']; subst. cbn [hd tail].
  assert (bytes (take (Z.to_nat (p_len p) - 1) d)) as Hds by by apply Forall_take.
  rewrite (parse_status (answering i t m) b (take (Z.to_nat (p_len p) - 1) d) h); [|done|done|done| |apply Hb].
  - replace (take (Z.to_nat (p_len p)) (b :: d)) with (b :: take (Z.to_nat (p_len p) - 1) d)
      by (replace (Z.to_nat (p_len p)) with (S (Z.to_nat (p_len p) - 1)) at 2 by lia; done).
    by rewrite fields_bytes.
  - eapply Forall_impl; [exact Hds|]. intros v Hv. apply Hv.
Qed.
End to_daemon.

(** ** From the daemon to a client *)

Section queueing.
Context {P D : Type} `{Platform P} `{Patience} `{System D}.
Implicit Types (m : machine P control) (h : host D).

(** What the line makes of a channel when the controller passes the packet on. *)
Definition handed_on (node cmd : Z) (data : list Z) (c : channel) : channel :=
  c <| c_state := LIBRADIO_CHSTATE_ADDING |> <| c_packet ::= read_packet node cmd data |>.

(** A line of the daemon for another node is read and queued. *)
Lemma line_queued i node cmd data m q :
  0 <= i < 6 -> is_u8 node -> is_u8 cmd -> bytes data -> (length data <= 10)%nat ->
  fw_ok m -> r_state (m_radio m) = LIBRADIO_STATE_ACTIVE -> r_my_node_id (m_radio m) <> node ->
  k_state (m_app m) = IO_STATE_NEWLINE -> c_state (chan_of i (m_app m)) <= LIBRADIO_CHSTATE_EMPTY ->
  m_iqueue m = command_text i node cmd data ++ q ->
  exists m', process_inputs (length (command_text i node cmd data)) m = Done tt m' /\ fw_ok m' /\ m_iqueue m' = q /\
    chan_of i (m_app m') = queued i (handed_on node cmd data (chan_of i (m_app m))).
Proof.
  intros Hi Hn Hc Hd Hl Hm Ha Hme Hs He Hq.
  rewrite (command_is_packet_text i) in * by (done || apply Hn || apply Hc || by apply bytes_nonneg).
  pose proof (chan_of_ok i _ (fw_app m Hm)) as Hch. pose proof (ok_packet _ Hch) as Hp.
  rewrite (read_text i node cmd data m q) by (done || lia).
  set (st := if decide (data = []) then _ else _).
  set (k1 := typed i st 0 (read_packet node cmd data (c_packet (chan_of i (m_app m)))) (m_app m)).
  assert (chan_of i k1 = handed_on node cmd data (chan_of i (m_app m))) as Ek.
  { unfold k1. rewrite chan_of_typed by done. unfold handed_on. by destruct (chan_of i (m_app m)). }
  assert (control_ok k1) as Hk1.
  { apply typed_ok; [done|unfold st; by case_decide|done|by apply read_packet_ok|apply (fw_app m Hm)]. }
  clearbody k1. set (m1 := m <| m_iqueue := q |> <| m_app := k1 |>).
  assert (fw_ok m1) as Hm1.
  { pose proof (fw_queue m Hm) as Hqb. rewrite Hq in Hqb. apply bytes_app in Hqb as [_ Hqb].
    destruct Hm. by split. }
  assert (is_local (m_radio m1) (c_packet (chan_of i (m_app m1))) = false) as Hloc.
  { change (m_app m1) with k1. rewrite Ek. unfold is_local. change (m_radio m1) with (m_radio m).
    change (p_node (c_packet (handed_on _ _ _ _))) with node. rewrite Ha.
    rewrite (proj2 (Z.eqb_neq node _)) by congruence. by rewrite andb_false_r. }
  assert (safe (enqueue i;; kput k_state IO_STATE_WAITNL) (fun _ => fw_ok) m1) as Hsafe.
  { rewrite safe_bind. eapply safe_mono; [apply preserves_enqueue; [done|exact Hm1|]|].
    - cbv zeta. rewrite Hloc. done.
    - intros ? m2 Hm2. cbv beta. by apply preserves_kstate. }
  destruct (enqueue_remote i m1) as [note Hrun]; [done|by apply (chan_of_ok i k1)|exact Hloc|].
  unfold safe in Hsafe. erewrite bind_done in Hsafe |- * by exact Hrun. eexists. split; [reflexivity|].
  split; [exact Hsafe|]. split; [reflexivity|].
  upd_simpl. unfold after_enqueue. change (m_radio m1) with (m_radio m). rewrite Ha.
  change (m_app m1) with k1. rewrite <- Ek.
  change (chan_of i (with_chan i (queued i (chan_of i k1)) k1) = queued i (chan_of i k1)).
  by apply chan_of_with.
Qed.
End queueing.

(** Whose packet it is. *)
Definition identified (c1 c2 n1 n2 : Z) (l : libradio) : Prop :=
  r_cat1 l = c1 /\ r_cat2 l = c2 /\ r_num1 l = n1 /\ r_num2 l = n2.

Lemma obeyed_activation t p c node c1 c2 n1 n2 l :
  packet_ok p -> identified c1 c2 n1 n2 l ->
  let l' := obeyed t (read_packet 0 RADIO_CMD_ACTIVATE [c; node; c1; c2; n1; n2] p) l in
  r_state l' = LIBRADIO_STATE_ACTIVE /\ r_my_channel l' = c /\ r_my_node_id l' = node /\ r_ms_ticks l' = t.
Proof.
  intros Hp (<-&<-&<-&<-) l'. pose proof (ok_size _ Hp) as Hs. subst l'.
  destruct p as [k nn cm len x d]. cbn in Hs. do 6 (destruct d as [|? d]; [done|]). clear Hs Hp.
  match goal with |- context [obeyed t ?p l] => set (pp := p) end.
  set (l1 := heard t pp l <| r_my_channel := c |> <| r_my_node_id := node |>).
  assert (obeyed t pp l = if (r_cat1 l =? r_cat1 l) && (r_cat2 l =? r_cat2 l) && (r_num1 l =? r_num1 l)
    && (r_num2 l =? r_num2 l) then state_set LIBRADIO_STATE_ACTIVE l1 else heard t pp l) as -> by reflexivity.
  rewrite !Z.eqb_refl. cbn [andb]. unfold state_set.
  change (r_state l1) with (r_state l). destruct (Z.eqb_spec (r_state l) LIBRADIO_STATE_ACTIVE) as [E|_];
    [exact (conj E (conj eq_refl (conj eq_refl eq_refl)))|repeat split; reflexivity].
Qed.

Section activation.
Context {P D D2 X : Type} `{Platform P} `{System D} `{Platform D2}.
Context `{StockPower D2 X, !AppInv X} `{Patience}.
Implicit Types (m : machine P control) (h : host D) (n : machine D2 X).

(** The line in which the daemon asks for a client is read by an active controller and
    queued on channel 0 with a priority. *)
Lemma activation_queued (c node c1 c2 n1 n2 : Z) h :
  let data := [c; node; c1; c2; n1; n2] in
  bytes data ->
  safe (client_activate data 6) (fun _ h' =>
    exists text, h_sent h' = h_sent h ++ text ++ [13; 10] /\
    forall m q, fw_ok m -> r_state (m_radio m) = LIBRADIO_STATE_ACTIVE -> r_my_node_id (m_radio m) <> 0 ->
      k_state (m_app m) = IO_STATE_NEWLINE -> c_state (chan_of 0 (m_app m)) <= LIBRADIO_CHSTATE_EMPTY ->
      m_iqueue m = text ++ q ->
      exists m1, process_inputs (length text) m = Done tt m1 /\ fw_ok m1 /\ m_iqueue m1 = q /\
      c_state (chan_of 0 (m_app m1)) = LIBRADIO_CHSTATE_TRANSMIT /\ 0 < c_priority (chan_of 0 (m_app m1)) /\
      exists p0, packet_ok p0 /\ c_packet (chan_of 0 (m_app m1)) = read_packet 0 RADIO_CMD_ACTIVATE data p0) h.
Proof.
  intros data Hb. unfold client_activate.
  eapply safe_mono; [apply (safe_send_command 0 0 RADIO_CMD_ACTIVATE data); cbn; lia|].
  intros ? h' [d ->]. exists (command_text 0 0 RADIO_CMD_ACTIVATE data). split; [done|].
  intros m q Hm Ha Hme Hs He Hq.
  destruct (line_queued 0 0 RADIO_CMD_ACTIVATE data m q) as (m1&Hrun&Hm1&Hq1&Hch); try done; [cbn; lia|].
  exists m1. split; [exact Hrun|]. split; [exact Hm1|]. split; [exact Hq1|]. rewrite Hch.
  pose proof (chan_of_ok 0 _ (fw_app m Hm)) as [_ Hpr Hp].
  split; [done|]. split.
  { unfold queued, handed_on. upd_simpl. unfold is_u8 in Hpr. destruct (Z.eqb_spec (c_priority (chan_of 0 (m_app m))) 0); [lia|].
    destruct (_ <? _); lia. }
  exists (c_packet (chan_of 0 (m_app m))). split; [exact Hp|reflexivity].
Qed.

(** A client is activated end to end: the line in which the daemon asks for it is
    read by an active controller and queued on channel 0 with a priority, for the
    transmit queues to send; when the controller, then or later, transmits that
    packet, it is sixteen bytes in the FIFO of its radio; and of the clients whose
    radio holds those bytes the one with the category and number of the line becomes
    ACTIVE, with the channel, the node and the clock it has been given. *)
Theorem client_activated (c node c1 c2 n1 n2 : Z) h :
  bytes [c; node; c1; c2; n1; n2] ->
  safe (client_activate [c; node; c1; c2; n1; n2] 6) (fun _ h' =>
    exists text, h_sent h' = h_sent h ++ text ++ [13; 10] /\
    forall m q, fw_ok m -> r_state (m_radio m) = LIBRADIO_STATE_ACTIVE -> r_my_node_id (m_radio m) <> 0 ->
      k_state (m_app m) = IO_STATE_NEWLINE -> c_state (chan_of 0 (m_app m)) <= LIBRADIO_CHSTATE_EMPTY ->
      m_iqueue m = text ++ q ->
      exists m1, process_inputs (length text) m = Done tt m1 /\ fw_ok m1 /\ m_iqueue m1 = q /\
      c_state (chan_of 0 (m_app m1)) = LIBRADIO_CHSTATE_TRANSMIT /\ 0 < c_priority (chan_of 0 (m_app m1)) /\
      forall m2, fw_ok m2 -> c_packet (chan_of 0 (m_app m2)) = c_packet (chan_of 0 (m_app m1)) ->
      exists frame, length frame = 16%nat /\
      wp (libradio_txpacket (chan_ref 0)) (fun v m3 => v = 1 /\
        m_dev m3 = (selected (SI4463_WRITE_TX_FIFO :: frame) (m_dev m2)).2) m2 /\
      forall n, fw_ok n -> frame_waiting frame (m_dev n) -> identified c1 c2 n1 n2 (m_radio n) ->
        wp libradio_handle_packet (fun _ n' => fw_ok n' /\
          r_state (m_radio n') = LIBRADIO_STATE_ACTIVE /\ r_my_channel (m_radio n') = c /\
          r_my_node_id (m_radio n') = node /\ r_ms_ticks (m_radio n') = r_ms_ticks (m_radio m2)) n) h.
Proof.
  intros Hb. set (data := [c; node; c1; c2; n1; n2]) in *.
  eapply safe_mono; [by apply (activation_queued c node c1 c2 n1 n2 h)|].
  intros ? h' (text&Hsent&Hread). exists text. split; [exact Hsent|].
  intros m q Hm Ha Hme Hs He Hq.
  destruct (Hread m q Hm Ha Hme Hs He Hq) as (m1&Hrun&Hm1&Hq1&Hst&Hpr&p0&Hp&Hc).
  exists m1. split; [exact Hrun|]. split; [exact Hm1|]. split; [exact Hq1|]. split; [exact Hst|]. split; [exact Hpr|].
  intros m2 Hm2 Hpk. rewrite Hc in Hpk. fold data in Hpk.
  destruct (command_travels (X2 := X) (D2 := D2) (chan_ref 0) m2) as (frame&Hlen&Htx&Hrx).
  { by apply chan_ref_lawful. }
  { apply (ok_packet _ (chan_of_ok 0 _ (fw_app m2 Hm2))). }
  1-2: change (ch_get (chan_ref 0) m2) with (chan_of 0 (m_app m2)); by rewrite Hpk.
  { by apply field_get, fw_radio. }
  exists frame. split; [exact Hlen|]. split; [exact Htx|].
  intros n Hn Hw Hid. eapply wp_mono; [exact (Hrx n Hn Hw)|]. cbv beta. intros _ n' [Hn' Hto].
  split; [exact Hn'|]. change (ch_get (chan_ref 0) m2) with (chan_of 0 (m_app m2)) in Hto. rewrite Hpk in Hto.
  pose proof (obeyed_activation (r_ms_ticks (m_radio m2)) _ c node _ _ _ _ _ Hp Hid) as E.
  cbv zeta in E. fold data in E. revert Hto E.
  match goal with |- context [told (obeyed ?t ?p ?l)] => generalize (obeyed t p l) end.
  generalize (m_radio n'). intros l' lo Hto (E1&E2&E3&E4).
  rewrite <- E1, <- E2, <- E3, <- E4.
  split_and!; match goal with |- ?f _ = _ => apply (f_equal f) in Hto; exact Hto end.
Qed.
End activation.

(** ** Instances of the properties *)

#[local] Existing Instance bench_app.
#[local] Existing Instance bench_inv.
#[local] Existing Instance bench_stock.
#[local] Instance air_patience : Patience := 10%nat.

(** What the chip of a node replies when [f] is in its receive FIFO. *)
Definition air_script (f : list Z) : list Z := [0; 0; 0; 255; 16; 0; 0] ++ f.

Lemma air_script_waiting f : length f = 16%nat -> frame_waiting f (air_script f).
Proof.
  intros Hf. do 16 (destruct f as [|? f]; [done|]). destruct f; [|done].
  split; [by repeat constructor|]. exists 0%nat, 0. cbv zeta. cbn [Nat.iter].
  split; [lia|]. split; [intros i Hi; lia|]. split; [by exists 0|]. by split_and!.
Qed.

(** A sender with [p] in its transmit channel, a client and a controller with [f] in the
    FIFO. *)
Definition air_sender (p : packet) : machine (list Z) unit :=
  (bench_machine [] []) <| m_txchan := zero_channel <| c_packet := p |> |>
    <| m_radio := (m_radio (bench_machine [] [])) <| r_ms_ticks := 1234 |> |>.

Definition air_client (f : list Z) : machine (list Z) unit := bench_machine (air_script f) [].

Definition air_control (f : list Z) : machine (list Z) control :=
  (bench_control bench_objects []) <| m_dev := air_script f |>.

Lemma air_control_ok f : fw_ok (air_control f).
Proof.
  pose proof (bench_control_ok bench_objects [] bench_objects_ok (Forall_nil_2 _)) as Hm.
  unfold air_control. revert Hm. generalize (bench_control bench_objects []). by intros m [].
Qed.

Lemma command_over_air_witness :
  exists frame, length frame = 16%nat /\
    wp libradio_handle_packet (fun _ n' => r_date (m_radio n') = 300 /\ r_ms_ticks (m_radio n') = 1234)
      (air_client frame).
Proof.
  destruct (command_over_air (X2 := unit) TxChan (air_sender (bench_cmd RADIO_CMD_SET_DATE 2 [1; 44])))
    as (frame&Hlen&_&Hrx);
    [done|apply bench_cmd_ok; [done|done|bytes_cons]|done|done|done|].
  exists frame. split; [exact Hlen|].
  eapply wp_mono; [apply (Hrx (air_client frame)); [by apply bench_machine_ok|by apply air_script_waiting]|].
  intros _ n' [_ Hto]. revert Hto. generalize (m_radio n'). intros l Hto.
  split; [apply (f_equal r_date) in Hto|apply (f_equal r_ms_ticks) in Hto]; exact Hto.
Defined.

(** A controller at 14:30, and 21.932 seconds. *)
Definition air_clock : machine (list Z) control :=
  (bench_control bench_objects []) <| m_radio ::= fun l => l <| r_ms_ticks := 21932 |> <| r_tens_of_minutes := 87 |> |>.

Lemma air_clock_ok : fw_ok air_clock.
Proof.
  pose proof (bench_control_ok bench_objects [] bench_objects_ok (Forall_nil_2 _)) as Hm.
  pose proof (fw_radio _ Hm) as Hl. pose proof (fw_periods _ Hm) as Hp.
  unfold air_clock. apply fw_ok_radio; [exact Hm|..]; revert Hl Hp; generalize (m_radio (bench_control bench_objects []));
    intros l Hl Hp; [|destruct Hp; split; assumption].
  apply field_put; [apply field_put; [exact Hl|done]|done].
Qed.

Lemma clock_reaches_client_witness :
  exists frame, length frame = 16%nat /\
    wp libradio_handle_packet (fun _ n' =>
      r_tens_of_minutes (m_radio n') = 87 /\ r_ms_ticks (m_radio n') = 21932) (air_client frame).
Proof.
  destruct (clock_reaches_client (X := unit) 0 air_clock) as (frame&Hlen&_&Hrx); [done|apply air_clock_ok|].
  exists frame. split; [exact Hlen|].
  eapply wp_mono; [apply (Hrx (air_client frame)); [by apply bench_machine_ok|done|by apply air_script_waiting]|].
  intros _ n' (_&Hms&Htom&_). split; [exact Htom|exact Hms].
Defined.

Lemma answer_published_witness :
  exists frame, length frame = 16%nat /\
    wp (txresponse 1) (fun _ m' => exists said ls,
      m_out m' = m_out (air_control frame) ++ said /\ lines_from [] said = (ls, []) /\
      parse_all ls bench_daemon =
        (hput h_failure_status 0;; response 0 0 1234 (str "1,9,7");; state_machine) bench_daemon) (air_control frame).
Proof.
  destruct (answer_published (D2 := list Z) (D3 := list (list Z)) TxChan
      (air_sender (bench_cmd RADIO_STATUS_RESPONSE 3 [1; 9; 7])))
    as (frame&Hlen&_&Hrx); [done|apply bench_cmd_ok; [done|done|bytes_cons]|done|done|done|].
  exists frame. split; [exact Hlen|].
  apply (Hrx 1 (air_control frame) bench_daemon); [done|apply air_control_ok|done|by apply air_script_waiting].
Defined.

(** The line that activates node 9 on channel 3. *)
Definition activation_line : list Z := str ">A0:3:3,9,0,0,0,0.".

Lemma client_activated_witness :
  exists h' m1 frame,
    client_activate [3; 9; 0; 0; 0; 0] 6 bench_daemon = Done tt h' /\ h_sent h' = activation_line ++ [13; 10] /\
    process_inputs (length activation_line) (bench_control bench_objects activation_line) = Done tt m1 /\
    wp libradio_handle_packet (fun _ n' => r_state (m_radio n') = LIBRADIO_STATE_ACTIVE /\
      r_my_channel (m_radio n') = 3 /\ r_my_node_id (m_radio n') = 9) (air_client frame).
Proof.
  assert (bytes [3; 9; 0; 0; 0; 0]) as Hb by bytes_cons.
  pose proof (client_activated (P := list Z) (D2 := list Z) (X := unit) 3 9 0 0 0 0 bench_daemon Hb) as Hs.
  set (h' := bench_daemon <| h_sent := activation_line ++ [13; 10] |>).
  assert (client_activate [3; 9; 0; 0; 0; 0] 6 bench_daemon = Done tt h') as E by (vm_compute; reflexivity).
  unfold safe in Hs. rewrite E in Hs. destruct Hs as (text&Ht&Hall).
  assert (text = activation_line) as ->.
  { change (activation_line ++ [13; 10] = text ++ [13; 10]) in Ht. by apply app_inv_tail in Ht. }
  destruct (Hall (bench_control bench_objects activation_line) []) as (m1&Hrun&Hm1&_&_&_&Htx);
    [apply bench_control_ok; [apply bench_objects_ok|unfold activation_line; by bytes_cons]|done|done|done|done|
     by rewrite app_nil_r|].
  destruct (Htx m1 Hm1 eq_refl) as (frame&Hlen&_&Hrx).
  exists h', m1, frame. split; [exact E|]. split; [reflexivity|]. split; [exact Hrun|].
  eapply wp_mono; [apply (Hrx (air_client frame)); [by apply bench_machine_ok|by apply air_script_waiting|repeat split; reflexivity]|].
  intros _ n' (_&H1&H2&H3&_). exact (conj H1 (conj H2 H3)).
Defined.
