(* ===== verification/AirLoop.v ===== *)
(** A client in its main loop: passes of [libradio_rxloop] that end with a packet from the
    controller, from the wait for the interrupt of the radio to the change of state. *)

From S2P Require Import Machine Clock State Spi Invariant Si4463 Wait Rxtx Command Loop Boot Control CtlCommand CtlQueue CtlInput CtlMain.
From S2P Require Import Lrmon LrCommand LrState LrInput Link Air.

From S2P Require Import Spi.

#[local] Open Scope Z_scope.

(** ** The switch of the loop depends on the settings only *)

Lemma settled_mode s : settled (mode_after s).
Proof.
  intros l. unfold mode_after. cbv zeta. destruct l. destruct (_ || _); [reflexivity|].
  destruct (s =? LIBRADIO_STATE_LISTEN); [reflexivity|]. destruct (s =? LIBRADIO_STATE_ERROR); reflexivity.
Qed.

(** The timeout of an active device, and what happens when it is over. *)
Definition traffic (l : libradio) : libradio := l <| r_timeout := 60000 |> <| r_saw_rx := 0 |>.

Definition count_down (l : libradio) : libradio := l <| r_timeout := u16 (r_timeout l - 1) |>.

Definition doze_off (l : libradio) : libradio :=
  if r_timeout l =? 0 then mode_after LIBRADIO_STATE_WARM l else l.

Lemma settled_traffic : settled traffic.
Proof. intros []. reflexivity. Qed.

Lemma settled_count_down : settled count_down.
Proof. intros []. reflexivity. Qed.

Lemma settled_give_up : settled doze_off.
Proof.
  intros l. unfold doze_off. change (r_timeout (told l)) with (r_timeout l).
  destruct (_ =? 0); [apply settled_mode|destruct l; reflexivity].
Qed.

Lemma loop_next_cases l :
  loop_next l =
    if r_state l =? LIBRADIO_STATE_ERROR then mode_after LIBRADIO_STATE_WARM l
    else if (r_state l =? LIBRADIO_STATE_STARTUP) || asleep l then mode_after LIBRADIO_STATE_LISTEN l
    else if r_state l =? LIBRADIO_STATE_LISTEN then l
    else doze_off (count_down (if negb (r_saw_rx l =? 0) then traffic l else l)).
Proof. reflexivity. Qed.

Lemma settled_loop_next : settled loop_next.
Proof.
  intros l. rewrite !loop_next_cases. unfold asleep. change (r_state (told l)) with (r_state l).
  destruct (r_state l =? LIBRADIO_STATE_ERROR); [apply settled_mode|].
  destruct (_ || _); [apply settled_mode|].
  destruct (r_state l =? LIBRADIO_STATE_LISTEN); [destruct l; reflexivity|].
  pose proof (settled_comp _ _ settled_count_down settled_give_up) as Hs.
  change (r_saw_rx (told l)) with (r_saw_rx l).
  destruct (negb _); [exact (settled_comp _ _ settled_traffic Hs l)|exact (Hs l)].
Qed.

(** ** A pass with a packet *)

Section pass.
Context {D X : Type} `{Platform D} `{StockPower D X, !AppInv X} `{Patience}.
Implicit Types m : machine D X.

Lemma wp_delay_ok m :
  fw_ok m -> fw_ok (m <| m_radio := with_delay 5 (m_radio m) |> <| m_sreg_i := true |>).
Proof.
  intros Hm. pose proof (preserves_libradio_set_delay 5 ltac:(done) m Hm) as Hs.
  pose proof (wp_libradio_set_delay 5 (fun _ m' => m' = m <| m_radio := with_delay 5 (m_radio m) |> <| m_sreg_i := true |>) m) as Hw.
  assert (wp (libradio_set_delay 5) (fun _ m' => m' = m <| m_radio := with_delay 5 (m_radio m) |> <| m_sreg_i := true |>) m)
    as Hrun by by rewrite Hw.
  pose proof (wp_safe _ _ _ _ Hrun Hs) as Hb. apply wp_done in Hb as (_&m'&_&->&Hok). exact Hok.
Qed.

(** The packet is fetched and obeyed, and the interrupt of the radio enabled again. *)
Lemma wp_loop_receive t p m :
  fw_ok m -> packet_ok p -> is_u16 t -> p_len p <= 10 -> record_command (p_cmd p) = true ->
  frame_waiting (tx_frame (seal t p)) (m_dev m) ->
  wp loop_receive (fun _ m' => fw_ok m' /\
    told (m_radio m') = told (obeyed t p (with_delay 5 (m_radio m)))) m.
Proof.
  intros Hm Hp Ht Hl Hc Hw. unfold loop_receive. rewrite wp_bind, wp_libradio_set_delay.
  pose proof (wp_delay_ok m Hm) as Hm1. set (m1 := m <| m_radio := _ |> <| m_sreg_i := true |>) in *.
  rewrite wp_bind. eapply wp_mono; [by apply (wp_handle_waiting t p m1)|]. cbv beta.
  intros _ m2 [Hm2 Ht2]. rewrite wp_bind. eapply wp_mono; [by apply query_get_int_status|]. cbv beta.
  intros _ m3 [Hm3 Hq]. rewrite wp_libradio_irq_enable. split; [by apply fw_ok_irq_machine|].
  rewrite told_irq, (told_query m2 m3 Hq). exact Ht2.
Qed.

(** A pass that the interrupt of the radio has ended the wait of. *)
Lemma wp_pass_woken t p status m m1 :
  libradio_wait m = Done status m1 -> Z.land status LIBRADIO_WAIT_RXINT <> 0 ->
  fw_ok m1 -> packet_ok p -> is_u16 t -> p_len p <= 10 -> record_command (p_cmd p) = true ->
  frame_waiting (tx_frame (seal t p)) (m_dev m1) ->
  wp libradio_rxloop (fun _ m' => fw_ok m' /\
    told (m_radio m') = told (loop_next (obeyed t p (with_delay 5 (m_radio m1))))) m.
Proof.
  intros Hrun Hst Hm Hp Ht Hl Hc Hw. unfold libradio_rxloop. rewrite (wp_bind_run _ _ _ _ _ _ Hrun).
  rewrite (proj2 (Z.eqb_neq _ _) Hst). cbn [negb when].
  rewrite wp_bind. eapply wp_mono; [by apply (wp_loop_receive t p m1)|]. cbv beta.
  intros _ m2 [Hm2 Ht2]. eapply wp_mono; [by apply wp_loop_state|]. cbv beta.
  intros _ m3 (Hm3&_&El). split; [exact Hm3|]. rewrite El.
  apply (settled_eq _ _ _ settled_loop_next). exact Ht2.
Qed.

(** A pass of a listening client that the timer has ended the wait of. *)
Lemma wp_pass_idle status m m1 :
  libradio_wait m = Done status m1 -> Z.land status LIBRADIO_WAIT_RXINT = 0 ->
  r_state (m_radio m1) = LIBRADIO_STATE_LISTEN -> libradio_rxloop m = Done tt m1.
Proof.
  intros Hrun Hst Hs. unfold libradio_rxloop. rewrite (bind_done _ _ _ _ _ Hrun), Hst.
  cbn [Z.eqb negb when]. rewrite (bind_done _ _ m1 tt m1) by done. unfold loop_state, rget. rewrite run_gets, Hs.
  reflexivity.
Qed.

(** *** The ticks before the packet *)

(** The record without its clocks. *)
Definition unclocked (l : libradio) : libradio :=
  l <| r_tens_of_minutes := 0 |> <| r_ms_ticks := 0 |> <| r_heart_beat := 0 |> <| r_all_ticks := 0 |>
    <| r_main_ticks := 0 |> <| r_tick_count := 0 |>.

Lemma unclocked_delay d l : unclocked (with_delay d l) = unclocked l.
Proof. unfold with_delay. destruct l. destruct (_ =? 0); reflexivity. Qed.

(** What the timer leaves alone. *)
Definition still m := (m_dev m, m_eimsk m, m_irq_fired m, m_iqueue m, unclocked (m_radio m)).

Lemma still_tick m : still (tick_machine m) = still m.
Proof. unfold still, tick_machine. upd_simpl. generalize (m_radio m). intros []. reflexivity. Qed.

Lemma still_ticks k m : still (Nat.iter k tick_machine m) = still m.
Proof. induction k as [|k IH]; [done|]. by rewrite Nat.iter_succ, still_tick. Qed.

(** A listening client, [j] ticks before the radio tells it of the frame [f]. *)
Record awaits (f : list Z) (j : nat) (rest : list event) m : Prop := {
  aw_ok : fw_ok m;
  aw_state : r_state (m_radio m) = LIBRADIO_STATE_LISTEN;
  aw_irq : m_irq_fired m = 0;
  aw_queue : m_iqueue m = [];
  aw_enabled : Z.testbit (m_eimsk m) 0 = true;
  aw_events : m_events m = replicate j Tick ++ RadioIrq :: rest;
  aw_frame : frame_waiting f (m_dev m)
}.

Lemma awaits_ticks f j rest k m :
  awaits f j rest m -> (k <= j)%nat ->
  let m' := absorbs (take k (m_events m)) (drop k (m_events m)) m in
  m' = (Nat.iter k tick_machine m) <| m_events := replicate (j - k) Tick ++ RadioIrq :: rest |> /\
  awaits f (j - k) rest m' /\ still m' = still m.
Proof.
  intros [Hm Hs Hi Hq He Hev Hf] Hk m'.
  assert (m' = (Nat.iter k tick_machine m) <| m_events := replicate (j - k) Tick ++ RadioIrq :: rest |>) as E.
  { unfold m', absorbs. rewrite Hev, take_app_le, drop_app_le by (rewrite length_replicate; lia).
    by rewrite take_replicate, drop_replicate, Nat.min_l, after_ticks by lia. }
  assert (fw_ok m') as Hok.
  { apply fw_ok_absorbs; [apply Forall_take, Hm|apply Forall_drop, Hm|exact Hm]. }
  split; [exact E|]. clearbody m'. subst m'.
  pose proof (still_ticks k m) as Hst. set (mk := Nat.iter k tick_machine m) in *. clearbody mk.
  pose proof (f_equal (fun x => x.1.1.1.1) Hst) as E1. pose proof (f_equal (fun x => x.1.1.1.2) Hst) as E2.
  pose proof (f_equal (fun x => x.1.1.2) Hst) as E3. pose proof (f_equal (fun x => x.1.2) Hst) as E4.
  pose proof (f_equal snd Hst) as E5. cbn [still fst snd] in E1, E2, E3, E4, E5. split.
  - split; [exact Hok|..]; upd_simpl.
    + apply (f_equal r_state) in E5. change (r_state (m_radio mk) = r_state (m_radio m)) in E5. congruence.
    + congruence.
    + congruence.
    + congruence.
    + reflexivity.
    + rewrite E1. exact Hf.
  - exact Hst.
Qed.

Lemma cut_behind {A} (l : list A) x r :
  take (S (length l)) (l ++ x :: r) = l ++ [x] /\ drop (S (length l)) (l ++ x :: r) = r /\
  take (length l) (l ++ x :: r) = l.
Proof. induction l as [|y l (IH1&IH2&IH3)]; [done|]. cbn in *. by rewrite IH1, IH2, IH3. Qed.

(** After the ticks the interrupt of the radio is a reason to wake up, before it only
    the timer is. *)
Lemma awaits_wake f rest m : awaits f 0 rest m -> m_irq_fired (absorb RadioIrq m) = 1.
Proof. intros [_ _ Hi _ He _ _]. unfold absorb. rewrite He. upd_simpl. by rewrite Hi. Qed.

Lemma awaits_status f j rest m :
  awaits f j rest m -> wake_status m = if m_thread_ok m =? 0 then 0 else LIBRADIO_WAIT_TIMER.
Proof.
  intros [_ _ Hi Hq _ _ _]. unfold wake_status. rewrite Hi, Hq, bool_decide_eq_true_2 by done.
  by destruct (m_thread_ok m =? 0).
Qed.

(** The first pass: it ends with the timer, or with the packet. *)
Lemma awaits_pass t p j rest m :
  packet_ok p -> is_u16 t -> p_len p <= 10 -> record_command (p_cmd p) = true ->
  awaits (tx_frame (seal t p)) j rest m ->
  (exists k m', (k <= j)%nat /\ (k = 0%nat -> m_thread_ok m <> 0) /\ libradio_rxloop m = Done tt m' /\
     awaits (tx_frame (seal t p)) (j - k) rest m' /\ m_thread_ok m' = 0 /\
     unclocked (m_radio m') = unclocked (m_radio m)) \/
  wp libradio_rxloop (fun _ m' => fw_ok m' /\ exists l, unclocked l = unclocked (m_radio m) /\
    told (m_radio m') = told (loop_next (obeyed t p l))) m.
Proof.
  intros Hp Ht Hl Hc Ha. pose proof (wait_loop_run (m_events m) m) as Hrun.
  assert (m <| m_events := m_events m |> = m) as E by by destruct m. rewrite E in Hrun.
  assert (length (m_events m) = (j + S (length rest))%nat) as Hlen.
  { rewrite (aw_events _ _ _ _ Ha), length_app, length_replicate. done. }
  set (at_ k := absorbs (take k (m_events m)) (drop k (m_events m)) m).
  assert (at_ (S j) = (absorb RadioIrq (at_ j)) <| m_events := rest |>) as Elast.
  { unfold at_, absorbs. rewrite (aw_events _ _ _ _ Ha).
    destruct (cut_behind (replicate j Tick) RadioIrq rest) as (E1&E2&E3). rewrite length_replicate in E1, E2, E3.
    rewrite E1, E2, E3.
    unfold after. rewrite foldl_app. cbn [foldl]. rewrite absorb_set_events.
    by destruct (absorb RadioIrq _). }
  destruct (awaits_ticks _ _ _ j m Ha (le_n j)) as (_&Haj&Hsj). fold (at_ j) in Haj, Hsj.
  rewrite Nat.sub_diag in Haj. pose proof (awaits_wake _ _ _ Haj) as Hirq.
  assert (m_irq_fired (at_ (S j)) = 1) as Hirq' by (rewrite Elast; exact Hirq).
  assert (wake_status (at_ (S j)) <> 0) as Hwl by (intros [Hz _]%wake_status_zero; by rewrite Hirq' in Hz).
  destruct Hrun as [(k&Hk&Hwk&Hbefore&Hr)|[Hnone _] ].
  2: { exfalso. apply Hwl, Hnone. lia. }
  fold (at_ k) in Hwk, Hr. change (libradio_wait m = Done (wake_status (at_ k)) ((at_ k) <| m_thread_ok := 0 |>)) in Hr.
  destruct (decide (k <= j)%nat) as [Hkj|Hkj].
  - left. destruct (awaits_ticks _ _ _ k m Ha Hkj) as (_&Hak&Hsk). fold (at_ k) in Hak, Hsk.
    exists k, ((at_ k) <| m_thread_ok := 0 |>). split; [exact Hkj|]. split; [|split; [|split; [|split] ] ].
    + intros ->. intros E0. apply Hwk. change (at_ 0%nat) with (m <| m_events := m_events m |>) in *.
      rewrite E. by rewrite (awaits_status _ _ _ _ Ha), E0.
    + apply (wp_pass_idle _ _ _ Hr); [|exact (aw_state _ _ _ _ Hak)].
      rewrite (awaits_status _ _ _ _ Hak). by destruct (_ =? 0).
    + destruct Hak as [Hok ? ? ? ? ? ?]. split; try assumption. by apply fw_ok_thread.
    + done.
    + exact (f_equal snd Hsk).
  - right. assert (k = S j) as ->.
    { destruct (decide (k = S j)) as [|Hne]; [done|]. exfalso. apply Hwl, Hbefore. lia. }
    assert (Z.land (wake_status (at_ (S j))) LIBRADIO_WAIT_RXINT <> 0) as Hst.
    { unfold wake_status. rewrite Hirq'. cbn [Z.eqb negb Pos.eqb]. destruct (negb _), (bool_decide _); done. }
    assert (fw_ok ((at_ (S j)) <| m_thread_ok := 0 |>)) as Hok.
    { apply fw_ok_thread, fw_ok_absorbs;
        [apply Forall_take, (aw_ok _ _ _ _ Ha)|apply Forall_drop, (aw_ok _ _ _ _ Ha)|apply (aw_ok _ _ _ _ Ha)]. }
    assert (m_radio (at_ (S j)) = m_radio (at_ j) /\ m_dev (at_ (S j)) = m_dev (at_ j)) as [Er Ed].
    { rewrite Elast. unfold absorb. rewrite (aw_enabled _ _ _ _ Haj). by split. }
    eapply wp_mono.
    { apply (wp_pass_woken t p _ _ _ Hr Hst Hok Hp Ht Hl Hc).
      change (frame_waiting (tx_frame (seal t p)) (m_dev (at_ (S j)))). rewrite Ed. exact (aw_frame _ _ _ _ Haj). }
    cbv beta. intros _ m' [Hm' Hto]. split; [exact Hm'|]. eexists. split; [|exact Hto].
    change (m_radio ((at_ (S j)) <| m_thread_ok := 0 |>)) with (m_radio (at_ (S j))). rewrite Er, unclocked_delay.
    exact (f_equal snd Hsj).
Qed.

(** A tick that has not been waited for yet ends a pass at once. *)
Definition pending m : nat := if m_thread_ok m =? 0 then 0 else 1.

Lemma client_hears t p j rest m (i : Z) :
  packet_ok p -> is_u16 t -> p_len p <= 10 -> record_command (p_cmd p) = true ->
  awaits (tx_frame (seal t p)) j rest m ->
  exists n, (n <= j + (1 + pending m))%nat /\
  wp (for_loop n i (fun _ => libradio_rxloop)) (fun _ m' => fw_ok m' /\
    exists l, unclocked l = unclocked (m_radio m) /\
      told (m_radio m') = told (loop_next (obeyed t p l))) m.
Proof.
  intros Hp Ht Hl Hc. remember (2 * j + pending m)%nat as x eqn:Ex.
  revert j m i Ex. induction x as [x IH] using lt_wf_ind. intros j m i -> Ha.
  destruct (awaits_pass t p j rest m Hp Ht Hl Hc Ha) as [(k&m1&Hk&Hk0&Hrun&Ha1&Hok1&Hu)|Hw].
  - assert (pending m1 = 0%nat) as Hp1 by (unfold pending; by rewrite Hok1).
    assert (forall k, (k = 0%nat -> m_thread_ok m <> 0) -> (0 < k + pending m)%nat) as Hpk.
    { intros k0 Hk1. unfold pending. destruct (Z.eqb_spec (m_thread_ok m) 0); [|lia]. destruct k0; [by destruct Hk1|lia]. }
    destruct (IH (2 * (j - k) + pending m1)%nat) with (j := (j - k)%nat) (m := m1) (i := i + 1)
      as (n&Hn&Hwn); [|done|done|].
    { rewrite Hp1. pose proof (Hpk k Hk0). lia. }
    exists (S n). split.
    { rewrite Hp1 in Hn. pose proof (Hpk k Hk0). lia. }
    cbn [for_loop]. rewrite (wp_bind_run _ _ _ _ _ _ Hrun), <- Hu. exact Hwn.
  - exists 1%nat. split; [lia|]. cbn [for_loop]. rewrite wp_bind.
    eapply wp_mono; [exact Hw|]. cbv beta. intros _ m' Hm'. by rewrite wp_ret.
Qed.
End pass.

(** ** A client that sleeps *)

Section sleeping.
Context {D X : Type} `{Platform D} `{StockPower D X, !AppInv X} `{Patience}.
Implicit Types m : machine D X.





End sleeping.

(** ** An activation *)

Lemma active_saw l : r_saw_rx (state_set LIBRADIO_STATE_ACTIVE l) = r_saw_rx l.
Proof. unfold state_set. destruct l. destruct (negb _ && _); reflexivity. Qed.

Lemma loop_next_traffic l :
  r_state l = LIBRADIO_STATE_ACTIVE -> r_saw_rx l = 1 ->
  loop_next l = l <| r_timeout := 59999 |> <| r_saw_rx := 0 |>.
Proof.
  intros Hs Hw. rewrite loop_next_cases. unfold asleep. rewrite Hs, Hw.
  change (LIBRADIO_STATE_ACTIVE =? LIBRADIO_STATE_ERROR) with false.
  change (LIBRADIO_STATE_ACTIVE =? LIBRADIO_STATE_LISTEN) with false.
  change ((LIBRADIO_STATE_ACTIVE =? LIBRADIO_STATE_STARTUP)
    || ((LIBRADIO_STATE_ACTIVE =? LIBRADIO_STATE_COLD) || (LIBRADIO_STATE_ACTIVE =? LIBRADIO_STATE_WARM))) with false.
  destruct l. reflexivity.
Qed.

(** The client that is meant. *)
Lemma meant_activated t p c node c1 c2 n1 n2 l :
  packet_ok p -> identified c1 c2 n1 n2 l ->
  let l' := loop_next (obeyed t (read_packet 0 RADIO_CMD_ACTIVATE [c; node; c1; c2; n1; n2] p) l) in
  r_state l' = LIBRADIO_STATE_ACTIVE /\ r_my_channel l' = c /\ r_my_node_id l' = node /\
  r_ms_ticks l' = t /\ r_timeout l' = 59999.
Proof.
  intros Hp Hid. destruct (obeyed_activation t p c node c1 c2 n1 n2 l Hp Hid) as (E1&E2&E3&E4).
  set (q := read_packet 0 RADIO_CMD_ACTIVATE [c; node; c1; c2; n1; n2] p) in *.
  assert (r_saw_rx (obeyed t q l) = 1) as Hw.
  { unfold obeyed, command_record. change (p_cmd q =? RADIO_CMD_ACTIVATE) with true.
    change (addressed q l) with true. cbv iota zeta. destruct (_ && _); [|reflexivity]. by rewrite active_saw. }
  cbv zeta. rewrite loop_next_traffic by assumption. upd_simpl. by split_and!.
Qed.

(** Any other client that listens goes on listening. *)
Lemma others_listen t p c node c1 c2 n1 n2 l :
  packet_ok p -> ~ identified c1 c2 n1 n2 l -> r_state l = LIBRADIO_STATE_LISTEN ->
  let l' := loop_next (obeyed t (read_packet 0 RADIO_CMD_ACTIVATE [c; node; c1; c2; n1; n2] p) l) in
  r_state l' = LIBRADIO_STATE_LISTEN /\ r_my_channel l' = r_my_channel l /\ r_my_node_id l' = r_my_node_id l.
Proof.
  intros Hp Hid Hs. pose proof (ok_size _ Hp) as Hd.
  destruct p as [k nn cm len x d]. cbn in Hd. do 6 (destruct d as [|? d]; [done|]). clear Hd Hp.
  match goal with |- context [obeyed t ?p l] => set (q := p) end.
  assert (obeyed t q l = heard t q l) as ->.
  { transitivity (if (c1 =? r_cat1 l) && (c2 =? r_cat2 l) && (n1 =? r_num1 l) && (n2 =? r_num2 l)
      then state_set LIBRADIO_STATE_ACTIVE (heard t q l <| r_my_channel := c |> <| r_my_node_id := node |>)
      else heard t q l); [reflexivity|].
    destruct (_ && _) eqn:E; [|reflexivity]. exfalso. apply Hid. unfold identified. lia. }
  cbv zeta. rewrite loop_next_cases. unfold asleep. change (r_state (heard t q l)) with (r_state l). rewrite Hs.
  split; [exact Hs|split; reflexivity].
Qed.

(** What has become of the record [l0] of a listening client, as far as [told] tells. *)
Lemma joined t p c node c1 c2 n1 n2 l l0 l' :
  packet_ok p -> unclocked l = unclocked l0 ->
  told l' = told (loop_next (obeyed t (read_packet 0 RADIO_CMD_ACTIVATE [c; node; c1; c2; n1; n2] p) l)) ->
  r_state l0 = LIBRADIO_STATE_LISTEN ->
  (identified c1 c2 n1 n2 l0 ->
     r_state l' = LIBRADIO_STATE_ACTIVE /\ r_my_channel l' = c /\ r_my_node_id l' = node /\
     r_ms_ticks l' = t /\ r_timeout l' = 59999) /\
  (~ identified c1 c2 n1 n2 l0 ->
     r_state l' = LIBRADIO_STATE_LISTEN /\ r_my_channel l' = r_my_channel l0 /\
     r_my_node_id l' = r_my_node_id l0).
Proof.
  intros Hp Hu Hto Hl.
  assert (r_cat1 l = r_cat1 l0 /\ r_cat2 l = r_cat2 l0 /\ r_num1 l = r_num1 l0 /\ r_num2 l = r_num2 l0 /\
    r_state l = r_state l0 /\ r_my_channel l = r_my_channel l0 /\ r_my_node_id l = r_my_node_id l0)
    as (E1&E2&E3&E4&E5&E6&E7).
  { split_and!; match goal with |- ?f _ = _ => apply (f_equal f) in Hu; exact Hu end. }
  unfold identified. rewrite <- E1, <- E2, <- E3, <- E4, <- E6, <- E7. rewrite <- E5 in Hl. clear Hu E1 E2 E3 E4 E5 E6 E7.
  split; intros Hi.
  - destruct (meant_activated t p c node c1 c2 n1 n2 l Hp Hi) as (E1&E2&E3&E4&E5).
    revert Hto E1 E2 E3 E4 E5. generalize (loop_next (obeyed t (read_packet 0 RADIO_CMD_ACTIVATE [c; node; c1; c2; n1; n2] p) l)).
    intros lo Hto <- <- <- <- <-.
    split_and!; match goal with |- ?f _ = _ => apply (f_equal f) in Hto; exact Hto end.
  - destruct (others_listen t p c node c1 c2 n1 n2 l Hp Hi Hl) as (E1&E2&E3).
    revert Hto E1 E2 E3. generalize (loop_next (obeyed t (read_packet 0 RADIO_CMD_ACTIVATE [c; node; c1; c2; n1; n2] p) l)).
    intros lo Hto <- <- <-.
    split_and!; match goal with |- ?f _ = _ => apply (f_equal f) in Hto; exact Hto end.
Qed.

(** ** Properties *)

Section over_air.
Context {D1 D2 X1 X2 : Type} `{Platform D1} `{Platform D2}.
Context `{StockPower D2 X2, !AppInv X2} `{Patience}.
Implicit Types (m : machine D1 X1) (n : machine D2 X2).


End over_air.

Section activation.
Context {P D D2 X : Type} `{Platform P} `{System D} `{Platform D2}.
Context `{StockPower D2 X, !AppInv X} `{Patience}.
Implicit Types (m : machine P control) (h : host D) (n : machine D2 X).

(** [C9] A client is activated end to end: the line in which the daemon asks for it is
    read by an active controller and queued on channel 0 with a priority, for the
    transmit queues to send; when the controller, then or later, transmits that
    packet, it is sixteen bytes in the FIFO of its radio; and of the clients that run
    their main loop in the LISTEN state, their radios reporting those bytes after some
    ticks of their clocks, the one with the category and number of the line is ACTIVE
    soon after, with the channel, the node and the clock it has been given and ten
    minutes to hear the next packet in, while the others go on listening as before. *)
Theorem client_joins (c node c1 c2 n1 n2 : Z) h :
  bytes [c; node; c1; c2; n1; n2] ->
  safe (client_activate [c; node; c1; c2; n1; n2] 6) (fun _ h' =>
    exists text, h_sent h' = h_sent h ++ text ++ [13; 10] /\
    forall m q, fw_ok m -> r_state (m_radio m) = LIBRADIO_STATE_ACTIVE -> r_my_node_id (m_radio m) <> 0 ->
      k_state (m_app m) = IO_STATE_NEWLINE -> c_state (chan_of 0 (m_app m)) <= LIBRADIO_CHSTATE_EMPTY ->
      m_iqueue m = text ++ q ->
      exists m1, process_inputs (length text) m = Done tt m1 /\ fw_ok m1 /\ m_iqueue m1 = q /\
      c_state (chan_of 0 (m_app m1)) = LIBRADIO_CHSTATE_TRANSMIT /\ 0 < c_priority (chan_of 0 (m_app m1)) /\
      forall m2, fw_ok m2 -> c_packet (chan_of 0 (m_app m2)) = c_packet (chan_of 0 (m_app m1)) ->
      exists frame, length frame = 16%nat /\
      wp (libradio_txpacket (chan_ref 0)) (fun v m3 => v = 1 /\
        m_dev m3 = (selected (SI4463_WRITE_TX_FIFO :: frame) (m_dev m2)).2) m2 /\
      forall n j rest, awaits frame j rest n ->
        exists k, (k <= j + 2)%nat /\
        wp (for_loop k 0 (fun _ => libradio_rxloop)) (fun _ n' => fw_ok n' /\
          let l := m_radio n in let l' := m_radio n' in
          (identified c1 c2 n1 n2 l ->
             r_state l' = LIBRADIO_STATE_ACTIVE /\ r_my_channel l' = c /\ r_my_node_id l' = node /\
             r_ms_ticks l' = r_ms_ticks (m_radio m2) /\ r_timeout l' = 59999) /\
          (~ identified c1 c2 n1 n2 l ->
             r_state l' = LIBRADIO_STATE_LISTEN /\ r_my_channel l' = r_my_channel l /\
             r_my_node_id l' = r_my_node_id l)) n) h.
Proof.
  intros Hb. eapply safe_mono; [by apply (activation_queued (P := P) c node c1 c2 n1 n2 h)|].
  intros ? h' (text&Hsent&Hread). exists text. split; [exact Hsent|].
  intros m q Hm Ha Hme Hs He Hq.
  destruct (Hread m q Hm Ha Hme Hs He Hq) as (m1&Hrun&Hm1&Hq1&Hst&Hpr&p0&Hp&Hc).
  exists m1. split; [exact Hrun|]. split; [exact Hm1|]. split; [exact Hq1|]. split; [exact Hst|]. split; [exact Hpr|].
  intros m2 Hm2 Hpk. rewrite Hc in Hpk. 
  set (p := read_packet 0 RADIO_CMD_ACTIVATE [c; node; c1; c2; n1; n2] p0) in *.
  set (t := r_ms_ticks (m_radio m2)).
  assert (is_u16 t) as Ht by by apply field_get, fw_radio.
  assert (packet_ok p) as Hpp by (rewrite <- Hpk; apply (ok_packet _ (chan_of_ok 0 _ (fw_app m2 Hm2)))).
  assert (p_len p = 6) as Hlen by reflexivity.
  exists (tx_frame (seal t p)). split.
  { apply tx_frame_length; [apply seal_ok; [exact Hpp|exact Ht|lia]|]. change (p_len p <= 10). lia. }
  split.
  { pose proof (wp_tx_frame (chan_ref 0) m2) as Htx.
    change (ch_get (chan_ref 0) m2) with (chan_of 0 (m_app m2)) in Htx. rewrite Hpk in Htx.
    apply Htx; [apply chan_ref_lawful; lia|lia]. }
  intros n j rest Hn. destruct (client_hears t p j rest n 0 Hpp Ht ltac:(lia) eq_refl Hn) as (k&Hk&Hw).
  exists k. split; [unfold pending in Hk; destruct (_ =? 0); lia|].
  eapply wp_mono; [exact Hw|]. cbv beta. intros _ n' [Hn' (l&Hu&Hto)]. split; [exact Hn'|].
  exact (joined t p0 c node c1 c2 n1 n2 l _ _ Hp Hu Hto (aw_state _ _ _ _ Hn)).
Qed.
End activation.

(** ** Instances of the properties *)

#[local] Existing Instance bench_app.
#[local] Existing Instance bench_inv.
#[local] Existing Instance bench_stock.
#[local] Instance air_patience : Patience := 10%nat.

(** A client that listens, two ticks before the frame [f] reaches it. *)
Definition air_listener (f : list Z) : machine (list Z) unit :=
  (bench_machine (air_script f) [Tick; Tick; RadioIrq])
    <| m_radio ::= fun l => l <| r_state := LIBRADIO_STATE_LISTEN |> |> <| m_eimsk := 1 |>.

Lemma fw_ok_eimsk {D X} `{AppInv X} v (m : machine D X) :
  is_u8 v -> fw_ok m -> fw_ok (m <| m_eimsk := v |>).
Proof. intros Hv []. split; try done. flags. Qed.

Lemma air_listener_awaits f : length f = 16%nat -> awaits f 2 [] (air_listener f).
Proof.
  intros Hf. assert (fw_ok (bench_machine (air_script f) [Tick; Tick; RadioIrq])) as Hm
    by (apply bench_machine_ok; repeat constructor; done).
  pose proof (fw_radio _ Hm) as Hl. pose proof (fw_periods _ Hm) as Hp.
  assert (fw_ok ((bench_machine (air_script f) [Tick; Tick; RadioIrq])
    <| m_radio ::= fun l => l <| r_state := LIBRADIO_STATE_LISTEN |> |>)) as Hm1.
  { apply fw_ok_radio; [exact Hm|..]; revert Hl Hp;
      generalize (m_radio (bench_machine (air_script f) [Tick; Tick; RadioIrq])); intros l Hl Hp;
      [apply field_put; [exact Hl|done]|].
    clear Hm. destruct Hp. split; assumption. }
  split; [|reflexivity..|by apply air_script_waiting].
  by apply fw_ok_eimsk.
Qed.




Lemma client_joins_witness :
  exists h' m1 frame k,
    client_activate [3; 9; 0; 0; 0; 0] 6 bench_daemon = Done tt h' /\ h_sent h' = activation_line ++ [13; 10] /\
    process_inputs (length activation_line) (bench_control bench_objects activation_line) = Done tt m1 /\
    (k <= 4)%nat /\
    wp (for_loop k 0 (fun _ => libradio_rxloop)) (fun _ n' => r_state (m_radio n') = LIBRADIO_STATE_ACTIVE /\
      r_my_channel (m_radio n') = 3 /\ r_my_node_id (m_radio n') = 9) (air_listener frame).
Proof.
  assert (bytes [3; 9; 0; 0; 0; 0]) as Hb by bytes_cons.
  pose proof (client_joins (P := list Z) (D2 := list Z) (X := unit) 3 9 0 0 0 0 bench_daemon Hb) as Hs.
  set (h' := bench_daemon <| h_sent := activation_line ++ [13; 10] |>).
  assert (client_activate [3; 9; 0; 0; 0; 0] 6 bench_daemon = Done tt h') as E by (vm_compute; reflexivity).
  unfold safe in Hs. rewrite E in Hs. destruct Hs as (text&Ht&Hall).
  assert (text = activation_line) as ->.
  { change (activation_line ++ [13; 10] = text ++ [13; 10]) in Ht. by apply app_inv_tail in Ht. }
  destruct (Hall (bench_control bench_objects activation_line) []) as (m1&Hrun&Hm1&_&_&_&Htx);
    [apply bench_control_ok; [apply bench_objects_ok|unfold activation_line; by bytes_cons]|done|done|done|done|
     by rewrite app_nil_r|].
  destruct (Htx m1 Hm1 eq_refl) as (frame&Hlen&_&Hrx).
  destruct (Hrx (air_listener frame) 2%nat [] (air_listener_awaits frame Hlen)) as (k&Hk&Hw).
  exists h', m1, frame, k. split; [exact E|]. split; [reflexivity|]. split; [exact Hrun|]. split; [exact Hk|].
  eapply wp_mono; [exact Hw|]. intros _ n' (_&Hj&_).
  destruct Hj as (H1&H2&H3&_); [repeat split; reflexivity|]. exact (conj H1 (conj H2 H3)).
Defined.
